(* ===== verification/_CoqProject ===== *)
-Q . S2P
Prelude.v
GoText.v
GoFmt.v
GoNet.v
GoTime.v
Api.v
Heap.v
DeepCopy.v
Lib.v
GoUrl.v
GoJson.v
Prog.v
Actions.v
Utils.v
Redfish.v
HostController.v
MachineController.v
GofishClient.v
MockClient.v
Inspection.v
ReportJson.v
Server.v
ClusterController.v
Metrics.v
Manager.v
Lifecycle.v
System.v
Memory.v
Provision.v
Queue.v
QueueProgress.v
Webhook.v
Rbac.v
Tls.v
Monitor.v
