(* ===== verification/Prelude.v ===== *)
(** * Beskar7 in Rocq: root file and prelude

    Beskar7 is a Cluster API infrastructure provider for bare metal.  It keeps
    three kinds of objects in a Kubernetes API server.  A PhysicalHost stands
    for a server with its baseboard management controller (BMC), which speaks
    Redfish; a Beskar7Machine stands for the use of a host by a cluster; a
    Beskar7Cluster holds the control plane endpoint and the failure domains.
    Three reconcilers move these objects on, an HTTP endpoint takes in the
    hardware reports of the inspection image, and a webhook guards clusters.
    This library is a shallow embedding of that program (Go, under src/) with
    the theorems that make it correct.  This comment describes all of it; the
    rest of the file is the prelude.

    ** How code becomes definitions

    Pure functions are functions, named as in the source; a handler that is
    called like another one carries the name of its component in front
    ([host_Reconcile], [machine_Reconcile], [cluster_Reconcile]).  Structs are
    records, whose fields carry a short prefix; pointers are options.  [int] and
    durations are [Z], with wrap-around written out where sums can overflow
    ([add64]); instants are nanoseconds.  Strings are byte strings, and the
    places where Go decodes them into runes do so here.

    Code with effects is a program over a signature of calls (Prog.v): data that
    says which call comes next for every answer of the previous one.  The same
    definition is executed in a concrete world ([run]), reasoned about for all
    answers ([wp], [post]: a predicate on the calls made and the result),
    implemented over another signature ([interp]) and interleaved with others,
    one call per step (System.v).  Errors and panics are results.  All programs
    are trees without loops of unbounded length, so every reconciliation
    terminates by construction.  The wait and worker loops of the queue, with its
    [Stop], are a transition relation.  Fuel is used in two
    places.  The JSON parser is given fuel computed from the length of its
    input, which [parse_total] shows to be enough on every input.  The endless
    loop of the security monitor takes the number of rounds it may run, and
    [monitoring_loop] shows that it has not returned only after that many ticks.

    Third-party code is a parameter.  Its pure functions are fields of the class
    [Lib] (Lib.v), its effects are calls; what is relied on are the laws
    [LibLaws] and [ServerLaws], and [ref_lib] and the server of Memory.v show
    that these can hold; [Cooperative] (Provision.v) says what progress needs of
    the environment.  Go's own library is modelled.

    ** Files

    Go: GoText (runes, strings, Sscanf), GoFmt (durations, %q, ToLower), GoNet
    (ParseIP, ParseCIDR, printing of addresses), GoTime (RFC 3339 dates), GoUrl
    (net/url), GoJson (decoding of encoding/json), Heap (memory with pointers,
    slices and maps).

    Framework: Prog (programs, their logic and tactics), Lib (library functions
    and laws), Actions (the calls of the controllers; the discipline that every
    Redfish client is closed).

    Components:
    - Api: api/v1beta1/*_types.go, the three resources;
    - Utils: controllers/utils.go;
    - HostController: controllers/physicalhost_controller.go;
    - MachineController: controllers/beskar7machine_controller.go;
    - ClusterController: controllers/beskar7cluster_controller.go;
    - DeepCopy: the copy functions of api/v1beta1, generated and hand-written;
    - Inspection: controllers/inspection_handler.go, the handler; ReportJson: its
      request type and the decoding of the body; Server: the routes of the HTTP
      server around it and the two functions that run it and shut it down;
    - Redfish: internal/redfish/client.go, private address ranges;
    - GofishClient, MockClient: internal/redfish/gofish_client.go and
      mock_client.go, two implementations of the Redfish calls of Actions;
    - Queue: internal/coordination/provisioning_queue.go, with the channel and the
      counter that Stop uses; QueueProgress: its progress, and how it stops;
    - Webhook: api/v1beta1/webhooks/beskar7cluster_webhook.go;
    - Metrics: internal/metrics/metrics.go;
    - Rbac, Tls, Monitor: internal/security; Rbac also has the RBAC markers of the
      controllers;
    - Manager: cmd/manager/main.go, the scheme and the watches.

    The system: Lifecycle (the abstract life of a host and the proof that each
    controller respects it), System (the three controllers, the watch mappings and
    the report endpoint at once, against a server with optimistic concurrency that
    stores instants in whole seconds, with crashes and with users who edit hosts
    and may clear their consumer), Memory (such a server, and the run of a host
    through its whole life that the theorems are applied to), Provision (the runs
    that take a free host and a new machine to a provisioned machine).

    ** What the theorems show

    The system.  Every step of the running system is a step of the abstract
    lifecycle ([system_refines_lifecycle]); from this, in every reachable state,
    stored hosts are well formed, a claim is taken only of a free Available
    host and given up only for a machine that is being deleted or by a user, a
    host becomes Ready only with a report that meets a machine's requirements, and
    is put under inspection only after the BMC at its address has been told to
    boot from the network; each time the reconciliation whose call it is has read
    what it must know.  Where the environment answers and the reconcilers have a
    client factory, provisioning also gets there: a machine claims a free host,
    and once an operator has set its provider ID, trigger, report, validation and
    a last reconciliation end with the machine provisioned
    ([provisioning_completes]).  These runs follow one another; that a scheduler
    gets round to them is not part of the theorem.

    The controllers.  The outcome of each handler on each branch; finalizers
    before effects and after releases; pausing; the patch that always happens,
    also after a panic; the hardware check; provider IDs; failure domains and
    the endpoint; the report endpoint on each answer it can give; which change of
    which object sets off which reconciliation.

    The report.  A body is decoded exactly if it has the shape of a request,
    written out key by key; what is decoded is well typed, and a report written as
    JSON arrives whole on the host.  The server routes requests to the handler by
    their cleaned path.

    Memory.  Copies of hosts and machines are independent of their originals,
    but for what the code leaves shared, which is named exactly.

    The BMC.  Carried down to the calls of the Redfish library, a reconciliation
    of a host only reads, one of a machine only ever asks for network boot and
    power on, and both end every connection they open.  On the mock client, a
    trigger has the effect it is meant to have.

    The queue.  Requests are neither lost nor handed out twice, limits hold, and
    operations stay within the concurrency limit as long as no host is given a
    second operation; a lemma shows the limit exceeded where one is.  No request
    starves.  Once [stopCh] is closed the steps of the workers are bounded, none of
    them is stuck, and [Stop] returns exactly when the last one has ended.

    Text and security.  The hostname check accepts the usual grammar, clusters
    are admitted exactly under the stated rules, private ranges are the five of
    the code; metrics are written with their labels in order; the RBAC findings,
    the TLS verdict and the totals and events of a scan are exactly those the
    inputs call for; the monitor scans once per tick until it is stopped.

    Where modelling showed the code to do something its comments or callers do
    not expect, a lemma says so: [unset_provider_makes_no_progress],
    [main_wiring_never_connects], [release_ignores_namespace],
    [duplicate_requests_exceed_limit],
    [failed_reconciliation_counted_as_success], [host_port_taken_as_scheme],
    [every_role_is_valid], [read_only_recommendation_flagged],
    [copy_shares_flag], [cluster_markers_cannot_watch].

    ** What is not modelled

    Logging, with the helpers that only feed it ([getFailureDomainKeys]), and
    the parsing of the command line have no effect on the objects.  The wording
    of JSON errors is an argument of the decoder, their cause is modelled.  Of
    the HTTP server, connections, headers, the timeouts and what [Shutdown] does
    belong to net/http, below the handlers.  What the API server permits by RBAC is
    not modelled: the markers are, as the rules they are written as.  The emulated Redfish server under
    test/emulation is test support.  Liveness of the whole system under a fair
    scheduler, with crashes and other writers, is not stated:
    [provisioning_completes] is about runs that follow one another. *)

From stdpp Require Export base gmap list strings pretty fin_maps.
From Stdlib Require Export ZArith Lia.
From Stdlib Require Import Ascii.

#[global] Open Scope Z_scope.

(** ** Go integers: [int] and [time.Duration] are 64 bits wide *)

Definition int64_min : Z := - 2 ^ 63.
Definition int64_max : Z := 2 ^ 63 - 1.

(** Two's complement wrap-around of a 64-bit signed result. *)
Definition wrap64 (z : Z) : Z := (z + 2 ^ 63) mod 2 ^ 64 - 2 ^ 63.

(** [a += b] on Go's [int]. *)
Definition add64 (a b : Z) : Z := wrap64 (a + b).

(** Durations are nanosecond counts; an instant ([time.Time], [metav1.Time])
    is a nanosecond count from a fixed origin. *)
Definition Millisecond : Z := 1000000.
Definition Second : Z := 1000 * Millisecond.
Definition Minute : Z := 60 * Second.
Definition Hour : Z := 60 * Minute.

(** [t.Sub(u)]: the difference, saturated at the ends of [Duration]. *)
Definition time_sub (t u : Z) : Z := Z.max int64_min (Z.min int64_max (t - u)).

(** ** Errors *)

(** The reason field of a Kubernetes API status error. *)
Inductive StatusReason :=
| ReasonNotFound | ReasonConflict | ReasonAlreadyExists | ReasonInvalid | ReasonOther.

(** A Go error value: a Kubernetes status error, a leaf built by [errors.New]
    or [fmt.Errorf], or a wrapping [prefix: cause] built with the [%w] verb or
    with [errors.Wrap]. *)
Inductive error :=
| ErrStatus (reason : StatusReason) (msg : string)
| ErrNew (msg : string)
| ErrWrap (prefix : string) (cause : error).

(** The [Error] method. *)
Fixpoint Error (e : error) : string :=
  match e with
  | ErrStatus _ m => m
  | ErrNew m => m
  | ErrWrap p c => p +:+ ": " +:+ Error c
  end.

(** [apierrors.IsNotFound]: the reason of the first status error of the chain. *)
Fixpoint IsNotFound (e : error) : bool :=
  match e with
  | ErrStatus ReasonNotFound _ => true
  | ErrStatus _ _ => false
  | ErrNew _ => false
  | ErrWrap _ c => IsNotFound c
  end.

(** What a Go call of type [(T, error)] gives back, when a nil error comes with
    a value and a non-nil one does not. *)
Inductive result (A : Type) :=
| Ok (a : A)
| Err (e : error).
Arguments Ok {A} a.
Arguments Err {A} e.

#[export] Instance StatusReason_eq_dec : EqDecision StatusReason.
Proof. solve_decision. Defined.
#[export] Instance error_eq_dec : EqDecision error.
Proof. solve_decision. Defined.

Definition is_ok {A} (r : result A) : bool :=
  match r with Ok _ => true | Err _ => false end.

(** ** Notations and automation *)

Declare Scope go_scope.
Delimit Scope go_scope with go.
(** Go's [==] on strings. *)
Notation "a ==s b" := (String.eqb a b) (at level 70) : go_scope.
#[global] Open Scope go_scope.

Create HintDb go discriminated.
Create Rewrite HintDb bools.

Lemma wrap64_small z : int64_min <= z <= int64_max -> wrap64 z = z.
Proof. unfold wrap64, int64_min, int64_max. intros. rewrite Z.mod_small; lia. Qed.

Lemma wrap64_range z : int64_min <= wrap64 z <= int64_max.
Proof.
  unfold wrap64, int64_min, int64_max.
  pose proof (Z.mod_pos_bound (z + 2 ^ 63) (2 ^ 64)). lia.
Qed.

Lemma add64_small a b : int64_min <= a + b <= int64_max -> add64 a b = a + b.
Proof. apply wrap64_small. Qed.

Lemma time_sub_small t u : int64_min <= t - u <= int64_max -> time_sub t u = t - u.
Proof. unfold time_sub. lia. Qed.

Lemma eqb_true (a b : string) : (a ==s b) = true <-> a = b.
Proof. apply String.eqb_eq. Qed.
Lemma eqb_false (a b : string) : (a ==s b) = false <-> a <> b.
Proof. apply String.eqb_neq. Qed.
Lemma eqb_refl (a : string) : (a ==s a) = true.
Proof. apply String.eqb_refl. Qed.

#[export] Hint Rewrite eqb_true eqb_false andb_true_iff andb_false_iff orb_true_iff
  orb_false_iff negb_true_iff negb_false_iff Z.ltb_lt Z.ltb_ge Z.leb_le Z.leb_gt
  Z.eqb_eq Z.eqb_neq Z.gtb_lt Z.geb_le Nat.eqb_eq Nat.eqb_neq Nat.leb_le Nat.leb_gt
  Nat.ltb_lt Nat.ltb_ge : bools.

(** Turns boolean tests among the hypotheses and in the goal into propositions. *)
Ltac reflect := autorewrite with bools in *.

(** Answers of type [unit] carry nothing. *)
Ltac destruct_units := repeat match goal with u : unit |- _ => destruct u end.

(** Case analysis on the innermost scrutinee of the goal, keeping its equation. *)
Ltac split_goal :=
  match goal with
  | |- context [match ?x with _ => _ end] =>
      lazymatch x with
      | context [match _ with _ => _ end] => fail
      | _ => destruct x eqn:?
      end
  end.
(** The same on the hypothesis [H]. *)
Ltac split_hyp H :=
  match type of H with
  | context [match ?x with _ => _ end] =>
      lazymatch x with
      | context [match _ with _ => _ end] => fail
      | _ => destruct x eqn:?
      end
  end.

(** ** Strings as byte sequences *)

Definition byte (c : ascii) : Z := Z.of_N (N_of_ascii c).

Fixpoint bytes (s : string) : list Z :=
  match s with
  | "" => []
  | String c s' => byte c :: bytes s'
  end.

(** [len(s)] *)
Definition len (s : string) : nat := String.length s.

(** [s[:n]] and [s[n:]], for [n <= len(s)]. *)
Fixpoint str_take (n : nat) (s : string) : string :=
  match n, s with
  | S n', String c s' => String c (str_take n' s')
  | _, _ => ""
  end.
Fixpoint str_drop (n : nat) (s : string) : string :=
  match n, s with
  | S n', String c s' => str_drop n' s'
  | _, _ => s
  end.

Lemma byte_range c : 0 <= byte c < 256.
Proof. unfold byte. pose proof (N_ascii_bounded c). lia. Qed.

Lemma byte_inj c d : byte c = byte d -> c = d.
Proof.
  unfold byte. intros H%N2Z.inj. rewrite <- (ascii_N_embedding c), <- (ascii_N_embedding d).
  by rewrite H.
Qed.

Lemma bytes_length s : length (bytes s) = len s.
Proof. induction s; simpl; congruence. Qed.

Lemma bytes_app s t : bytes (s +:+ t) = (bytes s ++ bytes t)%list.
Proof. induction s; simpl; [done|]. by rewrite IHs. Qed.

Lemma len_app s t : len (s +:+ t) = (len s + len t)%nat.
Proof. rewrite <- !bytes_length, bytes_app. apply length_app. Qed.

Lemma str_take_app s t : str_take (len s) (s +:+ t) = s.
Proof. induction s; simpl; [by destruct t|]. by rewrite IHs. Qed.
Lemma str_drop_app s t : str_drop (len s) (s +:+ t) = t.
Proof. induction s; simpl; [by destruct t|]. done. Qed.
Lemma str_drop_app_S s c t : str_drop (S (len s)) (s +:+ String c t) = t.
Proof. induction s; simpl; [by destruct t|]. done. Qed.

Lemma bytes_range s b : b ∈ bytes s -> 0 <= b < 256.
Proof. induction s; simpl; intros [->|]%elem_of_cons || intros []%not_elem_of_nil; auto using byte_range. Qed.

Lemma str_app_nil_r s : s +:+ "" = s.
Proof. induction s; [done|]. change (String a (s +:+ "") = String a s). by rewrite IHs. Qed.

Lemma str_app_assoc s t u : (s +:+ t) +:+ u = s +:+ (t +:+ u).
Proof.
  induction s; [done|].
  change (String a ((s +:+ t) +:+ u) = String a (s +:+ (t +:+ u))). by rewrite IHs.
Qed.

Lemma str_take_drop n s : str_take n s +:+ str_drop n s = s.
Proof.
  revert s. induction n as [|n IH]; intros [|c s]; try done.
  change (String c (str_take n s +:+ str_drop n s) = String c s). by rewrite IH.
Qed.

Lemma bytes_take n s : bytes (str_take n s) = take n (bytes s).
Proof. revert s. induction n as [|n IH]; intros [|c s]; simpl; try done. by rewrite IH. Qed.

Lemma len_take n s : (n <= len s)%nat -> len (str_take n s) = n.
Proof. intros. rewrite <- bytes_length, bytes_take, length_take, bytes_length. lia. Qed.

(** A string around one of its bytes. *)
Lemma str_split_at k s c :
  bytes s !! k = Some (byte c) -> s = str_take k s +:+ String c (str_drop (S k) s).
Proof.
  revert k. induction s as [|d s IH]; intros [|k] H; try done; simpl in H.
  - injection H as H%byte_inj. by subst.
  - change (String d s = String d (str_take k s +:+ String c (str_drop (S k) s))). by rewrite <- IH.
Qed.
