(* ===== verification/GoText.v ===== *)
(** * The parts of Go's language and standard library that work on text

    [for i, c := range s] with its UTF-8 decoding, [strings.Split],
    [strings.Contains], [strings.Join] and [fmt.Sscanf] with the verb [%d].
    The lemmas show when the rune view and the byte view of a string agree. *)

From S2P Require Import Prelude.
From Stdlib Require Import Ascii.

(** ** UTF-8 decoding, as the [range] statement does it *)

Definition RuneError : Z := 65533.
Definition is_cont (b : Z) : bool := (128 <=? b) && (b <=? 191).

(** The accepted range of the second byte after the leading byte [b0]. *)
Definition second_ok (b0 b1 : Z) : bool :=
  if b0 =? 224 then (160 <=? b1) && (b1 <=? 191)
  else if b0 =? 237 then (128 <=? b1) && (b1 <=? 159)
  else if b0 =? 240 then (144 <=? b1) && (b1 <=? 191)
  else if b0 =? 244 then (128 <=? b1) && (b1 <=? 143)
  else is_cont b1.

(** The first rune of a non-empty byte sequence and its width: an invalid
    encoding is [RuneError] of width one. *)
Definition decode_rune (l : list Z) : Z * nat :=
  match l with
  | [] => (RuneError, 0%nat)
  | b0 :: l' =>
      if b0 <? 128 then (b0, 1%nat)
      else if (194 <=? b0) && (b0 <=? 223) then
        match l' with
        | b1 :: _ => if second_ok b0 b1 then ((b0 - 192) * 64 + (b1 - 128), 2%nat)
                     else (RuneError, 1%nat)
        | _ => (RuneError, 1%nat)
        end
      else if (224 <=? b0) && (b0 <=? 239) then
        match l' with
        | b1 :: b2 :: _ =>
            if second_ok b0 b1 && is_cont b2
            then ((b0 - 224) * 4096 + (b1 - 128) * 64 + (b2 - 128), 3%nat)
            else (RuneError, 1%nat)
        | _ => (RuneError, 1%nat)
        end
      else if (240 <=? b0) && (b0 <=? 244) then
        match l' with
        | b1 :: b2 :: b3 :: _ =>
            if second_ok b0 b1 && is_cont b2 && is_cont b3
            then ((b0 - 240) * 262144 + (b1 - 128) * 4096 + (b2 - 128) * 64 + (b3 - 128), 4%nat)
            else (RuneError, 1%nat)
        | _ => (RuneError, 1%nat)
        end
      else (RuneError, 1%nat)
  end.

(** The (index, rune) pairs of [for i, c := range s]; [skip] counts the bytes
    left of the rune decoded last. *)
Fixpoint range_from (i skip : nat) (l : list Z) : list (nat * Z) :=
  match l with
  | [] => []
  | _ :: l' =>
      match skip with
      | S k => range_from (S i) k l'
      | O => let '(r, w) := decode_rune l in (i, r) :: range_from (S i) (w - 1) l'
      end
  end.

Definition go_range (s : string) : list (nat * Z) := range_from 0 0 (bytes s).

(** ** Byte-level functions of package strings *)

(** [strings.Split(s, sep)] for a one-byte separator. *)
Fixpoint split_aux (sep : ascii) (acc s : string) : list string :=
  match s with
  | "" => [acc]
  | String c s' =>
      if Ascii.eqb c sep then acc :: split_aux sep "" s'
      else split_aux sep (acc +:+ String c "") s'
  end.
Definition Split (s : string) (sep : ascii) : list string := split_aux sep "" s.

(** [strings.Contains(s, sub)] *)
Fixpoint Contains (s sub : string) : bool :=
  String.prefix sub s ||
  match s with
  | "" => false
  | String _ s' => Contains s' sub
  end.

(** [strings.Join(l, sep)] *)
Fixpoint Join (l : list string) (sep : string) : string :=
  match l with
  | [] => ""
  | [x] => x
  | x :: l' => x +:+ sep +:+ Join l' sep
  end.

(** ** [fmt.Sscanf(s, "%d", &n)] on a 64-bit [int] *)

(** The space characters of package fmt. *)
Definition is_space (r : Z) : bool :=
  ((9 <=? r) && (r <=? 13)) || (r =? 32) || (r =? 133) || (r =? 160) || (r =? 5760)
  || ((8192 <=? r) && (r <=? 8202)) || (r =? 8232) || (r =? 8233) || (r =? 8239)
  || (r =? 8287) || (r =? 12288).

Definition is_digit (r : Z) : bool := (48 <=? r) && (r <=? 57).

(** [SkipSpace] of a scan that does not treat newlines as space: [None] is the
    error "unexpected newline". *)
Fixpoint skip_space (l : list Z) : option (list Z) :=
  match l with
  | [] => Some []
  | r :: l' => if r =? 10 then None else if is_space r then skip_space l' else Some l
  end.

Fixpoint take_digits (l : list Z) : list Z :=
  match l with
  | r :: l' => if is_digit r then r :: take_digits l' else []
  | [] => []
  end.

Definition digits_value (l : list Z) : Z := fold_left (fun acc r => acc * 10 + (r - 48)) l 0.

Definition runes (s : string) : list Z := (go_range s).*2.

(** [None] stands for any scan error; [Some n] stores [n]. *)
Definition Sscanf_d (s : string) : option Z :=
  match skip_space (runes s) with
  | None => None
  | Some l =>
      let '(neg, l1) := match l with
                        | r :: l' => if r =? 43 then (false, l') else if r =? 45 then (true, l') else (false, l)
                        | [] => (false, [])
                        end in
      match take_digits l1 with
      | [] => None
      | ds => let v := if neg : bool then - digits_value ds else digits_value ds in
              if (int64_min <=? v) && (v <=? int64_max) then Some v else None
      end
  end.

Example Sscanf_32GB : Sscanf_d "32GB" = Some 32. Proof. reflexivity. Qed.
Example Sscanf_GB : Sscanf_d "GB" = None. Proof. reflexivity. Qed.
Example Sscanf_sp : Sscanf_d " -7 GB" = Some (-7). Proof. reflexivity. Qed.
Example Split_ex : Split "a..b" "." = ["a"; ""; "b"]. Proof. reflexivity. Qed.
Example Contains_ex : Contains "my-bmc-1" "bmc" = true. Proof. reflexivity. Qed.

(** ** Rune view and byte view *)

Definition is_byte (b : Z) : Prop := 0 <= b < 256.

Lemma bytes_is_byte s : Forall is_byte (bytes s).
Proof. apply Forall_forall. intros. by eapply bytes_range. Qed.

(** One decoding step: an ASCII byte stands for itself; any other byte starts a
    rune that is not ASCII and that covers only bytes that are not ASCII. *)
Lemma decode_rune_spec b l r w :
  is_byte b -> Forall is_byte l -> decode_rune (b :: l) = (r, w) ->
  (b < 128 /\ r = b /\ w = 1%nat) \/
  (128 <= b /\ 128 <= r /\ Forall (fun x => 128 <= x) (take (w - 1) l)).
Proof.
  unfold is_byte. intros Hb Hl H. cbn [decode_rune] in H.
  destruct (Z.ltb_spec b 128).
  { left. by simplify_eq. }
  right. split; [lia|].
  destruct l as [|b1 [|b2 [|b3 l]]]; unfold second_ok, is_cont in H;
    repeat split_hyp H; simplify_eq; simpl; split; try (unfold RuneError; lia);
    reflect; repeat constructor; lia.
Qed.

Fixpoint byte_index (c : Z) (l : list Z) : option nat :=
  match l with
  | [] => None
  | b :: l' => if b =? c then Some 0%nat else S <$> byte_index c l'
  end.

(** Index of the first rune equal to [c], zero when there is none. *)
Fixpoint first_index (c : Z) (l : list (nat * Z)) : nat :=
  match l with
  | [] => 0
  | (i, r) :: l' => if r =? c then i else first_index c l'
  end.

(** Looking for an ASCII rune with [range] finds the first such byte. *)
Lemma first_index_range c l i skip :
  c < 128 -> Forall is_byte l -> Forall (fun x => 128 <= x) (take skip l) ->
  first_index c (range_from i skip l) =
    match byte_index c l with Some k => (i + k)%nat | None => 0%nat end.
Proof.
  intros Hc. revert i skip.
  induction l as [|b l IH]; intros i skip Hl Hs; [done|].
  apply Forall_cons in Hl as [Hb Hl].
  destruct skip as [|skip]; cbn [range_from].
  - destruct (decode_rune (b :: l)) as [r w] eqn:E.
    destruct (decode_rune_spec _ _ _ _ Hb Hl E) as [(?&->&->)|(?&?&?)]; simpl.
    + destruct (b =? c) eqn:?; [f_equal; lia|].
      rewrite IH by (simpl; auto). destruct (byte_index c l); simpl; f_equal; lia.
    + rewrite (proj2 (Z.eqb_neq r c)), (proj2 (Z.eqb_neq b c)) by lia.
      rewrite IH by auto. destruct (byte_index c l); simpl; f_equal; lia.
  - simpl in Hs. apply Forall_cons in Hs as [? Hs]. cbn.
    rewrite (proj2 (Z.eqb_neq b c)) by lia.
    rewrite IH by auto. destruct (byte_index c l); simpl; f_equal; lia.
Qed.

Lemma byte_index_app_cons c l1 l2 :
  c ∉ l1 -> byte_index c (l1 ++ c :: l2) = Some (length l1).
Proof.
  induction l1 as [|b l1 IH]; intros Hc; simpl.
  - by rewrite Z.eqb_refl.
  - apply not_elem_of_cons in Hc as [? ?].
    rewrite (proj2 (Z.eqb_neq b c)) by congruence. by rewrite IH.
Qed.

Lemma byte_index_Some c l k :
  byte_index c l = Some k -> l !! k = Some c /\ c ∉ take k l.
Proof.
  revert k. induction l as [|b l IH]; intros k H; [done|]. simpl in H.
  destruct (Z.eqb_spec b c) as [->|].
  - simplify_eq. split; [done|]. apply not_elem_of_nil.
  - apply fmap_Some in H as (k'&?&->). destruct (IH k') as [??]; [done|].
    split; [done|]. simpl. apply not_elem_of_cons. split; congruence.
Qed.

Lemma byte_index_None c l : byte_index c l = None -> c ∉ l.
Proof.
  induction l as [|b l IH]; intros H; [apply not_elem_of_nil|]. simpl in H.
  destruct (Z.eqb_spec b c); [done|]. apply fmap_None in H.
  apply not_elem_of_cons. split; [congruence|auto].
Qed.

(** A predicate that refuses runes outside ASCII holds of every rune of [s] iff
    every byte of [s] is ASCII and satisfies it at its own index. *)
Lemma forallb_range_ascii (P : nat * Z -> bool) l i :
  (forall j r, 128 <= r -> P (j, r) = false) -> Forall is_byte l ->
  forallb P (range_from i 0 l) = true <->
  (forall k b, l !! k = Some b -> b < 128 /\ P ((i + k)%nat, b) = true).
Proof.
  intros HP Hl. revert i. induction l as [|b l IH]; intros i; [done|].
  apply Forall_cons in Hl as [Hb Hl].
  cbn [range_from]. destruct (decode_rune (b :: l)) as [r w] eqn:E.
  destruct (decode_rune_spec _ _ _ _ Hb Hl E) as [(?&->&->)|(?&?&?)]; simpl.
  - rewrite andb_true_iff, IH by done. split.
    + intros [H1 H2] [|k] b' Hk; simplify_eq/=.
      * rewrite Nat.add_0_r. auto.
      * rewrite Nat.add_succ_r. auto.
    + intros Hall. split.
      * destruct (Hall 0%nat b eq_refl) as [_ H0]. by rewrite Nat.add_0_r in H0.
      * intros k b' Hk. specialize (Hall (S k) b' Hk). by rewrite Nat.add_succ_r in Hall.
  - rewrite HP by done. simpl. split; [done|].
    intros Hall. destruct (Hall 0%nat b eq_refl). lia.
Qed.

(** ** Splitting and joining *)

Lemma split_aux_nonempty sep acc s : split_aux sep acc s <> [].
Proof.
  revert acc. induction s as [|c s IH]; intros acc; simpl; [done|].
  destruct (Ascii.eqb c sep); [done|apply IH].
Qed.

Lemma split_aux_join sep acc s : Join (split_aux sep acc s) (String sep "") = acc +:+ s.
Proof.
  revert acc. induction s as [|c s IH]; intros acc; simpl.
  - by rewrite str_app_nil_r.
  - destruct (Ascii.eqb_spec c sep) as [->|].
    + pose proof (IH "") as H. pose proof (split_aux_nonempty sep "" s).
      destruct (split_aux sep "" s) as [|x l]; [done|].
      change (acc +:+ String sep "" +:+ Join (x :: l) (String sep "") = acc +:+ String sep s).
      by rewrite H.
    + rewrite IH. by rewrite str_app_assoc.
Qed.

(** [strings.Join(strings.Split(s, sep), sep) == s] *)
Lemma Split_Join s sep : Join (Split s sep) (String sep "") = s.
Proof. apply split_aux_join. Qed.
