(* ===== verification/GoFmt.v ===== *)
(** * Formatting: [time.Duration.String], the verb [%q], [strings.ToLower]

    The last two consult Unicode tables for runes beyond Latin-1 and ASCII;
    the tables are arguments. *)

From S2P Require Import Prelude GoText.
From Stdlib Require Import Ascii.

Definition char (b : Z) : string := String (ascii_of_nat (Z.to_nat b)) "".

(** ** Durations *)

(** [fmtFrac]: the fraction of [v / 10^prec] in front of [acc], without trailing
    zeros, and the integer part. *)
Fixpoint fmtFrac (prec : nat) (v : Z) (print : bool) (acc : string) : Z * string :=
  match prec with
  | O => (v, if print then "." +:+ acc else acc)
  | S n =>
      let digit := v mod 10 in
      let print := print || negb (digit =? 0) in
      fmtFrac n (v / 10) print (if print then pretty digit +:+ acc else acc)
  end.

(** The format of a non-negative number of nanoseconds. *)
Definition format_duration (u : Z) : string :=
  if u <? Second then
    if u =? 0 then "0s"
    else
      let '(prec, unit) :=
        if u <? 1000 then (0%nat, "ns")
        else if u <? Millisecond then (3%nat, char 194 +:+ char 181 +:+ "s")
        else (6%nat, "ms") in
      let '(v, frac) := fmtFrac prec u false unit in
      pretty v +:+ frac
  else
    let '(secs, frac) := fmtFrac 9 u false "s" in
    let s := pretty (secs mod 60) +:+ frac in
    let mins := secs / 60 in
    if 0 <? mins then
      let s := pretty (mins mod 60) +:+ "m" +:+ s in
      let hours := mins / 60 in
      if 0 <? hours then pretty hours +:+ "h" +:+ s else s
    else s.

Definition Duration_String (d : Z) : string :=
  if d <? 0 then "-" +:+ format_duration (- d) else format_duration d.

Example duration_minutes : Duration_String (10 * Minute) = "10m0s".
Proof. vm_compute. reflexivity. Qed.
Example duration_fraction : Duration_String (90 * Minute + 1500 * Millisecond) = "1h30m1.5s".
Proof. vm_compute. reflexivity. Qed.

(** ** UTF-8 encoding *)

Definition encode_rune (r : Z) : string :=
  if (r <? 0) || (1114111 <? r) || ((55296 <=? r) && (r <=? 57343)) then
    char 239 +:+ char 191 +:+ char 189
  else if r <? 128 then char r
  else if r <? 2048 then char (192 + r / 64) +:+ char (128 + r mod 64)
  else if r <? 65536 then
    char (224 + r / 4096) +:+ char (128 + (r / 64) mod 64) +:+ char (128 + r mod 64)
  else char (240 + r / 262144) +:+ char (128 + (r / 4096) mod 64) +:+ char (128 + (r / 64) mod 64)
       +:+ char (128 + r mod 64).

(** ** The verb %q *)

Definition hex_digit (d : Z) : string := char (if d <? 10 then 48 + d else 87 + d).
(** The [n] lowest hexadecimal digits of [v]. *)
Fixpoint hex_digits (n : nat) (v : Z) (acc : string) : string :=
  match n with
  | O => acc
  | S n' => hex_digits n' (v / 16) (hex_digit (v mod 16) +:+ acc)
  end.

Section Tables.
  (** [strconv.IsPrint] on runes above Latin-1, [unicode.ToLower] on runes above
      ASCII. *)
  Context (print_table : Z -> bool) (lower_table : Z -> Z).

(** [strconv.IsPrint] *)
Definition is_print (r : Z) : bool :=
  if r <=? 255 then ((32 <=? r) && (r <? 127)) || ((161 <=? r) && negb (r =? 173))
  else print_table r.

(** One rune of a quoted string; [bad] is the byte of an invalid encoding. *)
Definition quote_rune (bad : option Z) (r : Z) : string :=
  match bad with
  | Some b => "\x" +:+ hex_digits 2 b ""
  | None =>
      if (r =? 34) || (r =? 92) then "\" +:+ char r
      else if is_print r then encode_rune r
      else if r =? 7 then "\a" else if r =? 8 then "\b" else if r =? 12 then "\f"
      else if r =? 10 then "\n" else if r =? 13 then "\r" else if r =? 9 then "\t"
      else if r =? 11 then "\v"
      else if (r <? 32) || (r =? 127) then "\x" +:+ hex_digits 2 r ""
      else if r <? 65536 then "\u" +:+ hex_digits 4 r ""
      else "\U" +:+ hex_digits 8 r ""
  end.

Fixpoint quote_from (skip : nat) (l : list Z) : string :=
  match l with
  | [] => ""
  | b :: l' =>
      match skip with
      | S k => quote_from k l'
      | O =>
          let '(r, w) := decode_rune l in
          let bad := if (w =? 1)%nat && (r =? RuneError) then Some b else None in
          quote_rune bad r +:+ quote_from (w - 1) l'
      end
  end.

Definition quote (s : string) : string := char 34 +:+ quote_from 0 (bytes s) +:+ char 34.

(** ** [strings.ToLower] *)

Definition lower_rune (r : Z) : Z :=
  if r <? 128 then if (65 <=? r) && (r <=? 90) then r + 32 else r else lower_table r.

Definition to_lower (s : string) : string :=
  String.concat "" ((fun '(_, r) => encode_rune (lower_rune r)) <$> go_range s).

End Tables.

Example quote_plain t : quote t "bmc-creds" = char 34 +:+ "bmc-creds" +:+ char 34.
Proof. vm_compute. reflexivity. Qed.
Example to_lower_ascii t : to_lower t "BMC-Creds" = "bmc-creds".
Proof. vm_compute. reflexivity. Qed.
