(* ===== verification/GoNet.v ===== *)
(** * Package net: textual IP addresses and prefixes

    [net.ParseIP], [net.ParseCIDR] and [IPNet.Contains] of Go's standard
    library, from the byte loops of [netip.ParseAddr].  An address is a list of
    sixteen bytes ([net.IP] in its long form), a mask four or sixteen. *)

From S2P Require Import Prelude GoText GoFmt.

(** ** Parsing *)

Definition dot : Z := 46.
Definition colon : Z := 58.
Definition percent : Z := 37.
Definition slash : Z := 47.

(** The loop of [parseIPv4Fields]: [val] and [digLen] describe the current
    octet, [prev] is the byte before, [fields] the octets stored so far. *)
Fixpoint ipv4_loop (val : Z) (digLen : nat) (prev : option Z) (fields l : list Z) : option (list Z) :=
  match l with
  | [] => if (length fields <? 3)%nat then None else Some (fields ++ [val])
  | c :: l' =>
      if is_digit c then
        if (digLen =? 1)%nat && (val =? 0) then None
        else let val' := val * 10 + (c - 48) in
             if val' >? 255 then None else ipv4_loop val' (S digLen) (Some c) fields l'
      else if c =? dot then
        if match prev with None => true | Some p => p =? dot end then None
        else match l' with
             | [] => None
             | _ => if (length fields =? 3)%nat then None
                    else ipv4_loop 0 0 (Some c) (fields ++ [val]) l'
             end
      else None
  end.
Definition parseIPv4Fields (l : list Z) : option (list Z) := ipv4_loop 0 0 None [] l.

Definition hex_value (c : Z) : option Z :=
  if is_digit c then Some (c - 48)
  else if (97 <=? c) && (c <=? 102) then Some (c - 97 + 10)
  else if (65 <=? c) && (c <=? 70) then Some (c - 65 + 10)
  else None.

(** The inner loop over one group of hexadecimal digits: the digits read, their
    value and the rest.  [None] when there are more than four digits. *)
Fixpoint hex_group (off : nat) (acc : Z) (l : list Z) : option (nat * Z * list Z) :=
  match l with
  | [] => Some (off, acc, [])
  | c :: l' =>
      match hex_value c with
      | None => Some (off, acc, l)
      | Some v =>
          let acc' := acc * 16 + v in
          if (3 <? off)%nat || (acc' >? 65535) then None else hex_group (S off) acc' l'
      end
  end.

(** The outer loop.  [ip] holds the bytes stored so far (so [i] is its length)
    and [ell] the position of the ellipsis.  One round stores at least two
    bytes, so eight rounds of fuel reach the loop bound [i < 16]. *)
Fixpoint ipv6_loop (fuel : nat) (ip : list Z) (ell : option nat) (s : list Z)
  : option (list Z * option nat * list Z) :=
  match fuel with
  | O => Some (ip, ell, s)
  | S fuel' =>
      match hex_group 0 0 s with
      | None => None
      | Some (off, acc, rest) =>
          if (off =? 0)%nat then None
          else match rest with
               | [] => Some (ip ++ [acc / 256; acc mod 256], ell, [])
               | c :: rest' =>
                   if c =? dot then
                     if match ell with None => negb (length ip =? 12)%nat | Some _ => false end then None
                     else if (16 <? length ip + 4)%nat then None
                     else match parseIPv4Fields s with
                          | None => None
                          | Some f => Some (ip ++ f, ell, [])
                          end
                   else if negb (c =? colon) then None
                   else match rest' with
                        | [] => None
                        | d :: rest'' =>
                            let ip' := ip ++ [acc / 256; acc mod 256] in
                            if d =? colon then
                              match ell with
                              | Some _ => None
                              | None => match rest'' with
                                        | [] => Some (ip', Some (length ip'), [])
                                        | _ => ipv6_loop fuel' ip' (Some (length ip')) rest''
                                        end
                              end
                            else ipv6_loop fuel' ip' ell rest'
                        end
               end
      end
  end.

(** The zone is split off first; a non-empty zone makes [ParseIP] answer nil,
    an empty one is an error, so both are [None]. *)
Definition parseIPv6 (l : list Z) : option (list Z) :=
  match byte_index percent l with
  | Some _ => None
  | None =>
      let '(ell0, s) := match l with
                        | c :: d :: s' => if (c =? colon) && (d =? colon) then (Some 0%nat, s') else (None, l)
                        | _ => (None, l)
                        end in
      match ell0, s with
      | Some _, [] => Some (replicate 16 0)
      | _, _ =>
          match ipv6_loop 8 [] ell0 s with
          | Some (ip, ell, []) =>
              if (length ip <? 16)%nat then
                match ell with
                | None => None
                | Some e => Some (take e ip ++ replicate (16 - length ip) 0 ++ drop e ip)
                end
              else match ell with None => Some ip | Some _ => None end
          | _ => None
          end
      end
  end.

Definition v4InV6Prefix : list Z := replicate 10 0 ++ [255; 255].

(** [netip.ParseAddr] with the answer of [As16] and of [BitLen]: the first dot,
    colon or percent sign decides the syntax. *)
Fixpoint ParseAddr_syntax (l : list Z) : option Z :=
  match l with
  | [] => None
  | c :: l' => if (c =? dot) || (c =? colon) || (c =? percent) then Some c else ParseAddr_syntax l'
  end.
Definition ParseAddr (l : list Z) : option (list Z * nat) :=
  match ParseAddr_syntax l with
  | None => None
  | Some c =>
      if c =? dot then (fun f => (v4InV6Prefix ++ f, 32%nat)) <$> parseIPv4Fields l
      else if c =? colon then (fun ip => (ip, 128%nat)) <$> parseIPv6 l
      else None
  end.

(** [net.ParseIP]: nil is [None]. *)
Definition ParseIP (s : string) : option (list Z) := fst <$> ParseAddr (bytes s).

(** ** Prefixes *)

(** [ip.To4()] *)
Definition To4 (ip : list Z) : option (list Z) :=
  if (length ip =? 4)%nat then Some ip
  else if bool_decide (length ip = 16%nat /\ take 12 ip = v4InV6Prefix) then Some (drop 12 ip)
  else None.

(** [net.CIDRMask(ones, bits)], as bytes. *)
Fixpoint CIDRMask (ones nbytes : nat) : list Z :=
  match nbytes with
  | O => []
  | S n => 256 - 2 ^ Z.of_nat (8 - Nat.min 8 ones) :: CIDRMask (ones - 8) n
  end.

Definition mask_bytes (ip m : list Z) : list Z := zip_with Z.land ip m.

(** [ip.Mask(m)] for a sixteen-byte [ip]. *)
Definition IP_Mask (ip m : list Z) : list Z :=
  if (length m =? 4)%nat then mask_bytes (drop 12 ip) m else mask_bytes ip m.

Definition digits_to_nat (l : list Z) : option nat :=
  match l with
  | [] => None
  | _ => if forallb is_digit l then Some (Z.to_nat (digits_value l)) else None
  end.

(** [net.ParseCIDR]: the network's number and mask. *)
Definition ParseCIDR (s : string) : option (list Z * list Z) :=
  match byte_index slash (bytes s) with
  | None => None
  | Some i =>
      match ParseAddr (take i (bytes s)), digits_to_nat (drop (S i) (bytes s)) with
      | Some (ip, bits), Some n =>
          if (bits <? n)%nat then None
          else let m := CIDRMask n (bits / 8) in Some (IP_Mask ip m, m)
      | _, _ => None
      end
  end.

(** [n.Contains(ip)] for a network whose number is as long as its mask. *)
Definition Contains_ip (n : list Z * list Z) (ip : list Z) : bool :=
  let ip' := default ip (To4 ip) in
  (length ip' =? length n.1)%nat &&
  bool_decide (mask_bytes ip' n.2 = mask_bytes n.1 n.2).

Example parse_v4 : ParseIP "192.168.1.100" = Some (v4InV6Prefix ++ [192; 168; 1; 100]).
Proof. vm_compute. reflexivity. Qed.
Example parse_v4_zero : ParseIP "192.168.01.100" = None.
Proof. vm_compute. reflexivity. Qed.
Example parse_v6 : ParseIP "fe80::1" = Some ([254; 128] ++ replicate 13 0 ++ [1]).
Proof. vm_compute. reflexivity. Qed.
Example parse_v6_full : ParseIP "1:2:3:4:5:6:7:8" = Some [0;1;0;2;0;3;0;4;0;5;0;6;0;7;0;8].
Proof. vm_compute. reflexivity. Qed.
Example parse_v6_46 : ParseIP "::ffff:10.0.0.1" = Some (v4InV6Prefix ++ [10; 0; 0; 1]).
Proof. vm_compute. reflexivity. Qed.
Example parse_v6_bad : ParseIP "1:2:3:4:5:6:7:8:9" = None /\ ParseIP "fe80::1%eth0" = None
  /\ ParseIP "1::2::3" = None /\ ParseIP "12345::" = None /\ ParseIP ":" = None.
Proof. vm_compute. auto. Qed.
Example cidr_12 : ParseCIDR "172.16.0.0/12" = Some ([172; 16; 0; 0], [255; 240; 0; 0]).
Proof. vm_compute. reflexivity. Qed.

(** ** Printing *)

(** A 16-bit group in hexadecimal, without leading zeros. *)
Definition append_hex (g : Z) : string :=
  (if 4096 <=? g then hex_digit (g / 4096) else "")
  +:+ (if 256 <=? g then hex_digit (g / 256 mod 16) else "")
  +:+ (if 16 <=? g then hex_digit (g / 16 mod 16) else "")
  +:+ hex_digit (g mod 16).

(** The big-endian 16-bit groups. *)
Fixpoint groups (b : list Z) : list Z :=
  match b with
  | hi :: lo :: b' => hi * 256 + lo :: groups b'
  | _ => []
  end.

(** The number of leading zero groups. *)
Fixpoint zero_run (l : list Z) : nat :=
  match l with
  | g :: l' => if g =? 0 then S (zero_run l') else 0
  | [] => 0
  end.

(** The first longest run of at least two zero groups: its start and length. *)
Fixpoint longest_run (i : nat) (best : nat * nat) (l : list Z) : nat * nat :=
  match l with
  | [] => best
  | _ :: l' =>
      let n := zero_run l in
      longest_run (S i) (if (2 <=? n)%nat && (snd best <? n)%nat then (i, n) else best) l'
  end.

(** The groups after the run, or all of them; [i] is the index of the first. *)
Fixpoint write_groups (i : nat) (l : list Z) : string :=
  match l with
  | [] => ""
  | g :: l' => (if (i =? 0)%nat then "" else ":") +:+ append_hex g +:+ write_groups (S i) l'
  end.

Definition ipv6_string (b : list Z) : string :=
  let gs := groups b in
  let '(start, n) := longest_run 0 (255, 0)%nat gs in
  if (n =? 0)%nat then write_groups 0 gs
  else write_groups 0 (take start gs) +:+ "::" +:+ write_groups 0 (drop (start + n) gs).

(** [net.IP.String] *)
Definition IP_String (ip : list Z) : string :=
  match ip with
  | [] => "<nil>"
  | _ =>
      if negb ((length ip =? 4)%nat || (length ip =? 16)%nat)
      then "?" +:+ String.concat "" ((fun b => hex_digit (b / 16) +:+ hex_digit (b mod 16)) <$> ip)
      else match (if (length ip =? 4)%nat then Some ip else To4 ip) with
           | Some p4 => Join (pretty <$> p4) "."
           | None => ipv6_string ip
           end
  end.

Example ip_string_v6 : option_map IP_String (ParseIP "2001:DB8:0:0:1::1") = Some "2001:db8::1:0:0:1".
Proof. vm_compute. reflexivity. Qed.
Example ip_string_loopback : option_map IP_String (ParseIP "0:0:0:0:0:0:0:1") = Some "::1".
Proof. vm_compute. reflexivity. Qed.
Example ip_string_v4 : option_map IP_String (ParseIP "::ffff:10.0.0.7") = Some "10.0.0.7".
Proof. vm_compute. reflexivity. Qed.
