(* ===== verification/GoTime.v ===== *)
(** * Package time: calendar dates

    [Time.Format(time.RFC3339)] of a time in UTC, given as nanoseconds since
    1970-01-01.  The calendar is the proleptic Gregorian one; the conversion from
    days to dates is shown to be inverted by the count of days. *)

From S2P Require Import Prelude GoFmt.

(** ** Days and dates *)

Definition leap (y : Z) : bool := (y mod 4 =? 0) && (negb (y mod 100 =? 0) || (y mod 400 =? 0)).
Definition month_lengths (y : Z) : list Z := [31; if leap y then 29 else 28; 31; 30; 31; 30; 31; 31; 30; 31; 30; 31].

(** The year and the day in it, from zero, of a day since 0001-01-01: whole
    cycles of 400, 100, 4 and 1 years are taken off; the last year of a cycle can
    have a day more. *)
Definition year_of_days (n : Z) : Z * Z :=
  let r400 := n mod 146097 in
  let n100 := Z.min 3 (r400 / 36524) in
  let r100 := r400 - 36524 * n100 in
  let r4 := r100 mod 1461 in
  let n1 := Z.min 3 (r4 / 365) in
  (1 + 400 * (n / 146097) + 100 * n100 + 4 * (r100 / 1461) + n1, r4 - 365 * n1).

(** The month, counted from [m], and the day of the [yday]-th day of the months. *)
Fixpoint month_of_day (lengths : list Z) (m yday : Z) : Z * Z :=
  match lengths with
  | [] => (m, yday + 1)
  | l :: lengths' => if yday <? l then (m, yday + 1) else month_of_day lengths' (m + 1) (yday - l)
  end.

(** [time.Date] of a day since 1970-01-01. *)
Definition date_of_days (days : Z) : Z * Z * Z :=
  let '(y, yday) := year_of_days (days + 719162) in
  let '(m, d) := month_of_day (month_lengths y) 1 yday in
  (y, m, d).

(** The count of days of a date. *)
Definition days_before_year (y : Z) : Z := 365 * (y - 1) + (y - 1) / 4 - (y - 1) / 100 + (y - 1) / 400.
Definition days_of_date (y m d : Z) : Z :=
  days_before_year y + fold_right Z.add 0 (take (Z.to_nat (m - 1)) (month_lengths y)) + (d - 1) - 719162.

Lemma year_of_days_spec n y yday :
  year_of_days n = (y, yday) -> days_before_year y + yday = n /\ 0 <= yday < (if leap y then 366 else 365).
Proof.
  unfold year_of_days, days_before_year, leap. intros [= <- <-].
  set (n100 := Z.min 3 (n mod 146097 / 36524)). set (r100 := n mod 146097 - 36524 * n100).
  set (n4 := r100 / 1461). set (r4 := r100 mod 1461). set (n1 := Z.min 3 (r4 / 365)). set (n400 := n / 146097).
  assert (0 <= n100 <= 3 /\ 0 <= r100 <= 36524 /\ (r100 = 36524 -> n100 = 3)) as (? & ? & ?)
    by (subst n100 r100; Z.div_mod_to_equations; lia).
  assert (0 <= n4 <= 24 /\ 0 <= r4 < 1461 /\ r100 = 1461 * n4 + r4 /\ (n4 = 24 -> r4 <= 1460)) as (? & ? & ? & ?)
    by (subst n4 r4; clearbody r100; Z.div_mod_to_equations; lia).
  assert (n = 146097 * n400 + 36524 * n100 + r100) as Hn by (subst n400 r100; Z.div_mod_to_equations; lia).
  assert (0 <= n1 <= 3 /\ 0 <= r4 - 365 * n1 <= 365 /\ (r4 - 365 * n1 = 365 -> n1 = 3)) as (? & ? & ?)
    by (subst n1; clearbody r4; Z.div_mod_to_equations; lia).
  clearbody n100 r100 n4 r4 n1 n400.
  replace (1 + 400 * n400 + 100 * n100 + 4 * n4 + n1 - 1) with (400 * n400 + 100 * n100 + 4 * n4 + n1) by lia.
  replace ((400 * n400 + 100 * n100 + 4 * n4 + n1) / 4) with (100 * n400 + 25 * n100 + n4) by (Z.div_mod_to_equations; lia).
  replace ((400 * n400 + 100 * n100 + 4 * n4 + n1) / 100) with (4 * n400 + n100) by (Z.div_mod_to_equations; lia).
  replace ((400 * n400 + 100 * n100 + 4 * n4 + n1) / 400) with n400 by (Z.div_mod_to_equations; lia).
  split; [lia|]. split; [lia|]. destruct (Z.eq_dec (r4 - 365 * n1) 365) as [Hl|]; [|case_match; lia].
  destruct (_ && _) eqn:E; [lia|]. exfalso. revert E. apply not_false_iff_true.
  rewrite andb_true_iff, orb_true_iff, negb_true_iff, !Z.eqb_eq, Z.eqb_neq. assert (n1 = 3) as -> by lia.
  split; [Z.div_mod_to_equations; lia|]. destruct (Z.eq_dec n4 24) as [->|]; [right|left].
  - assert (n100 = 3) as -> by lia. Z.div_mod_to_equations. lia.
  - intros Hm. apply Z.mod_divide in Hm as [q Hq]; [|done].
    assert (4 * (n4 + 1) = 100 * (q - 4 * n400 - n100)) by lia. lia.
Qed.

Lemma month_of_day_spec lengths m yday m' d :
  0 <= yday < fold_right Z.add 0 lengths -> month_of_day lengths m yday = (m', d) ->
  m <= m' /\ (exists l, lengths !! Z.to_nat (m' - m) = Some l /\ 1 <= d <= l) /\
  fold_right Z.add 0 (take (Z.to_nat (m' - m)) lengths) + (d - 1) = yday.
Proof.
  revert m yday. induction lengths as [|l lengths IH]; cbn; intros m yday Hy H; [lia|]. destruct (Z.ltb_spec yday l).
  - injection H as <- <-. rewrite Z.sub_diag. split_and!; [lia|exists l; split; [done|lia]|change (0 + (yday + 1 - 1) = yday); lia].
  - apply IH in H as (Hm & (l' & Hl & Hd) & Hsum); [|lia]. replace (Z.to_nat (m' - m)) with (S (Z.to_nat (m' - (m + 1)))) by lia.
    split_and!; [lia|by exists l'|cbn; lia].
Qed.

(** Every day has a date in the calendar, and the date its day. *)
Theorem date_of_days_spec days :
  let '(y, m, d) := date_of_days days in
  (exists l, month_lengths y !! Z.to_nat (m - 1) = Some l /\ 1 <= m /\ 1 <= d <= l) /\ days_of_date y m d = days.
Proof.
  unfold date_of_days. destruct (year_of_days _) as [y yday] eqn:Hy. apply year_of_days_spec in Hy as [Hn Hd].
  destruct (month_of_day _ _ _) as [m d] eqn:Hm. apply month_of_day_spec in Hm as (? & (l & ? & ?) & ?).
  - split; [by exists l|]. unfold days_of_date. lia.
  - unfold month_lengths. cbn. destruct (leap y); lia.
Qed.

(** ** Formatting *)

(** A number with at least [width] digits. *)
Definition padded (width : nat) (n : Z) : string :=
  let s := pretty n in String.concat "" (replicate (width - len s) "0") +:+ s.

Definition Format_RFC3339 (t : Z) : string :=
  let seconds := t / Second in
  let '(y, m, d) := date_of_days (seconds / 86400) in
  let clock := seconds mod 86400 in
  padded 4 y +:+ "-" +:+ padded 2 m +:+ "-" +:+ padded 2 d +:+ "T" +:+ padded 2 (clock / 3600) +:+ ":" +:+
  padded 2 (clock / 60 mod 60) +:+ ":" +:+ padded 2 (clock mod 60) +:+ "Z".

Example format_epoch : Format_RFC3339 0 = "1970-01-01T00:00:00Z".
Proof. vm_compute. reflexivity. Qed.
Example format_leap : Format_RFC3339 (1709251199 * Second) = "2024-02-29T23:59:59Z".
Proof. vm_compute. reflexivity. Qed.
