(* ===== verification/Api.v ===== *)
(** * The API types (api/v1beta1)

    The records of the custom resources the controllers read and write, with
    the Kubernetes and Cluster API types they contain reduced to the fields the
    code uses.  A pointer field is an [option]; a Go map is a [gmap], under an
    [option] where the code tells a nil map from an empty one. *)

From S2P Require Import Prelude.

(** ** Types of Kubernetes and Cluster API the resources are made of *)

Record NamespacedName := { nn_Namespace : string; nn_Name : string }.

#[export] Instance NamespacedName_eq_dec : EqDecision NamespacedName.
Proof. solve_decision. Defined.
#[export] Instance NamespacedName_countable : Countable NamespacedName.
Proof.
  refine (inj_countable' (fun k => (nn_Namespace k, nn_Name k))
            (fun p => {| nn_Namespace := p.1; nn_Name := p.2 |}) _).
  by intros [].
Defined.

Record TypeMeta := { tm_Kind : string; tm_APIVersion : string }.

(** [metav1.ObjectMeta].  The resource version is opaque to clients; here it is
    a number.  [DeletionTimestamp] is nil on an object not being deleted. *)
Record ObjectMeta := {
  om_Name : string;
  om_Namespace : string;
  om_UID : string;
  om_ResourceVersion : Z;
  om_Labels : gmap string string;
  om_Annotations : gmap string string;
  om_Finalizers : list string;
  om_DeletionTimestamp : option Z;
  om_CreationTimestamp : Z
}.

Record ObjectReference := {
  or_Kind : string; or_APIVersion : string; or_Name : string;
  or_Namespace : string; or_UID : string
}.

(** [clusterv1.Condition], less its transition time. *)
Record Condition := {
  c_Type : string; c_Status : string; c_Severity : string; c_Reason : string; c_Message : string
}.
Abbreviation Conditions := (list Condition).

Record MachineAddress := { ma_Type : string; ma_Address : string }.
Definition MachineInternalIP := "InternalIP".
Definition MachineExternalIP := "ExternalIP".

Record APIEndpoint := { ep_Host : string; ep_Port : Z }.

Record FailureDomainSpec := {
  fd_ControlPlane : bool; fd_Attributes : option (gmap string string)
}.
Abbreviation FailureDomains := (option (gmap string FailureDomainSpec)).

Record Secret := { sec_Meta : ObjectMeta; sec_Data : gmap string string }.

(** [clusterv1.Machine] and [clusterv1.Cluster]. *)
Record Machine := {
  m_Meta : ObjectMeta; m_Addresses : list MachineAddress; m_Conditions : Conditions
}.
Record Cluster := { cl_Meta : ObjectMeta }.

(** ** physicalhost_types.go *)

Definition StateNone := "".
Definition StateUnknown := "Unknown".
Definition StateEnrolling := "Enrolling".
Definition StateAvailable := "Available".
Definition StateInUse := "InUse".
Definition StateInspecting := "Inspecting".
Definition StateReady := "Ready".
Definition StateError := "Error".

Definition InspectionComplete := "Complete".
Definition InspectionPhasePending := "Pending".
Definition InspectionPhaseBooting := "Booting".
Definition InspectionPhaseInProgress := "InProgress".
Definition InspectionPhaseComplete := "Complete".
Definition InspectionPhaseFailed := "Failed".
Definition InspectionPhaseTimeout := "Timeout".

Definition RedfishConnectionReadyCondition := "RedfishConnectionReady".
Definition HostAvailableCondition := "HostAvailable".
Definition HostInspectedCondition := "HostInspected".
Definition MissingCredentialsReason := "MissingCredentials".
Definition RedfishConnectionFailedReason := "RedfishConnectionFailed".
Definition RedfishQueryFailedReason := "RedfishQueryFailed".

Record RedfishConnection := {
  rc_Address : string; rc_CredentialsSecretRef : string; rc_InsecureSkipVerify : option bool
}.

Record HardwareStatus := { hs_Health : string; hs_HealthRollup : string; hs_State : string }.
Record HardwareDetails := {
  hd_Manufacturer : string; hd_Model : string; hd_SerialNumber : string; hd_Status : HardwareStatus
}.

Record PhysicalHostSpec := {
  pspec_RedfishConnection : RedfishConnection;
  pspec_ConsumerRef : option ObjectReference
}.

Record CPUInfo := {
  cpu_ID : string; cpu_Vendor : string; cpu_Model : string; cpu_Cores : Z; cpu_Threads : Z;
  cpu_Frequency : string
}.
Record MemoryInfo := {
  mem_ID : string; mem_Type : string; mem_Capacity : string; mem_Speed : string
}.
Record DiskInfo := {
  disk_Name : string; disk_Model : string; disk_SizeGB : Z; disk_Type : string;
  disk_SerialNumber : string
}.
Record NICInfo := {
  nic_Name : string; nic_MACAddress : string; nic_Driver : string; nic_Speed : string;
  nic_IPAddresses : list string
}.

Record InspectionReport := {
  ir_Timestamp : Z;
  ir_Manufacturer : string;
  ir_Model : string;
  ir_SerialNumber : string;
  ir_BootModeDetected : string;
  ir_FirmwareVersion : string;
  ir_CPUs : list CPUInfo;
  ir_Memory : list MemoryInfo;
  ir_Disks : list DiskInfo;
  ir_NICs : list NICInfo
}.

Record PhysicalHostStatus := {
  pst_Ready : bool;
  pst_State : string;
  pst_ObservedPowerState : string;
  pst_ErrorMessage : string;
  pst_HardwareDetails : HardwareDetails;
  pst_Addresses : list MachineAddress;
  pst_InspectionReport : option InspectionReport;
  pst_InspectionPhase : string;
  pst_InspectionTimestamp : option Z;
  pst_Conditions : Conditions
}.

Record PhysicalHost := {
  ph_Type : TypeMeta;
  ph_Meta : ObjectMeta;
  ph_Spec : PhysicalHostSpec;
  ph_Status : PhysicalHostStatus
}.

(** ** beskar7machine_types.go *)

Definition InfrastructureReadyCondition := "InfrastructureReady".
Definition PhysicalHostAssociatedCondition := "PhysicalHostAssociated".
Definition PhysicalHostAssociationFailedReason := "PhysicalHostAssociationFailed".
Definition WaitingForPhysicalHostReason := "WaitingForPhysicalHost".
Definition PhysicalHostNotReadyReason := "PhysicalHostNotReady".
Definition PhysicalHostErrorReason := "PhysicalHostError".

Record HardwareRequirements := { hr_MinCPUCores : Z; hr_MinMemoryGB : Z; hr_MinDiskGB : Z }.

Record Beskar7MachineSpec := {
  ms_ProviderID : option string;
  ms_InspectionImageURL : string;
  ms_TargetImageURL : string;
  ms_ConfigurationURL : string;
  ms_HardwareRequirements : option HardwareRequirements
}.

Record Beskar7MachineStatus := {
  mst_Ready : bool;
  mst_Phase : option string;
  mst_FailureReason : option string;
  mst_FailureMessage : option string;
  mst_Addresses : list MachineAddress;
  mst_Conditions : Conditions
}.

Record Beskar7Machine := {
  bm_Type : TypeMeta; bm_Meta : ObjectMeta; bm_Spec : Beskar7MachineSpec;
  bm_Status : Beskar7MachineStatus
}.

(** ** beskar7cluster_types.go *)

Definition ControlPlaneEndpointReady := "ControlPlaneEndpointReady".
Definition ControlPlaneEndpointNotSetReason := "ControlPlaneEndpointNotSet".

Record Beskar7ClusterSpec := { cs_ControlPlaneEndpoint : APIEndpoint }.
Record Beskar7ClusterStatus := {
  cst_Ready : bool;
  cst_ControlPlaneEndpoint : APIEndpoint;
  cst_FailureDomains : FailureDomains;
  cst_Conditions : Conditions
}.
Record Beskar7Cluster := {
  bc_Type : TypeMeta; bc_Meta : ObjectMeta; bc_Spec : Beskar7ClusterSpec;
  bc_Status : Beskar7ClusterStatus
}.

(** ** Field assignments

    [set_f v x] is [x.f = v]. *)

Definition set_om_Finalizers (v : list string) (x : ObjectMeta) : ObjectMeta :=
  {| om_Name := om_Name x; om_Namespace := om_Namespace x; om_UID := om_UID x;
     om_ResourceVersion := om_ResourceVersion x; om_Labels := om_Labels x; om_Annotations :=
     om_Annotations x; om_Finalizers := v; om_DeletionTimestamp := om_DeletionTimestamp x;
     om_CreationTimestamp := om_CreationTimestamp x |}.

Definition set_om_ResourceVersion (v : Z) (x : ObjectMeta) : ObjectMeta :=
  {| om_Name := om_Name x; om_Namespace := om_Namespace x; om_UID := om_UID x;
     om_ResourceVersion := v; om_Labels := om_Labels x; om_Annotations := om_Annotations x;
     om_Finalizers := om_Finalizers x; om_DeletionTimestamp := om_DeletionTimestamp x;
     om_CreationTimestamp := om_CreationTimestamp x |}.

Definition set_pspec_ConsumerRef (v : option ObjectReference) (x : PhysicalHostSpec) : PhysicalHostSpec :=
  {| pspec_RedfishConnection := pspec_RedfishConnection x; pspec_ConsumerRef := v |}.

Definition set_pst_Ready (v : bool) (x : PhysicalHostStatus) : PhysicalHostStatus :=
  {| pst_Ready := v; pst_State := pst_State x; pst_ObservedPowerState := pst_ObservedPowerState
     x; pst_ErrorMessage := pst_ErrorMessage x; pst_HardwareDetails := pst_HardwareDetails x;
     pst_Addresses := pst_Addresses x; pst_InspectionReport := pst_InspectionReport x;
     pst_InspectionPhase := pst_InspectionPhase x; pst_InspectionTimestamp :=
     pst_InspectionTimestamp x; pst_Conditions := pst_Conditions x |}.

Definition set_pst_State (v : string) (x : PhysicalHostStatus) : PhysicalHostStatus :=
  {| pst_Ready := pst_Ready x; pst_State := v; pst_ObservedPowerState := pst_ObservedPowerState
     x; pst_ErrorMessage := pst_ErrorMessage x; pst_HardwareDetails := pst_HardwareDetails x;
     pst_Addresses := pst_Addresses x; pst_InspectionReport := pst_InspectionReport x;
     pst_InspectionPhase := pst_InspectionPhase x; pst_InspectionTimestamp :=
     pst_InspectionTimestamp x; pst_Conditions := pst_Conditions x |}.

Definition set_pst_ObservedPowerState (v : string) (x : PhysicalHostStatus) : PhysicalHostStatus :=
  {| pst_Ready := pst_Ready x; pst_State := pst_State x; pst_ObservedPowerState := v;
     pst_ErrorMessage := pst_ErrorMessage x; pst_HardwareDetails := pst_HardwareDetails x;
     pst_Addresses := pst_Addresses x; pst_InspectionReport := pst_InspectionReport x;
     pst_InspectionPhase := pst_InspectionPhase x; pst_InspectionTimestamp :=
     pst_InspectionTimestamp x; pst_Conditions := pst_Conditions x |}.

Definition set_pst_ErrorMessage (v : string) (x : PhysicalHostStatus) : PhysicalHostStatus :=
  {| pst_Ready := pst_Ready x; pst_State := pst_State x; pst_ObservedPowerState :=
     pst_ObservedPowerState x; pst_ErrorMessage := v; pst_HardwareDetails := pst_HardwareDetails
     x; pst_Addresses := pst_Addresses x; pst_InspectionReport := pst_InspectionReport x;
     pst_InspectionPhase := pst_InspectionPhase x; pst_InspectionTimestamp :=
     pst_InspectionTimestamp x; pst_Conditions := pst_Conditions x |}.

Definition set_pst_HardwareDetails (v : HardwareDetails) (x : PhysicalHostStatus) : PhysicalHostStatus :=
  {| pst_Ready := pst_Ready x; pst_State := pst_State x; pst_ObservedPowerState :=
     pst_ObservedPowerState x; pst_ErrorMessage := pst_ErrorMessage x; pst_HardwareDetails := v;
     pst_Addresses := pst_Addresses x; pst_InspectionReport := pst_InspectionReport x;
     pst_InspectionPhase := pst_InspectionPhase x; pst_InspectionTimestamp :=
     pst_InspectionTimestamp x; pst_Conditions := pst_Conditions x |}.

Definition set_pst_Addresses (v : list MachineAddress) (x : PhysicalHostStatus) : PhysicalHostStatus :=
  {| pst_Ready := pst_Ready x; pst_State := pst_State x; pst_ObservedPowerState :=
     pst_ObservedPowerState x; pst_ErrorMessage := pst_ErrorMessage x; pst_HardwareDetails :=
     pst_HardwareDetails x; pst_Addresses := v; pst_InspectionReport := pst_InspectionReport x;
     pst_InspectionPhase := pst_InspectionPhase x; pst_InspectionTimestamp :=
     pst_InspectionTimestamp x; pst_Conditions := pst_Conditions x |}.

Definition set_pst_InspectionReport (v : option InspectionReport) (x : PhysicalHostStatus) : PhysicalHostStatus :=
  {| pst_Ready := pst_Ready x; pst_State := pst_State x; pst_ObservedPowerState :=
     pst_ObservedPowerState x; pst_ErrorMessage := pst_ErrorMessage x; pst_HardwareDetails :=
     pst_HardwareDetails x; pst_Addresses := pst_Addresses x; pst_InspectionReport := v;
     pst_InspectionPhase := pst_InspectionPhase x; pst_InspectionTimestamp :=
     pst_InspectionTimestamp x; pst_Conditions := pst_Conditions x |}.

Definition set_pst_InspectionPhase (v : string) (x : PhysicalHostStatus) : PhysicalHostStatus :=
  {| pst_Ready := pst_Ready x; pst_State := pst_State x; pst_ObservedPowerState :=
     pst_ObservedPowerState x; pst_ErrorMessage := pst_ErrorMessage x; pst_HardwareDetails :=
     pst_HardwareDetails x; pst_Addresses := pst_Addresses x; pst_InspectionReport :=
     pst_InspectionReport x; pst_InspectionPhase := v; pst_InspectionTimestamp :=
     pst_InspectionTimestamp x; pst_Conditions := pst_Conditions x |}.

Definition set_pst_InspectionTimestamp (v : option Z) (x : PhysicalHostStatus) : PhysicalHostStatus :=
  {| pst_Ready := pst_Ready x; pst_State := pst_State x; pst_ObservedPowerState :=
     pst_ObservedPowerState x; pst_ErrorMessage := pst_ErrorMessage x; pst_HardwareDetails :=
     pst_HardwareDetails x; pst_Addresses := pst_Addresses x; pst_InspectionReport :=
     pst_InspectionReport x; pst_InspectionPhase := pst_InspectionPhase x;
     pst_InspectionTimestamp := v; pst_Conditions := pst_Conditions x |}.

Definition set_pst_Conditions (v : Conditions) (x : PhysicalHostStatus) : PhysicalHostStatus :=
  {| pst_Ready := pst_Ready x; pst_State := pst_State x; pst_ObservedPowerState :=
     pst_ObservedPowerState x; pst_ErrorMessage := pst_ErrorMessage x; pst_HardwareDetails :=
     pst_HardwareDetails x; pst_Addresses := pst_Addresses x; pst_InspectionReport :=
     pst_InspectionReport x; pst_InspectionPhase := pst_InspectionPhase x;
     pst_InspectionTimestamp := pst_InspectionTimestamp x; pst_Conditions := v |}.

Definition set_ph_Meta (v : ObjectMeta) (x : PhysicalHost) : PhysicalHost :=
  {| ph_Type := ph_Type x; ph_Meta := v; ph_Spec := ph_Spec x; ph_Status := ph_Status x |}.

Definition set_ph_Spec (v : PhysicalHostSpec) (x : PhysicalHost) : PhysicalHost :=
  {| ph_Type := ph_Type x; ph_Meta := ph_Meta x; ph_Spec := v; ph_Status := ph_Status x |}.

Definition set_ph_Status (v : PhysicalHostStatus) (x : PhysicalHost) : PhysicalHost :=
  {| ph_Type := ph_Type x; ph_Meta := ph_Meta x; ph_Spec := ph_Spec x; ph_Status := v |}.

Definition set_ms_ProviderID (v : option string) (x : Beskar7MachineSpec) : Beskar7MachineSpec :=
  {| ms_ProviderID := v; ms_InspectionImageURL := ms_InspectionImageURL x; ms_TargetImageURL :=
     ms_TargetImageURL x; ms_ConfigurationURL := ms_ConfigurationURL x; ms_HardwareRequirements
     := ms_HardwareRequirements x |}.

Definition set_mst_Ready (v : bool) (x : Beskar7MachineStatus) : Beskar7MachineStatus :=
  {| mst_Ready := v; mst_Phase := mst_Phase x; mst_FailureReason := mst_FailureReason x;
     mst_FailureMessage := mst_FailureMessage x; mst_Addresses := mst_Addresses x;
     mst_Conditions := mst_Conditions x |}.

Definition set_mst_Phase (v : option string) (x : Beskar7MachineStatus) : Beskar7MachineStatus :=
  {| mst_Ready := mst_Ready x; mst_Phase := v; mst_FailureReason := mst_FailureReason x;
     mst_FailureMessage := mst_FailureMessage x; mst_Addresses := mst_Addresses x;
     mst_Conditions := mst_Conditions x |}.

Definition set_mst_Addresses (v : list MachineAddress) (x : Beskar7MachineStatus) : Beskar7MachineStatus :=
  {| mst_Ready := mst_Ready x; mst_Phase := mst_Phase x; mst_FailureReason := mst_FailureReason
     x; mst_FailureMessage := mst_FailureMessage x; mst_Addresses := v; mst_Conditions :=
     mst_Conditions x |}.

Definition set_mst_Conditions (v : Conditions) (x : Beskar7MachineStatus) : Beskar7MachineStatus :=
  {| mst_Ready := mst_Ready x; mst_Phase := mst_Phase x; mst_FailureReason := mst_FailureReason
     x; mst_FailureMessage := mst_FailureMessage x; mst_Addresses := mst_Addresses x;
     mst_Conditions := v |}.

Definition set_bm_Meta (v : ObjectMeta) (x : Beskar7Machine) : Beskar7Machine :=
  {| bm_Type := bm_Type x; bm_Meta := v; bm_Spec := bm_Spec x; bm_Status := bm_Status x |}.

Definition set_bm_Spec (v : Beskar7MachineSpec) (x : Beskar7Machine) : Beskar7Machine :=
  {| bm_Type := bm_Type x; bm_Meta := bm_Meta x; bm_Spec := v; bm_Status := bm_Status x |}.

Definition set_bm_Status (v : Beskar7MachineStatus) (x : Beskar7Machine) : Beskar7Machine :=
  {| bm_Type := bm_Type x; bm_Meta := bm_Meta x; bm_Spec := bm_Spec x; bm_Status := v |}.

Definition set_cs_ControlPlaneEndpoint (v : APIEndpoint) (x : Beskar7ClusterSpec) : Beskar7ClusterSpec :=
  {| cs_ControlPlaneEndpoint := v |}.

Definition set_cst_Ready (v : bool) (x : Beskar7ClusterStatus) : Beskar7ClusterStatus :=
  {| cst_Ready := v; cst_ControlPlaneEndpoint := cst_ControlPlaneEndpoint x; cst_FailureDomains
     := cst_FailureDomains x; cst_Conditions := cst_Conditions x |}.

Definition set_cst_ControlPlaneEndpoint (v : APIEndpoint) (x : Beskar7ClusterStatus) : Beskar7ClusterStatus :=
  {| cst_Ready := cst_Ready x; cst_ControlPlaneEndpoint := v; cst_FailureDomains :=
     cst_FailureDomains x; cst_Conditions := cst_Conditions x |}.

Definition set_cst_FailureDomains (v : FailureDomains) (x : Beskar7ClusterStatus) : Beskar7ClusterStatus :=
  {| cst_Ready := cst_Ready x; cst_ControlPlaneEndpoint := cst_ControlPlaneEndpoint x;
     cst_FailureDomains := v; cst_Conditions := cst_Conditions x |}.

Definition set_cst_Conditions (v : Conditions) (x : Beskar7ClusterStatus) : Beskar7ClusterStatus :=
  {| cst_Ready := cst_Ready x; cst_ControlPlaneEndpoint := cst_ControlPlaneEndpoint x;
     cst_FailureDomains := cst_FailureDomains x; cst_Conditions := v |}.

Definition set_bc_Meta (v : ObjectMeta) (x : Beskar7Cluster) : Beskar7Cluster :=
  {| bc_Type := bc_Type x; bc_Meta := v; bc_Spec := bc_Spec x; bc_Status := bc_Status x |}.

Definition set_bc_Spec (v : Beskar7ClusterSpec) (x : Beskar7Cluster) : Beskar7Cluster :=
  {| bc_Type := bc_Type x; bc_Meta := bc_Meta x; bc_Spec := v; bc_Status := bc_Status x |}.

Definition set_bc_Status (v : Beskar7ClusterStatus) (x : Beskar7Cluster) : Beskar7Cluster :=
  {| bc_Type := bc_Type x; bc_Meta := bc_Meta x; bc_Spec := bc_Spec x; bc_Status := v |}.

(** Assignments through a path, [h.Status.f = v] and the like. *)
Definition ph_upd_Status (f : PhysicalHostStatus -> PhysicalHostStatus) (h : PhysicalHost) :=
  set_ph_Status (f (ph_Status h)) h.
Definition bm_upd_Status (f : Beskar7MachineStatus -> Beskar7MachineStatus) (m : Beskar7Machine) :=
  set_bm_Status (f (bm_Status m)) m.
Definition bc_upd_Status (f : Beskar7ClusterStatus -> Beskar7ClusterStatus) (c : Beskar7Cluster) :=
  set_bc_Status (f (bc_Status c)) c.

(** ** Shorthands for reading *)

Definition ph_Name (h : PhysicalHost) : string := om_Name (ph_Meta h).
Definition ph_Namespace (h : PhysicalHost) : string := om_Namespace (ph_Meta h).
Definition ph_State (h : PhysicalHost) : string := pst_State (ph_Status h).
Definition ph_Consumer (h : PhysicalHost) : option ObjectReference := pspec_ConsumerRef (ph_Spec h).
Definition ph_RV (h : PhysicalHost) : Z := om_ResourceVersion (ph_Meta h).
Definition ph_Key (h : PhysicalHost) : NamespacedName :=
  {| nn_Namespace := ph_Namespace h; nn_Name := ph_Name h |}.
Definition bm_Name (m : Beskar7Machine) : string := om_Name (bm_Meta m).
Definition bm_Namespace (m : Beskar7Machine) : string := om_Namespace (bm_Meta m).

(** ** Zero values and sample objects *)

Definition empty_status : PhysicalHostStatus :=
  {| pst_Ready := false; pst_State := ""; pst_ObservedPowerState := ""; pst_ErrorMessage := "";
     pst_HardwareDetails :=
       {| hd_Manufacturer := ""; hd_Model := ""; hd_SerialNumber := "";
          hd_Status := {| hs_Health := ""; hs_HealthRollup := ""; hs_State := "" |} |};
     pst_Addresses := []; pst_InspectionReport := None; pst_InspectionPhase := "";
     pst_InspectionTimestamp := None; pst_Conditions := [] |}.

(** What is left of a status once it has been written to the API server: a
    [metav1.Time] is serialised in whole seconds. *)
Definition stored_time (t : Z) : Z := t / Second * Second.
Definition stored_report (r : InspectionReport) : InspectionReport :=
  {| ir_Timestamp := stored_time (ir_Timestamp r); ir_Manufacturer := ir_Manufacturer r; ir_Model := ir_Model r;
     ir_SerialNumber := ir_SerialNumber r; ir_BootModeDetected := ir_BootModeDetected r;
     ir_FirmwareVersion := ir_FirmwareVersion r; ir_CPUs := ir_CPUs r; ir_Memory := ir_Memory r;
     ir_Disks := ir_Disks r; ir_NICs := ir_NICs r |}.
Definition stored_status (st : PhysicalHostStatus) : PhysicalHostStatus :=
  set_pst_InspectionTimestamp (stored_time <$> pst_InspectionTimestamp st)
    (set_pst_InspectionReport (stored_report <$> pst_InspectionReport st) st).

Lemma stored_time_idemp t : stored_time (stored_time t) = stored_time t.
Proof. unfold stored_time. by rewrite Z.div_mul. Qed.
Lemma stored_time_near t : t - Second < stored_time t <= t.
Proof. unfold stored_time. assert (0 < Second) by done. pose proof (Z.mod_pos_bound t Second). pose proof (Z.div_mod t Second). lia. Qed.
Lemma stored_report_idemp r : stored_report (stored_report r) = stored_report r.
Proof. unfold stored_report. cbn. by rewrite stored_time_idemp. Qed.
Lemma stored_status_idemp st : stored_status (stored_status st) = stored_status st.
Proof.
  destruct st as [? ? ? ? ? ? [r|] ? [t|] ?]; unfold stored_status; cbn -[stored_time stored_report];
    by rewrite ?stored_time_idemp, ?stored_report_idemp.
Qed.

Definition sample_meta (name : string) (finalizers : list string) (deletion : option Z) : ObjectMeta :=
  {| om_Name := name; om_Namespace := "default"; om_UID := "uid-" +:+ name; om_ResourceVersion := 0;
     om_Labels := ∅; om_Annotations := ∅; om_Finalizers := finalizers; om_DeletionTimestamp := deletion;
     om_CreationTimestamp := 0 |}.

Definition sample_host (name address : string) (finalizers : list string) : PhysicalHost :=
  {| ph_Type := {| tm_Kind := "PhysicalHost"; tm_APIVersion := "v1beta1" |};
     ph_Meta := sample_meta name finalizers None;
     ph_Spec := {| pspec_RedfishConnection :=
                     {| rc_Address := address; rc_CredentialsSecretRef := "creds";
                        rc_InsecureSkipVerify := None |};
                   pspec_ConsumerRef := None |};
     ph_Status := empty_status |}.

Definition sample_machine (name : string) (finalizers : list string) (providerID : option string)
    (deletion : option Z) : Beskar7Machine :=
  {| bm_Type := {| tm_Kind := "Beskar7Machine"; tm_APIVersion := "v1beta1" |};
     bm_Meta := sample_meta name finalizers deletion;
     bm_Spec := {| ms_ProviderID := providerID; ms_InspectionImageURL := "http://boot/inspect";
                   ms_TargetImageURL := "http://boot/target"; ms_ConfigurationURL := "";
                   ms_HardwareRequirements :=
                     Some {| hr_MinCPUCores := 4; hr_MinMemoryGB := 16; hr_MinDiskGB := 0 |} |};
     bm_Status := {| mst_Ready := false; mst_Phase := None; mst_FailureReason := None;
                     mst_FailureMessage := None; mst_Addresses := []; mst_Conditions := [] |} |}.
