(* ===== verification/Heap.v ===== *)
(** * Go memory, and copies in it

    A struct in memory holds its plain fields and, for every pointer, slice and
    map, the location of a cell.  Programs on memory dereference, assign and
    allocate; a view reads a struct together with all it refers to and notes the
    cells it visits, so that two structs share memory exactly if their views
    visit a common cell.  [deep] says what it is to copy a struct up to given
    shared cells, and the lemmas build such copies from those of the parts, the
    way the copying functions of DeepCopy.v do. *)

From S2P Require Import Prelude Api.

Declare Scope mem_scope.
Delimit Scope mem_scope with mem.
Local Open Scope mem_scope.

Abbreviation loc := nat.

(** What apimachinery keeps in memory for [ObjectMeta] and [ListMeta]: the
    structs, and the contents of the cells they refer to. *)
Class Metadata := {
  gObjectMeta : Type; gListMeta : Type; meta_cell : Type;
  zero_ObjectMeta : gObjectMeta; zero_ListMeta : gListMeta; zero_meta_cell : meta_cell
}.

(** ** Structs in memory

    As in Api.v, with the location of a cell for a pointer ([nil] is [None]),
    a slice or a map. *)

Abbreviation ptr := (option loc).

Record gRedfishConnection := { grc_Address : string; grc_CredentialsSecretRef : string; grc_InsecureSkipVerify : ptr }.
Record gPhysicalHostSpec := { gps_RedfishConnection : gRedfishConnection; gps_ConsumerRef : ptr }.
Record gNICInfo := {
  gnic_Name : string; gnic_MACAddress : string; gnic_Driver : string; gnic_Speed : string;
  gnic_IPAddresses : ptr
}.
Record gInspectionReport := {
  gir_Timestamp : Z; gir_Manufacturer : string; gir_Model : string; gir_SerialNumber : string;
  gir_BootModeDetected : string; gir_FirmwareVersion : string;
  gir_CPUs : ptr; gir_Memory : ptr; gir_Disks : ptr; gir_NICs : ptr
}.
Record gPhysicalHostStatus := {
  gpst_Ready : bool; gpst_State : string; gpst_ObservedPowerState : string; gpst_ErrorMessage : string;
  gpst_HardwareDetails : HardwareDetails; gpst_Addresses : ptr; gpst_InspectionReport : ptr;
  gpst_InspectionPhase : string; gpst_InspectionTimestamp : ptr; gpst_Conditions : ptr
}.
Record gBeskar7MachineSpec := {
  gms_ProviderID : ptr; gms_InspectionImageURL : string; gms_TargetImageURL : string;
  gms_ConfigurationURL : string; gms_HardwareRequirements : ptr
}.
Record gBeskar7MachineStatus := {
  gmst_Ready : bool; gmst_Phase : ptr; gmst_FailureReason : ptr; gmst_FailureMessage : ptr;
  gmst_Addresses : ptr; gmst_Conditions : ptr
}.
Record gFailureDomainSpec := { gfd_ControlPlane : bool; gfd_Attributes : ptr }.
Record gBeskar7ClusterStatus := {
  gcst_Ready : bool; gcst_ControlPlaneEndpoint : APIEndpoint; gcst_FailureDomains : ptr;
  gcst_Conditions : ptr
}.

(** Objects and lists of objects have the same shape for every kind. *)
Record gObject {M : Metadata} (S T : Type) := {
  go_TypeMeta : TypeMeta; go_ObjectMeta : gObjectMeta; go_Spec : S; go_Status : T
}.
Arguments go_TypeMeta {_ _ _} _.
Arguments go_ObjectMeta {_ _ _} _.
Arguments go_Spec {_ _ _} _.
Arguments go_Status {_ _ _} _.
Record gList {M : Metadata} := { gl_TypeMeta : TypeMeta; gl_ListMeta : gListMeta; gl_Items : ptr }.

(** The template: an object whose spec wraps the spec of a machine. *)
Record gTemplateResource := { gtr_Spec : gBeskar7MachineSpec }.
Record gTemplateSpec := { gts_Template : gTemplateResource }.

Abbreviation gPhysicalHost := (gObject gPhysicalHostSpec gPhysicalHostStatus).
Abbreviation gBeskar7Machine := (gObject gBeskar7MachineSpec gBeskar7MachineStatus).
Abbreviation gBeskar7Cluster := (gObject Beskar7ClusterSpec gBeskar7ClusterStatus).
Abbreviation gBeskar7MachineTemplate := (gObject gTemplateSpec unit).

Record RedfishConnectionInfo := { rci_Address : string; rci_CredentialsSecretRef : string }.

(** ** Memory *)

Section Memory.
  Context {M : Metadata}.

(** The Go types of which there are cells. *)
Inductive kind :=
| KBool | KString | KTime | KObjectReference | KHardwareRequirements
| KMachineAddress | KCondition | KCPUInfo | KMemoryInfo | KDiskInfo | KNICInfo
| KHardwareDetails | KHardwareStatus | KInspectionReport
| KRedfishConnection | KRedfishConnectionInfo
| KPhysicalHostSpec | KPhysicalHostStatus | KPhysicalHost
| KBeskar7MachineSpec | KBeskar7MachineStatus | KBeskar7Machine
| KBeskar7ClusterSpec | KBeskar7ClusterStatus | KBeskar7Cluster
| KTemplateResource | KTemplateSpec | KBeskar7MachineTemplate
| KList | KFailureDomains | KAttributes | KMeta
| KSlice (k : kind).

#[global] Instance kind_eq_dec : EqDecision kind.
Proof. solve_decision. Defined.

Fixpoint denote (k : kind) : Type :=
  match k with
  | KBool => bool | KString => string | KTime => Z
  | KObjectReference => ObjectReference | KHardwareRequirements => HardwareRequirements
  | KMachineAddress => MachineAddress | KCondition => Condition
  | KCPUInfo => CPUInfo | KMemoryInfo => MemoryInfo | KDiskInfo => DiskInfo | KNICInfo => gNICInfo
  | KHardwareDetails => HardwareDetails | KHardwareStatus => HardwareStatus
  | KInspectionReport => gInspectionReport
  | KRedfishConnection => gRedfishConnection | KRedfishConnectionInfo => RedfishConnectionInfo
  | KPhysicalHostSpec => gPhysicalHostSpec | KPhysicalHostStatus => gPhysicalHostStatus
  | KPhysicalHost => gPhysicalHost
  | KBeskar7MachineSpec => gBeskar7MachineSpec | KBeskar7MachineStatus => gBeskar7MachineStatus
  | KBeskar7Machine => gBeskar7Machine
  | KBeskar7ClusterSpec => Beskar7ClusterSpec | KBeskar7ClusterStatus => gBeskar7ClusterStatus
  | KBeskar7Cluster => gBeskar7Cluster
  | KTemplateResource => gTemplateResource | KTemplateSpec => gTemplateSpec
  | KBeskar7MachineTemplate => gBeskar7MachineTemplate
  | KList => gList
  | KFailureDomains => gmap string gFailureDomainSpec
  | KAttributes => gmap string string
  | KMeta => meta_cell
  | KSlice k => list (denote k)
  end.

(** The zero value of a type. *)
Definition zero_spec : gBeskar7MachineSpec :=
  {| gms_ProviderID := None; gms_InspectionImageURL := ""; gms_TargetImageURL := "";
     gms_ConfigurationURL := ""; gms_HardwareRequirements := None |}.
Definition zero_connection : gRedfishConnection :=
  {| grc_Address := ""; grc_CredentialsSecretRef := ""; grc_InsecureSkipVerify := None |}.
Definition zero_status : HardwareStatus := {| hs_Health := ""; hs_HealthRollup := ""; hs_State := "" |}.
Definition zero_details : HardwareDetails :=
  {| hd_Manufacturer := ""; hd_Model := ""; hd_SerialNumber := ""; hd_Status := zero_status |}.
Definition zero_endpoint : APIEndpoint := {| ep_Host := ""; ep_Port := 0 |}.
Definition zero_host_spec : gPhysicalHostSpec :=
  {| gps_RedfishConnection := zero_connection; gps_ConsumerRef := None |}.
Definition zero_host_status : gPhysicalHostStatus :=
  {| gpst_Ready := false; gpst_State := ""; gpst_ObservedPowerState := ""; gpst_ErrorMessage := "";
     gpst_HardwareDetails := zero_details; gpst_Addresses := None; gpst_InspectionReport := None;
     gpst_InspectionPhase := ""; gpst_InspectionTimestamp := None; gpst_Conditions := None |}.
Definition zero_machine_status : gBeskar7MachineStatus :=
  {| gmst_Ready := false; gmst_Phase := None; gmst_FailureReason := None; gmst_FailureMessage := None;
     gmst_Addresses := None; gmst_Conditions := None |}.
Definition zero_cluster_spec : Beskar7ClusterSpec := {| cs_ControlPlaneEndpoint := zero_endpoint |}.
Definition zero_cluster_status : gBeskar7ClusterStatus :=
  {| gcst_Ready := false; gcst_ControlPlaneEndpoint := zero_endpoint; gcst_FailureDomains := None;
     gcst_Conditions := None |}.
Definition zero_template_spec : gTemplateSpec := {| gts_Template := {| gtr_Spec := zero_spec |} |}.
Definition zero_object {S T} (s : S) (t : T) : gObject S T :=
  {| go_TypeMeta := {| tm_Kind := ""; tm_APIVersion := "" |}; go_ObjectMeta := zero_ObjectMeta;
     go_Spec := s; go_Status := t |}.

Definition zero (k : kind) : denote k :=
  match k with
  | KBool => false | KString => "" | KTime => 0
  | KObjectReference => {| or_Kind := ""; or_APIVersion := ""; or_Name := ""; or_Namespace := ""; or_UID := "" |}
  | KHardwareRequirements => {| hr_MinCPUCores := 0; hr_MinMemoryGB := 0; hr_MinDiskGB := 0 |}
  | KMachineAddress => {| ma_Type := ""; ma_Address := "" |}
  | KCondition => {| c_Type := ""; c_Status := ""; c_Severity := ""; c_Reason := ""; c_Message := "" |}
  | KCPUInfo =>
      {| cpu_ID := ""; cpu_Vendor := ""; cpu_Model := ""; cpu_Cores := 0; cpu_Threads := 0; cpu_Frequency := "" |}
  | KMemoryInfo => {| mem_ID := ""; mem_Type := ""; mem_Capacity := ""; mem_Speed := "" |}
  | KDiskInfo => {| disk_Name := ""; disk_Model := ""; disk_SizeGB := 0; disk_Type := ""; disk_SerialNumber := "" |}
  | KNICInfo =>
      {| gnic_Name := ""; gnic_MACAddress := ""; gnic_Driver := ""; gnic_Speed := ""; gnic_IPAddresses := None |}
  | KHardwareDetails => zero_details
  | KHardwareStatus => zero_status
  | KInspectionReport =>
      {| gir_Timestamp := 0; gir_Manufacturer := ""; gir_Model := ""; gir_SerialNumber := "";
         gir_BootModeDetected := ""; gir_FirmwareVersion := "";
         gir_CPUs := None; gir_Memory := None; gir_Disks := None; gir_NICs := None |}
  | KRedfishConnection => zero_connection
  | KRedfishConnectionInfo => {| rci_Address := ""; rci_CredentialsSecretRef := "" |}
  | KPhysicalHostSpec => zero_host_spec
  | KPhysicalHostStatus => zero_host_status
  | KPhysicalHost => zero_object zero_host_spec zero_host_status
  | KBeskar7MachineSpec => zero_spec
  | KBeskar7MachineStatus => zero_machine_status
  | KBeskar7Machine => zero_object zero_spec zero_machine_status
  | KBeskar7ClusterSpec => zero_cluster_spec
  | KBeskar7ClusterStatus => zero_cluster_status
  | KBeskar7Cluster => zero_object zero_cluster_spec zero_cluster_status
  | KTemplateResource => {| gtr_Spec := zero_spec |}
  | KTemplateSpec => zero_template_spec
  | KBeskar7MachineTemplate => zero_object zero_template_spec tt
  | KList => {| gl_TypeMeta := {| tm_Kind := ""; tm_APIVersion := "" |}; gl_ListMeta := zero_ListMeta; gl_Items := None |}
  | KFailureDomains => ∅
  | KAttributes => ∅
  | KMeta => zero_meta_cell
  | KSlice _ => []
  end.

Definition cell := { k : kind & denote k }.
Definition to_cell (k : kind) (x : denote k) : cell := existT k x.

#[global] Instance to_cell_inj k : Inj (=) (=) (to_cell k).
Proof. intros x y H. by apply (Eqdep_dec.inj_pair2_eq_dec _ kind_eq_dec) in H. Qed.

End Memory.

Abbreviation heap := (gmap loc cell).

Section Programs.
  Context {M : Metadata}.

(** A cell at the type a pointer to it has. *)
Definition of_cell (k : kind) (c : cell) : option (denote k) :=
  match decide (projT1 c = k) with
  | left e => Some (eq_rect _ denote (projT2 c) _ e)
  | right _ => None
  end.

Lemma of_cell_to k (x : denote k) : of_cell k (to_cell k x) = Some x.
Proof.
  unfold of_cell. cbn. destruct (decide (k = k)) as [e|]; [|done].
  by rewrite (Eqdep_dec.UIP_dec kind_eq_dec e eq_refl).
Qed.

(** *** Programs on memory

    A dereference that finds no cell of the pointer's type gets stuck, which
    is what Go's types exclude. *)
Definition mem (A : Type) := heap -> option (A * heap).

Definition mem_ret {A} (x : A) : mem A := fun h => Some (x, h).
Definition mem_bind {A B} (p : mem A) (f : A -> mem B) : mem B :=
  fun h => match p h with Some (x, h') => f x h' | None => None end.

(** [*p], [*p = x], and [new] and [make] with the contents given. *)
Definition deref (k : kind) (l : loc) : mem (denote k) :=
  fun h => match h !! l with Some c => x ← of_cell k c; Some (x, h) | None => None end.
Definition assign (k : kind) (l : loc) (x : denote k) : mem unit :=
  fun h => match h !! l with Some _ => Some (tt, <[l := to_cell k x]> h) | None => None end.
Definition alloc (k : kind) (x : denote k) : mem loc :=
  fun h => let l := fresh (dom h) in Some (l, <[l := to_cell k x]> h).

End Programs.

Notation "'let*' x ':=' p 'in' q" := (mem_bind p (fun x => q))
  (at level 10, x name, p at level 100, q at level 200) : mem_scope.
Notation "p ;;* q" := (mem_bind p (fun _ => q)) (at level 100, q at level 200, right associativity) : mem_scope.

(** ** Views *)

(** What a view reads, and the cells it visits. *)
Definition reader {M : Metadata} (A : Type) := heap -> option (A * list loc).

Section Readers.
  Context {M : Metadata}.

Definition r_ret {A} (x : A) : reader A := fun _ => Some (x, []).
Definition r_bind {A B} (r : reader A) (f : A -> reader B) : reader B :=
  fun h =>
    match r h with
    | Some (x, ls) => match f x h with Some (y, ls') => Some (y, ls ++ ls') | None => None end
    | None => None
    end.
Definition visit (k : kind) (l : loc) : reader (denote k) :=
  fun h => match h !! l with Some c => x ← of_cell k c; Some (x, [l]) | None => None end.

End Readers.

Notation "'read' x ':=' p 'in' q" := (r_bind p (fun x => q))
  (at level 10, x name, p at level 100, q at level 200) : mem_scope.

Section GenericViews.
  Context {M : Metadata}.

Fixpoint r_map {A B} (f : A -> reader B) (xs : list A) : reader (list B) :=
  match xs with
  | [] => r_ret []
  | x :: xs => read y := f x in read ys := r_map f xs in r_ret (y :: ys)
  end.

(** A cell behind a pointer, a slice or a map, with the value of [nil]. *)
Definition view_cell {W V} (k : kind) (view : denote k -> reader W) (nil : V) (some : W -> V) (p : ptr) : reader V :=
  match p with
  | None => r_ret nil
  | Some l => read x := visit k l in read v := view x in r_ret (some v)
  end.
Definition view_pointer {V} (k : kind) (view : denote k -> reader V) : ptr -> reader (option V) :=
  view_cell k view None Some.
Definition view_slice {V} (k : kind) (view : denote k -> reader V) : ptr -> reader (list V) :=
  view_cell (KSlice k) (r_map view) [] (fun l => l).

End GenericViews.

(** ** Steps of copying functions *)

Section GenericCopies.
  Context {M : Metadata}.

(** [if in.P != nil { *out = new(T); **out = **in }] *)
Definition copy_pointer (k : kind) (p : ptr) : mem ptr :=
  match p with
  | None => mem_ret None
  | Some l =>
      let* l' := alloc k (zero k) in
      let* x := deref k l in
      assign k l' x ;;* mem_ret (Some l')
  end.

(** [if in.S != nil { *out = make([]T, len( *in)); copy( *out, *in) }] *)
Definition copy_slice (k : kind) (p : ptr) : mem ptr :=
  match p with
  | None => mem_ret None
  | Some l =>
      let* xs := deref (KSlice k) l in
      let* l' := alloc (KSlice k) (replicate (length xs) (zero k)) in
      let* xs' := deref (KSlice k) l in
      assign (KSlice k) l' xs' ;;* mem_ret (Some l')
  end.

(** [if in == nil { return nil }; out := new(T); in.DeepCopyInto(out); return out] *)
Definition copy_into (k : kind) (into : denote k -> mem (denote k)) (p : ptr) : mem ptr :=
  match p with
  | None => mem_ret None
  | Some l =>
      let* l' := alloc k (zero k) in
      let* x := deref k l in
      let* x' := into x in
      assign k l' x' ;;* mem_ret (Some l')
  end.

(** [if c := in.DeepCopy(); c != nil { return c }; return nil] *)
Definition copy_object (copy : ptr -> mem ptr) (p : ptr) : mem ptr :=
  let* c := copy p in match c with Some l => mem_ret (Some l) | None => mem_ret None end.

(** A slice at the type of its elements. *)
Definition deref_slice (k : kind) (l : loc) : mem (list (denote k)) := deref (KSlice k) l.
Definition assign_slice (k : kind) (l : loc) (xs : list (denote k)) : mem unit := assign (KSlice k) l xs.

(** [for i := range *in { ( *in)[i].DeepCopyInto(&( *out)[i]) }] from index [i]
    for the remaining [n] elements. *)
Fixpoint items_loop (k : kind) (into : denote k -> mem (denote k)) (l l' : loc) (i n : nat) : mem unit :=
  match n with
  | O => mem_ret tt
  | S n =>
      let* xs := deref_slice k l in
      match xs !! i with
      | None => fun _ => None
      | Some x =>
          let* x' := into x in
          let* ys := deref_slice k l' in
          assign_slice k l' (<[i := x']> ys) ;;* items_loop k into l l' (S i) n
      end
  end.

Definition copy_items (k : kind) (into : denote k -> mem (denote k)) (p : ptr) : mem ptr :=
  match p with
  | None => mem_ret None
  | Some l =>
      let* xs := deref_slice k l in
      let* l' := alloc (KSlice k) (replicate (length xs) (zero k)) in
      items_loop k into l l' 0 (length xs) ;;* mem_ret (Some l')
  end.

End GenericCopies.

(** ** What a reader depends on

    Its answer depends on the cells it visits only, and those exist. *)

Class Framed {M : Metadata} {A} (r : reader A) : Prop := {
  frame h h' x ls : r h = Some (x, ls) -> (forall l, l ∈ ls -> h' !! l = h !! l) -> r h' = Some (x, ls);
  visited h x ls l : r h = Some (x, ls) -> l ∈ ls -> l ∈ dom h
}.

(** A copy of what [view] reads.  The copying succeeds on every struct the view
    can read, leaves all cells as they were and gives a struct of the same
    value; of the old cells the copy refers only to those [shared] names. *)
Definition sharing {M : Metadata} (A : Type) := heap -> A -> loc -> Prop.
Record deep {M : Metadata} {A V} (view : A -> reader V) (copy : A -> mem A) (shared : sharing A) : Prop := {
  deep_copy h x v ls :
    view x h = Some (v, ls) ->
    exists x' h' ls', copy x h = Some (x', h') /\ h ⊆ h' /\ view x' h' = Some (v, ls') /\
      forall l, l ∈ ls' -> l ∈ dom h -> l ∈ ls /\ shared h x l;
  deep_stable h h' x v ls l :
    view x h = Some (v, ls) -> h ⊆ h' -> shared h' x l -> shared h x l
}.
Definition nothing {M : Metadata} {A} : sharing A := fun _ _ _ => False.

Section ReaderLemmas.
  Context {M : Metadata}.

Lemma r_bind_Some {A B} (r : reader A) (f : A -> reader B) h y ls :
  r_bind r f h = Some (y, ls) <->
  exists x l1 l2, r h = Some (x, l1) /\ f x h = Some (y, l2) /\ ls = l1 ++ l2.
Proof. unfold r_bind. repeat case_match; naive_solver. Qed.

Lemma r_ret_Some {A} (x y : A) h ls : r_ret x h = Some (y, ls) <-> x = y /\ ls = [].
Proof. unfold r_ret. naive_solver. Qed.

Lemma visit_Some k l h x ls :
  visit k l h = Some (x, ls) <-> h !! l = Some (to_cell k x) /\ ls = [l].
Proof.
  unfold visit. destruct (h !! l) as [[k' y]|]; [|naive_solver]. unfold of_cell. cbn.
  destruct (decide (k' = k)) as [->|Hk]; cbn.
  - change (existT k y) with (to_cell k y). naive_solver.
  - split; [done|]. intros [[= <-] _]. done.
Qed.

#[global] Instance r_ret_framed {A} (x : A) : Framed (r_ret x).
Proof. split; unfold r_ret; intros; simplify_eq; [done|set_solver]. Qed.
#[global] Instance r_bind_framed {A B} (r : reader A) (f : A -> reader B) :
  Framed r -> (forall x, Framed (f x)) -> Framed (r_bind r f).
Proof.
  intros Hr Hf. split.
  - intros h h' y ls (x & l1 & l2 & H1 & H2 & ->)%r_bind_Some Hag. apply r_bind_Some.
    exists x, l1, l2.
    split; [eapply (frame (r := r)); [exact H1|set_solver]|].
    split; [eapply (frame (r := f x)); [exact H2|set_solver]|done].
  - intros h y ls l (x & l1 & l2 & H1 & H2 & ->)%r_bind_Some [?|?]%elem_of_app.
    + eapply (visited (r := r)); [exact H1|done].
    + eapply (visited (r := f x)); [exact H2|done].
Qed.
#[global] Instance visit_framed k l : Framed (visit k l).
Proof.
  split.
  - intros h h' x ls [H ->]%visit_Some Hag. apply visit_Some. split; [|done]. rewrite Hag; [done|by apply list_elem_of_singleton].
  - intros h x ls l' [H ->]%visit_Some ->%list_elem_of_singleton. by apply elem_of_dom.
Qed.
#[global] Instance r_map_framed {A B} (f : A -> reader B) xs : (forall x, Framed (f x)) -> Framed (r_map f xs).
Proof. intros. induction xs; cbn [r_map]; apply _. Qed.
#[global] Instance view_cell_framed {W V} k (view : denote k -> reader W) (nil : V) some p :
  (forall x, Framed (view x)) -> Framed (view_cell k view nil some p).
Proof. intros. destruct p; cbn [view_cell]; apply _. Qed.
#[global] Instance view_pointer_framed {V} k (view : denote k -> reader V) p :
  (forall x, Framed (view x)) -> Framed (view_pointer k view p).
Proof. apply view_cell_framed. Qed.
#[global] Instance view_slice_framed {V} k (view : denote k -> reader V) p :
  (forall x, Framed (view x)) -> Framed (view_slice k view p).
Proof. intros. apply (view_cell_framed (KSlice k)). intros xs. by apply r_map_framed. Qed.

Lemma view_cell_Some {W V} k (view : denote k -> reader W) (nil : V) some a h v ls :
  view_cell k view nil some (Some a) h = Some (v, ls) <->
  exists x w l, h !! a = Some (to_cell k x) /\ view x h = Some (w, l) /\ v = some w /\ ls = a :: l.
Proof.
  cbn [view_cell]. rewrite r_bind_Some. setoid_rewrite r_bind_Some. setoid_rewrite visit_Some.
  setoid_rewrite r_ret_Some. split.
  - intros (x & ? & ? & [Hx ->] & (w & l & ? & Hw & [<- ->] & ->) & ->). rewrite app_nil_r. by eauto 10.
  - intros (x & w & l & Hx & Hw & -> & ->). exists x, [a], l. split_and!; [done..| |done].
    exists w, l, []. by rewrite app_nil_r.
Qed.

(** A view keeps its answer when memory grows. *)
Lemma grow {A} (r : reader A) `{!Framed r} h h' x ls :
  r h = Some (x, ls) -> h ⊆ h' -> r h' = Some (x, ls).
Proof.
  intros H Hsub. eapply frame; [done|]. intros l Hl. eapply visited in Hl; [|done].
  apply elem_of_dom in Hl as [c Hc]. rewrite Hc. by eapply lookup_weaken.
Qed.

End ReaderLemmas.

(** ** Copies of pointers and slices *)

Section Combinators.
  Context {M : Metadata}.

Lemma deref_Some k l (x : denote k) h : h !! l = Some (to_cell k x) -> deref k l h = Some (x, h).
Proof. intros H. unfold deref. by rewrite H, of_cell_to. Qed.
Lemma assign_Some k l (x : denote k) h : l ∈ dom h -> assign k l x h = Some (tt, <[l := to_cell k x]> h).
Proof. intros [c H]%elem_of_dom. unfold assign. by rewrite H. Qed.
Lemma deref_slice_Some k l xs h : h !! l = Some (to_cell (KSlice k) xs) -> deref_slice k l h = Some (xs, h).
Proof. apply (deref_Some (KSlice k)). Qed.
Lemma assign_slice_Some k l xs h : l ∈ dom h -> assign_slice k l xs h = Some (tt, <[l := to_cell (KSlice k) xs]> h).
Proof. apply (assign_Some (KSlice k)). Qed.
Lemma alloc_Some k (x : denote k) h :
  exists l, alloc k x h = Some (l, <[l := to_cell k x]> h) /\ l ∉ dom h.
Proof. eexists. split; [done|]. apply is_fresh. Qed.
Lemma mem_bind_Some {A B} (p : mem A) (f : A -> mem B) h x h' :
  p h = Some (x, h') -> mem_bind p f h = f x h'.
Proof. intros H. unfold mem_bind. by rewrite H. Qed.

(** Memory outside [h] may change under an extension of [h]. *)
Lemma subseteq_insert_new (h h' : heap) l c : l ∉ dom h -> h ⊆ h' -> h ⊆ <[l := c]> h'.
Proof. intros Hl ?. apply insert_subseteq_r; [by apply not_elem_of_dom|done]. Qed.
Lemma frame_insert {A} (r : reader A) `{!Framed r} h x ls l c :
  r h = Some (x, ls) -> l ∉ ls -> r (<[l := c]> h) = Some (x, ls).
Proof. intros H Hl. eapply frame; [done|]. intros l' Hl'. apply lookup_insert_ne. set_solver. Qed.

Lemma dom_grow (h h' : heap) l : h ⊆ h' -> l ∈ dom h -> l ∈ dom h'.
Proof. intros Hsub [c Hc]%elem_of_dom. apply elem_of_dom. exists c. by eapply lookup_weaken. Qed.

Lemma deep_plain {A} : deep (fun x : A => r_ret x) mem_ret nothing.
Proof. split; [|by unfold nothing]. intros h x v ls [-> ->]%r_ret_Some. exists v, h, []. by repeat split; try apply elem_of_nil in H. Qed.

(** Sharing below a pointer. *)
Definition below (k : kind) (shared : sharing (denote k)) : sharing ptr :=
  fun h p l => exists a x, p = Some a /\ h !! a = Some (to_cell k x) /\ shared h x l.

Lemma below_stable {W V} k (view : denote k -> reader W) (nil : V) some (shared : sharing (denote k)) h h' p v ls l :
  (forall x w lw, view x h = Some (w, lw) -> shared h' x l -> shared h x l) ->
  view_cell k view nil some p h = Some (v, ls) -> h ⊆ h' -> below k shared h' p l -> below k shared h p l.
Proof.
  intros Hst Hv Hsub (a & x & -> & Ha & Hs). apply view_cell_Some in Hv as (y & w & lw & Hy & Hw & -> & ->).
  assert (x = y) as ->.
  { apply (inj (to_cell k)). pose proof (lookup_weaken _ _ _ _ Hy Hsub). congruence. }
  exists a, y. split_and!; [done..|]. by eapply Hst.
Qed.

Lemma deep_into {V} k (view : denote k -> reader V) into shared :
  (forall x, Framed (view x)) -> deep view into shared ->
  deep (view_pointer k view) (copy_into k into) (below k shared).
Proof.
  intros HF HD. unfold view_pointer. split.
  - intros h [a|] v ls Hv; cycle 1.
    { injection Hv as <- <-. exists None, h, []. by repeat split; try apply elem_of_nil in H. }
    apply view_cell_Some in Hv as (x & w & lw & Ha & Hv & -> & ->).
    destruct (alloc_Some k (zero k) h) as (b & Hb & Hfresh).
    assert (h ⊆ <[b := to_cell k (zero k)]> h) as Hsub by by apply subseteq_insert_new.
    destruct (deep_copy _ _ _ HD _ _ _ _ (grow (view x) _ _ _ _ Hv Hsub)) as (x' & h2 & ls' & Hc & Hsub2 & Hv' & Hsh).
    assert (b ∉ ls') as Hb'.
    { intros Hb'. destruct (Hsh b Hb') as [Hin _]; [set_solver|]. apply Hfresh. by eapply (visited (r := view x)). }
    assert (b ∈ dom h2) as Hd2 by (eapply dom_grow; [done|set_solver]).
    exists (Some b), (<[b := to_cell k x']> h2), (b :: ls'). split_and!.
    + unfold copy_into. rewrite (mem_bind_Some _ _ _ _ _ Hb).
      rewrite (mem_bind_Some _ _ _ _ _ (deref_Some _ _ x _ (lookup_weaken _ _ _ _ Ha Hsub))).
      by rewrite (mem_bind_Some _ _ _ _ _ Hc), (mem_bind_Some _ _ _ _ _ (assign_Some _ _ _ _ Hd2)).
    + apply subseteq_insert_new; [done|]. by etrans.
    + apply view_cell_Some. exists x', w, ls'. split_and!; [by rewrite lookup_insert_eq|by apply frame_insert|done..].
    + intros l [->|Hl]%elem_of_cons Hd; [done|].
      destruct (Hsh l Hl) as [? Hs]; [set_solver|]. split; [set_solver|]. exists a, x. split_and!; [done..|].
      exact (deep_stable _ _ _ HD _ _ _ _ _ _ Hv Hsub Hs).
  - intros h h' p v ls l Hv Hsub. eapply below_stable; [|done..]. intros x w lw Hx.
    exact (deep_stable _ _ _ HD _ _ _ _ _ _ Hx Hsub).
Qed.

(** A new cell with the old contents: the copy shares what is below them. *)
Definition visited_by {W} (k : kind) (view : denote k -> reader W) : sharing (denote k) :=
  fun h x l => exists w ls, view x h = Some (w, ls) /\ l ∈ ls.

Lemma deep_shallow {W V} k (view : denote k -> reader W) (nil : V) some copy :
  (forall x, Framed (view x)) ->
  (forall h, copy None h = Some (None, h)) ->
  (forall h a x, h !! a = Some (to_cell k x) ->
     exists b, copy (Some a) h = Some (Some b, <[b := to_cell k x]> h) /\ b ∉ dom h) ->
  deep (view_cell k view nil some) copy (below k (visited_by k view)).
Proof.
  intros HF Hnil Hcopy. split.
  - intros h [a|] v ls Hv; cycle 1.
    { injection Hv as <- <-. exists None, h, []. by repeat split; try apply elem_of_nil in H. }
    apply view_cell_Some in Hv as (x & w & lw & Ha & Hv & -> & ->).
    destruct (Hcopy h a x Ha) as (b & Hb & Hfresh).
    exists (Some b), (<[b := to_cell k x]> h), (b :: lw). split_and!; [done|by apply subseteq_insert_new|..].
    + apply view_cell_Some. exists x, w, lw. split_and!; [by rewrite lookup_insert_eq| |done..].
      apply frame_insert; [apply _|done|]. intros Hin. apply Hfresh. by eapply (visited (r := view x)).
    + intros l [->|Hl]%elem_of_cons Hd; [done|]. split; [set_solver|].
      exists a, x. split_and!; [done..|]. by exists w, lw.
  - intros h h' p v ls l Hv Hsub. eapply below_stable; [|done..].
    intros x w lw Hx (w' & lw' & Hx' & Hl). exists w, lw. split; [done|].
    pose proof (grow (view x) _ _ _ _ Hx Hsub). congruence.
Qed.

(** The same copy, described otherwise. *)
Lemma deep_ext {A V} (view : A -> reader V) copy copy' (shared shared' : sharing A) :
  deep view copy shared -> (forall x h, copy' x h = copy x h) ->
  (forall h x l, shared h x l <-> shared' h x l) -> deep view copy' shared'.
Proof.
  intros [Hc Hs] Hcopy Hsh. split.
  - intros h x v ls Hv. destruct (Hc h x v ls Hv) as (x' & h' & ls' & ? & ? & ? & Hl).
    exists x', h', ls'. rewrite Hcopy. split_and!; [done..|]. intros l. rewrite <- Hsh. apply Hl.
  - intros h h' x v ls l. rewrite <- !Hsh. apply Hs.
Qed.

Lemma deep_pointer k : deep (view_pointer k (fun x => r_ret x)) (copy_pointer k) nothing.
Proof.
  eapply deep_ext; [apply (deep_into k _ mem_ret nothing); [apply _|apply deep_plain]|by intros [l|] h|].
  intros h p l. split; [|done]. by intros (? & ? & _ & _ & []).
Qed.

Lemma copy_slice_shallow k h a xs :
  h !! a = Some (to_cell (KSlice k) xs) ->
  exists b, copy_slice k (Some a) h = Some (Some b, <[b := to_cell (KSlice k) xs]> h) /\ b ∉ dom h.
Proof.
  intros Ha. destruct (alloc_Some (KSlice k) (replicate (length xs) (zero k)) h) as (b & Hb & Hfresh).
  exists b. split; [|done]. unfold copy_slice. rewrite (mem_bind_Some _ _ _ _ _ (deref_Some _ _ _ _ Ha)).
  rewrite (mem_bind_Some _ _ _ _ _ Hb).
  erewrite mem_bind_Some; [|apply deref_Some; eapply lookup_weaken; [exact Ha|by apply subseteq_insert_new]].
  erewrite mem_bind_Some; [|apply assign_Some; set_solver]. by rewrite insert_insert_eq.
Qed.

Lemma deep_slice {V} k (view : denote k -> reader V) :
  (forall x, Framed (view x)) ->
  deep (view_slice k view) (copy_slice k) (below (KSlice k) (visited_by (KSlice k) (r_map view))).
Proof.
  intros HF. apply (deep_shallow (KSlice k)); [intros xs; by apply r_map_framed|done|]. apply copy_slice_shallow.
Qed.

Lemma r_map_plain {A} (xs : list A) h : r_map (fun x => r_ret x) xs h = Some (xs, []).
Proof. induction xs as [|x xs IH]; [done|]. cbn [r_map]. unfold r_bind at 1. cbn. unfold r_bind. by rewrite IH. Qed.

Lemma deep_slice_plain k : deep (view_slice k (fun x => r_ret x)) (copy_slice k) nothing.
Proof.
  eapply deep_ext; [apply deep_slice; apply _|done|]. intros h p l. split; [|done].
  intros (a & xs & _ & _ & ys & ls & Hr & Hl). rewrite (r_map_plain xs) in Hr. simplify_eq. by apply elem_of_nil in Hl.
Qed.

Lemma r_map_snoc {A B} (f : A -> reader B) xs x h ys ls y ly :
  r_map f xs h = Some (ys, ls) -> f x h = Some (y, ly) ->
  r_map f (xs ++ [x]) h = Some (ys ++ [y], ls ++ ly).
Proof.
  intros Hxs Hx. revert ys ls Hxs. induction xs as [|z xs IH]; intros ys ls Hxs.
  - injection Hxs as <- <-. cbn. unfold r_bind. rewrite Hx. cbn. by rewrite app_nil_r.
  - cbn [r_map app] in *. apply r_bind_Some in Hxs as (w & l1 & l2 & H1 & H2 & ->).
    apply r_bind_Some in H2 as (ws & l3 & l4 & H3 & [<- ->]%r_ret_Some & ->).
    apply r_bind_Some. exists w, l1, (l3 ++ ly). split_and!; [done| |by rewrite app_nil_r, app_assoc].
    apply r_bind_Some. exists (ws ++ [y]), (l3 ++ ly), []. rewrite app_nil_r. by split; [apply IH|].
Qed.

Lemma r_map_elem {A B} (f : A -> reader B) xs x h ys ls :
  r_map f xs h = Some (ys, ls) -> x ∈ xs -> exists y ly, f x h = Some (y, ly).
Proof.
  intros H Hx. revert ys ls H. induction Hx as [xs|x z xs Hx IH]; intros ys ls H; cbn [r_map] in H;
    apply r_bind_Some in H as (w & l1 & l2 & H1 & H2 & ->); [by eauto|].
  apply r_bind_Some in H2 as (ws & l3 & l4 & H3 & _). by eapply IH.
Qed.

Section Items.
  Context {V} (k : kind) (view : denote k -> reader V) (into : denote k -> mem (denote k)).
  Context (shared : sharing (denote k)) (HF : forall x, Framed (view x)) (HD : deep view into shared).

(** Sharing below the elements of a slice. *)
Definition shared_item : sharing (denote (KSlice k)) := fun h xs l => exists x, x ∈ xs /\ shared h x l.

(** The loop, in memory [hi] grown from [h] by the new slice [b] and the copies
    [ys1] made so far. *)
Lemma items_loop_deep h a b (xs1 xs2 : list (denote k)) hi (ys1 rest : list (denote k)) vs1 vs2 ls1 ls2 :
  h !! a = Some (to_cell (KSlice k) (xs1 ++ xs2)) -> b ∉ dom h ->
  r_map view xs2 h = Some (vs2, ls2) ->
  h ⊆ hi -> hi !! b = Some (to_cell (KSlice k) (ys1 ++ rest)) ->
  length ys1 = length xs1 -> length rest = length xs2 ->
  r_map view ys1 hi = Some (vs1, ls1) -> b ∉ ls1 ->
  exists h' (ys2 : list (denote k)) ls', items_loop k into a b (length xs1) (length xs2) hi = Some (tt, h') /\ h ⊆ h' /\
    h' !! b = Some (to_cell (KSlice k) (ys1 ++ ys2)) /\
    r_map view (ys1 ++ ys2) h' = Some (vs1 ++ vs2, ls1 ++ ls') /\
    forall l, l ∈ ls' -> l ∈ dom h -> l ∈ ls2 /\ exists x, x ∈ xs2 /\ shared h x l.
Proof.
  revert xs1 hi ys1 rest vs1 ls1 vs2 ls2.
  induction xs2 as [|x xs2 IH]; intros xs1 hi ys1 rest vs1 ls1 vs2 ls2 Ha Hb Hxs Hsub Hhb Hlen Hrest Hys Hb1.
  - injection Hxs as <- <-. apply length_zero_iff_nil in Hrest as ->.
    exists hi, [], []. rewrite !app_nil_r in *. split_and!; try done. by intros l ?%elem_of_nil.
  - cbn [r_map] in Hxs. apply r_bind_Some in Hxs as (v & lx & l2 & Hx & Hxs & ->).
    apply r_bind_Some in Hxs as (vs & l3 & l4 & Hxs & [<- ->]%r_ret_Some & ->). rewrite app_nil_r.
    destruct rest as [|r rest]; [done|].
    destruct (deep_copy _ _ _ HD _ _ _ _ (grow (view x) _ _ _ _ Hx Hsub)) as (x' & h2 & lx' & Hc & Hsub2 & Hv & Hsh).
    assert (b ∉ lx') as Hbx.
    { intros Hin. apply Hb. apply (visited (r := view x) _ _ _ _ Hx).
      apply (Hsh b Hin). apply elem_of_dom. by eexists. }
    pose proof (lookup_weaken _ _ _ _ Hhb Hsub2) as Hhb2.
    set (h3 := <[b := to_cell (KSlice k) ((ys1 ++ [x']) ++ rest)]> h2).
    edestruct (IH (xs1 ++ [x]) h3 (ys1 ++ [x']) rest (vs1 ++ [v]) (ls1 ++ lx') vs l3)
      as (h' & ys2 & ls' & Hloop & Hsub' & Hb' & Hr & Hsh').
    + by rewrite <- app_assoc.
    + done.
    + done.
    + apply subseteq_insert_new; [done|by etrans].
    + apply lookup_insert_eq.
    + rewrite !length_app. cbn. lia.
    + cbn in Hrest. lia.
    + apply frame_insert; [apply _| |set_solver]. by apply r_map_snoc; [eapply grow; [apply _|..]|].
    + set_solver.
    + exists h', (x' :: ys2), (lx' ++ ls'). rewrite <- !app_assoc in *. split_and!; try done.
      * cbn [items_loop length].
        rewrite (mem_bind_Some _ _ _ _ _ (deref_slice_Some _ _ _ _ (lookup_weaken _ _ _ _ Ha Hsub))).
        rewrite list_lookup_middle by done. rewrite (mem_bind_Some _ _ _ _ _ Hc).
        rewrite (mem_bind_Some _ _ _ _ _ (deref_slice_Some _ _ _ _ Hhb2)).
        erewrite mem_bind_Some; [|apply assign_slice_Some; apply elem_of_dom; by eexists].
        rewrite insert_app_r_alt, Hlen, Nat.sub_diag by lia. cbn [insert list_insert].
        subst h3. rewrite length_app, Nat.add_1_r, <- app_assoc in Hloop. exact Hloop.
      * intros l [Hl|Hl]%elem_of_app Hd.
        -- destruct (Hsh l Hl) as [? Hs]; [by eapply dom_grow|]. split; [set_solver|].
           exists x. split; [set_solver|]. exact (deep_stable _ _ _ HD _ _ _ _ _ _ Hx Hsub Hs).
        -- destruct (Hsh' l Hl Hd) as [? (z & ? & ?)]. split; [set_solver|]. exists z. split; [set_solver|done].
Qed.

Lemma deep_items : deep (view_slice k view) (copy_items k into) (below (KSlice k) shared_item).
Proof.
  unfold view_slice. split.
  - intros h [a|] v ls Hv; cycle 1.
    { injection Hv as <- <-. exists None, h, []. by repeat split; try apply elem_of_nil in H. }
    apply view_cell_Some in Hv as (xs & w & l2 & Ha & Hv & -> & ->).
    destruct (alloc_Some (KSlice k) (replicate (length xs) (zero k)) h) as (b & Hb & Hfresh).
    edestruct (items_loop_deep h a b [] xs (<[b := to_cell (KSlice k) (replicate (length xs) (zero k))]> h) []
                 (replicate (length xs) (zero k)) [] w [] l2) as (h' & ys & ls' & Hloop & Hsub & Hb' & Hr & Hsh);
      try done; [by apply subseteq_insert_new|by apply lookup_insert_eq|by rewrite length_replicate|by apply not_elem_of_nil|].
    exists (Some b), h', (b :: ls'). split_and!; [|done|..].
    + unfold copy_items. rewrite (mem_bind_Some _ _ _ _ _ (deref_slice_Some _ _ _ _ Ha)).
      rewrite (mem_bind_Some _ _ _ _ _ Hb). by erewrite mem_bind_Some; [|exact Hloop].
    + apply view_cell_Some. by exists ys, w, ls'.
    + intros l [->|Hl]%elem_of_cons Hd; [done|]. destruct (Hsh l Hl Hd) as [? (x & ? & ?)].
      split; [set_solver|]. exists a, xs. split_and!; [done..|]. by exists x.
  - intros h h' p v ls l Hv Hsub. eapply below_stable; [|done..].
    intros xs w lw Hxs (x & Hx & Hs). exists x. split; [done|].
    destruct (r_map_elem view xs x h w lw Hxs Hx) as (vx & lx & Hvx).
    exact (deep_stable _ _ _ HD _ _ _ _ _ _ Hvx Hsub Hs).
Qed.
End Items.

(** *** Structs

    A struct is copied field by field; a field that is only assigned is shared. *)

Lemma deep_assigned {A V} (view : A -> reader V) {HF : forall x, Framed (view x)} :
  deep view mem_ret (fun h x l => exists v ls, view x h = Some (v, ls) /\ l ∈ ls).
Proof.
  split.
  - intros h x v ls Hv. exists x, h, ls. split_and!; [done..|]. by eauto.
  - intros h h' x v ls l Hv Hsub (v' & ls' & Hv' & Hl). exists v, ls. split; [done|].
    pose proof (grow (view x) _ _ _ _ Hv Hsub). congruence.
Qed.

Lemma deep_pair {A B V W} {va : A -> reader V} {vb : B -> reader W} {ca cb sa sb}
    {HFa : forall x, Framed (va x)} {HFb : forall y, Framed (vb y)} :
  deep va ca sa -> deep vb cb sb ->
  deep (fun p => read a := va p.1 in read b := vb p.2 in r_ret (a, b))
    (fun p => let* a := ca p.1 in let* b := cb p.2 in mem_ret (a, b))
    (fun h p l => sa h p.1 l \/ sb h p.2 l).
Proof.
  intros Ha Hb. split.
  - intros h [x y] v ls (a & l1 & l2 & Hx & (b & l3 & l4 & Hy & [<- ->]%r_ret_Some & ->)%r_bind_Some & ->)%r_bind_Some.
    cbn [fst snd] in *.
    destruct (deep_copy _ _ _ Ha _ _ _ _ Hx) as (x' & h1 & lx & Cx & S1 & Vx & Sx).
    destruct (deep_copy _ _ _ Hb _ _ _ _ (grow (vb y) _ _ _ _ Hy S1)) as (y' & h2 & ly & Cy & S2 & Vy & Sy).
    exists (x', y'), h2, (lx ++ ly ++ []). split_and!; [|by etrans|..].
    + by rewrite (mem_bind_Some _ _ _ _ _ Cx), (mem_bind_Some _ _ _ _ _ Cy).
    + apply r_bind_Some. exists a, lx, (ly ++ []). split_and!; [by eapply (grow (va x'))| |done].
      apply r_bind_Some. by exists b, ly, [].
    + rewrite !app_nil_r. intros l [Hl|Hl]%elem_of_app Hd.
      * destruct (Sx l Hl Hd). set_solver.
      * destruct (Sy l Hl) as [? Hs]; [by eapply dom_grow|]. split; [set_solver|]. right.
        exact (deep_stable _ _ _ Hb _ _ _ _ _ _ Hy S1 Hs).
  - intros h h' [x y] v ls l (a & l1 & l2 & Hx & (b & l3 & l4 & Hy & _)%r_bind_Some & _)%r_bind_Some Hsub [Hs|Hs].
    + left. exact (deep_stable _ _ _ Ha _ _ _ _ _ _ Hx Hsub Hs).
    + right. exact (deep_stable _ _ _ Hb _ _ _ _ _ _ Hy Hsub Hs).
Qed.

(** A struct [A] with the copied fields [f], set by [g], and read into a value by
    [mk]. *)
Lemma deep_struct {A B V W} (w : B -> reader W) c s (f : A -> B) (g : A -> B -> A) (mk : A -> W -> V) view copy :
  deep w c s ->
  (forall x y, f (g x y) = y) -> (forall x y v, mk (g x y) v = mk x v) ->
  (forall x h, view x h = match w (f x) h with Some (b, ls) => Some (mk x b, ls) | None => None end) ->
  (forall x h, copy x h = match c (f x) h with Some (y, h') => Some (g x y, h') | None => None end) ->
  deep view copy (fun h x l => s h (f x) l).
Proof.
  intros HD Hf Hmk Hview Hcopy. split.
  - intros h x v ls Hv. rewrite Hview in Hv. destruct (w (f x) h) as [[b lb]|] eqn:Hb; simplify_eq.
    destruct (deep_copy _ _ _ HD _ _ _ _ Hb) as (y & h' & ls' & Hc & Hsub & Hw & Hs).
    exists (g x y), h', ls'. rewrite Hcopy, Hc, Hview, Hf, Hw, Hmk. done.
  - intros h h' x v ls l Hv Hsub Hs. rewrite Hview in Hv. destruct (w (f x) h) as [[b lb]|] eqn:Hb; simplify_eq.
    exact (deep_stable _ _ _ HD _ _ _ _ _ _ Hb Hsub Hs).
Qed.

Lemma deep_weaken {A V} (view : A -> reader V) copy (shared shared' : sharing A) :
  deep view copy shared ->
  (forall h x v ls l, view x h = Some (v, ls) -> shared h x l -> shared' h x l) ->
  (forall h h' x v ls l, view x h = Some (v, ls) -> h ⊆ h' -> shared' h' x l -> shared' h x l) ->
  deep view copy shared'.
Proof.
  intros HD Hsh Hst. split; [|done]. intros h x v ls Hv.
  destruct (deep_copy _ _ _ HD h x v ls Hv) as (x' & h' & ls' & ? & ? & ? & Hl).
  exists x', h', ls'. split_and!; [done..|]. intros l Hl1 Hl2. destruct (Hl l Hl1 Hl2). by eauto.
Qed.

End Combinators.

(** The side conditions of [deep_struct]: taking the fields apart and together
    again, and the same steps of a view and of a copy in another grouping. *)
Ltac head_of e := match e with ?f _ => head_of f | _ => e end.
Ltac regroup :=
  unfold r_bind, r_ret, mem_bind, mem_ret; cbn [fst snd];
  repeat (case_match; simplify_eq); rewrite ?app_nil_r, <- ?app_assoc; try done.
Ltac same_steps := intros; match goal with |- ?e = _ => let f := head_of e in unfold f end; regroup.
