(* ===== verification/DeepCopy.v ===== *)
(** * Deep copies: zz_generated.deepcopy.go and the hand-written ones

    The functions [DeepCopyInto], [DeepCopy] and [DeepCopyObject] of the API
    types on the memory of Heap.v, the views that read the types back as values
    of Api.v, and which cells a copy shares with its original.

    The metadata types and their copies belong to apimachinery; they are the
    fields of the classes [Metadata] and [MetadataOps], with the documented
    behaviour as [MetadataLaws]. *)

From S2P Require Import Prelude Api Heap.

Local Open Scope mem_scope.

(** The copying functions of apimachinery, and what their values mean. *)
Class MetadataOps {M : Metadata} := {
  ObjectMeta_DeepCopyInto : gObjectMeta -> mem gObjectMeta;
  ListMeta_DeepCopyInto : gListMeta -> mem gListMeta;
  Time_DeepCopyInto : Z -> Z;
  Time_DeepCopy : loc -> mem loc;
  ListMeta : Type;
  view_ObjectMeta : gObjectMeta -> reader ObjectMeta;
  view_ListMeta : gListMeta -> reader ListMeta
}.

(** ** Copies *)

Section Copies.
  Context {M : Metadata} {Ops : MetadataOps}.

(** *** The types of a host *)

Definition CPUInfo_DeepCopyInto (x : CPUInfo) : mem CPUInfo := mem_ret x.
Definition DiskInfo_DeepCopyInto (x : DiskInfo) : mem DiskInfo := mem_ret x.
Definition MemoryInfo_DeepCopyInto (x : MemoryInfo) : mem MemoryInfo := mem_ret x.
Definition HardwareStatus_DeepCopyInto (x : HardwareStatus) : mem HardwareStatus := mem_ret x.
Definition HardwareDetails_DeepCopyInto (x : HardwareDetails) : mem HardwareDetails :=
  mem_ret {| hd_Manufacturer := hd_Manufacturer x; hd_Model := hd_Model x;
             hd_SerialNumber := hd_SerialNumber x; hd_Status := hd_Status x |}.
Definition RedfishConnectionInfo_DeepCopyInto (x : RedfishConnectionInfo) : mem RedfishConnectionInfo := mem_ret x.

Definition NICInfo_DeepCopyInto (x : gNICInfo) : mem gNICInfo :=
  let* ips := copy_slice KString (gnic_IPAddresses x) in
  mem_ret {| gnic_Name := gnic_Name x; gnic_MACAddress := gnic_MACAddress x; gnic_Driver := gnic_Driver x;
             gnic_Speed := gnic_Speed x; gnic_IPAddresses := ips |}.

Definition RedfishConnection_DeepCopyInto (x : gRedfishConnection) : mem gRedfishConnection :=
  let* skip := copy_pointer KBool (grc_InsecureSkipVerify x) in
  mem_ret {| grc_Address := grc_Address x; grc_CredentialsSecretRef := grc_CredentialsSecretRef x;
             grc_InsecureSkipVerify := skip |}.

(** The connection is assigned, not copied. *)
Definition PhysicalHostSpec_DeepCopyInto (x : gPhysicalHostSpec) : mem gPhysicalHostSpec :=
  let* ref := copy_pointer KObjectReference (gps_ConsumerRef x) in
  mem_ret {| gps_RedfishConnection := gps_RedfishConnection x; gps_ConsumerRef := ref |}.

(** The elements of all four slices are assigned, those of [NICs] too. *)
Definition InspectionReport_DeepCopyInto (x : gInspectionReport) : mem gInspectionReport :=
  let* cpus := copy_slice KCPUInfo (gir_CPUs x) in
  let* memory := copy_slice KMemoryInfo (gir_Memory x) in
  let* disks := copy_slice KDiskInfo (gir_Disks x) in
  let* nics := copy_slice KNICInfo (gir_NICs x) in
  mem_ret {| gir_Timestamp := Time_DeepCopyInto (gir_Timestamp x); gir_Manufacturer := gir_Manufacturer x;
             gir_Model := gir_Model x; gir_SerialNumber := gir_SerialNumber x;
             gir_BootModeDetected := gir_BootModeDetected x; gir_FirmwareVersion := gir_FirmwareVersion x;
             gir_CPUs := cpus; gir_Memory := memory; gir_Disks := disks; gir_NICs := nics |}.

(** [if in.T != nil { *out = ( *in).DeepCopy() }] *)
Definition copy_time (p : ptr) : mem ptr :=
  match p with
  | None => mem_ret None
  | Some l => let* l' := Time_DeepCopy l in mem_ret (Some l')
  end.

Definition PhysicalHostStatus_DeepCopyInto (x : gPhysicalHostStatus) : mem gPhysicalHostStatus :=
  let* addresses := copy_slice KMachineAddress (gpst_Addresses x) in
  let* report := copy_into KInspectionReport InspectionReport_DeepCopyInto (gpst_InspectionReport x) in
  let* timestamp := copy_time (gpst_InspectionTimestamp x) in
  let* conditions := copy_slice KCondition (gpst_Conditions x) in
  mem_ret {| gpst_Ready := gpst_Ready x; gpst_State := gpst_State x;
             gpst_ObservedPowerState := gpst_ObservedPowerState x; gpst_ErrorMessage := gpst_ErrorMessage x;
             gpst_HardwareDetails := gpst_HardwareDetails x; gpst_Addresses := addresses;
             gpst_InspectionReport := report; gpst_InspectionPhase := gpst_InspectionPhase x;
             gpst_InspectionTimestamp := timestamp; gpst_Conditions := conditions |}.

(** *** The types of a machine and of a cluster *)

Definition HardwareRequirements_DeepCopyInto (x : HardwareRequirements) : mem HardwareRequirements := mem_ret x.

Definition Beskar7MachineSpec_DeepCopyInto (x : gBeskar7MachineSpec) : mem gBeskar7MachineSpec :=
  let* id := copy_pointer KString (gms_ProviderID x) in
  let* reqs := copy_pointer KHardwareRequirements (gms_HardwareRequirements x) in
  mem_ret {| gms_ProviderID := id; gms_InspectionImageURL := gms_InspectionImageURL x;
             gms_TargetImageURL := gms_TargetImageURL x; gms_ConfigurationURL := gms_ConfigurationURL x;
             gms_HardwareRequirements := reqs |}.

Definition Beskar7MachineStatus_DeepCopyInto (x : gBeskar7MachineStatus) : mem gBeskar7MachineStatus :=
  let* phase := copy_pointer KString (gmst_Phase x) in
  let* reason := copy_pointer KString (gmst_FailureReason x) in
  let* message := copy_pointer KString (gmst_FailureMessage x) in
  let* addresses := copy_slice KMachineAddress (gmst_Addresses x) in
  let* conditions := copy_slice KCondition (gmst_Conditions x) in
  mem_ret {| gmst_Ready := gmst_Ready x; gmst_Phase := phase; gmst_FailureReason := reason;
             gmst_FailureMessage := message; gmst_Addresses := addresses; gmst_Conditions := conditions |}.

Definition Beskar7ClusterSpec_DeepCopyInto (x : Beskar7ClusterSpec) : mem Beskar7ClusterSpec :=
  mem_ret {| cs_ControlPlaneEndpoint := cs_ControlPlaneEndpoint x |}.

(** [for key, val := range *in { ( *out)[key] = val }]; the entries come in some
    order. *)
Fixpoint domains_loop (l' : loc) (entries : list (string * gFailureDomainSpec)) : mem unit :=
  match entries with
  | [] => mem_ret tt
  | (key, val) :: entries =>
      let* m := deref KFailureDomains l' in
      assign KFailureDomains l' (<[key := val]> m) ;;* domains_loop l' entries
  end.

(** [if in.M != nil { *out = make(FailureDomains, len( *in)); ... }] *)
Definition copy_domains (p : ptr) : mem ptr :=
  match p with
  | None => mem_ret None
  | Some l =>
      let* m := deref KFailureDomains l in
      let* l' := alloc KFailureDomains ∅ in
      domains_loop l' (map_to_list m) ;;* mem_ret (Some l')
  end.

Definition Beskar7ClusterStatus_DeepCopyInto (x : gBeskar7ClusterStatus) : mem gBeskar7ClusterStatus :=
  let* domains := copy_domains (gcst_FailureDomains x) in
  let* conditions := copy_slice KCondition (gcst_Conditions x) in
  mem_ret {| gcst_Ready := gcst_Ready x; gcst_ControlPlaneEndpoint := gcst_ControlPlaneEndpoint x;
             gcst_FailureDomains := domains; gcst_Conditions := conditions |}.

Definition TemplateResource_DeepCopyInto (x : gTemplateResource) : mem gTemplateResource :=
  let* spec := Beskar7MachineSpec_DeepCopyInto (gtr_Spec x) in mem_ret {| gtr_Spec := spec |}.
Definition TemplateSpec_DeepCopyInto (x : gTemplateSpec) : mem gTemplateSpec :=
  let* template := TemplateResource_DeepCopyInto (gts_Template x) in mem_ret {| gts_Template := template |}.

(** *** Objects and lists *)

Definition object_DeepCopyInto {S T} (spec : S -> mem S) (status : T -> mem T) (x : gObject S T) : mem (gObject S T) :=
  let* meta := ObjectMeta_DeepCopyInto (go_ObjectMeta x) in
  let* s := spec (go_Spec x) in
  let* t := status (go_Status x) in
  mem_ret {| go_TypeMeta := go_TypeMeta x; go_ObjectMeta := meta; go_Spec := s; go_Status := t |}.

Definition list_DeepCopyInto (k : kind) (into : denote k -> mem (denote k)) (x : gList) : mem gList :=
  let* meta := ListMeta_DeepCopyInto (gl_ListMeta x) in
  let* items := copy_items k into (gl_Items x) in
  mem_ret {| gl_TypeMeta := gl_TypeMeta x; gl_ListMeta := meta; gl_Items := items |}.

Definition PhysicalHost_DeepCopyInto : gPhysicalHost -> mem gPhysicalHost :=
  object_DeepCopyInto PhysicalHostSpec_DeepCopyInto PhysicalHostStatus_DeepCopyInto.
Definition Beskar7Machine_DeepCopyInto : gBeskar7Machine -> mem gBeskar7Machine :=
  object_DeepCopyInto Beskar7MachineSpec_DeepCopyInto Beskar7MachineStatus_DeepCopyInto.
Definition Beskar7Cluster_DeepCopyInto : gBeskar7Cluster -> mem gBeskar7Cluster :=
  object_DeepCopyInto Beskar7ClusterSpec_DeepCopyInto Beskar7ClusterStatus_DeepCopyInto.
Definition Beskar7MachineTemplate_DeepCopyInto : gBeskar7MachineTemplate -> mem gBeskar7MachineTemplate :=
  object_DeepCopyInto TemplateSpec_DeepCopyInto mem_ret.

Definition PhysicalHostList_DeepCopyInto := list_DeepCopyInto KPhysicalHost PhysicalHost_DeepCopyInto.
Definition Beskar7MachineList_DeepCopyInto := list_DeepCopyInto KBeskar7Machine Beskar7Machine_DeepCopyInto.
Definition Beskar7ClusterList_DeepCopyInto := list_DeepCopyInto KBeskar7Cluster Beskar7Cluster_DeepCopyInto.
Definition Beskar7MachineTemplateList_DeepCopyInto :=
  list_DeepCopyInto KBeskar7MachineTemplate Beskar7MachineTemplate_DeepCopyInto.

(** *** [DeepCopy] and [DeepCopyObject] *)

Definition Beskar7Cluster_DeepCopy := copy_into KBeskar7Cluster Beskar7Cluster_DeepCopyInto.
Definition Beskar7ClusterList_DeepCopy := copy_into KList Beskar7ClusterList_DeepCopyInto.
Definition Beskar7ClusterSpec_DeepCopy := copy_into KBeskar7ClusterSpec Beskar7ClusterSpec_DeepCopyInto.
Definition Beskar7ClusterStatus_DeepCopy := copy_into KBeskar7ClusterStatus Beskar7ClusterStatus_DeepCopyInto.
Definition Beskar7Machine_DeepCopy := copy_into KBeskar7Machine Beskar7Machine_DeepCopyInto.
Definition Beskar7MachineList_DeepCopy := copy_into KList Beskar7MachineList_DeepCopyInto.
Definition Beskar7MachineSpec_DeepCopy := copy_into KBeskar7MachineSpec Beskar7MachineSpec_DeepCopyInto.
Definition Beskar7MachineStatus_DeepCopy := copy_into KBeskar7MachineStatus Beskar7MachineStatus_DeepCopyInto.
Definition Beskar7MachineTemplate_DeepCopy := copy_into KBeskar7MachineTemplate Beskar7MachineTemplate_DeepCopyInto.
Definition Beskar7MachineTemplateList_DeepCopy := copy_into KList Beskar7MachineTemplateList_DeepCopyInto.
Definition TemplateResource_DeepCopy := copy_into KTemplateResource TemplateResource_DeepCopyInto.
Definition TemplateSpec_DeepCopy := copy_into KTemplateSpec TemplateSpec_DeepCopyInto.
Definition CPUInfo_DeepCopy := copy_into KCPUInfo CPUInfo_DeepCopyInto.
Definition DiskInfo_DeepCopy := copy_into KDiskInfo DiskInfo_DeepCopyInto.
Definition HardwareDetails_DeepCopy := copy_into KHardwareDetails HardwareDetails_DeepCopyInto.
Definition HardwareStatus_DeepCopy := copy_into KHardwareStatus HardwareStatus_DeepCopyInto.
Definition MemoryInfo_DeepCopy := copy_into KMemoryInfo MemoryInfo_DeepCopyInto.
Definition NICInfo_DeepCopy := copy_into KNICInfo NICInfo_DeepCopyInto.
Definition PhysicalHost_DeepCopy := copy_into KPhysicalHost PhysicalHost_DeepCopyInto.
Definition PhysicalHostList_DeepCopy := copy_into KList PhysicalHostList_DeepCopyInto.
Definition PhysicalHostSpec_DeepCopy := copy_into KPhysicalHostSpec PhysicalHostSpec_DeepCopyInto.
Definition PhysicalHostStatus_DeepCopy := copy_into KPhysicalHostStatus PhysicalHostStatus_DeepCopyInto.
Definition RedfishConnection_DeepCopy := copy_into KRedfishConnection RedfishConnection_DeepCopyInto.
Definition RedfishConnectionInfo_DeepCopy := copy_into KRedfishConnectionInfo RedfishConnectionInfo_DeepCopyInto.
Definition InspectionReport_DeepCopy := copy_into KInspectionReport InspectionReport_DeepCopyInto.
Definition HardwareRequirements_DeepCopy := copy_into KHardwareRequirements HardwareRequirements_DeepCopyInto.
Definition Beskar7Cluster_DeepCopyObject := copy_object Beskar7Cluster_DeepCopy.
Definition Beskar7ClusterList_DeepCopyObject := copy_object Beskar7ClusterList_DeepCopy.
Definition Beskar7Machine_DeepCopyObject := copy_object Beskar7Machine_DeepCopy.
Definition Beskar7MachineList_DeepCopyObject := copy_object Beskar7MachineList_DeepCopy.
Definition Beskar7MachineTemplate_DeepCopyObject := copy_object Beskar7MachineTemplate_DeepCopy.
Definition Beskar7MachineTemplateList_DeepCopyObject := copy_object Beskar7MachineTemplateList_DeepCopy.
Definition PhysicalHost_DeepCopyObject := copy_object PhysicalHost_DeepCopy.
Definition PhysicalHostList_DeepCopyObject := copy_object PhysicalHostList_DeepCopy.

End Copies.

(** ** Views of the types *)

Section Views.
  Context {M : Metadata} {Ops : MetadataOps}.

Abbreviation plain := r_ret.

Definition view_connection (x : gRedfishConnection) : reader RedfishConnection :=
  read skip := view_pointer KBool plain (grc_InsecureSkipVerify x) in
  r_ret {| rc_Address := grc_Address x; rc_CredentialsSecretRef := grc_CredentialsSecretRef x;
           rc_InsecureSkipVerify := skip |}.
Definition view_host_spec (x : gPhysicalHostSpec) : reader PhysicalHostSpec :=
  read conn := view_connection (gps_RedfishConnection x) in
  read ref := view_pointer KObjectReference plain (gps_ConsumerRef x) in
  r_ret {| pspec_RedfishConnection := conn; pspec_ConsumerRef := ref |}.
Definition view_nic (x : gNICInfo) : reader NICInfo :=
  read ips := view_slice KString plain (gnic_IPAddresses x) in
  r_ret {| nic_Name := gnic_Name x; nic_MACAddress := gnic_MACAddress x; nic_Driver := gnic_Driver x;
           nic_Speed := gnic_Speed x; nic_IPAddresses := ips |}.
Definition view_report (x : gInspectionReport) : reader InspectionReport :=
  read cpus := view_slice KCPUInfo plain (gir_CPUs x) in
  read memory := view_slice KMemoryInfo plain (gir_Memory x) in
  read disks := view_slice KDiskInfo plain (gir_Disks x) in
  read nics := view_slice KNICInfo view_nic (gir_NICs x) in
  r_ret {| ir_Timestamp := gir_Timestamp x; ir_Manufacturer := gir_Manufacturer x; ir_Model := gir_Model x;
           ir_SerialNumber := gir_SerialNumber x; ir_BootModeDetected := gir_BootModeDetected x;
           ir_FirmwareVersion := gir_FirmwareVersion x;
           ir_CPUs := cpus; ir_Memory := memory; ir_Disks := disks; ir_NICs := nics |}.
Definition view_host_status (x : gPhysicalHostStatus) : reader PhysicalHostStatus :=
  read addresses := view_slice KMachineAddress plain (gpst_Addresses x) in
  read report := view_pointer KInspectionReport view_report (gpst_InspectionReport x) in
  read timestamp := view_pointer KTime plain (gpst_InspectionTimestamp x) in
  read conditions := view_slice KCondition plain (gpst_Conditions x) in
  r_ret {| pst_Ready := gpst_Ready x; pst_State := gpst_State x;
           pst_ObservedPowerState := gpst_ObservedPowerState x; pst_ErrorMessage := gpst_ErrorMessage x;
           pst_HardwareDetails := gpst_HardwareDetails x; pst_Addresses := addresses;
           pst_InspectionReport := report; pst_InspectionPhase := gpst_InspectionPhase x;
           pst_InspectionTimestamp := timestamp; pst_Conditions := conditions |}.

Definition view_machine_spec (x : gBeskar7MachineSpec) : reader Beskar7MachineSpec :=
  read id := view_pointer KString plain (gms_ProviderID x) in
  read reqs := view_pointer KHardwareRequirements plain (gms_HardwareRequirements x) in
  r_ret {| ms_ProviderID := id; ms_InspectionImageURL := gms_InspectionImageURL x;
           ms_TargetImageURL := gms_TargetImageURL x; ms_ConfigurationURL := gms_ConfigurationURL x;
           ms_HardwareRequirements := reqs |}.
Definition view_machine_status (x : gBeskar7MachineStatus) : reader Beskar7MachineStatus :=
  read phase := view_pointer KString plain (gmst_Phase x) in
  read reason := view_pointer KString plain (gmst_FailureReason x) in
  read message := view_pointer KString plain (gmst_FailureMessage x) in
  read addresses := view_slice KMachineAddress plain (gmst_Addresses x) in
  read conditions := view_slice KCondition plain (gmst_Conditions x) in
  r_ret {| mst_Ready := gmst_Ready x; mst_Phase := phase; mst_FailureReason := reason;
           mst_FailureMessage := message; mst_Addresses := addresses; mst_Conditions := conditions |}.

Definition view_domain (e : string * gFailureDomainSpec) : reader (string * FailureDomainSpec) :=
  read attributes := view_pointer KAttributes plain (gfd_Attributes (snd e)) in
  r_ret (fst e, {| fd_ControlPlane := gfd_ControlPlane (snd e); fd_Attributes := attributes |}).
Definition view_domains (m : gmap string gFailureDomainSpec) : reader (gmap string FailureDomainSpec) :=
  read entries := r_map view_domain (map_to_list m) in r_ret (list_to_map entries).
Definition view_cluster_status (x : gBeskar7ClusterStatus) : reader Beskar7ClusterStatus :=
  read domains := view_pointer KFailureDomains view_domains (gcst_FailureDomains x) in
  read conditions := view_slice KCondition plain (gcst_Conditions x) in
  r_ret {| cst_Ready := gcst_Ready x; cst_ControlPlaneEndpoint := gcst_ControlPlaneEndpoint x;
           cst_FailureDomains := domains; cst_Conditions := conditions |}.

Definition view_object {S T V W O} (spec : S -> reader V) (status : T -> reader W)
    (mk : TypeMeta -> ObjectMeta -> V -> W -> O) (x : gObject S T) : reader O :=
  read meta := view_ObjectMeta (go_ObjectMeta x) in
  read s := spec (go_Spec x) in
  read t := status (go_Status x) in
  r_ret (mk (go_TypeMeta x) meta s t).
Definition view_host : gPhysicalHost -> reader PhysicalHost :=
  view_object view_host_spec view_host_status Build_PhysicalHost.
Definition view_machine : gBeskar7Machine -> reader Beskar7Machine :=
  view_object view_machine_spec view_machine_status Build_Beskar7Machine.
Definition view_cluster : gBeskar7Cluster -> reader Beskar7Cluster :=
  view_object plain view_cluster_status Build_Beskar7Cluster.
Definition view_template : gBeskar7MachineTemplate -> reader (TypeMeta * ObjectMeta * Beskar7MachineSpec) :=
  view_object (fun s => view_machine_spec (gtr_Spec (gts_Template s))) plain (fun t m s _ => (t, m, s)).
Definition view_list {V} (k : kind) (view : denote k -> reader V) (x : gList) : reader (TypeMeta * ListMeta * list V) :=
  read meta := view_ListMeta (gl_ListMeta x) in
  read items := view_slice k view (gl_Items x) in
  r_ret (gl_TypeMeta x, meta, items).

End Views.

(** The documented behaviour of apimachinery: deep copies that share nothing. *)
Class MetadataLaws (M : Metadata) (Ops : MetadataOps) : Prop := {
  #[global] ObjectMeta_framed x :: Framed (view_ObjectMeta x);
  #[global] ListMeta_framed x :: Framed (view_ListMeta x);
  ObjectMeta_deep : deep view_ObjectMeta ObjectMeta_DeepCopyInto nothing;
  ListMeta_deep : deep view_ListMeta ListMeta_DeepCopyInto nothing;
  Time_value t : Time_DeepCopyInto t = t;
  Time_deep h l t : of_cell KTime <$> h !! l = Some (Some t) ->
    exists l', Time_DeepCopy l h = Some (l', <[l' := to_cell KTime t]> h) /\ l' ∉ dom h
}.

(** A struct, given the copies of its fields. *)
Ltac struct D f g mk :=
  apply (deep_struct _ _ _ f g mk _ _ D);
  [intros; repeat match goal with p : _ * _ |- _ => destruct p end; done
  |intros; cbn; rewrite ?Time_value; done|same_steps|same_steps].

(** Nothing is shared in any of the parts. *)
Ltac shares_nothing :=
  intros; unfold nothing in *; split; [|done]; intros; repeat match goal with H : _ \/ _ |- _ => destruct H end; done.

Section Isolation.
  Context {M : Metadata} {Ops : MetadataOps} {Laws : MetadataLaws M Ops}.

Lemma view_plain_visited k p h v ls l :
  view_pointer k (fun x => r_ret x) p h = Some (v, ls) -> l ∈ ls -> p = Some l.
Proof.
  unfold view_pointer. intros Hv Hl.
  destruct p as [a|]; [|injection Hv as <- <-; by apply elem_of_nil in Hl].
  apply view_cell_Some in Hv as (y & w & lw & _ & [_ ->]%r_ret_Some & _ & ->).
  apply list_elem_of_singleton in Hl. by subst.
Qed.

(** The one pointer of a connection. *)
Definition skip_verify : sharing gPhysicalHostSpec :=
  fun _ x l => grc_InsecureSkipVerify (gps_RedfishConnection x) = Some l.

Lemma deep_host_spec : deep view_host_spec PhysicalHostSpec_DeepCopyInto skip_verify.
Proof.
  eapply deep_weaken; [|intros h x v ls l _|done].
  - struct (deep_pair (deep_assigned view_connection) (deep_pointer KObjectReference))
      (fun x => (gps_RedfishConnection x, gps_ConsumerRef x))
      (fun (_ : gPhysicalHostSpec) y => Build_gPhysicalHostSpec y.1 y.2)
      (fun (_ : gPhysicalHostSpec) v => Build_PhysicalHostSpec v.1 v.2).
  - intros [(c & lc & Hc & Hl)|[]]. unfold skip_verify. cbn [fst] in Hc.
    apply r_bind_Some in Hc as (b & l1 & l2 & Hb & [<- ->]%r_ret_Some & ->). rewrite app_nil_r in Hl.
    by eapply view_plain_visited.
Qed.

(** The addresses of the NICs of a report. *)
Definition nic_addresses : sharing (list gNICInfo) :=
  fun _ nics l => exists nic, nic ∈ nics /\ gnic_IPAddresses nic = Some l.
Definition report_shared : sharing gInspectionReport :=
  fun h x => below (KSlice KNICInfo) nic_addresses h (gir_NICs x).

Lemma view_nic_visited nic h v ls l : view_nic nic h = Some (v, ls) -> l ∈ ls -> gnic_IPAddresses nic = Some l.
Proof.
  intros (ips & l1 & l2 & Hips & [_ ->]%r_ret_Some & ->)%r_bind_Some Hl. rewrite app_nil_r in Hl.
  destruct (gnic_IPAddresses nic) as [a|]; [|injection Hips as <- <-; by apply elem_of_nil in Hl].
  unfold view_slice in Hips. apply view_cell_Some in Hips as (xs & w & lw & _ & Hw & _ & ->).
  rewrite (r_map_plain xs) in Hw. injection Hw as <- <-. apply list_elem_of_singleton in Hl. by subst.
Qed.

Lemma r_map_visited {A B} (f : A -> reader B) xs h ys ls l :
  r_map f xs h = Some (ys, ls) -> l ∈ ls -> exists x y ly, x ∈ xs /\ f x h = Some (y, ly) /\ l ∈ ly.
Proof.
  revert ys ls. induction xs as [|x xs IH]; intros ys ls H Hl.
  - injection H as <- <-. by apply elem_of_nil in Hl.
  - cbn [r_map] in H. apply r_bind_Some in H as (w & l1 & l2 & H1 & H2 & ->).
    apply r_bind_Some in H2 as (ws & l3 & l4 & H3 & [_ ->]%r_ret_Some & ->). rewrite app_nil_r in Hl.
    apply elem_of_app in Hl as [Hl|Hl]; [exists x, w, l1; set_solver|].
    destruct (IH _ _ H3 Hl) as (z & y & ly & ? & ? & ?). exists z, y, ly. set_solver.
Qed.

Lemma deep_nics : deep (view_slice KNICInfo view_nic) (copy_slice KNICInfo) (below (KSlice KNICInfo) nic_addresses).
Proof.
  eapply deep_weaken; [apply deep_slice; apply _|..].
  - intros h p v ls l _ (a & nics & Hp & Ha & ys & lys & Hr & Hl). exists a, nics. split_and!; [done..|].
    destruct (r_map_visited _ _ _ _ _ _ Hr Hl) as (nic & y & ly & Hnic & Hy & Hly).
    exists nic. split; [done|]. by eapply view_nic_visited.
  - intros h h' p v ls l Hv Hsub. by eapply below_stable.
Qed.

Lemma deep_report : deep view_report InspectionReport_DeepCopyInto report_shared.
Proof.
  eapply deep_ext; [|done|].
  - struct (deep_pair (deep_slice_plain KCPUInfo)
           (deep_pair (deep_slice_plain KMemoryInfo)
           (deep_pair (deep_slice_plain KDiskInfo) deep_nics)))
      (fun x => (gir_CPUs x, (gir_Memory x, (gir_Disks x, gir_NICs x))))
      (fun x y => {| gir_Timestamp := Time_DeepCopyInto (gir_Timestamp x); gir_Manufacturer := gir_Manufacturer x;
                     gir_Model := gir_Model x; gir_SerialNumber := gir_SerialNumber x;
                     gir_BootModeDetected := gir_BootModeDetected x; gir_FirmwareVersion := gir_FirmwareVersion x;
                     gir_CPUs := y.1; gir_Memory := y.2.1; gir_Disks := y.2.2.1; gir_NICs := y.2.2.2 |})
      (fun x v => {| ir_Timestamp := gir_Timestamp x; ir_Manufacturer := gir_Manufacturer x; ir_Model := gir_Model x;
                     ir_SerialNumber := gir_SerialNumber x; ir_BootModeDetected := gir_BootModeDetected x;
                     ir_FirmwareVersion := gir_FirmwareVersion x;
                     ir_CPUs := v.1; ir_Memory := v.2.1; ir_Disks := v.2.2.1; ir_NICs := v.2.2.2 |}).
  - intros h x l. unfold report_shared, nothing. cbn [fst snd]. tauto.
Qed.

Lemma deep_time : deep (view_pointer KTime (fun t => r_ret t)) copy_time nothing.
Proof.
  eapply deep_ext; [apply (deep_shallow KTime (fun t => r_ret t) None Some copy_time); [apply _|done|]|done|].
  - intros h a t Ha. destruct (Time_deep h a t) as (b & Hb & Hfresh); [by rewrite Ha; cbn; rewrite of_cell_to|].
    exists b. split; [|done]. unfold copy_time. by rewrite (mem_bind_Some _ _ _ _ _ Hb).
  - intros h p l. split; [|done]. intros (a & t & _ & _ & w & lw & [_ ->]%r_ret_Some & Hl). by apply elem_of_nil in Hl.
Qed.

Definition status_shared : sharing gPhysicalHostStatus :=
  fun h x => below KInspectionReport report_shared h (gpst_InspectionReport x).

Lemma deep_host_status : deep view_host_status PhysicalHostStatus_DeepCopyInto status_shared.
Proof.
  eapply deep_ext; [|done|].
  - struct (deep_pair (deep_slice_plain KMachineAddress)
           (deep_pair (deep_into KInspectionReport _ _ _ _ deep_report)
           (deep_pair deep_time (deep_slice_plain KCondition))))
      (fun x => (gpst_Addresses x, (gpst_InspectionReport x, (gpst_InspectionTimestamp x, gpst_Conditions x))))
      (fun x y => {| gpst_Ready := gpst_Ready x; gpst_State := gpst_State x;
                     gpst_ObservedPowerState := gpst_ObservedPowerState x; gpst_ErrorMessage := gpst_ErrorMessage x;
                     gpst_HardwareDetails := gpst_HardwareDetails x; gpst_Addresses := y.1;
                     gpst_InspectionReport := y.2.1; gpst_InspectionPhase := gpst_InspectionPhase x;
                     gpst_InspectionTimestamp := y.2.2.1; gpst_Conditions := y.2.2.2 |})
      (fun x v => {| pst_Ready := gpst_Ready x; pst_State := gpst_State x;
                     pst_ObservedPowerState := gpst_ObservedPowerState x; pst_ErrorMessage := gpst_ErrorMessage x;
                     pst_HardwareDetails := gpst_HardwareDetails x; pst_Addresses := v.1;
                     pst_InspectionReport := v.2.1; pst_InspectionPhase := gpst_InspectionPhase x;
                     pst_InspectionTimestamp := v.2.2.1; pst_Conditions := v.2.2.2 |}).
  - intros h x l. unfold status_shared, nothing. cbn [fst snd]. tauto.
Qed.

(** An object shares what its spec and its status share. *)
Lemma deep_object {S T V W O} (vs : S -> reader V) (vt : T -> reader W) cs ct ss st
    (mk : TypeMeta -> ObjectMeta -> V -> W -> O) :
  (forall x, Framed (vs x)) -> (forall x, Framed (vt x)) -> deep vs cs ss -> deep vt ct st ->
  deep (view_object vs vt mk) (object_DeepCopyInto cs ct) (fun h x l => ss h (go_Spec x) l \/ st h (go_Status x) l).
Proof.
  intros HFs HFt Hs Ht. eapply deep_ext; [|done|].
  - struct (deep_pair ObjectMeta_deep (deep_pair Hs Ht))
      (fun x : gObject S T => (go_ObjectMeta x, (go_Spec x, go_Status x)))
      (fun (x : gObject S T) (y : gObjectMeta * (S * T)) => {| go_TypeMeta := go_TypeMeta x; go_ObjectMeta := y.1; go_Spec := y.2.1; go_Status := y.2.2 |})
      (fun (x : gObject S T) (v : ObjectMeta * (V * W)) => mk (go_TypeMeta x) v.1 v.2.1 v.2.2).
  - intros h x l. unfold nothing. cbn [fst snd]. tauto.
Qed.

Lemma deep_list {V} k (view : denote k -> reader V) into shared :
  (forall x, Framed (view x)) -> deep view into shared ->
  deep (view_list k view) (list_DeepCopyInto k into) (fun h x l => below (KSlice k) (shared_item k shared) h (gl_Items x) l).
Proof.
  intros HF HD. eapply deep_ext; [|done|].
  - struct (deep_pair ListMeta_deep (deep_items k view into shared HF HD))
      (fun x => (gl_ListMeta x, gl_Items x))
      (fun (x : gList) (y : gListMeta * ptr) => {| gl_TypeMeta := gl_TypeMeta x; gl_ListMeta := y.1; gl_Items := y.2 |})
      (fun (x : gList) (v : ListMeta * list V) => (gl_TypeMeta x, v.1, v.2)).
  - intros h x l. unfold nothing. cbn [fst snd]. tauto.
Qed.

Definition host_shared : sharing gPhysicalHost :=
  fun h x l => skip_verify h (go_Spec x) l \/ status_shared h (go_Status x) l.

Lemma deep_host : deep view_host PhysicalHost_DeepCopyInto host_shared.
Proof. apply deep_object; [apply _..|apply deep_host_spec|apply deep_host_status]. Qed.

Lemma deep_machine_spec : deep view_machine_spec Beskar7MachineSpec_DeepCopyInto nothing.
Proof.
  eapply deep_ext; [|done|].
  - struct (deep_pair (deep_pointer KString) (deep_pointer KHardwareRequirements))
      (fun x => (gms_ProviderID x, gms_HardwareRequirements x))
      (fun x y => {| gms_ProviderID := y.1; gms_InspectionImageURL := gms_InspectionImageURL x;
                     gms_TargetImageURL := gms_TargetImageURL x; gms_ConfigurationURL := gms_ConfigurationURL x;
                     gms_HardwareRequirements := y.2 |})
      (fun x v => {| ms_ProviderID := v.1; ms_InspectionImageURL := gms_InspectionImageURL x;
                     ms_TargetImageURL := gms_TargetImageURL x; ms_ConfigurationURL := gms_ConfigurationURL x;
                     ms_HardwareRequirements := v.2 |}).
  - intros h x l. unfold nothing. tauto.
Qed.

Lemma deep_machine_status : deep view_machine_status Beskar7MachineStatus_DeepCopyInto nothing.
Proof.
  eapply deep_ext; [|done|].
  - struct (deep_pair (deep_pointer KString) (deep_pair (deep_pointer KString) (deep_pair (deep_pointer KString)
           (deep_pair (deep_slice_plain KMachineAddress) (deep_slice_plain KCondition)))))
      (fun x => (gmst_Phase x, (gmst_FailureReason x, (gmst_FailureMessage x, (gmst_Addresses x, gmst_Conditions x)))))
      (fun x y => {| gmst_Ready := gmst_Ready x; gmst_Phase := y.1; gmst_FailureReason := y.2.1;
                     gmst_FailureMessage := y.2.2.1; gmst_Addresses := y.2.2.2.1; gmst_Conditions := y.2.2.2.2 |})
      (fun x v => {| mst_Ready := gmst_Ready x; mst_Phase := v.1; mst_FailureReason := v.2.1;
                     mst_FailureMessage := v.2.2.1; mst_Addresses := v.2.2.2.1; mst_Conditions := v.2.2.2.2 |}).
  - intros h x l. unfold nothing. tauto.
Qed.

Lemma deep_machine : deep view_machine Beskar7Machine_DeepCopyInto nothing.
Proof.
  eapply deep_ext; [apply deep_object; [apply _..|apply deep_machine_spec|apply deep_machine_status]|done|].
  shares_nothing.
Qed.

Lemma deep_template_spec :
  deep (fun x => view_machine_spec (gtr_Spec (gts_Template x))) TemplateSpec_DeepCopyInto nothing.
Proof.
  apply (deep_struct _ _ _ (fun x => gtr_Spec (gts_Template x))
    (fun (_ : gTemplateSpec) y => {| gts_Template := {| gtr_Spec := y |} |})
    (fun (_ : gTemplateSpec) (v : Beskar7MachineSpec) => v) _ _ deep_machine_spec); [done..| |].
  - intros x h. by destruct (view_machine_spec _ h) as [[]|].
  - intros x h. unfold TemplateSpec_DeepCopyInto, TemplateResource_DeepCopyInto, mem_bind.
    by destruct (Beskar7MachineSpec_DeepCopyInto _ h) as [[]|].
Qed.

Lemma deep_template : deep view_template Beskar7MachineTemplate_DeepCopyInto nothing.
Proof.
  eapply deep_ext; [apply deep_object; [apply _..|apply deep_template_spec|apply deep_plain]|done|shares_nothing].
Qed.

(** The attributes of the failure domains. *)
Definition domain_attributes : sharing (gmap string gFailureDomainSpec) :=
  fun _ m l => exists key d, m !! key = Some d /\ gfd_Attributes d = Some l.
Definition cluster_shared : sharing gBeskar7Cluster :=
  fun h x => below KFailureDomains domain_attributes h (gcst_FailureDomains (go_Status x)).

Lemma domains_loop_all b entries (m : gmap string gFailureDomainSpec) h :
  h !! b = Some (to_cell KFailureDomains m) ->
  domains_loop b entries h = Some (tt, <[b := to_cell KFailureDomains (foldl (fun m e => <[e.1 := e.2]> m) m entries)]> h).
Proof.
  revert m h. induction entries as [|[key d] entries IH]; intros m h Hb; cbn [domains_loop foldl].
  - by rewrite insert_id.
  - rewrite (mem_bind_Some _ _ _ _ _ (deref_Some _ _ _ _ Hb)).
    erewrite mem_bind_Some; [|apply assign_Some; apply elem_of_dom; by eexists].
    erewrite IH; [|by rewrite lookup_insert_eq]. by rewrite insert_insert_eq.
Qed.

Lemma foldl_insert_all {A} (entries : list (string * A)) (m : gmap string A) :
  NoDup entries.*1 -> foldl (fun m e => <[e.1 := e.2]> m) m entries = list_to_map entries ∪ m.
Proof.
  revert m. induction entries as [|[key d] entries IH]; intros m Hnd; cbn [foldl list_to_map foldr].
  - by rewrite (left_id_L ∅ (∪)).
  - apply NoDup_cons in Hnd as [Hkey Hnd]. rewrite IH by done. cbn [fst snd uncurry].
    rewrite <- insert_union_r by by apply not_elem_of_list_to_map_1. by rewrite insert_union_l.
Qed.

Lemma copy_domains_shallow h a (m : gmap string gFailureDomainSpec) :
  h !! a = Some (to_cell KFailureDomains m) ->
  exists b, copy_domains (Some a) h = Some (Some b, <[b := to_cell KFailureDomains m]> h) /\ b ∉ dom h.
Proof.
  intros Ha. destruct (alloc_Some KFailureDomains ∅ h) as (b & Hb & Hfresh). exists b. split; [|done].
  unfold copy_domains. rewrite (mem_bind_Some _ _ _ _ _ (deref_Some _ _ _ _ Ha)), (mem_bind_Some _ _ _ _ _ Hb).
  erewrite mem_bind_Some; [|apply domains_loop_all; apply lookup_insert_eq].
  rewrite insert_insert_eq, (foldl_insert_all (map_to_list m)) by apply NoDup_fst_map_to_list.
  by rewrite list_to_map_to_list, (right_id_L ∅ (∪)).
Qed.

Lemma deep_domains :
  deep (view_pointer KFailureDomains view_domains) copy_domains (below KFailureDomains domain_attributes).
Proof.
  eapply deep_weaken; [apply (deep_shallow KFailureDomains view_domains None Some); [apply _|done|apply copy_domains_shallow]|..].
  - intros h p v ls l _ (a & m & Hp & Ha & y & ly & Hr & Hl). exists a, m. split_and!; [done..|].
    apply r_bind_Some in Hr as (es & l1 & l2 & Hr & [_ ->]%r_ret_Some & ->). rewrite app_nil_r in Hl.
    destruct (r_map_visited _ _ _ _ _ _ Hr Hl) as ([key d] & e & le & Hin & He & Hle).
    exists key, d. split; [by apply elem_of_map_to_list|].
    apply r_bind_Some in He as (at' & l3 & l4 & He & [_ ->]%r_ret_Some & ->). rewrite app_nil_r in Hle. cbn [snd] in He.
    by eapply view_plain_visited.
  - intros h h' p v ls l Hv Hsub. by eapply below_stable.
Qed.

Lemma deep_cluster : deep view_cluster Beskar7Cluster_DeepCopyInto cluster_shared.
Proof.
  eapply deep_ext; [apply deep_object; [apply _..| |]|done|].
  - eapply deep_ext; [apply deep_plain| |done]. by intros [].
  - struct (deep_pair deep_domains (deep_slice_plain KCondition))
      (fun x => (gcst_FailureDomains x, gcst_Conditions x))
      (fun x y => {| gcst_Ready := gcst_Ready x; gcst_ControlPlaneEndpoint := gcst_ControlPlaneEndpoint x;
                     gcst_FailureDomains := y.1; gcst_Conditions := y.2 |})
      (fun x v => {| cst_Ready := gcst_Ready x; cst_ControlPlaneEndpoint := gcst_ControlPlaneEndpoint x;
                     cst_FailureDomains := v.1; cst_Conditions := v.2 |}).
  - intros h x l. unfold cluster_shared, nothing. cbn [fst snd]. tauto.
Qed.

(** ** Isolation

    What [deep] gives for the two pointers: writing through the one is not seen
    through the other, except at shared cells. *)

Definition isolated {V} (k : kind) (view : denote k -> reader V) (copy : ptr -> mem ptr) (shared : sharing ptr) : Prop :=
  forall h p v ls, view_pointer k view p h = Some (v, ls) ->
  exists p' h' ls', copy p h = Some (p', h') /\
    view_pointer k view p h' = Some (v, ls) /\ view_pointer k view p' h' = Some (v, ls') /\
    forall l c, ~ shared h p l ->
      (l ∈ ls -> view_pointer k view p' (<[l := c]> h') = Some (v, ls')) /\
      (l ∈ ls' -> view_pointer k view p (<[l := c]> h') = Some (v, ls)).

Lemma deep_isolated {V} k (view : denote k -> reader V) into shared :
  (forall x, Framed (view x)) -> deep view into shared -> isolated k view (copy_into k into) (below k shared).
Proof.
  intros HF HD h p v ls Hv.
  destruct (deep_copy _ _ _ (deep_into k view into shared HF HD) h p v ls Hv) as (p' & h' & ls' & Hc & Hsub & Hv' & Hs).
  assert (forall l, l ∈ ls -> l ∈ ls' -> below k shared h p l) as Hboth.
  { intros l Hl Hl'. apply (Hs l Hl'). by eapply (visited (r := view_pointer k view p)). }
  exists p', h', ls'. split_and!; [done|by eapply (grow (view_pointer k view p))|done|].
  pose proof (grow (view_pointer k view p) _ _ _ _ Hv Hsub).
  intros l c Hl. split; intros Hin; apply frame_insert; try apply _; try done; naive_solver.
Qed.

(** C20: copying a host.  On every host that memory holds, the copy is made, has
    the value of the original, which is left as it was, and from then on no
    write through the one is seen through the other, except to two things they
    keep sharing: the flag [InsecureSkipVerify] and the addresses of the NICs
    of the inspection report. *)
Theorem host_copy_isolated :
  isolated KPhysicalHost view_host PhysicalHost_DeepCopy (below KPhysicalHost host_shared).
Proof. apply deep_isolated; [apply _|apply deep_host]. Qed.

(** Copying a machine: as for hosts, and nothing is shared. *)
Theorem machine_copy_isolated : isolated KBeskar7Machine view_machine Beskar7Machine_DeepCopy nothing.
Proof.
  intros h p v ls Hv.
  destruct (deep_isolated KBeskar7Machine view_machine _ _ _ deep_machine h p v ls Hv)
    as (p' & h' & ls' & ? & ? & ? & Hi).
  exists p', h', ls'. split_and!; [done..|]. intros l c _. apply Hi. by intros (? & ? & _ & _ & []).
Qed.

(** Copying a cluster: only the attributes of the failure domains are shared. *)
Theorem cluster_copy_isolated :
  isolated KBeskar7Cluster view_cluster Beskar7Cluster_DeepCopy (below KBeskar7Cluster cluster_shared).
Proof. apply deep_isolated; [apply _|apply deep_cluster]. Qed.

Theorem template_copy_isolated :
  isolated KBeskar7MachineTemplate view_template Beskar7MachineTemplate_DeepCopy (below KBeskar7MachineTemplate nothing).
Proof. apply deep_isolated; [apply _|apply deep_template]. Qed.

(** Copying a list of hosts shares what copying the hosts one by one shares. *)
Theorem host_list_copy_isolated :
  isolated KList (view_list KPhysicalHost view_host) PhysicalHostList_DeepCopy
    (below KList (fun h x => below (KSlice KPhysicalHost) (shared_item KPhysicalHost host_shared) h (gl_Items x))).
Proof. apply deep_isolated; [apply _|]. apply (deep_list KPhysicalHost); [apply _|apply deep_host]. Qed.

Theorem machine_list_copy_isolated :
  isolated KList (view_list KBeskar7Machine view_machine) Beskar7MachineList_DeepCopy
    (below KList (fun h x => below (KSlice KBeskar7Machine) (shared_item KBeskar7Machine nothing) h (gl_Items x))).
Proof. apply deep_isolated; [apply _|]. apply (deep_list KBeskar7Machine); [apply _|apply deep_machine]. Qed.

Theorem cluster_list_copy_isolated :
  isolated KList (view_list KBeskar7Cluster view_cluster) Beskar7ClusterList_DeepCopy
    (below KList (fun h x => below (KSlice KBeskar7Cluster) (shared_item KBeskar7Cluster cluster_shared) h (gl_Items x))).
Proof. apply deep_isolated; [apply _|]. apply (deep_list KBeskar7Cluster); [apply _|apply deep_cluster]. Qed.

End Isolation.

(** ** An instance of the metadata

    Metadata whose labels are a map in memory, the rest plain. *)

Module Sample.

#[export] Instance metadata : Metadata := {|
  gObjectMeta := ObjectMeta * ptr; gListMeta := unit; meta_cell := gmap string string;
  zero_ObjectMeta := ({| om_Name := ""; om_Namespace := ""; om_UID := ""; om_ResourceVersion := 0;
    om_Labels := ∅; om_Annotations := ∅; om_Finalizers := []; om_DeletionTimestamp := None;
    om_CreationTimestamp := 0 |}, None);
  zero_ListMeta := tt; zero_meta_cell := ∅
|}.

Definition with_labels (m : ObjectMeta) (labels : option (gmap string string)) : ObjectMeta :=
  {| om_Name := om_Name m; om_Namespace := om_Namespace m; om_UID := om_UID m;
     om_ResourceVersion := om_ResourceVersion m; om_Labels := default ∅ labels;
     om_Annotations := om_Annotations m; om_Finalizers := om_Finalizers m;
     om_DeletionTimestamp := om_DeletionTimestamp m; om_CreationTimestamp := om_CreationTimestamp m |}.

#[export] Instance metadata_ops : MetadataOps := {|
  ObjectMeta_DeepCopyInto x := let* labels := copy_pointer KMeta (snd x) in mem_ret (fst x, labels);
  ListMeta_DeepCopyInto x := mem_ret x;
  Time_DeepCopyInto t := t;
  Time_DeepCopy l := let* t := deref KTime l in alloc KTime t;
  ListMeta := unit;
  view_ObjectMeta x := read labels := view_pointer KMeta (fun m => r_ret m) (snd x) in r_ret (with_labels (fst x) labels);
  view_ListMeta x := r_ret x
|}.

#[export] Instance metadata_laws : MetadataLaws metadata metadata_ops.
Proof.
  split; cbn [view_ObjectMeta view_ListMeta ObjectMeta_DeepCopyInto ListMeta_DeepCopyInto metadata_ops]; try apply _; try done.
  - apply (deep_struct _ _ _ snd (fun (x : ObjectMeta * ptr) p => (fst x, p)) (fun x v => with_labels (fst x) v)
             _ _ (deep_pointer (M := metadata) KMeta)); [done..|intros; regroup|intros; regroup].
  - apply deep_plain.
  - intros h l t Ht. destruct (h !! l) as [c|] eqn:Hl; [|done]. cbn in Ht. injection Ht as Ht.
    cbn [Time_DeepCopy metadata_ops]. unfold mem_bind, deref. rewrite Hl, Ht. cbn. by apply (alloc_Some KTime).
Qed.

(** A host with the flag set, a claim and a report with one NIC. *)
Definition sample_report : gInspectionReport :=
  {| gir_Timestamp := 5; gir_Manufacturer := "m"; gir_Model := "m"; gir_SerialNumber := "s";
     gir_BootModeDetected := "UEFI"; gir_FirmwareVersion := "1";
     gir_CPUs := None; gir_Memory := None; gir_Disks := None; gir_NICs := Some 4%nat |}.
Definition sample_nic : gNICInfo :=
  {| gnic_Name := "eth0"; gnic_MACAddress := "aa"; gnic_Driver := "d"; gnic_Speed := "1G";
     gnic_IPAddresses := Some 5%nat |}.
Definition sample_host : gPhysicalHost :=
  {| go_TypeMeta := {| tm_Kind := "PhysicalHost"; tm_APIVersion := "v1" |};
     go_ObjectMeta := (fst zero_ObjectMeta, Some 6%nat);
     go_Spec := {| gps_RedfishConnection :=
                     {| grc_Address := "https://bmc"; grc_CredentialsSecretRef := "s"; grc_InsecureSkipVerify := Some 1%nat |};
                   gps_ConsumerRef := Some 2%nat |};
     go_Status := {| gpst_Ready := true; gpst_State := "InUse"; gpst_ObservedPowerState := "On"; gpst_ErrorMessage := "";
                     gpst_HardwareDetails := zero_details; gpst_Addresses := None;
                     gpst_InspectionReport := Some 3%nat; gpst_InspectionPhase := "Complete";
                     gpst_InspectionTimestamp := Some 7%nat; gpst_Conditions := None |} |}.
Definition sample_heap : heap :=
  {[ 0%nat := to_cell KPhysicalHost sample_host;
     1%nat := to_cell KBool false;
     2%nat := to_cell KObjectReference (zero KObjectReference);
     3%nat := to_cell KInspectionReport sample_report;
     4%nat := to_cell (KSlice KNICInfo) [sample_nic];
     5%nat := to_cell (KSlice KString) ["10.0.0.1"];
     6%nat := to_cell KMeta {[ "zone" := "a" ]};
     7%nat := to_cell KTime 3 ]}.

(** A machine with a provider ID. *)
Definition machine_heap : heap :=
  {[ 0%nat := to_cell KBeskar7Machine
       {| go_TypeMeta := {| tm_Kind := "Beskar7Machine"; tm_APIVersion := "v1" |};
          go_ObjectMeta := (fst zero_ObjectMeta, None);
          go_Spec := {| gms_ProviderID := Some 1%nat; gms_InspectionImageURL := "i"; gms_TargetImageURL := "t";
                        gms_ConfigurationURL := ""; gms_HardwareRequirements := None |};
          go_Status := zero_machine_status |};
     1%nat := to_cell KString "b7://ns/host" ]}.

Definition flag (v : option PhysicalHost) : option bool :=
  h ← v; rc_InsecureSkipVerify (pspec_RedfishConnection (ph_Spec h)).
Definition read_flag (p : ptr) (h : heap) : option bool :=
  '(v, _) ← view_pointer KPhysicalHost view_host p h; flag v.

(** The original's flag after copying the host, and after then setting the flag
    of the copy. *)
Definition flag_after : option (option bool * option bool) :=
  '(p', h') ← PhysicalHost_DeepCopy (Some 0%nat) sample_heap;
  l' ← p'; c ← h' !! l'; x ← of_cell KPhysicalHost c;
  l ← grc_InsecureSkipVerify (gps_RedfishConnection (go_Spec x));
  Some (read_flag (Some 0%nat) h', read_flag (Some 0%nat) (<[l := to_cell KBool true]> h')).
End Sample.

Import Sample.

(** Setting the flag through the copy of a host sets it in the original. *)
Lemma copy_shares_flag : Sample.flag_after = Some (Some false, Some true).
Proof. vm_compute. reflexivity. Qed.

Lemma host_copy_isolated_witness :
  exists v ls p' h' ls', view_pointer KPhysicalHost view_host (Some 0%nat) Sample.sample_heap = Some (v, ls) /\
    PhysicalHost_DeepCopy (Some 0%nat) Sample.sample_heap = Some (p', h') /\
    view_pointer KPhysicalHost view_host p' h' = Some (v, ls').
Proof.
  destruct (view_pointer KPhysicalHost view_host (Some 0%nat) Sample.sample_heap) as [[v ls]|] eqn:Hv;
    [|exfalso; vm_compute in Hv; discriminate].
  destruct (host_copy_isolated (Laws := Sample.metadata_laws) _ _ _ _ Hv) as (p' & h' & ls' & Hc & _ & Hv' & _).
  exists v, ls, p', h', ls'. split; [reflexivity|]. split; [exact Hc|exact Hv'].
Defined.

Lemma machine_copy_isolated_witness :
  exists v ls p' h' ls', view_pointer KBeskar7Machine view_machine (Some 0%nat) Sample.machine_heap = Some (v, ls) /\
    Beskar7Machine_DeepCopy (Some 0%nat) Sample.machine_heap = Some (p', h') /\
    view_pointer KBeskar7Machine view_machine p' h' = Some (v, ls').
Proof.
  destruct (view_pointer KBeskar7Machine view_machine (Some 0%nat) Sample.machine_heap) as [[v ls]|] eqn:Hv;
    [|exfalso; vm_compute in Hv; discriminate].
  destruct (machine_copy_isolated (Laws := Sample.metadata_laws) _ _ _ _ Hv) as (p' & h' & ls' & Hc & _ & Hv' & _).
  exists v, ls, p', h', ls'. split; [reflexivity|]. split; [exact Hc|exact Hv'].
Defined.
