(* ===== verification/Lib.v ===== *)
(** * Library functions the controllers call

    The pure functions of controller-runtime and Cluster API that the sources
    call and whose code is not part of this repository.  They are
    fields of a class, so every model is a function of them; [LibLaws] states
    the documented behaviour the proofs rely on.  [ref_lib] is one
    implementation of the laws: it shows that they can hold, and the concrete
    runs of the other files use it.  The conditions of the three resources are
    reached through the interface [Setter]. *)

From S2P Require Import Prelude GoFmt Api.

Class Lib := {
  (** [annotations.HasPaused] *)
  HasPaused : ObjectMeta -> bool;
  (** [controllerutil.AddFinalizer], [RemoveFinalizer]: the object's finalizers
      after the call and whether they changed; [ContainsFinalizer]. *)
  AddFinalizer : ObjectMeta -> string -> ObjectMeta * bool;
  RemoveFinalizer : ObjectMeta -> string -> ObjectMeta * bool;
  ContainsFinalizer : ObjectMeta -> string -> bool;
  (** [conditions.MarkTrue], [MarkFalse], [SetSummary] and [IsTrue] on the
      conditions of an object. *)
  MarkTrue : Conditions -> string -> Conditions;
  MarkFalse : Conditions -> string -> string -> string -> string -> Conditions;
  SetSummary : Conditions -> list string -> Conditions;
  IsTrue : Conditions -> string -> bool;
  (** The Unicode tables of GoFmt.v. *)
  print_table : Z -> bool;
  lower_table : Z -> Z
}.

(** The verb [%q] of a string, and [strings.ToLower]. *)
Definition Quote `{Lib} (s : string) : string := quote print_table s.
Definition ToLower `{Lib} (s : string) : string := to_lower lower_table s.

(** ** Conditions of objects

    [conditions.Setter], the interface of the objects whose conditions are set;
    the types of this API implement it. *)

Class Setter (T : Type) := {
  GetConditions : T -> Conditions;
  SetConditions : T -> Conditions -> T
}.

Definition PhysicalHost_GetConditions (h : PhysicalHost) : Conditions := pst_Conditions (ph_Status h).
Definition PhysicalHost_SetConditions (h : PhysicalHost) (conditions : Conditions) : PhysicalHost :=
  ph_upd_Status (set_pst_Conditions conditions) h.
Definition Beskar7Machine_GetConditions (m : Beskar7Machine) : Conditions := mst_Conditions (bm_Status m).
Definition Beskar7Machine_SetConditions (m : Beskar7Machine) (conditions : Conditions) : Beskar7Machine :=
  bm_upd_Status (set_mst_Conditions conditions) m.
Definition Beskar7Cluster_GetConditions (c : Beskar7Cluster) : Conditions := cst_Conditions (bc_Status c).
Definition Beskar7Cluster_SetConditions (c : Beskar7Cluster) (conditions : Conditions) : Beskar7Cluster :=
  bc_upd_Status (set_cst_Conditions conditions) c.

#[export] Instance PhysicalHost_Setter : Setter PhysicalHost :=
  {| GetConditions := PhysicalHost_GetConditions; SetConditions := PhysicalHost_SetConditions |}.
#[export] Instance Beskar7Machine_Setter : Setter Beskar7Machine :=
  {| GetConditions := Beskar7Machine_GetConditions; SetConditions := Beskar7Machine_SetConditions |}.
#[export] Instance Beskar7Cluster_Setter : Setter Beskar7Cluster :=
  {| GetConditions := Beskar7Cluster_GetConditions; SetConditions := Beskar7Cluster_SetConditions |}.

(** [conditions.MarkTrue(to, t)], [MarkFalse] and [SetSummary] on an object. *)
Definition mark_true `{Lib} {T} `{Setter T} (to : T) (t : string) : T :=
  SetConditions to (MarkTrue (GetConditions to) t).
Definition mark_false `{Lib} {T} `{Setter T} (to : T) (t reason severity msg : string) : T :=
  SetConditions to (MarkFalse (GetConditions to) t reason severity msg).
Definition set_summary `{Lib} {T} `{Setter T} (to : T) (ts : list string) : T :=
  SetConditions to (SetSummary (GetConditions to) ts).

(** Severities of a condition. *)
Definition ConditionSeverityError := "Error".
Definition ConditionSeverityWarning := "Warning".
Definition ConditionSeverityInfo := "Info".

(** The status of the condition of type [t], if it is set. *)
Definition cond_status (cs : Conditions) (t : string) : option string :=
  c_Status <$> List.find (fun c => c_Type c ==s t) cs.

Definition PausedAnnotation := "cluster.x-k8s.io/paused".

(** The documented behaviour the proofs use. *)
Class LibLaws (L : Lib) : Prop := {
  HasPaused_spec m : HasPaused m = bool_decide (is_Some (om_Annotations m !! PausedAnnotation));
  ContainsFinalizer_spec m f : ContainsFinalizer m f = bool_decide (f ∈ om_Finalizers m);
  AddFinalizer_spec m f :
    AddFinalizer m f =
      if ContainsFinalizer m f then (m, false)
      else (set_om_Finalizers (om_Finalizers m ++ [f]) m, true);
  RemoveFinalizer_spec m f :
    RemoveFinalizer m f =
      (set_om_Finalizers (filter (fun x => x <> f) (om_Finalizers m)) m, ContainsFinalizer m f);
  IsTrue_spec cs t : IsTrue cs t = bool_decide (cond_status cs t = Some "True");
  MarkTrue_self cs t : cond_status (MarkTrue cs t) t = Some "True";
  MarkTrue_other cs t u : t <> u -> cond_status (MarkTrue cs t) u = cond_status cs u;
  MarkFalse_self cs t r s m : cond_status (MarkFalse cs t r s m) t = Some "False";
  MarkFalse_other cs t r s m u : t <> u -> cond_status (MarkFalse cs t r s m) u = cond_status cs u;
  SetSummary_other cs ts u : u <> "Ready" -> cond_status (SetSummary cs ts) u = cond_status cs u
}.

(** ** A reference implementation *)

(** Replaces the condition of the same type, or appends. *)
Fixpoint set_condition (c : Condition) (cs : Conditions) : Conditions :=
  match cs with
  | [] => [c]
  | c' :: cs' => if c_Type c' ==s c_Type c then c :: cs' else c' :: set_condition c cs'
  end.

Definition ref_mark_true (cs : Conditions) (t : string) : Conditions :=
  set_condition {| c_Type := t; c_Status := "True"; c_Severity := ""; c_Reason := ""; c_Message := "" |} cs.
Definition ref_mark_false (cs : Conditions) (t r s m : string) : Conditions :=
  set_condition {| c_Type := t; c_Status := "False"; c_Severity := s; c_Reason := r; c_Message := m |} cs.
Definition ref_contains (m : ObjectMeta) (f : string) : bool := bool_decide (f ∈ om_Finalizers m).

Definition ref_lib : Lib := {|
  HasPaused m := bool_decide (is_Some (om_Annotations m !! PausedAnnotation));
  ContainsFinalizer := ref_contains;
  AddFinalizer m f := if ref_contains m f then (m, false)
                      else (set_om_Finalizers (om_Finalizers m ++ [f]) m, true);
  RemoveFinalizer m f :=
    (set_om_Finalizers (filter (fun x => x <> f) (om_Finalizers m)) m, ref_contains m f);
  MarkTrue := ref_mark_true;
  MarkFalse := ref_mark_false;
  SetSummary cs ts :=
    if forallb (fun t => bool_decide (cond_status cs t = Some "True")) ts
    then ref_mark_true cs "Ready" else ref_mark_false cs "Ready" "" "" "";
  IsTrue cs t := bool_decide (cond_status cs t = Some "True");
  print_table _ := true;
  lower_table r := r
|}.

Lemma cond_status_set_self c cs : cond_status (set_condition c cs) (c_Type c) = Some (c_Status c).
Proof.
  unfold cond_status. induction cs as [|c' cs IH]; simpl; [by rewrite eqb_refl|].
  destruct (c_Type c' ==s c_Type c) eqn:E; simpl; [by rewrite eqb_refl|by rewrite E].
Qed.

Lemma cond_status_set_other c cs u :
  c_Type c <> u -> cond_status (set_condition c cs) u = cond_status cs u.
Proof.
  unfold cond_status. intros Hu. induction cs as [|c' cs IH]; simpl.
  - by rewrite (proj2 (eqb_false _ _)).
  - destruct (c_Type c' ==s c_Type c) eqn:E; simpl.
    + apply eqb_true in E. rewrite E, (proj2 (eqb_false _ _)) by done. done.
    + destruct (c_Type c' ==s u); [done|apply IH].
Qed.

#[export] Instance ref_lib_laws : LibLaws ref_lib.
Proof.
  split; try done; intros; cbn -[bool_decide] in *; unfold ref_mark_true, ref_mark_false.
  - apply (cond_status_set_self {| c_Type := t; c_Status := "True" |}).
  - by apply cond_status_set_other.
  - apply (cond_status_set_self {| c_Type := t; c_Status := "False" |}).
  - by apply cond_status_set_other.
  - destruct (forallb _ _); apply cond_status_set_other; simpl; congruence.
Qed.
