(* ===== verification/GoUrl.v ===== *)
(** * Package net/url: parsing a URL and writing it back

    [url.Parse], [URL.String], [URL.Hostname] and [URL.Port] of Go 1.25.0.
    Strings are byte strings, as in Go. *)

From S2P Require Import Prelude GoText GoFmt Api Lib.
From Stdlib Require Import Ascii.

(** ** Bytes *)

Definition between (lo hi : ascii) (c : ascii) : bool := (byte lo <=? byte c) && (byte c <=? byte hi).
Definition is_alpha (c : ascii) : bool := between "a" "z" c || between "A" "Z" c.
Definition is_digit_byte (c : ascii) : bool := between "0" "9" c.
(** [c] is one of the bytes of [l]. *)
Definition one_of (l : string) (c : ascii) : bool := existsb (Ascii.eqb c) (String.list_ascii_of_string l).

Definition all_bytes (P : ascii -> bool) (s : string) : bool :=
  forallb P (String.list_ascii_of_string s).

(** [strings.Cut(s, sep)] for a one-byte separator; the third result tells
    whether it was found. *)
Fixpoint Cut (s : string) (sep : ascii) : string * string * bool :=
  match s with
  | "" => ("", "", false)
  | String c s' =>
      if Ascii.eqb c sep then ("", s', true)
      else let '(before, after, found) := Cut s' sep in (String c before, after, found)
  end.

(** [strings.LastIndexByte(s, c)] *)
Fixpoint LastIndex (s : string) (c : ascii) : option nat :=
  match s with
  | "" => None
  | String d s' =>
      match LastIndex s' c with
      | Some i => Some (S i)
      | None => if Ascii.eqb d c then Some 0%nat else None
      end
  end.

(** [strings.Index(s, sub)] *)
Fixpoint Index (s sub : string) : option nat :=
  if String.prefix sub s then Some 0%nat
  else match s with
       | "" => None
       | String _ s' => S <$> Index s' sub
       end.

(** [strings.Count(s, c)] for one byte. *)
Fixpoint Count (s : string) (c : ascii) : nat :=
  match s with
  | "" => 0
  | String d s' => if Ascii.eqb d c then S (Count s' c) else Count s' c
  end.

Definition HasPrefix (s p : string) : bool := String.prefix p s.
Definition HasSuffix (s p : string) : bool :=
  (len p <=? len s)%nat && (str_drop (len s - len p) s ==s p).

(** ** Escaping *)

Inductive encoding := encodePath | encodeHost | encodeZone | encodeUserPassword | encodeFragment.

Definition host_mode (mode : encoding) : bool :=
  match mode with encodeHost | encodeZone => true | _ => false end.

Definition double_quote : ascii := ascii_of_nat 34.

Definition shouldEscape (c : ascii) (mode : encoding) : bool :=
  if is_alpha c || is_digit_byte c then false
  else if host_mode mode && (one_of "!$&'()*+,;=:[]<>" c || Ascii.eqb c double_quote) then false
  else if one_of "-_.~" c then false
  else if one_of "$&+,/:;=?@" c then
    match mode with
    | encodePath => Ascii.eqb c "?"
    | encodeUserPassword => one_of "@/?:" c
    | encodeFragment => false
    | _ => true
    end
  else if match mode with encodeFragment => true | _ => false end && one_of "!()*" c then false
  else true.

Definition ishex (c : ascii) : bool := is_digit_byte c || between "a" "f" c || between "A" "F" c.
Definition unhex (c : ascii) : Z :=
  if is_digit_byte c then byte c - 48
  else if between "a" "f" c then byte c - 87
  else if between "A" "F" c then byte c - 55
  else 0.

Definition upperhex (d : Z) : ascii := ascii_of_nat (Z.to_nat (if d <? 10 then 48 + d else 55 + d)).

Fixpoint escape (s : string) (mode : encoding) : string :=
  match s with
  | "" => ""
  | String c s' =>
      if shouldEscape c mode
      then String "%" (String (upperhex (byte c / 16)) (String (upperhex (byte c mod 16)) (escape s' mode)))
      else String c (escape s' mode)
  end.

Section Url.
  Context {L : Lib}.

Definition EscapeError (s : string) : error := ErrNew ("invalid URL escape " +:+ Quote s).
Definition InvalidHostError (s : string) : error :=
  ErrNew ("invalid character " +:+ Quote s +:+ " in host name").

(** An escape that is well-formed but not allowed in this mode. *)
Definition refused_escape (mode : encoding) (h1 h2 : ascii) : bool :=
  let is25 := Ascii.eqb h1 "2" && Ascii.eqb h2 "5" in
  match mode with
  | encodeHost => (unhex h1 <? 8) && negb is25
  | encodeZone =>
      let v := unhex h1 * 16 + unhex h2 in
      negb is25 && negb (v =? 32) && shouldEscape (ascii_of_nat (Z.to_nat v)) encodeHost
  | _ => false
  end.

(** The check of the first loop of [unescape] and the decoding of the second. *)
Fixpoint unescape (s : string) (mode : encoding) : result string :=
  match s with
  | "" => Ok ""
  | String c s' =>
      if Ascii.eqb c "%" then
        match s' with
        | String h1 (String h2 s'') =>
            if ishex h1 && ishex h2 then
              if refused_escape mode h1 h2 then Err (EscapeError (str_take 3 s))
              else match unescape s'' mode with
                   | Ok t => Ok (String (ascii_of_nat (Z.to_nat (unhex h1 * 16 + unhex h2))) t)
                   | Err e => Err e
                   end
            else Err (EscapeError (str_take 3 s))
        | _ => Err (EscapeError (str_take 3 s))
        end
      else if host_mode mode && (byte c <? 128) && shouldEscape c mode
      then Err (InvalidHostError (String c ""))
      else match unescape s' mode with Ok t => Ok (String c t) | Err e => Err e end
  end.

(** [validEncoded(s, mode)] *)
Definition validEncoded (s : string) (mode : encoding) : bool :=
  all_bytes (fun c => one_of "!$&'()*+,;=:@[]%" c || negb (shouldEscape c mode)) s.

(** ** The URL *)

Record Userinfo := { ui_username : string; ui_password : option string }.

Record URL := {
  u_Scheme : string;
  u_Opaque : string;
  u_User : option Userinfo;
  u_Host : string;
  u_Path : string;
  u_RawPath : string;
  u_OmitHost : bool;
  u_ForceQuery : bool;
  u_RawQuery : string;
  u_Fragment : string;
  u_RawFragment : string
}.

Definition set_u_Scheme (v : string) (u : URL) : URL :=
  {| u_Scheme := v; u_Opaque := u_Opaque u; u_User := u_User u; u_Host := u_Host u; u_Path := u_Path u;
     u_RawPath := u_RawPath u; u_OmitHost := u_OmitHost u; u_ForceQuery := u_ForceQuery u;
     u_RawQuery := u_RawQuery u; u_Fragment := u_Fragment u; u_RawFragment := u_RawFragment u |}.
Definition set_u_Fragment (v raw : string) (u : URL) : URL :=
  {| u_Scheme := u_Scheme u; u_Opaque := u_Opaque u; u_User := u_User u; u_Host := u_Host u;
     u_Path := u_Path u; u_RawPath := u_RawPath u; u_OmitHost := u_OmitHost u;
     u_ForceQuery := u_ForceQuery u; u_RawQuery := u_RawQuery u; u_Fragment := v; u_RawFragment := raw |}.

(** ** Parsing *)

(** The loop of [getScheme]; [i] bytes have been passed. *)
Fixpoint scheme_loop (rawURL : string) (i : nat) (s : string) : result (string * string) :=
  match s with
  | "" => Ok ("", rawURL)
  | String c s' =>
      if is_alpha c then scheme_loop rawURL (S i) s'
      else if is_digit_byte c || one_of "+-." c then
        if (i =? 0)%nat then Ok ("", rawURL) else scheme_loop rawURL (S i) s'
      else if Ascii.eqb c ":" then
        if (i =? 0)%nat then Err (ErrNew "missing protocol scheme")
        else Ok (str_take i rawURL, str_drop (S i) rawURL)
      else Ok ("", rawURL)
  end.
Definition getScheme (rawURL : string) : result (string * string) := scheme_loop rawURL 0 rawURL.

(** "", or a colon and digits. *)
Definition validOptionalPort (port : string) : bool :=
  match port with
  | "" => true
  | String c rest => Ascii.eqb c ":" && all_bytes is_digit_byte rest
  end.

Definition validUserinfo (s : string) : bool :=
  all_bytes (fun c => is_alpha c || is_digit_byte c || one_of "-._:~!$&'()*+,;=%@" c) s.

Definition port_error (colonPort : string) : error :=
  ErrNew ("invalid port " +:+ Quote colonPort +:+ " after host").

Definition parseHost (host : string) : result string :=
  if HasPrefix host "[" then
    match LastIndex host "]" with
    | None => Err (ErrNew "missing ']' in host")
    | Some i =>
        let colonPort := str_drop (S i) host in
        if negb (validOptionalPort colonPort) then Err (port_error colonPort)
        else
          match Index (str_take i host) "%25" with
          | Some zone =>
              match unescape (str_take zone host) encodeHost with
              | Err e => Err e
              | Ok host1 =>
                  match unescape (str_take (i - zone) (str_drop zone host)) encodeZone with
                  | Err e => Err e
                  | Ok host2 =>
                      match unescape (str_drop i host) encodeHost with
                      | Err e => Err e
                      | Ok host3 => Ok (host1 +:+ host2 +:+ host3)
                      end
                  end
              end
          | None => unescape host encodeHost
          end
    end
  else
    match LastIndex host ":" with
    | Some i =>
        let colonPort := str_drop i host in
        if negb (validOptionalPort colonPort) then Err (port_error colonPort) else unescape host encodeHost
    | None => unescape host encodeHost
    end.

Definition parse_user (userinfo : string) : result Userinfo :=
  if negb (validUserinfo userinfo) then Err (ErrNew "net/url: invalid userinfo")
  else if negb (Contains userinfo ":") then
    match unescape userinfo encodeUserPassword with
    | Err e => Err e
    | Ok u => Ok {| ui_username := u; ui_password := None |}
    end
  else
    let '(username, password, _) := Cut userinfo ":" in
    match unescape username encodeUserPassword with
    | Err e => Err e
    | Ok u =>
        match unescape password encodeUserPassword with
        | Err e => Err e
        | Ok p => Ok {| ui_username := u; ui_password := Some p |}
        end
    end.

Definition parseAuthority (authority : string) : result (option Userinfo * string) :=
  match LastIndex authority "@" with
  | None => match parseHost authority with Err e => Err e | Ok h => Ok (None, h) end
  | Some i =>
      match parseHost (str_drop (S i) authority) with
      | Err e => Err e
      | Ok h =>
          match parse_user (str_take i authority) with
          | Err e => Err e
          | Ok u => Ok (Some u, h)
          end
      end
  end.

(** [setPath]: the path, and the raw path when the default encoding of the path
    is another one. *)
Definition set_path (p : string) (mode : encoding) : result (string * string) :=
  match unescape p mode with
  | Err e => Err e
  | Ok path => Ok (path, if escape path mode ==s p then "" else p)
  end.

Definition control_byte (c : ascii) : bool := (byte c <? 32) || (byte c =? 127).

(** [parse] after the scheme and the query have been cut off. *)
Definition parse_hierarchy (scheme rest query : string) (force : bool) : result URL :=
  let build opaque user host path raw omit :=
    {| u_Scheme := scheme; u_Opaque := opaque; u_User := user; u_Host := host; u_Path := path;
       u_RawPath := raw; u_OmitHost := omit; u_ForceQuery := force; u_RawQuery := query;
       u_Fragment := ""; u_RawFragment := "" |} in
  let with_path user host omit rest :=
    match set_path rest encodePath with
    | Err e => Err e
    | Ok (path, raw) => Ok (build "" user host path raw omit)
    end in
  if negb (HasPrefix rest "/") && negb (scheme ==s "") then Ok (build rest None "" "" "" false)
  else if negb (HasPrefix rest "/") && Contains (Cut rest "/").1.1 ":" then
    Err (ErrNew "first path segment in URL cannot contain colon")
  else if (negb (scheme ==s "") || negb (HasPrefix rest "///")) && HasPrefix rest "//" then
    let authority := str_drop 2 rest in
    let '(authority, rest) :=
      match Index authority "/" with
      | Some i => (str_take i authority, str_drop i authority)
      | None => (authority, "")
      end in
    match parseAuthority authority with
    | Err e => Err e
    | Ok (user, host) => with_path user host false rest
    end
  else with_path None "" (negb (scheme ==s "") && HasPrefix rest "/") rest.

Definition parse (rawURL : string) : result URL :=
  if negb (all_bytes (fun c => negb (control_byte c)) rawURL) then
    Err (ErrNew "net/url: invalid control character in URL")
  else if rawURL ==s "*" then
    Ok {| u_Scheme := ""; u_Opaque := ""; u_User := None; u_Host := ""; u_Path := "*"; u_RawPath := "";
          u_OmitHost := false; u_ForceQuery := false; u_RawQuery := ""; u_Fragment := "";
          u_RawFragment := "" |}
  else
    match getScheme rawURL with
    | Err e => Err e
    | Ok (scheme, rest) =>
        let scheme := ToLower scheme in
        if HasSuffix rest "?" && (Count rest "?" =? 1)%nat
        then parse_hierarchy scheme (str_take (len rest - 1) rest) "" true
        else let '(rest, query, _) := Cut rest "?" in parse_hierarchy scheme rest query false
    end.

(** [&url.Error{"parse", u, err}] *)
Definition url_Error (u : string) (e : error) : error := ErrWrap ("parse " +:+ Quote u) e.

Definition Parse (rawURL : string) : result URL :=
  let '(u, frag, _) := Cut rawURL "#" in
  match parse u with
  | Err e => Err (url_Error u e)
  | Ok url =>
      if frag ==s "" then Ok url
      else match set_path frag encodeFragment with
           | Err e => Err (url_Error rawURL e)
           | Ok (f, raw) => Ok (set_u_Fragment f raw url)
           end
  end.

(** ** Writing *)

(** [EscapedPath] and [EscapedFragment], on the decoded and the raw form. *)
Definition escaped (value raw : string) (mode : encoding) : string :=
  if negb (raw ==s "") && validEncoded raw mode
     && match unescape raw mode with Ok p => p ==s value | Err _ => false end
  then raw
  else escape value mode.

Definition EscapedPath (u : URL) : string :=
  if negb (u_RawPath u ==s "") && validEncoded (u_RawPath u) encodePath
     && match unescape (u_RawPath u) encodePath with Ok p => p ==s u_Path u | Err _ => false end
  then u_RawPath u
  else if u_Path u ==s "*" then "*" else escape (u_Path u) encodePath.

Definition Userinfo_String (u : Userinfo) : string :=
  escape (ui_username u) encodeUserPassword
  +:+ match ui_password u with Some p => ":" +:+ escape p encodeUserPassword | None => "" end.

Definition write_authority (u : URL) : string :=
  if negb (u_Scheme u ==s "") || negb (u_Host u ==s "") || bool_decide (is_Some (u_User u)) then
    if u_OmitHost u && (u_Host u ==s "") && negb (bool_decide (is_Some (u_User u))) then ""
    else
      (if negb (u_Host u ==s "") || negb (u_Path u ==s "") || bool_decide (is_Some (u_User u))
       then "//" else "")
      +:+ match u_User u with Some ui => Userinfo_String ui +:+ "@" | None => "" end
      +:+ escape (u_Host u) encodeHost
  else "".

Definition URL_String (u : URL) : string :=
  let scheme := if u_Scheme u ==s "" then "" else u_Scheme u +:+ ":" in
  let body :=
    if negb (u_Opaque u ==s "") then u_Opaque u
    else
      let authority := write_authority u in
      let path := EscapedPath u in
      let slash := if negb (path ==s "") && negb (HasPrefix path "/") && negb (u_Host u ==s "")
                   then "/" else "" in
      let dot := if (scheme +:+ authority +:+ slash ==s "") && Contains (Cut path "/").1.1 ":"
                 then "./" else "" in
      authority +:+ slash +:+ dot +:+ path in
  scheme +:+ body
  +:+ (if u_ForceQuery u || negb (u_RawQuery u ==s "") then "?" +:+ u_RawQuery u else "")
  +:+ (if u_Fragment u ==s "" then "" else "#" +:+ escaped (u_Fragment u) (u_RawFragment u) encodeFragment).

(** ** Host and port *)

Definition splitHostPort (hostPort : string) : string * string :=
  let '(host, port) :=
    match LastIndex hostPort ":" with
    | Some colon =>
        if validOptionalPort (str_drop colon hostPort)
        then (str_take colon hostPort, str_drop (S colon) hostPort)
        else (hostPort, "")
    | None => (hostPort, "")
    end in
  if HasPrefix host "[" && HasSuffix host "]"
  then (str_take (len host - 2) (str_drop 1 host), port)
  else (host, port).

Definition Hostname (u : URL) : string := (splitHostPort (u_Host u)).1.
Definition Port (u : URL) : string := (splitHostPort (u_Host u)).2.

End Url.

(** ** Examples *)

Definition reprint (s : string) : option string :=
  match @Parse ref_lib s with Ok u => Some (@URL_String ref_lib u) | Err _ => None end.
Example reprint_https : reprint "HTTPS://bmc1:8443/redfish/v1" = Some "https://bmc1:8443/redfish/v1".
Proof. vm_compute. reflexivity. Qed.
Example reprint_user : reprint "http://a:b%40c@h/x y?q#f" = Some "http://a:b%40c@h/x%20y?q#f".
Proof. vm_compute. reflexivity. Qed.
Example reprint_ip : reprint "//[fe80::1%25eth0]:443/" = Some "//[fe80::1%25eth0]:443/".
Proof. vm_compute. reflexivity. Qed.
Example parse_ip_port : reprint "192.168.1.10:8443" = None.
Proof. vm_compute. reflexivity. Qed.
Example parse_bad_escape : reprint "http://h/%zz" = None.
Proof. vm_compute. reflexivity. Qed.

(** ** Strings all of whose bytes are of one kind *)

Lemma all_ascii (P : ascii -> bool) :
  forallb (fun n => P (ascii_of_nat n)) (seq 0 256) = true -> forall c, P c = true.
Proof.
  intros H c. rewrite <- (ascii_nat_embedding c). rewrite forallb_forall in H. apply H.
  apply in_seq. pose proof (nat_ascii_bounded c). lia.
Qed.

(** Implications between kinds of bytes are decided by looking at all of them. *)
Ltac by_bytes := apply (all_ascii (fun _ => implb _ _)) || apply all_ascii; vm_compute; reflexivity.

Lemma all_bytes_cons P c s : all_bytes P (String c s) = P c && all_bytes P s.
Proof. done. Qed.

Lemma all_bytes_app P s t : all_bytes P (s +:+ t) = all_bytes P s && all_bytes P t.
Proof. induction s as [|c s IH]; [done|]. rewrite all_bytes_cons, <- andb_assoc, <- IH. done. Qed.

Lemma all_bytes_mono (P Q : ascii -> bool) s :
  (forall c, implb (P c) (Q c) = true) -> all_bytes P s = true -> all_bytes Q s = true.
Proof.
  intros HPQ. unfold all_bytes. rewrite !forallb_forall. intros H c Hc.
  specialize (HPQ c). rewrite (H c Hc) in HPQ. done.
Qed.

(** [c] does not occur in [s]. *)
Definition absent (c : ascii) (s : string) : bool := all_bytes (fun d => negb (Ascii.eqb d c)) s.

Lemma Cut_absent s c : absent c s = true -> Cut s c = (s, "", false).
Proof.
  unfold absent. induction s as [|d s IH]; [done|]. rewrite all_bytes_cons.
  intros [Hd Hs]%andb_true_iff. simpl. apply negb_true_iff in Hd. by rewrite Hd, IH.
Qed.

Lemma LastIndex_absent s c : absent c s = true -> LastIndex s c = None.
Proof.
  unfold absent. induction s as [|d s IH]; [done|]. rewrite all_bytes_cons.
  intros [Hd Hs]%andb_true_iff. simpl. apply negb_true_iff in Hd. by rewrite IH, Hd.
Qed.

Lemma LastIndex_app s c t : absent c t = true -> LastIndex (s +:+ String c t) c = Some (len s).
Proof.
  intros Ht. induction s as [|d s IH].
  - simpl. by rewrite LastIndex_absent, Ascii.eqb_refl.
  - change (LastIndex (String d (s +:+ String c t)) c = Some (len (String d s))). simpl. by rewrite IH.
Qed.

Lemma prefix_one c s : String.prefix (String c "") s = match s with String d _ => bool_decide (c = d) | "" => false end.
Proof. destruct s as [|d s]; [done|]. simpl. destruct (ascii_dec c d), s; by case_bool_decide. Qed.

Lemma Index_absent s c : absent c s = true -> Index s (String c "") = None.
Proof.
  unfold absent. induction s as [|d s IH]; [done|]. rewrite all_bytes_cons.
  intros [Hd Hs]%andb_true_iff. cbn [Index]. rewrite prefix_one, IH by done.
  case_bool_decide; [|done]. subst. by rewrite Ascii.eqb_refl in Hd.
Qed.

Lemma Index_app s c t : absent c s = true -> Index (s +:+ String c t) (String c "") = Some (len s).
Proof.
  unfold absent. induction s as [|d s IH].
  - intros _. simpl. destruct (ascii_dec c c), t; done.
  - rewrite all_bytes_cons. intros [Hd Hs]%andb_true_iff.
    change (Index (String d (s +:+ String c t)) (String c "") = Some (len (String d s))).
    cbn [Index]. rewrite prefix_one, IH by done.
    case_bool_decide; [subst; by rewrite Ascii.eqb_refl in Hd|done].
Qed.

Lemma Contains_absent s c : absent c s = true -> Contains s (String c "") = false.
Proof.
  unfold absent. induction s as [|d s IH]; [done|]. rewrite all_bytes_cons.
  intros [Hd Hs]%andb_true_iff. cbn [Contains]. rewrite prefix_one, IH by done.
  case_bool_decide; [subst; by rewrite Ascii.eqb_refl in Hd|done].
Qed.

Lemma HasSuffix_absent s c : absent c s = true -> HasSuffix s (String c "") = false.
Proof.
  intros Hs. unfold HasSuffix. destruct (_ <=? _)%nat; [|done]. cbn [andb].
  apply eqb_false. intros H.
  rewrite <- (str_take_drop (len s - len (String c "")) s), H in Hs. unfold absent in Hs. rewrite all_bytes_app in Hs.
  apply andb_true_iff in Hs as [_ Hs]. rewrite all_bytes_cons, Ascii.eqb_refl in Hs. done.
Qed.

(** ** Text that needs no escaping *)

Lemma escape_plain s mode : all_bytes (fun c => negb (shouldEscape c mode)) s = true -> escape s mode = s.
Proof.
  induction s as [|c s IH]; [done|]. rewrite all_bytes_cons. intros [Hc Hs]%andb_true_iff.
  cbn [escape]. apply negb_true_iff in Hc. by rewrite Hc, IH.
Qed.

Section Plain.
  Context {L : Lib}.

(** No percent sign, and nothing a host name refuses. *)
Definition plain (mode : encoding) (c : ascii) : bool :=
  negb (Ascii.eqb c "%") && negb (host_mode mode && shouldEscape c mode).

Lemma unescape_plain s mode : all_bytes (plain mode) s = true -> unescape s mode = Ok s.
Proof.
  induction s as [|c s IH]; [done|]. rewrite all_bytes_cons. intros [Hc Hs]%andb_true_iff.
  unfold plain in Hc. apply andb_true_iff in Hc as [Hp Hh]. apply negb_true_iff in Hp, Hh.
  cbn [unescape]. rewrite Hp, IH by done.
  destruct (host_mode mode); simpl in *; [rewrite Hh, andb_false_r|]; done.
Qed.

(** Bytes of a path that are written back as they are. *)
Definition path_byte (c : ascii) : bool := one_of "!$&'()*+,;=:@[]" c || negb (shouldEscape c encodePath).

Lemma set_path_plain p :
  all_bytes path_byte p = true -> exists raw, set_path p encodePath = Ok (p, raw) /\ (raw = "" /\ escape p encodePath = p \/ raw = p).
Proof.
  intros Hp. unfold set_path.
  rewrite unescape_plain by (eapply all_bytes_mono; [|exact Hp]; by_bytes).
  destruct (escape p encodePath ==s p) eqn:E; eexists; split; try done; [left|by right].
  by apply eqb_true in E.
Qed.

(** ** Absolute URLs in their usual form *)

Definition name_byte (c : ascii) : bool := is_alpha c || is_digit_byte c || one_of "-." c.

(** A port, or nothing. *)
Definition port_part (port : string) : Prop :=
  port = "" \/ exists digits, port = String ":" digits /\ all_bytes is_digit_byte digits = true.
(** A path that starts with a slash, or nothing. *)
Definition path_part (path : string) : Prop :=
  all_bytes path_byte path = true /\ (path = "" \/ exists rest, path = String "/" rest).

Lemma parseHost_plain host port :
  all_bytes name_byte host = true -> port_part port -> parseHost (host +:+ port) = Ok (host +:+ port).
Proof.
  intros Hh Hp. unfold parseHost.
  assert (HasPrefix (host +:+ port) "[" = false) as ->.
  { unfold HasPrefix. rewrite prefix_one. destruct host as [|c host].
    - by destruct Hp as [->|(d & -> & _)].
    - apply bool_decide_eq_false. intros <-. by rewrite all_bytes_cons in Hh. }
  assert (unescape (host +:+ port) encodeHost = Ok (host +:+ port)) as Hu.
  { apply unescape_plain. rewrite all_bytes_app. apply andb_true_iff. split.
    - eapply all_bytes_mono; [|exact Hh]. by_bytes.
    - destruct Hp as [->|(d & -> & Hd)]; [done|]. rewrite all_bytes_cons. apply andb_true_iff.
      split; [done|]. eapply all_bytes_mono; [|exact Hd]. by_bytes. }
  destruct Hp as [->|(d & -> & Hd)].
  - rewrite str_app_nil_r, LastIndex_absent; [by rewrite str_app_nil_r in Hu|].
    eapply all_bytes_mono; [|exact Hh]. by_bytes.
  - rewrite LastIndex_app by (eapply all_bytes_mono; [|exact Hd]; by_bytes).
    rewrite str_drop_app. cbn [validOptionalPort]. rewrite Hd. exact Hu.
Qed.

Lemma authority_absent host port c :
  all_bytes name_byte host = true -> port_part port ->
  (forall d, implb (name_byte d || Ascii.eqb d ":") (negb (Ascii.eqb d c)) = true) ->
  absent c (host +:+ port) = true.
Proof.
  intros Hh Hp Hc. unfold absent. rewrite all_bytes_app. apply andb_true_iff. split.
  - eapply all_bytes_mono; [|exact Hh]. intros d. specialize (Hc d). by destruct (name_byte d).
  - destruct Hp as [->|(ds & -> & Hd)]; [done|]. rewrite all_bytes_cons. apply andb_true_iff. split.
    + specialize (Hc ":"%char). done.
    + eapply all_bytes_mono; [|exact Hd]. intros d. specialize (Hc d). unfold name_byte in Hc.
      by destruct (is_alpha d), (is_digit_byte d).
Qed.

(** What [Parse] makes of scheme://host:port/path after the scheme. *)
Lemma parse_hierarchy_plain scheme host port path :
  scheme <> "" -> all_bytes name_byte host = true -> port_part port -> path_part path ->
  exists raw, (raw = "" /\ escape path encodePath = path \/ raw = path) /\
    parse_hierarchy scheme ("//" +:+ host +:+ port +:+ path) "" false =
    Ok {| u_Scheme := scheme; u_Opaque := ""; u_User := None; u_Host := host +:+ port; u_Path := path;
          u_RawPath := raw; u_OmitHost := false; u_ForceQuery := false; u_RawQuery := "";
          u_Fragment := ""; u_RawFragment := "" |}.
Proof.
  intros Hs Hh Hp [Hpath Hslash]. destruct (set_path_plain path Hpath) as (raw & Hset & Hraw).
  exists raw. split; [done|]. unfold parse_hierarchy.
  assert (parseAuthority (host +:+ port) = Ok (None, host +:+ port)) as Ha.
  { unfold parseAuthority.
    rewrite LastIndex_absent by (apply authority_absent; [done..|by_bytes]).
    by rewrite parseHost_plain. }
  assert ((scheme ==s "") = false) as -> by by apply eqb_false.
  assert (match Index (host +:+ port +:+ path) "/" with
          | Some i => (str_take i (host +:+ port +:+ path), str_drop i (host +:+ port +:+ path))
          | None => (host +:+ port +:+ path, "")
          end = (host +:+ port, path)) as E.
  { rewrite <- str_app_assoc. destruct Hslash as [->|(rest & ->)].
    - rewrite str_app_nil_r, Index_absent; [done|]. apply authority_absent; [done..|by_bytes].
    - rewrite Index_app, str_take_app, str_drop_app; [done|]. apply authority_absent; [done..|by_bytes]. }
  change (str_drop 2 ("//" +:+ host +:+ port +:+ path)) with (host +:+ port +:+ path).
  set (whole := host +:+ port +:+ path) in *.
  assert (HasPrefix ("//" +:+ whole) "/" = true) as -> by done.
  assert (HasPrefix ("//" +:+ whole) "//" = true) as -> by (by destruct whole).
  cbn [negb andb orb]. rewrite E, Ha, Hset. done.
Qed.

Lemma URL_String_plain scheme host port path raw :
  scheme <> "" -> all_bytes name_byte host = true -> port_part port -> path_part path ->
  host +:+ port <> "" -> (raw = "" /\ escape path encodePath = path \/ raw = path) ->
  URL_String {| u_Scheme := scheme; u_Opaque := ""; u_User := None; u_Host := host +:+ port; u_Path := path;
                u_RawPath := raw; u_OmitHost := false; u_ForceQuery := false; u_RawQuery := "";
                u_Fragment := ""; u_RawFragment := "" |} = scheme +:+ "://" +:+ host +:+ port +:+ path.
Proof.
  intros Hs Hh Hp [Hpath Hslash] Hne Hraw.
  assert (escape (host +:+ port) encodeHost = host +:+ port) as He.
  { apply escape_plain. rewrite all_bytes_app. apply andb_true_iff. split.
    - eapply all_bytes_mono; [|exact Hh]. by_bytes.
    - destruct Hp as [->|(d & -> & Hd)]; [done|]. rewrite all_bytes_cons. apply andb_true_iff.
      split; [done|]. eapply all_bytes_mono; [|exact Hd]. by_bytes. }
  assert (forall u, u_Path u = path -> u_RawPath u = raw -> EscapedPath u = path) as HEP.
  { intros u <- <-. unfold EscapedPath.
    assert (validEncoded (u_Path u) encodePath = true) as Hv
      by (eapply all_bytes_mono; [|exact Hpath]; by_bytes).
    assert (unescape (u_Path u) encodePath = Ok (u_Path u)) as Hun
      by (apply unescape_plain; eapply all_bytes_mono; [|exact Hpath]; by_bytes).
    destruct Hslash as [E|(rest & E)]; rewrite E in *.
    - by destruct Hraw as [[-> _]| ->].
    - destruct Hraw as [[-> Hr]| ->]; simpl negb; cbn [andb]; [done|].
      by rewrite Hv, Hun, Prelude.eqb_refl. }
  unfold URL_String. rewrite HEP by done. unfold write_authority. cbn [u_Scheme u_Opaque u_Host u_User u_Path
    u_OmitHost u_ForceQuery u_RawQuery u_Fragment].
  rewrite (proj2 (eqb_false scheme "")), (proj2 (eqb_false (host +:+ port) "")), He by done.
  cbn [negb orb andb].
  assert (negb (path ==s "") && negb (HasPrefix path "/") && true = false) as ->.
  { destruct Hslash as [->|(rest & ->)]; [done|]. by destruct rest. }
  assert (forall x, ((scheme +:+ ":") +:+ x +:+ "" ==s "") = false) as ->.
  { intros x. apply eqb_false. by destruct scheme. }
  cbn [andb]. rewrite str_app_nil_r. change ("" +:+ path) with path.
  rewrite !str_app_assoc. f_equal.
Qed.

(** A URL of the usual form is parsed and written back unchanged. *)
Lemma Parse_plain scheme host port path :
  scheme = "http" \/ scheme = "https" -> host <> "" ->
  all_bytes name_byte host = true -> port_part port -> path_part path ->
  exists u, Parse (scheme +:+ "://" +:+ host +:+ port +:+ path) = Ok u /\ u_Scheme u = scheme /\
    u_Host u = host +:+ port /\ URL_String u = scheme +:+ "://" +:+ host +:+ port +:+ path.
Proof.
  intros Hs Hne Hh Hp Hpath.
  assert (scheme <> "") as Hs' by (by destruct Hs as [->| ->]).
  assert (host +:+ port <> "") as Hne' by (by destruct host).
  destruct (parse_hierarchy_plain scheme host port path) as (raw & Hraw & Hparse); [done..|].
  eexists. split; [|split; [|split; [|by apply URL_String_plain]]]; [|done..].
  assert (all_bytes path_byte (host +:+ port +:+ path) = true) as Hall.
  { rewrite !all_bytes_app. rewrite (all_bytes_mono name_byte path_byte host) by (done || by_bytes).
    destruct Hpath as [-> _]. destruct Hp as [->|(d & -> & Hd)]; [done|].
    by rewrite all_bytes_cons, (all_bytes_mono is_digit_byte path_byte d) by (done || by_bytes). }
  assert (forall c s, all_bytes path_byte s = true ->
            (forall d, implb (path_byte d) (negb (Ascii.eqb d c)) = true) -> absent c s = true) as Habs
    by (intros; by eapply all_bytes_mono).
  assert (all_bytes path_byte (scheme +:+ "://" +:+ host +:+ port +:+ path) = true) as Hall'.
  { rewrite all_bytes_app, all_bytes_app, Hall. by destruct Hs as [->| ->]. }
  unfold Parse. rewrite Cut_absent by (apply Habs; [done|by_bytes]).
  unfold parse.
  rewrite (all_bytes_mono path_byte (fun c => negb (control_byte c))) by (done || by_bytes).
  assert (getScheme (scheme +:+ "://" +:+ host +:+ port +:+ path) =
          Ok (scheme, "//" +:+ host +:+ port +:+ path)) as -> by (by destruct Hs as [->| ->]).
  assert (ToLower scheme = scheme) as -> by (by destruct Hs as [->| ->]).
  assert ((scheme +:+ "://" +:+ host +:+ port +:+ path ==s "*") = false) as ->
    by (by destruct Hs as [->| ->]).
  assert (all_bytes path_byte ("//" +:+ host +:+ port +:+ path) = true) as Hall2
    by (by rewrite all_bytes_app, Hall).
  rewrite HasSuffix_absent, Cut_absent by (apply Habs; [done|by_bytes]).
  cbn [negb andb]. rewrite Hparse. done.
Qed.
End Plain.

(** ** What looks like a scheme *)

Definition scheme_byte (c : ascii) : bool := is_alpha c || is_digit_byte c || one_of "+-." c.

Section Scheme.
  Context {L : Lib}.

Lemma scheme_loop_colon raw i name rest :
  (0 < i)%nat -> all_bytes scheme_byte name = true ->
  scheme_loop raw i (name +:+ String ":" rest) =
  Ok (str_take (i + len name) raw, str_drop (S (i + len name)) raw).
Proof.
  revert i. induction name as [|c name IH]; intros i Hi Hn.
  - cbn. rewrite Nat.add_0_r. destruct i; [lia|done].
  - rewrite all_bytes_cons in Hn. apply andb_true_iff in Hn as [Hc Hn].
    change (String c name +:+ String ":" rest) with (String c (name +:+ String ":" rest)).
    cbn [scheme_loop]. unfold scheme_byte in Hc.
    rewrite IH by (lia || done). cbn [len]. rewrite (proj2 (Nat.eqb_neq i 0)) by lia.
    change (len (String c name)) with (S (len name)). rewrite Nat.add_succ_r. cbn [Nat.add].
    destruct (is_alpha c), (is_digit_byte c || one_of "+-." c) eqn:E; try done.
    by rewrite orb_false_l, E in Hc.
Qed.

Lemma getScheme_colon c name rest :
  is_alpha c = true -> all_bytes scheme_byte name = true ->
  getScheme (String c name +:+ String ":" rest) = Ok (String c name, rest).
Proof.
  intros Hc Hn. unfold getScheme.
  change (String c name +:+ String ":" rest) with (String c (name +:+ String ":" rest)) at 2.
  cbn [scheme_loop]. rewrite Hc, scheme_loop_colon by (lia || done).
  f_equal. f_equal; [apply (str_take_app (String c name))|apply (str_drop_app_S (String c name))].
Qed.

Lemma alpha_byte c : is_alpha c = true -> (byte c <? 128) = true.
Proof.
  assert (forall c, implb (is_alpha c) (byte c <? 128) = true) as H by by_bytes.
  intros Hc. specialize (H c). by rewrite Hc in H.
Qed.

Lemma ToLower_nonempty c s : is_alpha c = true -> ToLower (String c s) <> "".
Proof.
  intros Hc%alpha_byte. unfold ToLower, to_lower, go_range. cbn [bytes range_from decode_rune].
  rewrite Hc. cbn [fmap list_fmap]. unfold lower_rune. rewrite Hc.
  assert (forall b, 0 <= b < 128 -> exists d, encode_rune b = String d "") as Henc.
  { intros b Hb. unfold encode_rune, char. pose proof (byte_range c).
    rewrite (proj2 (Z.ltb_ge b 0)), (proj2 (Z.ltb_ge 1114111 b)), (proj2 (Z.leb_gt 55296 b)),
      (proj2 (Z.ltb_lt b 128)) by lia. cbn. eauto. }
  pose proof (byte_range c). reflect.
  destruct (Henc (if (65 <=? byte c) && (byte c <=? 90) then byte c + 32 else byte c)) as [d Hd].
  { destruct (_ && _) eqn:E; reflect; lia. }
  rewrite Hd. by destruct (range_from _ _ _).
Qed.

(** name:rest, where nothing follows the colon that would start a hierarchy, is
    a scheme with an opaque part. *)
Lemma Parse_opaque c name rest :
  is_alpha c = true -> all_bytes scheme_byte name = true -> rest <> "" -> all_bytes is_digit_byte rest = true ->
  exists u, Parse (String c name +:+ String ":" rest) = Ok u /\ u_Scheme u = ToLower (String c name) /\
    URL_String u = ToLower (String c name) +:+ ":" +:+ rest.
Proof.
  intros Hc Hn Hne Hr. pose proof (ToLower_nonempty c name Hc) as Hl.
  set (ok d := scheme_byte d || Ascii.eqb d ":").
  assert (all_bytes ok (String c name +:+ String ":" rest) = true) as Hall.
  { rewrite all_bytes_app, !all_bytes_cons. rewrite (all_bytes_mono scheme_byte ok name), (all_bytes_mono is_digit_byte ok rest)
      by (done || by_bytes). unfold ok, scheme_byte. by rewrite Hc. }
  unfold Parse. rewrite Cut_absent by (eapply all_bytes_mono; [|exact Hall]; by_bytes).
  unfold parse. rewrite (all_bytes_mono ok (fun d => negb (control_byte d))) by (done || by_bytes).
  assert ((String c name +:+ String ":" rest ==s "*") = false) as ->.
  { apply eqb_false. by destruct name. }
  rewrite getScheme_colon by done. cbn [negb].
  assert (absent "?" rest = true) as Hq by (eapply all_bytes_mono; [|exact Hr]; by_bytes).
  rewrite HasSuffix_absent, Cut_absent by done. cbn [andb].
  unfold parse_hierarchy. rewrite (proj2 (eqb_false _ _) Hl).
  assert (HasPrefix rest "/" = false) as ->.
  { destruct rest as [|d rest]; [done|]. unfold HasPrefix. rewrite prefix_one.
    apply bool_decide_eq_false. intros <-. by rewrite all_bytes_cons in Hr. }
  cbn [negb andb]. eexists. split; [reflexivity|]. split; [done|].
  unfold URL_String. cbn [u_Scheme u_Opaque u_ForceQuery u_RawQuery u_Fragment].
  rewrite (proj2 (eqb_false _ _) Hl), (proj2 (eqb_false rest "") Hne).
  cbn [negb orb]. by rewrite !str_app_assoc, !str_app_nil_r.
Qed.

End Scheme.
