(* ===== verification/GoJson.v ===== *)
(** * Package encoding/json: decoding a value from a stream

    [json.NewDecoder(r).Decode(&v)] of Go's standard library for the types that
    requests are made of: strings, ints, structs and slices.  The decoder reads
    one value and ignores what follows it.  It checks the syntax of the whole
    value first ([parse_value]); then it stores into the target what fits
    ([decode]), remembers the first mismatch and goes on.

    Text is a list of bytes.  The wording of errors is left to the caller. *)

From S2P Require Import Prelude GoText GoFmt.
From Stdlib Require Import Ascii.

(** ** Values *)

Unset Elimination Schemes.
Inductive json :=
| JNull
| JBool (b : bool)
| JNumber (lit : list Z)
| JString (s : list Z)
| JArray (l : list json)
| JObject (l : list (list Z * json)).
Set Elimination Schemes.

Lemma json_ind (P : json -> Prop) :
  P JNull -> (forall b, P (JBool b)) -> (forall lit, P (JNumber lit)) -> (forall s, P (JString s)) ->
  (forall l, Forall P l -> P (JArray l)) -> (forall l, Forall (fun e => P (snd e)) l -> P (JObject l)) ->
  forall j, P j.
Proof.
  intros Hnull Hbool Hnum Hstr Harr Hobj. fix IH 1. intros [|b|lit|s|l|l]; [apply Hnull|apply Hbool|apply Hnum|apply Hstr|..].
  - apply Harr. induction l as [|j l IHl]; [apply Forall_nil_2|apply Forall_cons_2; [apply IH|apply IHl]].
  - apply Hobj. induction l as [|[k j] l IHl]; [apply Forall_nil_2|apply Forall_cons_2; [apply IH|apply IHl]].
Qed.

Inductive json_error :=
| EOF
| UnexpectedEOF
| SyntaxError (rest : nat)
| UnmarshalTypeError (value : string) (path : list string).

(** A parser's answer: a value and the remaining input, an error, or no answer
    for want of fuel, which [parse_value_total] excludes. *)
Inductive parsed (A : Type) :=
| Parsed (x : A) (rest : list Z)
| Failed (e : json_error)
| NoFuel.
Arguments Parsed {A} x rest.
Arguments Failed {A} e.
Arguments NoFuel {A}.

Definition p_bind {A B} (p : parsed A) (f : A -> list Z -> parsed B) : parsed B :=
  match p with
  | Parsed x rest => f x rest
  | Failed e => Failed e
  | NoFuel => NoFuel
  end.

(** The error at the start of [l]. *)
Definition fail_at {A} (l : list Z) : parsed A :=
  Failed (match l with [] => UnexpectedEOF | _ => SyntaxError (length l) end).

Ltac by_division := Z.div_mod_to_equations; lia.

(** ** Tokens *)

Definition is_ws (b : Z) : bool := (b =? 32) || (b =? 9) || (b =? 10) || (b =? 13).
Fixpoint skip_ws (l : list Z) : list Z :=
  match l with
  | b :: l' => if is_ws b then skip_ws l' else l
  | [] => []
  end.

(** The input behind the byte [c], if it starts with it. *)
Definition behind (c : Z) (l : list Z) : option (list Z) :=
  match l with b :: l' => if b =? c then Some l' else None | [] => None end.

Definition hex_value (b : Z) : option Z :=
  if (48 <=? b) && (b <=? 57) then Some (b - 48)
  else if (97 <=? b) && (b <=? 102) then Some (b - 87)
  else if (65 <=? b) && (b <=? 70) then Some (b - 55)
  else None.
Definition is_hex (b : Z) : bool := match hex_value b with Some _ => true | None => false end.

Definition is_escape (b : Z) : bool :=
  (b =? 98) || (b =? 102) || (b =? 110) || (b =? 114) || (b =? 116) || (b =? 92) || (b =? 47) || (b =? 34).

(** The bytes of a string literal up to its closing quote, from behind the
    opening one; [acc] holds those read so far, last first. *)
Fixpoint scan_string (acc : list Z) (l : list Z) : parsed (list Z) :=
  match l with
  | [] => fail_at []
  | b :: l1 =>
      if b =? 34 then Parsed (reverse acc) l1
      else if b =? 92 then
        match l1 with
        | [] => fail_at []
        | e :: l2 =>
            if is_escape e then scan_string (e :: b :: acc) l2
            else if e =? 117 then
              match l2 with
              | [] => fail_at []
              | h1 :: l3 => if negb (is_hex h1) then fail_at l2 else
                match l3 with
                | [] => fail_at []
                | h2 :: l4 => if negb (is_hex h2) then fail_at l3 else
                  match l4 with
                  | [] => fail_at []
                  | h3 :: l5 => if negb (is_hex h3) then fail_at l4 else
                    match l5 with
                    | [] => fail_at []
                    | h4 :: l6 =>
                        if negb (is_hex h4) then fail_at l5
                        else scan_string (h4 :: h3 :: h2 :: h1 :: e :: b :: acc) l6
                    end
                  end
                end
              end
            else fail_at l1
        end
      else if b <? 32 then fail_at l
      else scan_string (b :: acc) l1
  end.

Fixpoint scan_digits (acc : list Z) (l : list Z) : list Z * list Z :=
  match l with
  | b :: l' => if is_digit b then scan_digits (b :: acc) l' else (acc, l)
  | [] => (acc, [])
  end.

(** At least one digit. *)
Definition scan_digits1 (acc : list Z) (l : list Z) : parsed (list Z) :=
  match l with
  | b :: l' => if is_digit b then let '(acc', rest) := scan_digits (b :: acc) l' in Parsed acc' rest else fail_at l
  | [] => fail_at l
  end.

(** The fraction and the exponent of a number, each optional. *)
Definition scan_fraction (acc : list Z) (l : list Z) : parsed (list Z) :=
  match l with
  | b :: l' => if b =? 46 then scan_digits1 (b :: acc) l' else Parsed acc l
  | [] => Parsed acc l
  end.
Definition scan_exponent (acc : list Z) (l : list Z) : parsed (list Z) :=
  match l with
  | e :: l' =>
      if (e =? 101) || (e =? 69) then
        match l' with
        | s :: l'' => if (s =? 43) || (s =? 45) then scan_digits1 (s :: e :: acc) l'' else scan_digits1 (e :: acc) l'
        | [] => fail_at []
        end
      else Parsed acc l
  | [] => Parsed acc l
  end.
(** The integer part: a zero alone, or digits that do not start with a zero. *)
Definition scan_integer (acc : list Z) (l : list Z) : parsed (list Z) :=
  match l with
  | b :: l' => if b =? 48 then Parsed (b :: acc) l' else scan_digits1 acc l
  | [] => fail_at l
  end.
Definition scan_number (l : list Z) : parsed (list Z) :=
  let '(acc, l1) := match l with b :: l' => if b =? 45 then ([b], l') else ([], l) | [] => ([], l) end in
  p_bind (scan_integer acc l1) (fun acc l2 =>
  p_bind (scan_fraction acc l2) (fun acc l3 =>
  p_bind (scan_exponent acc l3) (fun acc l4 => Parsed (reverse acc) l4))).

(** The rest of a literal [true], [false] or [null]. *)
Fixpoint scan_literal (word : list Z) (l : list Z) : parsed unit :=
  match word with
  | [] => Parsed tt l
  | w :: word' =>
      match l with
      | b :: l' => if b =? w then scan_literal word' l' else fail_at l
      | [] => fail_at l
      end
  end.

(** ** String literals

    [unquoteBytes] on the text between the quotes: escapes are replaced, and
    bytes that are not UTF-8 become the replacement character. *)

Definition hex4 (l : list Z) : option Z :=
  match l with
  | h1 :: h2 :: h3 :: h4 :: _ =>
      a ← hex_value h1; b ← hex_value h2; c ← hex_value h3; d ← hex_value h4;
      Some (4096 * a + 256 * b + 16 * c + d)
  | _ => None
  end.

Definition is_surrogate (r : Z) : bool := (55296 <=? r) && (r <? 57344).
(** [utf16.DecodeRune]: [None] is the replacement character. *)
Definition decode_pair (r1 r2 : Z) : option Z :=
  if (55296 <=? r1) && (r1 <? 56320) && (56320 <=? r2) && (r2 <? 57344)
  then Some ((r1 - 55296) * 1024 + (r2 - 56320) + 65536)
  else None.

Definition escaped (e : Z) : Z :=
  if e =? 98 then 8 else if e =? 102 then 12 else if e =? 110 then 10
  else if e =? 114 then 13 else if e =? 116 then 9 else e.

(** The first character of a literal and the number of bytes it takes. *)
Definition unquote_first (b : Z) (l : list Z) : list Z * nat :=
  if b =? 92 then
    match l with
    | [] => ([], 1%nat)
    | e :: l' =>
        if e =? 117 then
          match hex4 l' with
          | None => ([], 1%nat)
          | Some r =>
              if is_surrogate r then
                match l1 ← behind 92 (drop 4 l'); l2 ← behind 117 l1; r2 ← hex4 l2; decode_pair r r2 with
                | Some r' => (bytes (encode_rune r'), 12%nat)
                | None => (bytes (encode_rune RuneError), 6%nat)
                end
              else (bytes (encode_rune r), 6%nat)
          end
        else if is_escape e || (e =? 39) then ([escaped e], 2%nat)
        else ([], 1%nat)
    end
  else if b <? 128 then ([b], 1%nat)
  else let '(r, w) := decode_rune (b :: l) in (bytes (encode_rune r), w).

(** [skip] counts the bytes left of the character read last. *)
Fixpoint unquote (skip : nat) (l : list Z) : list Z :=
  match l with
  | [] => []
  | b :: l' =>
      match skip with
      | S k => unquote k l'
      | O => let '(c, w) := unquote_first b l' in c ++ unquote (w - 1) l'
      end
  end.

(** UTF-8 text. *)
Inductive utf8 : list Z -> Prop :=
| utf8_nil : utf8 []
| utf8_one b l : 0 <= b < 128 -> utf8 l -> utf8 (b :: l)
| utf8_two b0 b1 l : 194 <= b0 <= 223 -> second_ok b0 b1 = true -> utf8 l -> utf8 (b0 :: b1 :: l)
| utf8_three b0 b1 b2 l :
    224 <= b0 <= 239 -> second_ok b0 b1 && is_cont b2 = true -> utf8 l -> utf8 (b0 :: b1 :: b2 :: l)
| utf8_four b0 b1 b2 b3 l :
    240 <= b0 <= 244 -> second_ok b0 b1 && is_cont b2 && is_cont b3 = true -> utf8 l -> utf8 (b0 :: b1 :: b2 :: b3 :: l).

Lemma utf8_app l l' : utf8 l -> utf8 l' -> utf8 (l ++ l').
Proof.
  induction 1; cbn; intros; [done|apply utf8_one|apply utf8_two|apply utf8_three|apply utf8_four]; auto.
Qed.

Lemma bytes_char b : 0 <= b < 256 -> bytes (char b) = [b].
Proof.
  intros Hb. unfold char. cbn. f_equal. unfold byte, ascii_of_nat. rewrite N_ascii_embedding by lia. lia.
Qed.

(** Whatever the rune, its encoding is UTF-8. *)
Lemma encode_rune_utf8 r : utf8 (bytes (encode_rune r)).
Proof.
  unfold encode_rune. destruct (_ || _ || _) eqn:Hv.
  { change (utf8 [239; 191; 189]). apply utf8_three; [lia|done|apply utf8_nil]. }
  repeat case_match; reflect; rewrite ?bytes_app, !bytes_char by by_division; cbn [app].
  - apply utf8_one; [lia|apply utf8_nil].
  - apply utf8_two; [by_division|unfold second_ok, is_cont; repeat case_match; reflect; by_division|apply utf8_nil].
  - apply utf8_three; [by_division| |apply utf8_nil]. unfold second_ok, is_cont. repeat case_match; reflect; by_division.
  - apply utf8_four; [by_division| |apply utf8_nil]. unfold second_ok, is_cont. repeat case_match; reflect; by_division.
Qed.

Lemma unquote_first_utf8 b l : is_byte b -> utf8 (unquote_first b l).1.
Proof.
  intros Hb. unfold unquote_first. repeat case_match; cbn [fst]; try apply encode_rune_utf8; try apply utf8_nil.
  all: apply utf8_one; [|apply utf8_nil].
  - unfold escaped, is_escape in *. repeat case_match; reflect; naive_solver lia.
  - unfold is_byte in Hb. reflect. lia.
Qed.
Lemma unquote_utf8 skip l : Forall is_byte l -> utf8 (unquote skip l).
Proof.
  intros Hl. revert skip. induction Hl as [|b l Hb _ IH]; intros skip; [apply utf8_nil|]. cbn. destruct skip; [|apply IH].
  pose proof (unquote_first_utf8 b l Hb) as Hc. destruct (unquote_first b l). by apply utf8_app.
Qed.

(** ** Syntax *)

Definition maxNestingDepth : Z := 10000.

Definition parse_string (l : list Z) : parsed (list Z) :=
  p_bind (scan_string [] l) (fun raw rest => Parsed (unquote 0 raw) rest).

(** A value from the first byte that is not a space; [depth] arrays and objects
    are open. *)
Fixpoint parse_value (fuel : nat) (depth : Z) (l : list Z) : parsed json :=
  match fuel with
  | O => NoFuel
  | S fuel =>
      match skip_ws l with
      | [] => fail_at []
      | b :: l1 =>
          if b =? 123 then
            if maxNestingDepth <=? depth then fail_at (b :: l1) else
            match behind 125 (skip_ws l1) with
            | Some l2 => Parsed (JObject []) l2
            | None => p_bind (parse_members fuel (depth + 1) l1) (fun ms rest => Parsed (JObject ms) rest)
            end
          else if b =? 91 then
            if maxNestingDepth <=? depth then fail_at (b :: l1) else
            match behind 93 (skip_ws l1) with
            | Some l2 => Parsed (JArray []) l2
            | None => p_bind (parse_elements fuel (depth + 1) l1) (fun js rest => Parsed (JArray js) rest)
            end
          else if b =? 34 then p_bind (parse_string l1) (fun s rest => Parsed (JString s) rest)
          else if b =? 116 then p_bind (scan_literal [114; 117; 101] l1) (fun _ rest => Parsed (JBool true) rest)
          else if b =? 102 then p_bind (scan_literal [97; 108; 115; 101] l1) (fun _ rest => Parsed (JBool false) rest)
          else if b =? 110 then p_bind (scan_literal [117; 108; 108] l1) (fun _ rest => Parsed JNull rest)
          else if (b =? 45) || is_digit b then
            p_bind (scan_number (b :: l1)) (fun lit rest => Parsed (JNumber lit) rest)
          else fail_at (b :: l1)
      end
  end
with parse_elements (fuel : nat) (depth : Z) (l : list Z) : parsed (list json) :=
  match fuel with
  | O => NoFuel
  | S fuel =>
      p_bind (parse_value fuel depth l) (fun j rest =>
        match behind 44 (skip_ws rest), behind 93 (skip_ws rest) with
        | Some l1, _ => p_bind (parse_elements fuel depth l1) (fun js rest' => Parsed (j :: js) rest')
        | None, Some l1 => Parsed [j] l1
        | None, None => fail_at (skip_ws rest)
        end)
  end
with parse_members (fuel : nat) (depth : Z) (l : list Z) : parsed (list (list Z * json)) :=
  match fuel with
  | O => NoFuel
  | S fuel =>
      match behind 34 (skip_ws l) with
      | None => fail_at (skip_ws l)
      | Some l1 =>
          p_bind (parse_string l1) (fun key rest =>
            match behind 58 (skip_ws rest) with
            | None => fail_at (skip_ws rest)
            | Some l2 =>
                p_bind (parse_value fuel depth l2) (fun j rest =>
                  match behind 44 (skip_ws rest), behind 125 (skip_ws rest) with
                  | Some l3, _ => p_bind (parse_members fuel depth l3) (fun ms rest' => Parsed ((key, j) :: ms) rest')
                  | None, Some l3 => Parsed [(key, j)] l3
                  | None, None => fail_at (skip_ws rest)
                  end)
            end)
      end
  end.

(** Enough fuel for every input. *)
Definition fuel_for (l : list Z) : nat := 2 * length l + 2.

(** The decoder's first step: spaces alone are the end of the stream. *)
Definition parse (l : list Z) : parsed json :=
  match skip_ws l with [] => Failed EOF | _ => parse_value (fuel_for l) 0 l end.

(** ** Termination

    A parser that consumes input and does not run out of fuel. *)

Definition consumes {A} (n : nat) (p : parsed A) : Prop :=
  match p with
  | Parsed _ rest => (length rest < n)%nat
  | Failed _ => True
  | NoFuel => False
  end.

Lemma consumes_bind {A B} n m (p : parsed A) (f : A -> list Z -> parsed B) :
  consumes n p -> (forall x rest, (length rest < n)%nat -> consumes m (f x rest)) -> consumes m (p_bind p f).
Proof. destruct p; cbn; auto. Qed.
Lemma consumes_weaken {A} n m (p : parsed A) : consumes n p -> (n <= m)%nat -> consumes m p.
Proof. destruct p; cbn; intros; [lia|done..]. Qed.

Lemma skip_ws_length l : (length (skip_ws l) <= length l)%nat.
Proof. induction l as [|b l IH]; cbn; [done|]. destruct (is_ws b); cbn; lia. Qed.
Lemma behind_length c l l' : behind c l = Some l' -> length l = S (length l').
Proof. destruct l as [|b l]; [done|]. cbn. case_match; naive_solver. Qed.

Lemma scan_string_consumes acc l : consumes (S (length l)) (scan_string acc l).
Proof.
  remember (length l) as n eqn:Hn. assert (length l <= n)%nat as Hle by lia. clear Hn. revert acc l Hle.
  induction n as [n IH] using lt_wf_ind; intros acc l Hle. destruct l as [|b l1]; [done|].
  cbn in Hle. cbn [scan_string]. repeat case_match; subst; cbn in *; try done; try lia.
  all: try (eapply consumes_weaken; [eapply (IH (n - 1)%nat); [lia|lia]|lia]).
Qed.

Lemma scan_digits_length acc l : (length (scan_digits acc l).2 <= length l)%nat.
Proof.
  revert acc. induction l as [|b l IH]; intros acc; cbn; [lia|]. destruct (is_digit b); cbn; [|lia].
  specialize (IH (b :: acc)). lia.
Qed.
Lemma scan_digits1_consumes acc l : consumes (length l) (scan_digits1 acc l).
Proof.
  destruct l as [|b l]; [done|]. cbn. destruct (is_digit b); [|done].
  pose proof (scan_digits_length (b :: acc) l). destruct (scan_digits _ l) as [x rest]. cbn in *. lia.
Qed.
Lemma scan_fraction_consumes acc l : consumes (S (length l)) (scan_fraction acc l).
Proof.
  destruct l as [|b l]; cbn; [lia|]. case_match; cbn; [|lia].
  eapply consumes_weaken; [apply scan_digits1_consumes|lia].
Qed.
Lemma scan_exponent_consumes acc l : consumes (S (length l)) (scan_exponent acc l).
Proof.
  destruct l as [|b l]; cbn; [lia|]. destruct ((b =? 101) || (b =? 69)); cbn; [|lia].
  destruct l as [|s l]; [done|]. case_match; eapply consumes_weaken; try apply scan_digits1_consumes; cbn; lia.
Qed.
Lemma scan_integer_consumes acc l : consumes (length l) (scan_integer acc l).
Proof.
  destruct l as [|b l]; [done|]. cbn [scan_integer]. case_match; [cbn; lia|]. apply scan_digits1_consumes.
Qed.
Lemma scan_number_consumes l : consumes (length l) (scan_number l).
Proof.
  unfold scan_number. destruct l as [|b l]; [done|].
  assert (exists acc l1, (if b =? 45 then ([b], l) else ([], b :: l)) = (acc, l1) /\ (length l1 <= S (length l))%nat)
    as (acc & l1 & -> & Hl) by (destruct (b =? 45); eexists _, _; split; cbn; lia || done).
  eapply consumes_bind; [apply scan_integer_consumes|]. intros x r Hr.
  eapply consumes_bind; [apply scan_fraction_consumes|]. intros y r' Hr'.
  eapply consumes_bind; [apply scan_exponent_consumes|]. intros z r'' Hr''. cbn. lia.
Qed.
Lemma scan_literal_consumes word l : consumes (S (length l)) (scan_literal word l).
Proof.
  revert l. induction word as [|w word IH]; intros l; cbn; [lia|]. destruct l as [|b l]; [done|].
  case_match; [|done]. eapply consumes_weaken; [apply IH|cbn; lia].
Qed.
Lemma parse_string_consumes l : consumes (S (length l)) (parse_string l).
Proof. eapply consumes_bind; [apply scan_string_consumes|]. intros; cbn; lia. Qed.

Lemma parse_consumes fuel :
  (forall depth l, (2 * length l < fuel)%nat -> consumes (length l) (parse_value fuel depth l)) /\
  (forall depth l, (2 * length l + 1 < fuel)%nat -> consumes (length l) (parse_elements fuel depth l)) /\
  (forall depth l, (2 * length l + 1 < fuel)%nat -> consumes (length l) (parse_members fuel depth l)).
Proof.
  induction fuel as [|fuel (IHv & IHe & IHm)]; [split_and!; intros; lia|]. split_and!; intros depth l Hf.
  - cbn [parse_value]. pose proof (skip_ws_length l). destruct (skip_ws l) as [|b l1]; [done|]. cbn in H.
    pose proof (skip_ws_length l1).
    repeat case_match; try done; cbn [consumes]; repeat match goal with H : behind _ _ = Some _ |- _ => apply behind_length in H end.
    all: try lia.
    all: eapply consumes_bind; [first [apply IHm|apply IHe|apply parse_string_consumes|apply scan_literal_consumes|apply scan_number_consumes]; lia|].
    all: intros; cbn in *; lia.
  - cbn [parse_elements]. eapply consumes_bind; [apply IHv; lia|]. intros j rest Hr.
    pose proof (skip_ws_length rest). repeat case_match; try done;
      repeat match goal with H : behind _ _ = Some _ |- _ => apply behind_length in H end; [|cbn; lia].
    eapply consumes_bind; [apply IHe; lia|]. intros; cbn; lia.
  - cbn [parse_members]. pose proof (skip_ws_length l). destruct (behind 34 _) as [l1|] eqn:Hq; [|done].
    apply behind_length in Hq. eapply consumes_bind; [apply parse_string_consumes|]. intros key rest Hr.
    pose proof (skip_ws_length rest). destruct (behind 58 _) as [l2|] eqn:Hc; [|done]. apply behind_length in Hc.
    eapply consumes_bind; [apply IHv; lia|]. intros j rest' Hr'.
    pose proof (skip_ws_length rest'). repeat case_match; try done;
      repeat match goal with H : behind _ _ = Some _ |- _ => apply behind_length in H end; [|cbn; lia].
    eapply consumes_bind; [apply IHm; lia|]. intros; cbn; lia.
Qed.

(** Reading a value from a stream terminates with an answer on every input: the
    fuel is never used up, and a value takes at least one byte. *)
Lemma parse_total l : consumes (length l) (parse l).
Proof.
  unfold parse. destruct (skip_ws l); [done|]. apply parse_consumes. unfold fuel_for. lia.
Qed.

(** ** The strings read are UTF-8 *)

Fixpoint utf8_json (j : json) : Prop :=
  match j with
  | JString s => utf8 s
  | JArray js => Forall id (map utf8_json js)
  | JObject ms => Forall id (map (fun m => utf8_json (snd m)) ms)
  | _ => True
  end.

(** A parser of bytes: what it reads has the property, what it leaves are bytes. *)
Definition gives {A} (P : A -> Prop) (p : parsed A) : Prop :=
  match p with Parsed x rest => P x /\ Forall is_byte rest | _ => True end.

Lemma gives_bind {A B} (P : A -> Prop) (Q : B -> Prop) (p : parsed A) (f : A -> list Z -> parsed B) :
  gives P p -> (forall x rest, P x -> Forall is_byte rest -> gives Q (f x rest)) -> gives Q (p_bind p f).
Proof. destruct p; cbn; [intros [? ?]; auto|done..]. Qed.

Lemma skip_ws_bytes l : Forall is_byte l -> Forall is_byte (skip_ws l).
Proof. induction 1; cbn; [apply Forall_nil_2|]. case_match; [done|by apply Forall_cons_2]. Qed.
Lemma behind_bytes c l l' : behind c l = Some l' -> Forall is_byte l -> Forall is_byte l'.
Proof. destruct l; [done|]. cbn. case_match; [|done]. intros [= ->] [_ ?]%Forall_cons. done. Qed.

Ltac bytes_parts :=
  repeat match goal with
  | H : Forall _ (_ :: _) |- _ => apply Forall_cons in H as [? ?]
  | H : behind _ (skip_ws _) = Some _ |- _ => apply behind_bytes in H; [|by apply skip_ws_bytes]
  end.

Lemma scan_string_gives acc l :
  Forall is_byte acc -> Forall is_byte l -> gives (Forall is_byte) (scan_string acc l).
Proof.
  remember (length l) as n eqn:Hn. assert (length l <= n)%nat as Hle by lia. clear Hn. revert acc l Hle.
  induction n as [n IH] using lt_wf_ind; intros acc l Hle Ha Hl. destruct l as [|b l1]; [done|].
  cbn in Hle. cbn [scan_string]. repeat case_match; subst; cbn in Hle; bytes_parts; try done.
  { split; [by apply Forall_reverse|done]. }
  all: apply (IH (n - 1)%nat); [lia|lia|repeat apply Forall_cons_2; done|done].
Qed.
Lemma parse_string_gives l : Forall is_byte l -> gives utf8 (parse_string l).
Proof.
  intros Hl. eapply gives_bind; [apply scan_string_gives; [apply Forall_nil_2|done]|].
  intros raw rest Hraw Hrest. split; [by apply unquote_utf8|done].
Qed.

Lemma scan_digits_gives acc l :
  Forall is_byte acc -> Forall is_byte l -> Forall is_byte (scan_digits acc l).1 /\ Forall is_byte (scan_digits acc l).2.
Proof.
  intros Ha Hl. revert acc Ha. induction Hl as [|b l Hb Hl IH]; intros acc Ha; cbn; [by split|].
  case_match; [by apply IH, Forall_cons_2|]. split; [done|by apply Forall_cons_2].
Qed.
Lemma scan_digits1_gives acc l : Forall is_byte acc -> Forall is_byte l -> gives (Forall is_byte) (scan_digits1 acc l).
Proof.
  intros Ha Hl. destruct l as [|b l]; [done|]. cbn. case_match; [|done]. bytes_parts.
  destruct (scan_digits_gives (b :: acc) l) as [? ?]; [by apply Forall_cons_2|done|]. by destruct (scan_digits _ l).
Qed.
Lemma scan_number_gives l : Forall is_byte l -> gives (Forall is_byte) (scan_number l).
Proof.
  intros Hl. unfold scan_number. set (m := match l with [] => _ | _ => _ end).
  assert (Forall is_byte m.1 /\ Forall is_byte m.2) as [Hacc Hl1].
  { subst m. destruct l; [by split|]. case_match; split; try done; bytes_parts; by try apply Forall_cons_2. }
  destruct m as [acc l1]. cbn in Hacc, Hl1.
  eapply gives_bind; [|intros acc2 l2 ? ?; eapply gives_bind; [|intros acc3 l3 ? ?; eapply gives_bind; [|]]].
  4: { intros acc4 l4 ? ?. split; [by apply Forall_reverse|done]. }
  - unfold scan_integer. destruct l1; [done|]. case_match; [|by apply scan_digits1_gives].
    bytes_parts. split; [by apply Forall_cons_2|done].
  - unfold scan_fraction. destruct l2; [done|]. case_match; [|done]. bytes_parts.
    apply scan_digits1_gives; [by apply Forall_cons_2|done].
  - unfold scan_exponent. repeat case_match; try done; bytes_parts;
      apply scan_digits1_gives; repeat apply Forall_cons_2; done.
Qed.
Lemma scan_literal_gives word l : Forall is_byte l -> gives (fun _ => True) (scan_literal word l).
Proof.
  revert l. induction word as [|w word IH]; intros l Hl; [done|]. cbn. destruct l; [done|]. case_match; [|done].
  bytes_parts. by apply IH.
Qed.

Lemma parse_gives fuel :
  (forall depth l, Forall is_byte l -> gives utf8_json (parse_value fuel depth l)) /\
  (forall depth l, Forall is_byte l -> gives (Forall utf8_json) (parse_elements fuel depth l)) /\
  (forall depth l, Forall is_byte l -> gives (Forall (fun m => utf8_json (snd m))) (parse_members fuel depth l)).
Proof.
  induction fuel as [|fuel (IHv & IHe & IHm)]; [done|]. split_and!; intros depth l Hl.
  - cbn [parse_value]. pose proof (skip_ws_bytes l Hl) as Hws. destruct (skip_ws l) as [|b l1]; [done|].
    repeat case_match; try done; bytes_parts; try (split; [by apply Forall_nil_2|done]).
    all: eapply gives_bind;
      [first [by apply IHm|by apply IHe|by apply parse_string_gives|by apply scan_literal_gives|
              apply scan_number_gives; by apply Forall_cons_2]|].
    all: intros x rest Hx Hrest; split; [cbn|done]; rewrite ?Forall_map; done.
  - cbn [parse_elements]. eapply gives_bind; [by apply IHv|]. intros j rest Hj Hr.
    repeat case_match; try done; bytes_parts; [|split; [by apply Forall_cons_2; [|apply Forall_nil_2]|done]].
    eapply gives_bind; [by apply IHe|]. intros js rest' Hjs Hr'. split; [by apply Forall_cons_2|done].
  - cbn [parse_members]. destruct (behind 34 _) as [l1|] eqn:Hq; [|done]. bytes_parts.
    eapply gives_bind; [apply parse_string_gives; auto|]. intros key rest _ Hr.
    destruct (behind 58 _) as [l2|] eqn:Hc; [|done]. bytes_parts.
    eapply gives_bind; [by apply IHv|]. intros j rest' Hj Hr'.
    repeat case_match; try done; bytes_parts; [|split; [by apply Forall_cons_2; [|apply Forall_nil_2]|done]].
    eapply gives_bind; [by apply IHm|]. intros ms rest'' Hms Hr''. split; [by apply Forall_cons_2|done].
Qed.

Lemma parse_utf8 l j rest : Forall is_byte l -> parse l = Parsed j rest -> utf8_json j.
Proof.
  intros Hl. unfold parse. case_match; [done|]. intros H'. destruct (parse_gives (fuel_for l)) as [Hv _].
  specialize (Hv 0 l Hl). rewrite H' in Hv. apply Hv.
Qed.

(** ** Targets

    The Go types that are decoded into, and their values.  A slice has the
    elements up to its length and those behind it up to its capacity, which
    decoding can bring back. *)

Unset Elimination Schemes.
Inductive gotype :=
| TString
| TInt
| TSlice (t : gotype)
| TStruct (fields : list (string * gotype)).

Inductive goval :=
| VString (s : list Z)
| VInt (n : Z)
| VSlice (visible hidden : list goval)
| VStruct (fields : list goval).
Set Elimination Schemes.

Fixpoint zero_of (t : gotype) : goval :=
  match t with
  | TString => VString []
  | TInt => VInt 0
  | TSlice _ => VSlice [] []
  | TStruct fields => VStruct (map (fun f => zero_of (snd f)) fields)
  end.

(** ** Field names

    A key names the field of exactly that name, else the first one that differs
    in case only.  [foldName] maps every rune to the smallest one it folds to;
    beyond ASCII only two fold to ASCII letters, the long s and the Kelvin
    sign. *)

Definition fold_rune (r : Z) : Z :=
  if (97 <=? r) && (r <=? 122) then r - 32
  else if r =? 383 then 83
  else if r =? 8490 then 75
  else r.
Definition folded (l : list Z) : list Z := (fun p => fold_rune (snd p)) <$> range_from 0 0 l.

Fixpoint find_field (P : string -> bool) (i : nat) (fields : list (string * gotype)) : option nat :=
  match fields with
  | [] => None
  | (name, _) :: fields' => if P name then Some i else find_field P (S i) fields'
  end.
Definition field_of (key : list Z) (fields : list (string * gotype)) : option nat :=
  match find_field (fun name => bool_decide (bytes name = key)) 0 fields with
  | Some i => Some i
  | None => find_field (fun name => bool_decide (folded (bytes name) = folded key)) 0 fields
  end.

(** ** Storing

    [strconv.ParseInt(s, 10, 64)] on the text of a JSON number. *)
Definition parse_int (lit : list Z) : option Z :=
  let '(neg, ds) := match lit with b :: l => if b =? 45 then (true, l) else (false, lit) | [] => (false, lit) end in
  if forallb is_digit ds then
    let n := if neg then - digits_value ds else digits_value ds in
    if (int64_min <=? n) && (n <=? int64_max) then Some n else None
  else None.

(** [string(b)] for a byte slice [b]. *)
Definition text (l : list Z) : string := foldr (fun b s => char b +:+ s) "" l.

Abbreviation errors := (list json_error).
Definition mismatch (value : string) (path : list string) : errors := [UnmarshalTypeError value path].

(** The element a slice shows at index [i] when it is extended to it. *)
Definition element (t : gotype) (hidden : list goval) : goval * list goval :=
  match hidden with v :: hidden' => (v, hidden') | [] => (zero_of t, []) end.

Section Loops.
  Context (dec_element : goval -> json -> goval * errors) (t : gotype).
  Context (dec_field : nat -> goval -> json -> goval * errors) (fields : list (string * gotype)).

(** [d.array] on a slice: the elements at hand are decoded into, further ones
    are brought in from behind the length.  [seen] are those already decoded. *)
Fixpoint array_loop (seen visible hidden : list goval) (js : list json) : list goval * list goval * errors :=
  match js with
  | [] => (seen, visible ++ hidden, [])
  | j :: js' =>
      let '(v, visible', hidden') :=
        match visible with
        | v :: visible' => (v, visible', hidden)
        | [] => let '(v, hidden') := element t hidden in (v, [], hidden')
        end in
      let '(v', errs) := dec_element v j in
      let '(seen', hidden'', errs') := array_loop (seen ++ [v']) visible' hidden' js' in
      (seen', hidden'', errs ++ errs')
  end.

(** [d.object] on a struct. *)
Fixpoint object_loop (vs : list goval) (ms : list (list Z * json)) : list goval * errors :=
  match ms with
  | [] => (vs, [])
  | (key, j) :: ms' =>
      match field_of key fields with
      | None => object_loop vs ms'
      | Some i =>
          match vs !! i with
          | None => object_loop vs ms'
          | Some v =>
              let '(v', errs) := dec_field i v j in
              let '(vs', errs') := object_loop (<[i := v']> vs) ms' in
              (vs', errs ++ errs')
          end
      end
  end.

End Loops.

(** [d.value]: the new value of the target and the mismatches, in order. *)
Fixpoint decode (path : list string) (t : gotype) (v : goval) (j : json) {struct j} : goval * errors :=
  match j with
  | JNull => match t with TSlice _ => (VSlice [] [], []) | _ => (v, []) end
  | JBool _ => (v, mismatch "bool" path)
  | JNumber lit =>
      match t with
      | TInt => match parse_int lit with Some n => (VInt n, []) | None => (v, mismatch ("number " +:+ text lit) path) end
      | _ => (v, mismatch "number" path)
      end
  | JString s => match t with TString => (VString s, []) | _ => (v, mismatch "string" path) end
  | JArray js =>
      match t, v with
      | TSlice t', VSlice visible hidden =>
          match js with
          | [] => (VSlice [] [], [])
          | _ =>
              let '(seen, hidden', errs) := array_loop (decode path t') t' [] visible hidden js in
              (VSlice seen hidden', errs)
          end
      | _, _ => (v, mismatch "array" path)
      end
  | JObject ms =>
      match t, v with
      | TStruct fields, VStruct vs =>
          let '(vs', errs) :=
            object_loop (fun i v j =>
              match fields !! i with Some (name, t') => decode (path ++ [name]) t' v j | None => (v, []) end) fields vs ms in
          (VStruct vs', errs)
      | _, _ => (v, mismatch "object" path)
      end
  end.

(** [Decode]: the first error, or the value. *)
Definition Decode (t : gotype) (l : list Z) : json_error + goval :=
  match parse l with
  | Failed e => inl e
  | NoFuel => inl EOF
  | Parsed j _ =>
      let '(v, errs) := decode [] t (zero_of t) j in
      match errs with e :: _ => inl e | [] => inr v end
  end.

(** ** Types and mismatches *)

Section FieldsTyped.
  Context (typed : gotype -> goval -> Prop).
Fixpoint fields_typed (fields : list (string * gotype)) (vs : list goval) : Prop :=
  match fields, vs with
  | [], [] => True
  | (_, t) :: fields', v :: vs' => typed t v /\ fields_typed fields' vs'
  | _, _ => False
  end.
End FieldsTyped.

(** A value of a Go type, as decoding makes them: ints are 64 bits wide, strings
    are UTF-8. *)
Fixpoint has_type (t : gotype) (v : goval) : Prop :=
  match t, v with
  | TString, VString s => utf8 s
  | TInt, VInt n => int64_min <= n <= int64_max
  | TSlice t', VSlice visible hidden => Forall (has_type t') visible /\ Forall (has_type t') hidden
  | TStruct fields, VStruct vs => fields_typed has_type fields vs
  | _, _ => False
  end.

(** A JSON value that can be stored in a type without a mismatch: [null] always,
    a number that is an int of 64 bits, and an object if the members it has for
    the fields can be stored; members that name no field do not matter. *)
Fixpoint fits (t : gotype) (j : json) {struct j} : Prop :=
  match j with
  | JNull => True
  | JBool _ => False
  | JNumber lit => t = TInt /\ is_Some (parse_int lit)
  | JString _ => t = TString
  | JArray js => match t with TSlice t' => Forall id (map (fits t') js) | _ => False end
  | JObject ms =>
      match t with
      | TStruct fields =>
          Forall id (map (fun m =>
            match i ← field_of (fst m) fields; fields !! i with Some (_, t') => fits t' (snd m) | None => True end) ms)
      | _ => False
      end
  end.

Lemma fields_typed_lookup P fields vs i name t v :
  fields_typed P fields vs -> fields !! i = Some (name, t) -> vs !! i = Some v -> P t v.
Proof.
  revert vs i. induction fields as [|[n t'] fields IH]; intros [|w vs] [|i]; cbn; try done; [naive_solver|].
  intros [_ ?]. by apply IH.
Qed.
Lemma fields_typed_insert P fields vs i name t v :
  fields_typed P fields vs -> fields !! i = Some (name, t) -> P t v -> fields_typed P fields (<[i := v]> vs).
Proof.
  revert vs i. induction fields as [|[n t'] fields IH]; intros [|w vs] [|i]; cbn; try done; [naive_solver|].
  intros [? ?] ? ?. split; [done|]. by apply IH.
Qed.
Lemma fields_typed_length P fields vs : fields_typed P fields vs -> length fields = length vs.
Proof. revert vs. induction fields as [|[n t] fields IH]; intros [|v vs]; cbn; try done. intros [_ ?]. f_equal. by apply IH. Qed.

Lemma zero_typed t : has_type t (zero_of t).
Proof.
  revert t. fix IH 1. intros [| |t|fields]; cbn; [apply utf8_nil|done|by repeat constructor|].
  induction fields as [|[n t] fields IHf]; cbn; [done|]. split; [apply IH|apply IHf].
Qed.

Lemma parse_int_range lit n : parse_int lit = Some n -> int64_min <= n <= int64_max.
Proof. unfold parse_int. repeat case_match; intros; simplify_eq; reflect; lia. Qed.

Lemma find_field_bound P i fields k : find_field P i fields = Some k -> (i <= k < i + length fields)%nat.
Proof.
  revert i. induction fields as [|[n t] fields IH]; intros i; cbn; [done|]. case_match.
  - intros. simplify_eq. lia.
  - intros ?%IH. lia.
Qed.
Lemma field_of_bound key fields i : field_of key fields = Some i -> is_Some (fields !! i).
Proof.
  unfold field_of. intros H. apply lookup_lt_is_Some. case_match; simplify_eq; apply find_field_bound in H || apply find_field_bound in H0; lia.
Qed.

(** A decoder of the values of type [t] that keeps the type and reports a
    mismatch exactly if there is one. *)
Definition sound (t : gotype) (j : json) (dec : goval -> goval * errors) : Prop :=
  utf8_json j -> forall v, has_type t v -> has_type t (dec v).1 /\ ((dec v).2 = [] <-> fits t j).

Lemma app_nil_iff {A} (l l' : list A) P Q : (l = [] <-> P) -> (l' = [] <-> Q) -> (l ++ l' = [] <-> P /\ Q).
Proof. intros <- <-. split; [apply app_eq_nil|by intros [-> ->]]. Qed.

Lemma array_loop_sound dec t seen visible hidden js :
  Forall (fun j => sound t j (fun v => dec v j)) js -> Forall utf8_json js ->
  Forall (has_type t) seen -> Forall (has_type t) visible -> Forall (has_type t) hidden ->
  let '(seen', hidden', errs) := array_loop dec t seen visible hidden js in
  Forall (has_type t) seen' /\ Forall (has_type t) hidden' /\ (errs = [] <-> Forall id (map (fits t) js)).
Proof.
  intros Hjs. revert seen visible hidden. induction Hjs as [|j js Hj Hjs IH]; intros seen visible hidden Hu Hs Hv Hh; cbn.
  { split_and!; [done|by apply Forall_app|by rewrite Forall_nil]. }
  assert (exists v visible' hidden',
    match visible with v :: visible' => (v, visible', hidden) | [] => let '(v, h') := element t hidden in (v, [], h') end
      = (v, visible', hidden') /\ has_type t v /\ Forall (has_type t) visible' /\ Forall (has_type t) hidden')
    as (v & visible' & hidden' & -> & Hv1 & Hv2 & Hv3).
  { destruct visible as [|v visible]; cbn; [destruct hidden as [|w hidden]; cbn|];
      eexists _, _, _; (split; [done|]); repeat match goal with H : Forall _ (_ :: _) |- _ => apply Forall_cons in H as [? ?] end;
      split_and!; try done. apply zero_typed. }
  apply Forall_cons in Hu as [Hu Hus]. destruct (Hj Hu v Hv1) as [Ht He]. destruct (dec v j) as [v' errs].
  specialize (IH (seen ++ [v']) visible' hidden'). destruct (array_loop _ _ _ _ _ js) as [[seen' hidden''] errs'].
  destruct IH as (? & ? & ?); [done| |done..|].
  - apply Forall_app_2; [done|]. by apply Forall_cons_2; [|apply Forall_nil_2].
  - split_and!; [done..|]. rewrite Forall_cons. by apply app_nil_iff.
Qed.

Lemma object_loop_sound dec fields vs ms :
  Forall (fun m => forall i name t, fields !! i = Some (name, t) -> sound t (snd m) (fun v => dec i v (snd m))) ms ->
  Forall (fun m => utf8_json (snd m)) ms -> fields_typed has_type fields vs ->
  let '(vs', errs) := object_loop dec fields vs ms in
  fields_typed has_type fields vs' /\ (errs = [] <-> fits (TStruct fields) (JObject ms)).
Proof.
  intros Hms. revert vs. induction Hms as [|[key j] ms Hm Hms IH]; intros vs Hu Hvs; cbn.
  { split; [done|by rewrite Forall_nil]. }
  destruct (field_of key fields) as [i|] eqn:Hi; cbn; cycle 1.
  { apply Forall_cons in Hu as [_ Hu]. specialize (IH vs Hu Hvs). destruct (object_loop _ _ vs ms). cbn in IH. rewrite Forall_cons. unfold id at 1. tauto. }
  destruct (field_of_bound _ _ _ Hi) as [[name t] Hf].
  destruct (lookup_lt_is_Some_2 vs i) as [v Hv].
  { rewrite <- (fields_typed_length _ _ _ Hvs). by eapply lookup_lt_Some. }
  rewrite Hf, Hv. apply Forall_cons in Hu as [Hu Hus]. destruct (Hm i name t Hf Hu v) as [Ht He]; [by eapply fields_typed_lookup|].
  cbn in Ht, He. destruct (dec i v j) as [v' errs].
  specialize (IH (<[i := v']> vs)). destruct (object_loop _ _ (<[i := v']> vs) ms) as [vs' errs'].
  destruct IH as [? ?]; [done|by eapply fields_typed_insert|]. split; [done|]. rewrite Forall_cons. by apply app_nil_iff.
Qed.

Lemma decode_sound path t j : sound t j (fun v => decode path t v j).
Proof.
  revert path t. induction j as [|b|lit|s|js IH|ms IH] using json_ind; intros path t Hu v Hv.
  - destruct t; cbn; split; try done; by repeat constructor.
  - cbn. by split.
  - destruct t; cbn; try (split; [done|split; [done|by intros [? _]]]).
    destruct (parse_int lit) as [n|] eqn:Hp; cbn.
    + split; [by eapply parse_int_range|]. split; [by eauto|done].
    + split; [done|]. split; [done|]. by intros [_ ?%is_Some_None].
  - destruct t; cbn; split; done.
  - cbn [utf8_json] in Hu. rewrite Forall_map in Hu.
    destruct t as [| |t|fields]; destruct v as [|?|visible hidden|vs]; cbn; try done; try (by split).
    destruct Hv as [Hvis Hhid]. destruct js as [|j js]; [cbn; split; [by repeat constructor|by rewrite Forall_nil]|].
    pose proof (array_loop_sound (decode path t) t [] visible hidden (j :: js)) as Hloop.
    destruct (array_loop _ _ _ _ _ _) as [[seen hidden'] errs].
    destruct Hloop as (? & ? & ?); [|done|apply Forall_nil_2|done..].
    eapply Forall_impl; [exact IH|]. intros j' Hj'. apply Hj'.
  - destruct t as [| |t|fields]; destruct v as [|?|visible hidden|vs]; cbn [decode]; try done; try (by split).
    match goal with |- context [object_loop ?d _ _ _] => pose proof (object_loop_sound d fields vs ms) as Hloop end.
    destruct (object_loop _ _ _ _) as [vs' errs]. apply Hloop; [|by cbn in Hu; rewrite Forall_map in Hu|done].
    eapply Forall_impl; [exact IH|]. intros [key j'] Hj' i name t Hf. cbn. rewrite Hf. apply Hj'.
Qed.

Lemma decode_mismatches path t v j :
  Forall (fun e => exists value path', e = UnmarshalTypeError value path') (decode path t v j).2.
Proof.
  assert (forall value p, Forall (fun e => exists value path', e = UnmarshalTypeError value path') (mismatch value p)) as Hm.
  { intros. apply Forall_cons_2; [by eauto|apply Forall_nil_2]. }
  revert path t v. induction j as [|b|lit|s|js IH|ms IH] using json_ind; intros path t v.
  - destruct t; apply Forall_nil_2.
  - apply Hm.
  - destruct t; cbn; try apply Hm. case_match; [apply Forall_nil_2|apply Hm].
  - destruct t; try apply Hm; apply Forall_nil_2.
  - destruct t as [| |t|fields]; destruct v as [|?|visible hidden|vs]; cbn [decode]; try apply Hm.
    destruct js as [|j js]; [apply Forall_nil_2|]. generalize (@nil goval) as seen. revert visible hidden.
    induction IH as [|j' js' Hj _ IHl]; intros visible hidden seen; [apply Forall_nil_2|]. cbn [array_loop].
    destruct (match visible with [] => _ | _ => _ end) as [[w visible'] hidden'].
    specialize (Hj path t w). destruct (decode path t w j') as [w' errs].
    specialize (IHl visible' hidden' (seen ++ [w'])). destruct (array_loop _ _ _ _ _ js') as [[? ?] ?].
    by apply Forall_app_2.
  - destruct t as [| |t|fields]; destruct v as [|?|visible hidden|vs]; cbn [decode]; try apply Hm.
    revert vs. induction IH as [|[key j'] ms' Hj _ IHl]; intros vs; [apply Forall_nil_2|]. cbn [object_loop].
    destruct (field_of key fields) as [i|]; [|apply IHl]. destruct (vs !! i) as [w|]; [|apply IHl].
    destruct (fields !! i) as [[name t']|]; cycle 1.
    { specialize (IHl (<[i := w]> vs)). by destruct (object_loop _ _ _ ms'). }
    specialize (Hj (path ++ [name]) t' w). cbn [snd] in Hj. destruct (decode _ t' w j') as [w' errs].
    specialize (IHl (<[i := w']> vs)). destruct (object_loop _ _ _ ms') as [? ?]. by apply Forall_app_2.
Qed.

(** What decoding gives.  A value is stored exactly if the input starts with a
    JSON value that fits the type, and then it is a value of the type (ints
    included); otherwise the error is that of the syntax, or that of a
    mismatch. *)
Lemma Decode_outcome t l :
  Forall is_byte l ->
  match Decode t l with
  | inr v => has_type t v /\ exists j rest, parse l = Parsed j rest /\ fits t j
  | inl e =>
      parse l = Failed e \/
      exists j rest value path, parse l = Parsed j rest /\ ~ fits t j /\ e = UnmarshalTypeError value path
  end.
Proof.
  intros Hl. unfold Decode. pose proof (parse_total l). destruct (parse l) as [j rest|e|] eqn:Hp; [|by left|done].
  pose proof (decode_sound [] t j (parse_utf8 _ _ _ Hl Hp) (zero_of t) (zero_typed t)) as [Ht He].
  pose proof (decode_mismatches [] t (zero_of t) j) as Hm.
  destruct (decode [] t (zero_of t) j) as [v errs]. cbn in Ht, He, Hm. destruct errs as [|e errs].
  - split; [done|]. exists j, rest. split; [done|]. by apply He.
  - right. apply Forall_cons in Hm as [(value & path & ->) _]. exists j, rest, value, path.
    split_and!; [done| |done]. intros Hf%He. done.
Qed.

(** ** Encodings

    [encodes t v j]: the JSON value [j] writes down [v].  The members of an object
    come in any order, and fields that are zero may be left out. *)

Unset Elimination Schemes.
Inductive encodes : gotype -> goval -> json -> Prop :=
| encodes_string s : encodes TString (VString s) (JString s)
| encodes_int n lit : parse_int lit = Some n -> encodes TInt (VInt n) (JNumber lit)
| encodes_slice t vs js : Forall2 (encodes t) vs js -> encodes (TSlice t) (VSlice vs []) (JArray js)
| encodes_struct fields vs ms :
    length vs = length fields ->
    NoDup ms.*1 ->
    Forall (fun m => exists i name t v, fields !! i = Some (name, t) /\ fst m = bytes name /\
                       vs !! i = Some v /\ encodes t v (snd m)) ms ->
    (forall i name t, fields !! i = Some (name, t) -> bytes name ∉ ms.*1 -> vs !! i = Some (zero_of t)) ->
    encodes (TStruct fields) (VStruct vs) (JObject ms).
Set Elimination Schemes.

(** No two fields of a struct have the same name. *)
Fixpoint wf_type (t : gotype) : Prop :=
  match t with
  | TString | TInt => True
  | TSlice t' => wf_type t'
  | TStruct fields => NoDup (fst <$> fields) /\ Forall id (map (fun f => wf_type (snd f)) fields)
  end.

Lemma bytes_inj s s' : bytes s = bytes s' -> s = s'.
Proof.
  revert s'. induction s as [|c s IH]; intros [|c' s']; cbn; try done. intros [= Hc Hs]. f_equal; [by apply byte_inj|by apply IH].
Qed.

Lemma find_field_exact fields i k name t :
  NoDup (fst <$> fields) -> fields !! i = Some (name, t) ->
  find_field (fun n => bool_decide (bytes n = bytes name)) k fields = Some (k + i)%nat.
Proof.
  revert i k. induction fields as [|[n t'] fields IH]; intros [|i] k Hnd Hi; try done; cbn in Hnd; apply NoDup_cons in Hnd as [Hn Hnd].
  - cbn in *. simplify_eq. rewrite bool_decide_true by done. f_equal. lia.
  - cbn in *. rewrite bool_decide_false; [rewrite (IH i (S k)) by done; f_equal; lia|].
    intros ->%bytes_inj. apply Hn, list_elem_of_fmap. exists (name, t). split; [done|]. by eapply list_elem_of_lookup_2.
Qed.
Lemma field_of_exact fields i name t :
  NoDup (fst <$> fields) -> fields !! i = Some (name, t) -> field_of (bytes name) fields = Some i.
Proof. intros Hnd Hi. unfold field_of. by rewrite (find_field_exact fields i 0 name t). Qed.

Lemma find_field_holds P i fields :
  match find_field P i fields with
  | Some k => exists name t, (i <= k)%nat /\ fields !! (k - i)%nat = Some (name, t) /\ P name = true
  | None => forall name t, (name, t) ∈ fields -> P name = false
  end.
Proof.
  revert i. induction fields as [|[n t] fields IH]; intros i; cbn; [by intros ?? ?%elem_of_nil|].
  destruct (P n) eqn:Hn.
  - exists n, t. by rewrite Nat.sub_diag.
  - specialize (IH (S i)). destruct (find_field P (S i) fields) as [k|].
    + destruct IH as (n' & t' & ? & Hk & ?). exists n', t'. split_and!; [lia| |done].
      replace (k - i)%nat with (S (k - S i))%nat by lia. done.
    + intros n' t' [[= -> ->]|?]%elem_of_cons; [done|by eapply IH].
Qed.

(** When no two field names differ in case only, a key names the field whose name
    it is up to case. *)
Lemma field_of_folded fields key i name t :
  NoDup ((fun f => folded (bytes (fst f))) <$> fields) -> fields !! i = Some (name, t) ->
  field_of key fields = Some i <-> folded key = folded (bytes name).
Proof.
  intros Hnd Hi.
  assert (forall k n u, fields !! k = Some (n, u) -> folded (bytes n) = folded key ->
    folded key = folded (bytes name) -> k = i) as Hinj.
  { intros k n u Hk E1 E2. eapply NoDup_lookup; [exact Hnd| |].
    - rewrite list_lookup_fmap, Hk. exact (f_equal Some (eq_trans E1 E2)).
    - by rewrite list_lookup_fmap, Hi. }
  unfold field_of.
  pose proof (find_field_holds (fun name => bool_decide (bytes name = key)) 0 fields) as H1.
  pose proof (find_field_holds (fun name => bool_decide (folded (bytes name) = folded key)) 0 fields) as H2.
  destruct (find_field (fun name => bool_decide (bytes name = key)) 0 fields) as [k|].
  - destruct H1 as (n & u & _ & Hk & Hn%bool_decide_eq_true). rewrite Nat.sub_0_r in Hk. subst key. split.
    + intros [= ->]. by simplify_eq.
    + intros E. f_equal. by eapply Hinj.
  - destruct (find_field (fun name => bool_decide (folded (bytes name) = folded key)) 0 fields) as [k|].
    + destruct H2 as (n & u & _ & Hk & Hn%bool_decide_eq_true). rewrite Nat.sub_0_r in Hk. split.
      * intros [= ->]. by simplify_eq.
      * intros E. f_equal. by eapply Hinj.
    + split; [done|]. intros E. specialize (H2 name t (list_elem_of_lookup_2 _ _ _ Hi)).
      apply bool_decide_eq_false in H2. congruence.
Qed.

Lemma fits_struct fields j :
  NoDup ((fun f => folded (bytes (fst f))) <$> fields) ->
  fits (TStruct fields) j <->
  j = JNull \/ exists ms, j = JObject ms /\
    Forall (fun m : list Z * json => Forall (fun f : string * gotype =>
      folded (fst m) = folded (bytes (fst f)) -> fits (snd f) (snd m)) fields) ms.
Proof.
  intros Hnd. destruct j as [|b|lit|s|js|ms]; cbn [fits]; try (split; [done || (by intros []) || (by left)|
    intros [?|(? & ? & _)]; done]).
  rewrite Forall_map. transitivity (Forall (fun m : list Z * json => Forall (fun f : string * gotype =>
      folded (fst m) = folded (bytes (fst f)) -> fits (snd f) (snd m)) fields) ms); cycle 1.
  { split; [by eauto|]. intros [?|(? & [= <-] & ?)]; done. }
  apply Forall_iff. intros [key v]. unfold compose, id. cbn [fst snd]. rewrite Forall_lookup. split.
  - intros H i [name t] Hi E. cbn in *. apply (field_of_folded fields key i name t Hnd Hi) in E. rewrite E in H. cbn in H.
    by rewrite Hi in H.
  - intros H. destruct (field_of key fields) as [i|] eqn:Ef; cbn; [|done]. destruct (fields !! i) as [[name t]|] eqn:Hi; [|done].
    apply (H i _ Hi). by apply (field_of_folded fields key i name t Hnd Hi).
Qed.

Lemma fits_slice t j : fits (TSlice t) j <-> j = JNull \/ exists js, j = JArray js /\ Forall (fits t) js.
Proof.
  destruct j; cbn [fits]; try (split; [done || (by intros []) || (by left)|intros [?|(? & ? & _)]; done]).
  rewrite Forall_map. split; [by eauto|]. intros [?|(? & [= <-] & ?)]; done.
Qed.
Lemma fits_string j : fits TString j <-> j = JNull \/ exists s, j = JString s.
Proof.
  destruct j; cbn [fits]; try (split; [done || (by intros []) || (by left)|intros [?|(? & ?)]; done]). by split; eauto.
Qed.
Lemma fits_int j : fits TInt j <-> j = JNull \/ exists lit n, j = JNumber lit /\ parse_int lit = Some n.
Proof.
  destruct j; cbn [fits]; try (split; [done || (by intros []) || (by left)|intros [?|(? & ? & ? & _)]; done]).
  split; [intros [_ [n ?]]; by eauto|]. intros [?|(? & ? & [= <-] & ?)]; [done|]. split; [done|by eexists].
Qed.

Lemma object_loop_encodes dec fields vs cur ms :
  NoDup (fst <$> fields) -> length vs = length fields -> length cur = length fields -> NoDup ms.*1 ->
  Forall (fun m => exists i name t v, fields !! i = Some (name, t) /\ fst m = bytes name /\ vs !! i = Some v /\
                     dec i (zero_of t) (snd m) = (v, [])) ms ->
  (forall i name t, fields !! i = Some (name, t) ->
     cur !! i = if bool_decide (bytes name ∈ ms.*1) then Some (zero_of t) else vs !! i) ->
  object_loop dec fields cur ms = (vs, []).
Proof.
  intros Hnd Hvs Hlen Hks Hms. revert cur Hlen. induction Hms as [|[key j] ms Hm Hms IH]; intros cur Hlen Hcur.
  - cbn. f_equal. apply list_eq_same_length with (length fields); [done..|]. intros i x y Hi Hx Hy.
    destruct (lookup_lt_is_Some_2 fields i Hi) as [[name t] Hf]. specialize (Hcur i name t Hf). rewrite bool_decide_false in Hcur by apply not_elem_of_nil. congruence.
  - cbn [fmap list_fmap] in Hks. apply NoDup_cons in Hks as [Hkey Hks].
    destruct Hm as (i & name & t & v & Hf & Hk & Hv & Hd). cbn [fst snd] in *. subst key.
    cbn [object_loop]. rewrite (field_of_exact _ _ _ _ Hnd Hf).
    pose proof (Hcur i name t Hf) as Hi. rewrite bool_decide_true in Hi by (cbn; set_solver). rewrite Hi, Hd.
    rewrite (IH Hks (<[i := v]> cur)); [done|by rewrite length_insert|].
    intros i' name' t' Hf'. destruct (decide (i' = i)) as [->|Hne].
    + simplify_eq. rewrite bool_decide_false by done.
      rewrite list_lookup_insert_eq by (rewrite Hlen; by eapply lookup_lt_Some). done.
    + rewrite list_lookup_insert_ne by done. rewrite (Hcur _ _ _ Hf'). cbn [fmap list_fmap fst].
      assert (bytes name' <> bytes name) as Hn.
      { intros ->%bytes_inj. apply Hne. eapply (NoDup_lookup (fst <$> fields)); [done|..]; by rewrite list_lookup_fmap, ?Hf', ?Hf. }
      by rewrite (bool_decide_ext (bytes name' ∈ bytes name :: ms.*1) (bytes name' ∈ ms.*1)) by set_solver.
Qed.

Lemma array_loop_encodes dec t seen vs js :
  Forall2 (fun v j => dec (zero_of t) j = (v, [])) vs js -> array_loop dec t seen [] [] js = (seen ++ vs, [], []).
Proof.
  intros H. revert seen. induction H as [|v j vs js Hd _ IH]; intros seen; cbn; [by rewrite app_nil_r|].
  rewrite Hd, IH. by rewrite <- app_assoc.
Qed.

(** Decoding an encoding into a new variable gives the value back. *)
Lemma decode_encodes path t v j : wf_type t -> encodes t v j -> decode path t (zero_of t) j = (v, []).
Proof.
  revert path t v. induction j as [|b|lit|s|js IH|ms IH] using json_ind; intros path t v Hwf Henc; inversion Henc as [|? ? Hp|? ? ? Hall|fields vs ? Hlen Hnd Hms Hzero]; subst.
  - cbn. by rewrite Hp.
  - done.
  - cbn [decode zero_of]. destruct js as [|j js]; [by apply Forall2_nil_inv_r in Hall as ->|].
    rewrite (array_loop_encodes _ _ _ vs); [done|]. cbn in Hwf.
    clear Henc. induction Hall as [|w j' vs' js' Hw _ IHall]; [apply Forall2_nil_2|].
    apply Forall_cons in IH as [Hj' Hjs']. apply Forall2_cons_2; [by apply Hj'|by apply IHall].
  - cbn in Hwf. destruct Hwf as [Hnames Hwf]. cbn [decode zero_of].
    erewrite (object_loop_encodes _ fields vs); [done|done|done|by rewrite length_map|done| |].
    + apply Forall_forall. intros [key j'] Hin. rewrite Forall_forall in Hms, IH.
      destruct (Hms _ Hin) as (i & name & t & v & Hf & Hk & Hv & He). exists i, name, t, v. split_and!; [done..|].
      rewrite Hf. apply (IH _ Hin); [|done]. rewrite Forall_map, Forall_forall in Hwf. apply (Hwf (name, t)). by eapply list_elem_of_lookup_2.
    + intros i name t Hf. rewrite list_lookup_fmap, Hf. cbn. case_bool_decide; [done|]. by rewrite (Hzero _ _ _ Hf).
Qed.

(** ** Writing

    The compact text of a JSON value: nothing but the escapes that are needed,
    and no spaces. *)

Definition hex_of (d : Z) : Z := if d <? 10 then 48 + d else 87 + d.
Definition escape (b : Z) : list Z :=
  if b =? 34 then [92; 34] else if b =? 92 then [92; 92]
  else if b <? 32 then [92; 117; 48; 48; hex_of (b / 16); hex_of (b mod 16)]
  else [b].
Definition print_string (s : list Z) : list Z := 34 :: (s ≫= escape) ++ [34].

Fixpoint separated (l : list (list Z)) : list Z :=
  match l with
  | [] => []
  | [x] => x
  | x :: l' => x ++ 44 :: separated l'
  end.

Fixpoint print (j : json) : list Z :=
  match j with
  | JNull => bytes "null"
  | JBool b => bytes (if b then "true" else "false")
  | JNumber lit => lit
  | JString s => print_string s
  | JArray js => 91 :: separated (map print js) ++ [93]
  | JObject ms => 123 :: separated (map (fun m => print_string (fst m) ++ 58 :: print (snd m)) ms) ++ [125]
  end.

(** JSON that can be written and read back: the numbers are number literals, the
    strings UTF-8. *)
Fixpoint wf_json (j : json) : Prop :=
  match j with
  | JNull | JBool _ => True
  | JNumber lit => scan_number lit = Parsed lit []
  | JString s => utf8 s
  | JArray js => Forall id (map wf_json js)
  | JObject ms => Forall id (map (fun m => utf8 (fst m) /\ wf_json (snd m)) ms)
  end.

(** How deep arrays and objects are nested. *)
Fixpoint nesting (j : json) : Z :=
  match j with
  | JArray js => 1 + fold_right Z.max 0 (map nesting js)
  | JObject ms => 1 + fold_right Z.max 0 (map (fun m => nesting (snd m)) ms)
  | _ => 0
  end.

(** *** Strings *)

Lemma utf8_bytes s : utf8 s -> Forall is_byte s.
Proof.
  unfold is_byte. induction 1; unfold second_ok, is_cont in *; reflect; repeat apply Forall_cons_2; try done; try lia;
    repeat case_match; reflect; lia.
Qed.

Lemma unquote_skip l1 l2 : unquote (length l1) (l1 ++ l2) = unquote 0 l2.
Proof. induction l1 as [|b l1 IH]; [done|]. apply IH. Qed.

Lemma escape_high l : Forall (fun b => 128 <= b) l -> l ≫= escape = l.
Proof.
  induction 1 as [|b l Hb _ IH]; [done|]. cbn. rewrite IH. unfold escape.
  by rewrite !(proj2 (Z.eqb_neq _ _)), (proj2 (Z.ltb_ge _ _)) by lia.
Qed.

(** One character outside ASCII is copied. *)
Lemma unquote_rune c r l :
  Forall (fun b => 128 <= b) c -> c <> [] -> decode_rune (c ++ l) = (r, length c) -> bytes (encode_rune r) = c ->
  unquote 0 (c ++ l) = c ++ unquote 0 l.
Proof.
  intros Hc Hne Hd He. destruct c as [|b c]; [done|]. apply Forall_cons in Hc as [Hb _].
  cbn [app unquote]. unfold unquote_first. rewrite (proj2 (Z.eqb_neq b 92)), (proj2 (Z.ltb_ge b 128)) by lia.
  cbn [app] in Hd. rewrite Hd, He. cbn [length]. rewrite Nat.sub_succ, Nat.sub_0_r, unquote_skip. done.
Qed.

(** Sums of parts are taken apart again by division. *)
Ltac bytes_of_rune :=
  unfold encode_rune;
  repeat match goal with |- context [if ?c then _ else _] => destruct c eqn:?; reflect; try (exfalso; lia) end;
  rewrite ?bytes_app; repeat rewrite bytes_char by by_division; cbn [app]; repeat f_equal; by_division.

Lemma rune_two b0 b1 l : 194 <= b0 <= 223 -> second_ok b0 b1 = true ->
  exists r, decode_rune (b0 :: b1 :: l) = (r, 2%nat) /\ bytes (encode_rune r) = [b0; b1].
Proof.
  intros Hb H. exists ((b0 - 192) * 64 + (b1 - 128)). cbn [decode_rune]. rewrite H.
  rewrite (proj2 (Z.ltb_ge b0 128)), (proj2 (Z.leb_le 194 b0)), (proj2 (Z.leb_le b0 223)) by lia. split; [done|].
  unfold second_ok, is_cont in H. repeat split_hyp H; reflect; try lia; bytes_of_rune.
Qed.
Lemma rune_three b0 b1 b2 l : 224 <= b0 <= 239 -> second_ok b0 b1 && is_cont b2 = true ->
  exists r, decode_rune (b0 :: b1 :: b2 :: l) = (r, 3%nat) /\ bytes (encode_rune r) = [b0; b1; b2].
Proof.
  intros Hb H. exists ((b0 - 224) * 4096 + (b1 - 128) * 64 + (b2 - 128)). cbn [decode_rune]. rewrite H.
  rewrite (proj2 (Z.ltb_ge b0 128)), (proj2 (Z.leb_gt b0 223)), andb_false_r by lia.
  rewrite (proj2 (Z.leb_le 224 b0)), (proj2 (Z.leb_le b0 239)) by lia. split; [done|].
  unfold second_ok, is_cont in H. repeat split_hyp H; reflect; try lia; bytes_of_rune.
Qed.

Lemma rune_four b0 b1 b2 b3 l : 240 <= b0 <= 244 -> second_ok b0 b1 && is_cont b2 && is_cont b3 = true ->
  exists r, decode_rune (b0 :: b1 :: b2 :: b3 :: l) = (r, 4%nat) /\ bytes (encode_rune r) = [b0; b1; b2; b3].
Proof.
  intros Hb H. exists ((b0 - 240) * 262144 + (b1 - 128) * 4096 + (b2 - 128) * 64 + (b3 - 128)). cbn [decode_rune]. rewrite H.
  rewrite (proj2 (Z.ltb_ge b0 128)), (proj2 (Z.leb_gt b0 223)), (proj2 (Z.leb_gt b0 239)), !andb_false_r by lia.
  rewrite (proj2 (Z.leb_le 240 b0)), (proj2 (Z.leb_le b0 244)) by lia. split; [done|].
  unfold second_ok, is_cont in H. repeat split_hyp H; reflect; try lia; bytes_of_rune.
Qed.

Lemma hex_of_value d : 0 <= d < 16 -> hex_value (hex_of d) = Some d.
Proof.
  intros Hd. unfold hex_of, hex_value. destruct (Z.ltb_spec d 10).
  - rewrite (proj2 (Z.leb_le 48 (48 + d))), (proj2 (Z.leb_le (48 + d) 57)) by lia. cbn. f_equal. lia.
  - rewrite (proj2 (Z.leb_gt (87 + d) 57)), andb_false_r by lia.
    rewrite (proj2 (Z.leb_le 97 (87 + d))), (proj2 (Z.leb_le (87 + d) 102)) by lia. cbn. f_equal. lia.
Qed.

(** An ASCII byte is escaped so that it is read back. *)
Lemma unquote_escape_ascii b l : 0 <= b < 128 -> unquote 0 (escape b ++ l) = b :: unquote 0 l.
Proof.
  intros Hb. unfold escape. destruct (Z.eqb_spec b 34) as [->|]; [done|]. destruct (Z.eqb_spec b 92) as [->|]; [done|].
  destruct (Z.ltb_spec b 32); cycle 1.
  { cbn [app unquote]. unfold unquote_first. rewrite (proj2 (Z.eqb_neq b 92)), (proj2 (Z.ltb_lt b 128)) by lia. done. }
  cbn [app unquote]. unfold unquote_first. cbn [Z.eqb]. change (92 =? 92) with true. change (117 =? 117) with true. cbv iota.
  unfold hex4. rewrite !hex_of_value by by_division. cbn [mbind option_bind].
  change (hex_value 48) with (Some 0). cbn [mbind option_bind].
  replace (4096 * 0 + 256 * 0 + 16 * (b / 16) + b mod 16) with b by by_division.
  unfold is_surrogate. rewrite (proj2 (Z.leb_gt 55296 b)) by lia. cbn [andb].
  unfold encode_rune. rewrite (proj2 (Z.ltb_ge b 0)), (proj2 (Z.ltb_ge 1114111 b)), (proj2 (Z.leb_gt 55296 b)), (proj2 (Z.ltb_lt b 128)) by lia.
  cbn [orb andb]. rewrite bytes_char by lia. done.
Qed.

Lemma second_high b0 b1 : second_ok b0 b1 = true -> 128 <= b1.
Proof. unfold second_ok, is_cont. intros H. repeat split_hyp H; reflect; lia. Qed.

(** The escaped text of UTF-8 is read back. *)
Lemma unquote_escape s : utf8 s -> unquote 0 (s ≫= escape) = s.
Proof.
  assert (forall c r l, Forall (fun b => 128 <= b) c -> c <> [] -> decode_rune (c ++ (l ≫= escape)) = (r, length c) ->
    bytes (encode_rune r) = c -> unquote 0 (l ≫= escape) = l -> unquote 0 ((c ++ l) ≫= escape) = c ++ l) as Hrune.
  { intros c r l Hc Hne Hd He Hl. rewrite bind_app, (escape_high c Hc), (unquote_rune c r); [by rewrite Hl|done..]. }
  induction 1 as [|b l Hb _ IH|b0 b1 l Hb H _ IH|b0 b1 b2 l Hb H _ IH|b0 b1 b2 b3 l Hb H _ IH].
  - done.
  - cbn [mbind list_bind]. rewrite unquote_escape_ascii by done. by f_equal.
  - destruct (rune_two b0 b1 (l ≫= escape)) as (r & Hd & He); [done..|].
    apply (Hrune [b0; b1] r); [|done..]. apply second_high in H. repeat apply Forall_cons_2; [lia..|apply Forall_nil_2].
  - destruct (rune_three b0 b1 b2 (l ≫= escape)) as (r & Hd & He); [done..|].
    apply (Hrune [b0; b1; b2] r); [|done..]. unfold is_cont in H. reflect. destruct H as [?%second_high ?].
    repeat apply Forall_cons_2; [lia..|apply Forall_nil_2].
  - destruct (rune_four b0 b1 b2 b3 (l ≫= escape)) as (r & Hd & He); [done..|].
    apply (Hrune [b0; b1; b2; b3] r); [|done..]. unfold is_cont in H. reflect. destruct H as [[?%second_high ?] ?].
    repeat apply Forall_cons_2; [lia..|apply Forall_nil_2].
Qed.

Lemma is_hex_of d : 0 <= d < 16 -> is_hex (hex_of d) = true.
Proof. intros. unfold is_hex. by rewrite hex_of_value. Qed.

(** The scanner finds the end of an escaped text. *)
Lemma scan_string_escape acc s rest :
  Forall is_byte s -> scan_string acc ((s ≫= escape) ++ 34 :: rest) = Parsed (reverse acc ++ (s ≫= escape)) rest.
Proof.
  intros Hs. revert acc. induction Hs as [|b s Hb _ IH]; intros acc; [by cbn; rewrite app_nil_r|].
  cbn [mbind list_bind]. rewrite <- app_assoc. unfold is_byte in Hb.
  assert (forall c, reverse (reverse c ++ acc) ++ (s ≫= escape) = reverse acc ++ c ++ (s ≫= escape)) as Happ.
  { intros c. by rewrite reverse_app, reverse_involutive, app_assoc. }
  unfold escape at 1 3. destruct (Z.eqb_spec b 34) as [->|]; [|destruct (Z.eqb_spec b 92) as [->|]; [|destruct (Z.ltb_spec b 32)]].
  - cbn. rewrite IH. f_equal. apply (Happ [92; 34]).
  - cbn. rewrite IH. f_equal. apply (Happ [92; 92]).
  - cbn [app scan_string]. change (92 =? 34) with false. change (92 =? 92) with true. change (is_escape 117) with false.
    change (117 =? 117) with true. change (is_hex 48) with true. rewrite !is_hex_of by by_division. cbn [negb]. cbv iota.
    rewrite IH. f_equal. apply (Happ [92; 117; 48; 48; hex_of (b / 16); hex_of (b mod 16)]).
  - cbn [app scan_string]. rewrite !(proj2 (Z.eqb_neq b _)), (proj2 (Z.ltb_ge b 32)) by lia.
    rewrite IH. f_equal. apply (Happ [b]).
Qed.

Lemma parse_string_print s rest : utf8 s -> parse_string ((s ≫= escape) ++ 34 :: rest) = Parsed s rest.
Proof.
  intros Hs. unfold parse_string. rewrite scan_string_escape by by apply utf8_bytes. cbn. by rewrite unquote_escape.
Qed.

(** *** Numbers *)

(** What may follow a number so that it ends there. *)
Definition ends_number (rest : list Z) : Prop :=
  match rest with [] => True | b :: _ => is_digit b = false /\ b <> 46 /\ b <> 101 /\ b <> 69 end.

(** Reading goes the same way when such input follows. *)
Definition extends {A} (p p' : parsed A) (rest : list Z) : Prop :=
  forall x r, p = Parsed x r -> p' = Parsed x (r ++ rest).

Lemma scan_digits_extends acc l rest x r :
  ends_number rest -> scan_digits acc l = (x, r) -> scan_digits acc (l ++ rest) = (x, r ++ rest).
Proof.
  intros He. revert acc. induction l as [|b l IH]; intros acc; cbn.
  - intros [= <- <-]. destruct rest as [|b rest]; [done|]. cbn. destruct He as [-> _]. done.
  - destruct (is_digit b); [apply IH|]. by intros [= <- <-].
Qed.
Lemma scan_digits1_extends acc l rest : ends_number rest -> extends (scan_digits1 acc l) (scan_digits1 acc (l ++ rest)) rest.
Proof.
  intros He x r. destruct l as [|b l]; [done|]. cbn. destruct (is_digit b); [|done].
  destruct (scan_digits (b :: acc) l) as [y r'] eqn:H. intros [= <- <-]. by rewrite (scan_digits_extends _ _ _ _ _ He H).
Qed.
Lemma scan_fraction_extends acc l rest : ends_number rest -> extends (scan_fraction acc l) (scan_fraction acc (l ++ rest)) rest.
Proof.
  intros He x r. destruct l as [|b l]; cbn.
  - intros [= <- <-]. destruct rest as [|b rest]; [done|]. destruct He as (_ & Hb & _). cbn.
    by rewrite (proj2 (Z.eqb_neq b 46)).
  - destruct (b =? 46); [|by intros [= <- <-]]. by apply scan_digits1_extends.
Qed.
Lemma scan_exponent_extends acc l rest : ends_number rest -> extends (scan_exponent acc l) (scan_exponent acc (l ++ rest)) rest.
Proof.
  intros He x r. destruct l as [|b l]; cbn.
  - intros [= <- <-]. destruct rest as [|b rest]; [done|]. destruct He as (_ & _ & Hb & Hb'). cbn.
    by rewrite (proj2 (Z.eqb_neq b 101)), (proj2 (Z.eqb_neq b 69)).
  - destruct ((b =? 101) || (b =? 69)); [|by intros [= <- <-]]. destruct l as [|s l]; [done|]. cbn [app].
    destruct ((s =? 43) || (s =? 45)); [by apply scan_digits1_extends|].
    by apply (scan_digits1_extends _ (s :: l)).
Qed.
Lemma scan_integer_extends acc l rest : ends_number rest -> extends (scan_integer acc l) (scan_integer acc (l ++ rest)) rest.
Proof.
  intros He x r. destruct l as [|b l]; [done|]. cbn [scan_integer app]. destruct (b =? 48); [by intros [= <- <-]|].
  by apply (scan_digits1_extends _ (b :: l)).
Qed.
Lemma extends_bind {A B} (p p' : parsed A) (f f' : A -> list Z -> parsed B) rest :
  extends p p' rest -> (forall x r, extends (f x r) (f' x (r ++ rest)) rest) -> extends (p_bind p f) (p_bind p' f') rest.
Proof. intros Hp Hf y r'. destruct p as [x r| |]; try done. rewrite (Hp x r eq_refl). apply Hf. Qed.

Lemma scan_number_extends l rest : ends_number rest -> l <> [] -> extends (scan_number l) (scan_number (l ++ rest)) rest.
Proof.
  intros He Hl. destruct l as [|b l]; [done|]. unfold scan_number. cbn [app].
  assert (exists acc l1, (if b =? 45 then ([b], l) else ([], b :: l)) = (acc, l1) /\
    (if b =? 45 then ([b], l ++ rest) else ([], b :: l ++ rest)) = (acc, l1 ++ rest)) as (acc & l1 & -> & ->).
  { destruct (b =? 45); by eexists _, _. }
  apply extends_bind; [by apply scan_integer_extends|]. intros x r.
  apply extends_bind; [by apply scan_fraction_extends|]. intros y r'.
  apply extends_bind; [by apply scan_exponent_extends|]. by intros z r'' ? ? [= <- <-].
Qed.

(** A number literal starts with a digit or a minus sign. *)
Lemma scan_number_first l x r : scan_number l = Parsed x r -> exists b l', l = b :: l' /\ (b =? 45) || is_digit b = true.
Proof.
  destruct l as [|b l]; [done|]. intros H. exists b, l. split; [done|].
  unfold scan_number in H. destruct (b =? 45) eqn:Hb; [done|]. cbn [scan_integer] in H.
  destruct (Z.eqb_spec b 48) as [->|]; [done|]. cbn [scan_digits1] in H. by destruct (is_digit b).
Qed.

(** *** Values *)

Lemma separated_cons x l : l <> [] -> separated (x :: l) = x ++ 44 :: separated l.
Proof. by destruct l. Qed.

(** The first byte of a value: it is not a space and closes nothing. *)
Lemma print_first j : wf_json j ->
  exists b l, print j = b :: l /\ is_ws b = false /\ b <> 93 /\ b <> 125.
Proof.
  destruct j as [|[]|lit|s|js|ms]; cbn; intros Hwf; try (by eexists _, _).
  destruct (scan_number_first _ _ _ Hwf) as (b & l & -> & Hb). exists b, l.
  assert (45 <= b <= 57) by (unfold is_digit in Hb; reflect; lia).
  split_and!; [done| |lia..]. unfold is_ws. by rewrite !(proj2 (Z.eqb_neq b _)) by lia.
Qed.
Lemma skip_ws_first b l : is_ws b = false -> skip_ws (b :: l) = b :: l.
Proof. intros H. cbn. by rewrite H. Qed.

(** Reads the byte the input starts with. *)
Ltac next_byte := rewrite skip_ws_first by done; cbn [behind]; rewrite Z.eqb_refl; cbv iota.

(** The text of the elements of an array, or the members of an object, up to the
    closing byte. *)
Lemma parse_elements_print js depth rest :
  Forall (fun j => forall fuel rest, ends_number rest -> (2 * length (print j) < fuel)%nat ->
            parse_value fuel depth (print j ++ rest) = Parsed j rest) js ->
  js <> [] -> forall fuel, (2 * length (separated (map print js)) + 1 < fuel)%nat ->
  parse_elements fuel depth (separated (map print js) ++ 93 :: rest) = Parsed js rest.
Proof.
  induction 1 as [|j js Hj Hjs IH]; [done|]. intros _ [|fuel] Hf; [lia|].
  destruct js as [|j' js]; cbn [map] in *.
  - cbn [separated map] in *. cbn [parse_elements]. by rewrite Hj by (done || lia).
  - rewrite separated_cons in * by done. rewrite <- app_assoc. cbn [app]. rewrite length_app in Hf. cbn [length] in Hf.
    cbn [parse_elements]. rewrite Hj by (done || lia). cbn [p_bind]. next_byte.
    rewrite IH by (done || lia). done.
Qed.

Definition print_member (m : list Z * json) : list Z := print_string (fst m) ++ 58 :: print (snd m).

Lemma parse_members_print ms depth rest :
  Forall (fun m => utf8 (fst m) /\ forall fuel rest, ends_number rest -> (2 * length (print (snd m)) < fuel)%nat ->
            parse_value fuel depth (print (snd m) ++ rest) = Parsed (snd m) rest) ms ->
  ms <> [] -> forall fuel, (2 * length (separated (map print_member ms)) + 1 < fuel)%nat ->
  parse_members fuel depth (separated (map print_member ms) ++ 125 :: rest) = Parsed ms rest.
Proof.
  induction 1 as [|[key j] ms [Hkey Hj] Hms IH]; [done|]. intros _ [|fuel] Hf; [lia|]. cbn [fst snd] in *.
  assert (forall tl, print_member (key, j) ++ tl = 34 :: (key ≫= escape) ++ 34 :: 58 :: print j ++ tl) as Hpm.
  { intros tl. unfold print_member, print_string. cbn. by rewrite <- !app_assoc. }
  assert (length (print_member (key, j)) >= S (length (print j)))%nat as Hlen.
  { unfold print_member. rewrite length_app. cbn. lia. }
  destruct ms as [|m' ms]; cbn [map] in *.
  - cbn [separated map] in *. rewrite Hpm. cbn [parse_members]. next_byte. rewrite parse_string_print by done. cbn [p_bind]. next_byte. by rewrite Hj by (done || lia).
  - rewrite separated_cons in * by done. rewrite <- app_assoc. cbn [app]. rewrite Hpm. rewrite length_app in Hf. cbn [length] in Hf.
    cbn [parse_members]. next_byte.
    rewrite parse_string_print by done. cbn [p_bind]. next_byte. rewrite Hj by (done || lia). cbn [p_bind]. next_byte.
    rewrite IH by (done || lia). done.
Qed.

Lemma max_bound {A} (f : A -> Z) l x : x ∈ l -> f x <= fold_right Z.max 0 (map f l).
Proof. induction l as [|y l IH]; [by intros ?%elem_of_nil|]. intros [->|?%IH]%elem_of_cons; cbn; lia. Qed.

Lemma separated_first x l : exists tl, separated (x :: l) = x ++ tl.
Proof. destruct l as [|y l]; [exists []; by rewrite app_nil_r|by eexists]. Qed.

(** [j] is read back at every depth it can stand at. *)
Definition reads_back (j : json) : Prop := forall depth fuel rest, ends_number rest ->
  depth + nesting j <= maxNestingDepth -> (2 * length (print j) < fuel)%nat ->
  parse_value fuel depth (print j ++ rest) = Parsed j rest.

Lemma reads_back_number lit : wf_json (JNumber lit) -> reads_back (JNumber lit).
Proof.
  cbn. intros Hwf depth [|fuel] rest He Hd Hf; [lia|].
  destruct (scan_number_first _ _ _ Hwf) as (b & l & -> & Hb). cbn [print app parse_value].
  assert (45 <= b <= 57) by (unfold is_digit in Hb; reflect; lia).
  rewrite skip_ws_first by (unfold is_ws; by rewrite !(proj2 (Z.eqb_neq b _)) by lia).
  rewrite (proj2 (Z.eqb_neq b 123)), (proj2 (Z.eqb_neq b 91)), (proj2 (Z.eqb_neq b 34)), (proj2 (Z.eqb_neq b 116)),
    (proj2 (Z.eqb_neq b 102)), (proj2 (Z.eqb_neq b 110)) by lia.
  rewrite Hb. pose proof (scan_number_extends (b :: l) rest He ltac:(done) _ _ Hwf) as E. cbn [app] in E. by rewrite E.
Qed.

Lemma reads_back_string s : utf8 s -> reads_back (JString s).
Proof.
  intros Hs depth [|fuel] rest He Hd Hf; [lia|]. cbn [print print_string app parse_value]. rewrite skip_ws_first by done.
  rewrite <- app_assoc. change (34 =? 123) with false. change (34 =? 91) with false. change (34 =? 34) with true. cbv iota.
  cbn [app]. by rewrite parse_string_print.
Qed.

Lemma reads_back_array js : wf_json (JArray js) -> Forall reads_back js -> reads_back (JArray js).
Proof.
  cbn [wf_json]. rewrite Forall_map, !Forall_forall. intros Hwf IH depth [|fuel] rest He Hd Hf; [lia|]. cbn [print nesting] in *.
  cbn [app parse_value]. rewrite skip_ws_first by done. change (91 =? 123) with false. change (91 =? 91) with true. cbv iota.
  assert (0 <= fold_right Z.max 0 (map nesting js)) by (clear; induction js; cbn; lia).
  rewrite (proj2 (Z.leb_gt maxNestingDepth depth)) by lia. destruct js as [|j js]; [done|].
  rewrite <- app_assoc. cbn [app].
  destruct (print_first j) as (b & l & Hp & Hws & H93 & _); [apply Hwf; set_solver|].
  destruct (separated_first (print j) (map print js)) as (tl & Htl).
  assert (behind 93 (skip_ws (separated (map print (j :: js)) ++ 93 :: rest)) = None) as ->.
  { cbn [map]. rewrite Htl, Hp. cbn [app]. rewrite skip_ws_first by done. cbn. by rewrite (proj2 (Z.eqb_neq b 93)). }
  rewrite parse_elements_print; [done| |done|cbn [length] in Hf; rewrite length_app in Hf; cbn [length] in Hf; lia].
  apply Forall_forall. intros j' Hj' fuel' rest' He' Hf'. apply IH; [done..| |done].
  pose proof (max_bound nesting _ _ Hj'). lia.
Qed.

Lemma reads_back_object ms : wf_json (JObject ms) -> Forall (fun m => reads_back (snd m)) ms -> reads_back (JObject ms).
Proof.
  cbn [wf_json]. rewrite Forall_map, !Forall_forall. intros Hwf IH depth [|fuel] rest He Hd Hf; [lia|]. cbn [print nesting] in *.
  cbn [app parse_value]. rewrite skip_ws_first by done. change (123 =? 123) with true. cbv iota.
  change (map (fun m => print_string (fst m) ++ 58 :: print (snd m)) ms) with (map print_member ms) in *.
  assert (0 <= fold_right Z.max 0 (map (fun m => nesting (snd m)) ms)) by (clear; induction ms; cbn; lia).
  rewrite (proj2 (Z.leb_gt maxNestingDepth depth)) by lia. destruct ms as [|m ms]; [done|].
  rewrite <- app_assoc. cbn [app].
  assert (behind 125 (skip_ws (separated (map print_member (m :: ms)) ++ 125 :: rest)) = None) as ->.
  { cbn [map]. destruct (separated_first (print_member m) (map print_member ms)) as (tl & ->). done. }
  rewrite parse_members_print; [done| |done|cbn [length] in Hf; rewrite length_app in Hf; cbn [length] in Hf; lia].
  apply Forall_forall. intros m' Hm'. split; [apply (Hwf m' Hm')|].
  intros fuel' rest' He' Hf'. apply IH; [done..| |done].
  pose proof (max_bound (fun m => nesting (snd m)) _ _ Hm'). cbn in *. lia.
Qed.

Lemma parse_value_print j : wf_json j -> reads_back j.
Proof.
  induction j as [|[]|lit|s|js IH|ms IH] using json_ind; intros Hwf.
  1-3: intros depth [|fuel] rest He Hd Hf; [lia|done].
  - by apply reads_back_number.
  - by apply reads_back_string.
  - apply reads_back_array; [done|]. cbn in Hwf. rewrite Forall_map in Hwf. rewrite Forall_forall in *. naive_solver.
  - apply reads_back_object; [done|]. cbn in Hwf. rewrite Forall_map in Hwf. rewrite Forall_forall in *.
    intros m Hm. apply IH; [done|]. apply (Hwf m Hm).
Qed.

(** What is written is read back, whatever follows it. *)
Lemma parse_print j rest :
  wf_json j -> nesting j <= maxNestingDepth -> ends_number rest -> parse (print j ++ rest) = Parsed j rest.
Proof.
  intros Hwf Hn He. unfold parse. destruct (print_first j Hwf) as (b & l & Hp & Hws & _).
  rewrite Hp at 1. cbn [app]. rewrite skip_ws_first by done.
  apply parse_value_print; [done..|]. unfold fuel_for. rewrite length_app. lia.
Qed.

(** *** Ints *)

(** The decimal digits of [n], at most [k] of them, before [acc]. *)
Fixpoint digits_of (k : nat) (n : Z) (acc : list Z) : list Z :=
  match k with
  | O => acc
  | S k' => let acc' := (48 + n mod 10) :: acc in if n / 10 =? 0 then acc' else digits_of k' (n / 10) acc'
  end.
(** Nineteen digits are enough for 64 bits. *)
Definition int_literal (n : Z) : list Z :=
  if n <? 0 then 45 :: digits_of 19 (- n) [] else digits_of 19 n [].

Lemma digits_value_acc a l : fold_left (fun acc r => acc * 10 + (r - 48)) l a = a * 10 ^ Z.of_nat (length l) + digits_value l.
Proof.
  unfold digits_value. revert a. induction l as [|b l IH]; intros a; cbn [fold_left length]; [lia|].
  rewrite IH, (IH (0 * 10 + _)). rewrite Nat2Z.inj_succ, Z.pow_succ_r by lia. lia.
Qed.

(** The digits: their value, that they are digits, and that there is no leading
    zero but that of zero. *)
Lemma digits_of_spec k n acc :
  (0 < k)%nat -> 0 <= n < 10 ^ Z.of_nat k -> Forall (fun b => is_digit b = true) acc ->
  let ds := digits_of k n acc in
  digits_value ds = n * 10 ^ Z.of_nat (length acc) + digits_value acc /\
  Forall (fun b => is_digit b = true) ds /\
  exists b l, ds = b :: l /\ (b = 48 -> n = 0 /\ l = acc).
Proof.
  revert n acc. induction k as [|k IH]; [lia|]. intros n acc _ Hn Hacc. cbn [digits_of].
  assert (is_digit (48 + n mod 10) = true) as Hdig.
  { unfold is_digit. rewrite (proj2 (Z.leb_le _ _)), (proj2 (Z.leb_le _ _)) by by_division. done. }
  assert (digits_value ((48 + n mod 10) :: acc) = n mod 10 * 10 ^ Z.of_nat (length acc) + digits_value acc) as Hval.
  { unfold digits_value at 1. cbn [fold_left]. rewrite digits_value_acc. f_equal. f_equal. lia. }
  destruct (Z.eqb_spec (n / 10) 0) as [Hq|Hq].
  - split_and!; [rewrite Hval; f_equal; f_equal; by_division|by apply Forall_cons_2|].
    eexists _, _. split; [reflexivity|]. intros Hb. split; [by_division|done].
  - rewrite Nat2Z.inj_succ, Z.pow_succ_r in Hn by lia.
    destruct k as [|k]; [exfalso; cbn in Hn; by_division|].
    destruct (IH (n / 10) ((48 + n mod 10) :: acc)) as (Hv & Hd & b & l & E & Hb);
      [lia|by_division|by apply Forall_cons_2|]. rewrite E in *.
    split_and!; [|done|].
    + rewrite Hv, Hval. cbn [length]. rewrite Nat2Z.inj_succ, Z.pow_succ_r by lia.
      rewrite (Z.div_mod n 10) at 3 by lia. ring.
    + exists b, l. split; [done|]. intros [? _]%Hb. lia.
Qed.

Lemma scan_digits_all acc l : Forall (fun b => is_digit b = true) l -> scan_digits acc l = (reverse l ++ acc, []).
Proof.
  intros H. revert acc. induction H as [|b l Hb _ IH]; intros acc; [done|]. cbn [scan_digits].
  by rewrite Hb, IH, reverse_cons, <- app_assoc.
Qed.

(** Digits without a leading zero are an integer part. *)
Lemma scan_integer_digits acc b l :
  Forall (fun b => is_digit b = true) (b :: l) -> (b = 48 -> l = []) ->
  scan_integer acc (b :: l) = Parsed (reverse (b :: l) ++ acc) [].
Proof.
  intros [Hb Hl]%Forall_cons Hz. cbn [scan_integer]. destruct (Z.eqb_spec b 48) as [->|].
  - by rewrite Hz.
  - cbn [scan_digits1]. by rewrite Hb, scan_digits_all, reverse_cons, <- app_assoc.
Qed.

Lemma forallb_digits l : Forall (fun b => is_digit b = true) l -> forallb is_digit l = true.
Proof. induction 1 as [|b l Hb _ IH]; [done|]. cbn. by rewrite Hb, IH. Qed.

Lemma int_literal_spec n : int64_min <= n <= int64_max ->
  scan_number (int_literal n) = Parsed (int_literal n) [] /\ parse_int (int_literal n) = Some n.
Proof.
  intros Hn. unfold int64_min, int64_max in Hn. unfold int_literal.
  assert ((int64_min <=? n) && (n <=? int64_max) = true) as Hrange.
  { unfold int64_min, int64_max. rewrite !(proj2 (Z.leb_le _ _)) by lia. done. }
  destruct (Z.ltb_spec n 0).
  - destruct (digits_of_spec 19 (- n) []) as (Hv & Hd & b & l & E & Hb); [lia|lia|apply Forall_nil_2|]. rewrite E in *.
    split.
    + unfold scan_number. cbv iota. change (45 =? 45) with true. cbv iota.
      rewrite scan_integer_digits; [|done|by intros [? ->]%Hb]. cbn [p_bind scan_fraction scan_exponent].
      by rewrite reverse_app, reverse_involutive.
    + unfold parse_int. change (45 =? 45) with true. cbv iota. rewrite forallb_digits by done. rewrite Hv.
      replace (- (- n * 10 ^ Z.of_nat (length (@nil Z)) + digits_value [])) with n by (cbn; lia). by rewrite Hrange.
  - destruct (digits_of_spec 19 n []) as (Hv & Hd & b & l & E & Hb); [lia|lia|apply Forall_nil_2|]. rewrite E in *.
    assert ((b =? 45) = false) as Hminus.
    { apply Forall_cons in Hd as [Hd _]. unfold is_digit in Hd. reflect. lia. }
    split.
    + unfold scan_number. rewrite Hminus.
      rewrite scan_integer_digits; [|done|by intros [? ->]%Hb]. cbn [p_bind scan_fraction scan_exponent].
      by rewrite app_nil_r, reverse_involutive.
    + unfold parse_int. rewrite Hminus, forallb_digits by done. rewrite Hv.
      replace (n * 10 ^ Z.of_nat (length (@nil Z)) + digits_value []) with n by (cbn; lia). by rewrite Hrange.
Qed.

(** ** The round trip *)

(** Decoding the text of an encoding gives the value back, whatever follows. *)
Lemma Decode_print t v j rest :
  wf_type t -> encodes t v j -> wf_json j -> nesting j <= maxNestingDepth -> ends_number rest ->
  Decode t (print j ++ rest) = inr v.
Proof.
  intros Ht He Hj Hn Hr. unfold Decode. rewrite parse_print by done. by rewrite (decode_encodes [] t v).
Qed.
