(* ===== verification/Prog.v ===== *)
(** * Effectful programs

    Code with effects is a program over an action signature: the calls it makes
    to its environment and the type of each call's answer.  A program is data,
    so the same definition is run against a concrete world ([run]), reasoned
    about for every possible answer of the environment ([wp]), given a
    meaning in terms of another signature ([interp]), and interleaved with
    others one call at a time (System.v). *)

From S2P Require Import Prelude.

(** ** Programs *)

(** A signature: the actions, and what each of them answers. *)
Record sig := { action : Type; answer : action -> Type }.
Arguments answer {s} a.

Inductive prog (E : sig) (A : Type) : Type :=
| Ret (x : A)
| Act (a : action E) (k : answer a -> prog E A).
Arguments Ret {E A} x.
Arguments Act {E A} a k.

Fixpoint bind {E A B} (p : prog E A) (f : A -> prog E B) : prog E B :=
  match p with
  | Ret x => f x
  | Act a k => Act a (fun r => bind (k r) f)
  end.

Definition call {E} (a : action E) : prog E (answer a) := Act a Ret.

Declare Scope prog_scope.
Delimit Scope prog_scope with prog.
Notation "'let!' x ':=' p 'in' q" := (bind p (fun x => q))
  (at level 10, x pattern, p at level 100, q at level 200) : prog_scope.
Notation "p ;;! q" := (bind p (fun _ => q)) (at level 100, q at level 200, right associativity) : prog_scope.
#[global] Open Scope prog_scope.

(** ** Panics

    A Go function body either returns or panics; [comp S A] is a body that
    works on a mutable object of type [S], whose value survives a panic,
    because deferred functions see it. *)

Inductive exit (A : Type) :=
| Done (x : A)
| Panic (msg : string).
Arguments Done {A} x.
Arguments Panic {A} msg.

Definition comp (E : sig) (S A : Type) := S -> prog E (S * exit A).

(** [defer f()] in front of a body: [f] runs when the body ends either way and
    may change the object and the results. *)
Definition with_defer {E S A} (body : comp E S A) (f : S -> exit A -> prog E (S * exit A))
  : comp E S A :=
  fun s => let! (s', x) := body s in f s' x.

Definition nil_dereference := "runtime error: invalid memory address or nil pointer dereference".

(** A function value of a struct field: nil, or the function whose effects the
    actions describe. *)
Inductive funcval := NilFunc | Func.

(** ** Running against a world *)

Section Run.
  Context {E : sig} {W : Type} (h : forall a : action E, W -> answer a * W).

Fixpoint run {A} (p : prog E A) (w : W) : A * W :=
  match p with
  | Ret x => (x, w)
  | Act a k => let '(r, w') := h a w in run (k r) w'
  end.

(** The actions performed, in order. *)
Fixpoint trace {A} (p : prog E A) (w : W) : list (action E) :=
  match p with
  | Ret _ => []
  | Act a k => let '(r, w') := h a w in a :: trace (k r) w'
  end.

Lemma run_bind {A B} (p : prog E A) (f : A -> prog E B) w :
  run (bind p f) w = let '(x, w') := run p w in run (f x) w'.
Proof. revert w. induction p as [x|a k IH]; intros w; simpl; [done|]. destruct (h a w). apply IH. Qed.

End Run.

(** ** Reasoning about every environment *)

(** One call with its answer. *)
Inductive event (E : sig) := Ev (a : action E) (r : answer a).
Arguments Ev {E} a r.
Definition ev_action {E} (e : event E) : action E := let 'Ev a _ := e in a.

(** [wp ok tr p Q]: whatever the environment answers, [p], started after the
    events [tr], performs only actions that [ok] allows after the events so far,
    and ends with a result and an overall event sequence that satisfy [Q]. *)
Fixpoint wp {E A} (ok : list (event E) -> action E -> Prop) (tr : list (event E)) (p : prog E A)
    (Q : list (event E) -> A -> Prop) : Prop :=
  match p with
  | Ret x => Q tr x
  | Act a k => ok tr a /\ forall r, wp ok (tr ++ [Ev a r]) (k r) Q
  end.

(** Every action allowed. *)
Definition anything {E} (tr : list (event E)) (a : action E) : Prop := True.
(** The postcondition of [p] in every environment. *)
Abbreviation post p Q := (wp anything [] p Q).
(** Every action of [p] is allowed by [ok]. *)
Definition safe {E A} (ok : list (event E) -> action E -> Prop) (tr : list (event E)) (p : prog E A) : Prop :=
  wp ok tr p (fun _ _ => True).

Section Rules.
  Context {E : sig} {ok : list (event E) -> action E -> Prop}.

Lemma wp_bind {A B} (p : prog E A) (f : A -> prog E B) tr Q :
  wp ok tr p (fun tr' x => wp ok tr' (f x) Q) -> wp ok tr (bind p f) Q.
Proof.
  revert tr. induction p as [x|a k IH]; simpl; intros tr; [done|].
  intros [? H]. split; [done|]. intros r. apply IH, H.
Qed.

Lemma wp_mono {A} (p : prog E A) tr (Q R : list (event E) -> A -> Prop) :
  wp ok tr p Q -> (forall tr' x, tr `prefix_of` tr' -> Q tr' x -> R tr' x) -> wp ok tr p R.
Proof.
  revert tr. induction p as [x|a k IH]; simpl; intros tr Hp HQR; [by apply HQR|].
  destruct Hp as [? Hp]. split; [done|]. intros r. apply IH; [done|].
  intros tr' x Htr. apply HQR. etrans; [|done]. by apply prefix_app_r.
Qed.

Lemma wp_conj {A} (p : prog E A) tr (Q R : list (event E) -> A -> Prop) :
  wp ok tr p Q -> wp ok tr p R -> wp ok tr p (fun tr' x => Q tr' x /\ R tr' x).
Proof. revert tr. induction p as [x|a k IH]; simpl; intros tr HQ HR; naive_solver. Qed.

Lemma wp_seq {A B} (p : prog E A) (f : A -> prog E B) tr Q R :
  wp ok tr p Q -> (forall tr' x, tr `prefix_of` tr' -> Q tr' x -> wp ok tr' (f x) R) ->
  wp ok tr (bind p f) R.
Proof. intros Hp Hf. apply wp_bind. eapply wp_mono; eauto. Qed.

Lemma wp_ret {A} (x : A) tr (Q : list (event E) -> A -> Prop) : Q tr x -> wp ok tr (Ret x) Q.
Proof. done. Qed.

Lemma wp_call {B} (a : action E) (f : answer a -> prog E B) tr Q :
  ok tr a -> (forall r, wp ok (tr ++ [Ev a r]) (f r) Q) -> wp ok tr (bind (call a) f) Q.
Proof. done. Qed.

Lemma wp_call_last (a : action E) tr Q :
  ok tr a -> (forall r, Q (tr ++ [Ev a r]) r) -> wp ok tr (call a) Q.
Proof. done. Qed.

Lemma wp_safe {A} (p : prog E A) tr Q : wp ok tr p Q -> safe ok tr p.
Proof. intros. eapply wp_mono; eauto. Qed.

(** What [ok] allows from [tr] on, whatever happens, any program may do. *)
Lemma wp_always {A} (p : prog E A) tr :
  (forall tr' a, tr `prefix_of` tr' -> ok tr' a) -> safe ok tr p.
Proof.
  unfold safe. revert tr. induction p as [x|a k IH]; simpl; intros tr Hok; [done|].
  split; [by apply Hok|]. intros r. apply IH. intros tr' a' Htr. apply Hok.
  etrans; [|done]. by apply prefix_app_r.
Qed.

End Rules.

(** One step through a program: a call, a result, or a case analysis on the
    answer of an earlier call. *)
Ltac wp_step :=
  match goal with
  | |- wp _ _ (bind (Ret _) _) _ => cbn [bind]
  | |- wp _ _ (bind (call _) _) _ => apply wp_call; [|intros ?r]
  | |- wp _ _ (call _) _ => apply wp_call_last; [|intros ?r]
  | |- wp _ _ (Ret _) _ => apply wp_ret
  | |- wp _ _ (match ?x with _ => _ end) _ => destruct x eqn:?
  | |- wp _ _ (if ?x then _ else _) _ => destruct x eqn:?
  | |- wp _ _ (let '(_, _) := ?x in _) _ => destruct x eqn:?
  end; simplify_eq; cbv beta zeta.

(** All the way through a program, into the functions that have been unfolded. *)
Ltac wp_steps :=
  repeat first [wp_step | match goal with |- wp _ _ (bind _ _) _ => apply wp_bind end].

Lemma wp_weaken {E A} (ok ok' : list (event E) -> action E -> Prop) (p : prog E A) tr Q :
  (forall tr' a, ok tr' a -> ok' tr' a) -> wp ok tr p Q -> wp ok' tr p Q.
Proof.
  intros Hok. revert tr. induction p as [x|a k IH]; simpl; intros tr; [done|]. naive_solver.
Qed.

(** What a program does not do leaves no mark on a projection of its events. *)
Lemma wp_unseen {E A B} (f : event E -> list B) (p : prog E A) tr :
  safe (fun _ a => forall r, f (Ev a r) = []) tr p -> wp anything tr p (fun tr' _ => tr' ≫= f = tr ≫= f).
Proof.
  unfold safe. revert tr. induction p as [x|a k IH]; simpl; intros tr H; [done|].
  destruct H as [Hn H]. split; [done|]. intros r. eapply wp_mono; [apply IH, H|].
  intros tr' x _ ->. rewrite bind_app. cbn. by rewrite Hn, !app_nil_r.
Qed.

(** A run in a particular world is one of the behaviours [wp] quantifies over. *)
Lemma wp_run {E A W} (h : forall a : action E, W -> answer a * W) ok (p : prog E A) w tr Q :
  wp ok tr p Q -> exists evs, ev_action <$> evs = trace h p w /\ Q (tr ++ evs) (run h p w).1.
Proof.
  revert w tr. induction p as [x|a k IH]; simpl; intros w tr H.
  - exists []. by rewrite app_nil_r.
  - destruct (h a w) as [r w']. destruct H as [_ H].
    destruct (IH r w' _ (H r)) as (evs & Htr & HQ). exists (Ev a r :: evs).
    rewrite <- app_assoc in HQ. split; [|done]. cbn. f_equal. exact Htr.
Qed.

(** ** Implementing one signature by another *)

(** Replaces every call of [p] by the program that implements it, threading the
    implementation's state. *)
Fixpoint interp {E F : sig} {S A : Type} (f : forall a : action E, S -> prog F (answer a * S))
    (p : prog E A) (s : S) : prog F (A * S) :=
  match p with
  | Ret x => Ret (x, s)
  | Act a k => let! (r, s') := f a s in interp f (k r) s'
  end.

(** If each implementing program keeps [I] between the two event sequences and
    the state, what [p] guarantees over its own signature holds of the
    implementation. *)
Lemma wp_interp {E F S A} (f : forall a : action E, S -> prog F (answer a * S)) (p : prog E A)
    (I : list (event E) -> list (event F) -> S -> Prop) ok ok' tr tr' s Q :
  (forall tr tr' s a, I tr tr' s -> ok tr a ->
     wp ok' tr' (f a s) (fun tr2 '(r, s2) => I (tr ++ [Ev a r]) tr2 s2)) ->
  I tr tr' s -> wp ok tr p Q ->
  wp ok' tr' (interp f p s) (fun tr2 '(x, s2) => exists tr1, I tr1 tr2 s2 /\ Q tr1 x).
Proof.
  intros Hf. revert tr tr' s. induction p as [x|a k IH]; simpl; intros tr tr' s HI Hp; [by eauto|].
  destruct Hp as [Hok Hp]. eapply wp_seq; [by apply Hf|].
  intros tr2 [r s2] _ HI2. simpl in *. eapply IH; eauto.
Qed.

(** *** Stepping through an implemented program *)

Section InterpRules.
  Context {E F : sig} {S : Type} (f : forall a : action E, S -> prog F (answer a * S))
    {ok : list (event F) -> action F -> Prop}.

Lemma wp_interp_bind {A B} (p : prog E A) (k : A -> prog E B) s tr Q :
  wp ok tr (interp f p s) (fun tr' '(x, s') => wp ok tr' (interp f (k x) s') Q) ->
  wp ok tr (interp f (bind p k) s) Q.
Proof.
  revert s tr. induction p as [x|a k' IH]; intros s tr H; [done|]. cbn [interp bind] in *.
  apply wp_bind. revert H. generalize (f a s). intros q. revert tr.
  induction q as [[r s']|b q IHq]; intros tr H; cbn [bind wp] in *; [by apply IH|].
  destruct H as [? H]. split; [done|]. intros r. apply IHq, H.
Qed.

Lemma wp_interp_call {B} (a : action E) (k : answer a -> prog E B) s tr Q :
  wp ok tr (f a s) (fun tr' '(r, s') => wp ok tr' (interp f (k r) s') Q) ->
  wp ok tr (interp f (bind (call a) k) s) Q.
Proof. intros H. cbn [interp bind call]. apply wp_bind. eapply wp_mono; [exact H|]. by intros tr' [r s'] _. Qed.

Lemma wp_interp_ret {A} (x : A) s tr (Q : list (event F) -> A * S -> Prop) :
  Q tr (x, s) -> wp ok tr (interp f (Ret x) s) Q.
Proof. done. Qed.

End InterpRules.

(** One step of the implemented program: its next call is replaced by the program
    that implements it. *)
Ltac interp_step :=
  match goal with
  | |- wp _ _ (interp _ (bind (Ret _) _) _) _ => cbn [bind]
  | |- wp _ _ (interp _ (bind (call _) _) _) _ => apply wp_interp_call
  | |- wp _ _ (interp _ (bind _ _) _) _ => apply wp_interp_bind
  | |- wp _ _ (interp _ (Ret _) _) _ => apply wp_interp_ret
  | |- wp _ _ (interp _ (match ?x with _ => _ end) _) _ => destruct x eqn:?
  end; simplify_eq; cbv beta zeta.
