(* ===== verification/Actions.v ===== *)
(** * The environment of the controllers

    The calls the reconcilers make: Kubernetes client, patch helper, Redfish
    client, clock, event recorder and metrics recorders; and what a
    reconciliation returns. *)

From S2P Require Import Prelude Api Prog.


(** Values of the Redfish layer that cross the client interface. *)
Record SystemInfo := {
  si_Manufacturer : string; si_Model : string; si_SerialNumber : string; si_Status : HardwareStatus
}.
Record NetworkAddress := {
  na_Type : string; na_Address : string; na_Gateway : string; na_InterfaceName : string;
  na_MACAddress : string
}.

(** A handle on an open Redfish client. *)
Abbreviation rf_handle := nat.

(** The calls of package metrics made by the controllers. *)
Inductive metric_call :=
| RecordReconciliation (controller namespace outcome : string) (duration : Z)
| RecordError (controller namespace errorType : string)
| RecordFailureDomains (cluster namespace : string) (count : Z)
| RecordFailureDomainDiscovery (namespace outcome : string).

Inductive capi_action :=
(** [time.Now()], [metav1.Now()] *)
| ANow
(** [client.Client] on PhysicalHosts: Get, List (InNamespace), Update, Status().Update *)
| AGetHost (k : NamespacedName)
| AListHosts (ns : string)
| AUpdateHost (h : PhysicalHost)
| AUpdateHostStatus (h : PhysicalHost)
(** ... on Secrets, Beskar7Machines, Beskar7Clusters and Machines *)
| AGetSecret (k : NamespacedName)
| AGetMachine (k : NamespacedName)
| AGetCluster (k : NamespacedName)
| AListClusters (ns : string)
| AListMachines (ns : string) (labels : list (string * string))
(** [util.GetOwnerMachine], [util.GetClusterFromMetadata], [util.GetOwnerCluster] *)
| AGetOwnerMachine (m : ObjectMeta)
| AGetClusterFromMetadata (m : ObjectMeta)
| AGetOwnerCluster (m : ObjectMeta)
(** [patch.NewHelper(obj)] and [helper.Patch(obj)], which gets the object as it
    was given to [NewHelper] and as it is now *)
| ANewMachineHelper (m : Beskar7Machine)
| APatchMachine (before after : Beskar7Machine)
| ANewClusterHelper (c : Beskar7Cluster)
| APatchCluster (before after : Beskar7Cluster)
(** the [RedfishClientFactory] and the methods of the client it returns *)
| ARfConnect (address username password : string) (insecure : bool)
| ARfGetSystemInfo (c : rf_handle)
| ARfGetPowerState (c : rf_handle)
| ARfSetPowerState (c : rf_handle) (state : string)
| ARfSetBootSourcePXE (c : rf_handle)
| ARfGetNetworkAddresses (c : rf_handle)
| ARfClose (c : rf_handle)
(** [Recorder.Event] and package metrics *)
| ARecordEvent (obj : NamespacedName) (etype reason message : string)
| AMetric (m : metric_call).

(** What a call answers. *)
Definition capi_answer (a : capi_action) : Type :=
  match a with
  | ANow => Z
  | AGetHost _ => result PhysicalHost
  | AListHosts _ => result (list PhysicalHost)
  | AUpdateHost _ => result PhysicalHost
  | AUpdateHostStatus _ => result PhysicalHost
  | AGetSecret _ => result Secret
  | AGetMachine _ => result Beskar7Machine
  | AGetCluster _ => result Beskar7Cluster
  | AListClusters _ => result (list Beskar7Cluster)
  | AListMachines _ _ => result (list Machine)
  | AGetOwnerMachine _ => result (option Machine)
  | AGetClusterFromMetadata _ => result (option Cluster)
  | AGetOwnerCluster _ => result (option Cluster)
  | ANewMachineHelper _ => result unit
  | APatchMachine _ _ => result unit
  | ANewClusterHelper _ => result unit
  | APatchCluster _ _ => result unit
  | ARfConnect _ _ _ _ => result rf_handle
  | ARfGetSystemInfo _ => result SystemInfo
  | ARfGetPowerState _ => result string
  | ARfSetPowerState _ _ => result unit
  | ARfSetBootSourcePXE _ => result unit
  | ARfGetNetworkAddresses _ => result (list NetworkAddress)
  | ARfClose _ => unit
  | ARecordEvent _ _ _ _ => unit
  | AMetric _ => unit
  end.

Definition Env : sig := {| action := capi_action; answer := capi_answer |}.

(** The argument of a watch's map function, a [client.Object] of any kind. *)
Inductive client_Object :=
| ObjSecret (s : Secret)
| ObjPhysicalHost (h : PhysicalHost)
| ObjBeskar7Machine (m : Beskar7Machine)
| ObjBeskar7Cluster (c : Beskar7Cluster).

(** ** Results of a reconciliation: [ctrl.Result] and the error *)

Record Result := { Requeue : bool; RequeueAfter : Z }.
Definition NoResult : Result := {| Requeue := false; RequeueAfter := 0 |}.
Definition AfterResult (d : Z) : Result := {| Requeue := false; RequeueAfter := d |}.
Definition RequeueResult : Result := {| Requeue := true; RequeueAfter := 0 |}.
(** [result.IsZero()] *)
Definition Result_IsZero (r : Result) : bool := negb (Requeue r) && (RequeueAfter r =? 0).

Abbreviation reconcile_result := (Result * option error)%type.

(** ** What a run has done *)

(** The clients opened and closed, in order. *)
Definition opened_by (e : event Env) : list rf_handle :=
  match e with
  | Ev a r =>
      match a return capi_answer a -> list rf_handle with
      | ARfConnect _ _ _ _ => fun r => match r with Ok c => [c] | Err _ => [] end
      | _ => fun _ => []
      end r
  end.
Definition closed_by (e : event Env) : list rf_handle :=
  match ev_action e with ARfClose c => [c] | _ => [] end.
Definition opened (tr : list (event Env)) : list rf_handle := tr ≫= opened_by.
Definition closed (tr : list (event Env)) : list rf_handle := tr ≫= closed_by.

Lemma opened_app tr tr' : opened (tr ++ tr') = opened tr ++ opened tr'.
Proof. apply bind_app. Qed.
Lemma closed_app tr tr' : closed (tr ++ tr') = closed tr ++ closed tr'.
Proof. apply bind_app. Qed.

Lemma ev_last {E} (tr : list (event E)) e : e ∈ tr ++ [e].
Proof. apply elem_of_app. right. by apply list_elem_of_singleton. Qed.

Lemma ev_app_l {E} (tr tr' : list (event E)) e : e ∈ tr -> e ∈ tr ++ tr'.
Proof. intros. apply elem_of_app. by left. Qed.

Lemma ev_prefix {E} (tr tr' : list (event E)) e : tr `prefix_of` tr' -> e ∈ tr -> e ∈ tr'.
Proof. intros [k ->]. apply ev_app_l. Qed.

#[export] Hint Resolve ev_last : go.
#[export] Hint Resolve ev_app_l | 5 : go.

(** *** At most one client at a time *)

(** No client is open; the client [c] is. *)
Definition idle (tr : list (event Env)) : Prop := opened tr = closed tr.
Definition busy (c : rf_handle) (tr : list (event Env)) : Prop := opened tr = closed tr ++ [c].

(** The client discipline: a client is opened only when none is open, and
    methods are called on the open client only. *)
Definition disciplined (tr : list (event Env)) (a : action Env) : Prop :=
  match a with
  | ARfConnect _ _ _ _ => idle tr
  | ARfGetSystemInfo c | ARfGetPowerState c | ARfSetPowerState c _ | ARfSetBootSourcePXE c
  | ARfGetNetworkAddresses c | ARfClose c => busy c tr
  | _ => True
  end.

(** Calls that do not concern a client at all. *)
Definition offline (tr : list (event Env)) (a : action Env) : Prop :=
  match a with
  | ARfConnect _ _ _ _ | ARfGetSystemInfo _ | ARfGetPowerState _ | ARfSetPowerState _ _
  | ARfSetBootSourcePXE _ | ARfGetNetworkAddresses _ | ARfClose _ => False
  | _ => True
  end.

(** Calls that change no system. *)
Definition reading (a : action Env) : Prop :=
  match a with ARfSetPowerState _ _ | ARfSetBootSourcePXE _ => False | _ => True end.

(** Calls that neither open nor close a client. *)
Definition neutral (a : action Env) : Prop :=
  match a with ARfConnect _ _ _ _ | ARfClose _ => False | _ => True end.

Lemma idle_snoc tr (a : action Env) r : neutral a -> idle tr -> idle (tr ++ [Ev a r]).
Proof. unfold idle. rewrite opened_app, closed_app. intros Ha ->. by destruct a. Qed.
Lemma busy_snoc c tr (a : action Env) r : neutral a -> busy c tr -> busy c (tr ++ [Ev a r]).
Proof.
  unfold busy. rewrite opened_app, closed_app. intros Ha ->. destruct a; try done; by rewrite !app_nil_r.
Qed.
Lemma busy_connect tr a u p i c : idle tr -> busy c (tr ++ [@Ev Env (ARfConnect a u p i) (Ok c)]).
Proof. unfold idle, busy. rewrite opened_app, closed_app. intros ->. by rewrite app_nil_r. Qed.
Lemma idle_refused tr a u p i e : idle tr -> idle (tr ++ [@Ev Env (ARfConnect a u p i) (Err e)]).
Proof. unfold idle. rewrite opened_app, closed_app. by intros ->. Qed.
Lemma idle_close tr c u : busy c tr -> idle (tr ++ [@Ev Env (ARfClose c) u]).
Proof. unfold idle, busy. rewrite opened_app, closed_app. intros ->. by rewrite app_nil_r. Qed.

Lemma wp_offline {A} (p : prog Env A) (ok : list (event Env) -> action Env -> Prop) tr :
  (forall tr' a, offline tr' a -> ok tr' a) -> safe offline tr p -> idle tr ->
  wp ok tr p (fun tr' _ => idle tr').
Proof.
  unfold safe. intros Hok. revert tr. induction p as [x|a k IH]; simpl; intros tr H Hi; [done|].
  destruct H as [Hn H]. split; [auto|]. intros r. apply IH; [apply H|]. apply idle_snoc; [by destruct a|done].
Qed.

Lemma idle_nil : idle [].
Proof. done. Qed.

Create HintDb clients.
#[export] Hint Resolve idle_nil idle_snoc busy_snoc busy_connect idle_refused idle_close : clients.
#[export] Hint Extern 1 (neutral _) => exact I : clients.

(** Shows that the client discipline allows a call, or which client is open. *)
Ltac clients := first [exact I | cbn [disciplined]; solve [eauto 20 with clients]].
