(* ===== verification/Utils.v ===== *)
(** * controllers/utils.go: pause annotations *)

From S2P Require Import Prelude Api Lib.

Section Utils.
  Context {L : Lib}.

Definition isPaused (obj : ObjectMeta) : bool := HasPaused obj.

Definition isClusterPaused (cluster : option Cluster) : bool :=
  match cluster with
  | None => false
  | Some c => HasPaused (cl_Meta c)
  end.

End Utils.
