(* ===== verification/Redfish.v ===== *)
(** * internal/redfish/client.go: network addresses

    The conversion of the addresses a BMC reports into Cluster API machine
    addresses, with the private ranges that decide between internal and
    external ones. *)

From S2P Require Import Prelude GoText GoNet Api Prog Actions.

Definition IPv4AddressType := "IPv4".
Definition IPv6AddressType := "IPv6".

Definition privateCIDRs_v4 : list string :=
  ["10.0.0.0/8"; "172.16.0.0/12"; "192.168.0.0/16"; "127.0.0.0/8"; "169.254.0.0/16"].
Definition privateCIDRs_v6 : list string := ["fc00::/7"; "fe80::/10"; "::1/128"].

(** The loop over the prefixes: a prefix that does not parse is skipped. *)
Fixpoint in_cidrs (parsed : list Z) (cidrs : list string) : bool :=
  match cidrs with
  | [] => false
  | cidr :: rest =>
      match ParseCIDR cidr with
      | Some n => if Contains_ip n parsed then true else in_cidrs parsed rest
      | None => in_cidrs parsed rest
      end
  end.

Definition isPrivateIPv4 (ip : string) : bool :=
  match ParseIP ip with
  | None => false
  | Some parsed => in_cidrs parsed privateCIDRs_v4
  end.

Definition isPrivateIPv6 (ip : string) : bool :=
  match ParseIP ip with
  | None => false
  | Some parsed => in_cidrs parsed privateCIDRs_v6
  end.

Definition machine_address_type (netAddr : NetworkAddress) : string :=
  if na_Type netAddr ==s IPv4AddressType then
    if isPrivateIPv4 (na_Address netAddr) then MachineInternalIP else MachineExternalIP
  else if na_Type netAddr ==s IPv6AddressType then
    if isPrivateIPv6 (na_Address netAddr) then MachineInternalIP else MachineExternalIP
  else MachineInternalIP.

Fixpoint ConvertToMachineAddresses_loop (acc : list MachineAddress) (l : list NetworkAddress)
  : list MachineAddress :=
  match l with
  | [] => acc
  | netAddr :: l' =>
      ConvertToMachineAddresses_loop
        (acc ++ [{| ma_Type := machine_address_type netAddr; ma_Address := na_Address netAddr |}]) l'
  end.
Definition ConvertToMachineAddresses (l : list NetworkAddress) : list MachineAddress :=
  ConvertToMachineAddresses_loop [] l.

(** ** Dotted quads *)

(** The text of an IPv4 address. *)
Definition print_ipv4 (a b c d : Z) : string :=
  pretty a +:+ "." +:+ pretty b +:+ "." +:+ pretty c +:+ "." +:+ pretty d.

Definition octets : list Z := seqZ 0 256.
Lemma octet_in a : 0 <= a < 256 -> a ∈ octets.
Proof. intros. apply elem_of_seqZ. lia. Qed.

(** Reading the digits of one octet stores its value and ends on a digit. *)
Definition octet_step (a : Z) : Prop :=
  (exists n p, (p =? dot) = false /\ forall prev fields rest,
    ipv4_loop 0 0 prev fields (bytes (pretty a) ++ rest) = ipv4_loop a n (Some p) fields rest) /\
  (forall rest, ParseAddr_syntax (bytes (pretty a) ++ rest) = ParseAddr_syntax rest) /\
  bytes (pretty a) <> [].

Ltac solve_octet_step a :=
  let l := eval vm_compute in (bytes (pretty a)) in
  unfold octet_step; change (bytes (pretty a)) with l; split; [|by split];
  refine (ex_intro _ _ (ex_intro _ _ (conj _ _))); [|intros; reflexivity]; reflexivity.

Lemma octet_steps : Forall octet_step octets.
Proof.
  let l := eval vm_compute in octets in change octets with l.
  repeat match goal with
         | |- Forall _ (?a :: _) => apply Forall_cons; split; [unshelve solve_octet_step a|]
         end.
  constructor.
Qed.

Lemma octet_ok a : 0 <= a < 256 -> octet_step a.
Proof. intros H%octet_in. revert a H. by apply Forall_forall, octet_steps. Qed.

Lemma octet_dot a fields prev s :
  0 <= a < 256 -> (length fields < 3)%nat -> bytes s <> [] ->
  exists p, (p =? dot) = true /\
  ipv4_loop 0 0 prev fields (bytes (pretty a +:+ "." +:+ s)) =
  ipv4_loop 0 0 (Some p) (fields ++ [a]) (bytes s).
Proof.
  intros Ha Hf Hs. destruct (octet_ok a Ha) as ((n & p & Hp & Hl) & _).
  exists dot. split; [done|]. rewrite !bytes_app, Hl.
  change (bytes ".") with [dot]. cbn [app ipv4_loop].
  change (is_digit dot) with false. cbn [negb]. rewrite Z.eqb_refl, Hp.
  destruct (bytes s) eqn:E; [done|].
  rewrite (proj2 (Nat.eqb_neq _ 3)) by lia. done.
Qed.

Lemma bytes_pretty_app a s : 0 <= a < 256 -> bytes (pretty a +:+ s) <> [].
Proof.
  intros Ha. destruct (octet_ok a Ha) as (_ & _ & Hne). rewrite bytes_app.
  by destruct (bytes (pretty a)).
Qed.

Lemma parse_print_ipv4 a b c d :
  0 <= a < 256 -> 0 <= b < 256 -> 0 <= c < 256 -> 0 <= d < 256 ->
  ParseIP (print_ipv4 a b c d) = Some (v4InV6Prefix ++ [a; b; c; d])%list.
Proof.
  intros Ha Hb Hc Hd. unfold ParseIP, ParseAddr.
  assert (ParseAddr_syntax (bytes (print_ipv4 a b c d)) = Some dot) as ->.
  { unfold print_ipv4. rewrite bytes_app.
    destruct (octet_ok a Ha) as (_ & Hs & _). by rewrite Hs. }
  cbn [Z.eqb]. rewrite Z.eqb_refl. unfold parseIPv4Fields, print_ipv4.
  destruct (octet_dot a [] None (pretty b +:+ "." +:+ pretty c +:+ "." +:+ pretty d))
    as (p1 & _ & ->); [done|simpl; lia|by apply bytes_pretty_app|]. cbn [app].
  destruct (octet_dot b [a] (Some p1) (pretty c +:+ "." +:+ pretty d))
    as (p2 & _ & ->); [done|simpl; lia|by apply bytes_pretty_app|]. cbn [app].
  destruct (octet_dot c [a; b] (Some p2) (pretty d)) as (p3 & _ & ->);
    [done|simpl; lia|by rewrite <- (str_app_nil_r (pretty d)); apply bytes_pretty_app|].
  destruct (octet_ok d Hd) as ((n & p & _ & Hl) & _).
  rewrite <- (app_nil_r (bytes (pretty d))), Hl. done.
Qed.

(** ** Private ranges *)

(** A test of one octet, checked on all of its 256 values. *)
Lemma octet_test (f g : Z -> bool) a :
  forallb (fun x => Bool.eqb (f x) (g x)) octets = true -> 0 <= a < 256 -> f a = g a.
Proof.
  intros H Ha%octet_in. rewrite forallb_forall in H.
  apply Bool.eqb_prop, H. by apply list_elem_of_In.
Qed.

Definition rfc1918_or_local (a b : Z) : bool :=
  (a =? 10) || ((a =? 172) && ((16 <=? b) && (b <=? 31))) || ((a =? 192) && (b =? 168))
  || (a =? 127) || ((a =? 169) && (b =? 254)).

(** Membership of a quad in an IPv4 prefix, octet by octet. *)
Lemma contains_quad a b c d n0 n1 n2 n3 m0 m1 m2 m3 :
  Contains_ip ([n0; n1; n2; n3], [m0; m1; m2; m3]) (v4InV6Prefix ++ [a; b; c; d])%list =
  (Z.land a m0 =? Z.land n0 m0) && (Z.land b m1 =? Z.land n1 m1)
  && (Z.land c m2 =? Z.land n2 m2) && (Z.land d m3 =? Z.land n3 m3).
Proof.
  unfold Contains_ip.
  change (default _ _) with [a; b; c; d]. cbn.
  apply Bool.eq_iff_eq_true. rewrite bool_decide_eq_true. reflect.
  split; [by intros [=]|by intros [[[-> ->] ->] ->]].
Qed.

Lemma privateCIDRs_v4_parsed :
  ParseCIDR <$> privateCIDRs_v4 =
  Some <$> [([10; 0; 0; 0], [255; 0; 0; 0]); ([172; 16; 0; 0], [255; 240; 0; 0]);
            ([192; 168; 0; 0], [255; 255; 0; 0]); ([127; 0; 0; 0], [255; 0; 0; 0]);
            ([169; 254; 0; 0], [255; 255; 0; 0])].
Proof. vm_compute. reflexivity. Qed.

Lemma in_cidrs_parsed ip cidrs ns :
  ParseCIDR <$> cidrs = Some <$> ns -> in_cidrs ip cidrs = existsb (fun n => Contains_ip n ip) ns.
Proof.
  revert ns. induction cidrs as [|x cidrs IH]; intros [|n ns] H; try done.
  cbn in H. injection H as Hx Hl. cbn. rewrite Hx, (IH ns) by done.
  by destruct (Contains_ip n ip).
Qed.

Lemma land_octet_255 a : 0 <= a < 256 -> Z.land a 255 = a.
Proof. intros. change 255 with (Z.ones 8). rewrite Z.land_ones by lia. apply Z.mod_small. lia. Qed.

(** C38: the private ranges.  An IPv4 address written as four octets is
    classified as private exactly when it is in 10/8, 172.16/12, 192.168/16,
    127/8 or 169.254/16. *)
Theorem isPrivateIPv4_quad a b c d :
  0 <= a < 256 -> 0 <= b < 256 -> 0 <= c < 256 -> 0 <= d < 256 ->
  isPrivateIPv4 (print_ipv4 a b c d) = rfc1918_or_local a b.
Proof.
  intros. unfold isPrivateIPv4. rewrite parse_print_ipv4 by done.
  rewrite (in_cidrs_parsed _ _ _ privateCIDRs_v4_parsed). cbn [existsb].
  rewrite !contains_quad, !Z.land_0_r, !land_octet_255 by done.
  rewrite (octet_test (fun x => Z.land x 240 =? Z.land 16 240) (fun x => (16 <=? x) && (x <=? 31)))
    by (vm_compute; done).
  unfold rfc1918_or_local. cbn. by rewrite !andb_true_r, !orb_false_r, !orb_assoc.
Qed.

Lemma isPrivateIPv4_quad_witness : isPrivateIPv4 "172.31.0.9" = true.
Proof. apply (isPrivateIPv4_quad 172 31 0 9); done. Defined.

(** ** IPv6 *)

Lemma privateCIDRs_v6_parsed :
  ParseCIDR <$> privateCIDRs_v6 =
  Some <$> [([252; 0; 0; 0; 0; 0; 0; 0; 0; 0; 0; 0; 0; 0; 0; 0], [254; 0; 0; 0; 0; 0; 0; 0; 0; 0; 0; 0; 0; 0; 0; 0]);
            ([254; 128; 0; 0; 0; 0; 0; 0; 0; 0; 0; 0; 0; 0; 0; 0], [255; 192; 0; 0; 0; 0; 0; 0; 0; 0; 0; 0; 0; 0; 0; 0]);
            ([0; 0; 0; 0; 0; 0; 0; 0; 0; 0; 0; 0; 0; 0; 0; 1],
             [255; 255; 255; 255; 255; 255; 255; 255; 255; 255; 255; 255; 255; 255; 255; 255])].
Proof. vm_compute. reflexivity. Qed.

Lemma mask_zeros l n : length l = n -> zip_with Z.land l (replicate n 0) = replicate n 0.
Proof. intros <-. induction l; simpl; [done|]. rewrite Z.land_0_r. by f_equal. Qed.

Lemma mask_ones l : Forall (fun x => 0 <= x < 256) l -> zip_with Z.land l (replicate (length l) 255) = l.
Proof. induction 1; simpl; [done|]. by rewrite land_octet_255, IHForall by done. Qed.

(** Sixteen bytes that are in fc00::/7, in fe80::/10, or ::1. *)
Definition ula_link_local_loopback (b0 b1 : Z) (rest : list Z) : bool :=
  (Z.land b0 254 =? 252) || ((b0 =? 254) && (Z.land b1 192 =? 128)) ||
  bool_decide (b0 :: b1 :: rest = replicate 15 0 ++ [1]).

(** An address that parses to sixteen bytes, and is not an IPv4 address in
    IPv6 form, is classified as private exactly when it is a unique local or a
    link-local address or the loopback address. *)
Theorem isPrivateIPv6_bytes ip b0 b1 rest :
  ParseIP ip = Some (b0 :: b1 :: rest) -> length rest = 14%nat -> To4 (b0 :: b1 :: rest) = None ->
  Forall (fun x => 0 <= x < 256) (b0 :: b1 :: rest) ->
  isPrivateIPv6 ip = ula_link_local_loopback b0 b1 rest.
Proof.
  intros Hp Hl H4 Hb. unfold isPrivateIPv6. rewrite Hp.
  rewrite (in_cidrs_parsed _ _ _ privateCIDRs_v6_parsed). cbn [existsb].
  unfold Contains_ip, mask_bytes. rewrite H4. cbn [default].
  assert (H16 : length (b0 :: b1 :: rest) = 16%nat) by (simpl; lia). rewrite H16.
  pose proof (mask_ones _ Hb) as Ho. rewrite H16 in Ho. cbn [replicate] in Ho.
  pose proof (mask_zeros rest 14 Hl) as Hz. cbn [replicate] in Hz.
  cbn [fst snd length Nat.eqb andb]. rewrite Ho. cbn [zip_with]. rewrite Hz.
  apply Forall_cons in Hb as [Hb0 _]. rewrite !Z.land_0_r, land_octet_255 by done.
  unfold ula_link_local_loopback. rewrite orb_false_r, orb_assoc. f_equal. f_equal.
  - apply Bool.eq_iff_eq_true. rewrite bool_decide_eq_true, Z.eqb_eq. cbn. split; [by intros [=]|by intros ->].
  - apply Bool.eq_iff_eq_true. rewrite bool_decide_eq_true, andb_true_iff, !Z.eqb_eq. cbn.
    split; [by intros [=]|by intros [-> ->]].
Qed.

Lemma isPrivateIPv6_bytes_witness : isPrivateIPv6 "fd12::8" = true.
Proof.
  rewrite (isPrivateIPv6_bytes "fd12::8" 253 18 (replicate 13 0 ++ [8])); [reflexivity..|].
  apply (bool_decide_unpack _). vm_compute. exact I.
Defined.

(** Every network address is converted, in order, and keeps its text; an
    address that does not parse counts as external, one of neither type as
    internal. *)
Theorem ConvertToMachineAddresses_map l :
  ConvertToMachineAddresses l =
  (fun a => {| ma_Type :=
                 if na_Type a ==s IPv4AddressType
                 then if isPrivateIPv4 (na_Address a) then MachineInternalIP else MachineExternalIP
                 else if na_Type a ==s IPv6AddressType
                 then if isPrivateIPv6 (na_Address a) then MachineInternalIP else MachineExternalIP
                 else MachineInternalIP;
               ma_Address := na_Address a |}) <$> l.
Proof.
  unfold ConvertToMachineAddresses. enough (forall acc,
    ConvertToMachineAddresses_loop acc l =
    acc ++ ((fun a => {| ma_Type := machine_address_type a; ma_Address := na_Address a |}) <$> l)) as H
    by apply H.
  induction l as [|a l IH]; intros acc; simpl; [by rewrite app_nil_r|]. by rewrite IH, <- app_assoc.
Qed.
