(* ===== verification/HostController.v ===== *)
(** * controllers/physicalhost_controller.go

    The PhysicalHost reconciler: it connects to the host's BMC, records what it
    learns in the status, and derives the host's state from its consumer
    reference. *)

From S2P Require Import Prelude Api Lib Prog Actions Redfish.

Definition PhysicalHostFinalizer := "physicalhost.infrastructure.cluster.x-k8s.io".

(** The fields of the reconciler that can be left nil. *)
Record PhysicalHostReconciler := {
  phr_Recorder : funcval;
  phr_RedfishClientFactory : funcval
}.

Section HostController.
  Context {L : Lib}.

(** ** Helpers *)

Definition updateStatus (ph : PhysicalHost) (state : string) (ready : bool) (errorMsg : string)
  : PhysicalHost :=
  ph_upd_Status (fun st => set_pst_ErrorMessage errorMsg (set_pst_Ready ready (set_pst_State state st))) ph.


Definition getRedfishCredentials (ph : PhysicalHost) : prog Env (result (string * string)) :=
  let secretName := rc_CredentialsSecretRef (pspec_RedfishConnection (ph_Spec ph)) in
  if secretName ==s "" then Ret (Err (ErrNew "credentials secret reference is empty"))
  else
    let! r := @call Env (AGetSecret {| nn_Namespace := ph_Namespace ph; nn_Name := secretName |}) in
    match r with
    | Err err =>
        if IsNotFound err then
          Ret (Err (ErrNew ("credentials secret " +:+ Quote secretName +:+ " not found")))
        else Ret (Err (ErrWrap "failed to get credentials secret" err))
    | Ok secret =>
        match sec_Data secret !! "username" with
        | None => Ret (Err (ErrNew ("username not found in secret " +:+ Quote secretName)))
        | Some username =>
            match sec_Data secret !! "password" with
            | None => Ret (Err (ErrNew ("password not found in secret " +:+ Quote secretName)))
            | Some password => Ret (Ok (username, password))
            end
        end
    end.

Definition insecure_setting (ph : PhysicalHost) : bool :=
  match rc_InsecureSkipVerify (pspec_RedfishConnection (ph_Spec ph)) with
  | Some b => b
  | None => false
  end.

(** ** reconcileNormal *)

Definition hardware_details (sysInfo : SystemInfo) : HardwareDetails :=
  {| hd_Manufacturer := si_Manufacturer sysInfo;
     hd_Model := si_Model sysInfo;
     hd_SerialNumber := si_SerialNumber sysInfo;
     hd_Status := {| hs_Health := hs_Health (si_Status sysInfo);
                     hs_HealthRollup := hs_HealthRollup (si_Status sysInfo);
                     hs_State := hs_State (si_Status sysInfo) |} |}.

(** "Determine state based on ConsumerRef". *)
Definition consumer_state (ph : PhysicalHost) : PhysicalHost :=
  match ph_Consumer ph with
  | Some _ =>
      if negb (ph_State ph ==s StateInUse) && negb (ph_State ph ==s StateInspecting)
         && negb (ph_State ph ==s StateReady)
      then updateStatus ph StateInUse true ""
      else ph
  | None =>
      if negb (ph_State ph ==s StateAvailable)
      then mark_true (updateStatus ph StateAvailable true "") HostAvailableCondition
      else ph
  end.

(** The object written after the BMC has answered: hardware details, power state
    and addresses (the last two only when their query succeeded), the connection
    condition, and the state. *)
Definition observed_host (ph : PhysicalHost) (sysInfo : SystemInfo) (power : result string)
    (addrs : result (list NetworkAddress)) : PhysicalHost :=
  let ph := ph_upd_Status (set_pst_HardwareDetails (hardware_details sysInfo)) ph in
  let ph := match power with
            | Err _ => ph
            | Ok powerState => ph_upd_Status (set_pst_ObservedPowerState powerState) ph
            end in
  let ph := match addrs with
            | Err _ => ph
            | Ok addresses =>
                ph_upd_Status (set_pst_Addresses (ConvertToMachineAddresses addresses)) ph
            end in
  let ph := mark_true ph RedfishConnectionReadyCondition in
  consumer_state ph.

(** The object written when the BMC cannot be used. *)
Definition failed_host (ph : PhysicalHost) (errorMsg reason message : string) : PhysicalHost :=
  mark_false (updateStatus ph StateError false errorMsg)
    RedfishConnectionReadyCondition reason ConditionSeverityError message.

(** The part of [reconcileNormal] after the client has been created. *)
Definition reconcileNormal_connected (ph : PhysicalHost) (c : rf_handle)
  : prog Env (exit reconcile_result) :=
  let! r := @call Env (ARfGetSystemInfo c) in
  match r with
  | Err err =>
      let ph := failed_host ph ("Failed to query system: " +:+ Error err)
                  RedfishQueryFailedReason ("Query failed: " +:+ Error err) in
      @call Env (AUpdateHostStatus ph) ;;!
      Ret (Done (AfterResult (1 * Minute), Some err))
  | Ok sysInfo =>
      let! power := @call Env (ARfGetPowerState c) in
      let! addrs := @call Env (ARfGetNetworkAddresses c) in
      let ph := observed_host ph sysInfo power addrs in
      let! u := @call Env (AUpdateHostStatus ph) in
      match u with
      | Err err => Ret (Done (NoResult, Some err))
      | Ok _ => Ret (Done (AfterResult (5 * Minute), None))
      end
  end.

Definition host_reconcileNormal (r : PhysicalHostReconciler) (ph : PhysicalHost)
  : prog Env (exit reconcile_result) :=
  let! creds := getRedfishCredentials ph in
  match creds with
  | Err err =>
      let ph := failed_host ph (Error err)
                  MissingCredentialsReason ("Failed to retrieve credentials: " +:+ Error err) in
      let! u := @call Env (AUpdateHostStatus ph) in
      match u with
      | Err updateErr => Ret (Done (NoResult, Some updateErr))
      | Ok _ => Ret (Done (AfterResult (1 * Minute), Some err))
      end
  | Ok (username, password) =>
      match phr_RedfishClientFactory r with
      | NilFunc => Ret (Panic nil_dereference)
      | Func =>
          let! conn := @call Env (ARfConnect (rc_Address (pspec_RedfishConnection (ph_Spec ph)))
                                    username password (insecure_setting ph)) in
          match conn with
          | Err err =>
              let ph := failed_host ph ("Redfish connection failed: " +:+ Error err)
                          RedfishConnectionFailedReason ("Connection failed: " +:+ Error err) in
              @call Env (AUpdateHostStatus ph) ;;!
              Ret (Done (AfterResult (1 * Minute), Some err))
          | Ok c =>
              (* defer rfClient.Close(ctx) *)
              let! x := reconcileNormal_connected ph c in
              @call Env (ARfClose c) ;;! Ret x
          end
      end
  end.

(** ** reconcileDelete and Reconcile *)

Definition host_reconcileDelete (r : PhysicalHostReconciler) (ph : PhysicalHost)
  : prog Env (exit reconcile_result) :=
  let finish :=
    if ContainsFinalizer (ph_Meta ph) PhysicalHostFinalizer then
      let ph := set_ph_Meta (RemoveFinalizer (ph_Meta ph) PhysicalHostFinalizer).1 ph in
      let! u := @call Env (AUpdateHost ph) in
      match u with
      | Err err => Ret (Done (NoResult, Some err))
      | Ok _ => Ret (Done (NoResult, None))
      end
    else Ret (Done (NoResult, None)) in
  match ph_Consumer ph with
  | Some ref =>
      match phr_Recorder r with
      | NilFunc => Ret (Panic nil_dereference)
      | Func =>
          @call Env (ARecordEvent (ph_Key ph) "Warning" "DeletingClaimedHost"
                       ("Deleting host that is still claimed by " +:+ or_Name ref)) ;;!
          finish
      end
  | None => finish
  end.

Definition host_Reconcile (r : PhysicalHostReconciler) (req : NamespacedName)
  : prog Env (exit reconcile_result) :=
  let! g := @call Env (AGetHost req) in
  match g with
  | Err err => if IsNotFound err then Ret (Done (NoResult, None)) else Ret (Done (NoResult, Some err))
  | Ok ph =>
      match om_DeletionTimestamp (ph_Meta ph) with
      | Some _ => host_reconcileDelete r ph
      | None =>
          if negb (ContainsFinalizer (ph_Meta ph) PhysicalHostFinalizer) then
            let ph := set_ph_Meta (AddFinalizer (ph_Meta ph) PhysicalHostFinalizer).1 ph in
            let! u := @call Env (AUpdateHost ph) in
            match u with
            | Err err => Ret (Done (NoResult, Some err))
            | Ok _ => Ret (Done (RequeueResult, None))
            end
          else host_reconcileNormal r ph
      end
  end.

(** ** SecretToPhysicalHosts *)

(** The request of each listed host that names the secret. *)
Fixpoint secret_requests (secretName : string) (items : list PhysicalHost) : list NamespacedName :=
  match items with
  | [] => []
  | ph :: rest =>
      if rc_CredentialsSecretRef (pspec_RedfishConnection (ph_Spec ph)) ==s secretName
      then ph_Key ph :: secret_requests secretName rest
      else secret_requests secretName rest
  end.

Definition SecretToPhysicalHosts (obj : client_Object) : prog Env (list NamespacedName) :=
  match obj with
  | ObjSecret secret =>
      let! r := @call Env (AListHosts (om_Namespace (sec_Meta secret))) in
      match r with
      | Err _ => Ret []
      | Ok items => Ret (secret_requests (om_Name (sec_Meta secret)) items)
      end
  | _ => Ret []
  end.

End HostController.

(** ** Properties *)

Section HostProperties.
  Context {L : Lib} {LL : LibLaws L}.

Ltac host_steps :=
  unfold host_Reconcile, host_reconcileDelete, host_reconcileNormal, getRedfishCredentials,
    reconcileNormal_connected; wp_steps.

(** A reconciliation of a host follows the client discipline, changes no system
    and leaves no client open. *)
Lemma host_Reconcile_disciplined r req :
  wp (fun tr a => disciplined tr a /\ reading a) [] (host_Reconcile r req) (fun tr _ => idle tr).
Proof. host_steps; first [split; [clients|exact I] | clients]. Qed.

(** The BMC of a host is contacted only when the host, as read, is not being
    deleted and carries the controller's finalizer. *)
Theorem host_finalizer_before_bmc r req :
  safe (fun tr (a : action Env) =>
                    match a with
                    | ARfConnect addr _ _ _ =>
                        exists h, @Ev Env (AGetHost req) (Ok h) ∈ tr /\
                          om_DeletionTimestamp (ph_Meta h) = None /\
                          PhysicalHostFinalizer ∈ om_Finalizers (ph_Meta h) /\
                          addr = rc_Address (pspec_RedfishConnection (ph_Spec h))
                    | _ => True
                    end) [] (host_Reconcile r req).
Proof.
  unfold safe. host_steps; try done.
  all: match goal with H : negb (ContainsFinalizer _ _) = false |- _ =>
         rewrite ContainsFinalizer_spec, negb_false_iff, bool_decide_eq_true in H end.
  all: eexists; split; [by left|done].
Qed.

(** Credentials come from the secret the host names, in the host's own
    namespace, and only when it has both keys; a missing reference is reported
    without any call. *)
Theorem credentials_spec ph :
  post (getRedfishCredentials ph) (fun tr res =>
    let name := rc_CredentialsSecretRef (pspec_RedfishConnection (ph_Spec ph)) in
    let k := {| nn_Namespace := ph_Namespace ph; nn_Name := name |} in
    match res with
    | Ok (u, p) =>
        exists s, name <> "" /\ tr = [@Ev Env (AGetSecret k) (Ok s)] /\
          sec_Data s !! "username" = Some u /\ sec_Data s !! "password" = Some p
    | Err _ =>
        (name = "" /\ tr = []) \/
        (exists e, tr = [@Ev Env (AGetSecret k) (Err e)]) \/
        exists s, tr = [@Ev Env (AGetSecret k) (Ok s)] /\
          (sec_Data s !! "username" = None \/ sec_Data s !! "password" = None)
    end).
Proof.
  unfold getRedfishCredentials. wp_steps; try done; reflect; eauto 10.
Qed.

(** *** The outcome by the answers of the BMC *)

(** How far the controller gets with the BMC of a host. *)
Inductive contact :=
| NoCredentials                    (* no secret, or a key is missing *)
| NoClient                         (* credentials only *)
| NoConnection (e : error)
| NoAnswer (b : rf_handle) (e : error)
| Answers (b : rf_handle) (si : SystemInfo) (power : result string) (addrs : result (list NetworkAddress)).

(** The calls that get that far, with their answers. *)
Inductive contacted (ph : PhysicalHost) : contact -> list (event Env) -> Prop :=
| ct_no_name :
    rc_CredentialsSecretRef (pspec_RedfishConnection (ph_Spec ph)) = "" -> contacted ph NoCredentials []
| ct_no_secret e :
    contacted ph NoCredentials [@Ev Env (AGetSecret {| nn_Namespace := ph_Namespace ph;
      nn_Name := rc_CredentialsSecretRef (pspec_RedfishConnection (ph_Spec ph)) |}) (Err e)]
| ct_no_key s :
    sec_Data s !! "username" = None \/ sec_Data s !! "password" = None ->
    contacted ph NoCredentials [@Ev Env (AGetSecret {| nn_Namespace := ph_Namespace ph;
      nn_Name := rc_CredentialsSecretRef (pspec_RedfishConnection (ph_Spec ph)) |}) (Ok s)]
| ct_no_client s :
    is_Some (sec_Data s !! "username") -> is_Some (sec_Data s !! "password") ->
    contacted ph NoClient [@Ev Env (AGetSecret {| nn_Namespace := ph_Namespace ph;
      nn_Name := rc_CredentialsSecretRef (pspec_RedfishConnection (ph_Spec ph)) |}) (Ok s)]
| ct_no_connection s user password e :
    sec_Data s !! "username" = Some user -> sec_Data s !! "password" = Some password ->
    contacted ph (NoConnection e) [@Ev Env (AGetSecret {| nn_Namespace := ph_Namespace ph;
      nn_Name := rc_CredentialsSecretRef (pspec_RedfishConnection (ph_Spec ph)) |}) (Ok s);
      @Ev Env (ARfConnect (rc_Address (pspec_RedfishConnection (ph_Spec ph))) user password
        (default false (rc_InsecureSkipVerify (pspec_RedfishConnection (ph_Spec ph))))) (Err e)]
| ct_no_answer s user password b e :
    sec_Data s !! "username" = Some user -> sec_Data s !! "password" = Some password ->
    contacted ph (NoAnswer b e) [@Ev Env (AGetSecret {| nn_Namespace := ph_Namespace ph;
      nn_Name := rc_CredentialsSecretRef (pspec_RedfishConnection (ph_Spec ph)) |}) (Ok s);
      @Ev Env (ARfConnect (rc_Address (pspec_RedfishConnection (ph_Spec ph))) user password
        (default false (rc_InsecureSkipVerify (pspec_RedfishConnection (ph_Spec ph))))) (Ok b);
      @Ev Env (ARfGetSystemInfo b) (Err e)]
| ct_answers s user password b si power addrs :
    sec_Data s !! "username" = Some user -> sec_Data s !! "password" = Some password ->
    contacted ph (Answers b si power addrs) [@Ev Env (AGetSecret {| nn_Namespace := ph_Namespace ph;
      nn_Name := rc_CredentialsSecretRef (pspec_RedfishConnection (ph_Spec ph)) |}) (Ok s);
      @Ev Env (ARfConnect (rc_Address (pspec_RedfishConnection (ph_Spec ph))) user password
        (default false (rc_InsecureSkipVerify (pspec_RedfishConnection (ph_Spec ph))))) (Ok b);
      @Ev Env (ARfGetSystemInfo b) (Ok si); @Ev Env (ARfGetPowerState b) power; @Ev Env (ARfGetNetworkAddresses b) addrs].

(** What a write of the status never touches: the rest of the object, and the
    inspection. *)
Definition same_inspection (ph h' : PhysicalHost) : Prop :=
  ph_Meta h' = ph_Meta ph /\ ph_Spec h' = ph_Spec ph /\
  pst_InspectionReport (ph_Status h') = pst_InspectionReport (ph_Status ph) /\
  pst_InspectionPhase (ph_Status h') = pst_InspectionPhase (ph_Status ph) /\
  pst_InspectionTimestamp (ph_Status h') = pst_InspectionTimestamp (ph_Status ph).

(** [h'] is [ph] with a BMC that cannot be used: in error, not ready, and with
    what was known of the hardware. *)
Definition unusable (ph h' : PhysicalHost) : Prop :=
  same_inspection ph h' /\
  pst_State (ph_Status h') = "Error" /\ pst_Ready (ph_Status h') = false /\
  cond_status (pst_Conditions (ph_Status h')) "RedfishConnectionReady" = Some "False" /\
  pst_HardwareDetails (ph_Status h') = pst_HardwareDetails (ph_Status ph) /\
  pst_ObservedPowerState (ph_Status h') = pst_ObservedPowerState (ph_Status ph) /\
  pst_Addresses (ph_Status h') = pst_Addresses (ph_Status ph).

(** The state that goes with the consumer. *)
Definition consumer_calls_for (ph : PhysicalHost) (state : string) : Prop :=
  match ph_Consumer ph with
  | None => state = "Available"
  | Some _ =>
      (pst_State (ph_Status ph) ∈ ["InUse"; "Inspecting"; "Ready"] /\ state = pst_State (ph_Status ph)) \/
      (~ (pst_State (ph_Status ph) ∈ ["InUse"; "Inspecting"; "Ready"]) /\ state = "InUse")
  end.

(** [h'] is [ph] with what its BMC has answered; of the power state and the
    addresses the old ones are kept where the query failed. *)
Definition observed (ph h' : PhysicalHost) (si : SystemInfo) (power : result string)
    (addrs : result (list NetworkAddress)) : Prop :=
  same_inspection ph h' /\ consumer_calls_for ph (pst_State (ph_Status h')) /\
  cond_status (pst_Conditions (ph_Status h')) "RedfishConnectionReady" = Some "True" /\
  pst_HardwareDetails (ph_Status h') =
    {| hd_Manufacturer := si_Manufacturer si; hd_Model := si_Model si; hd_SerialNumber := si_SerialNumber si;
       hd_Status := {| hs_Health := hs_Health (si_Status si); hs_HealthRollup := hs_HealthRollup (si_Status si);
                       hs_State := hs_State (si_Status si) |} |} /\
  pst_ObservedPowerState (ph_Status h') = match power with Ok p => p | Err _ => pst_ObservedPowerState (ph_Status ph) end /\
  pst_Addresses (ph_Status h') =
    match addrs with Ok l => ConvertToMachineAddresses l | Err _ => pst_Addresses (ph_Status ph) end.

Lemma failed_host_unusable ph e reason m : unusable ph (failed_host ph e reason m).
Proof. repeat split. apply MarkFalse_self. Qed.

(** [consumer_state] sets the state, and keeps the rest. *)
Lemma consumer_state_keeps ph :
  same_inspection ph (consumer_state ph) /\ consumer_calls_for ph (pst_State (ph_Status (consumer_state ph))) /\
  pst_HardwareDetails (ph_Status (consumer_state ph)) = pst_HardwareDetails (ph_Status ph) /\
  pst_ObservedPowerState (ph_Status (consumer_state ph)) = pst_ObservedPowerState (ph_Status ph) /\
  pst_Addresses (ph_Status (consumer_state ph)) = pst_Addresses (ph_Status ph) /\
  (cond_status (pst_Conditions (ph_Status ph)) "RedfishConnectionReady" = Some "True" ->
   cond_status (pst_Conditions (ph_Status (consumer_state ph))) "RedfishConnectionReady" = Some "True").
Proof.
  unfold consumer_state, consumer_calls_for, same_inspection. destruct (ph_Consumer ph) as [ref|] eqn:E.
  - destruct (_ && _) eqn:Es; split_and!; try done.
    + right. rewrite !andb_true_iff, !negb_true_iff, !eqb_false in Es. unfold ph_State in Es.
      split; [set_solver|done].
    + left. rewrite !andb_false_iff, !negb_false_iff, !eqb_true in Es. unfold ph_State in Es. split; [set_solver|done].
  - destruct (negb _) eqn:Es; split_and!; try done.
    + cbn -[cond_status]. by rewrite MarkTrue_other.
    + by apply negb_false_iff, eqb_true in Es.
Qed.

Lemma observed_host_observed ph si power addrs : observed ph (observed_host ph si power addrs) si power addrs.
Proof.
  unfold observed_host. cbv zeta.
  match goal with |- observed _ (consumer_state ?h) _ _ _ =>
    destruct (consumer_state_keeps h) as ((H1 & H2 & H3 & H4 & H5) & H6 & H7 & H8 & H9 & H10) end.
  assert (forall c, cond_status (MarkTrue c RedfishConnectionReadyCondition) "RedfishConnectionReady" = Some "True") as Hc by (intros; apply MarkTrue_self).
  destruct power, addrs; split_and!; rewrite ?H1, ?H2, ?H3, ?H4, ?H5, ?H7, ?H8, ?H9; try done; try exact H6; apply H10, Hc.
Qed.

Hint Resolve failed_host_unusable observed_host_observed : go.

(** The case of [contacted], then what is written. *)
Local Ltac outcome c :=
  solve [unshelve (eexists _, _; split; [eapply c; shelve|]; cbn beta iota;
    first [eexists _, _, _; split_and!; [reflexivity|auto with go|reflexivity]
          | split; [done|]; first [split; reflexivity | eexists _, _; split_and!; [reflexivity|auto with go|reflexivity]]]);
    first [assumption | eexists; eassumption | left; assumption | right; assumption]].
Local Ltac outcomes ph :=
  lazymatch goal with
  | |- context [@Ev Env (ARfGetSystemInfo ?b) (Ok ?si)] =>
      match goal with |- context [@Ev Env (AGetSecret _) (Ok ?s)] =>
      match goal with |- context [@Ev Env (ARfConnect _ ?u ?p _) _] =>
      match goal with |- context [@Ev Env (ARfGetPowerState b) ?power] =>
      match goal with |- context [@Ev Env (ARfGetNetworkAddresses b) ?addrs] => outcome (ct_answers ph s u p b si power addrs) end end end end
  | |- context [@Ev Env (ARfGetSystemInfo ?b) (Err ?e)] =>
      match goal with |- context [@Ev Env (AGetSecret _) (Ok ?s)] =>
      match goal with |- context [@Ev Env (ARfConnect _ ?u ?p _) _] => outcome (ct_no_answer ph s u p b e) end end
  | |- context [@Ev Env (ARfConnect _ ?u ?p _) (Err ?e)] =>
      match goal with |- context [@Ev Env (AGetSecret _) (Ok ?s)] => outcome (ct_no_connection ph s u p e) end
  | |- context [@Ev Env (AGetSecret _) (Ok ?s)] => first [outcome (ct_no_key ph s) | outcome (ct_no_client ph s)]
  | |- context [@Ev Env (AGetSecret _) (Err ?e)] => outcome (ct_no_secret ph e)
  | |- _ => outcome (ct_no_name ph)
  end.

(** C8: the outcome of reconciling a host, by the answers it gets.  Without
    credentials, without a connection to the host's BMC or without an answer to
    the system query, the host is written back unusable, and otherwise with what
    the BMC has answered; a client is closed.  An unusable BMC is an error,
    that of the connection or the query, whether or not the write succeeds
    (without credentials a failing write takes its place); the minute returned
    with it has no effect, as a reconciliation that returns an error is retried
    with the backoff of the work queue.  A host whose BMC answers is looked at
    again in five minutes, if the write succeeds.  A reconciler without a
    client factory panics as soon as it has credentials. *)
Theorem host_outcome r ph :
  post (host_reconcileNormal r ph) (fun tr x => exists c calls, contacted ph c calls /\
    match c with
    | NoCredentials => exists h' u err, tr = calls ++ [@Ev Env (AUpdateHostStatus h') u] /\ unusable ph h' /\
        x = Done (match u with Ok _ => (AfterResult Minute, Some err) | Err e => (NoResult, Some e) end)
    | NoClient => phr_RedfishClientFactory r = NilFunc /\ tr = calls /\ x = Panic nil_dereference
    | NoConnection e => phr_RedfishClientFactory r = Func /\
        exists h' u, tr = calls ++ [@Ev Env (AUpdateHostStatus h') u] /\ unusable ph h' /\
          x = Done (AfterResult Minute, Some e)
    | NoAnswer b e => phr_RedfishClientFactory r = Func /\
        exists h' u, tr = calls ++ [@Ev Env (AUpdateHostStatus h') u; @Ev Env (ARfClose b) tt] /\ unusable ph h' /\
          x = Done (AfterResult Minute, Some e)
    | Answers b si power addrs => phr_RedfishClientFactory r = Func /\
        exists h' u, tr = calls ++ [@Ev Env (AUpdateHostStatus h') u; @Ev Env (ARfClose b) tt] /\
          observed ph h' si power addrs /\
          x = Done (match u with Ok _ => (AfterResult (5 * Minute), None) | Err e => (NoResult, Some e) end)
    end).
Proof.
  host_steps; try done; reflect.
  all: try match goal with |- context [@Ev Env (ARfClose _) ?r0] => is_var r0; destruct r0 end; outcomes ph.
Qed.

(** The ways the deletion of a host ends: a claimed host is reported first,
    which needs an event recorder; then one update removes the controller's
    finalizer and changes nothing else. *)
Definition delete_outcome (r : PhysicalHostReconciler) (ph : PhysicalHost) (tr : list (event Env))
    (x : exit reconcile_result) : Prop :=
  (exists m, x = Panic m /\ is_Some (ph_Consumer ph) /\ phr_Recorder r = NilFunc /\ tr = []) \/
  exists h' u, last tr = Some (@Ev Env (AUpdateHost h') u) /\
    om_Finalizers (ph_Meta h') =
      filter (fun f => f <> PhysicalHostFinalizer) (om_Finalizers (ph_Meta ph)) /\
    ph_Spec h' = ph_Spec ph /\ ph_Status h' = ph_Status ph /\
    x = Done (NoResult, match u with Ok _ => None | Err e => Some e end).

(** Deleting a host that carries the controller's finalizer ends with one
    update that removes that finalizer and nothing else of the object; a host
    still claimed is reported first, and without an event recorder that report
    panics and the finalizer stays. *)
Theorem host_delete_releases r ph :
  PhysicalHostFinalizer ∈ om_Finalizers (ph_Meta ph) ->
  post (host_reconcileDelete r ph) (delete_outcome r ph).
Proof.
  intros Hf. unfold host_reconcileDelete. rewrite RemoveFinalizer_spec.
  rewrite ContainsFinalizer_spec, bool_decide_true by done.
  wp_steps; try done; [left; eauto 10|right..]; (eexists _, _; split; [done|]; repeat split).
Qed.

(** A change of a secret triggers exactly the hosts of its namespace that
    name it, in list order; no other object triggers anything. *)
Theorem secret_triggers_its_hosts secret :
  post (SecretToPhysicalHosts (ObjSecret secret)) (fun tr reqs =>
    (exists items, tr = [@Ev Env (AListHosts (om_Namespace (sec_Meta secret))) (Ok items)] /\
       reqs = ph_Key <$> filter (fun h =>
         rc_CredentialsSecretRef (pspec_RedfishConnection (ph_Spec h)) = om_Name (sec_Meta secret)) items) \/
    (exists e, tr = [@Ev Env (AListHosts (om_Namespace (sec_Meta secret))) (Err e)] /\ reqs = [])).
Proof.
  unfold SecretToPhysicalHosts. wp_steps; [done|left|right]; eexists; (split; [done|]); [|done].
  induction a as [|h items IH]; simpl; [done|]. rewrite filter_cons.
  destruct (String.eqb_spec (rc_CredentialsSecretRef (pspec_RedfishConnection (ph_Spec h))) (om_Name (sec_Meta secret)));
    [rewrite decide_True by done; simpl; by f_equal|by rewrite decide_False].
Qed.

End HostProperties.

Lemma host_delete_releases_witness :
  post (@host_reconcileDelete ref_lib {| phr_Recorder := Func; phr_RedfishClientFactory := Func |}
          (sample_host "h1" "https://bmc1" [PhysicalHostFinalizer]))
    (delete_outcome {| phr_Recorder := Func; phr_RedfishClientFactory := Func |}
       (sample_host "h1" "https://bmc1" [PhysicalHostFinalizer])).
Proof. apply host_delete_releases. vm_compute. left. Defined.

Lemma host_finalizer_before_bmc_witness :
  safe (fun tr (a : action Env) =>
          match a with
          | ARfConnect addr _ _ _ =>
              exists h, @Ev Env (AGetHost {| nn_Namespace := "default"; nn_Name := "h1" |}) (Ok h) ∈ tr /\
                om_DeletionTimestamp (ph_Meta h) = None /\
                PhysicalHostFinalizer ∈ om_Finalizers (ph_Meta h) /\
                addr = rc_Address (pspec_RedfishConnection (ph_Spec h))
          | _ => True
          end) []
    (@host_Reconcile ref_lib {| phr_Recorder := Func; phr_RedfishClientFactory := Func |}
       {| nn_Namespace := "default"; nn_Name := "h1" |}).
Proof. apply host_finalizer_before_bmc. Defined.

(** With a client factory, no panic is left among the outcomes. *)
Lemma host_outcome_witness :
  post (@host_reconcileNormal ref_lib {| phr_Recorder := Func; phr_RedfishClientFactory := Func |}
          (sample_host "h1" "https://bmc1" [PhysicalHostFinalizer])) (fun tr x => exists res, x = Done res).
Proof.
  eapply wp_mono; [apply host_outcome|].
  intros tr x _ ([] & calls & _ & H); [destruct H as (? & ? & ? & _ & _ & ->)|by destruct H|destruct H as (_ & ? & ? & _ & _ & ->)..];
    by eexists.
Defined.
