(* ===== verification/MachineController.v ===== *)
(** * controllers/beskar7machine_controller.go

    The Beskar7Machine reconciler: it claims a PhysicalHost, drives it through
    inspection, checks the inspection report against the machine's hardware
    requirements and reports the infrastructure ready.

    A handler works on the machine object, which the deferred function of
    [Reconcile] patches on every way out; so handlers are of type [comp], which
    gives the object back also when the handler panics. *)

From S2P Require Import Prelude GoText GoFmt Api Lib Prog Actions Utils.

Definition Beskar7MachineFinalizer := "beskar7machine.infrastructure.cluster.x-k8s.io".
Definition ProviderIDPrefix := "b7://".
Definition DefaultInspectionTimeout : Z := 10 * Minute.
Definition OnPowerState := "On".

(** ** Provider IDs *)

Definition providerID (namespace name : string) : string :=
  ProviderIDPrefix +:+ namespace +:+ "/" +:+ name.

Definition parseProviderID (id : string) : result (string * string) :=
  if (len id <=? len ProviderIDPrefix)%nat then Err (ErrNew "invalid provider ID format")
  else
    let parts := str_drop (len ProviderIDPrefix) id in
    let idx := first_index 47 (go_range parts) in
    if (idx =? 0)%nat then Err (ErrNew "invalid provider ID format")
    else Ok (str_take idx parts, str_drop (S idx) parts).

(** ** Hardware requirements *)

(** [totalCores += cpu.Cores] over the report's CPUs. *)
Definition total_cores (l : list CPUInfo) : Z := fold_left (fun t c => add64 t (cpu_Cores c)) l 0.

(** A module whose capacity does not parse is skipped. *)
Fixpoint total_memory (t : Z) (l : list MemoryInfo) : Z :=
  match l with
  | [] => t
  | m :: l' =>
      match Sscanf_d (mem_Capacity m) with
      | None => total_memory t l'
      | Some memGB => total_memory (add64 t memGB) l'
      end
  end.

Definition total_disk (l : list DiskInfo) : Z := fold_left (fun t d => add64 t (disk_SizeGB d)) l 0.

(** The checks of [validateInspectionReport]: the error of the first that fails. *)
Definition check_requirements (reqs : HardwareRequirements) (report : InspectionReport) : option error :=
  let totalCores := total_cores (ir_CPUs report) in
  if (0 <? hr_MinCPUCores reqs) && (totalCores <? hr_MinCPUCores reqs) then
    Some (ErrNew ("insufficient CPU cores: found " +:+ pretty totalCores +:+ ", required "
                  +:+ pretty (hr_MinCPUCores reqs)))
  else
    let totalMemoryGB := total_memory 0 (ir_Memory report) in
    if (0 <? hr_MinMemoryGB reqs) && (totalMemoryGB <? hr_MinMemoryGB reqs) then
      Some (ErrNew ("insufficient memory: found " +:+ pretty totalMemoryGB +:+ " GB, required "
                    +:+ pretty (hr_MinMemoryGB reqs) +:+ " GB"))
    else
      let totalDisk := total_disk (ir_Disks report) in
      if (0 <? hr_MinDiskGB reqs) && (totalDisk <? hr_MinDiskGB reqs) then
        Some (ErrNew ("insufficient disk space: found " +:+ pretty totalDisk +:+ " GB, required "
                      +:+ pretty (hr_MinDiskGB reqs) +:+ " GB"))
      else None.

Section MachineController.
  Context {L : Lib}.

Abbreviation mcomp := (comp Env Beskar7Machine reconcile_result).

Definition set_phase (p : string) (m : Beskar7Machine) : Beskar7Machine :=
  bm_upd_Status (set_mst_Phase (Some p)) m.

(** ** getRedfishClientForHost *)

Definition getRedfishClientForHost (factory : funcval) (host : PhysicalHost)
  : prog Env (exit (result rf_handle)) :=
  let conn := pspec_RedfishConnection (ph_Spec host) in
  let! g := @call Env (AGetSecret {| nn_Namespace := ph_Namespace host;
                                     nn_Name := rc_CredentialsSecretRef conn |}) in
  match g with
  | Err err => Ret (Done (Err (ErrWrap "failed to get credentials secret" err)))
  | Ok secret =>
      let username := default "" (sec_Data secret !! "username") in
      let password := default "" (sec_Data secret !! "password") in
      let insecure := default false (rc_InsecureSkipVerify conn) in
      match factory with
      | NilFunc => Ret (Panic nil_dereference)
      | Func =>
          let! c := @call Env (ARfConnect (rc_Address conn) username password insecure) in
          Ret (Done c)
      end
  end.

(** ** triggerInspection *)

Definition inspecting_host (physicalHost : PhysicalHost) (now : Z) : PhysicalHost :=
  ph_upd_Status (fun st =>
    set_pst_InspectionTimestamp (Some now)
      (set_pst_InspectionPhase InspectionPhaseBooting (set_pst_State StateInspecting st))) physicalHost.

(** The body after the client has been created. *)
Definition triggerInspection_connected (c : rf_handle) (physicalHost : PhysicalHost) : mcomp :=
  fun m =>
  let! pxe := @call Env (ARfSetBootSourcePXE c) in
  match pxe with
  | Err err => Ret (m, Done (NoResult, Some err))
  | Ok _ =>
      let! ps := @call Env (ARfGetPowerState c) in
      match ps with
      | Err err => Ret (m, Done (NoResult, Some err))
      | Ok powerState =>
          let update :=
            let! now := @call Env ANow in
            let! u := @call Env (AUpdateHostStatus (inspecting_host physicalHost now)) in
            match u with
            | Err err => Ret (m, Done (NoResult, Some err))
            | Ok _ => Ret (set_phase "Inspecting" m, Done (AfterResult (30 * Second), None))
            end in
          if negb (powerState ==s OnPowerState) then
            let! on := @call Env (ARfSetPowerState c OnPowerState) in
            match on with
            | Err err => Ret (m, Done (NoResult, Some err))
            | Ok _ => update
            end
          else update
      end
  end.

Definition triggerInspection (factory : funcval) (physicalHost : PhysicalHost) : mcomp :=
  fun m =>
  let! e := getRedfishClientForHost factory physicalHost in
  match e with
  | Panic msg => Ret (m, Panic msg)
  | Done (Err err) => Ret (m, Done (NoResult, Some err))
  | Done (Ok c) =>
      with_defer (triggerInspection_connected c physicalHost)
        (fun m' x => @call Env (ARfClose c) ;;! Ret (m', x)) m
  end.

(** ** validateInspectionReport and handleInspectingHost *)

Definition ready_host (physicalHost : PhysicalHost) : PhysicalHost :=
  ph_upd_Status (fun st =>
    set_pst_Conditions (MarkTrue (pst_Conditions st) HostInspectedCondition)
      (set_pst_State StateReady st)) physicalHost.

Definition validateInspectionReport (physicalHost : PhysicalHost) : mcomp :=
  fun m =>
  match pst_InspectionReport (ph_Status physicalHost) with
  | None => Ret (m, Done (AfterResult (10 * Second), None))
  | Some report =>
      match match ms_HardwareRequirements (bm_Spec m) with
            | Some reqs => check_requirements reqs report
            | None => None
            end with
      | Some err => Ret (m, Done (NoResult, Some err))
      | None =>
          let! u := @call Env (AUpdateHostStatus (ready_host physicalHost)) in
          match u with
          | Err err => Ret (m, Done (NoResult, Some err))
          | Ok _ => Ret (m, Done (RequeueResult, None))
          end
      end
  end.

Definition timed_out_host (physicalHost : PhysicalHost) (elapsed : Z) : PhysicalHost :=
  ph_upd_Status (fun st =>
    set_pst_ErrorMessage ("Inspection timeout after " +:+ Duration_String elapsed)
      (set_pst_State StateError (set_pst_InspectionPhase InspectionPhaseTimeout st))) physicalHost.

(** The part of [handleInspectingHost] after the timeout check. *)
Definition handleInspectingHost_rest (physicalHost : PhysicalHost) : mcomp :=
  fun m =>
  if pst_InspectionPhase (ph_Status physicalHost) ==s InspectionPhaseComplete
  then validateInspectionReport physicalHost m
  else Ret (set_phase "Inspecting" m, Done (AfterResult (30 * Second), None)).

Definition handleInspectingHost (physicalHost : PhysicalHost) : mcomp :=
  fun m =>
  match pst_InspectionTimestamp (ph_Status physicalHost) with
  | Some started =>
      let! now := @call Env ANow in
      let elapsed := time_sub now started in
      if elapsed >? DefaultInspectionTimeout then
        @call Env (AUpdateHostStatus (timed_out_host physicalHost elapsed)) ;;!
        Ret (m, Done (NoResult, Some (ErrNew "inspection timeout")))
      else handleInspectingHost_rest physicalHost m
  | None => handleInspectingHost_rest physicalHost m
  end.

(** ** handleReadyHost *)

Definition handleReadyHost (physicalHost : PhysicalHost) : mcomp :=
  fun m =>
  let currentProviderID := providerID (ph_Namespace physicalHost) (ph_Name physicalHost) in
  let m := if match ms_ProviderID (bm_Spec m) with
              | None => true
              | Some p => negb (p ==s currentProviderID)
              end
           then set_bm_Spec (set_ms_ProviderID (Some currentProviderID) (bm_Spec m)) m else m in
  let addrs := pst_Addresses (ph_Status physicalHost) in
  let m := if (0 <? length addrs)%nat then bm_upd_Status (set_mst_Addresses addrs) m else m in
  let m := mark_true m InfrastructureReadyCondition in
  let m := bm_upd_Status (set_mst_Ready true) m in
  let m := set_phase "Provisioned" m in
  Ret (m, Done (NoResult, None)).

(** ** handlePhysicalHostState *)

Definition handlePhysicalHostState (factory : funcval) (physicalHost : PhysicalHost) : mcomp :=
  fun m =>
  let state := ph_State physicalHost in
  if state ==s StateReady then handleReadyHost physicalHost m
  else if state ==s StateInspecting then handleInspectingHost physicalHost m
  else if state ==s StateInUse then triggerInspection factory physicalHost m
  else if state ==s StateError then
    let m := mark_false m InfrastructureReadyCondition PhysicalHostErrorReason ConditionSeverityError
               ("PhysicalHost " +:+ Quote (ph_Name physicalHost) +:+ " in error state: "
                +:+ pst_ErrorMessage (ph_Status physicalHost)) in
    let m := bm_upd_Status (set_mst_Ready false) (set_phase "Failed" m) in
    Ret (m, Done (NoResult, None))
  else
    let m := mark_false m InfrastructureReadyCondition PhysicalHostNotReadyReason ConditionSeverityInfo
               ("PhysicalHost " +:+ Quote (ph_Name physicalHost) +:+ " is in state: " +:+ state) in
    Ret (set_phase "Pending" m, Done (AfterResult (30 * Second), None)).

(** ** findAndClaimOrGetAssociatedHost *)

Definition claim_ref (m : Beskar7Machine) : ObjectReference :=
  {| or_Kind := tm_Kind (bm_Type m); or_APIVersion := tm_APIVersion (bm_Type m);
     or_Name := bm_Name m; or_Namespace := bm_Namespace m; or_UID := om_UID (bm_Meta m) |}.

Definition claimed_host (m : Beskar7Machine) (host : PhysicalHost) : PhysicalHost :=
  set_ph_Spec (set_pspec_ConsumerRef (Some (claim_ref m)) (ph_Spec host)) host.

Definition claimable (host : PhysicalHost) : bool :=
  (ph_State host ==s StateAvailable) && match ph_Consumer host with None => true | Some _ => false end.

(** The loop over the listed hosts: the first claimable one is claimed. *)
Fixpoint claim_loop (m : Beskar7Machine) (items : list PhysicalHost)
  : prog Env (option PhysicalHost * Result * option error) :=
  match items with
  | [] => Ret (None, NoResult, None)
  | host :: rest =>
      if claimable host then
        let! u := @call Env (AUpdateHost (claimed_host m host)) in
        match u with
        | Err err => Ret (None, NoResult, Some err)
        | Ok host' => Ret (Some host', AfterResult (5 * Second), None)
        end
      else claim_loop m rest
  end.

Definition findAvailableHost (m : Beskar7Machine)
  : prog Env (option PhysicalHost * Result * option error) :=
  let! l := @call Env (AListHosts (bm_Namespace m)) in
  match l with
  | Err err => Ret (None, NoResult, Some err)
  | Ok items => claim_loop m items
  end.

Definition findAndClaimOrGetAssociatedHost (m : Beskar7Machine)
  : prog Env (option PhysicalHost * Result * option error) :=
  match ms_ProviderID (bm_Spec m) with
  | Some id =>
      if negb (id ==s "") then
        match parseProviderID id with
        | Ok (ns, name) =>
            if ns ==s bm_Namespace m then
              let! g := @call Env (AGetHost {| nn_Namespace := ns; nn_Name := name |}) in
              match g with
              | Ok host => Ret (Some host, NoResult, None)
              | Err _ => findAvailableHost m
              end
            else findAvailableHost m
        | Err _ => findAvailableHost m
        end
      else findAvailableHost m
  | None => findAvailableHost m
  end.

(** ** reconcileNormal, reconcileDelete, Reconcile *)

Definition machine_reconcileNormal (factory : funcval) : mcomp :=
  fun m =>
  let '(meta, added) := AddFinalizer (bm_Meta m) Beskar7MachineFinalizer in
  let m := set_bm_Meta meta m in
  if added : bool then Ret (m, Done (RequeueResult, None))
  else
    let! (host, result, err) := findAndClaimOrGetAssociatedHost m in
    match err with
    | Some e =>
        Ret (mark_false m PhysicalHostAssociatedCondition PhysicalHostAssociationFailedReason
               ConditionSeverityWarning ("Failed to associate with PhysicalHost: " +:+ Error e),
             Done (result, Some e))
    | None =>
        match host with
        | None =>
            Ret (mark_false m PhysicalHostAssociatedCondition WaitingForPhysicalHostReason
                   ConditionSeverityInfo "No available PhysicalHost found",
                 Done (AfterResult Minute, None))
        | Some physicalHost =>
            let m := mark_true m PhysicalHostAssociatedCondition in
            if negb (Result_IsZero result) then Ret (m, Done (result, None))
            else handlePhysicalHostState factory physicalHost m
        end
    end.

Definition released_host (host : PhysicalHost) : PhysicalHost :=
  set_ph_Spec (set_pspec_ConsumerRef None (ph_Spec host)) host.

(** "Release the host": [Some err] when the update fails. *)
Definition release_host (m : Beskar7Machine) : prog Env (option error) :=
  match ms_ProviderID (bm_Spec m) with
  | Some id =>
      if negb (id ==s "") then
        match parseProviderID id with
        | Ok (ns, name) =>
            let! g := @call Env (AGetHost {| nn_Namespace := ns; nn_Name := name |}) in
            match g with
            | Ok host =>
                match ph_Consumer host with
                | Some ref =>
                    if or_Name ref ==s bm_Name m then
                      let! u := @call Env (AUpdateHost (released_host host)) in
                      match u with
                      | Err err => Ret (Some err)
                      | Ok _ => Ret None
                      end
                    else Ret None
                | None => Ret None
                end
            | Err _ => Ret None
            end
        | Err _ => Ret None
        end
      else Ret None
  | None => Ret None
  end.

Definition machine_reconcileDelete : mcomp :=
  fun m =>
  let! err := release_host m in
  match err with
  | Some e => Ret (m, Done (NoResult, Some e))
  | None =>
      Ret (set_bm_Meta (RemoveFinalizer (bm_Meta m) Beskar7MachineFinalizer).1 m, Done (NoResult, None))
  end.

(** The deferred function: summarise the conditions and patch the machine; a
    patch error becomes the returned error only if there is none yet. *)
Definition deferred_patch (before : Beskar7Machine) (m : Beskar7Machine) (x : exit reconcile_result)
  : prog Env (Beskar7Machine * exit reconcile_result) :=
  let m := set_summary m [InfrastructureReadyCondition] in
  let! p := @call Env (APatchMachine before m) in
  match p, x with
  | Err err, Done (res, None) => Ret (m, Done (res, Some err))
  | _, _ => Ret (m, x)
  end.

Definition machine_Reconcile (factory : funcval) (req : NamespacedName)
  : prog Env (exit reconcile_result) :=
  let! g := @call Env (AGetMachine req) in
  match g with
  | Err err => if IsNotFound err then Ret (Done (NoResult, None)) else Ret (Done (NoResult, Some err))
  | Ok b7machine =>
      if isPaused (bm_Meta b7machine) then Ret (Done (NoResult, None))
      else
        let! o := @call Env (AGetOwnerMachine (bm_Meta b7machine)) in
        match o with
        | Err err => Ret (Done (NoResult, Some err))
        | Ok None => Ret (Done (AfterResult (10 * Second), None))
        | Ok (Some machine) =>
            let! cl := @call Env (AGetClusterFromMetadata (m_Meta machine)) in
            match cl with
            | Err err => Ret (Done (NoResult, Some err))
            | Ok cluster =>
                if isClusterPaused cluster then Ret (Done (NoResult, None))
                else
                  let! ph := @call Env (ANewMachineHelper b7machine) in
                  match ph with
                  | Err err => Ret (Done (NoResult, Some err))
                  | Ok _ =>
                      let body := match om_DeletionTimestamp (bm_Meta b7machine) with
                                  | Some _ => machine_reconcileDelete
                                  | None => machine_reconcileNormal factory
                                  end in
                      let! (_, x) := with_defer body (deferred_patch b7machine) b7machine in
                      Ret x
                  end
            end
        end
  end.

End MachineController.

(** ** Properties: provider IDs *)

Definition slash : Ascii.ascii := Ascii.ascii_of_nat 47.

(** The index [parseProviderID] computes. *)
Lemma first_slash s :
  first_index 47 (go_range s) = match byte_index 47 (bytes s) with Some k => k | None => 0%nat end.
Proof. unfold go_range. rewrite first_index_range; [done|done|apply bytes_is_byte|constructor]. Qed.

Lemma parse_complete pre ns name :
  len pre = len ProviderIDPrefix -> ns <> "" -> 47 ∉ bytes ns ->
  parseProviderID (pre +:+ ns +:+ "/" +:+ name) = Ok (ns, name).
Proof.
  intros Hp Hn Hs. unfold parseProviderID. rewrite <- Hp, str_drop_app.
  assert (Hl : (0 < len ns)%nat) by (destruct ns; simpl; [done|lia]).
  rewrite (proj2 (Nat.leb_gt _ _)) by (rewrite !len_app; lia).
  rewrite first_slash, bytes_app. change (bytes ("/" +:+ name)) with (47 :: bytes name).
  rewrite byte_index_app_cons, bytes_length by done.
  rewrite (proj2 (Nat.eqb_neq _ _)) by lia. rewrite str_take_app.
  change ("/" +:+ name) with (String slash name). by rewrite str_drop_app_S.
Qed.

Lemma parse_sound id ns name :
  parseProviderID id = Ok (ns, name) ->
  exists pre, len pre = len ProviderIDPrefix /\ id = pre +:+ ns +:+ "/" +:+ name /\ ns <> "" /\ 47 ∉ bytes ns.
Proof.
  unfold parseProviderID. intros H. destruct (Nat.leb_spec (len id) (len ProviderIDPrefix)); [done|].
  set (parts := str_drop _ id) in H. rewrite first_slash in H.
  destruct (byte_index 47 (bytes parts)) as [k|] eqn:E; [|done].
  destruct (Nat.eqb_spec k 0) as [|Hk]; [done|]. injection H as <- <-.
  apply byte_index_Some in E as [E Ht]. exists (str_take (len ProviderIDPrefix) id).
  split; [by rewrite len_take by lia|]. rewrite bytes_take. split; [|split; [|done]].
  - etrans; [symmetry; apply (str_take_drop (len ProviderIDPrefix))|]. f_equal.
    exact (str_split_at k parts slash E).
  - destruct k; [done|]. destruct parts; [done|]. done.
Qed.

(** C33: [parseProviderID] accepts exactly the strings of the form prefix,
    namespace, slash, name with a non-empty namespace without slashes, where the
    prefix is any text of the length of "b7://", and gives back the two parts. *)
Theorem parseProviderID_spec id ns name :
  parseProviderID id = Ok (ns, name) <->
  exists pre, len pre = len "b7://" /\ id = pre +:+ ns +:+ "/" +:+ name /\
    ns <> "" /\ 47 ∉ bytes ns.
Proof. split; [apply parse_sound|]. intros (pre & ? & -> & ? & ?). by apply parse_complete. Qed.

(** Round trip: parsing the provider ID of a host gives its namespace and
    name back, for every non-empty namespace without slashes. *)
Theorem providerID_roundtrip ns name :
  ns <> "" -> 47 ∉ bytes ns -> parseProviderID (providerID ns name) = Ok (ns, name).
Proof. by apply parse_complete. Qed.

Lemma providerID_roundtrip_witness :
  parseProviderID (providerID "default" "h1") = Ok ("default", "h1").
Proof. apply providerID_roundtrip; [discriminate|]. apply (bool_decide_unpack _). vm_compute. exact I. Defined.

(** ** Properties: hardware requirements *)

Fixpoint sum (l : list Z) : Z := match l with [] => 0 | x :: l' => x + sum l' end.

(** No overflow: non-negative amounts whose sum fits the machine integer. *)
Definition fits (l : list Z) : Prop := Forall (fun x => 0 <= x) l /\ sum l <= int64_max.

Lemma sum_nonneg l : Forall (fun x => 0 <= x) l -> 0 <= sum l.
Proof. induction 1; simpl; lia. Qed.

Lemma fold_add64 {A} (f : A -> Z) l t :
  0 <= t -> Forall (fun x => 0 <= x) (f <$> l) -> t + sum (f <$> l) <= int64_max ->
  fold_left (fun t x => add64 t (f x)) l t = t + sum (f <$> l).
Proof.
  revert t. induction l as [|x l IH]; intros t Ht Hl Hs; [simpl; lia|].
  rewrite fmap_cons in *. cbn [sum fold_left] in *.
  apply Forall_cons in Hl as [Hx Hl]. pose proof (sum_nonneg _ Hl).
  rewrite add64_small by (unfold int64_min; lia). rewrite IH by (done || lia). lia.
Qed.

(** The capacities that parse, in gigabytes as far as the code is concerned. *)
Definition capacities (l : list MemoryInfo) : list Z := omap (fun m => Sscanf_d (mem_Capacity m)) l.

Lemma total_memory_sum l t :
  0 <= t -> Forall (fun x => 0 <= x) (capacities l) -> t + sum (capacities l) <= int64_max ->
  total_memory t l = t + sum (capacities l).
Proof.
  revert t. induction l as [|m l IH]; intros t Ht Hl Hs; simpl in *; [lia|].
  destruct (Sscanf_d (mem_Capacity m)) as [z|]; [|by apply IH]. simpl in *.
  apply Forall_cons in Hl as [Hx Hl]. pose proof (sum_nonneg _ Hl).
  rewrite add64_small by (unfold int64_min; lia). rewrite IH by (done || lia). lia.
Qed.

Lemma under_requirement r t : (0 <? r) && (t <? r) = false <-> r <= 0 \/ r <= t.
Proof. destruct (Z.ltb_spec 0 r), (Z.ltb_spec t r); simpl; split; intros; try done; lia. Qed.

(** No total of the report overflows. *)
Definition totals_fit (report : InspectionReport) : Prop :=
  fits (cpu_Cores <$> ir_CPUs report) /\ fits (capacities (ir_Memory report)) /\
  fits (disk_SizeGB <$> ir_Disks report).

Lemma check_requirements_totals reqs report :
  totals_fit report ->
  check_requirements reqs report = None <->
  (hr_MinCPUCores reqs <= 0 \/ hr_MinCPUCores reqs <= sum (cpu_Cores <$> ir_CPUs report)) /\
  (hr_MinMemoryGB reqs <= 0 \/ hr_MinMemoryGB reqs <= sum (capacities (ir_Memory report))) /\
  (hr_MinDiskGB reqs <= 0 \/ hr_MinDiskGB reqs <= sum (disk_SizeGB <$> ir_Disks report)).
Proof.
  intros ([??] & [??] & [??]). unfold check_requirements, total_cores, total_disk.
  rewrite !fold_add64, total_memory_sum by (done || lia). rewrite !Z.add_0_l, <- !under_requirement.
  destruct (_ && _); [split; [done|by intros [[=] _]]|].
  destruct (_ && _); [split; [done|by intros [_ [[=] _]]]|].
  destruct (_ && _); [split; [done|by intros [_ [_ [=]]]]|]. done.
Qed.

(** C16: a report passes exactly when the total number of cores, the total of the
    memory capacities that can be read and the total disk size each reach the
    required minimum, a minimum of zero or less requiring nothing; provided the
    amounts are not negative and their totals fit a machine integer. *)
Theorem check_requirements_spec reqs report :
  fits (cpu_Cores <$> ir_CPUs report) -> fits (capacities (ir_Memory report)) ->
  fits (disk_SizeGB <$> ir_Disks report) ->
  check_requirements reqs report = None <->
  (hr_MinCPUCores reqs <= 0 \/ hr_MinCPUCores reqs <= sum (cpu_Cores <$> ir_CPUs report)) /\
  (hr_MinMemoryGB reqs <= 0 \/ hr_MinMemoryGB reqs <= sum (capacities (ir_Memory report))) /\
  (hr_MinDiskGB reqs <= 0 \/ hr_MinDiskGB reqs <= sum (disk_SizeGB <$> ir_Disks report)).
Proof. intros. by apply check_requirements_totals. Qed.

Definition sample_report : InspectionReport :=
  {| ir_Timestamp := 0; ir_Manufacturer := ""; ir_Model := ""; ir_SerialNumber := "";
     ir_BootModeDetected := ""; ir_FirmwareVersion := "";
     ir_CPUs := [{| cpu_ID := "0"; cpu_Vendor := ""; cpu_Model := ""; cpu_Cores := 8; cpu_Threads := 16;
                    cpu_Frequency := "" |}];
     ir_Memory := [{| mem_ID := "0"; mem_Type := ""; mem_Capacity := "16GB"; mem_Speed := "" |};
                   {| mem_ID := "1"; mem_Type := ""; mem_Capacity := "16GB"; mem_Speed := "" |}];
     ir_Disks := []; ir_NICs := [] |}.

Lemma check_requirements_spec_witness :
  check_requirements {| hr_MinCPUCores := 4; hr_MinMemoryGB := 32; hr_MinDiskGB := 0 |} sample_report = None.
Proof.
  apply check_requirements_spec; try (split; [vm_compute; repeat constructor; discriminate|vm_compute; discriminate]).
  vm_compute. split; [right; discriminate|split; [right; discriminate|left; discriminate]].
Defined.

(** The unit of a memory capacity is not looked at: a module of one
    terabyte counts as one gigabyte, and one of 32768 megabytes as 32768. *)
Theorem memory_units_ignored :
  total_memory 0 [{| mem_ID := ""; mem_Type := ""; mem_Capacity := "1TB"; mem_Speed := "" |}] = 1 /\
  total_memory 0 [{| mem_ID := ""; mem_Type := ""; mem_Capacity := "32768MB"; mem_Speed := "" |}] = 32768.
Proof. vm_compute. done. Qed.

(** ** Properties: the reconciler *)

Section MachineProperties.
  Context {L : Lib} {LL : LibLaws L}.

(** The event that gives the reconciliation its patch helper. *)
Definition helper_created (e : event Env) : bool :=
  match e with
  | Ev a r =>
      match a return capi_answer a -> bool with
      | ANewMachineHelper _ => fun r => is_ok r
      | _ => fun _ => false
      end r
  end.

(** Once the patch helper exists, a reconciliation of a machine ends by
    patching the machine, with the object as it was read and as it is then; on
    every path, also when a handler panics. *)
Theorem machine_always_patched f req :
  post (machine_Reconcile f req) (fun tr _ =>
    existsb helper_created tr = false \/
    exists m m' u, @Ev Env (AGetMachine req) (Ok m) ∈ tr /\
      last tr = Some (@Ev Env (APatchMachine m m') u)).
Proof.
  unfold machine_Reconcile. repeat wp_step; try done.
  all: try by left.
  eapply wp_seq with (Q := fun tr _ => exists m m' u, @Ev Env (AGetMachine req) (Ok m) ∈ tr /\
      last tr = Some (@Ev Env (APatchMachine m m') u)).
  2: { intros tr' [] _ ?. apply wp_ret. by right. }
  unfold with_defer. eapply wp_seq; [by apply wp_always|]. intros tr' [m' x] Htr _.
  unfold deferred_patch. repeat wp_step; try done.
  all: eexists _, _, _; rewrite last_snoc; split; [|done]; apply ev_app_l; eapply ev_prefix; [done|]; by left.
Qed.

(** What a reconciliation must have established before it acts on a host. *)
Definition may_act (req : NamespacedName) (tr : list (event Env)) : Prop :=
  exists m owner cluster,
    @Ev Env (AGetMachine req) (Ok m) ∈ tr /\ HasPaused (bm_Meta m) = false /\
    @Ev Env (AGetOwnerMachine (bm_Meta m)) (Ok (Some owner)) ∈ tr /\
    @Ev Env (AGetClusterFromMetadata (m_Meta owner)) (Ok cluster) ∈ tr /\ isClusterPaused cluster = false.

Lemma may_act_prefix req tr tr' : tr `prefix_of` tr' -> may_act req tr -> may_act req tr'.
Proof.
  intros Htr (m & owner & cl & ? & ? & ? & ? & ?). exists m, owner, cl. split_and!; eauto using ev_prefix.
Qed.

(** A paused machine, a machine without an owner and a machine of a paused
    cluster are left alone: no host, secret or BMC is touched and nothing is
    patched before these conditions have been checked. *)
Theorem paused_machine_left_alone f req :
  safe (fun tr (a : action Env) =>
          match a with
          | AGetMachine _ | AGetOwnerMachine _ | AGetClusterFromMetadata _ => True
          | _ => may_act req tr
          end) [] (machine_Reconcile f req).
Proof.
  unfold safe, machine_Reconcile. repeat wp_step; try done.
  all: match goal with |- may_act _ ?tr => idtac | |- wp _ (?tr ++ _) _ _ =>
    enough (may_act req tr) by (apply wp_always; intros tr' [] ?; try done;
      (eapply may_act_prefix; [etrans; [|eassumption]; by apply prefix_app_r|done])) end.
  all: eexists _, _, _; split_and!; eauto with go.
Qed.

(** Lists and updates of hosts. *)
Definition claim_calls (tr : list (event Env)) (a : action Env) : Prop :=
  match a with AListHosts _ | AUpdateHost _ => True | _ => False end.

(** Without a host, with a fresh claim, or with an error. *)
Definition no_associated_host (x : option PhysicalHost * Result * option error) : Prop :=
  x.1.1 = None \/ x.1.2 = AfterResult (5 * Second) \/ is_Some x.2.

Lemma claim_loop_requeues tr m items :
  wp claim_calls tr (claim_loop m items) (fun _ => no_associated_host).
Proof.
  unfold no_associated_host. induction items as [|h items IH]; cbn [claim_loop]; repeat wp_step; simpl; auto.
Qed.

(** C39: a machine whose provider ID is not set makes no progress beyond claiming:
    the reconciliation neither sets the provider ID nor marks the machine ready
    nor changes its phase, never talks to a BMC and never looks at the state of
    the host it has claimed, whatever the environment answers. *)
Theorem unset_provider_makes_no_progress f m :
  ms_ProviderID (bm_Spec m) = None ->
  wp claim_calls [] (machine_reconcileNormal f m)
     (fun _ '(m', x) =>
        ms_ProviderID (bm_Spec m') = None /\ mst_Ready (bm_Status m') = mst_Ready (bm_Status m) /\
        mst_Phase (bm_Status m') = mst_Phase (bm_Status m) /\ (forall msg, x <> Panic msg)).
Proof.
  intros Hp. unfold machine_reconcileNormal. repeat wp_step; [done|].
  eapply wp_seq with (Q := fun _ => no_associated_host).
  - unfold findAndClaimOrGetAssociatedHost, findAvailableHost. cbn [set_bm_Meta bm_Spec]. rewrite Hp.
    repeat wp_step; [done|apply claim_loop_requeues|]. by left.
  - intros tr' [[h res] e] _ Hx. repeat wp_step; try done.
    destruct Hx as [|[Hr|[]]]; simpl in *; try done. by rewrite Hr in *.
Qed.

(** *** Clients *)

Lemma claim_loop_offline tr m items : safe offline tr (claim_loop m items).
Proof. unfold safe. induction items as [|h items IH]; cbn [claim_loop]; repeat wp_step; done. Qed.

Lemma findAndClaim_offline tr m : safe offline tr (findAndClaimOrGetAssociatedHost m).
Proof.
  unfold safe, findAndClaimOrGetAssociatedHost, findAvailableHost.
  repeat wp_step; try done; apply claim_loop_offline.
Qed.

Lemma machine_reconcileDelete_offline tr m : safe offline tr (machine_reconcileDelete m).
Proof. unfold safe, machine_reconcileDelete, release_host. wp_steps; done. Qed.

Lemma handleInspectingHost_offline tr ph m : safe offline tr (handleInspectingHost ph m).
Proof.
  unfold safe, handleInspectingHost, handleInspectingHost_rest, validateInspectionReport. wp_steps; done.
Qed.

(** The client discipline, and the only power state ever asked for is On. *)
Definition machine_calls (tr : list (event Env)) (a : action Env) : Prop :=
  disciplined tr a /\ match a with ARfSetPowerState _ state => state = OnPowerState | _ => True end.

Lemma offline_machine_calls tr a : offline tr a -> machine_calls tr a.
Proof. by destruct a. Qed.

Lemma triggerInspection_disciplined tr f ph m :
  idle tr -> wp machine_calls tr (triggerInspection f ph m) (fun tr' _ => idle tr').
Proof.
  intros Hi. unfold triggerInspection, getRedfishClientForHost, with_defer, triggerInspection_connected.
  wp_steps; first [split; [clients|done] | clients].
Qed.

Lemma machine_reconcileNormal_disciplined tr f m :
  idle tr -> wp machine_calls tr (machine_reconcileNormal f m) (fun tr' _ => idle tr').
Proof.
  intros Hi. unfold machine_reconcileNormal. repeat wp_step; [done|].
  eapply wp_seq; [apply wp_offline; [apply offline_machine_calls|apply findAndClaim_offline|done]|].
  intros tr' [[h res] e] _ Hi'.
  repeat wp_step; try done. unfold handlePhysicalHostState, handleReadyHost. repeat wp_step; try done.
  - apply wp_offline; [apply offline_machine_calls|apply handleInspectingHost_offline|done].
  - by apply triggerInspection_disciplined.
Qed.

(** A reconciliation of a machine follows the client discipline, switches no
    system off, and leaves no client open. *)
Lemma machine_Reconcile_disciplined f req :
  wp machine_calls [] (machine_Reconcile f req) (fun tr _ => idle tr).
Proof.
  unfold machine_Reconcile. repeat wp_step; try (clients || by split).
  eapply wp_seq with (Q := fun tr _ => idle tr); [|by intros ? [] ? ?; apply wp_ret].
  unfold with_defer. eapply wp_seq with (Q := fun tr _ => idle tr).
  - destruct (om_DeletionTimestamp _).
    + apply wp_offline; [apply offline_machine_calls|apply machine_reconcileDelete_offline|clients].
    + apply machine_reconcileNormal_disciplined. clients.
  - intros tr' [m' x] _ Hi. unfold deferred_patch. repeat wp_step; first [by split | clients].
Qed.

End MachineProperties.

Lemma unset_provider_makes_no_progress_witness :
  wp claim_calls [] (@machine_reconcileNormal ref_lib Func (sample_machine "m1" [Beskar7MachineFinalizer] None None))
     (fun _ '(m', x) =>
        ms_ProviderID (bm_Spec m') = None /\ mst_Ready (bm_Status m') = false /\
        mst_Phase (bm_Status m') = None /\ (forall msg, x <> Panic msg)).
Proof. apply (unset_provider_makes_no_progress Func (sample_machine "m1" [Beskar7MachineFinalizer] None None)). reflexivity. Defined.

(** ** Properties: handlers *)

Section HandlerProperties.
  Context {L : Lib} {LL : LibLaws L}.

(** The machine claims the first host of the list that is Available and has
    no consumer, by one update that sets only its consumer reference; without
    such a host it changes nothing. *)
Theorem claims_first_claimable m items :
  claim_loop m items =
  match list_find (fun h => ph_State h = StateAvailable /\ ph_Consumer h = None) items with
  | None => Ret (None, NoResult, None)
  | Some (_, h) =>
      let! u := @call Env (AUpdateHost (set_ph_Spec (set_pspec_ConsumerRef (Some (claim_ref m)) (ph_Spec h)) h)) in
      match u with
      | Err err => Ret (None, NoResult, Some err)
      | Ok h' => Ret (Some h', AfterResult (5 * Second), None)
      end
  end.
Proof.
  induction items as [|h items IH]; [done|]. cbn [claim_loop list_find].
  assert (Hc : claimable h = bool_decide (ph_State h = StateAvailable /\ ph_Consumer h = None)).
  { unfold claimable. apply Bool.eq_iff_eq_true. rewrite bool_decide_eq_true, andb_true_iff, eqb_true.
    destruct (ph_Consumer h); naive_solver. }
  rewrite Hc. case_bool_decide; [by rewrite decide_True|rewrite decide_False by done].
  rewrite IH. destruct (list_find _ items) as [[i h']|]; done.
Qed.

(** A machine whose host is Ready is provisioned: its provider ID names the
    host, it takes over the host's addresses if there are any, its
    infrastructure condition is True, and it is ready; nothing is called. *)
Theorem ready_host_provisions f ph m :
  ph_State ph = StateReady ->
  exists m', handlePhysicalHostState f ph m = Ret (m', Done (NoResult, None)) /\
    ms_ProviderID (bm_Spec m') = Some (providerID (ph_Namespace ph) (ph_Name ph)) /\
    mst_Ready (bm_Status m') = true /\ mst_Phase (bm_Status m') = Some "Provisioned" /\
    mst_Addresses (bm_Status m') =
      match pst_Addresses (ph_Status ph) with [] => mst_Addresses (bm_Status m) | l => l end /\
    cond_status (mst_Conditions (bm_Status m')) InfrastructureReadyCondition = Some "True".
Proof.
  intros E. unfold handlePhysicalHostState. rewrite E. cbn [String.eqb]. eexists. split; [reflexivity|].
  split.
  - destruct (ms_ProviderID (bm_Spec m)) as [p|] eqn:Ep; [|by destruct (_ <? _)%nat].
    destruct (String.eqb_spec p (providerID (ph_Namespace ph) (ph_Name ph))) as [->|];
      destruct (_ <? _)%nat; cbn; congruence.
  - split; [done|]. split; [done|]. split; [|apply MarkTrue_self].
    destruct (pst_Addresses (ph_Status ph)); cbn; [|done].
    destruct (ms_ProviderID (bm_Spec m)); [destruct (negb _)|]; done.
Qed.

(** The hosts whose status was written. *)
Definition status_writes (tr : list (event Env)) : list PhysicalHost :=
  tr ≫= fun e : event Env => match ev_action e with AUpdateHostStatus h => [h] | _ => [] end.

(** [h] is [ph] with state, phase, message and conditions replaced. *)
Definition restated (ph : PhysicalHost) (state phase message : string) (cs : Conditions) (h : PhysicalHost) : Prop :=
  ph_Type h = ph_Type ph /\ ph_Meta h = ph_Meta ph /\ ph_Spec h = ph_Spec ph /\
  ph_Status h =
    {| pst_Ready := pst_Ready (ph_Status ph); pst_State := state;
       pst_ObservedPowerState := pst_ObservedPowerState (ph_Status ph); pst_ErrorMessage := message;
       pst_HardwareDetails := pst_HardwareDetails (ph_Status ph); pst_Addresses := pst_Addresses (ph_Status ph);
       pst_InspectionReport := pst_InspectionReport (ph_Status ph); pst_InspectionPhase := phase;
       pst_InspectionTimestamp := pst_InspectionTimestamp (ph_Status ph); pst_Conditions := cs |}.

(** The report meets what the machine asks for. *)
Definition meets (m : Beskar7Machine) (report : InspectionReport) : Prop :=
  forall reqs, ms_HardwareRequirements (bm_Spec m) = Some reqs ->
    (hr_MinCPUCores reqs <= 0 \/ hr_MinCPUCores reqs <= sum (cpu_Cores <$> ir_CPUs report)) /\
    (hr_MinMemoryGB reqs <= 0 \/ hr_MinMemoryGB reqs <= sum (capacities (ir_Memory report))) /\
    (hr_MinDiskGB reqs <= 0 \/ hr_MinDiskGB reqs <= sum (disk_SizeGB <$> ir_Disks report)).

(** Inspection of the host has not timed out by the clock read in [tr]; one
    without a start time does not time out. *)
Definition in_time (ph : PhysicalHost) (tr : list (event Env)) : Prop :=
  pst_InspectionTimestamp (ph_Status ph) = None \/
  exists started now, pst_InspectionTimestamp (ph_Status ph) = Some started /\ @Ev Env ANow now ∈ tr /\
    time_sub now started <= 10 * Minute.

(** What the machine controller makes of a host under inspection: the status it
    writes and the result it returns. *)
Inductive judged (ph : PhysicalHost) (m : Beskar7Machine) (tr : list (event Env))
  : Beskar7Machine * exit reconcile_result -> Prop :=
| judged_late started now h :
    pst_InspectionTimestamp (ph_Status ph) = Some started -> @Ev Env ANow now ∈ tr ->
    10 * Minute < time_sub now started ->
    restated ph "Error" "Timeout" ("Inspection timeout after " +:+ Duration_String (time_sub now started))
      (pst_Conditions (ph_Status ph)) h ->
    status_writes tr = [h] ->
    judged ph m tr (m, Done (NoResult, Some (ErrNew "inspection timeout")))
| judged_waiting m' :
    in_time ph tr -> pst_InspectionPhase (ph_Status ph) <> "Complete" -> status_writes tr = [] ->
    mst_Phase (bm_Status m') = Some "Inspecting" -> bm_Spec m' = bm_Spec m ->
    judged ph m tr (m', Done (AfterResult (30 * Second), None))
| judged_unreported :
    in_time ph tr -> pst_InspectionPhase (ph_Status ph) = "Complete" ->
    pst_InspectionReport (ph_Status ph) = None -> status_writes tr = [] ->
    judged ph m tr (m, Done (AfterResult (10 * Second), None))
| judged_refused report e :
    in_time ph tr -> pst_InspectionPhase (ph_Status ph) = "Complete" ->
    pst_InspectionReport (ph_Status ph) = Some report -> ~ meets m report -> status_writes tr = [] ->
    judged ph m tr (m, Done (NoResult, Some e))
| judged_ready report cs h x :
    in_time ph tr -> pst_InspectionPhase (ph_Status ph) = "Complete" ->
    pst_InspectionReport (ph_Status ph) = Some report -> meets m report ->
    restated ph "Ready" "Complete" (pst_ErrorMessage (ph_Status ph)) cs h ->
    cond_status cs "HostInspected" = Some "True" ->
    (forall t, t <> "HostInspected" -> cond_status cs t = cond_status (pst_Conditions (ph_Status ph)) t) ->
    status_writes tr = [h] ->
    (x = (RequeueResult, None) \/ exists e, @Ev Env (AUpdateHostStatus h) (Err e) ∈ tr /\ x = (NoResult, Some e)) ->
    judged ph m tr (m, Done x).

Lemma meets_check m report :
  totals_fit report ->
  match ms_HardwareRequirements (bm_Spec m) with Some reqs => check_requirements reqs report | None => None end = None <->
  meets m report.
Proof.
  intros Hf. unfold meets. destruct (ms_HardwareRequirements (bm_Spec m)) as [reqs|]; [|done].
  rewrite check_requirements_totals by done. split; [by intros H ? [= <-]|]. intros H. by apply H.
Qed.

Lemma validate_judged ph m tr0 :
  (forall report, pst_InspectionReport (ph_Status ph) = Some report -> totals_fit report) ->
  in_time ph tr0 -> status_writes tr0 = [] -> 
  wp (fun _ _ => True) tr0 (handleInspectingHost_rest ph m) (judged ph m).
Proof.
  intros Hf Ht Hw.
  assert (forall e, status_writes (tr0 ++ [e]) = status_writes [e]) as Hw1.
  { intros e. unfold status_writes in *. by rewrite bind_app, Hw. }
  assert (forall tr', in_time ph (tr0 ++ tr')) as Ht1.
  { intros tr'. destruct Ht as [?|(s & n & ? & ? & ?)]; [by left|]. right. exists s, n. split_and!; [done| |done]. set_solver. }
  unfold handleInspectingHost_rest, validateInspectionReport.
  destruct (String.eqb_spec (pst_InspectionPhase (ph_Status ph)) InspectionPhaseComplete) as [Ep|Ep]; cycle 1.
  { apply wp_ret. by apply judged_waiting. }
  destruct (pst_InspectionReport (ph_Status ph)) as [report|] eqn:Er; [|by apply wp_ret, judged_unreported].
  destruct (match ms_HardwareRequirements (bm_Spec m) with Some reqs => check_requirements reqs report | None => None end)
    as [err|] eqn:Ec.
  { apply wp_ret. eapply judged_refused; try done. rewrite <- meets_check by by apply Hf. congruence. }
  apply meets_check in Ec; [|by apply Hf].
  assert (forall tr' x, status_writes (tr0 ++ tr') = [ready_host ph] ->
    (x = (RequeueResult, None) \/ exists e, @Ev Env (AUpdateHostStatus (ready_host ph)) (Err e) ∈ tr0 ++ tr' /\ x = (NoResult, Some e)) ->
    judged ph m (tr0 ++ tr') (m, Done x)) as Hready.
  { intros tr' x Hs Hx. eapply (judged_ready _ _ _ report (MarkTrue (pst_Conditions (ph_Status ph)) "HostInspected") (ready_host ph));
      try done; [|apply MarkTrue_self|intros t ?; by apply MarkTrue_other].
    split_and!; try done. cbn. unfold InspectionPhaseComplete in Ep. destruct (ph_Status ph); cbn in *; by subst. }
  apply wp_call; [done|]. intros [?|err]; apply wp_ret, Hready; rewrite ?Hw1; try done; [by left|].
  right. exists err. split; [set_solver|done].
Qed.

(** C15: the verdict on a host under inspection.  More than ten minutes after
    inspection started it is written in state Error, with phase Timeout and a
    message, however far inspection has got.  Otherwise it is not written until
    its report has arrived; then it becomes Ready, with the condition
    HostInspected, if the report meets the machine's requirements, and stays as
    it is, with an error returned, if it does not. *)
Theorem inspection_verdict ph m :
  (forall report, pst_InspectionReport (ph_Status ph) = Some report -> totals_fit report) ->
  post (handleInspectingHost ph m) (judged ph m).
Proof.
  intros Hf. unfold handleInspectingHost. destruct (pst_InspectionTimestamp (ph_Status ph)) as [started|] eqn:Et; cycle 1.
  { apply validate_judged; [done|by left|done]. }
  apply wp_call; [done|]. intros now. cbn [app]. rewrite Z.gtb_ltb.
  destruct (Z.ltb_spec DefaultInspectionTimeout (time_sub now started)) as [Hl|Hl].
  - apply wp_call; [done|]. intros u. apply wp_ret. eapply (judged_late _ _ _ started now (timed_out_host ph (time_sub now started))); [done|set_solver|exact Hl|by split_and!|done].
  - apply validate_judged; [done| |done]. right. exists started, now. split_and!; [done|set_solver|done].
Qed.

(** A failed update of a host. *)
Definition update_failed (e : event Env) : bool :=
  match e with
  | Ev a r =>
      match a return capi_answer a -> bool with
      | AUpdateHost _ => fun r => negb (is_ok r)
      | _ => fun _ => false
      end r
  end.


(** A machine and a host of another namespace, claimed by the machine of the
    same name there. *)
Definition foreign_ref : ObjectReference :=
  {| or_Kind := "Beskar7Machine"; or_APIVersion := "v1beta1"; or_Name := "m1"; or_Namespace := "tenant-b";
     or_UID := "uid-other" |}.
Definition foreign_host : PhysicalHost :=
  set_ph_Spec (set_pspec_ConsumerRef (Some foreign_ref) (ph_Spec (sample_host "h1" "https://bmc1" [])))
    (sample_host "h1" "https://bmc1" []).
Definition deleted_machine : Beskar7Machine :=
  sample_machine "m1" [Beskar7MachineFinalizer] (Some "b7://tenant-b/h1") (Some 1).

(** The release compares only the name of the consumer reference: deleting a
    machine can release a host that a machine of the same name in another
    namespace, with another UID, has claimed. *)
Theorem release_ignores_namespace :
  exists m h ref, ph_Consumer h = Some ref /\ or_Namespace ref <> bm_Namespace m /\
    or_UID ref <> om_UID (bm_Meta m) /\
    match release_host m with
    | Act (AGetHost k) cont => k = {| nn_Namespace := or_Namespace ref; nn_Name := ph_Name h |} /\
        exists k', cont (Ok h) = @Act Env _ (AUpdateHost (released_host h)) k'
    | _ => False
    end.
Proof.
  exists deleted_machine, foreign_host, foreign_ref. repeat split; try done.
  eexists. reflexivity.
Qed.
End HandlerProperties.

Lemma ready_host_provisions_witness :
  exists m', @handlePhysicalHostState ref_lib Func
      (ph_upd_Status (set_pst_State StateReady) (sample_host "h1" "https://bmc1" []))
      (sample_machine "m1" [] None None) = Ret (m', Done (NoResult, None)) /\
    ms_ProviderID (bm_Spec m') = Some "b7://default/h1" /\ mst_Ready (bm_Status m') = true /\
    mst_Phase (bm_Status m') = Some "Provisioned" /\ mst_Addresses (bm_Status m') = [] /\
    cond_status (mst_Conditions (bm_Status m')) InfrastructureReadyCondition = Some "True".
Proof.
  apply (ready_host_provisions Func (ph_upd_Status (set_pst_State StateReady) (sample_host "h1" "https://bmc1" []))).
  reflexivity.
Defined.

(** A host whose report has arrived. *)
Definition awaiting_verdict : PhysicalHost :=
  ph_upd_Status (fun st => set_pst_InspectionPhase "Complete" (set_pst_InspectionReport (Some sample_report)
    (set_pst_InspectionTimestamp (Some 0) st))) (sample_host "h1" "https://bmc1" []).

Lemma inspection_verdict_witness :
  post (@handleInspectingHost ref_lib awaiting_verdict (sample_machine "m1" [] None None))
    (judged awaiting_verdict (sample_machine "m1" [] None None)).
Proof.
  apply inspection_verdict. intros report [= <-].
  split_and!; (split; [vm_compute; repeat constructor; discriminate|vm_compute; discriminate]).
Defined.

