(* ===== verification/GofishClient.v ===== *)
(** * internal/redfish/gofish_client.go

    The Redfish client the controllers use, on top of the gofish library.  The
    library's calls are the actions of the signature [Gofish]; [gofish_env]
    implements the Redfish part of the controllers' environment by them, so
    that what is known of the controllers can be carried over to the calls
    that reach a BMC. *)

From S2P Require Import Prelude GoText GoFmt Api Lib GoUrl Prog Actions Redfish HostController MachineController.
From Stdlib Require Import Ascii.

(** ** The library's data, as far as the client uses it *)

Record ComputerSystem := {
  sys_ID : string; sys_Manufacturer : string; sys_Model : string; sys_SerialNumber : string;
  sys_Status : HardwareStatus; sys_PowerState : string
}.
Record IPv4Address := { v4_Address : string; v4_Gateway : string }.
Record IPv6Address := { v6_Address : string }.
Record EthernetInterface := {
  eth_Name : string; eth_MACAddress : string; eth_IPv4Addresses : list IPv4Address;
  eth_IPv6Addresses : list IPv6Address; eth_IPv6DefaultGateway : string
}.
Record NetworkInterface := { ni_ID : string; ni_Name : string }.
Record NetworkPort := { np_ID : string; np_PhysicalPortNumber : string }.
Record NetworkDeviceFunction := { ndf_ID : string; ndf_MACAddress : string }.

Record ClientConfig := {
  cfg_Endpoint : string; cfg_Username : string; cfg_Password : string; cfg_Insecure : bool;
  cfg_BasicAuth : bool
}.
Record Boot := { BootSourceOverrideTarget : string; BootSourceOverrideEnabled : string }.

(** Power states and reset types of the Redfish standard. *)
Definition OffPowerState := "Off".
Definition OnResetType := "On".
Definition ForceOffResetType := "ForceOff".
Definition GracefulShutdownResetType := "GracefulShutdown".
Definition GracefulRestartResetType := "GracefulRestart".
Definition ForceRestartResetType := "ForceRestart".
Definition NmiResetType := "Nmi".
Definition ForceOnResetType := "ForceOn".
Definition PushPowerButtonResetType := "PushPowerButton".
Definition PowerCycleResetType := "PowerCycle".
Definition PxeBootSourceOverrideTarget := "Pxe".
Definition OnceBootSourceOverrideEnabled := "Once".

(** A connection of the library ([*gofish.APIClient]). *)
Abbreviation conn := nat.

Inductive gofish_action :=
| GConnectContext (cfg : ClientConfig)
| GLogout (c : conn)
| GSystems (c : conn)
| GReset (c : conn) (s : ComputerSystem) (t : string)
| GSetBoot (c : conn) (s : ComputerSystem) (b : Boot)
| GEthernetInterfaces (c : conn) (s : ComputerSystem)
| GNetworkInterfaces (c : conn) (s : ComputerSystem)
| GNetworkPorts (c : conn) (n : NetworkInterface)
| GNetworkDeviceFunctions (c : conn) (n : NetworkInterface)
(** any call of the controllers to something other than a BMC *)
| GOther (a : capi_action).

Definition gofish_answer (a : gofish_action) : Type :=
  match a with
  | GConnectContext _ => result conn
  | GLogout _ => unit
  | GSystems _ => result (list ComputerSystem)
  | GReset _ _ _ => result unit
  | GSetBoot _ _ _ => result unit
  | GEthernetInterfaces _ _ => result (list EthernetInterface)
  | GNetworkInterfaces _ _ => result (list NetworkInterface)
  | GNetworkPorts _ _ => result (list NetworkPort)
  | GNetworkDeviceFunctions _ _ => result (list NetworkDeviceFunction)
  | GOther a => capi_answer a
  end.

Definition Gofish : sig := {| action := gofish_action; answer := gofish_answer |}.

(** ** The client *)

Record gofishClient := { gc_client : option conn; gc_apiEndpoint : string }.

(** The client objects that have been created, by handle. *)
Abbreviation clients := (gmap rf_handle gofishClient).

Section Client.
  Context {L : Lib}.

(** The address as the library gets it. *)
Definition endpoint_url (address : string) : result string :=
  let parsed :=
    match Parse address with
    | Ok u => Ok u
    | Err _ =>
        match Parse ("https://" +:+ address) with
        | Ok u => Ok u
        | Err err => Err (ErrWrap ("invalid Redfish address format: " +:+ address) err)
        end
    end in
  match parsed with
  | Err err => Err err
  | Ok u => Ok (URL_String (if u_Scheme u ==s "" then set_u_Scheme "https" u else u))
  end.

Definition NewClient (address username password : string) (insecure : bool) : prog Gofish (result gofishClient) :=
  match endpoint_url address with
  | Err err => Ret (Err err)
  | Ok endpointURL =>
      let! c := @call Gofish (GConnectContext
        {| cfg_Endpoint := endpointURL; cfg_Username := username; cfg_Password := password;
           cfg_Insecure := insecure; cfg_BasicAuth := true |}) in
      match c with
      | Err err => Ret (Err (ErrWrap ("failed to connect to Redfish endpoint " +:+ endpointURL) err))
      | Ok c => Ret (Ok {| gc_client := Some c; gc_apiEndpoint := endpointURL |})
      end
  end.

(** The HTTP client argument is ignored. *)
Definition NewClientWithHTTPClient {H : Type} (address username password : string) (insecure : bool) (_ : H)
  : prog Gofish (result gofishClient) :=
  NewClient address username password insecure.

Definition Close (c : gofishClient) : prog Gofish gofishClient :=
  match gc_client c with
  | Some k =>
      @call Gofish (GLogout k) ;;!
      Ret {| gc_client := None; gc_apiEndpoint := gc_apiEndpoint c |}
  | None => Ret c
  end.

(** The first system of the service and the connection it was read on. *)
Definition getSystemService (c : gofishClient) : prog Gofish (result (conn * ComputerSystem)) :=
  match gc_client c with
  | None => Ret (Err (ErrNew "redfish client is not connected"))
  | Some k =>
      let! systems := @call Gofish (GSystems k) in
      match systems with
      | Err err => Ret (Err (ErrWrap "failed to retrieve systems" err))
      | Ok [] => Ret (Err (ErrNew "no systems found"))
      | Ok (s :: _) => Ret (Ok (k, s))
      end
  end.

Definition GetSystemInfo (c : gofishClient) : prog Gofish (result SystemInfo) :=
  let! system := getSystemService c in
  match system with
  | Err err => Ret (Err err)
  | Ok (_, s) =>
      Ret (Ok {| si_Manufacturer := sys_Manufacturer s; si_Model := sys_Model s;
                 si_SerialNumber := sys_SerialNumber s; si_Status := sys_Status s |})
  end.

Definition GetPowerState (c : gofishClient) : prog Gofish (result string) :=
  let! system := getSystemService c in
  match system with
  | Err err => Ret (Err (ErrWrap "failed to get system for power state check" err))
  | Ok (_, s) => Ret (Ok (sys_PowerState s))
  end.

(** The reset type for a requested power state. *)
Definition reset_type (state : string) : option string :=
  if state ==s OnPowerState then Some OnResetType
  else if state ==s OffPowerState then Some ForceOffResetType
  else if existsb (fun t => state ==s t)
            [OnResetType; ForceOffResetType; GracefulShutdownResetType; GracefulRestartResetType;
             ForceRestartResetType; NmiResetType; ForceOnResetType; PushPowerButtonResetType;
             PowerCycleResetType]
  then Some state
  else None.

Definition SetPowerState (c : gofishClient) (state : string) : prog Gofish (result unit) :=
  let! system := getSystemService c in
  match system with
  | Err err => Ret (Err (ErrWrap "failed to get system for setting power state" err))
  | Ok (k, s) =>
      match reset_type state with
      | None => Ret (Err (ErrNew ("unsupported power state or reset type for SetPowerState: " +:+ state)))
      | Some t =>
          let! r := @call Gofish (GReset k s t) in
          match r with
          | Err err => Ret (Err (ErrWrap ("failed to set power state to " +:+ state) err))
          | Ok _ => Ret (Ok tt)
          end
      end
  end.

Definition pxe_once : Boot :=
  {| BootSourceOverrideTarget := PxeBootSourceOverrideTarget;
     BootSourceOverrideEnabled := OnceBootSourceOverrideEnabled |}.

Definition SetBootSourcePXE (c : gofishClient) : prog Gofish (result unit) :=
  let! system := getSystemService c in
  match system with
  | Err err => Ret (Err (ErrWrap "failed to get system to set PXE boot" err))
  | Ok (k, s) =>
      let! r := @call Gofish (GSetBoot k s pxe_once) in
      match r with
      | Err err => Ret (Err (ErrWrap "failed to set boot source override to PXE" err))
      | Ok _ => Ret (Ok tt)
      end
  end.

(** [gofishClient.Reset] *)
Definition client_Reset (c : gofishClient) : prog Gofish (result unit) :=
  let! system := getSystemService c in
  match system with
  | Err err => Ret (Err (ErrWrap "failed to get system for reset" err))
  | Ok (k, s) =>
      let! r := @call Gofish (GReset k s ForceRestartResetType) in
      match r with
      | Err err => Ret (Err (ErrWrap "failed to reset system" err))
      | Ok _ => Ret (Ok tt)
      end
  end.

(** ** Network addresses *)

Fixpoint extract_ipv4 (eth : EthernetInterface) (acc : list NetworkAddress) (l : list IPv4Address)
  : list NetworkAddress :=
  match l with
  | [] => acc
  | ipv4 :: l' =>
      extract_ipv4 eth
        (if negb (v4_Address ipv4 ==s "") then
           acc ++ [{| na_Type := IPv4AddressType; na_Address := v4_Address ipv4; na_Gateway := v4_Gateway ipv4;
                      na_InterfaceName := eth_Name eth; na_MACAddress := eth_MACAddress eth |}]
         else acc) l'
  end.
Fixpoint extract_ipv6 (eth : EthernetInterface) (acc : list NetworkAddress) (l : list IPv6Address)
  : list NetworkAddress :=
  match l with
  | [] => acc
  | ipv6 :: l' =>
      extract_ipv6 eth
        (if negb (v6_Address ipv6 ==s "") then
           acc ++ [{| na_Type := IPv6AddressType; na_Address := v6_Address ipv6;
                      na_Gateway := eth_IPv6DefaultGateway eth;
                      na_InterfaceName := eth_Name eth; na_MACAddress := eth_MACAddress eth |}]
         else acc) l'
  end.
Definition extractAddressesFromEthernetInterface (eth : EthernetInterface) : list NetworkAddress :=
  extract_ipv6 eth (extract_ipv4 eth [] (eth_IPv4Addresses eth)) (eth_IPv6Addresses eth).

Fixpoint ethernet_loop (acc : list NetworkAddress) (l : list EthernetInterface) : list NetworkAddress :=
  match l with
  | [] => acc
  | eth :: l' => ethernet_loop (acc ++ extractAddressesFromEthernetInterface eth) l'
  end.

(** Looks at the ports and the device functions, and finds no address. *)
Definition extractAddressesFromNetworkInterface (k : conn) (n : NetworkInterface)
  : prog Gofish (list NetworkAddress) :=
  @call Gofish (GNetworkPorts k n) ;;!
  @call Gofish (GNetworkDeviceFunctions k n) ;;!
  Ret [].

Fixpoint interface_loop (k : conn) (acc : list NetworkAddress) (l : list NetworkInterface)
  : prog Gofish (list NetworkAddress) :=
  match l with
  | [] => Ret acc
  | n :: l' =>
      let! found := extractAddressesFromNetworkInterface k n in
      interface_loop k (acc ++ found) l'
  end.

Definition GetNetworkAddresses (c : gofishClient) : prog Gofish (result (list NetworkAddress)) :=
  let! system := getSystemService c in
  match system with
  | Err err => Ret (Err (ErrWrap "failed to get system for network address discovery" err))
  | Ok (k, s) =>
      let! ethernetInterfaces := @call Gofish (GEthernetInterfaces k s) in
      let addresses := match ethernetInterfaces with
                       | Err _ => []
                       | Ok l => ethernet_loop [] l
                       end in
      if (length addresses =? 0)%nat then
        let! networkInterfaces := @call Gofish (GNetworkInterfaces k s) in
        match networkInterfaces with
        | Err err => Ret (Err (ErrWrap "failed to retrieve both ethernet and network interfaces" err))
        | Ok l => let! addresses := interface_loop k addresses l in Ret (Ok addresses)
        end
      else Ret (Ok addresses)
  end.

(** ** The controllers' Redfish calls, implemented *)

(** The client behind a handle. *)
Definition client_of (cs : clients) (h : rf_handle) : gofishClient :=
  default {| gc_client := None; gc_apiEndpoint := "" |} (cs !! h).

(** A method that leaves the client as it is. *)
Definition method {A} (cs : clients) (p : prog Gofish A) : prog Gofish (A * clients) :=
  let! x := p in Ret (x, cs).

Definition gofish_env (a : action Env) (cs : clients) : prog Gofish (answer a * clients) :=
  match a return prog Gofish (capi_answer a * clients) with
  | ARfConnect address username password insecure =>
      let! r := NewClient address username password insecure in
      match r with
      | Err err => Ret (Err err, cs)
      | Ok c => let h := fresh (dom cs) in Ret (Ok h, <[h := c]> cs)
      end
  | ARfGetSystemInfo h => method cs (GetSystemInfo (client_of cs h))
  | ARfGetPowerState h => method cs (GetPowerState (client_of cs h))
  | ARfSetPowerState h state => method cs (SetPowerState (client_of cs h) state)
  | ARfSetBootSourcePXE h => method cs (SetBootSourcePXE (client_of cs h))
  | ARfGetNetworkAddresses h => method cs (GetNetworkAddresses (client_of cs h))
  | ARfClose h => let! c := Close (client_of cs h) in Ret (tt, <[h := c]> cs)
  | a => method cs (@call Gofish (GOther a))
  end.

End Client.

(** ** Connections *)

(** The connections opened and ended, in order. *)
Definition connected_by (e : event Gofish) : list conn :=
  match e with
  | Ev a r =>
      match a return gofish_answer a -> list conn with
      | GConnectContext _ => fun r => match r with Ok k => [k] | Err _ => [] end
      | _ => fun _ => []
      end r
  end.
Definition logged_out_by (e : event Gofish) : list conn :=
  match ev_action e with GLogout k => [k] | _ => [] end.
Definition connected (tr : list (event Gofish)) : list conn := tr ≫= connected_by.
Definition logged_out (tr : list (event Gofish)) : list conn := tr ≫= logged_out_by.

Lemma connected_app tr tr' : connected (tr ++ tr') = connected tr ++ connected tr'.
Proof. apply bind_app. Qed.
Lemma logged_out_app tr tr' : logged_out (tr ++ tr') = logged_out tr ++ logged_out tr'.
Proof. apply bind_app. Qed.

(** No connection is open; the connection [k] is. *)
Definition disconnected (tr : list (event Gofish)) : Prop := connected tr = logged_out tr.
Definition online (k : conn) (tr : list (event Gofish)) : Prop := connected tr = logged_out tr ++ [k].

Definition gofish_neutral (a : action Gofish) : Prop :=
  match a with GConnectContext _ | GLogout _ => False | _ => True end.

Lemma disconnected_nil : disconnected [].
Proof. done. Qed.
Lemma disconnected_snoc tr (a : action Gofish) r :
  gofish_neutral a -> disconnected tr -> disconnected (tr ++ [Ev a r]).
Proof. unfold disconnected. rewrite connected_app, logged_out_app. intros Ha ->. by destruct a. Qed.
Lemma online_snoc k tr (a : action Gofish) r : gofish_neutral a -> online k tr -> online k (tr ++ [Ev a r]).
Proof.
  unfold online. rewrite connected_app, logged_out_app. intros Ha ->. destruct a; try done; by rewrite !app_nil_r.
Qed.
Lemma online_connect tr cfg k : disconnected tr -> online k (tr ++ [@Ev Gofish (GConnectContext cfg) (Ok k)]).
Proof. unfold disconnected, online. rewrite connected_app, logged_out_app. intros ->. by rewrite app_nil_r. Qed.
Lemma disconnected_refused tr cfg e : disconnected tr -> disconnected (tr ++ [@Ev Gofish (GConnectContext cfg) (Err e)]).
Proof. unfold disconnected. rewrite connected_app, logged_out_app. by intros ->. Qed.
Lemma disconnected_logout tr k u : online k tr -> disconnected (tr ++ [@Ev Gofish (GLogout k) u]).
Proof. unfold disconnected, online. rewrite connected_app, logged_out_app. intros ->. by rewrite app_nil_r. Qed.

#[export] Hint Resolve disconnected_nil disconnected_snoc online_snoc online_connect disconnected_refused
  disconnected_logout : clients.
#[export] Hint Extern 1 (gofish_neutral _) => exact I : clients.

(** [s] is the first system the service has reported on [k]. *)
Definition first_system (tr : list (event Gofish)) (k : conn) (s : ComputerSystem) : Prop :=
  exists l, @Ev Gofish (GSystems k) (Ok (s :: l)) ∈ tr.

(** What may reach a BMC: every call goes over the connection that is open, to
    the first system; a system is only ever told to boot from the network once
    and to power on. *)
Definition bmc_calls (tr : list (event Gofish)) (a : action Gofish) : Prop :=
  match a with
  | GConnectContext _ => disconnected tr
  | GLogout k | GSystems k | GNetworkPorts k _ | GNetworkDeviceFunctions k _ => online k tr
  | GEthernetInterfaces k s | GNetworkInterfaces k s => online k tr /\ first_system tr k s
  | GReset k s t => online k tr /\ first_system tr k s /\ t = OnResetType
  | GSetBoot k s b => online k tr /\ first_system tr k s /\ b = pxe_once
  | GOther _ => True
  end.

(** Nothing that changes a system. *)
Definition read_only (a : action Gofish) : Prop :=
  match a with GReset _ _ _ | GSetBoot _ _ _ => False | _ => True end.

Section ClientProperties.
  Context {L : Lib}.

(** *** Methods *)

Lemma first_system_last tr k s l : first_system (tr ++ [@Ev Gofish (GSystems k) (Ok (s :: l))]) k s.
Proof. exists l. apply ev_last. Qed.
Lemma first_system_app tr tr' k s : first_system tr k s -> first_system (tr ++ tr') k s.
Proof. intros [l H]. exists l. by apply ev_app_l. Qed.
Hint Resolve first_system_last first_system_app : clients.

(** The calls of a method on the connection [k]. *)
Ltac bmc := first
  [ exact I | progress cbn [bmc_calls read_only]; bmc
  | solve [eauto 20 with clients] | split; bmc | done ].

Lemma interface_loop_calls tr k acc l :
  online k tr ->
  wp (fun tr a => bmc_calls tr a /\ read_only a) tr (interface_loop k acc l)
     (fun tr' x => online k tr' /\ x = acc).
Proof.
  revert tr acc. induction l as [|n l IH]; intros tr acc Hk; cbn [interface_loop].
  - by apply wp_ret.
  - unfold extractAddressesFromNetworkInterface. wp_steps; [bmc..|].
    rewrite app_nil_r. apply IH. eauto with clients.
Qed.

Ltac method_steps :=
  unfold method, GetSystemInfo, GetPowerState, SetBootSourcePXE, GetNetworkAddresses, SetPowerState,
    getSystemService; cbn [gc_client]; wp_steps.

Lemma read_calls tr k ep :
  online k tr ->
  wp (fun tr a => bmc_calls tr a /\ read_only a) tr (GetSystemInfo {| gc_client := Some k; gc_apiEndpoint := ep |})
     (fun tr' _ => online k tr') /\
  wp (fun tr a => bmc_calls tr a /\ read_only a) tr (GetPowerState {| gc_client := Some k; gc_apiEndpoint := ep |})
     (fun tr' _ => online k tr') /\
  wp (fun tr a => bmc_calls tr a /\ read_only a) tr (GetNetworkAddresses {| gc_client := Some k; gc_apiEndpoint := ep |})
     (fun tr' _ => online k tr').
Proof.
  intros Hk. split_and!; method_steps; try solve [bmc].
  eapply wp_mono; [apply interface_loop_calls; eauto with clients|]. intros ? ? _ [? _]. by wp_steps.
Qed.

(** *** The environment the client implements *)

(** How the controllers' view of the clients and the connections correspond. *)
Definition linked (tr : list (event Env)) (tr' : list (event Gofish)) (cs : clients) : Prop :=
  idle tr /\ disconnected tr' \/
  exists h k ep, busy h tr /\ online k tr' /\ cs !! h = Some {| gc_client := Some k; gc_apiEndpoint := ep |}.

Lemma idle_not_busy tr h : idle tr -> busy h tr -> False.
Proof.
  unfold idle, busy. intros -> H. apply (f_equal length) in H. rewrite length_app in H. simpl in H. lia.
Qed.

Lemma busy_inj tr h h' : busy h tr -> busy h' tr -> h = h'.
Proof. unfold busy. intros -> H. by apply app_inj_2 in H as [_ [= ->]]. Qed.

(** Behind the handle of the open client there is the open connection. *)
Lemma linked_busy tr tr' cs h :
  linked tr tr' cs -> busy h tr ->
  exists k ep, online k tr' /\ cs !! h = Some {| gc_client := Some k; gc_apiEndpoint := ep |}.
Proof.
  intros [[Hi _]|(h' & k & ep & Hb & Ho & Hcs)] Hh; [by destruct (idle_not_busy tr h)|].
  rewrite (busy_inj tr h h') by done. by exists k, ep.
Qed.

Lemma linked_idle tr tr' cs : linked tr tr' cs -> idle tr -> disconnected tr'.
Proof. intros [[_ Hd]|(h & k & ep & Hb & _)] Hi; [done|]. by destruct (idle_not_busy tr h). Qed.

Lemma method_linked (a : action Env) tr tr' cs h k ep ok (p : gofishClient -> prog Gofish (answer a)) :
  neutral a -> busy h tr -> cs !! h = Some {| gc_client := Some k; gc_apiEndpoint := ep |} ->
  wp ok tr' (p {| gc_client := Some k; gc_apiEndpoint := ep |}) (fun tr2 _ => online k tr2) ->
  wp ok tr' (method cs (p (client_of cs h))) (fun tr2 '(r, cs2) => linked (tr ++ [Ev a r]) tr2 cs2).
Proof.
  intros Ha Hb Hcs Hp. unfold method, client_of. rewrite Hcs. eapply wp_seq; [exact Hp|].
  intros tr2 x _ Ho. apply wp_ret. right. exists h, k, ep. split_and!; [by apply busy_snoc|done..].
Qed.

Lemma other_linked (a : action Env) tr tr' cs ok :
  offline tr a -> linked tr tr' cs -> ok tr' (GOther a) ->
  wp ok tr' (method cs (@call Gofish (GOther a))) (fun tr2 '(r, cs2) => linked (tr ++ [Ev a r]) tr2 cs2).
Proof.
  intros Ha Hl Hok. unfold method. wp_steps; [done|].
  assert (neutral a) by by destruct a.
  destruct Hl as [[Hi Hd]|(h & k & ep & Hb & Ho & Hcs)]; [left|right; exists h, k, ep];
    split_and!; eauto with clients; by apply idle_snoc || by apply busy_snoc.
Qed.

Lemma connect_linked tr tr' cs a u p i :
  idle tr -> disconnected tr' ->
  wp (fun tr a => bmc_calls tr a /\ read_only a) tr' (gofish_env (ARfConnect a u p i) cs)
     (fun tr2 '(r, cs2) => linked (tr ++ [@Ev Env (ARfConnect a u p i) r]) tr2 cs2).
Proof.
  intros Hi Hd. cbn [gofish_env]. unfold NewClient. wp_steps; try solve [bmc];
    try (left; split; eauto with clients; fail).
  right. do 3 eexists. split_and!; [eauto with clients..|]. apply lookup_insert_eq.
Qed.

Lemma close_linked tr tr' cs h :
  linked tr tr' cs -> busy h tr ->
  wp (fun tr a => bmc_calls tr a /\ read_only a) tr' (gofish_env (ARfClose h) cs)
     (fun tr2 '(r, cs2) => linked (tr ++ [@Ev Env (ARfClose h) r]) tr2 cs2).
Proof.
  intros Hl Hb. destruct (linked_busy _ _ _ _ Hl Hb) as (k & ep & Ho & Hcs).
  cbn [gofish_env]. unfold client_of. rewrite Hcs. unfold Close. cbn [from_option default id gc_client].
  wp_steps; [bmc|]. left. split; eauto with clients.
Qed.

Lemma reading_linked tr tr' cs a :
  linked tr tr' cs -> disciplined tr a -> reading a ->
  wp (fun tr a => bmc_calls tr a /\ read_only a) tr' (gofish_env a cs)
     (fun tr2 '(r, cs2) => linked (tr ++ [Ev a r]) tr2 cs2).
Proof.
  intros Hl Hd Hr. destruct a; try done; try (by apply other_linked); cbn [disciplined] in Hd;
    [apply connect_linked; [done|by eapply linked_idle]|..|by apply close_linked];
    destruct (linked_busy _ _ _ _ Hl Hd) as (k & ep & Ho & Hcs);
    destruct (read_calls tr' k ep Ho) as (?&?&?);
    [eapply (method_linked (ARfGetSystemInfo _)) | eapply (method_linked (ARfGetPowerState _))
    | eapply (method_linked (ARfGetNetworkAddresses _))]; eauto; done.
Qed.

Lemma writing_linked tr tr' cs a :
  linked tr tr' cs -> machine_calls tr a -> ~ reading a ->
  wp bmc_calls tr' (gofish_env a cs) (fun tr2 '(r, cs2) => linked (tr ++ [Ev a r]) tr2 cs2).
Proof.
  intros Hl [Hd Hon] Hr. destruct a; try (by destruct Hr); cbn [disciplined] in Hd;
    destruct (linked_busy _ _ _ _ Hl Hd) as (k & ep & Ho & Hcs).
  - subst state. eapply (method_linked (ARfSetPowerState _ _) _ _ _ _ _ _ _ (fun c => SetPowerState c _)); try done.
    unfold SetPowerState. change (reset_type OnPowerState) with (Some OnResetType). method_steps; solve [bmc].
  - eapply (method_linked (ARfSetBootSourcePXE _)); try done. method_steps; solve [bmc].
Qed.

Lemma env_linked tr tr' cs a :
  linked tr tr' cs -> machine_calls tr a ->
  wp bmc_calls tr' (gofish_env a cs) (fun tr2 '(r, cs2) => linked (tr ++ [Ev a r]) tr2 cs2).
Proof.
  intros Hl Hm. assert (reading a \/ ~ reading a) as [Hr|Hr] by (destruct a; simpl; tauto).
  - eapply wp_weaken; [|apply reading_linked; [done|apply Hm|done]]. by intros ? ? [].
  - by apply writing_linked.
Qed.

Lemma linked_start : linked [] [] ∅.
Proof. by left. Qed.

(** C21: what a reconciliation of a machine does to BMCs, down to the calls of
    the Redfish library.  It has at most one connection open at a time, makes
    every call over that connection and to the first system found there, and
    has ended every connection it opened when it returns; the only changes it
    ever asks for are to boot from the network once and to power on. *)
Theorem machine_bmc_calls f req :
  wp bmc_calls [] (interp gofish_env (machine_Reconcile f req) ∅) (fun tr _ => connected tr = logged_out tr).
Proof.
  eapply wp_mono; [eapply (wp_interp gofish_env _ linked machine_calls)|].
  - intros. by apply env_linked.
  - apply linked_start.
  - apply machine_Reconcile_disciplined.
  - intros tr [x cs] _ (tr1 & Hl & Hi). by eapply linked_idle.
Qed.

(** C27: a reconciliation of a host only reads from its BMC, over one connection
    that has been ended when it returns, whichever way it returns. *)
Theorem host_bmc_calls r req :
  wp (fun tr a => bmc_calls tr a /\ read_only a) [] (interp gofish_env (host_Reconcile r req) ∅)
     (fun tr _ => connected tr = logged_out tr).
Proof.
  eapply wp_mono; [eapply (wp_interp gofish_env _ linked (fun tr a => disciplined tr a /\ reading a))|].
  - intros ? ? ? ? ? []. by apply reading_linked.
  - apply linked_start.
  - apply host_Reconcile_disciplined.
  - intros tr [x cs] _ (tr1 & Hl & Hi). by eapply linked_idle.
Qed.

End ClientProperties.

(** ** Addresses *)

(** The addresses an interface reports, IPv4 before IPv6, without empty ones. *)
Definition reported_addresses (eth : EthernetInterface) : list NetworkAddress :=
  let address t a g :=
    {| na_Type := t; na_Address := a; na_Gateway := g; na_InterfaceName := eth_Name eth;
       na_MACAddress := eth_MACAddress eth |} in
  ((fun i => address IPv4AddressType (v4_Address i) (v4_Gateway i)) <$>
     filter (fun i => v4_Address i <> "") (eth_IPv4Addresses eth)) ++
  ((fun i => address IPv6AddressType (v6_Address i) (eth_IPv6DefaultGateway eth)) <$>
     filter (fun i => v6_Address i <> "") (eth_IPv6Addresses eth)).

Lemma extract_ipv4_app eth acc l :
  extract_ipv4 eth acc l =
  acc ++ ((fun i => {| na_Type := IPv4AddressType; na_Address := v4_Address i; na_Gateway := v4_Gateway i;
                       na_InterfaceName := eth_Name eth; na_MACAddress := eth_MACAddress eth |}) <$>
            filter (fun i => v4_Address i <> "") l).
Proof.
  revert acc. induction l as [|i l IH]; intros acc; cbn [extract_ipv4]; [by rewrite app_nil_r|].
  rewrite IH, filter_cons. destruct (String.eqb_spec (v4_Address i) "");
    cbn [negb];
    [by rewrite decide_False by auto|]. rewrite decide_True by done. by rewrite <- app_assoc.
Qed.

Lemma extract_ipv6_app eth acc l :
  extract_ipv6 eth acc l =
  acc ++ ((fun i => {| na_Type := IPv6AddressType; na_Address := v6_Address i;
                       na_Gateway := eth_IPv6DefaultGateway eth;
                       na_InterfaceName := eth_Name eth; na_MACAddress := eth_MACAddress eth |}) <$>
            filter (fun i => v6_Address i <> "") l).
Proof.
  revert acc. induction l as [|i l IH]; intros acc; cbn [extract_ipv6]; [by rewrite app_nil_r|].
  rewrite IH, filter_cons. destruct (String.eqb_spec (v6_Address i) "");
    cbn [negb];
    [by rewrite decide_False by auto|]. rewrite decide_True by done. by rewrite <- app_assoc.
Qed.

Lemma ethernet_loop_bind acc l : ethernet_loop acc l = acc ++ (l ≫= reported_addresses).
Proof.
  revert acc. induction l as [|eth l IH]; intros acc; cbn [ethernet_loop]; [by rewrite app_nil_r|].
  rewrite IH. unfold extractAddressesFromEthernetInterface.
  rewrite extract_ipv6_app, extract_ipv4_app, bind_cons, app_nil_l. unfold reported_addresses.
  by rewrite <- !app_assoc.
Qed.

Section AddressProperties.
  Context {L : Lib}.

(** The addresses found through the Ethernet interfaces of the first system. *)
Definition ethernet_addresses (tr : list (event Gofish)) (k : conn) (addrs : list NetworkAddress) : Prop :=
  exists s r, first_system tr k s /\ @Ev Gofish (GEthernetInterfaces k s) r ∈ tr /\
    addrs = match r with Ok eths => eths ≫= reported_addresses | Err _ => [] end.

Lemma ethernet_addresses_found tr k s l r :
  @Ev Gofish (GSystems k) (Ok (s :: l)) ∈ tr -> @Ev Gofish (GEthernetInterfaces k s) r ∈ tr ->
  ethernet_addresses tr k match r with Ok l => ethernet_loop [] l | Err _ => [] end.
Proof.
  intros Hs Hr. exists s, r. split_and!; [by exists l|done|]. destruct r; [by rewrite ethernet_loop_bind|done].
Qed.

Lemma interface_loop_none tr k l :
  wp anything tr (interface_loop k [] l) (fun tr' addrs => tr `prefix_of` tr' /\ addrs = []).
Proof.
  revert tr. induction l as [|n l IH]; intros tr; cbn [interface_loop]; [by apply wp_ret|].
  unfold extractAddressesFromNetworkInterface. wp_steps; [done..|].
  eapply wp_mono; [apply IH|]. intros tr' x _ [Hp ->]. split; [|done].
  rewrite <- app_assoc in Hp. by eapply prefix_app_l.
Qed.

(** The addresses of a system are those its Ethernet interfaces report, in
    order and without empty ones; nothing is ever found through its other
    network interfaces, which are consulted only when there are none.  The
    query fails only if the system cannot be read, or if no Ethernet address
    was found and the other interfaces cannot be listed. *)
Theorem network_addresses_spec k ep :
  post (GetNetworkAddresses {| gc_client := Some k; gc_apiEndpoint := ep |}) (fun tr res =>
    match res with
    | Ok addrs => ethernet_addresses tr k addrs
    | Err _ =>
        (exists r, tr = [@Ev Gofish (GSystems k) r] /\ forall s l, r <> Ok (s :: l)) \/
        (ethernet_addresses tr k [] /\ exists s e, @Ev Gofish (GNetworkInterfaces k s) (Err e) ∈ tr)
    end).
Proof.
  unfold GetNetworkAddresses, getSystemService. cbn [gc_client]. wp_steps; try done.
  all: try (left; eexists; split; [done|naive_solver]; fail).
  all: try (apply Nat.eqb_eq, length_zero_iff_nil in Heqb).
  - rewrite Heqb. eapply wp_mono; [apply interface_loop_none|]. intros tr' addrs _ [Hp ->]. apply wp_ret.
    rewrite <- Heqb. eapply ethernet_addresses_found; eapply ev_prefix; eauto 10 with go.
  - right. split; [|eauto with go]. rewrite <- Heqb. eapply ethernet_addresses_found; eauto 10 with go.
  - eapply ethernet_addresses_found; eauto 10 with go.
Qed.
End AddressProperties.

(** ** The address of a BMC *)

(** The addresses the pattern of RedfishConnection admits: http or https, a host
    of letters, digits, dots and hyphens, perhaps a port, perhaps a path; the
    path of bytes that are never escaped. *)
Definition crd_address (a : string) : Prop :=
  exists scheme host port path,
    a = scheme +:+ "://" +:+ host +:+ port +:+ path /\
    (scheme = "http" \/ scheme = "https") /\ host <> "" /\ all_bytes name_byte host = true /\
    port_part port /\ path_part path.

Section EndpointProperties.
  Context {L : Lib}.

(** An address that the pattern of the resource admits is the endpoint the
    library connects to, unchanged, with the given credentials. *)
Theorem crd_address_kept a username password insecure :
  crd_address a ->
  exists k, NewClient a username password insecure =
    @Act Gofish _ (GConnectContext
      {| cfg_Endpoint := a; cfg_Username := username; cfg_Password := password;
         cfg_Insecure := insecure; cfg_BasicAuth := true |}) k.
Proof.
  intros (scheme & host & port & path & -> & Hs & Hne & Hh & Hp & Hpath).
  destruct (Parse_plain scheme host port path) as (u & Hu & Hsch & _ & Hstr); [done..|].
  unfold NewClient, endpoint_url. rewrite Hu, Hsch.
  rewrite (proj2 (eqb_false scheme "")) by (by destruct Hs as [->| ->]).
  rewrite Hstr. by eexists.
Qed.

(** An address that is a host name and a port, without a scheme, is not
    completed with https: the host name is taken for the scheme, in lower case. *)
Theorem host_port_taken_as_scheme c name port username password insecure :
  is_alpha c = true -> all_bytes scheme_byte name = true -> port <> "" -> all_bytes is_digit_byte port = true ->
  exists k, NewClient (String c name +:+ String ":" port) username password insecure =
    @Act Gofish _ (GConnectContext
      {| cfg_Endpoint := ToLower (String c name) +:+ ":" +:+ port; cfg_Username := username;
         cfg_Password := password; cfg_Insecure := insecure; cfg_BasicAuth := true |}) k.
Proof.
  intros Hc Hn Hne Hp. destruct (Parse_opaque c name port) as (u & Hu & Hsch & Hstr); [done..|].
  unfold NewClient, endpoint_url. rewrite Hu, Hsch.
  rewrite (proj2 (eqb_false _ "") (ToLower_nonempty c name Hc)). rewrite Hstr. by eexists.
Qed.

End EndpointProperties.

Lemma crd_address_kept_witness :
  exists k, @NewClient ref_lib "https://bmc-1.lab:8443/redfish" "admin" "secret" false =
    @Act Gofish _ (GConnectContext
      {| cfg_Endpoint := "https://bmc-1.lab:8443/redfish"; cfg_Username := "admin"; cfg_Password := "secret";
         cfg_Insecure := false; cfg_BasicAuth := true |}) k.
Proof.
  apply crd_address_kept. exists "https", "bmc-1.lab", ":8443", "/redfish".
  split_and!; [reflexivity|by right|discriminate|vm_compute; reflexivity| |].
  - right. exists "8443". split; vm_compute; reflexivity.
  - split; [vm_compute; reflexivity|]. right. by exists "redfish".
Defined.

Lemma host_port_taken_as_scheme_witness :
  exists k, @NewClient ref_lib "BMC1.lab:8443" "admin" "secret" false =
    @Act Gofish _ (GConnectContext
      {| cfg_Endpoint := "bmc1.lab:8443"; cfg_Username := "admin"; cfg_Password := "secret";
         cfg_Insecure := false; cfg_BasicAuth := true |}) k.
Proof. apply (host_port_taken_as_scheme "B" "MC1.lab" "8443"); vm_compute; congruence. Defined.
