(* ===== verification/MockClient.v ===== *)
(** * internal/redfish/mock_client.go

    The client the controller tests use, as a second implementation of the
    controllers' Redfish calls: its whole state is visible, so what the
    controllers achieve on a system that does as it is told can be stated. *)

From S2P Require Import Prelude Api Lib Prog Actions HostController MachineController GofishClient.

(** ** The client *)

Record MockClient := {
  mock_SystemInfo : SystemInfo;
  mock_PowerState : string;
  (** a method name can be mapped to a nil error *)
  mock_ShouldFail : gmap string (option error);
  mock_BootSourceIsPXE : bool;
  mock_NetworkAddresses : list NetworkAddress;
  (** [GetNetworkAddressesFunc]: nil, or what the function returns *)
  mock_AddressesFunc : option (result (list NetworkAddress));
  (** the methods called so far *)
  mock_Called : gset string
}.

Definition EnabledState := "Enabled".

Definition NewMockClient : MockClient :=
  {| mock_SystemInfo := {| si_Manufacturer := "MockInc"; si_Model := "MockSystem"; si_SerialNumber := "MOCK12345";
                           si_Status := {| hs_Health := ""; hs_HealthRollup := ""; hs_State := EnabledState |} |};
     mock_PowerState := OffPowerState; mock_ShouldFail := ∅; mock_BootSourceIsPXE := false;
     mock_NetworkAddresses := []; mock_AddressesFunc := None; mock_Called := ∅ |}.

Definition set_mock_PowerState (v : string) (m : MockClient) : MockClient :=
  {| mock_SystemInfo := mock_SystemInfo m; mock_PowerState := v; mock_ShouldFail := mock_ShouldFail m;
     mock_BootSourceIsPXE := mock_BootSourceIsPXE m; mock_NetworkAddresses := mock_NetworkAddresses m;
     mock_AddressesFunc := mock_AddressesFunc m; mock_Called := mock_Called m |}.
Definition set_mock_BootSourceIsPXE (v : bool) (m : MockClient) : MockClient :=
  {| mock_SystemInfo := mock_SystemInfo m; mock_PowerState := mock_PowerState m;
     mock_ShouldFail := mock_ShouldFail m; mock_BootSourceIsPXE := v;
     mock_NetworkAddresses := mock_NetworkAddresses m; mock_AddressesFunc := mock_AddressesFunc m;
     mock_Called := mock_Called m |}.
(** [m.<name>Called = true] *)
Definition note_called (name : string) (m : MockClient) : MockClient :=
  {| mock_SystemInfo := mock_SystemInfo m; mock_PowerState := mock_PowerState m;
     mock_ShouldFail := mock_ShouldFail m; mock_BootSourceIsPXE := mock_BootSourceIsPXE m;
     mock_NetworkAddresses := mock_NetworkAddresses m; mock_AddressesFunc := mock_AddressesFunc m;
     mock_Called := {[name]} ∪ mock_Called m |}.

Definition failIfNeeded (m : MockClient) (methodName : string) : option error :=
  match mock_ShouldFail m !! methodName with Some err => err | None => None end.

Definition mock_GetSystemInfo (m : MockClient) : result SystemInfo * MockClient :=
  let m := note_called "GetSystemInfo" m in
  match failIfNeeded m "GetSystemInfo" with
  | Some err => (Err err, m)
  | None => (Ok (mock_SystemInfo m), m)
  end.

Definition mock_GetPowerState (m : MockClient) : result string * MockClient :=
  let m := note_called "GetPowerState" m in
  match failIfNeeded m "GetPowerState" with
  | Some err => (Err err, m)
  | None => (Ok (mock_PowerState m), m)
  end.

Definition mock_SetPowerState (state : string) (m : MockClient) : result unit * MockClient :=
  let m := note_called "SetPowerState" m in
  match failIfNeeded m "SetPowerState" with
  | Some err => (Err err, m)
  | None => (Ok tt, set_mock_PowerState state m)
  end.

Definition mock_SetBootSourcePXE (m : MockClient) : result unit * MockClient :=
  let m := note_called "SetBootSourcePXE" m in
  match failIfNeeded m "SetBootSourcePXE" with
  | Some err => (Err err, m)
  | None => (Ok tt, set_mock_BootSourceIsPXE true m)
  end.

Definition mock_Reset (m : MockClient) : result unit * MockClient :=
  let m := note_called "Reset" m in
  match failIfNeeded m "Reset" with
  | Some err => (Err err, m)
  | None => (Ok tt, set_mock_PowerState OnPowerState m)
  end.

Definition mock_GetNetworkAddresses (m : MockClient) : result (list NetworkAddress) * MockClient :=
  let m := note_called "GetNetworkAddresses" m in
  match failIfNeeded m "GetNetworkAddresses" with
  | Some err => (Err err, m)
  | None =>
      match mock_AddressesFunc m with
      | Some r => (r, m)
      | None => (Ok (mock_NetworkAddresses m), m)
      end
  end.

Definition mock_Close (m : MockClient) : MockClient := note_called "Close" m.

(** ** The controllers' Redfish calls, implemented *)

(** A factory that always returns the one mock client; everything else is left to
    the environment. *)
Definition mock_env (a : action Env) (m : MockClient) : prog Env (answer a * MockClient) :=
  match a return prog Env (capi_answer a * MockClient) with
  | ARfConnect _ _ _ _ => Ret (Ok 0%nat, m)
  | ARfGetSystemInfo _ => Ret (mock_GetSystemInfo m)
  | ARfGetPowerState _ => Ret (mock_GetPowerState m)
  | ARfSetPowerState _ state => Ret (mock_SetPowerState state m)
  | ARfSetBootSourcePXE _ => Ret (mock_SetBootSourcePXE m)
  | ARfGetNetworkAddresses _ => Ret (mock_GetNetworkAddresses m)
  | ARfClose _ => Ret (tt, mock_Close m)
  | a => let! r := @call Env a in Ret (r, m)
  end.

(** ** Properties *)

Section MockProperties.
  Context {L : Lib}.

(** C22: what triggering an inspection achieves.  On a system that does as it is
    told, a successful trigger leaves the system on and set to boot from the
    network, with the client closed and the host written as Inspecting, booting since
    the time read, and otherwise as it was; and a that fails leaves the machine as it was. *)
Theorem trigger_boots_inspection ph m mock :
  post (interp mock_env (triggerInspection Func ph m) mock) (fun tr '((m', x), mock') =>
    match x with
    | Done (res, None) =>
        res = AfterResult (30 * Second) /\ m' = set_phase "Inspecting" m /\
        mst_Phase (bm_Status m') = Some "Inspecting" /\
        mock_PowerState mock' = OnPowerState /\ mock_BootSourceIsPXE mock' = true /\
        "Close" ∈ mock_Called mock' /\
        exists now h h', @Ev Env ANow now ∈ tr /\ @Ev Env (AUpdateHostStatus h) (Ok h') ∈ tr /\
          ph_Type h = ph_Type ph /\ ph_Meta h = ph_Meta ph /\ ph_Spec h = ph_Spec ph /\
          ph_Status h =
            {| pst_Ready := pst_Ready (ph_Status ph); pst_State := "Inspecting";
               pst_ObservedPowerState := pst_ObservedPowerState (ph_Status ph);
               pst_ErrorMessage := pst_ErrorMessage (ph_Status ph);
               pst_HardwareDetails := pst_HardwareDetails (ph_Status ph);
               pst_Addresses := pst_Addresses (ph_Status ph);
               pst_InspectionReport := pst_InspectionReport (ph_Status ph);
               pst_InspectionPhase := "Booting"; pst_InspectionTimestamp := Some now;
               pst_Conditions := pst_Conditions (ph_Status ph) |}
    | Done (_, Some _) => m' = m
    | Panic _ => False
    end).
Proof.
  unfold triggerInspection, getRedfishClientForHost, with_defer, triggerInspection_connected.
  repeat first
    [ interp_step | wp_step
    | progress cbn [mock_env]; unfold mock_SetBootSourcePXE, mock_GetPowerState, mock_SetPowerState; cbv zeta
    | match goal with |- let '(_, _) := match ?x with _ => _ end in _ => destruct x eqn:? end ]; try done.
  all: split_and!; try done; [..|by set_solver|by eexists _, (inspecting_host ph _), _; split_and!; eauto with go].
  reflect. cbn in *. done.
Qed.

End MockProperties.
