(* ===== verification/Inspection.v ===== *)
(** * controllers/inspection_handler.go

    The HTTP endpoint that inspection images post their reports to.  The
    handler takes the decoder of the body as an argument, and its behaviour is
    stated for each answer of it; the decoder is the one of ReportJson.v. *)

From S2P Require Import Prelude GoFmt Api Lib Prog Actions.

(** ** The request *)

Record CPUData := {
  cd_ID : string; cd_Vendor : string; cd_Model : string; cd_Cores : Z; cd_Threads : Z;
  cd_Frequency : string
}.
Record MemData := { md_ID : string; md_Type : string; md_Capacity : string; md_Speed : string }.
Record DiskData := {
  dd_Name : string; dd_Model : string; dd_SizeGB : Z; dd_Type : string; dd_SerialNumber : string
}.
Record NICData := {
  nd_Name : string; nd_MACAddress : string; nd_Driver : string; nd_Speed : string;
  nd_IPAddresses : list string
}.

Record InspectionReportRequest := {
  irr_Namespace : string;
  irr_HostName : string;
  irr_Manufacturer : string;
  irr_Model : string;
  irr_SerialNumber : string;
  irr_CPUs : list CPUData;
  irr_Memory : list MemData;
  irr_Disks : list DiskData;
  irr_NICs : list NICData;
  irr_BootModeDetected : string;
  irr_FirmwareVersion : string
}.

(** ** updatePhysicalHost *)

Definition convert_cpu (cpu : CPUData) : CPUInfo :=
  {| cpu_ID := cd_ID cpu; cpu_Vendor := cd_Vendor cpu; cpu_Model := cd_Model cpu;
     cpu_Cores := cd_Cores cpu; cpu_Threads := cd_Threads cpu; cpu_Frequency := cd_Frequency cpu |}.
Definition convert_mem (mem : MemData) : MemoryInfo :=
  {| mem_ID := md_ID mem; mem_Type := md_Type mem; mem_Capacity := md_Capacity mem;
     mem_Speed := md_Speed mem |}.
Definition convert_disk (disk : DiskData) : DiskInfo :=
  {| disk_Name := dd_Name disk; disk_Model := dd_Model disk; disk_SizeGB := dd_SizeGB disk;
     disk_Type := dd_Type disk; disk_SerialNumber := dd_SerialNumber disk |}.
Definition convert_nic (nic : NICData) : NICInfo :=
  {| nic_Name := nd_Name nic; nic_MACAddress := nd_MACAddress nic; nic_Driver := nd_Driver nic;
     nic_Speed := nd_Speed nic; nic_IPAddresses := nd_IPAddresses nic |}.

(** [for _, x := range l { acc = append(acc, f(x)) }] *)
Fixpoint append_loop {A B} (f : A -> B) (acc : list B) (l : list A) : list B :=
  match l with
  | [] => acc
  | x :: l' => append_loop f (acc ++ [f x]) l'
  end.

Definition build_report (req : InspectionReportRequest) (now : Z) : InspectionReport :=
  {| ir_Timestamp := now;
     ir_Manufacturer := irr_Manufacturer req;
     ir_Model := irr_Model req;
     ir_SerialNumber := irr_SerialNumber req;
     ir_BootModeDetected := irr_BootModeDetected req;
     ir_FirmwareVersion := irr_FirmwareVersion req;
     ir_CPUs := append_loop convert_cpu [] (irr_CPUs req);
     ir_Memory := append_loop convert_mem [] (irr_Memory req);
     ir_Disks := append_loop convert_disk [] (irr_Disks req);
     ir_NICs := append_loop convert_nic [] (irr_NICs req) |}.

Definition reported_host (physicalHost : PhysicalHost) (report : InspectionReport) : PhysicalHost :=
  ph_upd_Status (fun st =>
    set_pst_InspectionPhase InspectionComplete (set_pst_InspectionReport (Some report) st)) physicalHost.

Definition updatePhysicalHost (req : InspectionReportRequest) : prog Env (option error) :=
  let! g := @call Env (AGetHost {| nn_Namespace := irr_Namespace req; nn_Name := irr_HostName req |}) in
  match g with
  | Err err =>
      if IsNotFound err then
        Ret (Some (ErrNew ("PhysicalHost " +:+ irr_Namespace req +:+ "/" +:+ irr_HostName req +:+ " not found")))
      else Ret (Some (ErrWrap "failed to get PhysicalHost" err))
  | Ok physicalHost =>
      let! now := @call Env ANow in
      let! u := @call Env (AUpdateHostStatus (reported_host physicalHost (build_report req now))) in
      match u with
      | Err err => Ret (Some (ErrWrap "failed to update PhysicalHost status" err))
      | Ok _ => Ret None
      end
  end.

(** ** ServeHTTP *)

Definition MethodPost := "POST".
Definition StatusOK : Z := 200.
Definition StatusBadRequest : Z := 400.
Definition StatusMethodNotAllowed : Z := 405.
Definition StatusInternalServerError : Z := 500.

Record http_request := { rq_Method : string; rq_Body : string }.

(** A response: its status code and body. *)
Abbreviation response := (Z * string)%type.

Section Handler.
  (** [json.NewDecoder(r.Body).Decode(&req)] *)
  Context (json_decode : string -> result InspectionReportRequest).

(** [http.Error] *)
Definition http_Error (msg : string) (code : Z) : response := (code, msg +:+ char 10).

Definition quoted (s : string) : string := char 34 +:+ s +:+ char 34.

(** [json.NewEncoder(w).Encode] of the two-entry map, whose keys it sorts. *)
Definition success_body : string :=
  "{" +:+ quoted "message" +:+ ":" +:+ quoted "Inspection report received and processed" +:+ ","
  +:+ quoted "status" +:+ ":" +:+ quoted "success" +:+ "}" +:+ char 10.

Definition ServeHTTP (r : http_request) : prog Env response :=
  if negb (rq_Method r ==s MethodPost) then Ret (http_Error "Method not allowed" StatusMethodNotAllowed)
  else
    match json_decode (rq_Body r) with
    | Err err => Ret (http_Error ("Invalid JSON: " +:+ Error err) StatusBadRequest)
    | Ok req =>
        if (irr_Namespace req ==s "") || (irr_HostName req ==s "") then
          Ret (http_Error "namespace and hostName are required" StatusBadRequest)
        else
          let! e := updatePhysicalHost req in
          match e with
          | Some err =>
              Ret (http_Error ("Failed to update PhysicalHost: " +:+ Error err) StatusInternalServerError)
          | None => Ret (StatusOK, success_body)
          end
    end.

End Handler.

Lemma append_loop_map {A B} (f : A -> B) acc l : append_loop f acc l = (acc ++ (f <$> l))%list.
Proof.
  revert acc. induction l as [|x l IH]; intros acc; simpl; [by rewrite app_nil_r|].
  rewrite IH, <- app_assoc. done.
Qed.

(** ** Properties *)

(** A device of the report has the fields of the one of the request. *)
Definition same_cpu (d : CPUData) (c : CPUInfo) : Prop :=
  cpu_ID c = cd_ID d /\ cpu_Vendor c = cd_Vendor d /\ cpu_Model c = cd_Model d /\
  cpu_Cores c = cd_Cores d /\ cpu_Threads c = cd_Threads d /\ cpu_Frequency c = cd_Frequency d.
Definition same_mem (d : MemData) (m : MemoryInfo) : Prop :=
  mem_ID m = md_ID d /\ mem_Type m = md_Type d /\ mem_Capacity m = md_Capacity d /\ mem_Speed m = md_Speed d.
Definition same_disk (d : DiskData) (k : DiskInfo) : Prop :=
  disk_Name k = dd_Name d /\ disk_Model k = dd_Model d /\ disk_SizeGB k = dd_SizeGB d /\
  disk_Type k = dd_Type d /\ disk_SerialNumber k = dd_SerialNumber d.
Definition same_nic (d : NICData) (n : NICInfo) : Prop :=
  nic_Name n = nd_Name d /\ nic_MACAddress n = nd_MACAddress d /\ nic_Driver n = nd_Driver d /\
  nic_Speed n = nd_Speed d /\ nic_IPAddresses n = nd_IPAddresses d.

(** The report has every field of the request, and its devices one by one. *)
Definition reported (req : InspectionReportRequest) (now : Z) (r : InspectionReport) : Prop :=
  ir_Timestamp r = now /\
  ir_Manufacturer r = irr_Manufacturer req /\ ir_Model r = irr_Model req /\
  ir_SerialNumber r = irr_SerialNumber req /\ ir_BootModeDetected r = irr_BootModeDetected req /\
  ir_FirmwareVersion r = irr_FirmwareVersion req /\
  Forall2 same_cpu (irr_CPUs req) (ir_CPUs r) /\ Forall2 same_mem (irr_Memory req) (ir_Memory r) /\
  Forall2 same_disk (irr_Disks req) (ir_Disks r) /\ Forall2 same_nic (irr_NICs req) (ir_NICs r).

(** [h'] is [h] with the report stored and inspection complete. *)
Definition completed (h : PhysicalHost) (report : InspectionReport) (h' : PhysicalHost) : Prop :=
  ph_Type h' = ph_Type h /\ ph_Meta h' = ph_Meta h /\ ph_Spec h' = ph_Spec h /\
  ph_Status h' =
    {| pst_Ready := pst_Ready (ph_Status h); pst_State := pst_State (ph_Status h);
       pst_ObservedPowerState := pst_ObservedPowerState (ph_Status h);
       pst_ErrorMessage := pst_ErrorMessage (ph_Status h);
       pst_HardwareDetails := pst_HardwareDetails (ph_Status h); pst_Addresses := pst_Addresses (ph_Status h);
       pst_InspectionReport := Some report; pst_InspectionPhase := "Complete";
       pst_InspectionTimestamp := pst_InspectionTimestamp (ph_Status h);
       pst_Conditions := pst_Conditions (ph_Status h) |}.

Lemma build_report_reported req now : reported req now (build_report req now).
Proof.
  assert (forall A B (f : A -> B) (R : A -> B -> Prop) l, (forall x, R x (f x)) -> Forall2 R l (append_loop f [] l)) as H.
  { intros A B f R l HR. rewrite append_loop_map. cbn. apply Forall2_fmap_r, Forall_Forall2_diag, Forall_forall. intros x _. apply HR. }
  split_and!; try done; apply H; by repeat split.
Qed.

(** C31: the report endpoint.  It answers 405 to other methods, 400 to a body
    that does not decode or that names no host, and 500 when the host cannot be
    read or written, and none of these but the last calls anything; 200 means
    that the status of the named host was stored with phase Complete and a
    report that has every field and device of the request, and nothing else of
    the host changed.  Nothing in the request shows who sent it: whoever reaches
    the endpoint can store a report. *)
Theorem report_endpoint_spec dec rq :
  post (ServeHTTP dec rq) (fun tr '(code, _) =>
    (code = 405 /\ rq_Method rq <> "POST" /\ tr = []) \/
    (code = 400 /\ tr = [] /\ rq_Method rq = "POST" /\
     ((exists e, dec (rq_Body rq) = Err e) \/
      exists req, dec (rq_Body rq) = Ok req /\ (irr_Namespace req = "" \/ irr_HostName req = ""))) \/
    exists req, rq_Method rq = "POST" /\ dec (rq_Body rq) = Ok req /\
      irr_Namespace req <> "" /\ irr_HostName req <> "" /\
      let k := {| nn_Namespace := irr_Namespace req; nn_Name := irr_HostName req |} in
      ((code = 500 /\ exists e, tr = [@Ev Env (AGetHost k) (Err e)]) \/
       exists h now h' report u,
         tr = [@Ev Env (AGetHost k) (Ok h); @Ev Env ANow now; @Ev Env (AUpdateHostStatus h') u] /\
         code = (if is_ok u then 200 else 500) /\
         completed h report h' /\ reported req now report)).
Proof.
  unfold ServeHTTP, updatePhysicalHost. wp_steps; try done; reflect.
  all: try by left. all: right; try (left; by eauto 10).
  all: right; eexists; split_and!; try (done || naive_solver).
  all: right; eexists _, _, _, _, _; (split; [done|]); (split; [done|]); split; [by split_and!|apply build_report_reported].
Qed.
