(* ===== verification/ReportJson.v ===== *)
(** * The JSON of inspection reports (controllers/inspection_handler.go)

    The request type as [encoding/json] sees it, the decoding of a body into it,
    and the report endpoint with that decoder: what an inspection image posts is
    what is stored. *)

From S2P Require Import Prelude GoText GoFmt GoJson Api Lib Prog Actions Inspection.

(** ** The types, with the names of their tags *)

Definition CPUData_type : gotype :=
  TStruct [("id", TString); ("vendor", TString); ("model", TString); ("cores", TInt); ("threads", TInt);
           ("frequency", TString)].
Definition MemData_type : gotype :=
  TStruct [("id", TString); ("type", TString); ("capacity", TString); ("speed", TString)].
Definition DiskData_type : gotype :=
  TStruct [("name", TString); ("model", TString); ("sizeGB", TInt); ("type", TString); ("serialNumber", TString)].
Definition NICData_type : gotype :=
  TStruct [("name", TString); ("macAddress", TString); ("driver", TString); ("speed", TString);
           ("ipAddresses", TSlice TString)].
Definition InspectionReportRequest_type : gotype :=
  TStruct [("namespace", TString); ("hostName", TString); ("manufacturer", TString); ("model", TString);
           ("serialNumber", TString); ("cpus", TSlice CPUData_type); ("memory", TSlice MemData_type);
           ("disks", TSlice DiskData_type); ("nics", TSlice NICData_type); ("bootModeDetected", TString);
           ("firmwareVersion", TString)].

(** ** Values of these types as records *)

Definition str (v : goval) : string := match v with VString s => text s | _ => "" end.
Definition int (v : goval) : Z := match v with VInt n => n | _ => 0 end.
Definition elems {A} (f : goval -> A) (v : goval) : list A := match v with VSlice vs _ => f <$> vs | _ => [] end.
Definition field (v : goval) (i : nat) : goval := match v with VStruct vs => default (VInt 0) (vs !! i) | _ => VInt 0 end.

Definition cpu_of (v : goval) : CPUData :=
  {| cd_ID := str (field v 0); cd_Vendor := str (field v 1); cd_Model := str (field v 2);
     cd_Cores := int (field v 3); cd_Threads := int (field v 4); cd_Frequency := str (field v 5) |}.
Definition mem_of (v : goval) : MemData :=
  {| md_ID := str (field v 0); md_Type := str (field v 1); md_Capacity := str (field v 2); md_Speed := str (field v 3) |}.
Definition disk_of (v : goval) : DiskData :=
  {| dd_Name := str (field v 0); dd_Model := str (field v 1); dd_SizeGB := int (field v 2);
     dd_Type := str (field v 3); dd_SerialNumber := str (field v 4) |}.
Definition nic_of (v : goval) : NICData :=
  {| nd_Name := str (field v 0); nd_MACAddress := str (field v 1); nd_Driver := str (field v 2);
     nd_Speed := str (field v 3); nd_IPAddresses := elems str (field v 4) |}.
Definition request_of (v : goval) : InspectionReportRequest :=
  {| irr_Namespace := str (field v 0); irr_HostName := str (field v 1); irr_Manufacturer := str (field v 2);
     irr_Model := str (field v 3); irr_SerialNumber := str (field v 4);
     irr_CPUs := elems cpu_of (field v 5); irr_Memory := elems mem_of (field v 6);
     irr_Disks := elems disk_of (field v 7); irr_NICs := elems nic_of (field v 8);
     irr_BootModeDetected := str (field v 9); irr_FirmwareVersion := str (field v 10) |}.

(** [var req InspectionReportRequest; json.NewDecoder(body).Decode(&req)], where
    [describe] words the errors. *)
Definition json_decode (describe : json_error -> string) (body : string) : result InspectionReportRequest :=
  match Decode InspectionReportRequest_type (bytes body) with
  | inl e => Err (ErrNew (describe e))
  | inr v => Ok (request_of v)
  end.

(** ** The text of a request

    What [json.Marshal] makes of a request, with the fields in order and those
    marked [omitempty] left out when empty; spaces and escapes that are not
    needed are left out too. *)

Abbreviation member := (list Z * json)%type.
Definition jstr (s : string) : json := JString (bytes s).
Definition jint (n : Z) : json := JNumber (int_literal n).
Definition opt_str (name s : string) : list member := if s ==s "" then [] else [(bytes name, jstr s)].
Definition opt_int (name : string) (n : Z) : list member := if n =? 0 then [] else [(bytes name, jint n)].
Definition opt_list {A} (name : string) (f : A -> json) (l : list A) : list member :=
  match l with [] => [] | _ => [(bytes name, JArray (f <$> l))] end.

Definition cpu_json (c : CPUData) : json :=
  JObject (opt_str "id" (cd_ID c) ++ opt_str "vendor" (cd_Vendor c) ++ opt_str "model" (cd_Model c) ++
           opt_int "cores" (cd_Cores c) ++ opt_int "threads" (cd_Threads c) ++ opt_str "frequency" (cd_Frequency c)).
Definition mem_json (m : MemData) : json :=
  JObject (opt_str "id" (md_ID m) ++ opt_str "type" (md_Type m) ++ opt_str "capacity" (md_Capacity m) ++
           opt_str "speed" (md_Speed m)).
Definition disk_json (d : DiskData) : json :=
  JObject (opt_str "name" (dd_Name d) ++ opt_str "model" (dd_Model d) ++ opt_int "sizeGB" (dd_SizeGB d) ++
           opt_str "type" (dd_Type d) ++ opt_str "serialNumber" (dd_SerialNumber d)).
Definition nic_json (n : NICData) : json :=
  JObject (opt_str "name" (nd_Name n) ++ opt_str "macAddress" (nd_MACAddress n) ++ opt_str "driver" (nd_Driver n) ++
           opt_str "speed" (nd_Speed n) ++ opt_list "ipAddresses" jstr (nd_IPAddresses n)).
Definition request_json (r : InspectionReportRequest) : json :=
  JObject ([(bytes "namespace", jstr (irr_Namespace r)); (bytes "hostName", jstr (irr_HostName r))] ++
           opt_str "manufacturer" (irr_Manufacturer r) ++ opt_str "model" (irr_Model r) ++
           opt_str "serialNumber" (irr_SerialNumber r) ++ opt_list "cpus" cpu_json (irr_CPUs r) ++
           opt_list "memory" mem_json (irr_Memory r) ++ opt_list "disks" disk_json (irr_Disks r) ++
           opt_list "nics" nic_json (irr_NICs r) ++ opt_str "bootModeDetected" (irr_BootModeDetected r) ++
           opt_str "firmwareVersion" (irr_FirmwareVersion r)).
Definition request_text (r : InspectionReportRequest) : string := text (print (request_json r)).

(** ** The text of a request is decoded to the request *)

(** [j] writes [v], can be written as text, and is nested at most [n] deep. *)
Definition writes (n : Z) (t : gotype) (v : goval) (j : json) : Prop :=
  encodes t v j /\ wf_json j /\ nesting j <= n.

(** The members for one field: none if it is empty and may be left out. *)
Definition writes_field (n : Z) (name : string) (t : gotype) (v : goval) (ms : list member) : Prop :=
  utf8 (bytes name) /\ ((ms = [] /\ v = zero_of t) \/ exists j, ms = [(bytes name, j)] /\ writes n t v j).

Inductive writes_fields (n : Z) : list (string * gotype) -> list goval -> list member -> Prop :=
| writes_last name t v ms : writes_field n name t v ms -> writes_fields n [(name, t)] [v] ms
| writes_next name t v ms fields vs ms' :
    writes_field n name t v ms -> writes_fields n fields vs ms' ->
    writes_fields n ((name, t) :: fields) (v :: vs) (ms ++ ms').

Lemma writes_fields_keys n fields vs ms key :
  writes_fields n fields vs ms -> key ∈ ms.*1 -> exists name, key = bytes name /\ name ∈ fst <$> fields.
Proof.
  induction 1 as [name t v ms [_ Hf]|name t v ms fields vs ms' [_ Hf] _ IH].
  - destruct Hf as [[-> _]|(j & -> & _)]; cbn; [by intros ?%elem_of_nil|]. intros ->%list_elem_of_singleton.
    exists name. split; [done|]. apply elem_of_cons. by left.
  - rewrite fmap_app. intros [Hk|Hk]%elem_of_app.
    + destruct Hf as [[-> _]|(j & -> & _)]; cbn in Hk; [by apply elem_of_nil in Hk|]. apply list_elem_of_singleton in Hk as ->.
      exists name. split; [done|]. apply elem_of_cons. by left.
    + destruct (IH Hk) as (name' & -> & ?). exists name'. split; [done|]. apply elem_of_cons. by right.
Qed.

Lemma writes_struct n fields vs ms :
  NoDup (fst <$> fields) -> 0 <= n -> writes_fields n fields vs ms ->
  length vs = length fields /\ NoDup ms.*1 /\
  Forall (fun m => exists i name t v, fields !! i = Some (name, t) /\ fst m = bytes name /\
                     vs !! i = Some v /\ encodes t v (snd m)) ms /\
  (forall i name t, fields !! i = Some (name, t) -> bytes name ∉ ms.*1 -> vs !! i = Some (zero_of t)) /\
  Forall (fun m => utf8 (fst m) /\ wf_json (snd m)) ms /\ Forall (fun m => nesting (snd m) <= n) ms.
Proof.
  intros Hnd Hn H. induction H as [name t v ms [Hu Hf]|name t v ms fields vs ms' [Hu Hf] Hfs IH].
  - destruct Hf as [[-> ->]|(j & -> & He & Hw & Hd)]; cbn.
    + split_and!; [done|apply NoDup_nil_2|apply Forall_nil_2| |apply Forall_nil_2..].
      intros [|i] name' t' Hi _; cbn in Hi; [by simplify_eq|by destruct i].
    + split_and!; [done|apply NoDup_singleton|apply Forall_singleton|..|by apply Forall_singleton|by apply Forall_singleton].
      * by exists 0%nat, name, t, v.
      * intros [|i] name' t' Hi Hk; cbn in Hi; [|by destruct i]. simplify_eq.
        exfalso. apply Hk. by apply list_elem_of_singleton.
  - cbn in Hnd. apply NoDup_cons in Hnd as [Hname Hnd]. destruct (IH Hnd) as (Hlen & Hk & Hm & Hz & Hwf & Hne).
    assert (Forall (fun m => exists i name' t' v', ((name, t) :: fields) !! i = Some (name', t') /\ fst m = bytes name' /\
                     (v :: vs) !! i = Some v' /\ encodes t' v' (snd m)) ms') as Hm'.
    { eapply Forall_impl; [exact Hm|]. intros m (i & ? & ? & ? & ? & ? & ? & ?). exists (S i). by eauto 10. }
    assert (bytes name ∉ ms'.*1) as Hfresh.
    { intros Hin. destruct (writes_fields_keys _ _ _ _ _ Hfs Hin) as (name' & ->%bytes_inj & ?). done. }
    destruct Hf as [[-> ->]|(j & -> & He & Hw & Hd)]; cbn [app].
    + split_and!; [cbn; congruence|done|done| |done..].
      intros [|i] name' t' Hi Hnot; cbn in *; [by simplify_eq|by eapply Hz].
    + split_and!; [cbn; congruence|by apply NoDup_cons|apply Forall_cons_2; [|done]|..|by apply Forall_cons_2|by apply Forall_cons_2].
      * by exists 0%nat, name, t, v.
      * intros [|i] name' t' Hi Hnot; cbn in *; [simplify_eq; set_solver|eapply Hz; [done|set_solver]].
Qed.

Lemma max_le {A} (f : A -> Z) l n : 0 <= n -> Forall (fun x => f x <= n) l -> fold_right Z.max 0 (map f l) <= n.
Proof. intros Hn. induction 1; cbn; lia. Qed.

(** The texts of structs, slices, strings and ints from those of their parts. *)
Lemma writes_object n fields vs ms :
  NoDup (fst <$> fields) -> 0 <= n -> writes_fields n fields vs ms ->
  writes (1 + n) (TStruct fields) (VStruct vs) (JObject ms).
Proof.
  intros Hnd Hn H. destruct (writes_struct _ _ _ _ Hnd Hn H) as (? & ? & ? & ? & Hwf & Hne).
  split_and!; [by apply encodes_struct|cbn; by rewrite Forall_map|]. cbn [nesting].
  pose proof (max_le (fun m => nesting (snd m)) ms n Hn Hne). lia.
Qed.
Lemma writes_array {A} n t (val : A -> goval) (js : A -> json) (l : list A) :
  0 <= n -> Forall (fun x => writes n t (val x) (js x)) l ->
  writes (1 + n) (TSlice t) (VSlice (val <$> l) []) (JArray (js <$> l)).
Proof.
  intros Hn H. split_and!.
  - apply encodes_slice, Forall2_fmap, Forall_Forall2_diag. eapply Forall_impl; [done|]. by intros x [? _].
  - cbn. apply Forall_map, Forall_fmap. eapply Forall_impl; [done|]. by intros x (_ & ? & _).
  - cbn [nesting]. assert (fold_right Z.max 0 (map nesting (js <$> l)) <= n); [|lia].
    apply max_le; [done|]. apply Forall_fmap. eapply Forall_impl; [done|]. by intros x (_ & _ & ?).
Qed.
Lemma writes_string n s : 0 <= n -> utf8 (bytes s) -> writes n TString (VString (bytes s)) (jstr s).
Proof. intros Hn Hs. split_and!; [apply encodes_string|done|done]. Qed.
Lemma writes_int n k : 0 <= n -> int64_min <= k <= int64_max -> writes n TInt (VInt k) (jint k).
Proof. intros Hn Hk. destruct (int_literal_spec k Hk). by split_and!; [apply encodes_int| |]. Qed.

Definition cpu_val (c : CPUData) : goval :=
  VStruct [VString (bytes (cd_ID c)); VString (bytes (cd_Vendor c)); VString (bytes (cd_Model c));
           VInt (cd_Cores c); VInt (cd_Threads c); VString (bytes (cd_Frequency c))].
Definition mem_val (m : MemData) : goval :=
  VStruct [VString (bytes (md_ID m)); VString (bytes (md_Type m)); VString (bytes (md_Capacity m)); VString (bytes (md_Speed m))].
Definition disk_val (d : DiskData) : goval :=
  VStruct [VString (bytes (dd_Name d)); VString (bytes (dd_Model d)); VInt (dd_SizeGB d); VString (bytes (dd_Type d));
           VString (bytes (dd_SerialNumber d))].
Definition strings_val (l : list string) : goval := VSlice ((fun s => VString (bytes s)) <$> l) [].
Definition nic_val (n : NICData) : goval :=
  VStruct [VString (bytes (nd_Name n)); VString (bytes (nd_MACAddress n)); VString (bytes (nd_Driver n));
           VString (bytes (nd_Speed n)); strings_val (nd_IPAddresses n)].
Definition request_val (r : InspectionReportRequest) : goval :=
  VStruct [VString (bytes (irr_Namespace r)); VString (bytes (irr_HostName r)); VString (bytes (irr_Manufacturer r));
           VString (bytes (irr_Model r)); VString (bytes (irr_SerialNumber r));
           VSlice (cpu_val <$> irr_CPUs r) []; VSlice (mem_val <$> irr_Memory r) []; VSlice (disk_val <$> irr_Disks r) [];
           VSlice (nic_val <$> irr_NICs r) []; VString (bytes (irr_BootModeDetected r)); VString (bytes (irr_FirmwareVersion r))].

(** A request that JSON can carry: its strings are UTF-8, its ints those of Go. *)
Definition ok_str (s : string) : Prop := utf8 (bytes s).
Definition ok_int (n : Z) : Prop := int64_min <= n <= int64_max.
Definition ok_cpu (c : CPUData) : Prop :=
  ok_str (cd_ID c) /\ ok_str (cd_Vendor c) /\ ok_str (cd_Model c) /\ ok_int (cd_Cores c) /\ ok_int (cd_Threads c) /\
  ok_str (cd_Frequency c).
Definition ok_mem (m : MemData) : Prop :=
  ok_str (md_ID m) /\ ok_str (md_Type m) /\ ok_str (md_Capacity m) /\ ok_str (md_Speed m).
Definition ok_disk (d : DiskData) : Prop :=
  ok_str (dd_Name d) /\ ok_str (dd_Model d) /\ ok_int (dd_SizeGB d) /\ ok_str (dd_Type d) /\ ok_str (dd_SerialNumber d).
Definition ok_nic (n : NICData) : Prop :=
  ok_str (nd_Name n) /\ ok_str (nd_MACAddress n) /\ ok_str (nd_Driver n) /\ ok_str (nd_Speed n) /\
  Forall ok_str (nd_IPAddresses n).
Definition ok_request (r : InspectionReportRequest) : Prop :=
  ok_str (irr_Namespace r) /\ ok_str (irr_HostName r) /\ ok_str (irr_Manufacturer r) /\ ok_str (irr_Model r) /\
  ok_str (irr_SerialNumber r) /\ Forall ok_cpu (irr_CPUs r) /\ Forall ok_mem (irr_Memory r) /\
  Forall ok_disk (irr_Disks r) /\ Forall ok_nic (irr_NICs r) /\ ok_str (irr_BootModeDetected r) /\
  ok_str (irr_FirmwareVersion r).

Lemma utf8_ascii l : forallb (fun b => (0 <=? b) && (b <? 128)) l = true -> utf8 l.
Proof.
  induction l as [|b l IH]; cbn; [intros; apply utf8_nil|]. intros [Hb Hl]%andb_true_iff.
  apply utf8_one; [reflect; lia|by apply IH].
Qed.

Lemma field_str n name s : 0 <= n -> utf8 (bytes name) -> ok_str s -> writes_field n name TString (VString (bytes s)) (opt_str name s).
Proof.
  intros Hn Hname Hs. split; [done|]. unfold opt_str. destruct (String.eqb_spec s "") as [->|]; [by left|].
  right. eexists. split; [done|]. by apply writes_string.
Qed.
Lemma field_req n name s : 0 <= n -> utf8 (bytes name) -> ok_str s ->
  writes_field n name TString (VString (bytes s)) [(bytes name, jstr s)].
Proof. intros Hn Hname Hs. split; [done|]. right. eexists. split; [done|]. by apply writes_string. Qed.
Lemma field_int n name k : 0 <= n -> utf8 (bytes name) -> ok_int k -> writes_field n name TInt (VInt k) (opt_int name k).
Proof.
  intros Hn Hname Hk. split; [done|]. unfold opt_int. destruct (Z.eqb_spec k 0) as [->|]; [by left|].
  right. eexists. split; [done|]. by apply writes_int.
Qed.
Lemma field_list {A} n name t (val : A -> goval) (js : A -> json) l :
  0 <= n -> utf8 (bytes name) -> Forall (fun x => writes n t (val x) (js x)) l ->
  writes_field (1 + n) name (TSlice t) (VSlice (val <$> l) []) (opt_list name js l).
Proof.
  intros Hn Hname Hl. split; [done|]. destruct l as [|x l]; [by left|]. right. eexists. split; [done|].
  by apply writes_array.
Qed.

(** A struct, field by field. *)
Ltac by_fields :=
  first [apply writes_next|apply writes_last];
  [first [apply field_str|apply field_req|apply field_int|apply (field_list _ _ _ _ _ _)]; [lia|by apply utf8_ascii|try done]|..].
Ltac names := apply (bool_decide_unpack _); vm_compute; exact I.

Lemma cpu_writes c : ok_cpu c -> writes 1 CPUData_type (cpu_val c) (cpu_json c).
Proof.
  intros (? & ? & ? & ? & ? & ?). apply (writes_object 0); [names|lia|]. repeat by_fields.
Qed.
Lemma mem_writes m : ok_mem m -> writes 1 MemData_type (mem_val m) (mem_json m).
Proof. intros (? & ? & ? & ?). apply (writes_object 0); [names|lia|]. repeat by_fields. Qed.
Lemma disk_writes d : ok_disk d -> writes 1 DiskData_type (disk_val d) (disk_json d).
Proof. intros (? & ? & ? & ? & ?). apply (writes_object 0); [names|lia|]. repeat by_fields. Qed.

Lemma strings_writes n l : 0 <= n -> Forall ok_str l -> Forall (fun s => writes n TString (VString (bytes s)) (jstr s)) l.
Proof. intros Hn Hl. eapply Forall_impl; [exact Hl|]. intros s Hs. by apply writes_string. Qed.
Lemma nic_writes d : ok_nic d -> writes 2 NICData_type (nic_val d) (nic_json d).
Proof.
  intros (? & ? & ? & ? & Hips). apply (writes_object 1); [names|lia|]. repeat by_fields.
  apply writes_last, (field_list 0); [lia|by apply utf8_ascii|by apply strings_writes].
Qed.

Lemma writes_weaken n n' t v j : n <= n' -> writes n t v j -> writes n' t v j.
Proof. intros Hn (? & ? & ?). split_and!; [done..|lia]. Qed.
Lemma list_writes {A} (ok : A -> Prop) n n' t (val : A -> goval) js l :
  (forall x, ok x -> writes n t (val x) (js x)) -> n <= n' -> Forall ok l -> Forall (fun x => writes n' t (val x) (js x)) l.
Proof. intros Hw Hn Hl. eapply Forall_impl; [exact Hl|]. intros x Hx. by eapply writes_weaken, Hw. Qed.

Ltac by_list W :=
  apply writes_next; [apply (field_list 2); [lia|by apply utf8_ascii|by apply (list_writes _ _ _ _ _ _ _ W)]|].

Lemma request_writes r : ok_request r -> writes 4 InspectionReportRequest_type (request_val r) (request_json r).
Proof.
  intros (? & ? & ? & ? & ? & Hc & Hm & Hd & Hn & ? & ?). apply (writes_object 3); [names|lia|].
  unfold request_json. change ([?a; ?b] ++ ?l) with ([a] ++ [b] ++ l).
  do 5 by_fields.
  by_list cpu_writes. by_list mem_writes. by_list disk_writes. by_list nic_writes.
  repeat by_fields.
Qed.

(** *** Bytes and text *)

Lemma text_bytes s : text (bytes s) = s.
Proof.
  induction s as [|c s IH]; [done|]. change (char (byte c) +:+ text (bytes s) = String c s). rewrite IH.
  unfold char, byte, Ascii.ascii_of_nat. rewrite <- Z_N_nat, N2Z.id, N2Nat.id. cbn. by rewrite Ascii.ascii_N_embedding.
Qed.
Lemma bytes_text l : Forall is_byte l -> bytes (text l) = l.
Proof.
  induction 1 as [|b l Hb Hl IH]; [done|].
  change (byte (Ascii.ascii_of_nat (Z.to_nat b)) :: bytes (text l) = b :: l). rewrite IH.
  pose proof (bytes_char b Hb) as Hc. injection Hc as Hc. by rewrite Hc.
Qed.

Definition all_bytes (p : parsed (list Z)) : Prop := match p with Parsed acc _ => Forall is_byte acc | _ => True end.
Lemma scan_digits_bytes acc l : Forall is_byte acc -> Forall is_byte (scan_digits acc l).1.
Proof.
  revert acc. induction l as [|b l IH]; intros acc Ha; [done|]. cbn. case_match eqn:Hb; [|done]. apply IH, Forall_cons_2; [|done].
  unfold is_digit, is_byte in *. reflect. lia.
Qed.
Lemma scan_digits1_bytes acc l : Forall is_byte acc -> all_bytes (scan_digits1 acc l).
Proof.
  intros Ha. destruct l as [|b l]; [done|]. cbn. case_match eqn:Hb; [|done].
  pose proof (scan_digits_bytes (b :: acc) l) as H. destruct (scan_digits (b :: acc) l). apply H, Forall_cons_2; [|done].
  unfold is_digit, is_byte in *. reflect. lia.
Qed.
Lemma scan_number_bytes l : all_bytes (scan_number l).
Proof.
  unfold scan_number. set (m := match l with [] => _ | _ => _ end).
  assert (Forall is_byte m.1) as Hm.
  { subst m. destruct l as [|b l]; [apply Forall_nil_2|]. case_match; [|apply Forall_nil_2]. reflect. subst.
    apply Forall_cons_2; [done|apply Forall_nil_2]. }
  destruct m as [acc l1]. cbn in Hm.
  assert (all_bytes (scan_integer acc l1)) as Hi.
  { unfold scan_integer. destruct l1; [done|]. case_match; [|by apply scan_digits1_bytes].
    reflect. subst. by apply Forall_cons_2. }
  destruct (scan_integer acc l1) as [acc2 l2| |]; [|done..]. cbn [p_bind].
  assert (all_bytes (scan_fraction acc2 l2)) as Hf.
  { unfold scan_fraction. destruct l2; [done|]. case_match; [|done]. reflect. subst. by apply scan_digits1_bytes, Forall_cons_2. }
  destruct (scan_fraction acc2 l2) as [acc3 l3| |]; [|done..]. cbn [p_bind].
  assert (all_bytes (scan_exponent acc3 l3)) as He.
  { unfold scan_exponent. repeat case_match; try done; apply scan_digits1_bytes; reflect; subst;
      repeat apply Forall_cons_2; try done; unfold is_byte; lia. }
  destruct (scan_exponent acc3 l3) as [acc4 l4| |]; [|done..]. cbn. by apply Forall_reverse.
Qed.

Lemma separated_bytes l : Forall (Forall is_byte) l -> Forall is_byte (separated l).
Proof.
  induction 1 as [|x l Hx Hl IH]; [apply Forall_nil_2|]. destruct l; [done|].
  change (Forall is_byte (x ++ 44 :: separated (l :: l0))). apply Forall_app_2; [done|]. by apply Forall_cons_2.
Qed.
Lemma print_string_bytes s : Forall is_byte s -> Forall is_byte (print_string s).
Proof.
  intros Hs. unfold print_string. apply Forall_cons_2; [done|]. apply Forall_app_2; [|by apply Forall_cons_2; [|apply Forall_nil_2]].
  apply Forall_bind. eapply Forall_impl; [exact Hs|]. intros b Hb. unfold compose, is_byte, escape, hex_of in *.
  repeat case_match; reflect; repeat apply Forall_cons_2; try apply Forall_nil_2; cbv beta; by_division.
Qed.
Lemma print_bytes j : wf_json j -> Forall is_byte (print j).
Proof.
  induction j as [|b|lit|s|js IH|ms IH] using json_ind; cbn [print wf_json]; intros Hw.
  - apply bytes_is_byte.
  - apply bytes_is_byte.
  - pose proof (scan_number_bytes lit) as H. by rewrite Hw in H.
  - by apply print_string_bytes, utf8_bytes.
  - apply Forall_cons_2; [done|]. apply Forall_app_2; [|by apply Forall_cons_2; [|apply Forall_nil_2]].
    rewrite Forall_map in Hw. apply separated_bytes, Forall_map, Forall_forall. intros j Hj.
    rewrite Forall_forall in Hw, IH. by apply IH, Hw.
  - apply Forall_cons_2; [done|]. apply Forall_app_2; [|by apply Forall_cons_2; [|apply Forall_nil_2]].
    rewrite Forall_map in Hw. apply separated_bytes, Forall_map, Forall_forall. intros m Hm.
    rewrite Forall_forall in Hw, IH. destruct (Hw m Hm) as [Hk Hj]. apply Forall_app_2.
    + by apply print_string_bytes, utf8_bytes.
    + apply Forall_cons_2; [done|]. by apply IH.
Qed.

(** *** The request and its value *)

Lemma map_fixed {A} (f : A -> A) (l : list A) : (forall x, f x = x) -> f <$> l = l.
Proof. intros Hf. rewrite <- (list_fmap_id l) at 2. by apply list_fmap_ext. Qed.
Lemma request_of_val r : request_of (request_val r) = r.
Proof.
  assert (forall c, cpu_of (cpu_val c) = c) as Hc by (intros []; unfold cpu_of; cbn; by rewrite !text_bytes).
  assert (forall m, mem_of (mem_val m) = m) as Hm by (intros []; unfold mem_of; cbn; by rewrite !text_bytes).
  assert (forall d, disk_of (disk_val d) = d) as Hd by (intros []; unfold disk_of; cbn; by rewrite !text_bytes).
  assert (forall n, nic_of (nic_val n) = n) as Hn.
  { intros []. unfold nic_of. cbn. rewrite !text_bytes, <- list_fmap_compose, map_fixed; [done|]. apply text_bytes. }
  destruct r. unfold request_of. cbn. rewrite !text_bytes, <- !list_fmap_compose, !map_fixed; done.
Qed.

Lemma request_type_wf : wf_type InspectionReportRequest_type.
Proof. cbn. unfold id. repeat (split || apply Forall_cons_2 || apply Forall_nil_2); names || done. Qed.

Lemma decode_request_text describe r trailing :
  ok_request r -> ends_number (bytes trailing) -> json_decode describe (request_text r +:+ trailing) = Ok r.
Proof.
  intros Hr Ht. destruct (request_writes r Hr) as (He & Hw & Hn). unfold json_decode, request_text.
  rewrite bytes_app, bytes_text by by apply print_bytes.
  rewrite (Decode_print _ (request_val r)); [by rewrite request_of_val|apply request_type_wf|done|done| |done].
  unfold maxNestingDepth. lia.
Qed.

(** *** Decoded requests can be written *)

Lemma ok_str_text s : utf8 s -> ok_str (text s).
Proof. intros Hs. unfold ok_str. rewrite bytes_text; [done|]. by apply utf8_bytes. Qed.
Lemma elems_ok {A} (ok : A -> Prop) t (f : goval -> A) v :
  (forall w, has_type t w -> ok (f w)) -> has_type (TSlice t) v -> Forall ok (elems f v).
Proof.
  intros Hf. destruct v; try done. intros [Hv _]. apply Forall_fmap. eapply Forall_impl; [exact Hv|]. apply Hf.
Qed.

Create HintDb report.
(** A typed struct is the list of its fields, each of its type. *)
Ltac struct_fields :=
  let v := fresh "v" in let H := fresh "H" in
  intros v H; destruct v as [| | |vs]; try done;
  match type of H with
  | has_type ?t _ => let t' := eval hnf in t in
      lazymatch t' with TStruct ?fields => change (fields_typed has_type fields vs) in H end
  end;
  cbn [fields_typed] in H;
  repeat match type of H with match ?l with _ => _ end => destruct l; try done; lazymatch type of H with _ /\ _ => destruct H as [? H] | _ => idtac end end;
  unfold ok_cpu, ok_mem, ok_disk, ok_nic, ok_request; cbn -[ok_str ok_int]; split_and!; auto with report.

Lemma str_ok v : has_type TString v -> ok_str (str v).
Proof. destruct v; [apply ok_str_text|done..]. Qed.
Lemma int_ok v : has_type TInt v -> ok_int (int v).
Proof. by destruct v. Qed.
#[local] Hint Resolve str_ok int_ok : report.

Lemma cpu_ok v : has_type CPUData_type v -> ok_cpu (cpu_of v).
Proof. revert v. struct_fields. Qed.
Lemma mem_ok v : has_type MemData_type v -> ok_mem (mem_of v).
Proof. revert v. struct_fields. Qed.
Lemma disk_ok v : has_type DiskData_type v -> ok_disk (disk_of v).
Proof. revert v. struct_fields. Qed.
Lemma nic_ok v : has_type NICData_type v -> ok_nic (nic_of v).
Proof.
  revert v. struct_fields. by eapply elems_ok; [apply str_ok|].
Qed.
Lemma request_ok v : has_type InspectionReportRequest_type v -> ok_request (request_of v).
Proof.
  revert v. struct_fields;
    (eapply elems_ok; [first [exact cpu_ok|exact mem_ok|exact disk_ok|exact nic_ok]|done]).
Qed.

(** ** Properties *)

(** *** What the endpoint accepts

    The shape of a request, written out: [null] is accepted everywhere, a key
    names a field up to case, and members with other keys are ignored. *)

Definition string_json (j : json) : Prop := j = JNull \/ exists s, j = JString s.
Definition int_json (j : json) : Prop := j = JNull \/ exists lit n, j = JNumber lit /\ parse_int lit = Some n.
Definition list_json (P : json -> Prop) (j : json) : Prop := j = JNull \/ exists js, j = JArray js /\ Forall P js.
Definition object_json (shape : list (string * (json -> Prop))) (j : json) : Prop :=
  j = JNull \/ exists ms, j = JObject ms /\
    Forall (fun m : member => Forall (fun f : string * (json -> Prop) =>
      folded (fst m) = folded (bytes (fst f)) -> snd f (snd m)) shape) ms.

Definition cpu_shape : json -> Prop :=
  object_json [("id", string_json); ("vendor", string_json); ("model", string_json); ("cores", int_json);
               ("threads", int_json); ("frequency", string_json)].
Definition mem_shape : json -> Prop :=
  object_json [("id", string_json); ("type", string_json); ("capacity", string_json); ("speed", string_json)].
Definition disk_shape : json -> Prop :=
  object_json [("name", string_json); ("model", string_json); ("sizeGB", int_json); ("type", string_json);
               ("serialNumber", string_json)].
Definition nic_shape : json -> Prop :=
  object_json [("name", string_json); ("macAddress", string_json); ("driver", string_json); ("speed", string_json);
               ("ipAddresses", list_json string_json)].
Definition request_shape : json -> Prop :=
  object_json [("namespace", string_json); ("hostName", string_json); ("manufacturer", string_json);
               ("model", string_json); ("serialNumber", string_json); ("cpus", list_json cpu_shape);
               ("memory", list_json mem_shape); ("disks", list_json disk_shape); ("nics", list_json nic_shape);
               ("bootModeDetected", string_json); ("firmwareVersion", string_json)].

Definition shaped (t : gotype) (P : json -> Prop) : Prop := forall j, fits t j <-> P j.

Lemma shaped_list t P : shaped t P -> shaped (TSlice t) (list_json P).
Proof. intros H j. rewrite fits_slice. unfold list_json. f_equiv. f_equiv. intros js. f_equiv. by apply Forall_iff. Qed.
Lemma shaped_object fields shape :
  NoDup ((fun f => folded (bytes (fst f))) <$> fields) ->
  Forall2 (fun f g => fst f = fst g /\ shaped (snd f) (snd g)) fields shape ->
  shaped (TStruct fields) (object_json shape).
Proof.
  intros Hnd H j. rewrite fits_struct by done. unfold object_json. f_equiv. f_equiv. intros ms. f_equiv.
  apply Forall_iff. intros m. clear Hnd. induction H as [|f g fields shape [Hn Hs] _ IH]; [by rewrite !Forall_nil|].
  by rewrite !Forall_cons, IH, Hn, (Hs (snd m)).
Qed.
Ltac by_shape :=
  apply shaped_object; [names|];
  repeat (apply Forall2_cons_2; [split; [done|]; first [exact fits_string|exact fits_int|apply shaped_list; first [exact fits_string|auto with report]]|]);
  apply Forall2_nil_2.
Lemma cpu_shaped : shaped CPUData_type cpu_shape.
Proof. by_shape. Qed.
Lemma mem_shaped : shaped MemData_type mem_shape.
Proof. by_shape. Qed.
Lemma disk_shaped : shaped DiskData_type disk_shape.
Proof. by_shape. Qed.
Lemma nic_shaped : shaped NICData_type nic_shape.
Proof. by_shape. Qed.
#[local] Hint Resolve cpu_shaped mem_shaped disk_shaped nic_shaped : report.
Lemma request_shaped : shaped InspectionReportRequest_type request_shape.
Proof. by_shape. Qed.

(** C19: a body is decoded exactly if it starts with a JSON value of the shape of
    a request, each field and each field of each device a string, an int of 64
    bits or a list as the API documents it; else the error is the one of the
    syntax at hand, or that of a value that does not fit its field.  Reading ends
    with one of these on every body. *)
Theorem json_decode_outcome describe body :
  match json_decode describe body with
  | Ok _ => exists j rest, parse (bytes body) = Parsed j rest /\ request_shape j
  | Err e => exists je, e = ErrNew (describe je) /\
      (parse (bytes body) = Failed je \/
       exists j rest value path, parse (bytes body) = Parsed j rest /\ ~ request_shape j /\
         je = UnmarshalTypeError value path)
  end.
Proof.
  unfold json_decode. pose proof (Decode_outcome InspectionReportRequest_type (bytes body) (bytes_is_byte body)) as H.
  destruct (Decode _ _) as [e|v].
  - exists e. split; [done|]. destruct H as [?|(j & rest & value & path & ? & Hf & ?)]; [by left|]. right.
    rewrite (request_shaped j) in Hf. by eauto 10.
  - destruct H as (_ & j & rest & ? & Hf%request_shaped). by eauto.
Qed.

(** C18: every decoded request has UTF-8 strings and ints of 64 bits, whatever the
    bytes of the body; so it can be written as JSON again, and is read back from
    it. *)
Theorem decoded_request_typed describe body req :
  json_decode describe body = Ok req ->
  ok_request req /\ json_decode describe (request_text req) = Ok req.
Proof.
  unfold json_decode at 1. pose proof (Decode_outcome InspectionReportRequest_type (bytes body) (bytes_is_byte body)) as H.
  destruct (Decode _ _) as [e|v]; [done|]. intros [= <-]. destruct H as [Hv%request_ok _]. split; [done|].
  pose proof (decode_request_text describe _ "" Hv I) as Hr. by rewrite str_app_nil_r in Hr.
Qed.
Lemma decoded_request_typed_witness :
  exists req, irr_HostName req = "h1" /\ ok_request req /\ json_decode (fun _ => "") (request_text req) = Ok req.
Proof.
  destruct (json_decode (fun _ => "") (char 123 +:+ quoted "hostname" +:+ ":" +:+ quoted "h1" +:+ "}")) as [req|e] eqn:Hd;
    vm_compute in Hd; [|done].
  exists req. split; [by injection Hd as <-|].
  apply (decoded_request_typed _ (char 123 +:+ quoted "hostname" +:+ ":" +:+ quoted "h1" +:+ "}")). vm_compute. exact Hd.
Defined.

(** C17: a posted report is stored whole.  The JSON text of a request whose
    strings are UTF-8, whose ints are 64 bits wide and that names a host is never
    refused as malformed; if the host can be read and written the answer is 200,
    and the host then has, in order, every device and field of the request. *)
Theorem posted_report_stored describe r trailing :
  ok_request r -> ends_number (bytes trailing) -> irr_Namespace r <> "" -> irr_HostName r <> "" ->
  let k := {| nn_Namespace := irr_Namespace r; nn_Name := irr_HostName r |} in
  post (ServeHTTP (json_decode describe) {| rq_Method := MethodPost; rq_Body := request_text r +:+ trailing |})
    (fun tr '(code, _) =>
      (code = 500 /\ exists e, tr = [@Ev Env (AGetHost k) (Err e)]) \/
      exists h now h' report u,
        tr = [@Ev Env (AGetHost k) (Ok h); @Ev Env ANow now; @Ev Env (AUpdateHostStatus h') u] /\
        code = (if is_ok u then 200 else 500) /\ completed h report h' /\ reported r now report).
Proof.
  intros Hr Ht Hns Hname k. unfold ServeHTTP. cbn [rq_Method rq_Body]. rewrite decode_request_text by done.
  rewrite (proj2 (String.eqb_neq _ _) Hns), (proj2 (String.eqb_neq _ _) Hname).
  replace (negb (MethodPost ==s MethodPost)) with false by done. cbn [orb]. unfold updatePhysicalHost.
  wp_steps; try done. all: try (left; by eauto). all: right; eexists _, _, _, _, _; (split; [done|]); (split; [done|]); split; [by split_and!|apply build_report_reported].
Qed.

Definition sample_request : InspectionReportRequest :=
  {| irr_Namespace := "metal"; irr_HostName := "rack1"; irr_Manufacturer := "Acme " +:+ char 34 +:+ char 9; irr_Model := "";
     irr_SerialNumber := "S-1";
     irr_CPUs := [{| cd_ID := "0"; cd_Vendor := ""; cd_Model := "M"; cd_Cores := 64; cd_Threads := 128; cd_Frequency := "" |}];
     irr_Memory := []; irr_Disks := [];
     irr_NICs := [{| nd_Name := "eth0"; nd_MACAddress := "aa:bb"; nd_Driver := ""; nd_Speed := ""; nd_IPAddresses := ["10.0.0.1"; "10.0.0.2"] |}];
     irr_BootModeDetected := "UEFI"; irr_FirmwareVersion := "" |}.

Lemma posted_report_stored_witness :
  post (ServeHTTP (json_decode (fun _ => "malformed")) {| rq_Method := MethodPost; rq_Body := request_text sample_request +:+ char 10 |})
    (fun tr '(code, _) => code = 200 ->
      exists h now h' report u,
        tr = [@Ev Env (AGetHost {| nn_Namespace := "metal"; nn_Name := "rack1" |}) (Ok h); @Ev Env ANow now;
              @Ev Env (AUpdateHostStatus h') u] /\ completed h report h' /\ reported sample_request now report).
Proof.
  eapply wp_mono; [apply (posted_report_stored (fun _ => "malformed") sample_request (char 10))|].
  - unfold ok_request, ok_str, ok_int. cbn. split_and!; try (by apply utf8_ascii); try done.
    + apply Forall_cons_2; [|apply Forall_nil_2]. split_and!; by apply utf8_ascii || done.
    + apply Forall_cons_2; [|apply Forall_nil_2]. split_and!; try by apply utf8_ascii.
      apply Forall_cons_2; [by apply utf8_ascii|]. apply Forall_cons_2; [by apply utf8_ascii|apply Forall_nil_2].
  - done.
  - done.
  - done.
  - intros tr [code body] _ H. cbn in H. destruct H as [[-> _]|(h & now & h' & report & u & -> & _ & ? & ?)]; [done|]. intros _. by eauto 10.
Defined.
