(* ===== verification/Server.v ===== *)
(** * The inspection server (controllers/inspection_handler.go)

    [SetupInspectionServer]: the request multiplexer in front of the report
    endpoint, on a model of [http.ServeMux] of Go 1.25, and the two functions that
    run the server and shut it down, as programs over the calls of [http.Server]. *)

From S2P Require Import Prelude GoText GoFmt Api Lib GoUrl Prog Actions Inspection.
From Stdlib Require Import Ascii.

(** ** Package path and the multiplexer *)

Definition slash : ascii := "/".

(** One element of a rooted path, with those before it, last first. *)
Definition clean_step (stack : list string) (seg : string) : list string :=
  if (seg ==s "") || (seg ==s ".") then stack
  else if seg ==s ".." then tail stack
  else seg :: stack.

(** [path.Clean(p)] of a rooted path. *)
Definition Clean (p : string) : string :=
  String slash (Join (reverse (fold_left clean_step (Split p slash) [])) "/").

Definition rooted (p : string) : string :=
  match p with String c _ => if Ascii.eqb c slash then p else String slash p | "" => String slash p end.

(** [cleanPath(p)] of package http *)
Definition cleanPath (p : string) : string :=
  if p ==s "" then "/"
  else
    let np := Clean (rooted p) in
    if HasSuffix (rooted p) "/" && negb (np ==s "/") then np +:+ "/" else np.

(** The elements of an escaped path, each unescaped if it can be. *)
Definition segment `{Lib} (s : string) : string :=
  match unescape s encodePath with Ok t => t | Err _ => s end.
Definition segments `{Lib} (path : string) : list string :=
  match path with
  | "" => []
  | String _ rest => segment <$> Split rest slash
  end.

Record http_Request := {
  hr_Method : string; hr_URL : URL; hr_RequestURI : string; hr_Body : string
}.

(** What the client gets: the answer of a handler, or the order to go to the
    cleaned path. *)
Inductive answered :=
| Answered (r : response)
| MovedPermanently (path query : string).

Section Mux.
  Context `{L : Lib} {handler : Type} (serve : handler -> http_Request -> prog Env response).

(** The patterns, without method, host and wildcards, and their handlers, as
    [mux.Handle] registered them. *)
Abbreviation ServeMux := (list (string * handler)).

Definition mux_match (mux : ServeMux) (path : string) : option handler :=
  snd <$> List.find (fun ph => bool_decide (segments (fst ph) = segments path)) mux.

Definition NotFound : response := http_Error "404 page not found" 404.

(** [ServeMux.ServeHTTP] with [findHandler]. *)
Definition mux_ServeHTTP (mux : ServeMux) (r : http_Request) : prog Env answered :=
  if hr_RequestURI r ==s "*" then Ret (Answered (400, ""))
  else
    let escapedPath := EscapedPath (hr_URL r) in
    let connect := hr_Method r ==s "CONNECT" in
    let path := if connect then escapedPath else cleanPath escapedPath in
    if negb connect && negb (path ==s escapedPath) then Ret (MovedPermanently path (u_RawQuery (hr_URL r)))
    else
      match mux_match mux path with
      | Some h => let! a := serve h r in Ret (Answered a)
      | None => Ret (Answered NotFound)
      end.

End Mux.

(** ** The server *)

(** The two handlers. *)
Inductive server_handler :=
| InspectionHandler
| HealthzHandler.

Record http_Server := {
  srv_Addr : string;
  srv_Handler : list (string * server_handler);
  srv_ReadTimeout : Z; srv_WriteTimeout : Z; srv_IdleTimeout : Z
}.

Definition inspection_server (port : Z) : http_Server :=
  {| srv_Addr := ":" +:+ pretty port;
     srv_Handler := [("/api/v1/inspection", InspectionHandler); ("/healthz", HealthzHandler)];
     srv_ReadTimeout := 15 * Second; srv_WriteTimeout := 15 * Second; srv_IdleTimeout := 60 * Second |}.

Section Serving.
  Context `{L : Lib} (json_decode : string -> result InspectionReportRequest).

Definition serve_handler (h : server_handler) (r : http_Request) : prog Env response :=
  match h with
  | InspectionHandler => ServeHTTP json_decode {| rq_Method := hr_Method r; rq_Body := hr_Body r |}
  | HealthzHandler => Ret (StatusOK, "ok")
  end.

(** A request to the server. *)
Definition server_ServeHTTP (port : Z) (r : http_Request) : prog Env answered :=
  mux_ServeHTTP serve_handler (srv_Handler (inspection_server port)) r.

End Serving.

(** ** Cleaning a path *)

(** An element that cleaning keeps. *)
Definition proper (seg : string) : Prop := seg <> "" /\ seg <> "." /\ seg <> ".." /\ absent slash seg = true.

Lemma absent_app c s t : absent c (s +:+ t) = absent c s && absent c t.
Proof. unfold absent. apply all_bytes_app. Qed.

Lemma split_aux_absent acc s : absent slash acc = true -> Forall (fun seg => absent slash seg = true) (split_aux slash acc s).
Proof.
  revert acc. induction s as [|c s IH]; intros acc Ha; simpl; [by apply Forall_cons_2; [|apply Forall_nil_2]|].
  destruct (Ascii.eqb_spec c slash) as [->|Hc]; [apply Forall_cons_2; [done|by apply IH]|].
  apply IH. rewrite absent_app, Ha. unfold absent, all_bytes. cbn. by destruct (Ascii.eqb_spec c slash).
Qed.

Lemma split_aux_snoc acc s t : absent slash s = true -> split_aux slash acc (s +:+ String slash t) = (acc +:+ s) :: split_aux slash "" t.
Proof.
  revert acc. induction s as [|c s IH]; intros acc Hs.
  - cbn. by rewrite str_app_nil_r.
  - unfold absent, all_bytes in Hs. cbn in Hs. apply andb_true_iff in Hs as [Hc Hs].
    change (split_aux slash acc (String c (s +:+ String slash t)) = (acc +:+ String c s) :: split_aux slash "" t).
    cbn [split_aux]. destruct (Ascii.eqb c slash); [done|]. rewrite IH by done. by rewrite str_app_assoc.
Qed.
Lemma split_aux_whole acc s : absent slash s = true -> split_aux slash acc s = [acc +:+ s].
Proof.
  revert acc. induction s as [|c s IH]; intros acc Hs.
  - cbn. by rewrite str_app_nil_r.
  - unfold absent, all_bytes in Hs. cbn in Hs. apply andb_true_iff in Hs as [Hc Hs]. cbn [split_aux].
    destruct (Ascii.eqb c slash); [done|]. rewrite IH by done. by rewrite str_app_assoc.
Qed.

(** [strings.Split(strings.Join(l, "/"), "/")] *)
Lemma Join_Split l : l <> [] -> Forall (fun seg => absent slash seg = true) l -> Split (Join l "/") slash = l.
Proof.
  intros Hne Hl. induction Hl as [|x l Hx Hl IH]; [done|]. destruct l as [|y l].
  - unfold Split. by rewrite split_aux_whole.
  - change (Split (x +:+ "/" +:+ Join (y :: l) "/") slash = x :: y :: l).
    change ("/" +:+ ?t) with (String slash t). unfold Split. rewrite split_aux_snoc by done. f_equal. by apply IH.
Qed.

Lemma clean_step_proper stack seg :
  absent slash seg = true -> Forall proper stack -> Forall proper (clean_step stack seg).
Proof.
  intros Hs Hst. unfold clean_step. destruct (_ || _) eqn:E1; [done|]. destruct (seg ==s "..") eqn:E2.
  - destruct Hst; [apply Forall_nil_2|done].
  - reflect. apply Forall_cons_2; [|done]. unfold proper. naive_solver.
Qed.
Lemma clean_proper l stack :
  Forall (fun seg => absent slash seg = true) l -> Forall proper stack -> Forall proper (fold_left clean_step l stack).
Proof.
  intros Hl. revert stack. induction Hl as [|x l Hx Hl IH]; intros stack Hst; [done|]. by apply IH, clean_step_proper.
Qed.
Lemma clean_keeps l stack : Forall proper l -> fold_left clean_step l stack = reverse l ++ stack.
Proof.
  intros Hl. revert stack. induction Hl as [|x l (H1 & H2 & H3 & _) Hl IH]; intros stack; [done|]. cbn [fold_left].
  rewrite IH, reverse_cons, <- app_assoc. f_equal. unfold clean_step.
  by rewrite (proj2 (String.eqb_neq x "")), (proj2 (String.eqb_neq x ".")), (proj2 (String.eqb_neq x "..")).
Qed.

Lemma Split_slash s : Split (String slash s) slash = "" :: Split s slash.
Proof. done. Qed.

(** The elements of a cleaned path. *)
Lemma Clean_elements p : exists l, Forall proper l /\ Clean p = String slash (Join l "/").
Proof.
  exists (reverse (fold_left clean_step (Split p slash) [])). split; [|done]. apply Forall_reverse, clean_proper.
  - by apply split_aux_absent.
  - apply Forall_nil_2.
Qed.
Lemma Clean_proper l : Forall proper l -> Clean (String slash (Join l "/")) = String slash (Join l "/").
Proof.
  intros Hl. unfold Clean. rewrite Split_slash. cbn [fold_left]. destruct l as [|x l]; [done|].
  rewrite Join_Split; [|done|].
  - change (clean_step [] "") with (@nil string). rewrite clean_keeps by done. by rewrite app_nil_r, reverse_involutive.
  - eapply Forall_impl; [exact Hl|]. by intros y (_ & _ & _ & ?).
Qed.

Lemma HasSuffix_slash s c : HasSuffix (s +:+ String c "") "/" = Ascii.eqb c slash.
Proof.
  unfold HasSuffix. rewrite len_app. change (len (String c "")) with 1%nat. change (len "/") with 1%nat. rewrite (proj2 (Nat.leb_le _ _)) by lia.
  replace (len s + 1 - 1)%nat with (len s) by lia. rewrite str_drop_app. cbn [andb].
  destruct (Ascii.eqb_spec c slash) as [->|Hc]; [done|]. apply String.eqb_neq. by intros [= ->].
Qed.
Lemma absent_last s : s <> "" -> absent slash s = true -> exists t c, s = t +:+ String c "" /\ c <> slash.
Proof.
  induction s as [|c s IH]; [done|]. intros _ H. unfold absent, all_bytes in H. cbn in H. apply andb_true_iff in H as [Hc Hs].
  destruct s as [|d s].
  - exists "", c. split; [done|]. by destruct (Ascii.eqb_spec c slash).
  - destruct IH as (t & c' & Hs' & Hc'); [done|done|]. exists (String c t), c'. split; [|done]. by rewrite Hs'.
Qed.
Lemma Join_last l : l <> [] -> Forall proper l -> exists t c, Join l "/" = t +:+ String c "" /\ c <> slash.
Proof.
  intros Hne Hl. induction Hl as [|x l (Hx & _ & _ & Ha) Hl IH]; [done|]. destruct l as [|y l]; [by apply absent_last|].
  destruct IH as (t & c & Ht & Hc); [done|]. exists (x +:+ "/" +:+ t), c. split; [|done].
  change (x +:+ "/" +:+ Join (y :: l) "/" = (x +:+ "/" +:+ t) +:+ String c ""). by rewrite Ht, !str_app_assoc.
Qed.
Lemma Join_snoc l : l <> [] -> Join (l ++ [""]) "/" = Join l "/" +:+ "/".
Proof.
  induction l as [|x l IH]; [done|]. intros _. destruct l as [|y l]; [done|].
  change (x +:+ "/" +:+ Join ((y :: l) ++ [""]) "/" = (x +:+ "/" +:+ Join (y :: l) "/") +:+ "/").
  by rewrite IH, !str_app_assoc by done.
Qed.

Lemma cleaned_path l : Forall proper l -> cleanPath (String slash (Join l "/")) = String slash (Join l "/").
Proof.
  intros Hl. unfold cleanPath. change (String slash (Join l "/") ==s "") with false. cbv iota.
  change (rooted (String slash (Join l "/"))) with (String slash (Join l "/")). rewrite Clean_proper by done.
  destruct l as [|x l]; [done|]. destruct (Join_last (x :: l)) as (t & c & Ht & Hc); [done|done|]. rewrite Ht.
  change (String slash (t +:+ String c "")) with (String slash t +:+ String c ""). rewrite HasSuffix_slash.
  by rewrite (proj2 (Ascii.eqb_neq c slash)).
Qed.
Lemma cleaned_directory l : l <> [] -> Forall proper l ->
  cleanPath (String slash (Join l "/") +:+ "/") = String slash (Join l "/") +:+ "/".
Proof.
  intros Hne Hl. unfold cleanPath. set (q := String slash (Join l "/") +:+ "/"). change (q ==s "") with false. cbv iota.
  change (rooted q) with q. assert (Clean q = String slash (Join l "/")) as ->.
  { unfold Clean, q. change (String slash (Join l "/") +:+ "/") with (String slash (Join l "/" +:+ "/")).
    rewrite Split_slash, <- Join_snoc by done. cbn [fold_left]. rewrite Join_Split.
    - change (clean_step [] "") with (@nil string). rewrite fold_left_app, (clean_keeps l), app_nil_r by done.
      cbn [fold_left]. change (clean_step (reverse l) "") with (reverse l). by rewrite reverse_involutive.
    - by destruct l.
    - apply Forall_app_2; [|by apply Forall_cons_2; [|apply Forall_nil_2]].
      eapply Forall_impl; [exact Hl|]. by intros y (_ & _ & _ & ?). }
  assert (HasSuffix q "/" = true) as -> by apply (HasSuffix_slash (String slash (Join l "/")) slash).
  rewrite (proj2 (String.eqb_neq (String slash (Join l "/")) "/")); [done|].
  destruct (Join_last l) as (t & c & -> & _); [done..|]. intros H. injection H as H. apply (f_equal len) in H. rewrite len_app in H. cbn in H. lia.
Qed.

(** Cleaning a path twice is cleaning it once. *)
Lemma cleanPath_idempotent p : cleanPath (cleanPath p) = cleanPath p.
Proof.
  unfold cleanPath at 2 3. destruct (p ==s ""); [done|]. destruct (Clean_elements (rooted p)) as (l & Hl & ->).
  destruct (HasSuffix (rooted p) "/" && negb (String slash (Join l "/") ==s "/")) eqn:E; [|by apply cleaned_path].
  apply cleaned_directory; [|done]. intros ->. reflect. by destruct E.
Qed.

(** ** Properties *)

Section Routes.
  Context `{L : Lib} (dec : string -> result InspectionReportRequest).

(** The request is for exactly this path, in clean form. *)
Definition reaches (r : http_Request) (path : string) : Prop :=
  hr_RequestURI r <> "*" /\ segments (EscapedPath (hr_URL r)) = segments path /\
  (hr_Method r = "CONNECT" \/ cleanPath (EscapedPath (hr_URL r)) = EscapedPath (hr_URL r)).

Lemma routes_match port path :
  mux_match (srv_Handler (inspection_server port)) path =
    if bool_decide (segments path = segments "/api/v1/inspection") then Some InspectionHandler
    else if bool_decide (segments path = segments "/healthz") then Some HealthzHandler
    else None.
Proof.
  unfold mux_match. cbn -[segments]. rewrite !(bool_decide_ext (segments _ = segments path) _ (symmetry_iff eq _ _)).
  by repeat case_match.
Qed.

(** C32: where requests go.  The report endpoint answers exactly the requests for
    [/api/v1/inspection], whatever their method, and the health check exactly
    those for [/healthz], without a call to the cluster; any other request calls
    nothing and gets 400, 404 or a redirection to a path that is not redirected
    again.  The longer path with a namespace and a host name, which the
    documentation gives for reports, is such another request. *)
Theorem server_routes port r :
  (reaches r "/api/v1/inspection" /\
   server_ServeHTTP dec port r =
     (let! a := ServeHTTP dec {| rq_Method := hr_Method r; rq_Body := hr_Body r |} in Ret (Answered a))) \/
  (reaches r "/healthz" /\ server_ServeHTTP dec port r = Ret (Answered (200, "ok"))) \/
  (~ reaches r "/api/v1/inspection" /\ ~ reaches r "/healthz" /\
   exists ans, server_ServeHTTP dec port r = Ret ans /\
     match ans with
     | Answered (code, _) => code = 400 \/ code = 404
     | MovedPermanently path _ => path <> EscapedPath (hr_URL r) /\ cleanPath path = path
     end).
Proof.
  unfold server_ServeHTTP, mux_ServeHTTP, reaches. destruct (hr_RequestURI r ==s "*") eqn:Eu; reflect.
  { right; right. split_and!; [by intros [? _]..|]. eexists. split; [done|]. by left. }
  set (path := if hr_Method r ==s "CONNECT" then _ else _).
  assert (hr_Method r = "CONNECT" \/ cleanPath (EscapedPath (hr_URL r)) = EscapedPath (hr_URL r) <->
    negb (hr_Method r ==s "CONNECT") && negb (path ==s EscapedPath (hr_URL r)) = false) as Hpath.
  { subst path. destruct (hr_Method r ==s "CONNECT") eqn:?; cbn [negb andb]; reflect; tauto. }
  destruct (negb _ && negb _) eqn:Ep.
  { right; right. split_and!; [by intros (_ & _ & ?%Hpath)..|]. eexists. split; [done|]. apply andb_true_iff in Ep as [Em Ep].
    subst path. destruct (hr_Method r ==s "CONNECT"); [done|]. reflect. split; [done|apply cleanPath_idempotent]. }
  assert (path = EscapedPath (hr_URL r)) as ->.
  { subst path. destruct (hr_Method r ==s "CONNECT"); [done|]. cbn in Ep. by apply negb_false_iff, String.eqb_eq in Ep. }
  rewrite routes_match. repeat case_bool_decide.
  - left. split; [by rewrite Hpath|done].
  - right; left. split; [by rewrite Hpath|done].
  - right; right. split_and!; [by intros (_ & ? & _)..|]. eexists. split; [done|]. by right.
Qed.

End Routes.

(** ** Start and shutdown

    [ListenAndServe] runs in a goroutine of [SetupInspectionServer]; the manager
    runs [Start], which waits for its context and then shuts the server down. *)

Inductive run_action :=
| RListenAndServe (srv : http_Server)    (* server.ListenAndServe() *)
| RLogError (err : error) (msg : string) (* log.Error *)
| RContextDone                           (* <-ctx.Done() *)
| RWithTimeout (d : Z)                   (* context.WithTimeout *)
| RShutdown                              (* r.server.Shutdown with the context just made *)
| RCancel.                               (* its cancel function *)
Definition run_answer (a : run_action) : Type :=
  match a with
  | RListenAndServe _ | RShutdown => option error
  | RLogError _ _ | RContextDone | RWithTimeout _ | RCancel => unit
  end.
Definition Running : sig := {| action := run_action; answer := run_answer |}.

Definition ErrServerClosed : error := ErrNew "http: Server closed".

Definition serve_goroutine (port : Z) : prog Running unit :=
  let! e := @call Running (RListenAndServe (inspection_server port)) in
  match e with
  | Some err =>
      if bool_decide (err <> ErrServerClosed)
      then @call Running (RLogError err "Failed to start inspection HTTP server")
      else Ret tt
  | None => Ret tt
  end.

Definition runnable_Start : prog Running (option error) :=
  @call Running RContextDone ;;!
  @call Running (RWithTimeout (30 * Second)) ;;!
  let! e := @call Running RShutdown in
  @call Running RCancel ;;!
  Ret e.

(** [Start] shuts the server down only after its context is done, once, under a
    deadline of thirty seconds of its own, and returns what [Shutdown] returns. *)
Lemma runnable_Start_trace :
  post runnable_Start (fun tr r =>
    tr = [@Ev Running RContextDone tt; @Ev Running (RWithTimeout 30000000000) tt; @Ev Running RShutdown r;
          @Ev Running RCancel tt]).
Proof. unfold runnable_Start. wp_steps; try done. by destruct r, r0, r2. Qed.
