(* ===== verification/ClusterController.v ===== *)
(** * controllers/beskar7cluster_controller.go

    The Beskar7Cluster reconciler: it derives the cluster's failure domains from
    the zone labels of the hosts in its namespace, and its control plane
    endpoint from the first control plane machine that is ready. *)

From S2P Require Import Prelude Api Lib Prog Actions Utils.

Definition Beskar7ClusterFinalizer := "beskar7cluster.infrastructure.cluster.x-k8s.io".
Definition zoneLabelKey := "topology.kubernetes.io/zone".
Definition ClusterNameLabel := "cluster.x-k8s.io/cluster-name".
Definition controlPlaneLabel := "cluster.x-k8s.io/control-plane".
Definition DeletingReason := "Deleting".

(** Label values of package metrics. *)
Definition ReconciliationOutcomeSuccess := "success".
Definition ReconciliationOutcomeError := "error".
Definition ReconciliationOutcomeNotFound := "not_found".
Definition ErrorTypeUnknown := "unknown".
Definition ProvisioningOutcomeSuccess := "success".
Definition ProvisioningOutcomeFailed := "failed".

#[export] Instance FailureDomainSpec_eq_dec : EqDecision FailureDomainSpec.
Proof. solve_decision. Defined.

Definition bc_Name (c : Beskar7Cluster) : string := om_Name (bc_Meta c).
Definition bc_Namespace (c : Beskar7Cluster) : string := om_Namespace (bc_Meta c).

(** ** Failure domains *)

(** [len] of a map that may be nil. *)
Definition fd_len (d : FailureDomains) : nat := match d with None => 0 | Some m => size m end.

Definition failureDomainsEqual (a b : FailureDomains) : bool :=
  match a, b with
  | None, None => true
  | _, _ =>
      if (match a with None => (fd_len b =? 0)%nat | _ => false end)
         || (match b with None => (fd_len a =? 0)%nat | _ => false end) then true
      else
        match a, b with
        | Some m, Some m' => bool_decide (m = m')
        | _, _ => false
        end
  end.

(** The loop over the hosts. *)
Fixpoint zones_loop (acc : gmap string FailureDomainSpec) (items : list PhysicalHost)
  : gmap string FailureDomainSpec :=
  match items with
  | [] => acc
  | ph :: rest =>
      match om_Labels (ph_Meta ph) !! zoneLabelKey with
      | Some zone =>
          if negb (zone ==s "")
          then zones_loop (<[zone := {| fd_ControlPlane := true; fd_Attributes := None |}]> acc) rest
          else zones_loop acc rest
      | None => zones_loop acc rest
      end
  end.

Definition reconcileFailureDomains (b7cluster : Beskar7Cluster)
  : prog Env (Beskar7Cluster * option error) :=
  let ns := bc_Namespace b7cluster in
  let currentFailureDomains := cst_FailureDomains (bc_Status b7cluster) in
  let! l := @call Env (AListHosts ns) in
  match l with
  | Err err =>
      @call Env (AMetric (RecordFailureDomainDiscovery ns ProvisioningOutcomeFailed)) ;;!
      Ret (b7cluster, Some (ErrWrap "failed to list PhysicalHosts for failure domain discovery" err))
  | Ok items =>
      if (length items =? 0)%nat && (fd_len currentFailureDomains =? 0)%nat then
        @call Env (AMetric (RecordFailureDomainDiscovery ns ProvisioningOutcomeSuccess)) ;;!
        Ret (b7cluster, None)
      else
        let newFailureDomains := Some (zones_loop ∅ items) in
        if failureDomainsEqual currentFailureDomains newFailureDomains then
          @call Env (AMetric (RecordFailureDomainDiscovery ns ProvisioningOutcomeSuccess)) ;;!
          Ret (b7cluster, None)
        else
          let b7cluster := bc_upd_Status (set_cst_FailureDomains newFailureDomains) b7cluster in
          @call Env (AMetric (RecordFailureDomains (bc_Name b7cluster) ns (Z.of_nat (fd_len newFailureDomains)))) ;;!
          @call Env (AMetric (RecordFailureDomainDiscovery ns ProvisioningOutcomeSuccess)) ;;!
          Ret (b7cluster, None)
  end.

Section ClusterController.
  Context {L : Lib}.


(** ** The control plane endpoint *)

(** The first internal address, which the loop leaves with [break]. *)
Fixpoint internal_address (l : list MachineAddress) : string :=
  match l with
  | [] => ""
  | addr :: l' => if ma_Type addr ==s MachineInternalIP then ma_Address addr else internal_address l'
  end.

Fixpoint endpoint_loop (items : list Machine) : option APIEndpoint :=
  match items with
  | [] => None
  | machine :: rest =>
      if negb (IsTrue (m_Conditions machine) InfrastructureReadyCondition) then endpoint_loop rest
      else
        match m_Addresses machine with
        | [] => endpoint_loop rest
        | first :: _ =>
            let selectedAddress := internal_address (m_Addresses machine) in
            let selectedAddress := if selectedAddress ==s "" then ma_Address first else selectedAddress in
            Some {| ep_Host := selectedAddress; ep_Port := 6443 |}
        end
  end.

Definition findControlPlaneEndpoint (cluster : Cluster) : prog Env (result (option APIEndpoint)) :=
  let! l := @call Env (AListMachines (om_Namespace (cl_Meta cluster))
              [(ClusterNameLabel, om_Name (cl_Meta cluster)); (controlPlaneLabel, "")]) in
  match l with
  | Err err => Ret (Err err)
  | Ok items => if (length items =? 0)%nat then Ret (Ok None) else Ret (Ok (endpoint_loop items))
  end.

Definition reconcileControlPlaneEndpoint (cluster : Cluster) (b7cluster : Beskar7Cluster)
  : prog Env (Beskar7Cluster * option error) :=
  let! r := findControlPlaneEndpoint cluster in
  match r with
  | Err err =>
      Ret (b7cluster, Some (ErrWrap ("failed to find control plane endpoint for cluster "
        +:+ om_Namespace (cl_Meta cluster) +:+ "/" +:+ om_Name (cl_Meta cluster)) err))
  | Ok None =>
      let b7cluster := mark_false b7cluster ControlPlaneEndpointReady ControlPlaneEndpointNotSetReason
        ConditionSeverityInfo "Waiting for control plane Beskar7Machine(s) to have IP addresses" in
      Ret (bc_upd_Status (set_cst_Ready false) b7cluster, None)
  | Ok (Some cpEndpoint) =>
      let b7cluster := bc_upd_Status (set_cst_ControlPlaneEndpoint cpEndpoint) b7cluster in
      let b7cluster := mark_true b7cluster ControlPlaneEndpointReady in
      Ret (bc_upd_Status (set_cst_Ready true) b7cluster, None)
  end.

(** ** reconcileNormal, reconcileDelete, Reconcile *)

Definition cluster_reconcileNormal (cluster : Cluster) (b7cluster : Beskar7Cluster)
  : prog Env (Beskar7Cluster * reconcile_result) :=
  let '(meta, added) := AddFinalizer (bc_Meta b7cluster) Beskar7ClusterFinalizer in
  let b7cluster := set_bc_Meta meta b7cluster in
  if added : bool then Ret (b7cluster, (RequeueResult, None))
  else
    let! (b7cluster, err) := reconcileFailureDomains b7cluster in
    match err with
    | Some e => Ret (b7cluster, (NoResult, Some e))
    | None =>
        let! (b7cluster, err) := reconcileControlPlaneEndpoint cluster b7cluster in
        match err with
        | Some e => Ret (b7cluster, (NoResult, Some e))
        | None =>
            if negb (cst_Ready (bc_Status b7cluster))
            then Ret (b7cluster, (AfterResult (30 * Second), None))
            else Ret (b7cluster, (NoResult, None))
        end
    end.

Definition cluster_reconcileDelete (b7cluster : Beskar7Cluster) : Beskar7Cluster * reconcile_result :=
  let b7cluster := mark_false b7cluster ControlPlaneEndpointReady DeletingReason ConditionSeverityInfo
                     "Beskar7Cluster is being deleted" in
  (set_bc_Meta (RemoveFinalizer (bc_Meta b7cluster) Beskar7ClusterFinalizer).1 b7cluster, (NoResult, None)).

(** The second deferred function. *)
Definition cluster_patch (before b7cluster : Beskar7Cluster) (x : reconcile_result)
  : prog Env reconcile_result :=
  let b7cluster := set_summary b7cluster [ControlPlaneEndpointReady] in
  let! p := @call Env (APatchCluster before b7cluster) in
  match p, x with
  | Err err, (res, None) => Ret (res, Some err)
  | _, _ => Ret x
  end.

(** The body of [Reconcile] with its results and the values of the variables
    [outcome] and [errorType] when it returns. *)
Definition cluster_body (req : NamespacedName) : prog Env (reconcile_result * (string * string)) :=
  let failed (err : error) := Ret (NoResult, Some err, (ReconciliationOutcomeError, ErrorTypeUnknown)) in
  let done (res : Result) := Ret (res, None, (ReconciliationOutcomeSuccess, "")) in
  let! g := @call Env (AGetCluster req) in
  match g with
  | Err err =>
      if IsNotFound err then Ret (NoResult, None, (ReconciliationOutcomeNotFound, "")) else failed err
  | Ok b7cluster =>
      if isPaused (bc_Meta b7cluster) then done NoResult
      else
        let! o := @call Env (AGetOwnerCluster (bc_Meta b7cluster)) in
        match o with
        | Err err => failed err
        | Ok None => done (AfterResult (10 * Second))
        | Ok (Some cluster) =>
            if isClusterPaused (Some cluster) then done NoResult
            else
              let! ph := @call Env (ANewClusterHelper b7cluster) in
              match ph with
              | Err err => failed err
              | Ok _ =>
                  let! (b7cluster', x) :=
                    match om_DeletionTimestamp (bc_Meta b7cluster) with
                    | Some _ => Ret (cluster_reconcileDelete b7cluster)
                    | None => cluster_reconcileNormal cluster b7cluster
                    end in
                  let! x := cluster_patch b7cluster b7cluster' x in
                  Ret (x, (ReconciliationOutcomeSuccess, ""))
              end
        end
  end.

(** [Reconcile], with its first deferred function. *)
Definition cluster_Reconcile (req : NamespacedName) : prog Env reconcile_result :=
  let! startTime := @call Env ANow in
  let! (x, (outcome, errorType)) := cluster_body req in
  let! now := @call Env ANow in
  @call Env (AMetric (RecordReconciliation "beskar7cluster" (nn_Namespace req) outcome
                        (time_sub now startTime))) ;;!
  match x.2 with
  | Some _ => @call Env (AMetric (RecordError "beskar7cluster" (nn_Namespace req) errorType)) ;;! Ret x
  | None => Ret x
  end.

(** ** PhysicalHostToBeskar7Clusters *)

Definition bc_Key (c : Beskar7Cluster) : NamespacedName :=
  {| nn_Namespace := bc_Namespace c; nn_Name := bc_Name c |}.

(** [requests[i] = ...] for each index of the list. *)
Fixpoint cluster_requests (requests : list NamespacedName) (i : nat) (items : list Beskar7Cluster)
  : list NamespacedName :=
  match items with
  | [] => requests
  | c :: rest => cluster_requests (<[i := bc_Key c]> requests) (S i) rest
  end.

Definition PhysicalHostToBeskar7Clusters (obj : client_Object) : prog Env (list NamespacedName) :=
  match obj with
  | ObjPhysicalHost physicalHost =>
      let! l := @call Env (AListClusters (ph_Namespace physicalHost)) in
      match l with
      | Err _ => Ret []
      | Ok items =>
          let zero := {| nn_Namespace := ""; nn_Name := "" |} in
          Ret (cluster_requests (replicate (length items) zero) 0 items)
      end
  | _ => Ret []
  end.

End ClusterController.

(** ** Properties *)

(** The zone a host is labelled with. *)
Definition host_zone (h : PhysicalHost) : option string :=
  match om_Labels (ph_Meta h) !! zoneLabelKey with
  | Some z => if z ==s "" then None else Some z
  | None => None
  end.

(** The failure domains of a set of zones. *)
Definition zone_spec : FailureDomainSpec := {| fd_ControlPlane := true; fd_Attributes := None |}.
Definition zones (items : list PhysicalHost) : gmap string FailureDomainSpec :=
  gset_to_gmap zone_spec (list_to_set (omap host_zone items)).

Lemma zones_loop_union items acc : zones_loop acc items = zones items ∪ acc.
Proof.
  unfold zones. revert acc. induction items as [|h items IH]; intros acc; cbn [zones_loop omap list_omap].
  - cbn [list_to_set]. by rewrite gset_to_gmap_empty, map_empty_union.
  - unfold host_zone at 1. destruct (om_Labels (ph_Meta h) !! zoneLabelKey) as [z|]; [|apply IH].
    destruct (z ==s ""); cbn [negb]; [apply IH|]. rewrite IH. cbn [list_to_set].
    rewrite gset_to_gmap_union_singleton. fold zone_spec. apply map_eq. intros k.
    rewrite lookup_union. destruct (decide (z = k)) as [->|Hk].
    + rewrite <- insert_union_l, !lookup_insert_eq, lookup_gset_to_gmap.
      case_guard; done.
    + by rewrite <- insert_union_l, !lookup_insert_ne, lookup_union.
Qed.

Lemma failureDomainsEqual_spec a b :
  failureDomainsEqual a b = true <-> default ∅ a = default ∅ b.
Proof.
  unfold failureDomainsEqual, fd_len. destruct a as [m|], b as [m'|]; simpl; try done.
  - rewrite bool_decide_eq_true. done.
  - destruct (Nat.eqb_spec (size m) 0) as [E|E].
    + apply map_size_empty_inv in E as ->. done.
    + split; [done|]. intros ->. by rewrite map_size_empty in E.
  - rewrite orb_false_r. destruct (Nat.eqb_spec (size m') 0) as [E|E].
    + apply map_size_empty_inv in E as ->. done.
    + split; [done|]. intros <-. by rewrite map_size_empty in E.
Qed.

(** C34: after the failure domains have been reconciled, the cluster has exactly
    the zones that the listed hosts are labelled with, each usable for control
    plane machines, whether or not the status had to be written; if the hosts
    cannot be listed the cluster is unchanged and the error is returned. *)
Theorem failure_domains_exact c :
  post (reconcileFailureDomains c) (fun tr '(c', err) =>
    match err with
    | Some _ => c' = c /\ exists e, @Ev Env (AListHosts (bc_Namespace c)) (Err e) ∈ tr
    | None =>
        exists items, @Ev Env (AListHosts (bc_Namespace c)) (Ok items) ∈ tr /\
          default ∅ (cst_FailureDomains (bc_Status c')) = zones items
    end).
Proof.
  unfold reconcileFailureDomains. wp_steps; try done.
  all: try (split; [done|]; eauto with go).
  all: eexists; (split; [eauto with go|]).
  - apply andb_true_iff in Heqb as [E1%Nat.eqb_eq%nil_length_inv E2%Nat.eqb_eq]. subst.
    destruct (cst_FailureDomains (bc_Status c)) as [m|]; simpl in *; [|done].
    by apply map_size_empty_inv in E2 as ->.
  - apply failureDomainsEqual_spec in Heqb0. rewrite Heqb0. simpl. by rewrite zones_loop_union, map_union_empty.
  - simpl. by rewrite zones_loop_union, map_union_empty.
Qed.

Section ClusterProperties.
  Context {L : Lib} {LL : LibLaws L}.

(** The address an endpoint is made of: the first internal address, or, when
    there is none or it is empty, the first address. *)
Definition control_plane_address (m : Machine) : string :=
  let internal := default "" (ma_Address ∘ snd <$> list_find (fun a => ma_Type a = MachineInternalIP) (m_Addresses m)) in
  if internal ==s "" then default "" (ma_Address <$> head (m_Addresses m)) else internal.

(** A control plane machine that can serve as endpoint. *)
Definition suitable (m : Machine) : Prop :=
  cond_status (m_Conditions m) InfrastructureReadyCondition = Some "True" /\ m_Addresses m <> [].

#[export] Instance suitable_dec m : Decision (suitable m).
Proof. unfold suitable. destruct (m_Addresses m); solve_decision. Defined.

Lemma internal_address_find l :
  internal_address l = default "" (ma_Address ∘ snd <$> list_find (fun a => ma_Type a = MachineInternalIP) l).
Proof.
  induction l as [|a l IH]; cbn [internal_address list_find]; [done|].
  destruct (String.eqb_spec (ma_Type a) MachineInternalIP); [by rewrite decide_True|].
  rewrite decide_False, IH by done. by destruct (list_find _ l) as [[]|].
Qed.

Lemma endpoint_loop_find items :
  endpoint_loop items =
  (fun im => {| ep_Host := control_plane_address im.2; ep_Port := 6443 |}) <$> list_find suitable items.
Proof.
  induction items as [|m items IH]; cbn [endpoint_loop list_find]; [done|].
  rewrite IsTrue_spec. destruct (decide (suitable m)) as [[Hc Ha]|Hn].
  - rewrite bool_decide_true by done. destruct (m_Addresses m) as [|a l] eqn:Ea; [done|].
    cbn [negb fmap option_fmap option_map snd].
    do 2 f_equal. unfold control_plane_address. rewrite <- internal_address_find, Ea. done.
  - assert (IH' : endpoint_loop items = (fun im => {| ep_Host := control_plane_address im.2; ep_Port := 6443 |}) <$>
      (prod_map S id <$> list_find suitable items))
      by (rewrite IH; by destruct (list_find suitable items) as [[]|]).
    rewrite <- IH'. case_bool_decide; [|done]. destruct (m_Addresses m) eqn:Ea; [done|].
    destruct Hn. split; [done|congruence].
Qed.

(** C35: the control plane endpoint is taken from the first listed control plane
    machine whose infrastructure is ready and that has an address, with its
    first internal address if there is one, else its first address of whatever
    type, and port 6443; the cluster is ready, and its condition True, exactly
    when there is such a machine.  The control plane machines are those of the
    cluster's namespace with the label of its name and the control plane label.
    If machines cannot be listed nothing changes and the error is returned. *)
Theorem endpoint_from_first_ready cluster c :
  post (reconcileControlPlaneEndpoint cluster c) (fun tr '(c', err) =>
    exists l, tr = [@Ev Env (AListMachines (om_Namespace (cl_Meta cluster))
        [("cluster.x-k8s.io/cluster-name", om_Name (cl_Meta cluster)); ("cluster.x-k8s.io/control-plane", "")]) l] /\
    match l with
    | Err _ => c' = c /\ is_Some err
    | Ok items =>
        err = None /\
        match list_find suitable items with
        | None =>
            cst_Ready (bc_Status c') = false /\
            cst_ControlPlaneEndpoint (bc_Status c') = cst_ControlPlaneEndpoint (bc_Status c) /\
            cond_status (cst_Conditions (bc_Status c')) ControlPlaneEndpointReady = Some "False"
        | Some (_, m) =>
            cst_Ready (bc_Status c') = true /\
            cst_ControlPlaneEndpoint (bc_Status c') = {| ep_Host := control_plane_address m; ep_Port := 6443 |} /\
            cond_status (cst_Conditions (bc_Status c')) ControlPlaneEndpointReady = Some "True"
        end
    end).
Proof.
  unfold reconcileControlPlaneEndpoint, findControlPlaneEndpoint. wp_steps; try done.
  all: eexists; (split; [done|]); try (by eauto).
  all: cbn beta iota; (split; [done|]).
  - apply Nat.eqb_eq, nil_length_inv in Heqb. subst. repeat split. apply MarkFalse_self.
  - rewrite endpoint_loop_find in Heqo. destruct (list_find suitable a) as [[i m]|]; simplify_eq/=.
    repeat split. apply MarkTrue_self.
  - rewrite endpoint_loop_find in Heqo. destruct (list_find suitable a) as [[i m]|]; simplify_eq/=.
    repeat split. apply MarkFalse_self.
Qed.

Ltac cluster_steps :=
  unfold cluster_Reconcile, cluster_body, cluster_reconcileNormal, cluster_reconcileDelete, cluster_patch,
    reconcileFailureDomains, reconcileControlPlaneEndpoint, findControlPlaneEndpoint; wp_steps.

(** The event of a failing list of hosts. *)
Definition list_failed (e : event Env) : bool :=
  match e with
  | Ev a r =>
      match a return capi_answer a -> bool with
      | AListHosts _ => fun r => negb (is_ok r)
      | _ => fun _ => false
      end r
  end.

(** The metrics of a failed reconciliation.  When listing the hosts fails,
    the reconciliation returns an error, but it is counted with the outcome
    "success", and the error with an empty type. *)
Theorem failed_reconciliation_counted_as_success req :
  post (cluster_Reconcile req) (fun tr '(_, err) =>
    existsb list_failed tr = true ->
    is_Some err /\
    (exists d u, @Ev Env (AMetric (RecordReconciliation "beskar7cluster" (nn_Namespace req) "success" d)) u ∈ tr) /\
    exists u, @Ev Env (AMetric (RecordError "beskar7cluster" (nn_Namespace req) "")) u ∈ tr).
Proof.
  cluster_steps; try done.
  all: intros _; split; [by eexists|]; split; [eauto 10 with go|eauto 10 with go].
Qed.

(** The clusters patched, and the helpers made. *)
Definition patches (tr : list (event Env)) : list Beskar7Cluster :=
  tr ≫= fun e : event Env => match ev_action e with APatchCluster before _ => [before] | _ => [] end.
Definition helpers (tr : list (event Env)) : list Beskar7Cluster :=
  tr ≫= fun e : event Env =>
                 match e with
                 | Ev a r =>
                     match a return capi_answer a -> list Beskar7Cluster with
                     | ANewClusterHelper c => fun r => if is_ok r then [c] else []
                     | _ => fun _ => []
                     end r
                 end.

(** The metrics recorded about the reconciliation itself. *)
Definition counted (tr : list (event Env)) : list metric_call :=
  tr ≫= fun e : event Env =>
    match ev_action e with
    | AMetric (RecordReconciliation c n o d) => [RecordReconciliation c n o d]
    | AMetric (RecordError c n t) => [RecordError c n t]
    | _ => []
    end.

(** A reconciliation of a cluster patches the cluster exactly once, with the
    object it read as the base, if it got a patch helper, and not at all
    otherwise; it is counted exactly once in the metrics, and an error is
    counted exactly when one is returned. *)
Theorem cluster_patched_and_counted_once req :
  post (cluster_Reconcile req) (fun tr '(_, err) =>
    patches tr = helpers tr /\
    exists outcome d t, counted tr =
      RecordReconciliation "beskar7cluster" (nn_Namespace req) outcome d ::
      match err with Some _ => [RecordError "beskar7cluster" (nn_Namespace req) t] | None => [] end).
Proof.
  cluster_steps; try done.
  all: split; [done|]; first [by eexists _, _, "" | by eexists _, _, ErrorTypeUnknown].
Qed.

Lemma cluster_requests_app pre l :
  cluster_requests (pre ++ replicate (length l) {| nn_Namespace := ""; nn_Name := "" |}) (length pre) l =
  pre ++ (bc_Key <$> l).
Proof.
  revert pre. induction l as [|c l IH]; intros pre; [done|]. cbn [cluster_requests length replicate].
  rewrite insert_app_r_alt, Nat.sub_diag by lia. cbn.
  specialize (IH (pre ++ [bc_Key c])). rewrite <- !app_assoc, length_app, Nat.add_1_r in IH. exact IH.
Qed.

(** A change of a host triggers every cluster of its namespace, in list
    order. *)
Theorem host_triggers_clusters h :
  post (PhysicalHostToBeskar7Clusters (ObjPhysicalHost h)) (fun tr reqs =>
    exists l, tr = [@Ev Env (AListClusters (ph_Namespace h)) l] /\
      reqs = match l with Ok items => bc_Key <$> items | Err _ => [] end).
Proof.
  unfold PhysicalHostToBeskar7Clusters. wp_steps; try done; (eexists; split; [done|]); [|done].
  exact (cluster_requests_app [] a).
Qed.

End ClusterProperties.

Definition sample_cluster : Beskar7Cluster :=
  {| bc_Type := {| tm_Kind := "Beskar7Cluster"; tm_APIVersion := "v1beta1" |};
     bc_Meta := sample_meta "c1" [Beskar7ClusterFinalizer] None;
     bc_Spec := {| cs_ControlPlaneEndpoint := {| ep_Host := ""; ep_Port := 0 |} |};
     bc_Status := {| cst_Ready := false; cst_ControlPlaneEndpoint := {| ep_Host := ""; ep_Port := 0 |};
                     cst_FailureDomains := None; cst_Conditions := [] |} |}.

(** A cluster without an endpoint becomes ready only with one at port 6443. *)
Lemma endpoint_from_first_ready_witness :
  post (@reconcileControlPlaneEndpoint ref_lib {| cl_Meta := sample_meta "c1" [] None |} sample_cluster)
    (fun tr '(c', err) =>
       cst_Ready (bc_Status c') = true -> ep_Port (cst_ControlPlaneEndpoint (bc_Status c')) = 6443).
Proof.
  eapply wp_mono; [apply endpoint_from_first_ready|].
  intros tr [c' err] _ ([items|e] & _ & Hl); [|by destruct Hl as [-> _]].
  destruct Hl as [_ Hl], (list_find suitable items) as [[i m]|];
    destruct Hl as (Hr & Hep & _); [by rewrite Hep|by rewrite Hr].
Defined.
