(* ===== verification/Metrics.v ===== *)
(** * internal/metrics/metrics.go

    The Prometheus vectors the program declares and registers, and the
    recording functions as the writes they make: a vector, the values of its
    labels and an update of the child metric.  The Prometheus library itself is
    not modelled; what its documentation demands of callers (one value per
    label, in the order of the labels, distinct names at registration) is what
    the theorems show of this package.  Numbers are exact rationals: the
    rounding of float64 is not modelled. *)

From Stdlib Require Import QArith.QArith_base.
From S2P Require Import Prelude GoText Api Lib Prog Actions ClusterController.

Local Open Scope Q_scope.
Local Open Scope list_scope.

(** ** Vectors *)

(** A histogram has its own buckets or the library's default ones. *)
Inductive vec_kind :=
| GaugeVec
| CounterVec
| HistogramVec (buckets : option (list Q)).

Record vec := {
  v_Kind : vec_kind; v_Namespace : string; v_Subsystem : string; v_Name : string; v_Help : string;
  v_labels : list string
}.

Definition MetricNamespace := "beskar7".
Definition MetricSubsystem := "controller".

Definition PhysicalHostStatesGauge : vec := {|
  v_Kind := GaugeVec;
  v_Namespace := MetricNamespace; v_Subsystem := MetricSubsystem; v_Name := "physicalhost_states_total";
  v_Help := "Number of PhysicalHosts in each state";
  v_labels := ["state"; "namespace"]
|}.
Definition PhysicalHostProvisioningTotal : vec := {|
  v_Kind := CounterVec;
  v_Namespace := MetricNamespace; v_Subsystem := MetricSubsystem; v_Name := "physicalhost_provisioning_total";
  v_Help := "Total number of PhysicalHost provisioning attempts";
  v_labels := ["outcome"; "namespace"; "error_type"]
|}.
Definition PhysicalHostPowerOperationsTotal : vec := {|
  v_Kind := CounterVec;
  v_Namespace := MetricNamespace; v_Subsystem := MetricSubsystem; v_Name := "physicalhost_power_operations_total";
  v_Help := "Total number of power operations performed on PhysicalHosts";
  v_labels := ["operation"; "outcome"; "namespace"]
|}.
Definition PhysicalHostRedfishConnectionsTotal : vec := {|
  v_Kind := CounterVec;
  v_Namespace := MetricNamespace; v_Subsystem := MetricSubsystem; v_Name := "physicalhost_redfish_connections_total";
  v_Help := "Total number of Redfish connection attempts";
  v_labels := ["outcome"; "namespace"; "error_type"]
|}.
Definition Beskar7MachineStatesGauge : vec := {|
  v_Kind := GaugeVec;
  v_Namespace := MetricNamespace; v_Subsystem := MetricSubsystem; v_Name := "beskar7machine_states_total";
  v_Help := "Number of Beskar7Machines in each phase";
  v_labels := ["phase"; "namespace"]
|}.
Definition Beskar7MachineProvisioningDuration : vec := {|
  v_Kind := HistogramVec (Some [30 # 1; 60 # 1; 120 # 1; 300 # 1; 600 # 1; 1200 # 1; 1800 # 1; 3600 # 1]);
  v_Namespace := MetricNamespace; v_Subsystem := MetricSubsystem; v_Name := "beskar7machine_provisioning_duration_seconds";
  v_Help := "Time taken to provision a Beskar7Machine from creation to ready";
  v_labels := ["outcome"; "namespace"]
|}.
Definition Beskar7MachineBootConfigurationsTotal : vec := {|
  v_Kind := CounterVec;
  v_Namespace := MetricNamespace; v_Subsystem := MetricSubsystem; v_Name := "beskar7machine_boot_configurations_total";
  v_Help := "Total number of boot configuration attempts";
  v_labels := ["mode"; "os_family"; "outcome"; "namespace"]
|}.
Definition Beskar7ClusterStatesGauge : vec := {|
  v_Kind := GaugeVec;
  v_Namespace := MetricNamespace; v_Subsystem := MetricSubsystem; v_Name := "beskar7cluster_states_total";
  v_Help := "Number of Beskar7Clusters in each readiness state";
  v_labels := ["ready"; "namespace"]
|}.
Definition Beskar7ClusterFailureDomainsGauge : vec := {|
  v_Kind := GaugeVec;
  v_Namespace := MetricNamespace; v_Subsystem := MetricSubsystem; v_Name := "beskar7cluster_failure_domains_total";
  v_Help := "Number of failure domains discovered per cluster";
  v_labels := ["cluster"; "namespace"]
|}.
Definition Beskar7ClusterFailureDomainDiscoveryTotal : vec := {|
  v_Kind := CounterVec;
  v_Namespace := MetricNamespace; v_Subsystem := MetricSubsystem; v_Name := "beskar7cluster_failure_domain_discovery_total";
  v_Help := "Total number of failure domain discovery operations";
  v_labels := ["outcome"; "namespace"]
|}.
Definition ControllerReconciliationDuration : vec := {|
  v_Kind := HistogramVec None;
  v_Namespace := MetricNamespace; v_Subsystem := MetricSubsystem; v_Name := "reconciliation_duration_seconds";
  v_Help := "Time taken to complete reconciliation";
  v_labels := ["controller"; "outcome"; "namespace"]
|}.
Definition ControllerReconciliationTotal : vec := {|
  v_Kind := CounterVec;
  v_Namespace := MetricNamespace; v_Subsystem := MetricSubsystem; v_Name := "reconciliation_total";
  v_Help := "Total number of reconciliation attempts";
  v_labels := ["controller"; "outcome"; "namespace"]
|}.
Definition ControllerErrorsTotal : vec := {|
  v_Kind := CounterVec;
  v_Namespace := MetricNamespace; v_Subsystem := MetricSubsystem; v_Name := "errors_total";
  v_Help := "Total number of errors encountered";
  v_labels := ["controller"; "error_type"; "namespace"]
|}.
Definition ControllerRequeueTotal : vec := {|
  v_Kind := CounterVec;
  v_Namespace := MetricNamespace; v_Subsystem := MetricSubsystem; v_Name := "requeue_total";
  v_Help := "Total number of reconciliation requeues";
  v_labels := ["controller"; "reason"; "namespace"]
|}.
Definition PhysicalHostAvailabilityGauge : vec := {|
  v_Kind := GaugeVec;
  v_Namespace := MetricNamespace; v_Subsystem := MetricSubsystem; v_Name := "physicalhost_availability";
  v_Help := "Availability ratio of PhysicalHosts (available/total)";
  v_labels := ["namespace"]
|}.
Definition PhysicalHostConsumerMappingsGauge : vec := {|
  v_Kind := GaugeVec;
  v_Namespace := MetricNamespace; v_Subsystem := MetricSubsystem; v_Name := "physicalhost_consumer_mappings_total";
  v_Help := "Number of PhysicalHosts mapped to consumers";
  v_labels := ["consumer_type"; "namespace"]
|}.
Definition hostClaimAttempts : vec := {|
  v_Kind := CounterVec;
  v_Namespace := ""; v_Subsystem := ""; v_Name := "beskar7_host_claim_attempts_total";
  v_Help := "Total number of host claim attempts";
  v_labels := ["namespace"; "outcome"; "conflict_reason"]
|}.
Definition hostClaimDuration : vec := {|
  v_Kind := HistogramVec None;
  v_Namespace := ""; v_Subsystem := ""; v_Name := "beskar7_host_claim_duration_seconds";
  v_Help := "Duration of host claim operations";
  v_labels := ["namespace"; "outcome"]
|}.
Definition provisioningQueueLength : vec := {|
  v_Kind := GaugeVec;
  v_Namespace := ""; v_Subsystem := ""; v_Name := "beskar7_provisioning_queue_length";
  v_Help := "Current length of the provisioning queue";
  v_labels := ["namespace"]
|}.
Definition provisioningQueueProcessingCount : vec := {|
  v_Kind := GaugeVec;
  v_Namespace := ""; v_Subsystem := ""; v_Name := "beskar7_provisioning_queue_processing_count";
  v_Help := "Current number of operations being processed in the provisioning queue";
  v_labels := ["namespace"]
|}.
Definition concurrentProvisioningOperations : vec := {|
  v_Kind := CounterVec;
  v_Namespace := ""; v_Subsystem := ""; v_Name := "beskar7_concurrent_provisioning_operations_total";
  v_Help := "Total number of concurrent provisioning operations";
  v_labels := ["namespace"; "operation_type"; "outcome"]
|}.
Definition bmcCooldownWaits : vec := {|
  v_Kind := CounterVec;
  v_Namespace := ""; v_Subsystem := ""; v_Name := "beskar7_bmc_cooldown_waits_total";
  v_Help := "Total number of times operations waited for BMC cooldown";
  v_labels := ["namespace"; "bmc_address"]
|}.
Definition hostSelectionDuration : vec := {|
  v_Kind := HistogramVec (Some [1 # 1000; 1 # 200; 1 # 100; 1 # 40; 1 # 20; 1 # 10; 1 # 4; 1 # 2; 1 # 1]);
  v_Namespace := ""; v_Subsystem := ""; v_Name := "beskar7_host_selection_duration_seconds";
  v_Help := "Duration of host selection algorithm";
  v_labels := ["namespace"; "selection_method"]
|}.
Definition claimCoordinatorLeaderElection : vec := {|
  v_Kind := CounterVec;
  v_Namespace := ""; v_Subsystem := ""; v_Name := "beskar7_claim_coordinator_leader_election_total";
  v_Help := "Total number of leader election events for claim coordinator";
  v_labels := ["namespace"; "event_type"]
|}.
Definition claimCoordinatorResults : vec := {|
  v_Kind := CounterVec;
  v_Namespace := ""; v_Subsystem := ""; v_Name := "beskar7_claim_coordinator_results_total";
  v_Help := "Total number of claim coordination results";
  v_labels := ["namespace"; "result_type"]
|}.
Definition claimCoordinatorProcessing : vec := {|
  v_Kind := HistogramVec None;
  v_Namespace := ""; v_Subsystem := ""; v_Name := "beskar7_claim_coordinator_processing_duration_seconds";
  v_Help := "Duration of claim coordinator processing operations";
  v_labels := ["namespace"; "result_type"]
|}.
Definition claimCoordinatorLeadershipDuration : vec := {|
  v_Kind := GaugeVec;
  v_Namespace := ""; v_Subsystem := ""; v_Name := "beskar7_claim_coordinator_leadership_duration_seconds";
  v_Help := "Duration of current leadership session for claim coordinator";
  v_labels := ["namespace"; "identity"]
|}.

#[global] Instance Q_eq_dec : EqDecision Q.
Proof. solve_decision. Defined.
#[global] Instance vec_kind_eq_dec : EqDecision vec_kind.
Proof. solve_decision. Defined.
#[global] Instance vec_eq_dec : EqDecision vec.
Proof. solve_decision. Defined.

(** [Init]: the vectors handed to [MustRegister], in order. *)
Definition Init : list vec :=
  [PhysicalHostStatesGauge;
   PhysicalHostProvisioningTotal;
   PhysicalHostPowerOperationsTotal;
   PhysicalHostRedfishConnectionsTotal;
   Beskar7MachineStatesGauge;
   Beskar7MachineProvisioningDuration;
   Beskar7MachineBootConfigurationsTotal;
   Beskar7ClusterStatesGauge;
   Beskar7ClusterFailureDomainsGauge;
   Beskar7ClusterFailureDomainDiscoveryTotal;
   ControllerReconciliationDuration;
   ControllerReconciliationTotal;
   ControllerErrorsTotal;
   ControllerRequeueTotal;
   PhysicalHostAvailabilityGauge;
   PhysicalHostConsumerMappingsGauge;
   hostClaimAttempts;
   hostClaimDuration;
   provisioningQueueLength;
   provisioningQueueProcessingCount;
   concurrentProvisioningOperations;
   bmcCooldownWaits;
   hostSelectionDuration;
   claimCoordinatorLeaderElection;
   claimCoordinatorResults;
   claimCoordinatorProcessing;
   claimCoordinatorLeadershipDuration].

(** ** Outcomes *)

Definition ProvisioningOutcomeRetry := "retry".
Definition PowerOperationOn := "power_on".
Definition PowerOperationOff := "power_off".
Definition PowerOperationReset := "power_reset".
Definition ClaimOutcomeSuccess := "success".
Definition ClaimOutcomeConflict := "conflict".
Definition ClaimOutcomeNoHosts := "no_hosts".
Definition ClaimOutcomeError := "error".
Definition ConflictReasonOptimisticLock := "optimistic_lock".
Definition ConflictReasonAlreadyClaimed := "already_claimed".
Definition ConflictReasonInvalidState := "invalid_state".
Definition ConflictReasonNone := "none".

(** ** Writes *)

Inductive update :=
| Inc
| Add (delta : Q)
| SetTo (value : Q)
| Observe (value : Q).

(** [v.WithLabelValues(values...)] followed by the update. *)
Record write := Write { w_vec : vec; w_values : list string; w_update : update }.

(** [time.Duration.Seconds]. *)
Definition Seconds (d : Z) : Q := d # 1000000000.
(** [float64(n)]. *)
Definition float64 (n : Z) : Q := inject_Z n.

(** The label of an error: only failures carry one. *)
Definition error_label (outcome errorType : string) : string :=
  if String.eqb outcome ProvisioningOutcomeFailed then errorType else "".

Module metrics.

Definition RecordReconciliation (controller namespace outcome : string) (duration : Z) : list write :=
  [Write ControllerReconciliationTotal [controller; outcome; namespace] Inc;
   Write ControllerReconciliationDuration [controller; outcome; namespace] (Observe (Seconds duration))].

Definition RecordError (controller namespace errorType : string) : list write :=
  [Write ControllerErrorsTotal [controller; errorType; namespace] Inc].

Definition RecordRequeue (controller namespace reason : string) : list write :=
  [Write ControllerRequeueTotal [controller; reason; namespace] Inc].

Definition RecordPhysicalHostState (state namespace : string) (delta : Q) : list write :=
  [Write PhysicalHostStatesGauge [state; namespace] (Add delta)].

Definition RecordPhysicalHostProvisioning (namespace outcome errorType : string) : list write :=
  [Write PhysicalHostProvisioningTotal [outcome; namespace; error_label outcome errorType] Inc].

Definition RecordPhysicalHostPowerOperation (operation namespace outcome : string) : list write :=
  [Write PhysicalHostPowerOperationsTotal [operation; outcome; namespace] Inc].

Definition RecordRedfishConnection (namespace outcome errorType : string) : list write :=
  [Write PhysicalHostRedfishConnectionsTotal [outcome; namespace; error_label outcome errorType] Inc].

Definition RecordBeskar7MachineState (phase namespace : string) (delta : Q) : list write :=
  [Write Beskar7MachineStatesGauge [phase; namespace] (Add delta)].

Definition RecordBeskar7MachineProvisioning (namespace outcome : string) (duration : Z) : list write :=
  [Write Beskar7MachineProvisioningDuration [outcome; namespace] (Observe (Seconds duration))].

Definition RecordBootConfiguration (mode osFamily namespace outcome : string) : list write :=
  [Write Beskar7MachineBootConfigurationsTotal [mode; osFamily; outcome; namespace] Inc].

Definition RecordBeskar7ClusterState (ready : bool) (namespace : string) (delta : Q) : list write :=
  [Write Beskar7ClusterStatesGauge [if ready then "true" else "false"; namespace] (Add delta)].

Definition RecordFailureDomains (cluster namespace : string) (count : Q) : list write :=
  [Write Beskar7ClusterFailureDomainsGauge [cluster; namespace] (SetTo count)].

Definition RecordFailureDomainDiscovery (namespace outcome : string) : list write :=
  [Write Beskar7ClusterFailureDomainDiscoveryTotal [outcome; namespace] Inc].

Definition UpdatePhysicalHostAvailability (namespace : string) (availableCount totalCount : Z) : list write :=
  let ratio := if (0 <? totalCount)%Z then float64 availableCount / float64 totalCount else 0 in
  [Write PhysicalHostAvailabilityGauge [namespace] (SetTo ratio)].

Definition RecordPhysicalHostConsumerMapping (consumerType namespace : string) (delta : Q) : list write :=
  [Write PhysicalHostConsumerMappingsGauge [consumerType; namespace] (Add delta)].

Definition RecordRedfishQuery (namespace outcome errorType : string) : list write :=
  [Write PhysicalHostRedfishConnectionsTotal [outcome; namespace; error_label outcome errorType] Inc].

Definition RecordNetworkAddress (namespace outcome errorType : string) : list write :=
  [Write PhysicalHostProvisioningTotal [outcome; namespace; error_label outcome errorType] Inc].

Definition RecordPowerOperation (namespace outcome errorType : string) : list write :=
  RecordPhysicalHostPowerOperation PowerOperationOn namespace outcome.

Definition RecordVirtualMediaOperation (namespace outcome errorType : string) : list write :=
  [Write PhysicalHostProvisioningTotal [outcome; namespace; error_label outcome errorType] Inc].

Definition RecordBootOperation (namespace outcome errorType : string) : list write :=
  RecordBootConfiguration "iso" "unknown" namespace outcome.

Definition RecordDeprovisioningOperation (namespace outcome errorType : string) : list write :=
  [Write PhysicalHostProvisioningTotal [outcome; namespace; error_label outcome errorType] Inc].

Definition RecordHostClaimAttempt (namespace outcome conflictReason : string) : list write :=
  [Write hostClaimAttempts [namespace; outcome; conflictReason] Inc].

Definition RecordHostClaimDuration (namespace outcome : string) (duration : Z) : list write :=
  [Write hostClaimDuration [namespace; outcome] (Observe (Seconds duration))].

Definition RecordProvisioningQueueStatus (namespace : string) (queueLength processingCount : Z) : list write :=
  [Write provisioningQueueLength [namespace] (SetTo (float64 queueLength));
   Write provisioningQueueProcessingCount [namespace] (SetTo (float64 processingCount))].

Definition RecordConcurrentProvisioningOperation (namespace operationType outcome : string) : list write :=
  [Write concurrentProvisioningOperations [namespace; operationType; outcome] Inc].

Definition RecordBMCCooldownWait (namespace bmcAddress : string) : list write :=
  [Write bmcCooldownWaits [namespace; bmcAddress] Inc].

Definition RecordHostSelectionDuration (namespace selectionMethod : string) (duration : Z) : list write :=
  [Write hostSelectionDuration [namespace; selectionMethod] (Observe (Seconds duration))].

Definition RecordClaimCoordinatorLeaderElection (namespace eventType : string) : list write :=
  [Write claimCoordinatorLeaderElection [namespace; eventType] Inc].

Definition RecordClaimCoordinatorResult (namespace resultType : string) : list write :=
  [Write claimCoordinatorResults [namespace; resultType] Inc].

Definition RecordClaimCoordinatorProcessing (namespace resultType : string) (duration : Z) : list write :=
  [Write claimCoordinatorProcessing [namespace; resultType] (Observe (Seconds duration))].

Definition RecordClaimCoordinatorLeadershipDuration (namespace identity : string) (duration : Z) : list write :=
  [Write claimCoordinatorLeadershipDuration [namespace; identity] (SetTo (Seconds duration))].

End metrics.

(** The calls the controllers make, as the recording functions they name. *)
Definition perform (m : metric_call) : list write :=
  match m with
  | RecordReconciliation c n o d => metrics.RecordReconciliation c n o d
  | RecordError c n t => metrics.RecordError c n t
  | RecordFailureDomains c n k => metrics.RecordFailureDomains c n (float64 k)
  | RecordFailureDomainDiscovery n o => metrics.RecordFailureDomainDiscovery n o
  end.

(** The label values a run writes to a vector, one entry per write. *)
Definition written (v : vec) (ws : list write) : list (list string) :=
  ws ≫= fun w => if decide (w_vec w = v) then [w_values w] else [].
Definition exported (tr : list (event Env)) : list write :=
  tr ≫= fun e : event Env => match ev_action e with AMetric m => perform m | _ => [] end.

(** ** Labels

    Every recording function of the package, applied to arguments named after
    the labels they are meant for.  A function that fixes a label itself comes
    with the value it fixes. *)

Definition labels := string -> string.
Definition set_label (l x : string) (args : labels) : labels :=
  fun k => if String.eqb k l then x else args k.

Definition recordings (args : labels) (ready : bool) (delta : Q) (d n k : Z) : list (labels * list write) :=
  let namespace := args "namespace" in
  let outcome := args "outcome" in
  let errorType := args "error_type" in
  let power := set_label "operation" PowerOperationOn args in
  let iso := set_label "mode" "iso" (set_label "os_family" "unknown" args) in
  [(args, metrics.RecordReconciliation (args "controller") namespace outcome d);
   (args, metrics.RecordError (args "controller") namespace errorType);
   (args, metrics.RecordRequeue (args "controller") namespace (args "reason"));
   (args, metrics.RecordPhysicalHostState (args "state") namespace delta);
   (args, metrics.RecordPhysicalHostProvisioning namespace outcome errorType);
   (args, metrics.RecordPhysicalHostPowerOperation (args "operation") namespace outcome);
   (args, metrics.RecordRedfishConnection namespace outcome errorType);
   (args, metrics.RecordBeskar7MachineState (args "phase") namespace delta);
   (args, metrics.RecordBeskar7MachineProvisioning namespace outcome d);
   (args, metrics.RecordBootConfiguration (args "mode") (args "os_family") namespace outcome);
   (set_label "ready" (if ready then "true" else "false") args,
      metrics.RecordBeskar7ClusterState ready namespace delta);
   (args, metrics.RecordFailureDomains (args "cluster") namespace delta);
   (args, metrics.RecordFailureDomainDiscovery namespace outcome);
   (args, metrics.UpdatePhysicalHostAvailability namespace n k);
   (args, metrics.RecordPhysicalHostConsumerMapping (args "consumer_type") namespace delta);
   (args, metrics.RecordRedfishQuery namespace outcome errorType);
   (args, metrics.RecordNetworkAddress namespace outcome errorType);
   (power, metrics.RecordPowerOperation namespace outcome errorType);
   (args, metrics.RecordVirtualMediaOperation namespace outcome errorType);
   (iso, metrics.RecordBootOperation namespace outcome errorType);
   (args, metrics.RecordDeprovisioningOperation namespace outcome errorType);
   (args, metrics.RecordHostClaimAttempt namespace outcome (args "conflict_reason"));
   (args, metrics.RecordHostClaimDuration namespace outcome d);
   (args, metrics.RecordProvisioningQueueStatus namespace n k);
   (args, metrics.RecordConcurrentProvisioningOperation namespace (args "operation_type") outcome);
   (args, metrics.RecordBMCCooldownWait namespace (args "bmc_address"));
   (args, metrics.RecordHostSelectionDuration namespace (args "selection_method") d);
   (args, metrics.RecordClaimCoordinatorLeaderElection namespace (args "event_type"));
   (args, metrics.RecordClaimCoordinatorResult namespace (args "result_type"));
   (args, metrics.RecordClaimCoordinatorProcessing namespace (args "result_type") d);
   (args, metrics.RecordClaimCoordinatorLeadershipDuration namespace (args "identity") d)].

(** The value a label of a vector should carry: its argument, but the error
    type of an operation with an outcome only if it failed. *)
Definition expected (args : labels) (v : vec) (l : string) : string :=
  if String.eqb l "error_type" && bool_decide ("outcome" ∈ v_labels v)
  then error_label (args "outcome") (args l)
  else args l.

(** The updates each kind of metric has. *)
Definition update_fits (k : vec_kind) (u : update) : Prop :=
  match k, u with
  | GaugeVec, (Inc | Add _ | SetTo _) => True
  | CounterVec, Inc => True
  | HistogramVec _, Observe _ => True
  | _, _ => False
  end.

(** Every write of every recording function goes to a vector that is
    registered, with an update of the metric's kind and one value per label in
    the order the vector declares its labels: what is written under a label is
    the argument of that name, so no function panics on the number of labels
    or exchanges two of them. *)
Theorem labels_aligned args ready delta d n k :
  Forall (fun '(args', ws) =>
    Forall (fun w => w_vec w ∈ Init /\ update_fits (v_Kind (w_vec w)) (w_update w) /\
                     w_values w = expected args' (w_vec w) <$> v_labels (w_vec w)) ws)
    (recordings args ready delta d n k).
Proof.
  unfold recordings.
  repeat first [apply Forall_nil_2 | apply Forall_cons_2]; cbn beta iota delta [fst snd].
  all: repeat first [apply Forall_nil_2 | apply Forall_cons_2].
  all: split_and!; [apply (bool_decide_unpack _); vm_compute; exact I | exact I | reflexivity].
Qed.

(** The names of the registered vectors, as [prometheus.BuildFQName] makes
    them of the three parts. *)
Section Registration.
Variable BuildFQName : string -> string -> string -> string.

(** Documented: empty parts are left out, the others are joined by an
    underscore. *)
Definition joins_names : Prop :=
  (forall name, BuildFQName "" "" name = name) /\
  forall namespace subsystem name, namespace <> "" -> subsystem <> "" -> name <> "" ->
    BuildFQName namespace subsystem name = namespace +:+ "_" +:+ subsystem +:+ "_" +:+ name.

Definition fqName (v : vec) : string := BuildFQName (v_Namespace v) (v_Subsystem v) (v_Name v).

(** The vectors registered at start-up have pairwise distinct names and no
    vector names a label twice, so registration does not panic. *)
Theorem registration_names_distinct :
  joins_names -> NoDup (fqName <$> Init) /\ Forall (fun v => NoDup (v_labels v)) Init.
Proof.
  intros [Hflat Hfull]. split.
  - unfold fqName. cbn [Init fmap list_fmap v_Namespace v_Subsystem v_Name]. 
    rewrite ?Hflat, ?Hfull by discriminate.
    apply (bool_decide_unpack _). vm_compute. exact I.
  - apply (bool_decide_unpack _). vm_compute. exact I.
Qed.
End Registration.

(** The name building of the documentation. *)
Definition sample_names (namespace subsystem name : string) : string :=
  String.concat "_" (filter (fun s => s <> "") [namespace; subsystem; name]).

Lemma registration_names_distinct_witness :
  NoDup (fqName sample_names <$> Init) /\ Forall (fun v => NoDup (v_labels v)) Init.
Proof.
  apply registration_names_distinct. split.
  - intros name. unfold sample_names. by destruct (decide (name = "")) as [->|Hn]; [|rewrite !filter_cons_False, filter_cons_True by auto].
  - intros a b c Ha Hb Hc. unfold sample_names. by rewrite !filter_cons_True by done.
Defined.

(** ** What a reconciliation exports *)

Lemma written_app v ws ws' : written v (ws ++ ws') = written v ws ++ written v ws'.
Proof. apply bind_app. Qed.

(** The two vectors of the reconciliation are written by the recorded
    reconciliation and error alone. *)
Lemma written_counted v tr :
  v ∈ [ControllerReconciliationTotal; ControllerErrorsTotal] ->
  written v (exported tr) = written v (counted tr ≫= perform).
Proof.
  intros Hv. induction tr as [|[a r] tr IH]; [done|].
  change (exported (Ev a r :: tr)) with
    (match a : capi_action with AMetric m => perform m | _ => [] end ++ exported tr).
  change (counted (Ev a r :: tr)) with
    (match a : capi_action with
     | AMetric (RecordReconciliation c n o d) => [RecordReconciliation c n o d]
     | AMetric (RecordError c n t) => [RecordError c n t]
     | _ => []
     end ++ counted tr).
  rewrite bind_app, !written_app, IH. f_equal.
  apply list_elem_of_In in Hv. destruct Hv as [<-|[<-|[]]]; destruct a; try done; by destruct m.
Qed.

(** C29: a reconciliation of a cluster patches the cluster exactly once if it
    got a patch helper, with the object it read as the base, and not at all
    otherwise; in the exported metrics it adds exactly one reconciliation of
    controller beskar7cluster in the request's namespace, and one error there
    exactly when it returns an error. *)
Theorem cluster_patched_and_exported_once `{L : Lib} req :
  post (cluster_Reconcile req) (fun tr '(_, err) =>
    patches tr = helpers tr /\
    (exists outcome, written ControllerReconciliationTotal (exported tr) =
                     [["beskar7cluster"; outcome; nn_Namespace req]]) /\
    exists errorType, written ControllerErrorsTotal (exported tr) =
      match err with
      | Some _ => [["beskar7cluster"; errorType; nn_Namespace req]]
      | None => []
      end).
Proof.
  eapply wp_mono; [apply cluster_patched_and_counted_once|].
  intros tr [res err] _ [Hp (o & d & t & Hc)]. split; [done|].
  rewrite !written_counted, Hc by set_solver.
  split; [exists o | exists t]; by destruct err.
Qed.
