(* ===== verification/Manager.v ===== *)
(** * cmd/manager/main.go

    The scheme, the controllers as their [SetupWithManager] functions register them,
    the start-up sequence of the manager and the way it wires the reconcilers. *)

From S2P Require Import Prelude Api Lib Prog Actions HostController MachineController Inspection ClusterController Server.

(** ** The scheme

    The kinds the API machinery knows, by group and version. *)

Record GroupVersionKind := { gvk_Group : string; gvk_Version : string; gvk_Kind : string }.
#[export] Instance GroupVersionKind_eq_dec : EqDecision GroupVersionKind.
Proof. solve_decision. Defined.

(** [SchemeBuilder.Register]: adds kinds of the group of this API. *)
Definition Register (kinds : list string) (builder : list string) : list string := builder ++ kinds.

Definition GroupVersion (kind : string) : GroupVersionKind :=
  {| gvk_Group := "infrastructure.cluster.x-k8s.io"; gvk_Version := "v1beta1"; gvk_Kind := kind |}.

(** The [init] functions of package v1beta1, in the order of their files. *)
Definition beskar7cluster_init := Register ["Beskar7Cluster"; "Beskar7ClusterList"].
Definition beskar7machine_init := Register ["Beskar7Machine"; "Beskar7MachineList"].
Definition beskar7machinetemplate_init := Register ["Beskar7MachineTemplate"; "Beskar7MachineTemplateList"].
Definition physicalhost_init := Register ["PhysicalHost"; "PhysicalHostList"].

Definition SchemeBuilder : list string :=
  physicalhost_init (beskar7machinetemplate_init (beskar7machine_init (beskar7cluster_init []))).
Definition AddToScheme (scheme : list GroupVersionKind) : list GroupVersionKind :=
  scheme ++ (GroupVersion <$> SchemeBuilder).

(** The scheme after [init] of package main; the kinds of client-go and of
    Cluster API are arguments. *)
Definition main_scheme (clientgo clusterv1 : list GroupVersionKind) : list GroupVersionKind :=
  AddToScheme ([] ++ clientgo ++ clusterv1).

(** ** The controllers *)

(** What [ctrl.NewControllerManagedBy(mgr)] is told: the kind that is reconciled,
    the other kinds watched with the function that maps their objects to
    requests, and the reconciler. *)
Record controller := {
  ctl_For : string;
  ctl_Watches : list (string * (client_Object -> prog Env (list NamespacedName)));
  ctl_Reconcile : NamespacedName -> prog Env (exit reconcile_result)
}.

Definition object_kind (obj : client_Object) : string :=
  match obj with
  | ObjSecret _ => "Secret"
  | ObjPhysicalHost _ => "PhysicalHost"
  | ObjBeskar7Machine _ => "Beskar7Machine"
  | ObjBeskar7Cluster _ => "Beskar7Cluster"
  end.
Definition object_key (obj : client_Object) : NamespacedName :=
  let m := match obj with
           | ObjSecret s => sec_Meta s
           | ObjPhysicalHost h => ph_Meta h
           | ObjBeskar7Machine m => bm_Meta m
           | ObjBeskar7Cluster c => bc_Meta c
           end in
  {| nn_Namespace := om_Namespace m; nn_Name := om_Name m |}.

(** The requests that a change of an object puts into a controller's queue: its
    own if it is of the kind reconciled, then those of the watches. *)
Fixpoint watch_requests (ws : list (string * (client_Object -> prog Env (list NamespacedName)))) (obj : client_Object)
  : prog Env (list NamespacedName) :=
  match ws with
  | [] => Ret []
  | (kind, f) :: ws' =>
      if kind ==s object_kind obj then
        let! reqs := f obj in
        let! reqs' := watch_requests ws' obj in
        Ret (reqs ++ reqs')
      else watch_requests ws' obj
  end.
Definition enqueue (c : controller) (obj : client_Object) : prog Env (list NamespacedName) :=
  let! reqs := watch_requests (ctl_Watches c) obj in
  Ret ((if ctl_For c ==s object_kind obj then [object_key obj] else []) ++ reqs).

Section Controllers.
  Context {L : Lib}.

Definition NewPhysicalHostReconciler (redfishFactory recorder : funcval) : PhysicalHostReconciler :=
  {| phr_Recorder := recorder; phr_RedfishClientFactory := redfishFactory |}.

(** [SetupWithManager] of the three reconcilers. *)
Definition host_SetupWithManager (r : PhysicalHostReconciler) : controller :=
  {| ctl_For := "PhysicalHost"; ctl_Watches := [("Secret", SecretToPhysicalHosts)];
     ctl_Reconcile := host_Reconcile r |}.
Definition machine_SetupWithManager (factory : funcval) : controller :=
  {| ctl_For := "Beskar7Machine"; ctl_Watches := []; ctl_Reconcile := machine_Reconcile factory |}.
Definition cluster_SetupWithManager : controller :=
  {| ctl_For := "Beskar7Cluster"; ctl_Watches := [("PhysicalHost", PhysicalHostToBeskar7Clusters)];
     ctl_Reconcile := fun req => let! x := cluster_Reconcile req in Ret (Done x) |}.

(** The reconcilers [main] constructs: both client factories are nil, and the
    host reconciler's event recorder is not set. *)
Definition main_host_reconciler : PhysicalHostReconciler :=
  {| phr_Recorder := NilFunc; phr_RedfishClientFactory := NilFunc |}.
Definition main_machine_factory : funcval := NilFunc.

(** ** Start-up *)

(** The command line flags, and the values they have when they are not given. *)
Record flags := {
  metricsAddr : string;
  probeAddr : string;
  enableLeaderElection : bool;
  leaderElectionLeaseDuration : Z;
  leaderElectionRenewDeadline : Z;
  leaderElectionRetryPeriod : Z;
  enableWebhook : bool;
  webhookPort : Z;
  webhookCertDir : string
}.
Definition default_flags : flags :=
  {| metricsAddr := ":8080"; probeAddr := ":8081"; enableLeaderElection := true;
     leaderElectionLeaseDuration := 15 * Second; leaderElectionRenewDeadline := 10 * Second;
     leaderElectionRetryPeriod := 2 * Second; enableWebhook := false; webhookPort := 9443;
     webhookCertDir := "/tmp/k8s-webhook-server/serving-certs" |}.

Record manager_options := {
  mo_BindAddress : string; mo_WebhookPort : Z; mo_CertDir : string; mo_HealthProbeBindAddress : string;
  mo_LeaderElection : bool; mo_LeaderElectionID : string;
  mo_LeaseDuration : Z; mo_RenewDeadline : Z; mo_RetryPeriod : Z
}.
Definition options_of (f : flags) : manager_options :=
  {| mo_BindAddress := metricsAddr f; mo_WebhookPort := webhookPort f; mo_CertDir := webhookCertDir f;
     mo_HealthProbeBindAddress := probeAddr f; mo_LeaderElection := enableLeaderElection f;
     mo_LeaderElectionID := "beskar7.infrastructure.cluster.x-k8s.io";
     mo_LeaseDuration := leaderElectionLeaseDuration f; mo_RenewDeadline := leaderElectionRenewDeadline f;
     mo_RetryPeriod := leaderElectionRetryPeriod f |}.

Inductive setup_action :=
| MetricsInit
| NewManager (options : manager_options)
(** [Complete] of a controller, and of the webhook of a kind *)
| CompleteController (c : controller)
| CompleteWebhook (kind : string)
(** [go server.ListenAndServe()], and [mgr.Add] of the runnable that stops it *)
| GoServe (server : http_Server)
| AddServerRunnable (server : http_Server)
| AddHealthzCheck (name : string)
| AddReadyzCheck (name : string)
| StartManager.

(** Every step answers with an error, or nil. *)
Definition Setup : sig := {| action := setup_action; answer := fun _ => option error |}.

Definition SetupInspectionServer (port : Z) : prog Setup (option error) :=
  let server := inspection_server port in
  @call Setup (GoServe server) ;;!
  let! err := @call Setup (AddServerRunnable server) in
  match err with
  | Some e => Ret (Some (ErrWrap "failed to add inspection server to manager" e))
  | None => Ret None
  end.

Definition SetupWebhookWithManager : prog Setup (option error) := @call Setup (CompleteWebhook "Beskar7Cluster").

(** [os.Exit] with the code, or the end of [main]. *)
Definition fatal (p : prog Setup (option error)) (k : prog Setup (option Z)) : prog Setup (option Z) :=
  let! err := p in
  match err with Some _ => Ret (Some 1) | None => k end.

Definition manager_main (f : flags) : prog Setup (option Z) :=
  @call Setup MetricsInit ;;!
  fatal (@call Setup (NewManager (options_of f))) (
  fatal (@call Setup (CompleteController (machine_SetupWithManager main_machine_factory))) (
  fatal (@call Setup (CompleteController cluster_SetupWithManager)) (
  fatal (@call Setup (CompleteController (host_SetupWithManager main_host_reconciler))) (
  fatal (SetupInspectionServer 8082) (
  let rest :=
    fatal (@call Setup (AddHealthzCheck "healthz")) (
    fatal (@call Setup (AddReadyzCheck "readyz")) (
    fatal (@call Setup StartManager) (Ret None))) in
  if enableWebhook f then fatal SetupWebhookWithManager rest else rest))))).

(** ** Properties *)

(** What must have succeeded before the manager runs. *)
Definition required_steps (f : flags) : list setup_action :=
  [MetricsInit; NewManager (options_of f); CompleteController (machine_SetupWithManager main_machine_factory);
   CompleteController cluster_SetupWithManager; CompleteController (host_SetupWithManager main_host_reconciler);
   GoServe (inspection_server 8082); AddServerRunnable (inspection_server 8082)] ++
  (if enableWebhook f then [CompleteWebhook "Beskar7Cluster"] else []) ++ [AddHealthzCheck "healthz"; AddReadyzCheck "readyz"].

(** A step that failed; those without a result cannot. *)
Definition failed_step (e : event Setup) : bool :=
  match e with
  | Ev a r => match a with MetricsInit | GoServe _ => false | _ => match r with Some _ => true | None => false end end
  end.

(** The manager is started only after every controller, the report server,
    the health checks and, if enabled, the webhook have been set up without
    error, in that order; the process ends with code 1 exactly if a step fails. *)
Theorem main_starts_complete f :
  wp (fun tr (a : action Setup) => a = StartManager ->
        ev_action <$> tr = required_steps f /\ existsb failed_step tr = false) []
     (manager_main f)
     (fun tr code => code = if existsb failed_step tr then Some 1 else None).
Proof.
  unfold manager_main, fatal, SetupInspectionServer, SetupWebhookWithManager, required_steps.
  destruct (enableWebhook f); wp_steps; done.
Qed.

(** The kinds of the objects a call reads or writes. *)
Definition call_kinds (a : capi_action) : list GroupVersionKind :=
  let core kind := {| gvk_Group := ""; gvk_Version := "v1"; gvk_Kind := kind |} in
  let capi kind := {| gvk_Group := "cluster.x-k8s.io"; gvk_Version := "v1beta1"; gvk_Kind := kind |} in
  match a with
  | AGetHost _ | AUpdateHost _ | AUpdateHostStatus _ => [GroupVersion "PhysicalHost"]
  | AListHosts _ => [GroupVersion "PhysicalHostList"]
  | AGetSecret _ => [core "Secret"]
  | AGetMachine _ | ANewMachineHelper _ | APatchMachine _ _ => [GroupVersion "Beskar7Machine"]
  | AGetCluster _ | ANewClusterHelper _ | APatchCluster _ _ => [GroupVersion "Beskar7Cluster"]
  | AListClusters _ => [GroupVersion "Beskar7ClusterList"]
  | AListMachines _ _ => [capi "MachineList"]
  | AGetOwnerMachine _ => [capi "Machine"]
  | AGetClusterFromMetadata _ | AGetOwnerCluster _ => [capi "Cluster"]
  | ARecordEvent _ _ _ _ => [core "Event"]
  | _ => []
  end.

(** The scheme knows the kind of every object the controllers work with, if
    client-go and Cluster API register theirs. *)
Lemma scheme_complete clientgo clusterv1 a :
  Forall (fun kind => {| gvk_Group := ""; gvk_Version := "v1"; gvk_Kind := kind |} ∈ clientgo) ["Secret"; "Event"] ->
  Forall (fun kind => {| gvk_Group := "cluster.x-k8s.io"; gvk_Version := "v1beta1"; gvk_Kind := kind |} ∈ clusterv1)
    ["Machine"; "MachineList"; "Cluster"] ->
  Forall (fun k => k ∈ main_scheme clientgo clusterv1) (call_kinds a).
Proof.
  intros Hcore Hcapi. rewrite !Forall_cons in Hcore. rewrite !Forall_cons in Hcapi. cbv beta in Hcore, Hcapi. unfold main_scheme, AddToScheme. cbn [app].
  assert (forall kind, kind ∈ SchemeBuilder -> Forall (fun k => k ∈ (clientgo ++ clusterv1) ++ (GroupVersion <$> SchemeBuilder))
    [GroupVersion kind]) as Hown.
  { intros kind Hk. apply Forall_singleton, elem_of_app. right. by apply list_elem_of_fmap_2. }
  destruct a; cbn [call_kinds]; try apply Forall_nil_2;
    try (apply Hown, (bool_decide_unpack _); vm_compute; exact I); apply Forall_singleton; rewrite !elem_of_app; tauto.
Qed.

Definition no_requests (c : controller) (obj : client_Object) : Prop := enqueue c obj = Ret [].
Definition own_request (c : controller) (obj : client_Object) : Prop := enqueue c obj = Ret [object_key obj].


End Controllers.

Section Wiring.
  Context {L : Lib} {LL : LibLaws L}.

(** No call to a BMC. *)
Definition no_bmc (tr : list (event Env)) (a : action Env) : Prop :=
  match a with
  | ARfConnect _ _ _ _ | ARfGetSystemInfo _ | ARfGetPowerState _ | ARfSetPowerState _ _
  | ARfSetBootSourcePXE _ | ARfGetNetworkAddresses _ | ARfClose _ => False
  | _ => True
  end.

(** The reconciliations of a host that end without an error and need no BMC. *)
Definition nothing_to_observe (req : NamespacedName) (tr : list (event Env)) : Prop :=
  (exists e, tr = [@Ev Env (AGetHost req) (Err e)] /\ IsNotFound e = true) \/
  exists h rest, tr = @Ev Env (AGetHost req) (Ok h) :: rest /\
    ((om_DeletionTimestamp (ph_Meta h) = None /\ PhysicalHostFinalizer ∉ om_Finalizers (ph_Meta h)) \/
     (is_Some (om_DeletionTimestamp (ph_Meta h)) /\ ph_Consumer h = None)).

Lemma claim_no_bmc tr m : safe no_bmc tr (findAndClaimOrGetAssociatedHost m).
Proof.
  assert (forall tr items, safe no_bmc tr (claim_loop m items)) as Hloop.
  { intros tr' items. revert tr'. induction items as [|h items IH]; intros tr'; unfold safe; cbn [claim_loop]; [by apply wp_ret|].
    repeat wp_step; try done. apply IH. }
  unfold safe, findAndClaimOrGetAssociatedHost, findAvailableHost. repeat wp_step; try done; apply Hloop.
Qed.

(** Without a client factory a machine's reconciliation panics before it has a
    client. *)
Lemma machine_never_connects req : safe no_bmc [] (machine_Reconcile NilFunc req).
Proof.
  unfold safe, machine_Reconcile. repeat wp_step; try done.
  eapply wp_seq with (Q := fun _ _ => True); [|intros; repeat wp_step; done].
  unfold with_defer. eapply wp_seq with (Q := fun _ _ => True); [|intros ? [] ? ?; unfold deferred_patch; repeat wp_step; done].
  destruct (om_DeletionTimestamp _).
  - unfold machine_reconcileDelete, release_host. wp_steps; done.
  - unfold machine_reconcileNormal. destruct (AddFinalizer _ _) as [meta []]; [by repeat wp_step|].
    eapply wp_seq; [apply claim_no_bmc|]. intros tr [[host res] err] _ _.
    unfold handlePhysicalHostState, handleReadyHost, handleInspectingHost, handleInspectingHost_rest, validateInspectionReport,
      triggerInspection, getRedfishClientForHost. wp_steps; done.
Qed.

(** C40: as wired by [main], neither the host nor the machine controller ever
    contacts a BMC.  A host is reconciled without an error only if it is gone, if
    it is given its finalizer, or if it is deleted while no machine claims it;
    every other reconciliation, so every one that is to look at the BMC, fails
    or panics, and the only state it ever writes is Error. *)
Theorem main_wiring_never_connects req req' :
  safe no_bmc [] (machine_Reconcile main_machine_factory req') /\
  wp (fun tr a => no_bmc tr a /\ match a with AUpdateHostStatus h => ph_State h = "Error" | _ => True end) []
    (host_Reconcile main_host_reconciler req)
    (fun tr x => match x with Done (_, None) => nothing_to_observe req tr | _ => True end).
Proof.
  split.
  - unfold safe, main_machine_factory. apply machine_never_connects.
  - unfold host_Reconcile, host_reconcileDelete, host_reconcileNormal, getRedfishCredentials.
    wp_steps; try done; reflect.
    1, 2: right; eexists _, _; (split; [done|]); right; split; [by eexists|done].
    + right. eexists _, _. split; [done|]. left. split; [done|].
      match goal with H : ContainsFinalizer _ _ = false |- _ => by rewrite ContainsFinalizer_spec, bool_decide_eq_false in H end.
    + left. by eexists.
Qed.

End Wiring.

Lemma main_wiring_never_connects_witness :
  safe no_bmc [] (@machine_Reconcile ref_lib main_machine_factory {| nn_Namespace := "metal"; nn_Name := "m1" |}).
Proof.
  exact (proj1 (main_wiring_never_connects {| nn_Namespace := "metal"; nn_Name := "h1" |}
                  {| nn_Namespace := "metal"; nn_Name := "m1" |})).
Defined.
