(* ===== verification/Lifecycle.v ===== *)
(** * The lifecycle of a PhysicalHost

    What the rest of the system may rely on about a host: the address of its BMC,
    its state, its consumer and its inspection.  [lifecycle] is the abstract specification,
    independent of the controllers' code: which component may move a host from
    which view to which.  The theorems of this file show that every write of
    every controller, in every environment, is such a move of an object the
    controller has read; System.v lifts this to concurrent controllers. *)

From S2P Require Import Prelude GoText Api Lib Prog Actions Utils Redfish HostController MachineController Inspection ClusterController.

(** ** The abstract specification *)

Record view := {
  v_address : string;
  v_state : string;
  v_consumer : option ObjectReference;
  v_phase : string;
  v_started : option Z;
  v_report : option InspectionReport
}.

Definition host_view (h : PhysicalHost) : view :=
  {| v_address := rc_Address (pspec_RedfishConnection (ph_Spec h));
     v_state := ph_State h; v_consumer := ph_Consumer h;
     v_phase := pst_InspectionPhase (ph_Status h);
     v_started := pst_InspectionTimestamp (ph_Status h);
     v_report := pst_InspectionReport (ph_Status h) |}.

(** Why a host changes. *)
Inductive cause :=
| Claim (ref : ObjectReference)   (* a machine takes a free host *)
| Release (machine : string)      (* the machine the consumer names is deleted *)
| Observe (address : string)      (* the BMC at this address answers *)
| Unreachable                     (* credentials, connection or query failed *)
| Trigger (address : string) (now : Z) (* inspection is started over this BMC *)
| Report (r : InspectionReport)   (* the inspection image reports *)
| Validate (r : InspectionReport) (* the report meets a machine's requirements *)
| Timeout (now : Z)               (* inspection took too long *)
| Keep.                           (* bookkeeping: finalizers *)

(** The state a reachable host settles in, given its consumer. *)
Definition settled (s : string) (c : option ObjectReference) : string :=
  match c with
  | None => StateAvailable
  | Some _ => if bool_decide (s ∈ [StateInUse; StateInspecting; StateReady]) then s else StateInUse
  end.

Abbreviation View a s c p t r :=
  {| v_address := a; v_state := s; v_consumer := c; v_phase := p; v_started := t; v_report := r |}.

Inductive lifecycle : cause -> view -> view -> Prop :=
| lc_claim ref a p t r :
    lifecycle (Claim ref) (View a StateAvailable None p t r) (View a StateAvailable (Some ref) p t r)
| lc_release s ref a p t r :
    lifecycle (Release (or_Name ref)) (View a s (Some ref) p t r) (View a s None p t r)
| lc_observe s c a p t r :
    lifecycle (Observe a) (View a s c p t r) (View a (settled s c) c p t r)
| lc_unreachable s c a p t r :
    lifecycle Unreachable (View a s c p t r) (View a StateError c p t r)
| lc_trigger now c a p t r :
    lifecycle (Trigger a now) (View a StateInUse c p t r)
      (View a StateInspecting c InspectionPhaseBooting (Some now) r)
| lc_report s c a p t r r' :
    lifecycle (Report r') (View a s c p t r) (View a s c InspectionPhaseComplete t (Some r'))
| lc_validate c a t r :
    lifecycle (Validate r) (View a StateInspecting c InspectionPhaseComplete t (Some r))
      (View a StateReady c InspectionPhaseComplete t (Some r))
| lc_timeout now c a p t r :
    DefaultInspectionTimeout < time_sub now t ->
    lifecycle (Timeout now) (View a StateInspecting c p (Some t) r)
      (View a StateError c InspectionPhaseTimeout (Some t) r)
| lc_keep v : lifecycle Keep v v.

(** The causes each component may act for, and what it must have learnt from
    its environment before it does.  [connected]: the handle is that of a
    connection to the BMC at the address. *)
Definition connected (tr : list (event Env)) (address : string) (b : rf_handle) : Prop :=
  exists user password insecure, @Ev Env (ARfConnect address user password insecure) (Ok b) ∈ tr.

Definition host_controller_causes (tr : list (event Env)) (c : cause) : Prop :=
  match c with
  | Observe address => exists b si, connected tr address b /\ @Ev Env (ARfGetSystemInfo b) (Ok si) ∈ tr
  | Unreachable | Keep => True
  | _ => False
  end.

(** The report meets the requirements of the machine, if it has any. *)
Definition requirements_met (m : Beskar7Machine) (r : InspectionReport) : Prop :=
  forall reqs, ms_HardwareRequirements (bm_Spec m) = Some reqs -> check_requirements reqs r = None.

Definition machine_read (tr : list (event Env)) (m : Beskar7Machine) : Prop :=
  exists k, @Ev Env (AGetMachine k) (Ok m) ∈ tr.

Definition machine_controller_causes (tr : list (event Env)) (c : cause) : Prop :=
  match c with
  | Claim ref =>
      exists m, machine_read tr m /\ om_DeletionTimestamp (bm_Meta m) = None /\ ref = claim_ref m
  | Release n =>
      exists m, machine_read tr m /\ is_Some (om_DeletionTimestamp (bm_Meta m)) /\ n = bm_Name m
  | Trigger address now =>
      @Ev Env ANow now ∈ tr /\
      exists b, connected tr address b /\ @Ev Env (ARfSetBootSourcePXE b) (Ok tt) ∈ tr /\
        (@Ev Env (ARfGetPowerState b) (Ok OnPowerState) ∈ tr \/
         @Ev Env (ARfSetPowerState b OnPowerState) (Ok tt) ∈ tr)
  | Validate r => exists m, machine_read tr m /\ requirements_met m r
  | Timeout now => @Ev Env ANow now ∈ tr
  | _ => False
  end.

Definition inspection_causes (tr : list (event Env)) (c : cause) : Prop :=
  match c with Report _ => True | _ => False end.

Definition cluster_controller_causes (tr : list (event Env)) (c : cause) : Prop := False.

(** ** Justified writes *)

(** The host objects an event makes known to the caller. *)
Definition event_hosts (e : event Env) : list PhysicalHost :=
  match e with
  | Ev a r =>
      match a return capi_answer a -> list PhysicalHost with
      | AGetHost _ => fun r => match r with Ok h => [h] | Err _ => [] end
      | AListHosts _ => fun r => match r with Ok l => l | Err _ => [] end
      | AUpdateHost _ => fun r => match r with Ok h => [h] | Err _ => [] end
      | AUpdateHostStatus _ => fun r => match r with Ok h => [h] | Err _ => [] end
      | _ => fun _ => []
      end r
  end.

Definition seen (tr : list (event Env)) (h : PhysicalHost) : Prop :=
  exists e, e ∈ tr /\ h ∈ event_hosts e.

(** A write of a host is justified by a host read before: same resource
    version, only the part changed that the call writes, and a lifecycle move. *)
Definition write_ok (allowed : list (event Env) -> cause -> Prop) (tr : list (event Env)) (a : action Env) : Prop :=
  match a with
  | AUpdateHost h' =>
      exists h c, seen tr h /\ ph_Status h' = ph_Status h /\ ph_Key h' = ph_Key h /\ ph_RV h' = ph_RV h /\
        om_DeletionTimestamp (ph_Meta h') = om_DeletionTimestamp (ph_Meta h) /\
        allowed tr c /\ lifecycle c (host_view h) (host_view h')
  | AUpdateHostStatus h' =>
      exists h c, seen tr h /\ ph_Meta h' = ph_Meta h /\ ph_Spec h' = ph_Spec h /\
        allowed tr c /\ lifecycle c (host_view h) (host_view h')
  | _ => True
  end.

Lemma seen_app_l tr tr' h : seen tr h -> seen (tr ++ tr') h.
Proof. intros (e & ? & ?). exists e. split; [|done]. apply elem_of_app. by left. Qed.

Lemma seen_prefix tr tr' h : tr `prefix_of` tr' -> seen tr h -> seen tr' h.
Proof. intros [k ->]. apply seen_app_l. Qed.

Lemma seen_last tr e h : h ∈ event_hosts e -> seen (tr ++ [e]) h.
Proof. intros. exists e. split; [|done]. apply elem_of_app. right. by apply list_elem_of_singleton. Qed.

Lemma seen_get tr k h : seen (tr ++ [@Ev Env (AGetHost k) (Ok h)]) h.
Proof. apply seen_last. by apply list_elem_of_singleton. Qed.

Lemma read_app_l tr tr' m : machine_read tr m -> machine_read (tr ++ tr') m.
Proof. intros [k ?]. exists k. by apply ev_app_l. Qed.

Lemma read_prefix tr tr' m : tr `prefix_of` tr' -> machine_read tr m -> machine_read tr' m.
Proof. intros [k ->]. apply read_app_l. Qed.

Lemma connected_app_l tr tr' a b : connected tr a b -> connected (tr ++ tr') a b.
Proof. intros (u & p & i & ?). exists u, p, i. by apply ev_app_l. Qed.

Lemma connected_last tr a u p i b : connected (tr ++ [@Ev Env (ARfConnect a u p i) (Ok b)]) a b.
Proof. exists u, p, i. apply elem_of_app. right. by apply list_elem_of_singleton. Qed.

#[export] Hint Resolve seen_get connected_last : go.
#[export] Hint Resolve connected_app_l | 5 : go.
#[export] Hint Resolve read_app_l | 5 : go.
#[export] Hint Resolve seen_app_l | 5 : go.

(** ** The PhysicalHost controller *)

Section Safety.
  Context {L : Lib}.

Lemma settled_spec s :
  bool_decide (s ∈ [StateInUse; StateInspecting; StateReady]) =
  negb (negb (s ==s StateInUse) && negb (s ==s StateInspecting) && negb (s ==s StateReady)).
Proof.
  apply Bool.eq_iff_eq_true. rewrite bool_decide_eq_true.
  rewrite !negb_andb, !negb_involutive, !orb_true_iff, !eqb_true. set_solver.
Qed.

(** [consumer_state] settles the state and touches nothing else of the view. *)
Lemma consumer_state_view h :
  host_view (consumer_state h) =
  {| v_address := rc_Address (pspec_RedfishConnection (ph_Spec h));
     v_state := settled (ph_State h) (ph_Consumer h); v_consumer := ph_Consumer h;
     v_phase := pst_InspectionPhase (ph_Status h);
     v_started := pst_InspectionTimestamp (ph_Status h);
     v_report := pst_InspectionReport (ph_Status h) |}.
Proof.
  unfold consumer_state, settled. destruct (ph_Consumer h) eqn:Hc.
  - rewrite settled_spec. destruct (_ && _); cbn; unfold host_view; f_equal; done.
  - destruct (negb (ph_State h ==s StateAvailable)) eqn:E; cbn; unfold host_view; f_equal; try done.
    by apply negb_false_iff, eqb_true in E.
Qed.

Lemma consumer_state_frame h :
  ph_Meta (consumer_state h) = ph_Meta h /\ ph_Spec (consumer_state h) = ph_Spec h.
Proof. unfold consumer_state. repeat split_goal; done. Qed.

Lemma observed_host_frame ph si power addrs :
  ph_Meta (observed_host ph si power addrs) = ph_Meta ph /\
  ph_Spec (observed_host ph si power addrs) = ph_Spec ph.
Proof.
  unfold observed_host. cbv zeta. destruct power, addrs; cbn;
    destruct (consumer_state_frame ph); rewrite ?(proj1 (consumer_state_frame _)),
    ?(proj2 (consumer_state_frame _)); done.
Qed.

Lemma observed_host_view ph si power addrs :
  host_view (observed_host ph si power addrs) =
  {| v_address := rc_Address (pspec_RedfishConnection (ph_Spec ph));
     v_state := settled (ph_State ph) (ph_Consumer ph); v_consumer := ph_Consumer ph;
     v_phase := pst_InspectionPhase (ph_Status ph);
     v_started := pst_InspectionTimestamp (ph_Status ph);
     v_report := pst_InspectionReport (ph_Status ph) |}.
Proof. unfold observed_host. cbv zeta. rewrite consumer_state_view. by destruct power, addrs. Qed.

Lemma write_observed tr ph b si si' power addrs :
  seen tr ph -> connected tr (rc_Address (pspec_RedfishConnection (ph_Spec ph))) b ->
  @Ev Env (ARfGetSystemInfo b) (Ok si') ∈ tr ->
  write_ok host_controller_causes tr (AUpdateHostStatus (observed_host ph si power addrs)).
Proof.
  intros. exists ph, (Observe (rc_Address (pspec_RedfishConnection (ph_Spec ph)))). destruct (observed_host_frame ph si power addrs).
  repeat (split; [done|]). split; [by exists b, si'|]. rewrite observed_host_view. constructor.
Qed.

Lemma write_failed tr ph e r m :
  seen tr ph -> write_ok host_controller_causes tr (AUpdateHostStatus (failed_host ph e r m)).
Proof. intros. exists ph, Unreachable. repeat (split; [done|]). constructor. Qed.

Hint Resolve write_observed write_failed : go.
Hint Extern 1 (write_ok _ _ _) => exact I : go.

Lemma getRedfishCredentials_safe al tr ph :
  safe (write_ok al) tr (getRedfishCredentials ph).
Proof. unfold safe, getRedfishCredentials. repeat wp_step; auto with go. Qed.

Lemma reconcileNormal_connected_safe tr ph c :
  seen tr ph -> connected tr (rc_Address (pspec_RedfishConnection (ph_Spec ph))) c ->
  safe (write_ok host_controller_causes) tr (reconcileNormal_connected ph c).
Proof. intros Hs Hc. unfold safe, reconcileNormal_connected. repeat wp_step; eauto 10 with go. Qed.

Lemma host_reconcileNormal_safe r tr ph :
  seen tr ph -> safe (write_ok host_controller_causes) tr (host_reconcileNormal r ph).
Proof.
  intros Hs. unfold safe, host_reconcileNormal.
  eapply wp_seq; [apply getRedfishCredentials_safe|]. intros tr' x Htr _.
  pose proof (seen_prefix _ _ _ Htr Hs).
  repeat wp_step; auto 10 with go.
  eapply wp_seq; [apply reconcileNormal_connected_safe; auto with go|].
  intros. repeat wp_step; auto with go.
Qed.


(** A metadata update that changes the finalizers only. *)
Lemma write_finalizers al tr ph fs :
  seen tr ph -> al tr Keep ->
  write_ok al tr (AUpdateHost (set_ph_Meta (set_om_Finalizers fs (ph_Meta ph)) ph)).
Proof. intros. exists ph, Keep. repeat (split; [done|]). constructor. Qed.

Lemma host_reconcileDelete_safe {LL : LibLaws L} r tr ph :
  seen tr ph -> safe (write_ok host_controller_causes) tr (host_reconcileDelete r ph).
Proof.
  intros Hs. unfold safe, host_reconcileDelete. rewrite RemoveFinalizer_spec.
  repeat wp_step; try done; by apply write_finalizers; auto with go.
Qed.

Lemma host_Reconcile_safe {LL : LibLaws L} r req :
  safe (write_ok host_controller_causes) [] (host_Reconcile r req).
Proof.
  unfold safe, host_Reconcile. repeat wp_step; auto with go.
  - apply host_reconcileDelete_safe; auto with go.
  - rewrite AddFinalizer_spec. rewrite negb_true_iff in Heqb. rewrite Heqb.
    apply write_finalizers; [auto with go|done].
  - apply host_reconcileNormal_safe; auto with go.
Qed.

(** ** The Beskar7Machine controller *)

(** What the machine object in hand keeps of the one that was read. *)
Definition same_machine (m0 m : Beskar7Machine) : Prop :=
  claim_ref m = claim_ref m0 /\
  ms_HardwareRequirements (bm_Spec m) = ms_HardwareRequirements (bm_Spec m0).

Lemma write_inspecting tr b ph now :
  seen tr ph -> ph_State ph = StateInUse -> connected tr (rc_Address (pspec_RedfishConnection (ph_Spec ph))) b ->
  @Ev Env ANow now ∈ tr -> @Ev Env (ARfSetBootSourcePXE b) (Ok tt) ∈ tr ->
  @Ev Env (ARfGetPowerState b) (Ok OnPowerState) ∈ tr \/
  @Ev Env (ARfSetPowerState b OnPowerState) (Ok tt) ∈ tr ->
  write_ok machine_controller_causes tr (AUpdateHostStatus (inspecting_host ph now)).
Proof.
  intros ? E ? ? ? ?. exists ph, (Trigger (rc_Address (pspec_RedfishConnection (ph_Spec ph))) now). repeat (split; [done|]).
  split; [by split; [done|exists b]|]. unfold host_view. rewrite E. constructor.
Qed.

Lemma write_timed_out tr ph t now :
  seen tr ph -> ph_State ph = StateInspecting ->
  pst_InspectionTimestamp (ph_Status ph) = Some t ->
  @Ev Env ANow now ∈ tr -> (time_sub now t >? DefaultInspectionTimeout) = true ->
  write_ok machine_controller_causes tr (AUpdateHostStatus (timed_out_host ph (time_sub now t))).
Proof.
  intros ? E Et ? Hd. exists ph, (Timeout now). repeat (split; [done|]). unfold host_view.
  cbn. rewrite E, Et. constructor. lia.
Qed.

Lemma write_ready tr m0 m ph r :
  seen tr ph -> ph_State ph = StateInspecting ->
  pst_InspectionPhase (ph_Status ph) = InspectionPhaseComplete ->
  pst_InspectionReport (ph_Status ph) = Some r ->
  machine_read tr m0 -> same_machine m0 m -> requirements_met m r ->
  write_ok machine_controller_causes tr (AUpdateHostStatus (ready_host ph)).
Proof.
  intros ? E1 E2 E3 ? [_ Hr] Hm. exists ph, (Validate r). repeat (split; [done|]).
  split; [exists m0; split; [done|]; intros ?; rewrite <- Hr; apply Hm|].
  unfold host_view. cbn. rewrite E1, E2, E3. constructor.
Qed.

Lemma write_claimed tr m0 m ph :
  seen tr ph -> claimable ph = true ->
  machine_read tr m0 -> om_DeletionTimestamp (bm_Meta m0) = None -> same_machine m0 m ->
  write_ok machine_controller_causes tr (AUpdateHost (claimed_host m ph)).
Proof.
  intros ? E ? ? [Hr _]. apply andb_true_iff in E as [E1%eqb_true E2]. exists ph, (Claim (claim_ref m)).
  repeat (split; [done|]). split; [by exists m0|].
  unfold host_view. cbn. destruct (ph_Consumer ph) eqn:Ec; [done|].
  unfold ph_State in *. cbn. rewrite E1. constructor.
Qed.

Lemma write_released tr m ph ref :
  seen tr ph -> ph_Consumer ph = Some ref -> (or_Name ref ==s bm_Name m) = true ->
  machine_read tr m -> is_Some (om_DeletionTimestamp (bm_Meta m)) ->
  write_ok machine_controller_causes tr (AUpdateHost (released_host ph)).
Proof.
  intros ? E En%eqb_true ? ?. exists ph, (Release (or_Name ref)). repeat (split; [done|]).
  split; [by exists m|]. unfold host_view. rewrite E. constructor.
Qed.

Hint Resolve write_inspecting write_timed_out write_released : go.

Lemma getRedfishClientForHost_safe al tr f ph :
  wp (write_ok al) tr (getRedfishClientForHost f ph) (fun tr' x =>
    forall c, x = Done (Ok c) -> connected tr' (rc_Address (pspec_RedfishConnection (ph_Spec ph))) c).
Proof.
  unfold getRedfishClientForHost. repeat wp_step; auto with go; try done. intros c [= ->]. auto with go.
Qed.

Lemma triggerInspection_safe tr f ph m :
  seen tr ph -> ph_State ph = StateInUse ->
  safe (write_ok machine_controller_causes) tr (triggerInspection f ph m).
Proof.
  intros Hs E. unfold safe, triggerInspection.
  eapply wp_seq; [apply getRedfishClientForHost_safe|]. intros tr' x Htr Hconn.
  pose proof (seen_prefix _ _ _ Htr Hs). repeat wp_step; auto with go. specialize (Hconn _ eq_refl).
  unfold with_defer. eapply wp_seq with (Q := fun _ _ => True).
  - unfold triggerInspection_connected. repeat wp_step; auto with go; destruct_units; reflect; subst.
    all: eapply write_inspecting; eauto 10 with go.
  - intros. repeat wp_step; auto with go.
Qed.

Section Machine.
  (** The machine as it was read, and as it is now. *)
  Context (m0 m : Beskar7Machine) (Hm : same_machine m0 m).

Lemma validateInspectionReport_safe tr ph :
  machine_read tr m0 -> seen tr ph -> ph_State ph = StateInspecting ->
  pst_InspectionPhase (ph_Status ph) = InspectionPhaseComplete ->
  safe (write_ok machine_controller_causes) tr (validateInspectionReport ph m).
Proof.
  intros. unfold safe, validateInspectionReport. repeat wp_step; auto with go.
  eapply write_ready; eauto. intros reqs E. by rewrite E in *.
Qed.

Lemma handleInspectingHost_rest_safe tr ph :
  machine_read tr m0 -> seen tr ph -> ph_State ph = StateInspecting ->
  safe (write_ok machine_controller_causes) tr (handleInspectingHost_rest ph m).
Proof.
  intros. unfold safe, handleInspectingHost_rest. repeat wp_step; [|done].
  apply validateInspectionReport_safe; [done..|by apply eqb_true].
Qed.

Lemma handleInspectingHost_safe tr ph :
  machine_read tr m0 -> seen tr ph -> ph_State ph = StateInspecting ->
  safe (write_ok machine_controller_causes) tr (handleInspectingHost ph m).
Proof.
  intros. unfold safe, handleInspectingHost. repeat wp_step; eauto with go;
    apply handleInspectingHost_rest_safe; auto with go.
Qed.

Lemma handlePhysicalHostState_safe tr f ph :
  machine_read tr m0 -> seen tr ph ->
  safe (write_ok machine_controller_causes) tr (handlePhysicalHostState f ph m).
Proof.
  intros. unfold safe, handlePhysicalHostState, handleReadyHost. repeat wp_step; auto with go.
  - apply handleInspectingHost_safe; [done..|by apply eqb_true].
  - apply triggerInspection_safe; [done|by apply eqb_true].
Qed.

(** The associated host is one that was read, or the answer of the claim. *)
Abbreviation found := (fun tr x => forall h, x.1.1 = Some h -> seen tr h).

Lemma seen_update tr h' h : seen (tr ++ [@Ev Env (AUpdateHost h') (Ok h)]) h.
Proof. apply seen_last. by apply list_elem_of_singleton. Qed.

Context (Hd : om_DeletionTimestamp (bm_Meta m0) = None).

Lemma claim_loop_safe tr items :
  machine_read tr m0 -> (forall h, h ∈ items -> seen tr h) ->
  wp (write_ok machine_controller_causes) tr (claim_loop m items) found.
Proof.
  intros Hr. induction items as [|h items IH]; intros Hs; cbn [claim_loop]; [by apply wp_ret|].
  assert (seen tr h) by (apply Hs; left).
  repeat wp_step; [by eapply write_claimed| |done|].
  - intros ? [= <-]. apply seen_update.
  - apply IH. intros. apply Hs. by right.
Qed.

Lemma findAvailableHost_safe tr :
  machine_read tr m0 ->
  wp (write_ok machine_controller_causes) tr (findAvailableHost m) found.
Proof.
  intros. unfold findAvailableHost. repeat wp_step; auto with go; [|done].
  apply claim_loop_safe; [auto with go|]. intros h Hh. by apply seen_last.
Qed.

Lemma findAndClaim_safe tr :
  machine_read tr m0 ->
  wp (write_ok machine_controller_causes) tr (findAndClaimOrGetAssociatedHost m) found.
Proof.
  intros. unfold findAndClaimOrGetAssociatedHost.
  repeat wp_step; try (apply findAvailableHost_safe; auto with go); try done.
  intros ? [= <-]. apply seen_get.
Qed.

End Machine.

Lemma machine_reconcileNormal_safe {LL : LibLaws L} tr f m :
  machine_read tr m -> om_DeletionTimestamp (bm_Meta m) = None ->
  safe (write_ok machine_controller_causes) tr (machine_reconcileNormal f m).
Proof.
  intros Hr Hd. unfold safe, machine_reconcileNormal. rewrite AddFinalizer_spec.
  destruct (ContainsFinalizer _ _); [|by repeat wp_step].
  assert (same_machine m (set_bm_Meta (bm_Meta m) m)) by done.
  eapply wp_seq; [by eapply findAndClaim_safe|]. intros tr' [[h res] e] Htr Hf.
  repeat wp_step; try done. eapply handlePhysicalHostState_safe; [|by eapply read_prefix|by apply Hf].
  done.
Qed.

Lemma machine_reconcileDelete_safe tr m :
  machine_read tr m -> is_Some (om_DeletionTimestamp (bm_Meta m)) ->
  safe (write_ok machine_controller_causes) tr (machine_reconcileDelete m).
Proof.
  intros. unfold safe, machine_reconcileDelete. eapply wp_seq with (Q := fun _ _ => True).
  - unfold release_host. repeat wp_step; eauto with go.
  - intros. repeat wp_step; done.
Qed.

Lemma machine_Reconcile_safe {LL : LibLaws L} f req :
  safe (write_ok machine_controller_causes) [] (machine_Reconcile f req).
Proof.
  unfold safe, machine_Reconcile. repeat wp_step; auto with go.
  match goal with |- wp _ ?tr (bind (with_defer _ _ ?m) _) _ =>
    assert (machine_read tr m) by (eexists; eauto 10 with go) end.
  eapply wp_seq with (Q := fun _ _ => True); [|intros; repeat wp_step; done].
  unfold with_defer. eapply wp_seq with (Q := fun _ _ => True).
  - destruct (om_DeletionTimestamp _) eqn:E;
      [apply machine_reconcileDelete_safe|apply machine_reconcileNormal_safe]; by rewrite ?E.
  - intros ? [] ? ?. unfold deferred_patch. repeat wp_step; auto with go.
Qed.

(** ** The Beskar7Cluster controller and the watches

    They write no host. *)

Lemma cluster_Reconcile_safe req : safe (write_ok cluster_controller_causes) [] (cluster_Reconcile req).
Proof.
  unfold safe, cluster_Reconcile, cluster_body, cluster_reconcileNormal, cluster_reconcileDelete, cluster_patch,
    reconcileFailureDomains, reconcileControlPlaneEndpoint, findControlPlaneEndpoint. wp_steps; exact I.
Qed.

Lemma SecretToPhysicalHosts_safe al obj : safe (write_ok al) [] (SecretToPhysicalHosts obj).
Proof. unfold safe, SecretToPhysicalHosts. wp_steps; exact I. Qed.

Lemma PhysicalHostToBeskar7Clusters_safe al obj : safe (write_ok al) [] (PhysicalHostToBeskar7Clusters obj).
Proof. unfold safe, PhysicalHostToBeskar7Clusters. wp_steps; exact I. Qed.

(** ** The inspection endpoint *)

Lemma ServeHTTP_safe dec rq : safe (write_ok inspection_causes) [] (ServeHTTP dec rq).
Proof.
  unfold safe, ServeHTTP. repeat wp_step; try done.
  eapply wp_seq with (Q := fun _ _ => True); [|intros; repeat wp_step; done].
  unfold updatePhysicalHost. repeat wp_step; auto with go.
  eexists _, (Report _). split; [eauto with go|]. repeat (split; [done|]). constructor.
Qed.

End Safety.
