(* ===== verification/System.v ===== *)
(** * The controllers together

    Reconcilers and report handlers run concurrently, each one call at a time,
    against an API server with optimistic concurrency, and may crash between
    any two calls.  The API server is third-party code: [Server] names what the
    controllers use of it and [ServerLaws] states its documented behaviour.
    Memory.v gives an instance.

    The theorems of this file hold for every interleaving: the stored hosts
    follow the lifecycle of Lifecycle.v, and its invariants hold of every host
    in every reachable state. *)

From S2P Require Import Prelude Api Lib Prog Actions HostController MachineController ClusterController Inspection Lifecycle.

(** ** The API server *)

Class Server := {
  world : Type;
  (** The PhysicalHosts stored now. *)
  hosts : world -> gmap NamespacedName PhysicalHost;
  (** The object is, or was, what the server holds under its key: what reads,
      which may be served from a cache, can return. *)
  past : world -> PhysicalHost -> Prop;
  (** The server's own consistency. *)
  consistent : world -> Prop;
  (** The server, or the outside world, performs a call and answers it. *)
  serve : forall a : capi_action, world -> capi_answer a -> world -> Prop;
  (** A step of the users of the cluster. *)
  users : world -> world -> Prop
}.

(** [Update] or [Status().Update] of [h'] as [put]: with a resource version
    that is not current nothing is stored and the call fails; otherwise [put]
    describes the new object, or, when an update leaves an object under
    deletion without finalizers, the object is gone.  A call that fails may
    have been performed. *)
Definition conditional_write `{Server} (put : PhysicalHost -> PhysicalHost -> Prop) (h' : PhysicalHost)
    (w : world) (r : result PhysicalHost) (w' : world) : Prop :=
  (hosts w' = hosts w /\ exists e, r = Err e) \/
  exists cur new,
    hosts w !! ph_Key h' = Some cur /\ ph_RV cur = ph_RV h' /\
    ph_Key new = ph_Key h' /\ put cur new /\ (r = Ok new \/ exists e, r = Err e) /\
    (hosts w' = <[ph_Key h' := new]> (hosts w) \/
     hosts w' = delete (ph_Key h') (hosts w) /\
     is_Some (om_DeletionTimestamp (ph_Meta new)) /\ om_Finalizers (ph_Meta new) = []).

(** How a call changes the stored hosts: the status is a subresource, which
    [Update] leaves alone and which is all that [Status().Update] changes; times
    are stored in whole seconds. *)
Definition call_effect `{Server} (a : capi_action) : world -> capi_answer a -> world -> Prop :=
  match a return world -> capi_answer a -> world -> Prop with
  | AUpdateHost h' => conditional_write (fun cur new =>
      ph_Spec new = ph_Spec h' /\ ph_Status new = ph_Status cur) h'
  | AUpdateHostStatus h' => conditional_write (fun cur new =>
      ph_Spec new = ph_Spec cur /\ ph_Status new = stored_status (ph_Status h')) h'
  | _ => fun w _ w' => hosts w' = hosts w
  end.

(** Users create hosts, which start without a consumer and with the empty
    status; change their metadata and connection, and clear their consumer, the
    manual recovery of docs/state-management.md; delete them.  They do not set a
    consumer and leave the status to the controllers. *)
Inductive user_edit (hs : gmap NamespacedName PhysicalHost) : gmap NamespacedName PhysicalHost -> Prop :=
| user_other : user_edit hs hs
| user_create h :
    hs !! ph_Key h = None -> ph_Consumer h = None -> ph_Status h = empty_status ->
    user_edit hs (<[ph_Key h := h]> hs)
| user_change h h' :
    hs !! ph_Key h' = Some h -> ph_Consumer h' ∈ [ph_Consumer h; None] -> ph_Status h' = ph_Status h ->
    user_edit hs (<[ph_Key h' := h']> hs)
| user_delete k : user_edit hs (delete k hs).

Class ServerLaws (S : Server) : Prop := {
  stored_past w k h : consistent w -> hosts w !! k = Some h -> past w h;
  stored_key w k h : consistent w -> hosts w !! k = Some h -> ph_Key h = k;
  (** What is held has been serialised. *)
  past_stored w h : consistent w -> past w h -> stored_status (ph_Status h) = ph_Status h;
  (** A resource version identifies one version of an object. *)
  version_unique w h h' : consistent w -> past w h -> past w h' ->
    ph_Key h = ph_Key h' -> ph_RV h = ph_RV h' -> h = h';
  (** Reads and writes answer with versions of objects. *)
  answers_past a w r w' h : consistent w -> serve a w r w' -> h ∈ event_hosts (@Ev Env a r) -> past w' h;
  serve_effect a w r w' : consistent w -> serve a w r w' -> call_effect a w r w';
  users_effect w w' : consistent w -> users w w' -> user_edit (hosts w) (hosts w');
  serve_consistent a w r w' : consistent w -> serve a w r w' -> consistent w';
  users_consistent w w' : consistent w -> users w w' -> consistent w';
  serve_past a w r w' h : consistent w -> serve a w r w' -> past w h -> past w' h;
  users_past w w' h : consistent w -> users w w' -> past w h -> past w' h
}.

(** ** Concurrent controllers *)

Inductive role := HostRole | MachineRole | ClusterRole | InspectionRole.

Definition causes (ro : role) : list (event Env) -> cause -> Prop :=
  match ro with
  | HostRole => host_controller_causes
  | MachineRole => machine_controller_causes
  | ClusterRole => cluster_controller_causes
  | InspectionRole => inspection_causes
  end.

(** A reconciliation or request in progress: what it has done and what it has
    still to do. *)
Record thread := { t_role : role; t_events : list (event Env); t_prog : prog Env unit }.

Section System.
  Context {L : Lib} {S : Server}.

(** What can be started: each reconciler on any key, with or without its
    client factory and recorder, the functions that map a change of a watched
    object to requests, and the report endpoint on any request. *)
Inductive starts : role -> prog Env unit -> Prop :=
| start_host r req : starts HostRole (host_Reconcile r req ;;! Ret tt)
| start_machine f req : starts MachineRole (machine_Reconcile f req ;;! Ret tt)
| start_cluster req : starts ClusterRole (cluster_Reconcile req ;;! Ret tt)
| start_secret_watch obj : starts HostRole (SecretToPhysicalHosts obj ;;! Ret tt)
| start_host_watch obj : starts ClusterRole (PhysicalHostToBeskar7Clusters obj ;;! Ret tt)
| start_report dec rq : starts InspectionRole (ServeHTTP dec rq ;;! Ret tt).

Record system := { sy_world : world; sy_threads : list thread }.

Inductive step : system -> system -> Prop :=
| step_start w ts ro p :
    starts ro p ->
    step {| sy_world := w; sy_threads := ts |}
         {| sy_world := w; sy_threads := ts ++ [{| t_role := ro; t_events := []; t_prog := p |}] |}
| step_call w ts i ro tr (a : capi_action) (k : capi_answer a -> prog Env unit) r w' :
    ts !! i = Some {| t_role := ro; t_events := tr; t_prog := @Act Env unit a k |} ->
    serve a w r w' ->
    step {| sy_world := w; sy_threads := ts |}
         {| sy_world := w';
            sy_threads := <[i := {| t_role := ro; t_events := tr ++ [@Ev Env a r]; t_prog := k r |}]> ts |}
| step_end w ts i :
    step {| sy_world := w; sy_threads := ts |} {| sy_world := w; sy_threads := delete i ts |}
| step_users w ts w' :
    users w w' ->
    step {| sy_world := w; sy_threads := ts |} {| sy_world := w'; sy_threads := ts |}.

(** The system starts with a consistent server that holds no hosts and with
    nothing running. *)
Definition initial (s : system) : Prop :=
  consistent (sy_world s) /\ hosts (sy_world s) = ∅ /\ sy_threads s = [].

Definition reachable (s : system) : Prop := exists s0, initial s0 /\ rtc step s0 s.

(** Who makes a step: the thread whose call it is, or the users. *)
Definition acts (s s' : system) (t : thread) : Prop :=
  exists i (a : capi_action) (k : capi_answer a -> prog Env unit) r,
    sy_threads s !! i = Some t /\ t_prog t = @Act Env unit a k /\ serve a (sy_world s) r (sy_world s') /\
    sy_threads s' = <[i := {| t_role := t_role t; t_events := t_events t ++ [@Ev Env a r]; t_prog := k r |}]> (sy_threads s).

Definition users_act (s s' : system) : Prop := users (sy_world s) (sy_world s') /\ sy_threads s' = sy_threads s.

End System.

(** ** The abstract system: one view per host *)

Definition fresh_view (address : string) : view := View address "" None "" None None.

(** A view as it is stored: times in whole seconds. *)
Definition stored_view (v : view) : view :=
  View (v_address v) (v_state v) (v_consumer v) (v_phase v) (stored_time <$> v_started v) (stored_report <$> v_report v).

Inductive abs_label :=
| Silent
| Moved (ro : role) (tr : list (event Env)) (c : cause) (k : NamespacedName)
| Created (k : NamespacedName)
| Edited (k : NamespacedName)
| Deleted (k : NamespacedName).

Inductive abs_step : abs_label -> gmap NamespacedName view -> gmap NamespacedName view -> Prop :=
| abs_silent m : abs_step Silent m m
| abs_moved ro tr c k v v' m :
    causes ro tr c -> m !! k = Some v -> lifecycle c v v' ->
    abs_step (Moved ro tr c k) m (<[k := stored_view v']> m)
| abs_created a k m : m !! k = None -> abs_step (Created k) m (<[k := fresh_view a]> m)
| abs_edited a s c c' p t r a' k m :
    m !! k = Some (View a s c p t r) -> c' ∈ [c; None] ->
    abs_step (Edited k) m (<[k := View a' s c' p t r]> m)
| abs_deleted k m : abs_step (Deleted k) m (delete k m).

Definition abs `{Server} (s : system) : gmap NamespacedName view := host_view <$> hosts (sy_world s).

(** ** Refinement *)

Section Refinement.
  Context {L : Lib} {LL : LibLaws L} {S : Server} {SL : ServerLaws S}.

Definition thread_ok (w : world) (t : thread) : Prop :=
  safe (write_ok (causes (t_role t))) (t_events t) (t_prog t) /\
  forall h, seen (t_events t) h -> past w h.

Definition system_ok (s : system) : Prop :=
  consistent (sy_world s) /\ Forall (thread_ok (sy_world s)) (sy_threads s).

Lemma starts_safe ro p : starts ro p -> safe (write_ok (causes ro)) [] p.
Proof.
  intros []; (eapply wp_seq; [|by intros; apply wp_ret]).
  - apply host_Reconcile_safe.
  - apply machine_Reconcile_safe.
  - apply cluster_Reconcile_safe.
  - apply SecretToPhysicalHosts_safe.
  - apply PhysicalHostToBeskar7Clusters_safe.
  - apply ServeHTTP_safe.
Qed.

Lemma thread_ok_past w w' t :
  (forall h, past w h -> past w' h) -> thread_ok w t -> thread_ok w' t.
Proof. intros Hp [? ?]. split; auto. Qed.

Lemma seen_snoc tr e h : seen (tr ++ [e]) h -> seen tr h \/ h ∈ event_hosts e.
Proof.
  intros (e' & [?| ->%list_elem_of_singleton]%elem_of_app & ?); [left; by exists e'|by right].
Qed.

Lemma step_ok s s' : system_ok s -> step s s' -> system_ok s'.
Proof.
  intros [Hc Hts] Hstep. destruct Hstep as [w ts ro p Hp|w ts i ro tr a k r w' Hi Hs|w ts i|w ts w' Hu];
    simpl in *; split; simpl; try done.
  - apply Forall_app. split; [done|]. apply Forall_singleton. split; [by apply starts_safe|].
    intros h (e & ?%not_elem_of_nil & _). done.
  - by eapply serve_consistent.
  - destruct (Forall_lookup_1 _ _ _ _ Hts Hi) as [[_ Hk] Hseen]. apply Forall_insert.
    + eapply Forall_impl; [done|]. intros t. apply thread_ok_past. eauto using serve_past.
    + split; [apply Hk|]. simpl. intros h [?|?]%seen_snoc; eauto using serve_past, answers_past.
  - by apply Forall_delete.
  - by eapply users_consistent.
  - eapply Forall_impl; [done|]. intros t. apply thread_ok_past. eauto using users_past.
Qed.

Lemma reachable_ok s : reachable s -> system_ok s.
Proof.
  intros (s0 & (Hc & Hh & Ht) & Hs). assert (H0 : system_ok s0) by (split; [done|by rewrite Ht]).
  clear Hc Hh Ht. induction Hs; [done|]. eauto using step_ok.
Qed.

(** A move is labelled with the thread that makes it. *)
Definition label_by (l : abs_label) (ro : role) (tr : list (event Env)) : Prop :=
  match l with
  | Silent | Deleted _ => True
  | Moved ro' tr' _ _ => ro' = ro /\ tr' = tr
  | Created _ | Edited _ => False
  end.

Lemma stored_host_view w h : consistent w -> past w h -> stored_view (host_view h) = host_view h.
Proof.
  intros Hc Hp. pose proof (past_stored w h Hc Hp) as Hs. unfold stored_view, host_view. cbn -[stored_time stored_report].
  apply (f_equal pst_InspectionTimestamp) in Hs as Ht. apply (f_equal pst_InspectionReport) in Hs as Hr.
  cbn -[stored_time stored_report] in Ht, Hr. by rewrite Ht, Hr.
Qed.

(** A conditional write of an object that was changed by a lifecycle move from
    a version once stored is that move of the object stored now. *)
Lemma conditional_write_refines (put : PhysicalHost -> PhysicalHost -> Prop) ro tr c h h' w r w' :
  consistent w -> past w h -> ph_Key h' = ph_Key h -> ph_RV h' = ph_RV h ->
  causes ro tr c -> lifecycle c (host_view h) (host_view h') ->
  (forall new, put h new -> host_view new = stored_view (host_view h')) ->
  conditional_write put h' w r w' ->
  exists l, abs_step l (host_view <$> hosts w) (host_view <$> hosts w') /\ label_by l ro tr.
Proof.
  intros Hc Hp Hk Hv Hca Hl Hput [[-> _]|(cur & new & Hcur & Hrv & Hkn & Hn & _ & Hw)].
  { exists Silent. by split; [constructor|]. }
  assert (cur = h) as ->.
  { eapply version_unique; eauto using stored_past; [|congruence].
    rewrite (stored_key w (ph_Key h') cur); congruence. }
  destruct Hw as [->|[-> _]].
  - exists (Moved ro tr c (ph_Key h')). rewrite fmap_insert, (Hput new Hn).
    split; [|done]. econstructor; [done| |done]. by rewrite lookup_fmap, Hcur.
  - exists (Deleted (ph_Key h')). rewrite fmap_delete. by split; [constructor|].
Qed.

Lemma call_refines ro tr a w r w' :
  consistent w -> write_ok (causes ro) tr a -> (forall h, seen tr h -> past w h) ->
  call_effect a w r w' ->
  exists l, abs_step l (host_view <$> hosts w) (host_view <$> hosts w') /\ label_by l ro tr.
Proof.
  intros Hc Hok Hpast He.
  destruct a; simpl in He; try (rewrite He; exists Silent; by split; [constructor|]).
  - destruct Hok as (h0 & c & Hs & Hst & Hk & Hv & _ & Hal & Hl).
    eapply conditional_write_refines in He; eauto. intros new [Hsp Hstn].
    pose proof (stored_host_view w h0 Hc (Hpast _ Hs)) as Hsv. unfold host_view, stored_view, ph_State, ph_Consumer in *.
    cbn -[stored_time stored_report] in *. injection Hsv as Ht Hr. by rewrite Hsp, Hstn, Hst, Ht, Hr.
  - destruct Hok as (h0 & c & Hs & Hm & Hsp & Hal & Hl).
    eapply conditional_write_refines in He; eauto; try (unfold ph_Key, ph_Namespace, ph_Name, ph_RV; by rewrite Hm).
    intros new [Hspn Hstn]. unfold host_view, ph_State, ph_Consumer in *. by rewrite Hspn, Hstn, Hsp.
Qed.

(** What users do is labelled as such. *)
Definition users_label (l : abs_label) : Prop := match l with Moved _ _ _ _ => False | _ => True end.

Lemma user_refines hs hs' :
  user_edit hs hs' -> exists l, abs_step l (host_view <$> hs) (host_view <$> hs') /\ users_label l.
Proof.
  intros [|h Hn Hc Hs|h h' Hh Hc Hs|k].
  - exists Silent. by split; [constructor|].
  - exists (Created (ph_Key h)). split; [|done]. rewrite fmap_insert.
    replace (host_view h) with (fresh_view (rc_Address (pspec_RedfishConnection (ph_Spec h))))
      by (unfold host_view, ph_State; by rewrite Hc, Hs).
    constructor. by rewrite lookup_fmap, Hn.
  - exists (Edited (ph_Key h')). split; [|done]. rewrite fmap_insert. unfold host_view at 2, ph_State. rewrite Hs.
    eapply abs_edited; [by rewrite lookup_fmap, Hh|done].
  - exists (Deleted k). split; [|done]. rewrite fmap_delete. constructor.
Qed.

(** A move is made by the call of the step, with what the calling thread knows
    and in its role; hosts are created and edited by the users. *)
Definition performed (s s' : system) (l : abs_label) : Prop :=
  match l with
  | Silent => True
  | Moved ro tr _ _ => exists t, acts s s' t /\ t_role t = ro /\ t_events t = tr
  | Created _ | Edited _ => users_act s s'
  | Deleted _ => users_act s s' \/ exists t, acts s s' t
  end.

Lemma step_refines s s' :
  system_ok s -> step s s' -> exists l, abs_step l (abs s) (abs s') /\ performed s s' l.
Proof.
  intros [Hc Hts] Hst.
  destruct Hst as [w ts ro p Hp|w ts i ro tr a k r w' Hi Hs|w ts i|w ts w' Hu]; unfold abs; simpl in *.
  - exists Silent. by split; [constructor|].
  - destruct (Forall_lookup_1 _ _ _ _ Hts Hi) as [[Hok _] Hseen].
    eapply call_refines in Hok as (l & Hl & Hby); [|done..|by apply serve_effect].
    exists l. split; [done|].
    assert (acts {| sy_world := w; sy_threads := ts |} {| sy_world := w'; sy_threads := <[i := {| t_role := ro;
      t_events := tr ++ [@Ev Env a r]; t_prog := k r |}]> ts |} {| t_role := ro; t_events := tr; t_prog := @Act Env unit a k |})
      by (by exists i, a, k, r).
    destruct l; cbn in *; try done; [destruct Hby as [-> ->]; by eexists|right; by eexists].
  - exists Silent. by split; [constructor|].
  - destruct (user_refines _ _ (users_effect _ _ Hc Hu)) as (l & Hl & Hn). exists l.
    split; [done|]. destruct l; cbn in *; try done. by left.
Qed.

(** What one step does to one host: nothing that its view shows, a lifecycle
    move by the thread that acts, or an edit by the users, which may take away
    its consumer. *)
Lemma host_step s s' k h h' :
  system_ok s -> step s s' -> hosts (sy_world s) !! k = Some h -> hosts (sy_world s') !! k = Some h' ->
  host_view h' = host_view h \/
  (exists t c v', acts s s' t /\ causes (t_role t) (t_events t) c /\
    lifecycle c (host_view h) v' /\ host_view h' = stored_view v') \/
  (users_act s s' /\ ph_State h' = ph_State h /\ ph_Consumer h' ∈ [ph_Consumer h; None]).
Proof.
  intros Hok Hst Hh Hh'. destruct (step_refines _ _ Hok Hst) as (l & Hl & Hp).
  assert (E : abs s !! k = Some (host_view h)) by (unfold abs; by rewrite lookup_fmap, Hh).
  assert (E' : abs s' !! k = Some (host_view h')) by (unfold abs; by rewrite lookup_fmap, Hh').
  revert E E'. generalize (abs s) (abs s') Hl. intros m m' Hlm E E'.
  destruct Hlm as [m|ro tr c k' v v' m Hc Hm Hlc|a k' m Hm|a st c c' p t r a' k' m Hm Hcc|k' m].
  - left. congruence.
  - destruct (decide (k' = k)) as [->|Hne]; [|rewrite lookup_insert_ne in E' by done; left; congruence].
    rewrite lookup_insert_eq in E'. simplify_eq.
    destruct Hp as (t & Ht & <- & <-). right; left. by exists t, c, v'.
  - destruct (decide (k' = k)) as [->|Hne]; [congruence|].
    rewrite lookup_insert_ne in E' by done. left. congruence.
  - destruct (decide (k' = k)) as [->|Hne]; [|rewrite lookup_insert_ne in E' by done; left; congruence].
    rewrite lookup_insert_eq in E'. rewrite Hm in E. right; right. unfold host_view in *. simplify_eq. done.
  - destruct (decide (k' = k)) as [->|Hne]; [by rewrite lookup_delete_eq in E'|].
    rewrite lookup_delete_ne in E' by done. left. congruence.
Qed.

(** A property of views that holds of fresh ones and that every lifecycle move
    and every edit keeps holds of every host in every reachable state. *)
Lemma view_invariant (I : view -> Prop) s k h :
  (forall a, I (fresh_view a)) -> (forall c v v', lifecycle c v v' -> I v -> I (stored_view v')) ->
  (forall a a' s c c' p t r, I (View a s c p t r) -> I (View a' s c' p t r)) ->
  reachable s -> hosts (sy_world s) !! k = Some h -> I (host_view h).
Proof.
  intros H0 Hl He Hr. revert k h.
  enough (forall k v, abs s !! k = Some v -> I v) as Hall.
  { intros k h Hh. apply (Hall k). unfold abs. by rewrite lookup_fmap, Hh. }
  destruct Hr as (s0 & Hi & Hs). revert s Hs.
  apply (rtc_ind_r (fun s => forall k v, abs s !! k = Some v -> I v)).
  - destruct Hi as (_ & Hh & _). unfold abs. rewrite Hh, fmap_empty. intros ? ?. by rewrite lookup_empty.
  - intros s1 s2 Hs Hst IH k v. assert (Hok : system_ok s1) by (apply reachable_ok; by exists s0).
    destruct (step_refines _ _ Hok Hst) as (l & Hlm & _).
    destruct Hlm as [|? ? ? k' v0 v' ? ? ? ?|a k'|a st c c' p t r a' k'|k']; [apply IH| | | |].
    + intros [[-> <-]|[? ?]]%lookup_insert_Some; [by eapply Hl, IH|by eapply IH].
    + intros [[-> <-]|[? ?]]%lookup_insert_Some; [apply H0|by eapply IH].
    + intros [[-> <-]|[? ?]]%lookup_insert_Some; [by eapply (He a _ _ c), IH|by eapply IH].
    + intros [? ?]%lookup_delete_Some. by eapply IH.
Qed.

End Refinement.

(** ** Properties of every interleaving *)

(** The invariant of a host's view. *)
Definition view_ok (v : view) : Prop :=
  v_state v ∈ [StateNone; StateAvailable; StateInUse; StateInspecting; StateReady; StateError] /\
  (v_phase v = InspectionPhaseComplete -> is_Some (v_report v)) /\
  (v_state v = StateReady -> v_phase v = InspectionPhaseComplete) /\
  (v_state v = StateInspecting -> is_Some (v_started v)).

Lemma settled_cases s c :
  settled s c = s \/ settled s c = StateAvailable \/ settled s c = StateInUse.
Proof. unfold settled. destruct c; [case_bool_decide|]; auto. Qed.

Lemma settled_keeps s c x :
  settled s c = x -> x <> StateAvailable -> x <> StateInUse -> s = x.
Proof. destruct (settled_cases s c) as [E|[E|E]]; rewrite E; congruence. Qed.

Lemma view_ok_fresh a : view_ok (fresh_view a).
Proof. repeat split; simpl; try done. left. Qed.

Lemma view_ok_stored v : view_ok v -> view_ok (stored_view v).
Proof. unfold view_ok. cbn -[stored_time stored_report]. by rewrite !fmap_is_Some. Qed.

Lemma view_ok_lifecycle c v v' : lifecycle c v v' -> view_ok v -> view_ok (stored_view v').
Proof.
  intros Hl Hv. apply view_ok_stored. revert Hv.
  destruct Hl; intros (H1 & H2 & H3 & H4); unfold view_ok in *; simpl in *;
    try match goal with |- context [settled ?s ?c] => destruct (settled_cases s c) as [E|[E|E]]; rewrite E end;
    (split; [try done; set_solver|]); repeat split; intros; try done; eauto.
Qed.

Section Properties.
  Context {L : Lib} {LL : LibLaws L} {S : Server} {SL : ServerLaws S}.

(** The step does nothing to the view of the host, is a lifecycle move [Hl]
    that the acting thread [t] may make, or an edit [Hu] by the users. *)
Local Ltac host_cases Hr Hst Hh Hh' :=
  let E := fresh "E" in
  destruct (host_step _ _ _ _ _ (reachable_ok _ Hr) Hst Hh Hh')
    as [E|[(t & c & v' & Ht & Hca & Hl & E)|(Hu & Hus & Huc)]];
  [unfold host_view in E; injection E as ? ? ? ? ? ?
  |unfold host_view in Hl; destruct v'; unfold host_view, stored_view in E; cbn -[stored_time stored_report] in E; injection E as ? ? ? ? ? ?; subst
  |].

(** C1: refinement.  Whatever the interleaving of reconciliations, report
    requests, crashes and user edits, each step of the system is, on the stored
    hosts, a step of the abstract lifecycle: nothing; a lifecycle move of one
    host by the call that the step is, made by a component that may make it and
    has learnt what it must know for it; or the creation, the edit or the
    deletion of a host by the users, who may clear its consumer but not set it. *)
Theorem system_refines_lifecycle s s' :
  reachable s -> step s s' -> exists l, abs_step l (abs s) (abs s') /\ performed s s' l.
Proof. intros. apply step_refines; [by apply reachable_ok|done]. Qed.

(** C2: in every reachable state, a host's state is one of the known ones; a
    host that is Ready has completed inspection and carries a report; a host
    under inspection has a start time, so that its timeout can fire. *)
Theorem hosts_well_formed s k h :
  reachable s -> hosts (sy_world s) !! k = Some h -> view_ok (host_view h).
Proof. apply view_invariant; [apply view_ok_fresh|apply view_ok_lifecycle|done]. Qed.

(** C3: a claim is kept.  If a step takes away the consumer of a host that
    stays, the host has no consumer afterwards, and the step is either the
    manual clearing of the reference by a user, or a call of the machine
    controller, by a reconciliation that has read a machine of the name the
    reference carries, which is being deleted.  In particular a second claim
    never overwrites a first. *)
Theorem claim_kept s s' k h h' ref :
  reachable s -> step s s' -> hosts (sy_world s) !! k = Some h -> hosts (sy_world s') !! k = Some h' ->
  ph_Consumer h = Some ref -> ph_Consumer h' <> Some ref ->
  ph_Consumer h' = None /\
  (users_act s s' \/
   exists t m, acts s s' t /\ t_role t = MachineRole /\ machine_read (t_events t) m /\
     bm_Name m = or_Name ref /\ is_Some (om_DeletionTimestamp (bm_Meta m))).
Proof.
  intros Hr Hst Hh Hh' Hc Hn. host_cases Hr Hst Hh Hh'; [congruence| |].
  - inversion Hl; simplify_eq; try congruence. split; [congruence|]. right.
    destruct (t_role t) eqn:?; try done. destruct Hca as (m & ? & ? & ?). exists t, m.
    repeat split; congruence.
  - rewrite Hc in Huc. split; [set_solver|by left].
Qed.

(** C4: a claim is made only on a host that is Available and free at that
    moment, by a call of the machine controller, in a reconciliation that has
    read the claiming machine, not being deleted, and the reference stored has
    that machine's kind, version, name, namespace and UID. *)
Theorem claim_only_free s s' k h h' ref :
  reachable s -> step s s' -> hosts (sy_world s) !! k = Some h -> hosts (sy_world s') !! k = Some h' ->
  ph_Consumer h <> Some ref -> ph_Consumer h' = Some ref ->
  ph_Consumer h = None /\ ph_State h = StateAvailable /\
  exists t m, acts s s' t /\ t_role t = MachineRole /\ machine_read (t_events t) m /\
    ref = {| or_Kind := tm_Kind (bm_Type m); or_APIVersion := tm_APIVersion (bm_Type m);
             or_Name := om_Name (bm_Meta m); or_Namespace := om_Namespace (bm_Meta m); or_UID := om_UID (bm_Meta m) |} /\
    om_DeletionTimestamp (bm_Meta m) = None.
Proof.
  intros Hr Hst Hh Hh' Hc Hn. host_cases Hr Hst Hh Hh'; [congruence| |].
  - inversion Hl; simplify_eq; try congruence. split; [congruence|]. split; [congruence|].
    destruct (t_role t) eqn:?; try done. destruct Hca as (m & ? & ? & ?). exists t, m.
    assert (ref = claim_ref m) as -> by congruence. done.
  - rewrite Hn in Huc. set_solver.
Qed.

(** C5: a host becomes Ready only from Inspecting, with a completed inspection,
    by a call of the machine controller, in a reconciliation that has read a
    machine whose hardware requirements the report stored on the host meets. *)
Theorem ready_only_validated s s' k h h' :
  reachable s -> step s s' -> hosts (sy_world s) !! k = Some h -> hosts (sy_world s') !! k = Some h' ->
  ph_State h <> StateReady -> ph_State h' = StateReady ->
  ph_State h = StateInspecting /\
  exists t m r, acts s s' t /\ t_role t = MachineRole /\ pst_InspectionReport (ph_Status h) = Some r /\
    machine_read (t_events t) m /\ requirements_met m r.
Proof.
  intros Hr Hst Hh Hh' Hc Hn. host_cases Hr Hst Hh Hh'; [congruence| |congruence].
  rewrite Hn in Hl. inversion Hl; simplify_eq; try congruence.
  - by destruct Hc; eapply settled_keeps.
  - split; [congruence|]. destruct (t_role t) eqn:?; try done. destruct Hca as (m & ? & ?).
    by exists t, m, r.
Qed.

(** C6: a host is put under inspection only from InUse, by a call of the machine
    controller, in a reconciliation that has connected to the BMC at the host's
    address, over which PXE has been accepted as the next boot source and the
    system is on or has been told to power on. *)
Theorem inspection_only_booted s s' k h h' :
  reachable s -> step s s' -> hosts (sy_world s) !! k = Some h -> hosts (sy_world s') !! k = Some h' ->
  ph_State h <> StateInspecting -> ph_State h' = StateInspecting ->
  ph_State h = StateInUse /\
  exists t b user password insecure, acts s s' t /\ t_role t = MachineRole /\
    @Ev Env (ARfConnect (rc_Address (pspec_RedfishConnection (ph_Spec h))) user password insecure) (Ok b) ∈ t_events t /\
    @Ev Env (ARfSetBootSourcePXE b) (Ok tt) ∈ t_events t /\
    (@Ev Env (ARfGetPowerState b) (Ok OnPowerState) ∈ t_events t \/
     @Ev Env (ARfSetPowerState b OnPowerState) (Ok tt) ∈ t_events t).
Proof.
  intros Hr Hst Hh Hh' Hc Hn. host_cases Hr Hst Hh Hh'; [congruence| |congruence].
  rewrite Hn in Hl. inversion Hl; simplify_eq; try congruence.
  - by destruct Hc; eapply settled_keeps.
  - split; [congruence|]. destruct (t_role t) eqn:?; try done.
    destruct Hca as (? & b & (user & password & insecure & ?) & ? & ?). by exists t, b, user, password, insecure.
Qed.

End Properties.
