(* ===== verification/Memory.v ===== *)
(** * An API server in memory

    An implementation of the server interface of System.v, with resource
    versions taken from a counter: it shows that the laws can hold, and
    executes the controllers.  The scenario at the end takes a host through its
    whole life with the real reconcilers and provides the concrete runs at
    which the theorems on the concurrent system are applied. *)

From S2P Require Import Prelude Api Lib Prog Actions HostController MachineController Inspection Lifecycle System.

Record mem := {
  mem_hosts : gmap NamespacedName PhysicalHost;
  mem_versions : list PhysicalHost;
  mem_next : Z;
  mem_secrets : gmap NamespacedName Secret;
  mem_machines : gmap NamespacedName Beskar7Machine;
  mem_now : Z;
  mem_power : string
}.

Definition set_hosts (hs : gmap NamespacedName PhysicalHost) (v : PhysicalHost) (w : mem) : mem :=
  {| mem_hosts := hs; mem_versions := v :: mem_versions w; mem_next := mem_next w + 1;
     mem_secrets := mem_secrets w; mem_machines := mem_machines w; mem_now := mem_now w;
     mem_power := mem_power w |}.
Definition set_machines (ms : gmap NamespacedName Beskar7Machine) (w : mem) : mem :=
  {| mem_hosts := mem_hosts w; mem_versions := mem_versions w; mem_next := mem_next w;
     mem_secrets := mem_secrets w; mem_machines := ms; mem_now := mem_now w;
     mem_power := mem_power w |}.
Definition tick (w : mem) : mem :=
  {| mem_hosts := mem_hosts w; mem_versions := mem_versions w; mem_next := mem_next w;
     mem_secrets := mem_secrets w; mem_machines := mem_machines w; mem_now := mem_now w + Second;
     mem_power := mem_power w |}.
Definition set_power (p : string) (w : mem) : mem :=
  {| mem_hosts := mem_hosts w; mem_versions := mem_versions w; mem_next := mem_next w;
     mem_secrets := mem_secrets w; mem_machines := mem_machines w; mem_now := mem_now w;
     mem_power := p |}.

(** The object with the next resource version. *)
Definition stamped (w : mem) (h : PhysicalHost) : PhysicalHost :=
  set_ph_Meta (set_om_ResourceVersion (mem_next w) (ph_Meta h)) h.

Definition dying (h : PhysicalHost) : bool :=
  match om_DeletionTimestamp (ph_Meta h), om_Finalizers (ph_Meta h) with
  | Some _, [] => true
  | _, _ => false
  end.

(** Stores [new cur] over the current object if the resource version matches. *)
Definition mem_write (h' : PhysicalHost) (new : PhysicalHost -> PhysicalHost) (w : mem)
  : result PhysicalHost * mem :=
  match mem_hosts w !! ph_Key h' with
  | None => (Err (ErrStatus ReasonNotFound "not found"), w)
  | Some cur =>
      if ph_RV cur =? ph_RV h' then
        let n := stamped w (new cur) in
        (Ok n, set_hosts (if dying n then delete (ph_Key h') (mem_hosts w)
                          else <[ph_Key h' := n]> (mem_hosts w)) n w)
      else (Err (ErrStatus ReasonConflict "the object has been modified"), w)
  end.

Definition mem_info : SystemInfo :=
  {| si_Manufacturer := "Acme"; si_Model := "M1"; si_SerialNumber := "S1";
     si_Status := {| hs_Health := "OK"; hs_HealthRollup := "OK"; hs_State := "Enabled" |} |}.

Definition mem_get {A} (m : gmap NamespacedName A) (k : NamespacedName) : result A :=
  match m !! k with Some x => Ok x | None => Err (ErrStatus ReasonNotFound "not found") end.

Definition bm_Key (m : Beskar7Machine) : NamespacedName :=
  {| nn_Namespace := bm_Namespace m; nn_Name := bm_Name m |}.

Definition mem_call (a : capi_action) (w : mem) : capi_answer a * mem :=
  match a return capi_answer a * mem with
  | ANow => (mem_now w, tick w)
  | AGetHost k => (mem_get (mem_hosts w) k, w)
  | AListHosts ns =>
      (Ok (filter (fun h => ph_Namespace h = ns) (snd <$> map_to_list (mem_hosts w))), w)
  | AUpdateHost h' =>
      mem_write h' (fun cur => set_ph_Status (ph_Status cur)
        (set_ph_Spec (ph_Spec h') (set_ph_Meta (set_om_Finalizers (om_Finalizers (ph_Meta h')) (ph_Meta cur)) cur))) w
  | AUpdateHostStatus h' => mem_write h' (set_ph_Status (stored_status (ph_Status h'))) w
  | AGetSecret k => (mem_get (mem_secrets w) k, w)
  | AGetMachine k => (mem_get (mem_machines w) k, w)
  | AGetCluster _ => (Err (ErrStatus ReasonNotFound "not found"), w)
  | AListClusters _ => (Ok [], w)
  | AListMachines _ _ => (Ok [], w)
  | AGetOwnerMachine m => (Ok (Some {| m_Meta := m; m_Addresses := []; m_Conditions := [] |}), w)
  | AGetClusterFromMetadata m => (Ok (Some {| cl_Meta := m |}), w)
  | AGetOwnerCluster m => (Ok (Some {| cl_Meta := m |}), w)
  | ANewMachineHelper _ => (Ok tt, w)
  | APatchMachine _ m => (Ok tt, set_machines (<[bm_Key m := m]> (mem_machines w)) w)
  | ANewClusterHelper _ => (Ok tt, w)
  | APatchCluster _ _ => (Ok tt, w)
  | ARfConnect _ _ _ _ => (Ok 0%nat, w)
  | ARfGetSystemInfo _ => (Ok mem_info, w)
  | ARfGetPowerState _ => (Ok (mem_power w), w)
  | ARfSetPowerState _ p => (Ok tt, set_power p w)
  | ARfSetBootSourcePXE _ => (Ok tt, w)
  | ARfGetNetworkAddresses _ => (Ok [], w)
  | ARfClose _ => (tt, w)
  | ARecordEvent _ _ _ _ => (tt, w)
  | AMetric _ => (tt, w)
  end.

(** What users do: create a host, clear its consumer, or replace a machine
    object. *)
Inductive user_op :=
| UCreate (h : PhysicalHost)
| UClear (k : NamespacedName)
| UMachine (m : Beskar7Machine).

Definition user_call (u : user_op) (w : mem) : mem :=
  match u with
  | UCreate h =>
      match mem_hosts w !! ph_Key h, ph_Consumer h with
      | None, None => let n := stamped w (set_ph_Status empty_status h) in
                      set_hosts (<[ph_Key h := n]> (mem_hosts w)) n w
      | _, _ => w
      end
  | UClear k =>
      match mem_hosts w !! k with
      | Some h => let n := stamped w (set_ph_Spec (set_pspec_ConsumerRef None (ph_Spec h)) h) in
                  set_hosts (<[k := n]> (mem_hosts w)) n w
      | None => w
      end
  | UMachine m => set_machines (<[bm_Key m := m]> (mem_machines w)) w
  end.

Record mem_ok (w : mem) : Prop := {
  mem_old h : h ∈ mem_versions w -> ph_RV h < mem_next w;
  mem_unique h h' : h ∈ mem_versions w -> h' ∈ mem_versions w -> ph_RV h = ph_RV h' -> h = h';
  mem_stored k h : mem_hosts w !! k = Some h -> h ∈ mem_versions w /\ ph_Key h = k;
  mem_serialised h : h ∈ mem_versions w -> stored_status (ph_Status h) = ph_Status h
}.

#[export] Instance mem_server : Server := {|
  world := mem;
  hosts := mem_hosts;
  past w h := h ∈ mem_versions w;
  consistent := mem_ok;
  serve a w r w' := mem_call a w = (r, w');
  users w w' := exists u, w' = user_call u w
|}.

(** ** The laws *)

Lemma set_hosts_ok w hs v :
  mem_ok w -> ph_RV v = mem_next w -> stored_status (ph_Status v) = ph_Status v ->
  (forall k h, hs !! k = Some h -> mem_hosts w !! k = Some h \/ (h = v /\ ph_Key v = k)) ->
  mem_ok (set_hosts hs v w).
Proof.
  intros [Ho Hu Hst Hse] Hv Hsv Hhs. split; simpl.
  - intros h [->|Hh%Ho]%elem_of_cons; lia.
  - intros h h' [->|Hh]%elem_of_cons [->|Hh']%elem_of_cons E; try done.
    + apply Ho in Hh'. lia.
    + apply Ho in Hh. lia.
    + by apply Hu.
  - intros k h [[? ?]%Hst|[-> ?]]%Hhs; (split; [|done]); [by right|by left].
  - intros h [->|?%Hse]%elem_of_cons; done.
Qed.

Lemma mem_write_ok w h' new r w' :
  mem_ok w -> (forall cur, ph_Key (new cur) = ph_Key cur) ->
  (forall cur, stored_status (ph_Status cur) = ph_Status cur -> stored_status (ph_Status (new cur)) = ph_Status (new cur)) ->
  mem_write h' new w = (r, w') -> mem_ok w'.
Proof.
  unfold mem_write. intros Hw Hk Hse E. destruct (mem_hosts w !! ph_Key h') eqn:Ec; [|by simplify_eq].
  destruct (_ =? _); simplify_eq; [|done].
  apply set_hosts_ok; [done|done| |].
  { apply (mem_stored _ Hw) in Ec as [?%(mem_serialised _ Hw) _]. by apply Hse. }
  intros k h. destruct (dying _).
  - intros [? ?]%lookup_delete_Some. by left.
  - intros [[<- <-]|[? ?]]%lookup_insert_Some; [right|by left]. split; [done|].
    change (ph_Key (new p) = ph_Key h'). rewrite Hk. by apply (mem_stored _ Hw) in Ec as [_ ->].
Qed.

Lemma mem_call_ok a w r w' : mem_ok w -> mem_call a w = (r, w') -> mem_ok w'.
Proof.
  intros Hw E. destruct a; simpl in E; try (injection E as _ <-; destruct Hw; by split);
    (eapply mem_write_ok; [done| | |done]; try done). intros. apply stored_status_idemp.
Qed.

Lemma mem_call_versions a w r w' h :
  mem_call a w = (r, w') -> h ∈ mem_versions w -> h ∈ mem_versions w'.
Proof.
  intros E Hh. destruct a; simpl in E; try (injection E as _ <-; done);
    unfold mem_write in E; repeat split_hyp E; simplify_eq; simpl; try done; by right.
Qed.

Lemma mem_write_answer h' new w w' h :
  mem_write h' new w = (Ok h, w') -> h ∈ mem_versions w'.
Proof. unfold mem_write. intros E. repeat split_hyp E; simplify_eq; simpl; by left. Qed.

Lemma mem_answers a w r w' h :
  mem_ok w -> mem_call a w = (r, w') -> h ∈ event_hosts (@Ev Env a r) -> h ∈ mem_versions w'.
Proof.
  intros Hw E Hh. destruct a; simpl in E, Hh; try (by apply not_elem_of_nil in Hh).
  - injection E as <- <-. unfold mem_get in Hh. destruct (mem_hosts w !! k) eqn:Ek; [|by apply not_elem_of_nil in Hh].
    apply list_elem_of_singleton in Hh as ->. by apply (mem_stored _ Hw) in Ek as [].
  - injection E as <- <-. apply list_elem_of_filter in Hh as [_ Hh].
    apply list_elem_of_fmap in Hh as ([k h0] & -> & Hk%elem_of_map_to_list). by apply (mem_stored _ Hw) in Hk as [].
  - destruct r; [|by apply not_elem_of_nil in Hh]. apply list_elem_of_singleton in Hh as ->.
    by eapply mem_write_answer.
  - destruct r; [|by apply not_elem_of_nil in Hh]. apply list_elem_of_singleton in Hh as ->.
    by eapply mem_write_answer.
Qed.

Lemma mem_write_effect put h' new w r w' :
  mem_ok w -> (forall cur, ph_Key (new cur) = ph_Key cur) ->
  (forall cur, put cur (stamped w (new cur))) -> mem_write h' new w = (r, w') ->
  conditional_write put h' w r w'.
Proof.
  unfold mem_write. intros Hw Hk Hput E. destruct (mem_hosts w !! ph_Key h') as [cur|] eqn:Ec.
  2: { simplify_eq. left. split; [done|]. by eexists. }
  destruct (Z.eqb_spec (ph_RV cur) (ph_RV h')); [|simplify_eq; left; split; [done|]; by eexists].
  injection E as <- <-. right. exists cur, (stamped w (new cur)).
  split; [done|]. split; [done|]. split.
  { change (ph_Key (new cur) = ph_Key h'). rewrite Hk. by apply (mem_stored _ Hw) in Ec as [_ ->]. }
  split; [apply Hput|]. split; [by left|]. simpl.
  unfold dying. destruct (om_DeletionTimestamp _) eqn:Ed; [|by left].
  destruct (om_Finalizers _) eqn:Ef; [right|by left].
  split; [done|]. by split.
Qed.

Lemma user_call_ok u w : mem_ok w -> mem_ok (user_call u w).
Proof.
  intros Hw. destruct u as [h|k|m]; simpl.
  - destruct (mem_hosts w !! _) eqn:Eh; [done|]. destruct (ph_Consumer h); [done|].
    apply set_hosts_ok; [done|done|done|]. intros k h0 [[<- <-]|[? ?]]%lookup_insert_Some; auto.
  - destruct (mem_hosts w !! k) as [h|] eqn:Eh; [|done]. apply (mem_stored _ Hw) in Eh as [Hv Ek].
    apply set_hosts_ok; [done|done|exact (mem_serialised _ Hw h Hv)|]. intros k0 h0 [[<- <-]|[? ?]]%lookup_insert_Some; auto.
  - destruct Hw. by split.
Qed.

#[export] Instance mem_server_laws : ServerLaws mem_server.
Proof.
  split; simpl.
  - intros w k h Hw Hh. by apply (mem_stored _ Hw) in Hh as [].
  - intros w k h Hw Hh. by apply (mem_stored _ Hw) in Hh as [].
  - intros w h Hw ?. by apply (mem_serialised _ Hw).
  - intros w h h' Hw ? ? _ ?. by apply (mem_unique _ Hw).
  - intros. by eapply mem_answers.
  - intros a w r w' Hw E. destruct a; simpl in *; try (injection E as _ <-; done);
      (eapply mem_write_effect; [done| | |done]; done).
  - intros w w' Hw [u ->]. destruct u as [h|k|m]; simpl; [| |constructor].
    2: { destruct (mem_hosts w !! k) as [h|] eqn:Eh; [|constructor]. apply (mem_stored _ Hw) in Eh as Hk. destruct Hk as [_ <-].
      apply (user_change _ h (stamped w (set_ph_Spec (set_pspec_ConsumerRef None (ph_Spec h)) h))); [done| |done].
      right. left. }
    destruct (mem_hosts w !! _) eqn:Eh; [constructor|]. destruct (ph_Consumer h) eqn:Ec; [constructor|].
    apply (user_create _ (stamped w (set_ph_Status empty_status h))); done.
  - intros. by eapply mem_call_ok.
  - intros w w' Hw [u ->]. by apply user_call_ok.
  - intros. by eapply mem_call_versions.
  - intros w w' h Hw [u ->] Hh. destruct u; simpl; [| |done]; repeat split_goal; simpl; try done; by right.
Qed.

(** ** Executing the system *)

#[local] Existing Instance ref_lib.

(** One step of the system, as an instruction: start a component, let thread
    [i] perform its next call, let a user act. *)
Inductive op :=
| OHost (req : NamespacedName)
| OMachine (req : NamespacedName)
| OReport (req : InspectionReportRequest)
| OCall (i : nat)
| OUser (u : user_op).

Definition spawn (ro : role) (p : prog Env unit) (s : system) : system :=
  {| sy_world := sy_world s;
     sy_threads := sy_threads s ++ [{| t_role := ro; t_events := []; t_prog := p |}] |}.

Definition wired : PhysicalHostReconciler := {| phr_Recorder := Func; phr_RedfishClientFactory := Func |}.

Definition exec (s : system) (o : op) : system :=
  match o with
  | OHost req => spawn HostRole (host_Reconcile wired req ;;! Ret tt) s
  | OMachine req => spawn MachineRole (machine_Reconcile Func req ;;! Ret tt) s
  | OReport req =>
      spawn InspectionRole
        (ServeHTTP (fun _ => Ok req) {| rq_Method := "POST"; rq_Body := "" |} ;;! Ret tt) s
  | OCall i =>
      match sy_threads s !! i with
      | Some {| t_role := ro; t_events := tr; t_prog := Act a k |} =>
          let '(r, w') := mem_call a (sy_world s) in
          {| sy_world := w';
             sy_threads := <[i := {| t_role := ro; t_events := tr ++ [@Ev Env a r]; t_prog := k r |}]>
                             (sy_threads s) |}
      | _ => s
      end
  | OUser u => {| sy_world := user_call u (sy_world s); sy_threads := sy_threads s |}
  end.

Definition play (s : system) (os : list op) : system := fold_left exec os s.

(** The call of thread [i] is a step if the thread has a call to make. *)
Definition can_call (s : system) (o : op) : bool :=
  match o with
  | OCall i =>
      match sy_threads s !! i with
      | Some {| t_prog := Act _ _ |} => true
      | _ => false
      end
  | _ => true
  end.

Lemma exec_step s o : can_call s o = true -> step s (exec s o).
Proof.
  destruct s as [w ts], o as [req|req|req|i|u]; cbn [can_call exec spawn sy_threads sy_world].
  - intros _. apply step_start, start_host.
  - intros _. apply step_start, start_machine.
  - intros _. apply step_start, start_report.
  - destruct (ts !! i) as [[ro tr [x|a k]]|] eqn:Ei; try done. intros _.
    destruct (mem_call a w) as [r w'] eqn:Ec. by eapply step_call.
  - intros _. apply step_users. by exists u.
Qed.

Lemma exec_reaches s o : rtc step s (exec s o).
Proof.
  destruct (can_call s o) eqn:E; [by apply rtc_once, exec_step|].
  destruct s as [w ts], o as [req|req|req|i|u]; cbn [can_call exec sy_threads sy_world] in *; try done.
  destruct (ts !! i) as [[ro tr [x|a k]]|]; done.
Qed.

Lemma play_reachable s os : initial s -> reachable (play s os).
Proof.
  intros Hi. exists s. split; [done|]. clear Hi. unfold play. revert s.
  induction os as [|o os IH]; intros s; simpl; [done|]. etrans; [apply exec_reaches|apply IH].
Qed.

(** ** The life of a host *)

Definition key (name : string) : NamespacedName := {| nn_Namespace := "default"; nn_Name := name |}.

Definition host1 : PhysicalHost := sample_host "h1" "https://bmc1" [].

Definition machine1 : option string -> option Z -> Beskar7Machine :=
  sample_machine "m1" [Beskar7MachineFinalizer].

Definition report1 : InspectionReportRequest :=
  {| irr_Namespace := "default"; irr_HostName := "h1"; irr_Manufacturer := "Acme"; irr_Model := "M1";
     irr_SerialNumber := "S1";
     irr_CPUs := [{| cd_ID := "0"; cd_Vendor := "v"; cd_Model := "m"; cd_Cores := 8; cd_Threads := 16;
                     cd_Frequency := "3GHz" |}];
     irr_Memory := [{| md_ID := "0"; md_Type := "DDR5"; md_Capacity := "32GB"; md_Speed := "" |}];
     irr_Disks := []; irr_NICs := []; irr_BootModeDetected := "UEFI"; irr_FirmwareVersion := "1" |}.

Definition empty_mem : mem :=
  {| mem_hosts := ∅; mem_versions := []; mem_next := 1;
     mem_secrets := {[ key "creds" := {| sec_Meta := sample_meta "creds" [] None;
                         sec_Data := {[ "username" := "admin"; "password" := "secret" ]} |} ]};
     mem_machines := {[ key "m1" := machine1 None None ]};
     mem_now := 0; mem_power := "Off" |}.
Definition start : system := {| sy_world := empty_mem; sy_threads := [] |}.

Lemma start_initial : initial start.
Proof.
  split; [|done]. split; simpl.
  - by intros h ?%not_elem_of_nil.
  - by intros h h' ?%not_elem_of_nil.
  - intros k h. by rewrite lookup_empty.
  - by intros h ?%not_elem_of_nil.
Qed.

Definition calls (i n : nat) : list op := replicate n (OCall i).

(** Each act of the story ends just before the call that stores its outcome. *)
Definition claiming : list op :=
  [OUser (UCreate host1); OHost (key "h1")] ++ calls 0 9 ++ [OHost (key "h1")] ++ calls 1 9 ++
  [OMachine (key "m1")] ++ calls 2 5.
Definition triggering : list op :=
  claiming ++ calls 2 9 ++ [OHost (key "h1")] ++ calls 3 9 ++
  [OUser (UMachine (machine1 (Some "b7://default/h1") None)); OMachine (key "m1")] ++ calls 4 11.

Definition validating : list op :=
  triggering ++ calls 4 9 ++ [OReport report1] ++ calls 5 9 ++ [OMachine (key "m1")] ++ calls 6 6.
Definition releasing : list op :=
  validating ++ calls 6 9 ++
  [OUser (UMachine (machine1 (Some "b7://default/h1") (Some 1))); OMachine (key "m1")] ++ calls 7 5.

Definition host_at (os : list op) : PhysicalHost :=
  default host1 (mem_hosts (sy_world (play start os)) !! key "h1").

Lemma scenario_step os i :
  can_call (play start os) (OCall i) = true -> step (play start os) (play start (os ++ [OCall i])).
Proof. intros. unfold play. rewrite fold_left_app. by apply exec_step. Qed.

Lemma scenario_reachable os : reachable (play start os).
Proof. apply play_reachable, start_initial. Qed.

(** Decides the hypotheses about a moment of the scenario by running it. *)
Ltac scenario :=
  first [apply scenario_reachable | apply scenario_step; vm_compute; reflexivity
        | vm_compute; reflexivity | vm_compute; discriminate].

Lemma system_refines_lifecycle_witness :
  exists l, abs_step l (abs (play start claiming)) (abs (play start (claiming ++ [OCall 2]))) /\
    performed (play start claiming) (play start (claiming ++ [OCall 2])) l.
Proof.
  apply (system_refines_lifecycle (play start claiming)); scenario.
Defined.

Lemma hosts_well_formed_witness :
  ph_State (host_at releasing) = StateReady /\ view_ok (host_view (host_at releasing)).
Proof.
  split; [vm_compute; reflexivity|]. apply (hosts_well_formed (play start releasing) (key "h1")); scenario.
Defined.

Lemma claim_kept_witness :
  ph_Consumer (host_at (releasing ++ [OCall 7])) = None /\
  (users_act (play start releasing) (play start (releasing ++ [OCall 7])) \/
   exists t m, acts (play start releasing) (play start (releasing ++ [OCall 7])) t /\ t_role t = MachineRole /\
     machine_read (t_events t) m /\ bm_Name m = "m1" /\ is_Some (om_DeletionTimestamp (bm_Meta m))).
Proof.
  apply (claim_kept (play start releasing) (play start (releasing ++ [OCall 7])) (key "h1")
           (host_at releasing) (host_at (releasing ++ [OCall 7])) (claim_ref (machine1 None None))); scenario.
Defined.

Lemma claim_only_free_witness :
  ph_Consumer (host_at claiming) = None /\ ph_State (host_at claiming) = StateAvailable /\
  exists t m, acts (play start claiming) (play start (claiming ++ [OCall 2])) t /\ t_role t = MachineRole /\
    machine_read (t_events t) m /\
    claim_ref (machine1 None None) =
      {| or_Kind := tm_Kind (bm_Type m); or_APIVersion := tm_APIVersion (bm_Type m);
         or_Name := om_Name (bm_Meta m); or_Namespace := om_Namespace (bm_Meta m); or_UID := om_UID (bm_Meta m) |} /\
    om_DeletionTimestamp (bm_Meta m) = None.
Proof.
  apply (claim_only_free (play start claiming) (play start (claiming ++ [OCall 2])) (key "h1")
           (host_at claiming) (host_at (claiming ++ [OCall 2]))); scenario.
Defined.

Lemma ready_only_validated_witness :
  ph_State (host_at validating) = StateInspecting /\
  exists t m r, acts (play start validating) (play start (validating ++ [OCall 6])) t /\ t_role t = MachineRole /\
    pst_InspectionReport (ph_Status (host_at validating)) = Some r /\
    machine_read (t_events t) m /\ requirements_met m r.
Proof.
  apply (ready_only_validated (play start validating) (play start (validating ++ [OCall 6])) (key "h1")
           (host_at validating) (host_at (validating ++ [OCall 6]))); scenario.
Defined.

Lemma inspection_only_booted_witness :
  ph_State (host_at triggering) = StateInUse /\
  exists t b user password insecure, acts (play start triggering) (play start (triggering ++ [OCall 4])) t /\
    t_role t = MachineRole /\
    @Ev Env (ARfConnect (rc_Address (pspec_RedfishConnection (ph_Spec (host_at triggering)))) user password insecure) (Ok b)
      ∈ t_events t /\
    @Ev Env (ARfSetBootSourcePXE b) (Ok tt) ∈ t_events t /\
    (@Ev Env (ARfGetPowerState b) (Ok OnPowerState) ∈ t_events t \/
     @Ev Env (ARfSetPowerState b OnPowerState) (Ok tt) ∈ t_events t).
Proof.
  apply (inspection_only_booted (play start triggering) (play start (triggering ++ [OCall 4])) (key "h1")
           (host_at triggering) (host_at (triggering ++ [OCall 4]))); scenario.
Defined.
