(* ===== verification/Provision.v ===== *)
(** * Provisioning completes

    The parts of the program put together: the machine controller and the report
    endpoint, run one after the other against an environment that does its part,
    take a claimed host through inspection and make the machine ready.  What is
    asked of the environment is the class [Cooperative]; the server in memory is
    one. *)

From S2P Require Import Prelude GoText GoFmt Api Lib GoJson Prog Actions Utils MachineController Inspection ReportJson HostController Lifecycle System Memory.

(** ** Runs *)

Section Ends.
  Context {E : sig} {W : Type} (serve : forall a : action E, W -> answer a * W).

(** [p] run from [w] ends with a result and a world that satisfy [Q]. *)
Definition ends {A} (p : prog E A) (w : W) (Q : A -> W -> Prop) : Prop := Q (run serve p w).1 (run serve p w).2.

Lemma ends_ret {A} (x : A) w (Q : A -> W -> Prop) : Q x w -> ends (Ret x) w Q.
Proof. done. Qed.
Lemma ends_bind {A B} (p : prog E A) (f : A -> prog E B) w Q :
  ends p w (fun x w' => ends (f x) w' Q) -> ends (bind p f) w Q.
Proof. unfold ends. rewrite run_bind. by destruct (run serve p w). Qed.
Lemma ends_call {B} (a : action E) (f : answer a -> prog E B) w r w' Q :
  serve a w = (r, w') -> ends (f r) w' Q -> ends (bind (call a) f) w Q.
Proof. unfold ends. intros H. cbn. by rewrite H. Qed.
Lemma ends_mono {A} (p : prog E A) w (Q R : A -> W -> Prop) :
  ends p w Q -> (forall x w', Q x w' -> R x w') -> ends p w R.
Proof. unfold ends. auto. Qed.

End Ends.

(** ** The environment *)

(** What can be observed of a world: the stored hosts and machines, the secrets,
    the owners of machines, and the clock. *)
Class Observation (W : Type) := {
  co_host : W -> NamespacedName -> option PhysicalHost;
  co_machine : W -> NamespacedName -> option Beskar7Machine;
  co_secret : NamespacedName -> option Secret;
  co_owner : NamespacedName -> option Machine;
  co_cluster : NamespacedName -> option Cluster;
  co_clock : W -> Z
}.

Section Observed.
  Context `{Observation W}.

(** Nothing has changed but the time. *)
Definition later (w w' : W) : Prop :=
  co_host w' = co_host w /\ co_machine w' = co_machine w /\ co_clock w <= co_clock w'.

(** The host under [k] has been replaced, and nothing else. *)
Definition host_stored (k : NamespacedName) (h : PhysicalHost) (w w' : W) : Prop :=
  co_host w' k = Some h /\ co_machine w' = co_machine w /\ co_clock w <= co_clock w'.

(** The machine under [k] is [m], with a new resource version. *)
Definition machine_stored (k : NamespacedName) (m : Beskar7Machine) (w w' : W) : Prop :=
  (exists rv, co_machine w' k = Some (set_bm_Meta (set_om_ResourceVersion rv (bm_Meta m)) m)) /\
  co_host w' = co_host w /\ co_clock w <= co_clock w'.

#[export] Instance later_trans : Transitive later.
Proof. intros w1 w2 w3 (? & ? & ?) (? & ? & ?). split_and!; [congruence..|lia]. Qed.
#[export] Instance later_refl : Reflexive later.
Proof. done. Qed.

End Observed.

Definition meta_key (m : ObjectMeta) : NamespacedName := {| nn_Namespace := om_Namespace m; nn_Name := om_Name m |}.

(** The object with another resource version. *)
Definition reversioned (m m' : ObjectMeta) : Prop := exists rv, m' = set_om_ResourceVersion rv m.

(** An environment that answers: reads give what is stored, an update of a
    current object and a patch of an unchanged one succeed, statuses are stored
    with times in whole seconds, the secrets and owners are there, the BMCs
    work, and time does not go back. *)
Class Cooperative {W : Type} (serve : forall a : action Env, W -> answer a * W) `{Observation W} : Prop := {
  co_key w k h : co_host w k = Some h -> ph_Key h = k;
  co_time a w : co_clock w <= co_clock (serve a w).2;
  co_now w : exists t w', serve ANow w = (t, w') /\ later w w' /\ co_clock w <= t <= co_clock w';
  co_get_host w k h : co_host w k = Some h -> exists w', serve (AGetHost k) w = (Ok h, w') /\ later w w';
  co_list w ns : exists l w', serve (AListHosts ns) w = (Ok l, w') /\ later w w' /\
    forall h, h ∈ l <-> co_host w (ph_Key h) = Some h /\ ph_Namespace h = ns;
  co_get_machine w k m : co_machine w k = Some m -> exists w', serve (AGetMachine k) w = (Ok m, w') /\ later w w';
  co_get_secret w k s : co_secret k = Some s -> exists w', serve (AGetSecret k) w = (Ok s, w') /\ later w w';
  co_get_owner w m : exists w', serve (AGetOwnerMachine m) w = (Ok (co_owner (meta_key m)), w') /\ later w w';
  co_get_cluster w m : exists w', serve (AGetClusterFromMetadata m) w = (Ok (co_cluster (meta_key m)), w') /\ later w w';
  co_helper w m : exists w', serve (ANewMachineHelper m) w = (Ok tt, w') /\ later w w';
  co_update w k cur h : co_host w k = Some cur -> ph_Meta h = ph_Meta cur ->
    exists h' w', serve (AUpdateHostStatus h) w = (Ok h', w') /\ host_stored k h' w w' /\
      ph_Status h' = stored_status (ph_Status h) /\ ph_Spec h' = ph_Spec cur /\ reversioned (ph_Meta cur) (ph_Meta h');
  co_update_spec w k cur h : co_host w k = Some cur -> ph_Meta h = ph_Meta cur ->
    exists h' w', serve (AUpdateHost h) w = (Ok h', w') /\ host_stored k h' w w' /\
      ph_Status h' = ph_Status cur /\ ph_Spec h' = ph_Spec h /\ reversioned (ph_Meta cur) (ph_Meta h');
  co_patch w k before after : co_machine w k = Some before -> bm_Key after = k ->
    exists w', serve (APatchMachine before after) w = (Ok tt, w') /\ machine_stored k after w w';
  co_connect w a u p i : exists c w', serve (ARfConnect a u p i) w = (Ok c, w') /\ later w w';
  co_info w c : exists si w', serve (ARfGetSystemInfo c) w = (Ok si, w') /\ later w w';
  co_addresses w c : exists l w', serve (ARfGetNetworkAddresses c) w = (Ok l, w') /\ later w w';
  co_pxe w c : exists w', serve (ARfSetBootSourcePXE c) w = (Ok tt, w') /\ later w w';
  co_power w c : exists p w', serve (ARfGetPowerState c) w = (Ok p, w') /\ later w w';
  co_power_on w c p : exists w', serve (ARfSetPowerState c p) w = (Ok tt, w') /\ later w w';
  co_close w c : exists w', serve (ARfClose c) w = (tt, w') /\ later w w'
}.

Section Provisioning.
  Context {L : Lib} {LL : LibLaws L} {W : Type} {serve : forall a : action Env, W -> answer a * W}
    {O : Observation W} {C : Cooperative serve}.
  Context (mk : NamespacedName) (hname : string).

(** However a program runs, time does not go back. *)
Lemma run_clock {A} (p : prog Env A) w : co_clock w <= co_clock (run serve p w).2.
Proof.
  revert w. induction p as [x|a k IH]; intros w; cbn; [lia|].
  pose proof (co_time a w). destruct (serve a w) as [r w1]. cbn in *. specialize (IH r w1). lia.
Qed.

Definition hk : NamespacedName := {| nn_Namespace := nn_Namespace mk; nn_Name := hname |}.

(** A machine the controller works on: it is owned by a machine of a cluster that
    is not paused, it is not paused or being deleted itself, and has the
    finalizer. *)
Record managed (m : Beskar7Machine) : Prop := {
  mg_key : bm_Key m = mk;
  mg_paused : om_Annotations (bm_Meta m) !! PausedAnnotation = None;
  mg_finalizer : Beskar7MachineFinalizer ∈ om_Finalizers (bm_Meta m);
  mg_alive : om_DeletionTimestamp (bm_Meta m) = None;
  mg_owner : exists o, co_owner mk = Some o /\ isClusterPaused (co_cluster (meta_key (m_Meta o))) = false
}.

(** Its provider ID names the host. *)
Definition wants_host (m : Beskar7Machine) : Prop :=
  managed m /\ ms_ProviderID (bm_Spec m) = Some ("b7://" +:+ nn_Namespace mk +:+ "/" +:+ hname).

(** The handlers and the patch keep a machine managed. *)
Lemma managed_kept m m' : managed m -> reversioned (bm_Meta m) (bm_Meta m') -> managed m'.
Proof. intros [] [rv Hm]. unfold bm_Key, bm_Namespace, bm_Name in *. split; unfold bm_Key, bm_Namespace, bm_Name; rewrite ?Hm; done. Qed.

(** Steps of a run by the laws of the environment. *)
Ltac calls law :=
  let w' := fresh "w" in let Hs := fresh "Hserve" in let Hl := fresh "Hlater" in
  destruct law as (w' & Hs & Hl); eapply ends_call; [exact Hs|]; clear Hs; cbv beta iota zeta.

Lemma set_bm_Meta_id m : set_bm_Meta (bm_Meta m) m = m.
Proof. by destruct m. Qed.

(** A reconciliation of a managed machine is [reconcileNormal], then the patch. *)
Lemma managed_ends w m (Q : exit reconcile_result -> W -> Prop) :
  managed m -> co_machine w mk = Some m ->
  (forall w1, later w w1 ->
     ends serve (machine_reconcileNormal Func m) w1 (fun '(m', x) w2 =>
       co_machine w2 mk = Some m /\ bm_Meta m' = bm_Meta m /\
       forall w3, machine_stored mk (set_summary m' [InfrastructureReadyCondition]) w2 w3 -> Q x w3)) ->
  ends serve (machine_Reconcile Func mk) w Q.
Proof.
  intros Hw Hm Hnormal. destruct Hw as [Hk Hpaused Hfin Halive (o & Ho & Hcp)].
  unfold machine_Reconcile. calls (co_get_machine w mk m Hm).
  unfold isPaused. rewrite HasPaused_spec, Hpaused, bool_decide_false by (by intros [? ?]).
  calls (co_get_owner w0 (bm_Meta m)). change (meta_key (bm_Meta m)) with (bm_Key m). rewrite Hk, Ho. cbv beta iota zeta.
  calls (co_get_cluster w1 (m_Meta o)). rewrite Hcp. calls (co_helper w2 m). rewrite Halive. cbv zeta.
  apply ends_bind. unfold with_defer. apply ends_bind.
  assert (later w w3) as Hw3 by (repeat (etrans; [eassumption|]); done).
  eapply ends_mono; [apply Hnormal; done|]. intros [m' x] w5 (Hm5 & Hmeta & HQ).
  unfold deferred_patch. set (m2 := set_summary m' _) in *.
  assert (bm_Key m2 = mk) as Hk2.
  { rewrite <- Hk. unfold bm_Key, bm_Namespace, bm_Name. change (bm_Meta m2) with (bm_Meta m'). by rewrite Hmeta. }
  destruct (co_patch w5 mk m m2 Hm5 Hk2) as (w6 & Hs & Hst). eapply ends_call; [exact Hs|]. apply ends_ret, ends_ret.
  by apply HQ.
Qed.

Lemma reconcileNormal_managed m :
  managed m -> machine_reconcileNormal Func m =
    (let! (host, result, err) := findAndClaimOrGetAssociatedHost m in
     match err with
     | Some e =>
         Ret (mark_false m PhysicalHostAssociatedCondition PhysicalHostAssociationFailedReason
                ConditionSeverityWarning ("Failed to associate with PhysicalHost: " +:+ Error e), Done (result, Some e))
     | None =>
         match host with
         | None => Ret (mark_false m PhysicalHostAssociatedCondition WaitingForPhysicalHostReason
                          ConditionSeverityInfo "No available PhysicalHost found", Done (AfterResult Minute, None))
         | Some physicalHost =>
             let m := mark_true m PhysicalHostAssociatedCondition in
             if negb (Result_IsZero result) then Ret (m, Done (result, None))
             else handlePhysicalHostState Func physicalHost m
         end
     end).
Proof.
  intros Hm. unfold machine_reconcileNormal. rewrite AddFinalizer_spec, ContainsFinalizer_spec, bool_decide_true by apply Hm.
  cbv iota zeta. by rewrite set_bm_Meta_id.
Qed.

Hypothesis Hns : nn_Namespace mk <> "" /\ 47 ∉ bytes (nn_Namespace mk).

(** With the host found through the provider ID, it is the handler of the host's
    state. *)
Lemma reconcile_ends w m h (Q : exit reconcile_result -> W -> Prop) :
  wants_host m -> co_machine w mk = Some m -> co_host w hk = Some h ->
  (forall w1, later w w1 ->
     ends serve (handlePhysicalHostState Func h (mark_true m PhysicalHostAssociatedCondition)) w1 (fun '(m', x) w2 =>
       co_machine w2 mk = Some m /\ bm_Meta m' = bm_Meta m /\
       forall w3, machine_stored mk (set_summary m' [InfrastructureReadyCondition]) w2 w3 -> Q x w3)) ->
  ends serve (machine_Reconcile Func mk) w Q.
Proof.
  intros [Hw Hprov] Hm Hh Hhandler. eapply managed_ends; [done..|]. intros w1 Hw1. pose proof Hw1 as (Hh1 & _).
  rewrite reconcileNormal_managed by done. apply ends_bind. unfold findAndClaimOrGetAssociatedHost. rewrite Hprov.
  assert (("b7://" +:+ nn_Namespace mk +:+ "/" +:+ hname ==s "") = false) as -> by done. cbn [negb].
  rewrite (parse_complete "b7://") by (done || apply Hns).
  assert ((nn_Namespace mk ==s bm_Namespace m) = true) as -> by (rewrite <- (mg_key _ Hw); apply String.eqb_refl).
  rewrite <- Hh1 in Hh. calls (co_get_host w1 hk h Hh). apply ends_ret. cbv beta iota.
  change (negb (Result_IsZero NoResult)) with false. cbv iota zeta. apply Hhandler. by etrans.
Qed.

(** What a reconciliation leaves of the machine. *)
Definition machine_after (m : Beskar7Machine) (w : W) (P : Beskar7Machine -> Prop) : Prop :=
  exists m', co_machine w mk = Some m' /\ managed m' /\ bm_Spec m' = bm_Spec m /\ P m'.

Lemma machine_stored_after m m' w w' (P : Beskar7Machine -> Prop) :
  managed m -> bm_Meta m' = bm_Meta m -> bm_Spec m' = bm_Spec m ->
  (forall rv, P (set_bm_Meta (set_om_ResourceVersion rv (bm_Meta (set_summary m' [InfrastructureReadyCondition])))
                   (set_summary m' [InfrastructureReadyCondition]))) ->
  machine_stored mk (set_summary m' [InfrastructureReadyCondition]) w w' -> machine_after m w' P.
Proof.
  intros Hw Hmeta Hspec HP ([rv Hrv] & _). eexists. split; [exact Hrv|]. split_and!; [|done|apply HP].
  apply (managed_kept m); [done|]. exists rv. cbn. by rewrite Hmeta.
Qed.

(** A free host is claimed. *)
Definition only_free (w : W) : Prop :=
  forall k h, co_host w k = Some h -> ph_Namespace h = nn_Namespace mk -> claimable h = true -> k = hk.

Lemma claim_loop_ends w m h items (Q : option PhysicalHost * Result * option error -> W -> Prop) :
  co_host w hk = Some h -> claimable h = true -> h ∈ items ->
  (forall h', h' ∈ items -> claimable h' = true -> h' = h) ->
  (forall h' w', host_stored hk h' w w' -> ph_Status h' = ph_Status h -> ph_Spec h' = ph_Spec (claimed_host m h) ->
     reversioned (ph_Meta h) (ph_Meta h') -> Q (Some h', AfterResult (5 * Second), None) w') ->
  ends serve (claim_loop m items) w Q.
Proof.
  intros Hh Hc Hin Honly HQ. induction items as [|x items IH]; [by apply not_elem_of_nil in Hin|]. cbn [claim_loop].
  destruct (claimable x) eqn:Ex.
  - assert (x = h) as -> by (apply Honly; [left|done]).
    destruct (co_update_spec w hk h (claimed_host m h) Hh eq_refl) as (h' & w' & Hs & Hst & ? & ? & ?).
    eapply ends_call; [exact Hs|]. apply ends_ret. by apply HQ.
  - apply IH; [apply elem_of_cons in Hin as [->|?]; [congruence|done]|]. intros h' ?. apply Honly. by right.
Qed.

Lemma claim_ends w m h :
  managed m -> ms_ProviderID (bm_Spec m) = None -> co_machine w mk = Some m -> co_host w hk = Some h ->
  claimable h = true -> only_free w ->
  ends serve (machine_Reconcile Func mk) w (fun x w' =>
    x = Done (AfterResult (5 * Second), None) /\ machine_after m w' (fun _ => True) /\
    exists h', co_host w' hk = Some h' /\ ph_Status h' = ph_Status h /\ ph_Spec h' = ph_Spec (claimed_host m h) /\
      reversioned (ph_Meta h) (ph_Meta h')).
Proof.
  intros Hw Hprov Hm Hh Hc Hfree. eapply managed_ends; [done..|]. intros w1 (Hh1 & Hm1 & Hc1).
  rewrite reconcileNormal_managed by done. apply ends_bind. unfold findAndClaimOrGetAssociatedHost. rewrite Hprov.
  unfold findAvailableHost. destruct (co_list w1 (bm_Namespace m)) as (l & w2 & Hs & (Hh2 & Hm2 & Hc2) & Hl).
  eapply ends_call; [exact Hs|]. cbv beta iota. pose proof (co_key _ _ _ Hh) as Hkey.
  assert (bm_Namespace m = nn_Namespace mk) as Hnsm by (rewrite <- (mg_key _ Hw); done). rewrite Hnsm, Hh1 in Hl.
  eapply (claim_loop_ends w2 m h); [by rewrite Hh2, Hh1|done| | |].
  - apply Hl. rewrite Hkey. split; [done|]. by injection Hkey.
  - intros h' [Hs' Hn']%Hl Hc'. pose proof (Hfree _ _ Hs' Hn' Hc') as E. rewrite E in Hs'. congruence.
  - intros h' w3 (Hh3 & Hm3 & Hc3) Hst Hsp Hrv. cbv beta iota. change (negb (Result_IsZero (AfterResult (5 * Second)))) with true.
    cbv iota zeta. apply ends_ret. split_and!; [congruence|done|]. intros w4 Hst4.
    split_and!; [done|eapply machine_stored_after; [..|exact Hst4]; done|]. destruct Hst4 as (_ & Hh4 & _).
    exists h'. by rewrite Hh4.
Qed.

(** A claimed host is booted into inspection. *)
Lemma trigger_ends w m h s :
  wants_host m -> co_machine w mk = Some m -> co_host w hk = Some h -> ph_State h = StateInUse ->
  co_secret {| nn_Namespace := nn_Namespace mk; nn_Name := rc_CredentialsSecretRef (pspec_RedfishConnection (ph_Spec h)) |} = Some s ->
  ends serve (machine_Reconcile Func mk) w (fun x w' =>
    x = Done (AfterResult (30 * Second), None) /\ machine_after m w' (fun _ => True) /\
    exists h' t, co_host w' hk = Some h' /\ ph_Status h' = stored_status (ph_Status (inspecting_host h t)) /\ ph_Spec h' = ph_Spec h /\
      co_clock w <= t <= co_clock w').
Proof.
  intros Hw Hm Hh Hst Hsec. eapply reconcile_ends; [done..|]. intros w1 Hw1.
  unfold handlePhysicalHostState. rewrite Hst. cbn [String.eqb Ascii.eqb Bool.eqb StateInUse StateReady StateInspecting].
  pose proof (co_key _ _ _ Hh) as Hkey. assert (ph_Namespace h = nn_Namespace mk) as Hnsh by by injection Hkey.
  change (StateInUse ==s StateReady) with false. change (StateInUse ==s StateInspecting) with false.
  change (StateInUse ==s StateInUse) with true. cbv iota. unfold triggerInspection, getRedfishClientForHost.
  apply ends_bind. rewrite Hnsh. calls (co_get_secret w1 _ s Hsec).
  destruct (co_connect w0 (rc_Address (pspec_RedfishConnection (ph_Spec h))) (default "" (sec_Data s !! "username"))
    (default "" (sec_Data s !! "password")) (default false (rc_InsecureSkipVerify (pspec_RedfishConnection (ph_Spec h)))))
    as (c & w2 & Hs & Hl2). eapply ends_call; [exact Hs|]. clear Hs. apply ends_ret. cbv beta iota.
  unfold with_defer. apply ends_bind. unfold triggerInspection_connected. calls (co_pxe w2 c).
  destruct (co_power w3 c) as (p & w4 & Hs & Hl4). eapply ends_call; [exact Hs|]. clear Hs. cbv beta iota zeta.
  assert (later w w4) as Hw4 by (repeat (etrans; [eassumption|]); done).
  match goal with |- ends _ (if _ then _ else ?u) _ ?Q => assert (forall w5, later w w5 -> ends serve u w5 Q) as Hupdate end.
  { intros w5 Hw5. destruct (co_now w5) as (t & w6 & Hs & Hl6 & Ht). eapply ends_call; [exact Hs|]. clear Hs.
    assert (later w w6) as (Hh6 & Hm6 & Hc6) by by etrans. destruct Hw5 as (_ & _ & Hc5). rewrite <- Hh6 in Hh.
    destruct (co_update w6 hk h (inspecting_host h t) Hh eq_refl) as (h' & w7 & Hs & (Hh7 & Hm7 & Hc7) & Hst7 & Hsp7 & _).
    eapply ends_call; [exact Hs|]. clear Hs. apply ends_ret.
    destruct (co_close w7 c) as (w8 & Hs & (Hh8 & Hm8 & Hc8)). eapply ends_call; [exact Hs|]. apply ends_ret.
    split_and!; [congruence|done|]. intros w9 Hst9. split_and!; [done|eapply machine_stored_after; [..|exact Hst9]; [apply Hw|done..]|].
    destruct Hst9 as (_ & Hh9 & Hc9). exists h', t. split_and!; [congruence|done|done|lia..]. }
  destruct (negb (p ==s OnPowerState)); [|by apply Hupdate].
  calls (co_power_on w4 c OnPowerState). apply Hupdate. by etrans.
Qed.

(** A posted report is stored. *)
Lemma report_ends describe w h r :
  co_host w hk = Some h -> ok_request r -> irr_Namespace r = nn_Namespace mk -> irr_HostName r = hname ->
  hname <> "" ->
  ends serve (ServeHTTP (json_decode describe) {| rq_Method := MethodPost; rq_Body := request_text r |}) w
    (fun '(code, _) w' => code = 200 /\ co_machine w' = co_machine w /\ co_clock w <= co_clock w' /\
       exists h' t, co_host w' hk = Some h' /\ ph_Spec h' = ph_Spec h /\
         ph_Status h' = stored_status (ph_Status (reported_host h (build_report r t)))).
Proof.
  destruct Hns as [Hn1 _]. intros Hh Hr Hnsr Hname Hn2. unfold ServeHTTP. cbn [rq_Method rq_Body].
  replace (negb (MethodPost ==s MethodPost)) with false by done. cbv iota.
  pose proof (decode_request_text describe r "" Hr I) as Hd. rewrite str_app_nil_r in Hd. rewrite Hd.
  rewrite Hnsr, Hname, (proj2 (String.eqb_neq _ _) Hn1), (proj2 (String.eqb_neq _ _) Hn2). cbn [orb].
  apply ends_bind. unfold updatePhysicalHost. rewrite Hnsr, Hname. calls (co_get_host w hk h Hh).
  destruct (co_now w0) as (t & w1 & Hs & Hl1 & _). eapply ends_call; [exact Hs|]. clear Hs.
  assert (later w w1) as (Hh1 & Hm1 & Hc1) by by etrans. rewrite <- Hh1 in Hh.
  destruct (co_update w1 hk h (reported_host h (build_report r t)) Hh eq_refl) as (h' & w2 & Hs & (Hh2 & Hm2 & Hc2) & Hst & Hsp & _).
  eapply ends_call; [exact Hs|]. apply ends_ret, ends_ret. split_and!; [done|congruence|lia|]. by exists h', t.
Qed.

(** A completed inspection that meets the requirements makes the host ready, if it
    did not take too long. *)
Lemma validate_ends w m h rep started :
  wants_host m -> co_machine w mk = Some m -> co_host w hk = Some h -> ph_State h = StateInspecting ->
  pst_InspectionTimestamp (ph_Status h) = Some started -> pst_InspectionPhase (ph_Status h) = InspectionPhaseComplete ->
  pst_InspectionReport (ph_Status h) = Some rep -> requirements_met m rep ->
  ends serve (machine_Reconcile Func mk) w (fun x w' => co_clock w' - started <= DefaultInspectionTimeout ->
    x = Done (RequeueResult, None) /\ machine_after m w' (fun _ => True) /\ co_clock w <= co_clock w' /\
    exists h', co_host w' hk = Some h' /\ ph_Status h' = stored_status (ph_Status (ready_host h)) /\ ph_Spec h' = ph_Spec h).
Proof.
  intros Hw Hm Hh Hst Hts Hphase Hrep Hreq. eapply reconcile_ends; [done..|]. intros w1 Hw1.
  unfold handlePhysicalHostState. rewrite Hst. change (StateInspecting ==s StateReady) with false.
  change (StateInspecting ==s StateInspecting) with true. cbv iota. unfold handleInspectingHost. rewrite Hts.
  destruct (co_now w1) as (t & w2 & Hs & Hl2 & Ht). eapply ends_call; [exact Hs|]. clear Hs.
  assert (later w w2) as (Hh2 & Hm2 & Hc2) by by etrans. rewrite <- Hh2 in Hh. cbv zeta.
  destruct (Z.gtb_spec (time_sub t started) DefaultInspectionTimeout) as [Hlate|Hlate].
  - destruct (co_update w2 hk h (timed_out_host h (time_sub t started)) Hh eq_refl) as (h' & w3 & Hs & (Hh3 & Hm3 & Hc3) & _).
    eapply ends_call; [exact Hs|]. apply ends_ret. split_and!; [congruence|done|].
    intros w4 (_ & _ & Hc4) Htime. exfalso. unfold time_sub in Hlate.
    assert (int64_min <= DefaultInspectionTimeout) by done. lia.
  - unfold handleInspectingHost_rest. rewrite Hphase. change (InspectionPhaseComplete ==s InspectionPhaseComplete) with true. cbv iota.
    unfold validateInspectionReport. rewrite Hrep.
    assert (match ms_HardwareRequirements (bm_Spec (mark_true m PhysicalHostAssociatedCondition)) with
            | Some reqs => check_requirements reqs rep | None => None end = None) as ->
      by (unfold requirements_met in Hreq; cbn; destruct (ms_HardwareRequirements (bm_Spec m)); eauto).
    destruct (co_update w2 hk h (ready_host h) Hh eq_refl) as (h' & w3 & Hs & (Hh3 & Hm3 & Hc3) & Hst3 & Hsp3 & _).
    eapply ends_call; [exact Hs|]. apply ends_ret. split_and!; [congruence|done|].
    intros w4 Hst4 _. split_and!; [done|eapply machine_stored_after; [..|exact Hst4]; [apply Hw|done..]|destruct Hst4 as (_ & _ & ?); lia|].
    destruct Hst4 as (_ & Hh4 & _). exists h'. by rewrite Hh4.
Qed.

(** What the machine shows when its infrastructure is ready. *)
Definition provisioned (h : PhysicalHost) (m : Beskar7Machine) : Prop :=
  mst_Ready (bm_Status m) = true /\ mst_Phase (bm_Status m) = Some "Provisioned" /\
  cond_status (mst_Conditions (bm_Status m)) InfrastructureReadyCondition = Some "True" /\
  (pst_Addresses (ph_Status h) <> [] -> mst_Addresses (bm_Status m) = pst_Addresses (ph_Status h)).

Lemma ready_ends w m h :
  wants_host m -> co_machine w mk = Some m -> co_host w hk = Some h -> ph_State h = StateReady ->
  ends serve (machine_Reconcile Func mk) w (fun x w' =>
    x = Done (NoResult, None) /\ co_host w' = co_host w /\ machine_after m w' (provisioned h) /\ co_clock w <= co_clock w').
Proof.
  intros Hw Hm Hh Hst. eapply reconcile_ends; [done..|]. intros w1 (Hh1 & Hm1 & Hc1).
  unfold handlePhysicalHostState. rewrite Hst. change (StateReady ==s StateReady) with true. cbv iota.
  unfold handleReadyHost. pose proof (co_key _ _ _ Hh) as Hkey.
  assert (providerID (ph_Namespace h) (ph_Name h) = providerID (nn_Namespace mk) hname) as -> by (by injection Hkey as -> ->).
  change (ms_ProviderID (bm_Spec (mark_true m PhysicalHostAssociatedCondition))) with (ms_ProviderID (bm_Spec m)).
  destruct Hw as [Hw Hprov]. rewrite Hprov. unfold providerID, ProviderIDPrefix. rewrite String.eqb_refl. cbn [negb]. cbv iota zeta. apply ends_ret. split_and!; [congruence|by case_match|].
  intros w2 Hst2. split_and!; [done|destruct Hst2 as (_ & -> & _); done| |destruct Hst2 as (_ & _ & ?); lia].
  eapply machine_stored_after; [done| | | |exact Hst2]; [by case_match..|]. intros rv. split_and!.
  - by case_match.
  - by case_match.
  - case_match; cbn -[cond_status]; rewrite SetSummary_other by done; apply MarkTrue_self.
  - intros Ha. destruct (pst_Addresses (ph_Status h)); [done|]. done.
Qed.

(** A host that can be claimed and used: it is free, not being deleted, has the
    finalizer, and its secret has credentials. *)
Record usable (h : PhysicalHost) : Prop := {
  us_free : claimable h = true;
  us_alive : om_DeletionTimestamp (ph_Meta h) = None;
  us_finalizer : PhysicalHostFinalizer ∈ om_Finalizers (ph_Meta h);
  us_secret : rc_CredentialsSecretRef (pspec_RedfishConnection (ph_Spec h)) <> "" /\
    exists s user password, co_secret {| nn_Namespace := nn_Namespace mk;
        nn_Name := rc_CredentialsSecretRef (pspec_RedfishConnection (ph_Spec h)) |} = Some s /\
      sec_Data s !! "username" = Some user /\ sec_Data s !! "password" = Some password
}.

(** Once claimed it is in use with the next look at its BMC. *)
Lemma observe_ends rec w h0 h ref :
  usable h0 -> phr_RedfishClientFactory rec = Func -> co_host w hk = Some h ->
  ph_Status h = ph_Status h0 -> pspec_RedfishConnection (ph_Spec h) = pspec_RedfishConnection (ph_Spec h0) ->
  ph_Consumer h = Some ref -> reversioned (ph_Meta h0) (ph_Meta h) ->
  ends serve (host_Reconcile rec hk) w (fun x w' =>
    x = Done (AfterResult (5 * Minute), None) /\ co_machine w' = co_machine w /\
    exists h', co_host w' hk = Some h' /\ ph_State h' = StateInUse /\ ph_Spec h' = ph_Spec h).
Proof.
  intros [Hfree Hal Hfin (Hne & s & user & password & Hsec & Hu & Hp)] Hf Hh Hst Hconn Hcons [rv Hmeta].
  assert (ph_State h = StateAvailable) as Hstate.
  { unfold ph_State. rewrite Hst. by apply andb_true_iff in Hfree as [?%String.eqb_eq _]. }
  pose proof (co_key _ _ _ Hh) as Hkey. assert (ph_Namespace h = nn_Namespace mk) as Hnsh by by injection Hkey.
  unfold host_Reconcile. calls (co_get_host w hk h Hh).
  rewrite ContainsFinalizer_spec, Hmeta. cbn [om_DeletionTimestamp om_Finalizers set_om_ResourceVersion]. rewrite Hal, bool_decide_true by done.
  cbn [negb]. unfold host_reconcileNormal. apply ends_bind. unfold getRedfishCredentials.
  rewrite Hconn, Hnsh, (proj2 (String.eqb_neq _ _) Hne). calls (co_get_secret w0 _ s Hsec). rewrite Hu, Hp. apply ends_ret.
  cbv beta iota. rewrite Hf.
  destruct (co_connect w1 (rc_Address (pspec_RedfishConnection (ph_Spec h0))) user password (insecure_setting h)) as (c & w2 & Hs & Hl2).
  eapply ends_call; [exact Hs|]. clear Hs. apply ends_bind. unfold reconcileNormal_connected.
  destruct (co_info w2 c) as (si & w3 & Hs & Hl3). eapply ends_call; [exact Hs|]. clear Hs. cbv beta iota.
  destruct (co_power w3 c) as (pw & w4 & Hs & Hl4). eapply ends_call; [exact Hs|]. clear Hs.
  destruct (co_addresses w4 c) as (l & w5 & Hs & Hl5). eapply ends_call; [exact Hs|]. clear Hs. cbv zeta.
  assert (later w w5) as (Hh5 & Hm5 & Hc5) by (repeat (etrans; [eassumption|]); done). rewrite <- Hh5 in Hh.
  set (h1 := observed_host h si (Ok pw) (Ok l)).
  destruct (co_update w5 hk h h1 Hh (proj1 (observed_host_frame h si (Ok pw) (Ok l)))) as (h' & w6 & Hs & (Hh6 & Hm6 & Hc6) & Hst6 & Hsp6 & _).
  eapply ends_call; [exact Hs|]. clear Hs. apply ends_ret. calls (co_close w6 c). destruct Hlater1 as (Hh7 & Hm7 & _).
  apply ends_ret. split_and!; [done|congruence|]. exists h'. rewrite Hh7. split_and!; [done| |done].
  pose proof (f_equal v_state (observed_host_view h si (Ok pw) (Ok l))) as Hv. cbn in Hv. rewrite Hstate, Hcons in Hv.
  unfold ph_State in *. rewrite Hst6. exact Hv.
Qed.

(** The runs that claim the host and put it in use, and those that take it from
    there to a provisioned machine. *)
Definition claiming (rec : PhysicalHostReconciler) : prog Env (exit reconcile_result) :=
  let! _ := machine_Reconcile Func mk in
  host_Reconcile rec hk.
Definition provisioning (describe : json_error -> string) (r : InspectionReportRequest) : prog Env (exit reconcile_result) :=
  let! _ := machine_Reconcile Func mk in
  let! _ := ServeHTTP (json_decode describe) {| rq_Method := MethodPost; rq_Body := request_text r |} in
  let! _ := machine_Reconcile Func mk in
  machine_Reconcile Func mk.

(** What an operator has to do in between: set the provider ID of the machine. *)
Definition provider_set (w w' : W) : Prop :=
  exists m m', co_machine w mk = Some m /\ co_machine w' mk = Some m' /\ reversioned (bm_Meta m) (bm_Meta m') /\
    bm_Spec m' = set_ms_ProviderID (Some ("b7://" +:+ nn_Namespace mk +:+ "/" +:+ hname)) (bm_Spec m) /\
    co_host w' = co_host w.

Lemma provisioning_ends describe w m h s r :
  wants_host m -> co_machine w mk = Some m -> co_host w hk = Some h -> ph_State h = StateInUse ->
  co_secret {| nn_Namespace := nn_Namespace mk; nn_Name := rc_CredentialsSecretRef (pspec_RedfishConnection (ph_Spec h)) |} = Some s ->
  ok_request r -> irr_Namespace r = nn_Namespace mk -> irr_HostName r = hname -> hname <> "" ->
  (forall t, requirements_met m (build_report r t)) ->
  ends serve (provisioning describe r) w (fun x w' => co_clock w' - co_clock w + Second <= DefaultInspectionTimeout ->
    x = Done (NoResult, None) /\ exists h' m' t, co_host w' hk = Some h' /\ co_machine w' mk = Some m' /\
      ph_State h' = StateReady /\ ph_Spec h' = ph_Spec h /\
      pst_InspectionReport (ph_Status h') = Some (build_report r t) /\ provisioned h' m').
Proof.
  intros Hw Hm Hh Hst Hsec Hr Hnsr Hname Hne Hreq. unfold provisioning. apply ends_bind.
  eapply ends_mono; [by eapply trigger_ends|]. intros _ w1 (_ & (m1 & Hm1 & Hg1 & Hs1 & _) & h1 & started & Hh1 & Hst1 & Hsp1 & Hstart).
  assert (wants_host m1) as Hw1 by (split; [done|rewrite Hs1; apply Hw]).
  apply ends_bind. eapply ends_mono; [eapply report_ends; [exact Hh1|done..]|].
  intros [code resp] w2 (_ & Hm2 & Hc2 & h2 & t & Hh2 & Hsp2 & Hst2). rewrite <- Hm2 in Hm1.
  cbn in Hst2. rewrite Hst1 in Hst2. apply ends_bind.
  eapply ends_mono; [apply (validate_ends w2 m1 h2 (build_report r (stored_time t)) (stored_time started)); [done..| | | | |]|].
  all: try (unfold ph_State; rewrite Hst2; cbn -[stored_time]; by rewrite ?stored_time_idemp).
  { unfold requirements_met. rewrite Hs1. apply Hreq. }
  pose proof (stored_time_near started). intros x3 w3 H3.
  destruct (Z_le_gt_dec (co_clock w3 - stored_time started) DefaultInspectionTimeout) as [Hin|Hlate].
  - destruct (H3 Hin) as (_ & (m3 & Hm3 & Hg3 & Hs3 & _) & Hc3 & h3 & Hh3 & Hst3 & Hsp3).
    assert (wants_host m3) by (split; [done|rewrite Hs3; apply Hw1]).
    eapply ends_mono; [eapply ready_ends; [done..|by unfold ph_State; rewrite Hst3]|].
    intros x w4 (-> & Hh4 & (m4 & Hm4 & _ & _ & Hp) & _) _. split; [done|]. exists h3, m4, (stored_time t). rewrite Hh4.
    split_and!; [done..|by unfold ph_State; rewrite Hst3|congruence| |done].
    rewrite Hst3. cbn -[stored_time stored_report]. rewrite Hst2. cbn -[stored_time]. unfold stored_report. cbn -[stored_time].
    by rewrite stored_time_idemp.
  - unfold ends. pose proof (run_clock (machine_Reconcile Func mk) w3). lia.
Qed.

(** C7: provisioning completes, with one step left to an operator.  A machine
    without provider ID and the only free host of its namespace are given.
    Reconciling the machine claims the host and reconciling the host puts it in
    use.  Once an operator has then set the provider ID of the machine to that
    of the host, which no part of the program does before the host is ready,
    reconciling the machine, posting a report that meets its requirements and
    reconciling twice more end without an error, with the host Ready, claimed
    by the machine and holding the posted report, and the machine provisioned,
    unless the inspection timeout has passed.  The reconcilers have a client
    factory, which the wiring of the manager does not give them. *)
Theorem provisioning_completes describe rec w m h r :
  managed m -> ms_ProviderID (bm_Spec m) = None -> co_machine w mk = Some m ->
  usable h -> only_free w -> co_host w hk = Some h -> phr_RedfishClientFactory rec = Func ->
  ok_request r -> irr_Namespace r = nn_Namespace mk -> irr_HostName r = hname -> hname <> "" ->
  (forall t, requirements_met m (build_report r t)) ->
  ends serve (claiming rec) w (fun x1 w1 => x1 = Done (AfterResult (5 * Minute), None) /\
    (exists h1, co_host w1 hk = Some h1 /\ ph_State h1 = StateInUse /\ ph_Consumer h1 = Some (claim_ref m)) /\
    (exists m1, co_machine w1 mk = Some m1) /\
    forall w2, provider_set w1 w2 ->
    ends serve (provisioning describe r) w2 (fun x w' =>
      co_clock w' - co_clock w2 + Second <= DefaultInspectionTimeout ->
      x = Done (NoResult, None) /\ exists h' m' t report, co_host w' hk = Some h' /\ co_machine w' mk = Some m' /\
        ph_State h' = StateReady /\ ph_Consumer h' = Some (claim_ref m) /\
        pst_InspectionReport (ph_Status h') = Some report /\ reported r t report /\ provisioned h' m')).
Proof.
  intros Hm Hprov Hcm Hu Honly Hh Hf Hr Hnsr Hname Hne Hreq. unfold claiming. apply ends_bind.
  eapply ends_mono; [apply (claim_ends w m h); try done; apply Hu|].
  intros _ w1 (_ & (m1 & Hm1 & Hg1 & Hs1 & _) & h1 & Hh1 & Hst1 & Hsp1 & Hrv1).
  eapply ends_mono; [apply (observe_ends rec w1 h h1 (claim_ref m)); try done; [by rewrite Hsp1|by unfold ph_Consumer; rewrite Hsp1]|].
  intros x w2 (-> & Hm2 & h2 & Hh2 & Hst2 & Hsp2). split; [done|].
  split; [exists h2; unfold ph_Consumer; by rewrite Hsp2, Hsp1|]. split; [exists m1; by rewrite Hm2|].
  intros w3 (m2 & m3 & Hm2' & Hm3 & Hrv & Hs3 & Hh3). rewrite Hm2, Hm1 in Hm2'. injection Hm2' as <-.
  destruct (us_secret _ Hu) as (_ & s & user & password & Hsec & _).
  eapply ends_mono.
  - eapply (provisioning_ends describe w3 m3 h2); [|done|by rewrite Hh3|done| |done..|].
    + split; [by apply (managed_kept m1)|by rewrite Hs3].
    + rewrite Hsp2, Hsp1. exact Hsec.
    + unfold requirements_met. rewrite Hs3, Hs1. exact Hreq.
  - intros x w4 H4 Hclock. destruct (H4 Hclock) as (-> & h' & m' & t & ? & ? & ? & Hsp & ? & ?). split; [done|].
    exists h', m', t, (build_report r t). split_and!; try done; [|apply build_report_reported].
    unfold ph_Consumer. by rewrite Hsp, Hsp2, Hsp1.
Qed.

End Provisioning.

(** ** The server in memory does its part *)

#[local] Existing Instance ref_lib.

(** The server of Memory.v, with fixed secrets and owners and a clock that moves
    for a minute. *)
Definition owner_of (k : NamespacedName) : Machine :=
  {| m_Meta := sample_meta (nn_Name k) [] None; m_Addresses := []; m_Conditions := [] |}.
Definition cluster_of (k : NamespacedName) : Cluster := {| cl_Meta := sample_meta (nn_Name k) [] None |}.

(** What a host map holds under its key, unless it is about to go. *)
Definition held (k : NamespacedName) (h : PhysicalHost) : bool := bool_decide (ph_Key h = k) && negb (dying h).

Definition ready_call (a : action Env) (w : mem) : answer a * mem :=
  match a return capi_answer a * mem with
  | ANow => (mem_now w, if mem_now w + Second <=? Minute then tick w else w)
  | AListHosts ns =>
      (Ok (omap (fun kh => if held kh.1 kh.2 && bool_decide (ph_Namespace kh.2 = ns) then Some kh.2 else None)
             (map_to_list (mem_hosts w))), w)
  | AGetSecret k => (mem_get (mem_secrets empty_mem) k, w)
  | AGetOwnerMachine m => (Ok (Some (owner_of (meta_key m))), w)
  | AGetClusterFromMetadata m => (Ok (Some (cluster_of (meta_key m))), w)
  | a => mem_call a w
  end.

#[export] Instance mem_observation : Observation mem := {|
  co_host w k := match mem_hosts w !! k with
                 | Some h => if held k h then Some h else None
                 | None => None
                 end;
  co_machine w k := mem_machines w !! k;
  co_secret k := mem_secrets empty_mem !! k;
  co_owner k := Some (owner_of k);
  co_cluster k := Some (cluster_of k);
  co_clock := mem_now
|}.

Lemma held_spec k h : held k h = true <-> ph_Key h = k /\ dying h = false.
Proof. unfold held. by rewrite andb_true_iff, bool_decide_eq_true, negb_true_iff. Qed.

Lemma mem_co_host w k h : co_host w k = Some h <-> mem_hosts w !! k = Some h /\ ph_Key h = k /\ dying h = false.
Proof.
  rewrite <- held_spec. unfold co_host, mem_observation. split.
  - destruct (mem_hosts w !! k) as [h'|]; [|done]. destruct (held k h') eqn:?; [|done]. by intros [= <-].
  - by intros (-> & ->).
Qed.

Lemma mem_list w ns :
  exists l w', ready_call (AListHosts ns) w = (Ok l, w') /\ later w w' /\
    forall h, h ∈ l <-> co_host w (ph_Key h) = Some h /\ ph_Namespace h = ns.
Proof.
  eexists _, w. split; [done|]. split; [done|]. intros h. rewrite list_elem_of_omap, mem_co_host. split.
  - intros ([k h0] & Hin%elem_of_map_to_list & E). cbn in E. destruct (held k h0) eqn:Eh; [|done].
    case_bool_decide; [|done]. injection E as ->. apply held_spec in Eh as [<- ?]. done.
  - intros ((Hl & _ & Hd) & <-). exists (ph_Key h, h). split; [by apply elem_of_map_to_list|]. cbn.
    assert (held (ph_Key h) h = true) as -> by by apply held_spec. by rewrite bool_decide_true.
Qed.

Lemma mem_write_clock h new w : mem_now w <= mem_now (mem_write h new w).2.
Proof. unfold mem_write. repeat case_match; cbn; lia. Qed.

(** A write of the current object succeeds, and stores what it is to store. *)
Lemma mem_write_current w k cur h new :
  co_host w k = Some cur -> ph_Meta h = ph_Meta cur -> ph_Meta (new cur) = ph_Meta cur ->
  exists h' w', mem_write h new w = (Ok h', w') /\ host_stored k h' w w' /\
    ph_Status h' = ph_Status (new cur) /\ ph_Spec h' = ph_Spec (new cur) /\ reversioned (ph_Meta cur) (ph_Meta h').
Proof.
  intros (Hc & Hk & Hd)%mem_co_host Hm Hn. unfold mem_write. assert (ph_Key h = k) as Hkh.
  { rewrite <- Hk. unfold ph_Key, ph_Namespace, ph_Name. by rewrite Hm. }
  assert (ph_RV h = ph_RV cur) as Hrv by (unfold ph_RV; by rewrite Hm). rewrite Hkh, Hc, Hrv, Z.eqb_refl.
  set (n := stamped w (new cur)). assert (ph_Meta n = set_om_ResourceVersion (mem_next w) (ph_Meta cur)) as Hmn by (by rewrite <- Hn).
  assert (dying n = false) as Hdn by (unfold dying in *; by rewrite Hmn). rewrite Hdn. exists n. eexists. split; [done|].
  split_and!; [|done|done|by exists (mem_next w)]. split; [|split; [done|cbn; lia]].
  apply mem_co_host. cbn. rewrite lookup_insert_eq. split_and!; [done| |done].
  rewrite <- Hk. unfold ph_Key, ph_Namespace, ph_Name. by rewrite Hmn.
Qed.

Lemma set_om_Finalizers_id m : set_om_Finalizers (om_Finalizers m) m = m.
Proof. by destruct m. Qed.

#[export] Instance mem_cooperative : Cooperative ready_call.
Proof.
  split.
  - by intros w k h (_ & ? & _)%mem_co_host.
  - intros a w. assert (0 <= Second) by done.
    destruct a; cbn -[Second Minute]; try case_match; cbn -[Second]; try apply mem_write_clock; lia.
  - intros w. eexists _, _. split; [done|]. assert (0 <= Second) by done. unfold later. case_match; cbn -[Second]; split_and!; done || lia.
  - intros w k h (Hh & _)%mem_co_host. exists w. split; [|done]. cbn. unfold mem_get. by rewrite Hh.
  - apply mem_list.
  - intros w k m Hm. exists w. split; [|done]. cbn in *. unfold mem_get. by rewrite Hm.
  - intros w k s Hs. exists w. split; [|done]. cbn -[empty_mem] in *. unfold mem_get. by rewrite Hs.
  - intros. eexists. split; reflexivity.
  - intros. eexists. split; reflexivity.
  - intros. eexists. split; reflexivity.
  - intros w k cur h Hc Hm. exact (mem_write_current w k cur h (set_ph_Status (stored_status (ph_Status h))) Hc Hm eq_refl).
  - intros w k cur h Hc Hm. 
    refine (mem_write_current w k cur h (fun cur => set_ph_Status (ph_Status cur)
      (set_ph_Spec (ph_Spec h) (set_ph_Meta (set_om_Finalizers (om_Finalizers (ph_Meta h)) (ph_Meta cur)) cur))) Hc Hm _).
    cbn. by rewrite Hm, set_om_Finalizers_id.
  - intros w k before after _ Hk. eexists. split; [done|]. split; [|done]. exists (om_ResourceVersion (bm_Meta after)).
    cbn. rewrite Hk, lookup_insert_eq. by destruct after as [? [] ? ?].
  - intros. eexists _, _. split; reflexivity.
  - intros. eexists _, _. split; reflexivity.
  - intros. eexists _, _. split; reflexivity.
  - intros. eexists. split; reflexivity.
  - intros. eexists _, _. split; reflexivity.
  - intros. eexists. split; [reflexivity|]. unfold later. split_and!; done || (cbn; lia).
  - intros. eexists. split; reflexivity.
Qed.

(** A free host, and a machine without provider ID. *)
Definition free_host : PhysicalHost :=
  ph_upd_Status (set_pst_State StateAvailable) (sample_host "h1" "https://bmc1" [PhysicalHostFinalizer]).
Definition free_mem : mem :=
  {| mem_hosts := {[ key "h1" := free_host ]}; mem_versions := []; mem_next := 1; mem_secrets := ∅;
     mem_machines := {[ key "m1" := machine1 None None ]}; mem_now := 0; mem_power := "Off" |}.

Lemma ready_call_clock a w : mem_now w <= Minute -> mem_now (ready_call a w).2 <= Minute.
Proof.
  intros Hw. destruct a; cbn -[Second Minute]; try case_match; cbn -[Second Minute]; try (unfold mem_write; repeat case_match); cbn -[Second Minute]; lia.
Qed.
Lemma run_ready_clock {A} (p : prog Env A) w : mem_now w <= Minute -> mem_now (run ready_call p w).2 <= Minute.
Proof.
  revert w. induction p as [x|a k IH]; intros w Hw; [done|]. apply (ready_call_clock a) in Hw. cbn [run].
  destruct (ready_call a w) as [r w1]. by apply IH.
Qed.

Lemma report1_ok : ok_request report1.
Proof.
  unfold ok_request, ok_str, ok_int. cbn. split_and!; try (by apply utf8_ascii); try done;
    (apply Forall_cons_2; [|apply Forall_nil_2]; split_and!; by apply utf8_ascii || done).
Qed.

Definition claimed_mem : mem := (run ready_call (claiming (key "m1") "h1" wired) free_mem).2.
Definition with_provider (w : mem) : mem :=
  set_machines (alter (fun m => set_bm_Spec (set_ms_ProviderID (Some "b7://default/h1") (bm_Spec m)) m) (key "m1") (mem_machines w)) w.
Definition provisioned_mem : mem :=
  (run ready_call (provisioning (key "m1") (fun _ => "malformed") report1) (with_provider claimed_mem)).2.

Lemma provisioned_in_time : co_clock provisioned_mem - co_clock (with_provider claimed_mem) + Second <= DefaultInspectionTimeout.
Proof.
  assert (mem_now provisioned_mem <= Minute) by (by apply run_ready_clock, (run_ready_clock (claiming (key "m1") "h1" wired) free_mem)).
  pose proof (run_clock (serve := ready_call) (claiming (key "m1") "h1" wired) free_mem) as H0.
  change (0 <= mem_now claimed_mem) in H0. assert (Minute + Second <= DefaultInspectionTimeout) by done.
  change (mem_now provisioned_mem - mem_now claimed_mem + Second <= DefaultInspectionTimeout). lia.
Qed.

Lemma provider_set_mem (w : mem) m : co_machine w (key "m1") = Some m -> provider_set (key "m1") "h1" w (with_provider w).
Proof.
  intros Hm. exists m. eexists. split; [exact Hm|]. split; [|split; [|split; [|reflexivity]]].
  - cbn [co_machine mem_observation with_provider set_machines mem_machines]. cbn in Hm. rewrite lookup_alter_eq, Hm. reflexivity.
  - exists (om_ResourceVersion (bm_Meta m)). cbn. by destruct m as [? [] ? ?].
  - reflexivity.
Qed.

Lemma free_host_usable : usable (key "m1") free_host.
Proof.
  split; [done|done|apply (bool_decide_unpack _); vm_compute; exact I|]. split; [done|]. by eexists _, "admin", "secret".
Qed.

Lemma free_mem_only : only_free (key "m1") "h1" free_mem.
Proof. 
  intros k h (Hh & _)%mem_co_host _ _. change (({[ key "h1" := free_host ]} : gmap NamespacedName PhysicalHost) !! k = Some h) in Hh.
  apply lookup_singleton_Some in Hh as [<- _]. reflexivity. Qed.

Lemma machine1_managed : managed (key "m1") (machine1 None None).
Proof. split; try done; [apply (bool_decide_unpack _); vm_compute; exact I|]. by eexists. Qed.

Lemma default_namespace : nn_Namespace (key "m1") <> "" /\ 47 ∉ bytes (nn_Namespace (key "m1")).
Proof. split; [done|]. apply (bool_decide_unpack _). vm_compute. exact I. Qed.

Lemma report1_enough t : requirements_met (machine1 None None) (build_report report1 t).
Proof. intros reqs [= <-]. done. Qed.

Lemma provisioning_completes_witness :
  exists h' m', co_host provisioned_mem (key "h1") = Some h' /\ co_machine provisioned_mem (key "m1") = Some m' /\
    ph_State h' = StateReady /\ provisioned h' m'.
Proof.
  pose proof (provisioning_completes (serve := ready_call) (key "m1") "h1"
    default_namespace (fun _ => "malformed") wired free_mem
    (machine1 None None) free_host report1 machine1_managed eq_refl eq_refl free_host_usable free_mem_only eq_refl eq_refl
    report1_ok eq_refl eq_refl ltac:(done) report1_enough) as Hclaimed.
  unfold ends in Hclaimed. cbv beta in Hclaimed. fold claimed_mem in Hclaimed. destruct Hclaimed as (_ & _ & [m1 Hm1] & Hends).
  specialize (Hends (with_provider claimed_mem) (provider_set_mem claimed_mem m1 Hm1)). fold provisioned_mem in Hends.
  destruct (Hends provisioned_in_time) as (_ & h' & m' & t & report & Hh & Hm & Hst & _ & _ & _ & Hp).
  exists h', m'. exact (conj Hh (conj Hm (conj Hst Hp))).
Defined.
