(* ===== verification/Queue.v ===== *)
(** * internal/coordination/provisioning_queue.go

    The provisioning queue: permits for BMC operations, a bounded queue of
    requests, and workers that process them.

    Requests are shared: a submitted request is held by the caller, by the
    queue or the processing map, and by the worker, all through one pointer.
    So the model has a heap of requests, and the queue and the processing map
    hold pointers into it.  Each definition is one critical section of the
    queue's mutex; [qstep] interleaves them with the clients and workers, whose
    program points are the values of [qthread].  The readings of the clock are
    arguments. *)

From S2P Require Import Prelude GoFmt Api Prog.

(** ** Data *)

Definition OperationClaim := "claim".
Definition OperationProvision := "provision".
Definition OperationDeprovision := "deprovision".
Definition OperationRelease := "release".

Record ProvisioningResult := {
  pr_Success : bool;
  pr_Error : option error;
  pr_Host : option PhysicalHost;
  pr_Duration : Z;
  pr_Retryable : bool
}.

(** A context: live, or done with an error. *)
Abbreviation context := (option error).

Record ProvisioningRequest := {
  pq_ID : string;
  pq_Host : PhysicalHost;
  pq_Machine : option Beskar7Machine;
  pq_Operation : string;
  pq_SubmittedAt : Z;
  pq_StartedAt : option Z;
  pq_CompletedAt : option Z;
  pq_Error : option error;
  (** [None] is the nil channel; otherwise the results in the buffer. *)
  pq_ResultCh : option (list ProvisioningResult);
  (** [None] is the nil context. *)
  pq_Context : option context;
  pq_CancelFunc : funcval
}.

Abbreviation ptr := nat.

Record ProvisioningQueue := {
  queue : list ptr;
  processing : gmap string ptr;
  maxConcurrentOps : Z;
  maxQueueSize : Z;
  operationTimeout : Z;
  bmcCooldownPeriod : Z;
  lastBMCOperation : gmap string Z;
  (** Whether the channel [stopCh] is closed, and the counter of [workerWg]. *)
  stopCh : bool;
  workerWg : Z;
  (** The heap: the allocated requests, and the next free address. *)
  requests : gmap ptr ProvisioningRequest;
  next_ptr : ptr
}.

Definition NewProvisioningQueue (maxConcurrent maxQueue : Z) : ProvisioningQueue :=
  {| queue := []; processing := ∅; maxConcurrentOps := maxConcurrent; maxQueueSize := maxQueue;
     operationTimeout := 5 * Minute; bmcCooldownPeriod := 10 * Second; lastBMCOperation := ∅;
     stopCh := false; workerWg := 0; requests := ∅; next_ptr := 0 |}.

(** ** Field assignments *)

Definition set_queue (v : list ptr) (q : ProvisioningQueue) : ProvisioningQueue :=
  {| queue := v; processing := processing q; maxConcurrentOps := maxConcurrentOps q;
     maxQueueSize := maxQueueSize q; operationTimeout := operationTimeout q;
     bmcCooldownPeriod := bmcCooldownPeriod q; lastBMCOperation := lastBMCOperation q;
     stopCh := stopCh q; workerWg := workerWg q; requests := requests q; next_ptr := next_ptr q |}.
Definition set_processing (v : gmap string ptr) (q : ProvisioningQueue) : ProvisioningQueue :=
  {| queue := queue q; processing := v; maxConcurrentOps := maxConcurrentOps q;
     maxQueueSize := maxQueueSize q; operationTimeout := operationTimeout q;
     bmcCooldownPeriod := bmcCooldownPeriod q; lastBMCOperation := lastBMCOperation q;
     stopCh := stopCh q; workerWg := workerWg q; requests := requests q; next_ptr := next_ptr q |}.
Definition set_lastBMCOperation (v : gmap string Z) (q : ProvisioningQueue) : ProvisioningQueue :=
  {| queue := queue q; processing := processing q; maxConcurrentOps := maxConcurrentOps q;
     maxQueueSize := maxQueueSize q; operationTimeout := operationTimeout q;
     bmcCooldownPeriod := bmcCooldownPeriod q; lastBMCOperation := v;
     stopCh := stopCh q; workerWg := workerWg q; requests := requests q; next_ptr := next_ptr q |}.
Definition set_stopCh (v : bool) (q : ProvisioningQueue) : ProvisioningQueue :=
  {| queue := queue q; processing := processing q; maxConcurrentOps := maxConcurrentOps q;
     maxQueueSize := maxQueueSize q; operationTimeout := operationTimeout q;
     bmcCooldownPeriod := bmcCooldownPeriod q; lastBMCOperation := lastBMCOperation q;
     stopCh := v; workerWg := workerWg q; requests := requests q; next_ptr := next_ptr q |}.
Definition set_workerWg (v : Z) (q : ProvisioningQueue) : ProvisioningQueue :=
  {| queue := queue q; processing := processing q; maxConcurrentOps := maxConcurrentOps q;
     maxQueueSize := maxQueueSize q; operationTimeout := operationTimeout q;
     bmcCooldownPeriod := bmcCooldownPeriod q; lastBMCOperation := lastBMCOperation q;
     stopCh := stopCh q; workerWg := v; requests := requests q; next_ptr := next_ptr q |}.
Definition upd_request (p : ptr) (f : ProvisioningRequest -> ProvisioningRequest) (q : ProvisioningQueue)
  : ProvisioningQueue :=
  {| queue := queue q; processing := processing q; maxConcurrentOps := maxConcurrentOps q;
     maxQueueSize := maxQueueSize q; operationTimeout := operationTimeout q;
     bmcCooldownPeriod := bmcCooldownPeriod q; lastBMCOperation := lastBMCOperation q;
     stopCh := stopCh q; workerWg := workerWg q; requests := alter f p (requests q); next_ptr := next_ptr q |}.
(** [&ProvisioningRequest{...}] *)
Definition alloc (r : ProvisioningRequest) (q : ProvisioningQueue) : ptr * ProvisioningQueue :=
  (next_ptr q,
   {| queue := queue q; processing := processing q; maxConcurrentOps := maxConcurrentOps q;
      maxQueueSize := maxQueueSize q; operationTimeout := operationTimeout q;
      bmcCooldownPeriod := bmcCooldownPeriod q; lastBMCOperation := lastBMCOperation q;
      stopCh := stopCh q; workerWg := workerWg q; requests := <[next_ptr q := r]> (requests q); next_ptr := S (next_ptr q) |}).

Definition set_pq_StartedAt (t : Z) (r : ProvisioningRequest) : ProvisioningRequest :=
  {| pq_ID := pq_ID r; pq_Host := pq_Host r; pq_Machine := pq_Machine r; pq_Operation := pq_Operation r;
     pq_SubmittedAt := pq_SubmittedAt r; pq_StartedAt := Some t; pq_CompletedAt := pq_CompletedAt r;
     pq_Error := pq_Error r; pq_ResultCh := pq_ResultCh r; pq_Context := pq_Context r;
     pq_CancelFunc := pq_CancelFunc r |}.
Definition set_pq_Completed (t : Z) (e : option error) (r : ProvisioningRequest) : ProvisioningRequest :=
  {| pq_ID := pq_ID r; pq_Host := pq_Host r; pq_Machine := pq_Machine r; pq_Operation := pq_Operation r;
     pq_SubmittedAt := pq_SubmittedAt r; pq_StartedAt := pq_StartedAt r; pq_CompletedAt := Some t;
     pq_Error := e; pq_ResultCh := pq_ResultCh r; pq_Context := pq_Context r;
     pq_CancelFunc := pq_CancelFunc r |}.
Definition set_pq_ResultCh (v : list ProvisioningResult) (r : ProvisioningRequest) : ProvisioningRequest :=
  {| pq_ID := pq_ID r; pq_Host := pq_Host r; pq_Machine := pq_Machine r; pq_Operation := pq_Operation r;
     pq_SubmittedAt := pq_SubmittedAt r; pq_StartedAt := pq_StartedAt r; pq_CompletedAt := pq_CompletedAt r;
     pq_Error := pq_Error r; pq_ResultCh := Some v; pq_Context := pq_Context r;
     pq_CancelFunc := pq_CancelFunc r |}.
(** The context ends with [e], unless it has ended before. *)
Definition end_context (e : error) (r : ProvisioningRequest) : ProvisioningRequest :=
  {| pq_ID := pq_ID r; pq_Host := pq_Host r; pq_Machine := pq_Machine r; pq_Operation := pq_Operation r;
     pq_SubmittedAt := pq_SubmittedAt r; pq_StartedAt := pq_StartedAt r; pq_CompletedAt := pq_CompletedAt r;
     pq_Error := pq_Error r; pq_ResultCh := pq_ResultCh r;
     pq_Context := match pq_Context r with Some None => Some (Some e) | c => c end;
     pq_CancelFunc := pq_CancelFunc r |}.

Definition Canceled : error := ErrNew "context canceled".

(** [request.CancelFunc()] *)
Definition call_cancel (p : ptr) (q : ProvisioningQueue) : exit ProvisioningQueue :=
  match requests q !! p with
  | Some r =>
      match pq_CancelFunc r with
      | Func => Done (upd_request p (end_context Canceled) q)
      | NilFunc => Panic nil_dereference
      end
  | None => Panic nil_dereference
  end.

Definition bmc_address (h : PhysicalHost) : string := rc_Address (pspec_RedfishConnection (ph_Spec h)).

(** ** Permits *)

(** A request that only marks its host as processing. *)
Definition permit_request (host : PhysicalHost) : ProvisioningRequest :=
  {| pq_ID := ""; pq_Host := host; pq_Machine := None; pq_Operation := ""; pq_SubmittedAt := 0;
     pq_StartedAt := None; pq_CompletedAt := None; pq_Error := None; pq_ResultCh := None;
     pq_Context := None; pq_CancelFunc := NilFunc |}.

(** One iteration of the loop of [AcquireBMCPermit], under the lock: the queue
    after it if the permit is granted, [None] if the caller must wait. *)
Definition acquire_attempt (now : Z) (host : PhysicalHost) (q : ProvisioningQueue)
  : option ProvisioningQueue :=
  match processing q !! ph_Name host with
  | Some _ => Some q
  | None =>
      if Z.of_nat (size (processing q)) <? maxConcurrentOps q then
        if match lastBMCOperation q !! bmc_address host with
           | None => true
           | Some last => time_sub now last >=? bmcCooldownPeriod q
           end
        then
          let '(p, q) := alloc (permit_request host) q in
          Some (set_processing (<[ph_Name host := p]> (processing q)) q)
        else None
      else None
  end.

Definition ReleaseBMCPermit (now : Z) (host : PhysicalHost) (q : ProvisioningQueue) : ProvisioningQueue :=
  let q := set_processing (delete (ph_Name host) (processing q)) q in
  set_lastBMCOperation (<[bmc_address host := now]> (lastBMCOperation q)) q.

(** ** Submission *)

Definition SubmitRequest (ctx : context) (now now' : Z) (host : PhysicalHost) (machine : option Beskar7Machine)
    (operation : string) (q : ProvisioningQueue) : (option ptr * option error) * ProvisioningQueue :=
  if Z.of_nat (length (queue q)) >=? maxQueueSize q then
    ((None, Some (ErrNew ("provisioning queue is full (max: " +:+ pretty (maxQueueSize q) +:+ ")"))), q)
  else
    match processing q !! ph_Name host with
    | Some existing =>
        ((Some existing,
          Some (ErrNew ("host " +:+ ph_Name host +:+ " already has operation "
                        +:+ from_option pq_Operation "" (requests q !! existing) +:+ " in progress"))), q)
    | None =>
        let request :=
          {| pq_ID := ph_Name host +:+ "-" +:+ operation +:+ "-" +:+ pretty now;
             pq_Host := host; pq_Machine := machine; pq_Operation := operation;
             pq_SubmittedAt := now'; pq_StartedAt := None; pq_CompletedAt := None; pq_Error := None;
             pq_ResultCh := Some []; pq_Context := Some ctx; pq_CancelFunc := Func |} in
        let '(p, q) := alloc request q in
        ((Some p, None), set_queue (queue q ++ [p]) q)
    end.

Definition GetQueueStatus (q : ProvisioningQueue) : Z * Z :=
  (Z.of_nat (length (queue q)), Z.of_nat (size (processing q))).

(** ** Workers *)

(** The BMC of the request is not cooling down at [now]. *)
Definition eligible (q : ProvisioningQueue) (now : Z) (p : ptr) : bool :=
  match requests q !! p with
  | Some r =>
      match lastBMCOperation q !! bmc_address (pq_Host r) with
      | Some lastOp => negb (time_sub now lastOp <? bmcCooldownPeriod q)
      | None => true
      end
  | None => false
  end.

(** The loop of [getNextRequest]; [clock i] is the time read for the request at
    index [i]. *)
Fixpoint next_loop (clock : nat -> Z) (q : ProvisioningQueue) (i : nat) (l : list ptr) : option (nat * ptr) :=
  match l with
  | [] => None
  | p :: l' => if eligible q (clock i) p then Some (i, p) else next_loop clock q (S i) l'
  end.

Definition getNextRequest (clock : nat -> Z) (now : Z) (q : ProvisioningQueue)
  : option ptr * ProvisioningQueue :=
  if Z.of_nat (size (processing q)) >=? maxConcurrentOps q then (None, q)
  else
    match next_loop clock q 0 (queue q) with
    | None => (None, q)
    | Some (i, p) =>
        let q := set_queue (take i (queue q) ++ drop (S i) (queue q)) q in
        let q := set_processing
                   (match requests q !! p with
                    | Some r => <[ph_Name (pq_Host r) := p]> (processing q)
                    | None => processing q
                    end) q in
        (Some p, upd_request p (set_pq_StartedAt now) q)
    end.

(** [processClaim], [processProvision], [processDeprovision], [processRelease],
    which sleep and succeed. *)
Definition process_result (host : PhysicalHost) (retryable : bool) : ProvisioningResult :=
  {| pr_Success := true; pr_Error := None; pr_Host := Some host; pr_Duration := 0;
     pr_Retryable := retryable |}.
Definition processClaim (r : ProvisioningRequest) : ProvisioningResult := process_result (pq_Host r) false.
Definition processProvision (r : ProvisioningRequest) : ProvisioningResult := process_result (pq_Host r) true.
Definition processDeprovision (r : ProvisioningRequest) : ProvisioningResult := process_result (pq_Host r) true.
Definition processRelease (r : ProvisioningRequest) : ProvisioningResult := process_result (pq_Host r) false.

Definition set_pr_Duration (d : Z) (r : ProvisioningResult) : ProvisioningResult :=
  {| pr_Success := pr_Success r; pr_Error := pr_Error r; pr_Host := pr_Host r; pr_Duration := d;
     pr_Retryable := pr_Retryable r |}.

(** The switch of [processRequest] and the duration. *)
Definition operation_result (r : ProvisioningRequest) (duration : Z) : ProvisioningResult :=
  set_pr_Duration duration
    (if pq_Operation r ==s OperationClaim then processClaim r
     else if pq_Operation r ==s OperationProvision then processProvision r
     else if pq_Operation r ==s OperationDeprovision then processDeprovision r
     else if pq_Operation r ==s OperationRelease then processRelease r
     else {| pr_Success := false; pr_Error := Some (ErrNew ("unknown operation: " +:+ pq_Operation r));
             pr_Host := None; pr_Duration := 0; pr_Retryable := false |}).

(** The critical section of [processRequest]. *)
Definition finish_request (now : Z) (p : ptr) (q : ProvisioningQueue) : ProvisioningQueue :=
  match requests q !! p with
  | Some r =>
      let q := set_lastBMCOperation (<[bmc_address (pq_Host r) := now]> (lastBMCOperation q)) q in
      set_processing (delete (ph_Name (pq_Host r)) (processing q)) q
  | None => q
  end.

(** What the [select] that sends the result may do: send when the buffer of
    one has room, give up when the context is done, and, when neither is
    possible, take the default. *)
Inductive delivery := Sent | ContextDone | Blocked.

Definition may_deliver (r : ProvisioningRequest) (d : delivery) : bool :=
  let room := match pq_ResultCh r with Some [] => true | _ => false end in
  let ended := match pq_Context r with Some (Some _) => true | _ => false end in
  match d with
  | Sent => room
  | ContextDone => ended
  | Blocked => negb room && negb ended
  end.

(** The rest of [processRequest], after the critical section. *)
Definition complete_request (now : Z) (d : delivery) (result : ProvisioningResult) (p : ptr)
    (q : ProvisioningQueue) : exit ProvisioningQueue :=
  let q := upd_request p (set_pq_Completed now (pr_Error result)) q in
  let q := match d with Sent => upd_request p (set_pq_ResultCh [result]) q | _ => q end in
  call_cancel p q.

(** ** Waiting, cancelling, status *)

(** The outcomes of the [select] of [WaitForResult] (the receive takes the
    result out of the buffer). *)
Inductive wait_outcome : ProvisioningRequest -> Z ->
    exit (option ProvisioningResult * option error) -> ProvisioningRequest -> Prop :=
| wait_nil_context r t :
    pq_Context r = None -> wait_outcome r t (Panic nil_dereference) r
| wait_result r t c res rest :
    pq_Context r = Some c -> pq_ResultCh r = Some (res :: rest) ->
    wait_outcome r t (Done (Some res, None)) (set_pq_ResultCh rest r)
| wait_context r t e :
    pq_Context r = Some (Some e) -> wait_outcome r t (Done (None, Some e)) r
| wait_timeout r t c :
    pq_Context r = Some c ->
    wait_outcome r t (Done (None, Some (ErrNew ("timeout waiting for provisioning result after "
                                                +:+ Duration_String t)))) r.

Definition has_id (q : ProvisioningQueue) (requestID : string) (p : ptr) : bool :=
  match requests q !! p with Some r => pq_ID r ==s requestID | None => false end.

(** The first index of the queue whose request has the ID. *)
Fixpoint find_queued (q : ProvisioningQueue) (requestID : string) (i : nat) (l : list ptr) : option (nat * ptr) :=
  match l with
  | [] => None
  | p :: l' => if has_id q requestID p then Some (i, p) else find_queued q requestID (S i) l'
  end.

(** [order] is the order in which the range loop visits the processing map,
    which Go leaves open. *)
Definition CancelRequest (order : list ptr) (requestID : string) (q : ProvisioningQueue)
  : exit (bool * ProvisioningQueue) :=
  match find_queued q requestID 0 (queue q) with
  | Some (i, p) =>
      match call_cancel p q with
      | Done q => Done (true, set_queue (take i (queue q) ++ drop (S i) (queue q)) q)
      | Panic m => Panic m
      end
  | None =>
      match List.find (has_id q requestID) order with
      | Some p => match call_cancel p q with Done q => Done (true, q) | Panic m => Panic m end
      | None => Done (false, q)
      end
  end.

Definition GetRequestStatus (order : list ptr) (requestID : string) (q : ProvisioningQueue) : string * bool :=
  if existsb (has_id q requestID) (queue q) then ("queued", true)
  else if existsb (has_id q requestID) order then ("processing", true)
  else ("", false).

(** ** Starting and stopping

    [Start] calls [workerWg.Add(1)] for every worker and a worker that returns
    calls [workerWg.Done()]; [Stop] closes [stopCh], which panics when it is
    closed already, and then waits until the counter is zero. *)

Definition add_worker (q : ProvisioningQueue) : ProvisioningQueue := set_workerWg (workerWg q + 1) q.
Definition worker_done (q : ProvisioningQueue) : ProvisioningQueue := set_workerWg (workerWg q - 1) q.

Definition Stop_close (q : ProvisioningQueue) : exit ProvisioningQueue :=
  if stopCh q then Panic "close of closed channel" else Done (set_stopCh true q).
Definition Stop_waits (q : ProvisioningQueue) : bool := negb (workerWg q =? 0).

(** ** Clients and workers *)

(** The program point of a goroutine that uses the queue. *)
Inductive qthread :=
| TAcquiring (host : PhysicalHost)                    (* in the loop of AcquireBMCPermit *)
| THolding (host : PhysicalHost)                      (* it returned nil *)
| TIdle                                               (* a worker waiting for its ticker *)
| TRunning (p : ptr) (start : Z)                      (* in processRequest, before the lock *)
| TFinished (p : ptr) (result : ProvisioningResult)   (* after the lock *)
| TStopping                                           (* in Stop, waiting for the workers *)
| TCancelled                                          (* it cancelled the context of the workers *)
| TEnded.

Record qsystem := { qs_queue : ProvisioningQueue; qs_threads : list qthread; qs_now : Z }.
Abbreviation QS q ts t := {| qs_queue := q; qs_threads := ts; qs_now := t |}.

(** The steps of a worker.  In its [select] it returns when its context is done
    or [stopCh] is closed, and it may take a request whenever the ticker fires,
    also when another arm is ready; it does not look at either while it
    processes a request. *)
Inductive worker_step : qsystem -> qsystem -> Prop :=
| w_context q ts1 ts2 t :
    TCancelled ∈ ts1 ++ ts2 ->
    worker_step (QS q (ts1 ++ TIdle :: ts2) t) (QS (worker_done q) (ts1 ++ TEnded :: ts2) t)
| w_stop q ts1 ts2 t :
    stopCh q = true ->
    worker_step (QS q (ts1 ++ TIdle :: ts2) t) (QS (worker_done q) (ts1 ++ TEnded :: ts2) t)
| w_next q ts1 ts2 t clock now start p q' :
    (forall i, t <= clock i <= now) -> now <= start -> getNextRequest clock now q = (Some p, q') ->
    worker_step (QS q (ts1 ++ TIdle :: ts2) t) (QS q' (ts1 ++ TRunning p start :: ts2) start)
| w_finish q ts1 ts2 t p start r fin now :
    t <= fin <= now -> requests q !! p = Some r ->
    worker_step (QS q (ts1 ++ TRunning p start :: ts2) t)
          (QS (finish_request now p q)
              (ts1 ++ TFinished p (operation_result r (time_sub fin start)) :: ts2) now)
| w_complete q ts1 ts2 t p res now d r q' :
    t <= now -> requests q !! p = Some r -> may_deliver r d = true ->
    complete_request now d res p q = Done q' ->
    worker_step (QS q (ts1 ++ TFinished p res :: ts2) t) (QS q' (ts1 ++ TIdle :: ts2) now).

Section Steps.
  (** For which host names operations are requested, in which states. *)
  Context (may_request : qsystem -> string -> Prop).

Inductive qstep : qsystem -> qsystem -> Prop :=
| q_submit q ts t ctx now now' host machine op r q' :
    t <= now <= now' -> may_request (QS q ts t) (ph_Name host) ->
    SubmitRequest ctx now now' host machine op q = (r, q') ->
    qstep (QS q ts t) (QS q' ts now')
| q_acquire q ts t host :
    qstep (QS q ts t) (QS q (ts ++ [TAcquiring host]) t)
| q_granted q ts1 ts2 t host now q' :
    t <= now -> may_request (QS q (ts1 ++ TAcquiring host :: ts2) t) (ph_Name host) ->
    acquire_attempt now host q = Some q' ->
    qstep (QS q (ts1 ++ TAcquiring host :: ts2) t) (QS q' (ts1 ++ THolding host :: ts2) now)
| q_gave_up q ts1 ts2 t host :
    qstep (QS q (ts1 ++ TAcquiring host :: ts2) t) (QS q (ts1 ++ TEnded :: ts2) t)
| q_release q ts1 ts2 t host now :
    t <= now ->
    qstep (QS q (ts1 ++ THolding host :: ts2) t) (QS (ReleaseBMCPermit now host q) (ts1 ++ TEnded :: ts2) now)
| q_worker q ts t :
    qstep (QS q ts t) (QS (add_worker q) (ts ++ [TIdle]) t)
| q_work s s' :
    worker_step s s' -> qstep s s'
| q_cancel_workers q ts t :
    qstep (QS q ts t) (QS q (ts ++ [TCancelled]) t)
| q_stop q ts t q' :
    Stop_close q = Done q' -> qstep (QS q ts t) (QS q' (ts ++ [TStopping]) t)
| q_stop_returns q ts1 ts2 t :
    Stop_waits q = false -> qstep (QS q (ts1 ++ TStopping :: ts2) t) (QS q (ts1 ++ TEnded :: ts2) t)
| q_wait q ts t p r timeout out r' :
    requests q !! p = Some r -> wait_outcome r timeout out r' ->
    qstep (QS q ts t) (QS (upd_request p (fun _ => r') q) ts t)
| q_cancel q ts t order requestID b q' :
    order ≡ₚ (map_to_list (processing q)).*2 -> CancelRequest order requestID q = Done (b, q') ->
    qstep (QS q ts t) (QS q' ts t)
| q_context_ends q ts t p e :
    qstep (QS q ts t) (QS (upd_request p (end_context e) q) ts t)
| q_time q ts t now :
    t <= now -> qstep (QS q ts t) (QS q ts now).

Definition qreachable (maxConcurrent maxQueue : Z) (s : qsystem) : Prop :=
  exists t, rtc qstep (QS (NewProvisioningQueue maxConcurrent maxQueue) [] t) s.

End Steps.

(** The requests workers have taken and not yet completed. *)
Definition taken_by (t : qthread) : list ptr :=
  match t with TRunning p _ | TFinished p _ => [p] | _ => [] end.
Definition taken (ts : list qthread) : list ptr := ts ≫= taken_by.

(** ** Invariants *)

(** A submitted request that has not been completed. *)
Definition pending (r : ProvisioningRequest) : Prop :=
  pq_ResultCh r = Some [] /\ pq_CancelFunc r = Func /\ is_Some (pq_Context r).

(** A request that is not waiting for a worker: a permit, or a request that was
    completed or whose context has ended. *)
Definition settled_request (r : ProvisioningRequest) : Prop :=
  pq_ResultCh r = None \/ is_Some (pq_CompletedAt r) \/ exists e, pq_Context r = Some (Some e).

Record queue_ok (s : qsystem) : Prop := {
  qi_limit : Z.of_nat (size (processing (qs_queue s))) <= Z.max 0 (maxConcurrentOps (qs_queue s));
  qi_length : Z.of_nat (length (queue (qs_queue s))) <= Z.max 0 (maxQueueSize (qs_queue s));
  qi_nodup : NoDup (queue (qs_queue s) ++ taken (qs_threads s));
  qi_pending p : p ∈ queue (qs_queue s) ++ taken (qs_threads s) ->
    exists r, requests (qs_queue s) !! p = Some r /\ pending r;
  qi_accounted p r : requests (qs_queue s) !! p = Some r ->
    p ∈ queue (qs_queue s) ++ taken (qs_threads s) \/ settled_request r;
  qi_heap p r : requests (qs_queue s) !! p = Some r -> (p < next_ptr (qs_queue s))%nat;
  qi_processing n p : processing (qs_queue s) !! n = Some p -> is_Some (requests (qs_queue s) !! p);
  qi_last a t : lastBMCOperation (qs_queue s) !! a = Some t -> t <= qs_now s
}.

(** *** What each kind of change keeps *)

Section Changes.
  Context (q : ProvisioningQueue) (ts : list qthread) (t : Z) (Hq : queue_ok (QS q ts t)).

Lemma ok_time t' : t <= t' -> queue_ok (QS q ts t').
Proof.
  intros. pose proof (qi_last _ Hq) as Hl. destruct Hq; split; simpl in *; try done. intros a x ?%Hl. lia.
Qed.

Lemma ok_upd p f :
  (forall r, requests q !! p = Some r ->
     (p ∈ queue q ++ taken ts -> pending r -> pending (f r)) /\
     (settled_request r -> settled_request (f r))) ->
  queue_ok (QS (upd_request p f q) ts t).
Proof.
  intros Hf. destruct Hq as [?? Hn Hp Ha Hh Hpr ?]; split; simpl in *; try done.
  - intros p' Hin. destruct (Hp _ Hin) as (r & Hr & ?). destruct (decide (p' = p)) as [->|].
    + exists (f r). rewrite lookup_alter_eq, Hr. split; [done|]. by apply Hf.
    + exists r. by rewrite lookup_alter_ne.
  - intros p' r [(-> & r0 & Hr & ->)|[? ?]]%lookup_alter_Some; [|by apply Ha].
    destruct (Ha _ _ Hr); [by left|]. right. by apply Hf.
  - intros p' r [(-> & r0 & Hr & ->)|[? ?]]%lookup_alter_Some; eauto.
  - intros n p' Hn'. rewrite lookup_alter_is_Some. by eapply Hpr.
Qed.

Lemma ok_processing m :
  Z.of_nat (size m) <= Z.max 0 (maxConcurrentOps q) ->
  (forall n p, m !! n = Some p -> is_Some (requests q !! p)) ->
  queue_ok (QS (set_processing m q) ts t).
Proof. intros. destruct Hq; by split. Qed.

Lemma ok_last a now : t <= now -> queue_ok (QS (set_lastBMCOperation (<[a := now]> (lastBMCOperation q)) q) ts now).
Proof.
  intros. pose proof (qi_last _ Hq) as Hl. destruct Hq; split; simpl in *; try done.
  intros a' t' [[_ <-]|[_ ?%Hl]]%lookup_insert_Some; lia.
Qed.

Lemma ok_stopCh v : queue_ok (QS (set_stopCh v q) ts t).
Proof. destruct Hq; by split. Qed.
Lemma ok_workerWg v : queue_ok (QS (set_workerWg v q) ts t).
Proof. destruct Hq; by split. Qed.

(** Requests change hands between the queue and the workers. *)
Lemma ok_move l ts' :
  l ++ taken ts' ≡ₚ queue q ++ taken ts -> (length l <= length (queue q))%nat ->
  queue_ok (QS (set_queue l q) ts' t).
Proof.
  intros Hl ?. destruct Hq; split; simpl in *; try done; try setoid_rewrite Hl; try done. lia.
Qed.

(** A request leaves the queue or its worker. *)
Lemma ok_drop p l ts' :
  p :: l ++ taken ts' ≡ₚ queue q ++ taken ts -> (length l <= length (queue q))%nat ->
  (forall r, requests q !! p = Some r -> settled_request r) ->
  queue_ok (QS (set_queue l q) ts' t).
Proof.
  intros Hl ? Hs. destruct Hq as [? ? Hn Hp Ha ???]; split; simpl in *; try done.
  - lia.
  - rewrite <- Hl in Hn. by apply NoDup_cons in Hn as [].
  - intros p' Hp'. apply Hp. rewrite <- Hl. by right.
  - intros p' r Hr. destruct (Ha _ _ Hr) as [Hin|]; [|by right]. rewrite <- Hl in Hin.
    apply elem_of_cons in Hin as [->|]; [right; by apply Hs|by left].
Qed.

Lemma alloc_fresh : requests q !! next_ptr q = None.
Proof.
  destruct (requests q !! next_ptr q) eqn:E; [|done]. apply (qi_heap _ Hq) in E. simpl in E. lia.
Qed.

Lemma fresh_not_held : next_ptr q ∉ queue q ++ taken ts.
Proof. intros (r & Hr & _)%(qi_pending _ Hq). simpl in Hr. by rewrite alloc_fresh in Hr. Qed.

Lemma heap_alloc r p r' : <[next_ptr q := r]> (requests q) !! p = Some r' -> (p < S (next_ptr q))%nat.
Proof. intros [[<- _]|[_ H%(qi_heap _ Hq)]]%lookup_insert_Some; simpl in *; lia. Qed.

Lemma processing_alloc r n p :
  processing q !! n = Some p -> is_Some (<[next_ptr q := r]> (requests q) !! p).
Proof. intros H%(qi_processing _ Hq). apply lookup_insert_is_Some. destruct (decide (next_ptr q = p)); auto. Qed.

Lemma ok_alloc r : settled_request r -> queue_ok (QS (alloc r q).2 ts t).
Proof.
  intros Hr. pose proof heap_alloc. pose proof processing_alloc. pose proof fresh_not_held.
  destruct Hq as [? ? Hn Hp Ha ???]; split; simpl in *; eauto.
  - intros p Hin. destruct (Hp _ Hin) as (r' & ? & ?). exists r'.
    rewrite lookup_insert_ne; [done|]. intros <-. done.
  - intros p r' [[<- <-]|[_ ?]]%lookup_insert_Some; eauto.
Qed.

Lemma ok_enqueue r :
  pending r -> Z.of_nat (length (queue q)) < maxQueueSize q ->
  queue_ok (QS (set_queue (queue q ++ [next_ptr q]) (alloc r q).2) ts t).
Proof.
  intros Hr Hlen. pose proof heap_alloc. pose proof processing_alloc. pose proof fresh_not_held.
  assert (Hperm : (queue q ++ [next_ptr q]) ++ taken ts ≡ₚ next_ptr q :: (queue q ++ taken ts))
    by solve_Permutation.
  destruct Hq as [? ? Hn Hp Ha ???]; split; simpl in *; eauto.
  - rewrite length_app. simpl. lia.
  - rewrite Hperm. by apply NoDup_cons.
  - intros p. rewrite Hperm. intros [->|Hin]%elem_of_cons; [exists r; by rewrite lookup_insert_eq|].
    destruct (Hp _ Hin) as (r' & ? & ?). exists r'. rewrite lookup_insert_ne; [done|]. by intros <-.
  - intros p r'. rewrite Hperm. intros [[<- <-]|[_ ?]]%lookup_insert_Some; [by left; left|].
    destruct (Ha p r'); [done| |by right]. left. by right.
Qed.

End Changes.

(** *** The steps *)

Lemma taken_app ts1 t ts2 : taken (ts1 ++ t :: ts2) = taken ts1 ++ taken_by t ++ taken ts2.
Proof. unfold taken. by rewrite bind_app. Qed.

Lemma taken_swap ts1 t t' ts2 :
  taken_by t' = taken_by t -> taken (ts1 ++ t' :: ts2) = taken (ts1 ++ t :: ts2).
Proof. intros E. by rewrite !taken_app, E. Qed.

Lemma set_queue_id q : set_queue (queue q) q = q.
Proof. by destruct q. Qed.

(** A thread moves between points at which it holds the same requests. *)
Lemma ok_swap q ts1 t t' ts2 now :
  queue_ok (QS q (ts1 ++ t :: ts2) now) -> taken_by t' = taken_by t -> queue_ok (QS q (ts1 ++ t' :: ts2) now).
Proof. intros H E. rewrite <- (set_queue_id q). apply (ok_move _ _ _ H); [by rewrite (taken_swap _ t)|done]. Qed.

Lemma ok_spawn q ts t now : queue_ok (QS q ts now) -> taken_by t = [] -> queue_ok (QS q (ts ++ [t]) now).
Proof.
  intros H E. rewrite <- (set_queue_id q). apply (ok_move _ _ _ H); [|done].
  by rewrite taken_app, E, app_nil_r.
Qed.

Lemma keeps_end_context e r :
  (pending r -> pending (end_context e r)) /\ (settled_request r -> settled_request (end_context e r)).
Proof.
  unfold pending, settled_request. simpl. split.
  - intros (? & ? & c & ->). repeat split; try done. by destruct c.
  - intros [?|[?|[e' ->]]]; eauto.
Qed.

Lemma ok_end_context q ts t p e :
  queue_ok (QS q ts t) -> queue_ok (QS (upd_request p (end_context e) q) ts t).
Proof. intros. apply ok_upd; [done|]. intros r _. split; [intros _|]; apply keeps_end_context. Qed.

Lemma size_delete_le (m : gmap string ptr) n : (size (delete n m) <= size m)%nat.
Proof. apply map_subseteq_size, delete_subseteq. Qed.

Lemma size_insert_le (m : gmap string ptr) n p : (size (<[n := p]> m) <= S (size m))%nat.
Proof. destruct (m !! n) eqn:E; [rewrite map_size_insert_Some; [lia|by eexists]|rewrite map_size_insert_None; [lia|done]]. Qed.

Lemma ok_delete_processing q ts t n :
  queue_ok (QS q ts t) -> queue_ok (QS (set_processing (delete n (processing q)) q) ts t).
Proof.
  intros H. apply ok_processing; [done| |].
  - pose proof (qi_limit _ H). pose proof (size_delete_le (processing q) n). simpl in *. lia.
  - intros n' p [_ ?]%lookup_delete_Some. by eapply (qi_processing _ H).
Qed.

Lemma ok_insert_processing q ts t n p :
  queue_ok (QS q ts t) -> Z.of_nat (size (processing q)) < maxConcurrentOps q -> is_Some (requests q !! p) ->
  queue_ok (QS (set_processing (<[n := p]> (processing q)) q) ts t).
Proof.
  intros H Hs Hp. apply ok_processing; [done| |].
  - pose proof (size_insert_le (processing q) n p). lia.
  - intros n' p' [[_ <-]|[_ ?]]%lookup_insert_Some; [done|]. by eapply (qi_processing _ H).
Qed.

Lemma ok_submit q ts t ctx now now' host machine op r q' :
  queue_ok (QS q ts t) -> SubmitRequest ctx now now' host machine op q = (r, q') -> queue_ok (QS q' ts t).
Proof.
  unfold SubmitRequest. intros H E. destruct (_ >=? _) eqn:El; [by simplify_eq|].
  destruct (processing q !! ph_Name host); [by simplify_eq|]. injection E as _ <-.
  apply (ok_enqueue _ _ _ H); [|rewrite Z.geb_leb in El; reflect; lia].
  repeat split; eauto.
Qed.

Lemma ok_acquire q ts t now host q' :
  queue_ok (QS q ts t) -> acquire_attempt now host q = Some q' -> queue_ok (QS q' ts t).
Proof.
  unfold acquire_attempt. intros H E. destruct (processing q !! ph_Name host); [by simplify_eq|].
  destruct (Z.ltb_spec (Z.of_nat (size (processing q))) (maxConcurrentOps q)); [|done].
  set (b := match lastBMCOperation q !! _ with Some _ => _ | None => _ end) in E.
  destruct b; [|done]. injection E as <-.
  apply (ok_insert_processing (alloc (permit_request host) q).2).
  - apply ok_alloc; [done|]. by left.
  - done.
  - simpl. rewrite lookup_insert_eq. by eexists.
Qed.

Lemma next_loop_lookup clock q i l j p :
  next_loop clock q i l = Some (j, p) -> (i <= j)%nat /\ l !! (j - i)%nat = Some p.
Proof.
  revert i. induction l as [|p' l IH]; intros i; simpl; [done|].
  destruct (eligible q (clock i) p'); [intros [= -> ->]; by rewrite Nat.sub_diag|].
  intros [? Hl]%IH. split; [lia|]. replace (j - i)%nat with (S (j - S i)) by lia. done.
Qed.

Lemma find_queued_lookup q id i l j p :
  find_queued q id i l = Some (j, p) -> (i <= j)%nat /\ l !! (j - i)%nat = Some p.
Proof.
  revert i. induction l as [|p' l IH]; intros i; simpl; [done|].
  destruct (has_id q id p'); [intros [= -> ->]; by rewrite Nat.sub_diag|].
  intros [? Hl]%IH. split; [lia|]. replace (j - i)%nat with (S (j - S i)) by lia. done.
Qed.

(** [append(l[:i], l[i+1:]...)] *)
Lemma cut_perm {A} (l k : list A) i x :
  l !! i = Some x -> x :: (take i l ++ drop (S i) l) ++ k ≡ₚ l ++ k.
Proof. intros H. rewrite <- (take_drop_middle l i x H) at 3. solve_Permutation. Qed.

Lemma cut_length {A} (l : list A) i : (length (take i l ++ drop (S i) l) <= length l)%nat.
Proof. rewrite length_app, length_take, length_drop. lia. Qed.

Lemma ok_next q ts1 ts2 t clock now start p q' :
  queue_ok (QS q (ts1 ++ TIdle :: ts2) t) -> getNextRequest clock now q = (Some p, q') ->
  queue_ok (QS q' (ts1 ++ TRunning p start :: ts2) t).
Proof.
  unfold getNextRequest. intros H E. destruct (Z.geb_spec (Z.of_nat (size (processing q))) (maxConcurrentOps q)) as [|Hs]; [done|].
  destruct (next_loop clock q 0 (queue q)) as [[i p']|] eqn:El; [|done].
  injection E as <- <-. apply next_loop_lookup in El as [_ El]. rewrite Nat.sub_0_r in El.
  assert (Hp : p' ∈ queue q ++ taken (ts1 ++ TIdle :: ts2)).
  { apply elem_of_app. left. by eapply list_elem_of_lookup_2. }
  destruct (qi_pending _ H _ Hp) as (r & Hr & _). simpl in *. rewrite Hr.
  apply ok_upd; [|done].
  apply (ok_insert_processing (set_queue _ q)); [|simpl; lia|by exists r].
  apply (ok_move _ _ _ H); [|apply cut_length].
  rewrite <- (cut_perm _ _ _ _ El), !taken_app. simpl. solve_Permutation.
Qed.

Lemma ok_finish q ts1 ts2 t p start res now :
  t <= now -> queue_ok (QS q (ts1 ++ TRunning p start :: ts2) t) ->
  queue_ok (QS (finish_request now p q) (ts1 ++ TFinished p res :: ts2) now).
Proof.
  intros Ht H. apply (ok_swap _ _ (TRunning p start)); [|done]. unfold finish_request.
  destruct (requests q !! p); [|by eapply ok_time]. apply ok_delete_processing, (ok_last _ _ t); done.
Qed.

Lemma ok_complete q ts1 ts2 t p res now d r q' :
  t <= now -> queue_ok (QS q (ts1 ++ TFinished p res :: ts2) t) -> requests q !! p = Some r ->
  complete_request now d res p q = Done q' -> queue_ok (QS q' (ts1 ++ TIdle :: ts2) now).
Proof.
  intros Ht H Hr E. apply (ok_time _ _ t); [|done].
  assert (H1 : queue_ok (QS (upd_request p (set_pq_Completed now (pr_Error res)) q) (ts1 ++ TIdle :: ts2) t)).
  { rewrite <- (set_queue_id (upd_request _ _ _)). eapply ok_drop with (p := p).
    - eapply ok_upd; [exact H|]. intros r' _. split; [done|]. intros [?|[?|?]]; unfold settled_request; simpl; eauto.
    - simpl. rewrite !taken_app. simpl. solve_Permutation.
    - done.
    - simpl. intros r'. rewrite lookup_alter_eq, Hr. intros [= <-]. right. left. by eexists. }
  assert (Hn : p ∉ queue q ++ taken (ts1 ++ TIdle :: ts2)).
  { pose proof (qi_nodup _ H) as Hd. simpl in Hd. rewrite taken_app in *. simpl in *.
    assert (E' : queue q ++ taken ts1 ++ p :: taken ts2 ≡ₚ p :: (queue q ++ taken ts1 ++ taken ts2))
      by solve_Permutation.
    rewrite E' in Hd. by apply NoDup_cons in Hd as []. }
  unfold complete_request, call_cancel in E. cbv zeta in E.
  set (q2 := match d with Sent => _ | _ => _ end) in E.
  assert (H2 : queue_ok (QS q2 (ts1 ++ TIdle :: ts2) t)).
  { subst q2. destruct d; [|done..]. apply ok_upd; [done|]. intros r' E'. split; [done|]. intros _.
    simpl in E'. rewrite lookup_alter_eq, Hr in E'. injection E' as <-. right. left. by eexists. }
  destruct (requests q2 !! p) as [r2|]; [|done]. destruct (pq_CancelFunc r2); [done|].
  injection E as <-. by apply ok_end_context.
Qed.

Lemma ok_cancel q ts t order id b q' :
  queue_ok (QS q ts t) -> CancelRequest order id q = Done (b, q') -> queue_ok (QS q' ts t).
Proof.
  unfold CancelRequest, call_cancel. intros H E. destruct (find_queued q id 0 (queue q)) as [[i p]|] eqn:Ef.
  - apply find_queued_lookup in Ef as [_ Ef]. rewrite Nat.sub_0_r in Ef.
    assert (Hp : p ∈ queue q ++ taken ts) by (apply elem_of_app; left; by eapply list_elem_of_lookup_2).
    destruct (qi_pending _ H _ Hp) as (r & Hr & _ & Hf & c & Hc). simpl in Hr. rewrite Hr, Hf in E.
    injection E as _ <-. simpl. eapply ok_drop with (p := p); [by apply ok_end_context| |apply cut_length|].
    + by apply cut_perm.
    + simpl. rewrite lookup_alter_eq, Hr. intros r' [= <-]. right. right. simpl. rewrite Hc. destruct c; eauto.
  - destruct (List.find _ _) as [p|]; [|by simplify_eq]. destruct (requests q !! p) as [r|]; [|done].
    destruct (pq_CancelFunc r); [done|]. injection E as _ <-. by apply ok_end_context.
Qed.

Lemma ok_wait q ts t p r timeout out r' :
  queue_ok (QS q ts t) -> requests q !! p = Some r -> wait_outcome r timeout out r' ->
  queue_ok (QS (upd_request p (fun _ => r') q) ts t).
Proof.
  intros H Hr Hw. apply ok_upd; [done|]. intros r0 E. rewrite Hr in E. injection E as <-.
  destruct Hw as [|r ? ? ? ? ? Hc| |]; try done. split.
  - intros _ (Hp & _). congruence.
  - unfold settled_request. simpl. intros [?|?]; [congruence|by right].
Qed.

Lemma ok_release q ts1 ts2 t now host :
  t <= now -> queue_ok (QS q (ts1 ++ THolding host :: ts2) t) ->
  queue_ok (QS (ReleaseBMCPermit now host q) (ts1 ++ TEnded :: ts2) now).
Proof.
  intros Ht H. apply (ok_swap _ _ (THolding host)); [|done]. unfold ReleaseBMCPermit.
  eapply ok_last; [|done]. by apply ok_delete_processing.
Qed.

Section Reachable.
  Context {may_request : qsystem -> string -> Prop}.

Lemma worker_step_ok s s' : queue_ok s -> worker_step s s' -> queue_ok s'.
Proof.
  intros H Hs. destruct Hs.
  - apply ok_workerWg. by eapply ok_swap.
  - apply ok_workerWg. by eapply ok_swap.
  - apply (ok_time _ _ t); [|specialize (H0 0%nat); lia]. by eapply ok_next.
  - eapply ok_finish with (t := t); [lia|done].
  - by eapply ok_complete.
Qed.

Lemma qstep_ok s s' : queue_ok s -> qstep may_request s s' -> queue_ok s'.
Proof.
  intros H Hs. destruct Hs as [| | | | | |s s' Hw| |q ts t q' E| | | | |].
  - apply (ok_time _ _ t); [|lia]. by eapply ok_submit.
  - by apply ok_spawn.
  - apply (ok_time _ _ t); [|done]. eapply ok_acquire; [|done]. by eapply ok_swap.
  - by eapply ok_swap.
  - by apply ok_release with (t := t).
  - by apply ok_workerWg, ok_spawn.
  - by eapply worker_step_ok.
  - by apply ok_spawn.
  - unfold Stop_close in E. destruct (stopCh q); [done|]. injection E as <-. by apply ok_stopCh, ok_spawn.
  - by eapply ok_swap.
  - by eapply ok_wait.
  - by eapply ok_cancel.
  - by apply ok_end_context.
  - by eapply ok_time.
Qed.

Lemma new_ok c m t : queue_ok (QS (NewProvisioningQueue c m) [] t).
Proof.
  split; simpl.
  - rewrite map_size_empty. lia.
  - lia.
  - constructor.
  - by intros p ?%not_elem_of_nil.
  - intros p r. by rewrite lookup_empty.
  - intros p r. by rewrite lookup_empty.
  - intros n p. by rewrite lookup_empty.
  - intros a x. by rewrite lookup_empty.
Qed.

Lemma qreachable_ok c m s : qreachable may_request c m s -> queue_ok s.
Proof.
  intros [t Hs]. assert (H0 := new_ok c m t). induction Hs; [done|]. eauto using qstep_ok.
Qed.

(** The limits are set once. *)
Definition limits (q : ProvisioningQueue) : Z * Z := (maxConcurrentOps q, maxQueueSize q).

Lemma call_cancel_limits p q q' : call_cancel p q = Done q' -> limits q' = limits q.
Proof. unfold call_cancel. intros. repeat case_match; simplify_eq; done. Qed.

Lemma worker_step_limits s s' : worker_step s s' -> limits (qs_queue s') = limits (qs_queue s).
Proof.
  intros Hs. destruct Hs as [| |q ts1 ts2 t clock now start p q' _ _ E|q ts1 ts2 t p start r fin now|
    q ts1 ts2 t p res now d r q' _ _ _ E]; simpl; try done.
  - unfold getNextRequest in E. repeat split_hyp E; by simplify_eq.
  - unfold finish_request. by destruct (requests q !! p).
  - apply call_cancel_limits in E. by destruct d.
Qed.

Lemma qstep_limits s s' : qstep may_request s s' -> limits (qs_queue s') = limits (qs_queue s).
Proof.
  intros Hs. destruct Hs as [q ts t ctx now now' host machine op r q' _ _ E| |q ts1 ts2 t host now q' _ _ E| | | |
    s s' Hw| |q ts t q' E| | |q ts t order id b q' _ E| |]; simpl; try done.
  - unfold SubmitRequest, alloc in E. repeat split_hyp E; by simplify_eq.
  - unfold acquire_attempt, alloc in E. repeat split_hyp E; by simplify_eq.
  - by apply worker_step_limits.
  - unfold Stop_close in E. destruct (stopCh q); by simplify_eq.
  - unfold CancelRequest in E. repeat split_hyp E; simplify_eq; try done;
      by rewrite <- (call_cancel_limits _ _ _ ltac:(eassumption)).
Qed.

Lemma qreachable_limits c m s : qreachable may_request c m s -> limits (qs_queue s) = (c, m).
Proof.
  intros [t Hs]. revert s Hs. apply (rtc_ind_r (fun s => limits (qs_queue s) = (c, m))); [done|].
  intros s1 s2 _ Hst IH. by rewrite (qstep_limits _ _ Hst).
Qed.

End Reachable.

(** ** One operation per host

    The limit on concurrent operations counts the entries of the processing
    map, which has one per host name; so it limits the operations themselves
    when no host has two of them. *)

Definition host_name (q : ProvisioningQueue) (p : ptr) : string :=
  from_option (fun r => ph_Name (pq_Host r)) "" (requests q !! p).

Definition queue_names (q : ProvisioningQueue) : list string := host_name q <$> queue q.

(** The hosts on which operations run: granted permits and requests being
    processed. *)
Definition active_by (q : ProvisioningQueue) (t : qthread) : list string :=
  match t with
  | THolding host => [ph_Name host]
  | TRunning p _ => [host_name q p]
  | _ => []
  end.
Definition active (q : ProvisioningQueue) (ts : list qthread) : list string := ts ≫= active_by q.

(** No operation on the host is queued or running. *)
Definition free_host (s : qsystem) (name : string) : Prop :=
  name ∉ queue_names (qs_queue s) ++ active (qs_queue s) (qs_threads s).

Definition one_op (qn an : list string) (m : gmap string ptr) : Prop :=
  NoDup (qn ++ an) /\ forall n, is_Some (m !! n) <-> n ∈ an.

Lemma one_op_length qn an m : one_op qn an m -> length an = size m.
Proof.
  intros [Hn Hm]. apply NoDup_app in Hn as (_ & _ & Hn).
  rewrite <- (size_list_to_set (C := gset string)) by done. rewrite <- size_dom.
  f_equal. apply set_eq. intros n. by rewrite elem_of_list_to_set, elem_of_dom, Hm.
Qed.

Lemma one_op_submit qn an m n : one_op qn an m -> n ∉ qn ++ an -> one_op (qn ++ [n]) an m.
Proof.
  intros [Hn Hm] Hf. split; [|done].
  assert (E : (qn ++ [n]) ++ an ≡ₚ n :: (qn ++ an)) by solve_Permutation.
  rewrite E. by apply NoDup_cons.
Qed.

Lemma insert_active {m : gmap string ptr} {an1 an2 : list string} n p :
  (forall n', is_Some (m !! n') <-> n' ∈ an1 ++ an2) ->
  forall n', is_Some (<[n := p]> m !! n') <-> n' ∈ an1 ++ n :: an2.
Proof. intros Hm n'. rewrite lookup_insert_is_Some, Hm, !elem_of_app, elem_of_cons. destruct (decide (n = n')); naive_solver. Qed.

Lemma one_op_acquire qn an1 an2 m n p :
  one_op qn (an1 ++ an2) m -> n ∉ qn ++ an1 ++ an2 -> one_op qn (an1 ++ n :: an2) (<[n := p]> m).
Proof.
  intros [Hn Hm] Hf. split; [|by apply insert_active].
  assert (E : qn ++ an1 ++ n :: an2 ≡ₚ n :: (qn ++ an1 ++ an2)) by solve_Permutation.
  rewrite E. by apply NoDup_cons.
Qed.

Lemma one_op_next l1 l2 an1 an2 m n p :
  one_op (l1 ++ n :: l2) (an1 ++ an2) m -> one_op (l1 ++ l2) (an1 ++ n :: an2) (<[n := p]> m).
Proof.
  intros [Hn Hm]. split; [|by apply insert_active].
  assert (E : (l1 ++ l2) ++ an1 ++ n :: an2 ≡ₚ (l1 ++ n :: l2) ++ an1 ++ an2) by solve_Permutation.
  by rewrite E.
Qed.

Lemma one_op_end qn an1 an2 m n :
  one_op qn (an1 ++ n :: an2) m -> one_op qn (an1 ++ an2) (delete n m).
Proof.
  intros [Hn Hm].
  assert (E : qn ++ an1 ++ n :: an2 ≡ₚ n :: (qn ++ an1 ++ an2)) by solve_Permutation.
  rewrite E in Hn. apply NoDup_cons in Hn as [Hf Hn]. split; [done|].
  intros n'. rewrite lookup_delete_is_Some, Hm. rewrite !elem_of_app in *. rewrite elem_of_cons.
  destruct (decide (n = n')); naive_solver.
Qed.

Lemma one_op_cancel l1 l2 an m n : one_op (l1 ++ n :: l2) an m -> one_op (l1 ++ l2) an m.
Proof.
  intros [Hn Hm]. split; [|done].
  assert (E : (l1 ++ n :: l2) ++ an ≡ₚ n :: ((l1 ++ l2) ++ an)) by solve_Permutation.
  rewrite E in Hn. by apply NoDup_cons in Hn as [].
Qed.

(** *** The invariant *)

Definition one_ok (s : qsystem) : Prop :=
  one_op (queue_names (qs_queue s)) (active (qs_queue s) (qs_threads s)) (processing (qs_queue s)).

Lemma active_app q ts1 t ts2 : active q (ts1 ++ t :: ts2) = active q ts1 ++ active_by q t ++ active q ts2.
Proof. unfold active. by rewrite bind_app. Qed.

(** Names depend only on the hosts of the requests in hand. *)
Lemma active_ext q q' ts :
  (forall p, p ∈ taken ts -> host_name q' p = host_name q p) -> active q' ts = active q ts.
Proof.
  induction ts as [|t ts IH]; intros H; [done|].
  change (active_by q' t ++ active q' ts = active_by q t ++ active q ts).
  assert (Ht : forall p, p ∈ taken_by t -> host_name q' p = host_name q p)
    by (intros; apply H, elem_of_app; by left).
  f_equal; [|apply IH; intros; apply H, elem_of_app; by right].
  destruct t; try done. simpl. by rewrite Ht by by left.
Qed.

Lemma queue_names_ext q q' :
  (forall p, p ∈ queue q -> host_name q' p = host_name q p) -> host_name q' <$> queue q = queue_names q.
Proof. intros H. apply list_fmap_ext. intros i p Hp. apply H. by eapply list_elem_of_lookup_2. Qed.

Lemma host_name_upd q p f :
  (forall r, requests q !! p = Some r -> pq_Host (f r) = pq_Host r) ->
  forall p', host_name (upd_request p f q) p' = host_name q p'.
Proof.
  intros Hf p'. unfold host_name. simpl. destruct (decide (p' = p)) as [->|].
  - rewrite lookup_alter_eq. destruct (requests q !! p) eqn:E; [|done]. simpl. by rewrite Hf.
  - by rewrite lookup_alter_ne.
Qed.

Lemma host_name_alloc q ts t r p :
  queue_ok (QS q ts t) -> p ∈ queue q ++ taken ts -> host_name (alloc r q).2 p = host_name q p.
Proof.
  intros H Hp. unfold host_name. simpl. rewrite lookup_insert_ne; [done|].
  intros <-. by apply (fresh_not_held _ _ _ H) in Hp.
Qed.

Lemma host_name_lookup q p r : requests q !! p = Some r -> host_name q p = ph_Name (pq_Host r).
Proof. unfold host_name. by intros ->. Qed.

Lemma one_upd q ts t p f :
  (forall r, requests q !! p = Some r -> pq_Host (f r) = pq_Host r) ->
  one_ok (QS q ts t) -> one_ok (QS (upd_request p f q) ts t).
Proof.
  intros Hf H. unfold one_ok in *. simpl in *.
  rewrite (active_ext q) by (intros; by apply host_name_upd).
  unfold queue_names. simpl. rewrite (queue_names_ext q) by (intros; by apply host_name_upd). done.
Qed.

Lemma one_swap q ts1 x x' ts2 t t' :
  active_by q x' = active_by q x -> one_ok (QS q (ts1 ++ x :: ts2) t) -> one_ok (QS q (ts1 ++ x' :: ts2) t').
Proof. unfold one_ok. simpl. intros E. by rewrite !active_app, E. Qed.

Lemma one_submit q ts t ctx now now' host machine op r q' t' :
  queue_ok (QS q ts t) -> one_ok (QS q ts t) -> free_host (QS q ts t) (ph_Name host) ->
  SubmitRequest ctx now now' host machine op q = (r, q') -> one_ok (QS q' ts t').
Proof.
  unfold SubmitRequest. intros Hq H Hf E. destruct (_ >=? _); [by simplify_eq|].
  destruct (processing q !! ph_Name host); [by simplify_eq|]. injection E as _ <-.
  unfold one_ok, queue_names in *. simpl.
  rewrite (active_ext q) by (intros; by eapply (host_name_alloc q ts t), elem_of_app; eauto).
  rewrite fmap_app, fmap_cons. erewrite (host_name_lookup _ (next_ptr q)) by apply lookup_insert_eq. simpl.
  rewrite (queue_names_ext q) by (intros; by eapply (host_name_alloc q ts t), elem_of_app; eauto).
  by apply one_op_submit.
Qed.

Lemma one_acquire q ts1 ts2 t host now q' :
  queue_ok (QS q (ts1 ++ TAcquiring host :: ts2) t) -> one_ok (QS q (ts1 ++ TAcquiring host :: ts2) t) ->
  free_host (QS q (ts1 ++ TAcquiring host :: ts2) t) (ph_Name host) ->
  acquire_attempt now host q = Some q' -> one_ok (QS q' (ts1 ++ THolding host :: ts2) now).
Proof.
  unfold acquire_attempt. intros Hq H Hf E.
  assert (processing q !! ph_Name host = None) as Hn.
  { apply eq_None_not_Some. rewrite (proj2 H). intros ?. apply Hf, elem_of_app. by right. }
  rewrite Hn in E. destruct (_ <? _); [|done].
  set (b := match lastBMCOperation q !! _ with Some _ => _ | None => _ end) in E.
  destruct b; [|done]. injection E as <-. unfold one_ok, queue_names, free_host in *. simpl in *.
  rewrite active_app. simpl. rewrite active_app in H, Hf. simpl in *.
  assert (Ha : forall p, p ∈ queue q ++ taken ts1 ++ taken ts2 ->
    host_name (alloc (permit_request host) q).2 p = host_name q p).
  { intros p Hp. eapply host_name_alloc; [exact Hq|]. by rewrite taken_app. }
  rewrite (active_ext q _ ts1), (active_ext q _ ts2) by (intros; apply Ha; rewrite !elem_of_app; auto).
  rewrite (queue_names_ext q) by (intros; apply Ha; rewrite !elem_of_app; auto).
  by apply one_op_acquire.
Qed.

Lemma one_release q ts1 ts2 t now host :
  one_ok (QS q (ts1 ++ THolding host :: ts2) t) ->
  one_ok (QS (ReleaseBMCPermit now host q) (ts1 ++ TEnded :: ts2) now).
Proof. unfold one_ok. simpl. rewrite !active_app. simpl. apply one_op_end. Qed.

Lemma one_finish q ts1 ts2 t p start r res now :
  one_ok (QS q (ts1 ++ TRunning p start :: ts2) t) -> requests q !! p = Some r ->
  one_ok (QS (finish_request now p q) (ts1 ++ TFinished p res :: ts2) now).
Proof.
  unfold one_ok, finish_request. intros H Hr. rewrite Hr. simpl in *. rewrite active_app in *. simpl in *.
  rewrite (host_name_lookup _ _ _ Hr) in H. by apply one_op_end in H.
Qed.

Lemma one_next q ts1 ts2 t clock now start p q' :
  queue_ok (QS q (ts1 ++ TIdle :: ts2) t) -> one_ok (QS q (ts1 ++ TIdle :: ts2) t) ->
  getNextRequest clock now q = (Some p, q') -> one_ok (QS q' (ts1 ++ TRunning p start :: ts2) start).
Proof.
  unfold getNextRequest. intros Hq H E. destruct (_ >=? _); [done|].
  destruct (next_loop clock q 0 (queue q)) as [[i p']|] eqn:El; [|done].
  injection E as <- <-. apply next_loop_lookup in El as [_ El]. rewrite Nat.sub_0_r in El.
  assert (Hp : p' ∈ queue q ++ taken (ts1 ++ TIdle :: ts2))
    by (apply elem_of_app; left; by eapply list_elem_of_lookup_2).
  destruct (qi_pending _ Hq _ Hp) as (r & Hr & _). simpl in *. rewrite Hr.
  apply one_upd; [done|]. unfold one_ok, queue_names in *. simpl in *. rewrite active_app in *. simpl in *.
  rewrite (host_name_lookup _ _ r) by done.
  rewrite <- (take_drop_middle _ _ _ El) in H at 1. rewrite fmap_app, fmap_cons in H.
  rewrite (host_name_lookup _ _ _ Hr) in H. rewrite fmap_app.
  apply one_op_next with (p := p') in H. exact H.
Qed.

Lemma one_cancel q ts t order id b q' :
  one_ok (QS q ts t) -> CancelRequest order id q = Done (b, q') -> one_ok (QS q' ts t).
Proof.
  unfold CancelRequest, call_cancel. intros H E.
  destruct (find_queued q id 0 (queue q)) as [[i p]|] eqn:Ef.
  - destruct (requests q !! p) as [r|]; [|done]. destruct (pq_CancelFunc r); [done|]. injection E as _ <-.
    apply (one_upd _ _ t p (end_context Canceled)) in H; [|done].
    apply find_queued_lookup in Ef as [_ Ef]. rewrite Nat.sub_0_r in Ef.
    unfold one_ok, queue_names in *. simpl in *.
    rewrite <- (take_drop_middle _ _ _ Ef) in H at 1. rewrite fmap_app, fmap_cons in H.
    rewrite fmap_app. by apply one_op_cancel in H.
  - destruct (List.find _ _) as [p|]; [|by simplify_eq]. destruct (requests q !! p) as [r|]; [|done].
    destruct (pq_CancelFunc r); [done|]. injection E as _ <-. by eapply one_upd.
Qed.

Lemma worker_step_one s s' : queue_ok s -> one_ok s -> worker_step s s' -> one_ok s'.
Proof.
  intros Hq H Hs. destruct Hs as [| | | |q ts1 ts2 t p res now d r q' _ _ _ E].
  - by apply (one_swap _ _ TIdle TEnded _ t t) in H.
  - by apply (one_swap _ _ TIdle TEnded _ t t) in H.
  - by eapply one_next.
  - by eapply one_finish.
  - apply (one_swap _ _ _ TIdle _ _ now) in H; [|done].
    unfold complete_request, call_cancel in E. destruct d; repeat split_hyp E; simplify_eq;
      repeat (eapply one_upd; [done|]); exact H.
Qed.

Lemma one_spawn q ts w t : one_ok (QS q ts t) -> active_by q w = [] -> one_ok (QS q (ts ++ [w]) t).
Proof. intros H E. unfold one_ok in *. simpl. rewrite active_app. simpl. by rewrite E, !app_nil_r. Qed.

Lemma qstep_one s s' : queue_ok s -> one_ok s -> qstep free_host s s' -> one_ok s'.
Proof.
  intros Hq H Hs. destruct Hs as [| | |q ts1 ts2 t host| | |s s' Hw| |q ts t q' E|q ts1 ts2 t| q ts t p r timeout out r' Hr Ho| | |].
  - by eapply one_submit.
  - by apply one_spawn.
  - by eapply one_acquire.
  - by apply (one_swap _ _ (TAcquiring host) _ _ t).
  - by eapply one_release.
  - by apply (one_spawn (add_worker _)).
  - by eapply worker_step_one.
  - by apply one_spawn.
  - unfold Stop_close in E. destruct (stopCh q); [done|]. injection E as <-. by apply (one_spawn (set_stopCh true q)).
  - by apply (one_swap _ _ TStopping _ _ t).
  - eapply one_upd; [|done]. intros r0 E. rewrite Hr in E. injection E as <-. by destruct Ho.
  - by eapply one_cancel.
  - by eapply one_upd.
  - done.
Qed.

Lemma free_reachable_one c m s : qreachable free_host c m s -> one_ok s.
Proof.
  intros [t Hs]. revert s Hs. refine (rtc_ind_r one_ok _ _ _).
  - split; [constructor|]. simpl. intros n. rewrite lookup_empty.
    split; [intros [? [=]]|by intros ?%not_elem_of_nil].
  - intros s1 s2 Hs Hst IH. eapply qstep_one; [|done..]. apply (qreachable_ok (may_request := free_host) c m). by exists t.
Qed.

(** ** Properties *)

(** Any client may ask for any host. *)
Definition any_host (s : qsystem) (name : string) : Prop := True.

(** C11: whatever clients and workers do, the processing map never has more
    entries than the limit on concurrent operations, and the queue never holds
    more requests than its capacity. *)
Theorem queue_bounded c m s :
  qreachable any_host c m s ->
  Z.of_nat (size (processing (qs_queue s))) <= Z.max 0 c /\
  Z.of_nat (length (queue (qs_queue s))) <= Z.max 0 m.
Proof.
  intros H. pose proof (qreachable_limits _ _ _ H) as Hl. injection Hl as <- <-.
  apply qreachable_ok in H. split; apply H.
Qed.

(** C9: when no host is given a second operation while one of its operations is
    queued or running, no host has two running operations and the number of
    running operations (granted permits and requests being processed) never
    exceeds the limit. *)
Theorem operations_bounded c m s :
  qreachable free_host c m s ->
  NoDup (active (qs_queue s) (qs_threads s)) /\
  Z.of_nat (length (active (qs_queue s) (qs_threads s))) <= Z.max 0 c.
Proof.
  intros H. pose proof (qreachable_limits _ _ _ H) as Hl. injection Hl as <- _.
  pose proof (free_reachable_one _ _ _ H) as Ho. apply qreachable_ok in H.
  rewrite (one_op_length _ _ _ Ho). split; [|apply H].
  destruct Ho as [Hn _]. by apply NoDup_app in Hn as (_ & _ & ?).
Qed.

(** A worker that has finished a request can always send the result, which
    is never dropped for lack of room, and completing the request never panics. *)
Theorem result_delivered c m s p res :
  qreachable any_host c m s -> TFinished p res ∈ qs_threads s ->
  exists r, requests (qs_queue s) !! p = Some r /\
    may_deliver r Sent = true /\ may_deliver r Blocked = false /\
    forall now d, exists q', complete_request now d res p (qs_queue s) = Done q'.
Proof.
  intros H Hin. apply qreachable_ok in H.
  destruct (qi_pending _ H p) as (r & Hr & Hc & Hf & _).
  { apply elem_of_app. right. apply list_elem_of_bind. exists (TFinished p res). by split; [left|]. }
  exists r. unfold may_deliver. rewrite Hc. split; [done|]. split; [done|]. split; [done|].
  intros now d. unfold complete_request, call_cancel.
  destruct d; simpl; rewrite ?lookup_alter_eq, Hr; simpl; rewrite Hf; by eexists.
Qed.

(** C10: no submitted request is lost or handed to two workers: it is queued
    once, or held by one worker, or it has been completed, or its context has
    ended. *)
Theorem request_accounted c m s p r :
  qreachable any_host c m s -> requests (qs_queue s) !! p = Some r -> pq_ResultCh r <> None ->
  NoDup (queue (qs_queue s) ++ taken (qs_threads s)) /\
  (p ∈ queue (qs_queue s) \/ p ∈ taken (qs_threads s) \/ is_Some (pq_CompletedAt r) \/
   exists e, pq_Context r = Some (Some e)).
Proof.
  intros H Hr Hc. apply qreachable_ok in H. split; [apply H|].
  destruct (qi_accounted _ H _ _ Hr) as [[?|?]%elem_of_app|[?|[?|?]]]; auto. congruence.
Qed.

Lemma next_loop_spec clock q i l :
  match next_loop clock q i l with
  | Some (j, p) =>
      (i <= j)%nat /\ l !! (j - i)%nat = Some p /\ eligible q (clock j) p = true /\
      forall k p', (k < j - i)%nat -> l !! k = Some p' -> eligible q (clock (i + k)%nat) p' = false
  | None => forall k p', l !! k = Some p' -> eligible q (clock (i + k)%nat) p' = false
  end.
Proof.
  revert i. induction l as [|p l IH]; intros i; simpl; [done|].
  destruct (eligible q (clock i) p) eqn:Ep.
  { rewrite Nat.sub_diag. repeat split; [lia|done|]. intros. lia. }
  specialize (IH (S i)). destruct (next_loop clock q (S i) l) as [[j p']|].
  - destruct IH as (? & Hl & He & Hk). replace (j - i)%nat with (S (j - S i)) by lia.
    split; [lia|]. split; [done|]. split; [done|]. intros [|k] p0 ? E; simpl in E.
    + rewrite Nat.add_0_r. congruence.
    + replace (i + S k)%nat with (S i + k)%nat by lia. apply Hk; [lia|done].
  - intros [|k] p0 E; simpl in E; [rewrite Nat.add_0_r; congruence|].
    replace (i + S k)%nat with (S i + k)%nat by lia. by apply IH.
Qed.

(** The last operation on the BMC of the request, if there was one, is at least
    the cooldown period ago. *)
Definition cooled (q : ProvisioningQueue) (now : Z) (p : ptr) : Prop :=
  exists r, requests q !! p = Some r /\
    forall last, lastBMCOperation q !! rc_Address (pspec_RedfishConnection (ph_Spec (pq_Host r))) = Some last ->
      bmcCooldownPeriod q <= time_sub now last.

Lemma eligible_cooled q now p : eligible q now p = true <-> cooled q now p.
Proof.
  unfold eligible, cooled, bmc_address. destruct (requests q !! p) as [r|]; [|split; [done|by intros (? & ? & _)]].
  destruct (lastBMCOperation q !! _) as [last|] eqn:El; cycle 1.
  { split; [|done]. intros _. exists r. split; [done|]. rewrite El. by intros ? [=]. }
  rewrite negb_true_iff, Z.ltb_ge. split.
  - intros H. exists r. split; [done|]. rewrite El. by intros ? [= <-].
  - intros (r' & [= <-] & H). by apply H.
Qed.


(** When the host has no slot, a permit is granted exactly if a slot is free
    and the last operation on its BMC, if there was one, is at least the
    cooldown period ago. *)
Theorem acquire_granted now host q :
  processing q !! ph_Name host = None ->
  is_Some (acquire_attempt now host q) <->
  Z.of_nat (size (processing q)) < maxConcurrentOps q /\
  forall last, lastBMCOperation q !! bmc_address host = Some last -> bmcCooldownPeriod q <= time_sub now last.
Proof.
  intros Hn. unfold acquire_attempt. rewrite Hn.
  destruct (Z.ltb_spec (Z.of_nat (size (processing q))) (maxConcurrentOps q)) as [Hs|Hs].
  2: { split; [by intros []|lia]. }
  destruct (lastBMCOperation q !! bmc_address host) as [last|]; simpl.
  - rewrite Z.geb_leb. destruct (Z.leb_spec (bmcCooldownPeriod q) (time_sub now last)).
    + split; [|by eexists]. intros _. split; [done|]. by intros ? [= <-].
    + split; [by intros []|]. intros [_ Hl]. specialize (Hl _ eq_refl). lia.
  - split; [|by eexists]. done.
Qed.

(** A permit that was held and released at time [t] can be acquired again,
    by the same host, from one cooldown period later on and not before. *)
Theorem release_cools_down t now host q :
  is_Some (processing q !! ph_Name host) ->
  Z.of_nat (size (processing q)) <= maxConcurrentOps q -> int64_min <= now - t <= int64_max ->
  is_Some (acquire_attempt now host (ReleaseBMCPermit t host q)) <-> bmcCooldownPeriod q <= now - t.
Proof.
  intros [p Hp] Hs Ht. unfold acquire_attempt, ReleaseBMCPermit. simpl.
  rewrite lookup_delete_eq, lookup_insert_eq, map_size_delete_Some by by eexists.
  pose proof (map_size_ne_0_lookup_2 (processing q) (ph_Name host) (ltac:(by eexists))).
  rewrite (proj2 (Z.ltb_lt _ _)) by lia. rewrite Z.geb_leb, (time_sub_small _ _ Ht).
  destruct (Z.leb_spec (bmcCooldownPeriod q) (now - t)); split; try done; try (by eexists); try lia.
Qed.

(** ** Concrete runs *)

Definition submitted (host : PhysicalHost) (q : ProvisioningQueue) : ProvisioningQueue :=
  (SubmitRequest None 0 0 host None OperationProvision q).2.
Definition next_taken (q : ProvisioningQueue) : ProvisioningQueue := (getNextRequest (fun _ => 0) 0 q).2.

Section Runs.
  Context {may_request : qsystem -> string -> Prop} {c m : Z}.

Lemma run_new : qreachable may_request c m (QS (NewProvisioningQueue c m) [] 0).
Proof. by exists 0. Qed.

Lemma run_step s s' : qreachable may_request c m s -> qstep may_request s s' -> qreachable may_request c m s'.
Proof. intros [t H] Hs. exists t. by eapply rtc_r. Qed.

Lemma run_submit q ts host :
  qreachable may_request c m (QS q ts 0) -> may_request (QS q ts 0) (ph_Name host) ->
  qreachable may_request c m (QS (submitted host q) ts 0).
Proof. intros H Hr. eapply run_step; [done|]. by eapply q_submit; [|done|apply surjective_pairing]. Qed.

Lemma run_worker q ts :
  qreachable may_request c m (QS q ts 0) -> qreachable may_request c m (QS (add_worker q) (ts ++ [TIdle]) 0).
Proof. intros H. eapply run_step; [done|]. apply q_worker. Qed.

Lemma run_next q ts1 ts2 p :
  qreachable may_request c m (QS q (ts1 ++ TIdle :: ts2) 0) ->
  (getNextRequest (fun _ => 0) 0 q).1 = Some p ->
  qreachable may_request c m (QS (next_taken q) (ts1 ++ TRunning p 0 :: ts2) 0).
Proof.
  intros H E. eapply run_step; [done|]. eapply q_work, w_next with (clock := fun _ => 0) (now := 0); [done..|].
  by rewrite (surjective_pairing (getNextRequest _ _ _)), E.
Qed.

Lemma run_finish q ts1 ts2 p r :
  qreachable may_request c m (QS q (ts1 ++ TRunning p 0 :: ts2) 0) -> requests q !! p = Some r ->
  qreachable may_request c m (QS (finish_request 0 p q) (ts1 ++ TFinished p (operation_result r 0) :: ts2) 0).
Proof. intros H E. eapply run_step; [done|]. by apply q_work, (w_finish q ts1 ts2 0 p 0 r 0 0). Qed.

End Runs.

(** With two requests for one host the limit on concurrent operations does
    not hold: with a limit of two, three requests are processed at once, two of
    them on the same host. *)
Theorem duplicate_requests_exceed_limit :
  exists s, qreachable any_host 2 10 s /\
    active (qs_queue s) (qs_threads s) = ["h1"; "h1"; "h2"].
Proof.
  set (h1 := sample_host "h1" "bmc1" []). set (h2 := sample_host "h2" "bmc2" []).
  set (q := add_worker (add_worker (add_worker (submitted h2 (submitted h1 (submitted h1 (NewProvisioningQueue 2 10))))))).
  exists (QS (next_taken (next_taken (next_taken q))) [TRunning 0 0; TRunning 1 0; TRunning 2 0] 0).
  split; [|vm_compute; reflexivity].
  apply (run_next _ [TRunning 0 0; TRunning 1 0] [] 2); [|vm_compute; reflexivity].
  apply (run_next _ [TRunning 0 0] [TIdle] 1); [|vm_compute; reflexivity].
  apply (run_next _ [] [TIdle; TIdle] 0); [|vm_compute; reflexivity].
  apply (run_worker _ [TIdle; TIdle]), (run_worker _ [TIdle]), (run_worker _ []). do 3 (apply run_submit; [|done]). apply run_new.
Qed.

(** A request for a free host, taken by a worker. *)
Definition one_queued : ProvisioningQueue :=
  add_worker (submitted (sample_host "h1" "bmc1" []) (NewProvisioningQueue 2 10)).

Lemma one_request_runs may_request :
  may_request (QS (NewProvisioningQueue 2 10) [] 0) "h1" ->
  qreachable may_request 2 10 (QS (next_taken one_queued) [TRunning 0 0] 0).
Proof.
  intros. apply (run_next _ [] [] 0); [|vm_compute; reflexivity].
  apply (run_worker _ []), run_submit; [apply run_new|done].
Qed.

Definition q1 : ProvisioningQueue := next_taken one_queued.

Lemma queue_bounded_witness :
  Z.of_nat (size (processing q1)) <= Z.max 0 2 /\ Z.of_nat (length (queue q1)) <= Z.max 0 10.
Proof. apply (queue_bounded 2 10 (QS q1 [TRunning 0 0] 0)). by apply one_request_runs. Defined.

Lemma operations_bounded_witness :
  NoDup (active q1 [TRunning 0 0]) /\ Z.of_nat (length (active q1 [TRunning 0 0])) <= Z.max 0 2.
Proof.
  apply (operations_bounded 2 10 (QS q1 [TRunning 0 0] 0)). apply one_request_runs.
  vm_compute. by intros ?%not_elem_of_nil.
Defined.

Lemma result_delivered_witness :
  exists r res, requests (finish_request 0 0 q1) !! 0%nat = Some r /\
    may_deliver r Sent = true /\ may_deliver r Blocked = false /\
    forall now d, exists q', complete_request now d res 0 (finish_request 0 0 q1) = Done q'.
Proof.
  assert (exists r, requests q1 !! 0%nat = Some r) as [r Hr] by (vm_compute; by eexists).
  destruct (result_delivered 2 10 (QS (finish_request 0 0 q1) [TFinished 0 (operation_result r 0)] 0)
              0 (operation_result r 0)) as [r' H].
  - apply (run_finish _ [] []); [by apply one_request_runs|done].
  - by left.
  - exists r', (operation_result r 0). exact H.
Defined.

Lemma request_accounted_witness :
  exists r, requests q1 !! 0%nat = Some r /\
    NoDup (queue q1 ++ taken [TRunning 0 0]) /\
    (0%nat ∈ queue q1 \/ 0%nat ∈ taken [TRunning 0 0] \/ is_Some (pq_CompletedAt r) \/
     exists e, pq_Context r = Some (Some e)).
Proof.
  assert (exists r, requests q1 !! 0%nat = Some r /\ pq_ResultCh r = Some []) as (r & Hr & Hc)
    by (vm_compute; eexists; split; reflexivity).
  exists r. split; [done|].
  apply (request_accounted 2 10 (QS q1 [TRunning 0 0] 0)); [by apply one_request_runs|done|by rewrite Hc].
Defined.

Lemma acquire_granted_witness :
  is_Some (acquire_attempt 0 (sample_host "h1" "bmc1" []) (NewProvisioningQueue 2 10)).
Proof. apply acquire_granted; [reflexivity|]. split; [vm_compute; reflexivity|done]. Defined.

Lemma release_cools_down_witness :
  is_Some (acquire_attempt (10 * Second) (sample_host "h1" "bmc1" [])
             (ReleaseBMCPermit 0 (sample_host "h1" "bmc1" []) q1)).
Proof.
  apply release_cools_down; [vm_compute; by eexists|vm_compute; done|vm_compute; done|].
  vm_compute. discriminate.
Defined.
