(* ===== verification/QueueProgress.v ===== *)
(** * Progress of the provisioning queue (internal/coordination/provisioning_queue.go)

    What the steps of the system of Queue.v achieve: a queued request is
    overtaken only by those in front of it, and once [Stop] has closed the
    channel [stopCh] the workers end and [Stop] returns. *)

From S2P Require Import Prelude GoFmt Api Prog Queue.

(** ** Places in the queue *)

Lemma cut_lookup {A} (l : list A) i j :
  (i < length l)%nat -> (take i l ++ drop (S i) l) !! j = if decide (j < i)%nat then l !! j else l !! S j.
Proof.
  intros Hi. case_decide.
  - rewrite lookup_app_l by (rewrite length_take; lia). by rewrite lookup_take_lt.
  - rewrite lookup_app_r by (rewrite length_take; lia). rewrite length_take, lookup_drop. f_equal. lia.
Qed.

(** How a step changes the queue: not at all, by a new request at the end, or by
    taking one out. *)
Inductive queue_change (q : ProvisioningQueue) : ProvisioningQueue -> Prop :=
| change_none q' : queue q' = queue q -> (next_ptr q <= next_ptr q')%nat -> queue_change q q'
| change_new q' : queue q' = queue q ++ [next_ptr q] -> next_ptr q' = S (next_ptr q) -> queue_change q q'
| change_cut q' i : (i < length (queue q))%nat -> queue q' = take i (queue q) ++ drop (S i) (queue q) ->
    next_ptr q' = next_ptr q -> queue_change q q'.

Lemma call_cancel_change p q q' : call_cancel p q = Done q' -> queue q' = queue q /\ next_ptr q' = next_ptr q.
Proof. unfold call_cancel. intros. repeat case_match; by simplify_eq. Qed.

Lemma worker_step_change s s' : worker_step s s' -> queue_change (qs_queue s) (qs_queue s').
Proof.
  intros Hs. destruct Hs as [| |q ts1 ts2 t clock now start p q' _ _ E|q ts1 ts2 t p start r fin now|
    q ts1 ts2 t p res now d r q' _ _ _ E]; cbn [qs_queue]; try (by apply change_none).
  - unfold getNextRequest in E. destruct (_ >=? _); [done|]. destruct (next_loop _ _ _ _) as [[i p']|] eqn:El; [|done].
    injection E as <- <-. apply next_loop_lookup in El as [_ El%lookup_lt_Some]. eapply change_cut; [|done|done].
    by rewrite Nat.sub_0_r in El.
  - unfold finish_request. destruct (requests q !! p); by apply change_none.
  - apply call_cancel_change in E as [E1 E2]. apply change_none; [by rewrite E1; destruct d|]. rewrite E2. by destruct d.
Qed.

Lemma qstep_change may s s' : qstep may s s' -> queue_change (qs_queue s) (qs_queue s').
Proof.
  intros Hs. destruct Hs as [q ts t ctx now now' host machine op r q' _ _ E| |q ts1 ts2 t host now q' _ _ E| | | |
    s s' Hw| |q ts t q' E| | |q ts t order id b q' _ E| |]; cbn [qs_queue]; try (by apply change_none).
  - unfold SubmitRequest, alloc in E. repeat split_hyp E; simplify_eq; [by apply change_none|by apply change_none|by apply change_new].
  - unfold acquire_attempt, alloc in E. repeat split_hyp E; simplify_eq; apply change_none; cbn; try done; lia.
  - by apply worker_step_change.
  - unfold Stop_close in E. destruct (stopCh q); [done|]. injection E as <-. by apply change_none.
  - unfold CancelRequest in E. destruct (find_queued _ _ _ _) as [[i p]|] eqn:Ef.
    + apply find_queued_lookup in Ef as [_ Ef%lookup_lt_Some]. rewrite Nat.sub_0_r in Ef.
      destruct (call_cancel p q) as [q2|] eqn:Ec; [|done]. injection E as _ <-. apply call_cancel_change in Ec as [E1 E2].
      eapply (change_cut _ _ i); [done|cbn; by rewrite E1|done].
    + destruct (List.find _ _) as [p|]; [|simplify_eq; by apply change_none].
      destruct (call_cancel p q) as [q2|] eqn:Ec; [|done]. injection E as _ <-. apply call_cancel_change in Ec as [E1 E2].
      apply change_none; [done|lia].
Qed.

(** A request never moves back, and one that has left never returns. *)
Lemma change_place q q' p j :
  queue_change q q' -> (p < next_ptr q)%nat -> queue q' !! j = Some p ->
  (p < next_ptr q')%nat /\ exists k, queue q !! k = Some p /\ (j <= k)%nat.
Proof.
  intros [q1 Eq En|q1 Eq En|q1 i Hi Eq En] Hp; rewrite Eq, ?En.
  - intros Hj. split; [lia|]. by exists j.
  - intros Hj. split; [lia|]. apply lookup_app_Some in Hj as [Hj|[_ Hj]]; [by exists j|].
    apply list_lookup_singleton_Some in Hj as [_ <-]. lia.
  - rewrite cut_lookup by done. intros Hj. split; [done|]. case_decide; [by exists j|exists (S j); split; [done|lia]].
Qed.
Lemma change_next q q' : queue_change q q' -> (next_ptr q <= next_ptr q')%nat.
Proof. intros []; lia. Qed.

(** ** Waiting for a worker *)

(** A worker polls the queue while a slot is free. *)
Lemma poll_place clock now q r q' p j :
  Z.of_nat (size (processing q)) < maxConcurrentOps q ->
  (forall i, queue q !! i = Some p -> cooled q (clock i) p) ->
  getNextRequest clock now q = (r, q') -> queue q' !! j = Some p ->
  exists k, queue q !! k = Some p /\ (S j <= k)%nat.
Proof.
  intros Hs He0 E.
  assert (forall i, queue q !! i = Some p -> eligible q (clock i) p = true) as He by (intros i Hi; by apply eligible_cooled, He0).
  unfold getNextRequest in E.
  destruct (Z.geb_spec (Z.of_nat (size (processing q))) (maxConcurrentOps q)); [lia|].
  assert (forall l i, (forall k, l !! k = Some p -> eligible q (clock (i + k)%nat) p = true) ->
    match next_loop clock q i l with
    | Some (m, _) => (i <= m)%nat /\ forall k, l !! k = Some p -> (m <= i + k)%nat
    | None => forall k, l !! k <> Some p
    end) as Hloop.
  { induction l as [|p' l IH]; intros i Hl; cbn; [done|]. destruct (eligible q (clock i) p') eqn:Ep.
    - split; [done|]. intros; lia.
    - assert (p' <> p) as Hne.
      { intros ->. specialize (Hl 0%nat eq_refl). rewrite Nat.add_0_r in Hl. congruence. }
      specialize (IH (S i)). destruct (next_loop clock q (S i) l) as [[m ?]|].
      + destruct IH as [? IH]; [intros k Hk; rewrite Nat.add_succ_comm; by apply (Hl (S k))|]. split; [lia|].
        intros [|k] Hk; [naive_solver|]. specialize (IH _ Hk). lia.
      + intros [|k]; [naive_solver|]. apply IH. intros k' Hk'. rewrite Nat.add_succ_comm. by apply (Hl (S k')). }
  specialize (Hloop (queue q) 0%nat He). destruct (next_loop _ _ _ _) as [[i p']|] eqn:El.
  - injection E as <- <-. cbn. destruct Hloop as [_ Hi]. apply next_loop_lookup in El as [_ El]. rewrite Nat.sub_0_r in El.
    rewrite cut_lookup by by eapply lookup_lt_Some. case_decide as Hj; intros Hp.
    + exfalso. apply Hi in Hp. lia.
    + exists (S j). split; [done|lia].
  - injection E as <- <-. intros Hp. by apply Hloop in Hp.
Qed.

Section Progress.
  Context {may_request : qsystem -> string -> Prop}.

(** The state after an idle worker has called [getNextRequest]. *)
Definition polled (ts1 ts2 : list qthread) (start : Z) (r : option ptr) (q' : ProvisioningQueue) : qsystem :=
  QS q' (ts1 ++ match r with Some p => TRunning p start | None => TIdle end :: ts2) start.

(** A run of the system in which a worker has had [n] chances to take the
    request [p]: it polled while a slot was free and, if the request was queued,
    its BMC was not cooling down. *)
Inductive chances (p : ptr) : nat -> qsystem -> qsystem -> Prop :=
| chances_none s : chances p 0 s s
| chances_step n s1 s2 s3 : chances p n s1 s2 -> qstep may_request s2 s3 -> chances p n s1 s3
| chances_poll n s1 q ts1 ts2 t clock now start r q' :
    chances p n s1 (QS q (ts1 ++ TIdle :: ts2) t) ->
    (forall i, t <= clock i <= now) -> now <= start ->
    Z.of_nat (size (processing q)) < maxConcurrentOps q ->
    (forall i, queue q !! i = Some p -> cooled q (clock i) p) ->
    getNextRequest clock now q = (r, q') ->
    chances p (S n) s1 (polled ts1 ts2 start r q').

Lemma poll_ok q ts1 ts2 t clock now start r q' :
  queue_ok (QS q (ts1 ++ TIdle :: ts2) t) -> (forall i, t <= clock i <= now) -> now <= start ->
  getNextRequest clock now q = (r, q') -> queue_ok (polled ts1 ts2 start r q') /\ (next_ptr q <= next_ptr q')%nat.
Proof.
  intros H Hc Hs E. specialize (Hc 0%nat). unfold polled. destruct r as [p|].
  - split; [apply (ok_time _ _ t); [by eapply ok_next|lia]|].
    unfold getNextRequest in E. repeat split_hyp E; by simplify_eq.
  - assert (q' = q) as -> by (unfold getNextRequest in E; repeat split_hyp E; by simplify_eq). split; [|done]. apply (ok_time _ _ t); [done|lia].
Qed.

Lemma chances_place p n s s' :
  chances p n s s' -> queue_ok s -> (p < next_ptr (qs_queue s))%nat ->
  queue_ok s' /\ (p < next_ptr (qs_queue s'))%nat /\
  forall j, queue (qs_queue s') !! j = Some p -> exists i, queue (qs_queue s) !! i = Some p /\ (j + n <= i)%nat.
Proof.
  induction 1 as [s|n s1 s2 s3 _ IH Hs|n s1 q ts1 ts2 t clock now start r q' _ IH Hc Hst Hsz He E]; intros Hok Hp.
  - split_and!; [done..|]. intros j Hj. exists j. split; [done|lia].
  - destruct (IH Hok Hp) as (H2 & Hp2 & Hj2). pose proof (qstep_change _ _ _ Hs) as Hch. split_and!.
    + by eapply qstep_ok.
    + pose proof (change_next _ _ Hch). lia.
    + intros j Hj. destruct (change_place _ _ _ _ Hch Hp2 Hj) as (_ & k & Hk & ?).
      destruct (Hj2 k Hk) as (i & Hi & ?). exists i. split; [done|lia].
  - destruct (IH Hok Hp) as (H2 & Hp2 & Hj2). cbn in *.
    destruct (poll_ok _ _ _ _ _ _ start _ _ H2 Hc Hst E) as [H3 Hn]. split_and!; [done|cbn; lia|].
    intros j Hj. destruct (poll_place _ _ _ _ _ _ _ Hsz He E Hj) as (k & Hk & ?).
    destruct (Hj2 k Hk) as (i & Hi & ?). exists i. split; [done|lia].
Qed.

(** C12: no request starves.  A request with [i] others in front of it has left the
    queue, for a worker or because it was cancelled, after at most [i + 1] polls
    that found a free slot and its BMC not cooling down, whatever else clients,
    permit holders and workers do in between. *)
Theorem no_starvation maxConcurrent maxQueue s s' p i n :
  qreachable may_request maxConcurrent maxQueue s -> chances p n s s' ->
  queue (qs_queue s) !! i = Some p -> (i < n)%nat -> p ∉ queue (qs_queue s').
Proof.
  intros Hr%qreachable_ok Hc Hi Hn [j Hj]%list_elem_of_lookup_1.
  assert (p ∈ queue (qs_queue s) ++ taken (qs_threads s)) as Hin.
  { apply elem_of_app. left. by eapply list_elem_of_lookup_2. }
  destruct (qi_pending _ Hr _ Hin) as (r & Hp%(qi_heap _ Hr) & _).
  destruct (chances_place _ _ _ _ Hc Hr Hp) as (_ & _ & Hplace). destruct (Hplace j Hj) as (i' & Hi' & Hle).
  pose proof (qi_nodup _ Hr) as Hnd. apply NoDup_app in Hnd as [Hnd _].
  assert (i' = i) as -> by by eapply NoDup_lookup. lia.
Qed.

End Progress.

Lemma no_starvation_witness :
  0%nat ∉ queue (qs_queue (polled [] [] 0 (Some 0%nat) (next_taken one_queued))).
Proof.
  eapply (no_starvation (may_request := any_host) 2 10 (QS one_queued [TIdle] 0) _ 0 0 1).
  - apply (run_worker _ []), run_submit; [apply run_new|done].
  - eapply (chances_poll 0 0 _ one_queued [] [] 0 (fun _ => 0) 0 0 (Some 0%nat)).
    + apply chances_none.
    + intros i. lia.
    + lia.
    + vm_compute. reflexivity.
    + intros i Hi. destruct i; vm_compute in Hi; [|done]. apply eligible_cooled. vm_compute. reflexivity.
    + vm_compute. reflexivity.
  - vm_compute. reflexivity.
  - lia.
Defined.

(** ** Starting and stopping the workers *)

(** [Start]: the workers begin with their tickers. *)
Definition Start (numWorkers : nat) (s : qsystem) : qsystem :=
  QS (Nat.iter numWorkers add_worker (qs_queue s)) (qs_threads s ++ replicate numWorkers TIdle) (qs_now s).

Lemma Start_steps may_request numWorkers s : rtc (qstep may_request) s (Start numWorkers s).
Proof.
  unfold Start. destruct s as [q ts t]. cbn. revert q ts. induction numWorkers as [|n IH]; intros q ts; cbn.
  - by rewrite app_nil_r.
  - eapply rtc_l; [apply q_worker|]. specialize (IH (add_worker q) (ts ++ [TIdle])).
    rewrite <- app_assoc in IH. by rewrite <- Nat.iter_succ_r in IH.
Qed.

(** A goroutine that [Stop] waits for. *)
Definition is_worker (t : qthread) : bool := match t with TIdle | TRunning _ _ | TFinished _ _ => true | _ => false end.
Definition workers (s : qsystem) : nat := length (List.filter is_worker (qs_threads s)).

(** The steps of a worker until it returns, when it takes no further request. *)
Definition work_left (t : qthread) : nat :=
  match t with TIdle => 1 | TFinished _ _ => 2 | TRunning _ _ => 3 | _ => 0 end.
(** The steps the workers can take: a request that is still queued costs at most
    three more. *)
Definition steps_left (s : qsystem) : nat :=
  3 * length (queue (qs_queue s)) + sum_list_with work_left (qs_threads s).

Lemma work_app l l' : sum_list_with work_left (l ++ l') = (sum_list_with work_left l + sum_list_with work_left l')%nat.
Proof. induction l; cbn; lia. Qed.

Lemma workers_app l l' q t : workers (QS q (l ++ l') t) = (workers (QS q l t) + workers (QS q l' t))%nat.
Proof. unfold workers. cbn. by rewrite List.filter_app, length_app. Qed.

Lemma workers_at l w l' q t :
  workers (QS q (l ++ w :: l') t) = (workers (QS q l t) + (if is_worker w then 1 else 0) + workers (QS q l' t))%nat.
Proof. rewrite workers_app. unfold workers at 2. cbn. destruct (is_worker w); cbn; unfold workers; cbn; lia. Qed.

(** What no step but those of [Start], [Stop] and a worker that returns touches. *)
Definition stop_state (q : ProvisioningQueue) : bool * Z := (stopCh q, workerWg q).

Lemma call_cancel_stop p q q' : call_cancel p q = Done q' -> stop_state q' = stop_state q.
Proof. unfold call_cancel. intros. repeat case_match; by simplify_eq. Qed.

Lemma cut_shorter {A} (l : list A) i : (i < length l)%nat -> S (length (take i l ++ drop (S i) l)) = length l.
Proof. intros. rewrite length_app, length_take, length_drop. lia. Qed.

(** The counter of [workerWg] is the number of workers. *)
Definition counted (s : qsystem) : Prop := workerWg (qs_queue s) = Z.of_nat (workers s).

Lemma getNext_effect clock now q p q' :
  getNextRequest clock now q = (Some p, q') ->
  stop_state q' = stop_state q /\ S (length (queue q')) = length (queue q).
Proof.
  unfold getNextRequest. destruct (_ >=? _); [done|]. destruct (next_loop _ _ _ _) as [[i p']|] eqn:El; [|done].
  intros [= <- <-]. split; [done|]. apply next_loop_lookup in El as [_ El%lookup_lt_Some].
  apply cut_shorter. by rewrite Nat.sub_0_r in El.
Qed.

Lemma complete_effect now d res p q q' :
  complete_request now d res p q = Done q' -> stop_state q' = stop_state q /\ queue q' = queue q.
Proof.
  unfold complete_request. intros E. pose proof (call_cancel_stop _ _ _ E). apply call_cancel_change in E as [E _].
  rewrite E. by destruct d.
Qed.

Lemma finish_effect now p q : stop_state (finish_request now p q) = stop_state q /\ queue (finish_request now p q) = queue q.
Proof. unfold finish_request. by destruct (requests q !! p). Qed.

Lemma worker_step_effect s s' :
  worker_step s s' ->
  stopCh (qs_queue s') = stopCh (qs_queue s) /\ (counted s -> counted s') /\ (steps_left s' < steps_left s)%nat.
Proof.
  intros Hs. unfold counted, steps_left.
  destruct Hs as [q ts1 ts2 t|q ts1 ts2 t|q ts1 ts2 t clock now start p q' _ _ E|q ts1 ts2 t p start r fin now|
    q ts1 ts2 t p res now d r q' _ _ _ E]; rewrite !workers_at; cbn [qs_queue qs_threads];
    rewrite !work_app; unfold workers; cbn -[Nat.mul Z.of_nat].
  - split_and!; [done|lia|lia].
  - split_and!; [done|lia|lia].
  - apply getNext_effect in E as [[= -> ->] E]. split_and!; [done|lia|lia].
  - destruct (finish_effect now p q) as [[= -> ->] ->]. split_and!; [done|lia|lia].
  - apply complete_effect in E as [[= -> ->] ->]. split_and!; [done|lia|lia].
Qed.

Lemma submit_effect ctx now now' host machine op q r q' :
  SubmitRequest ctx now now' host machine op q = (r, q') ->
  stop_state q' = stop_state q /\ (length (queue q') <= S (length (queue q)))%nat.
Proof.
  unfold SubmitRequest, alloc. intros E. repeat split_hyp E; simplify_eq; cbn; rewrite ?length_app; cbn; split; (done || lia).
Qed.
Lemma acquire_effect now host q q' :
  acquire_attempt now host q = Some q' -> stop_state q' = stop_state q /\ queue q' = queue q.
Proof. unfold acquire_attempt, alloc. intros E. repeat split_hyp E; by simplify_eq. Qed.
Lemma cancel_effect order id q b q' :
  CancelRequest order id q = Done (b, q') -> stop_state q' = stop_state q /\ (length (queue q') <= length (queue q))%nat.
Proof.
  unfold CancelRequest. destruct (find_queued _ _ _ _) as [[i p]|] eqn:Ef.
  - apply find_queued_lookup in Ef as [_ Ef%lookup_lt_Some]. rewrite Nat.sub_0_r in Ef.
    destruct (call_cancel p q) as [q2|] eqn:Ec; [|done]. intros [= _ <-].
    pose proof (call_cancel_stop _ _ _ Ec) as Hs. apply call_cancel_change in Ec as [E _]. split; [exact Hs|].
    cbn. rewrite <- E in Ef |- *. pose proof (cut_shorter _ _ Ef). lia.
  - destruct (List.find _ _) as [p|]; [|by intros [= _ <-]].
    destruct (call_cancel p q) as [q2|] eqn:Ec; [|done]. intros [= _ <-].
    split; [by eapply call_cancel_stop|]. by apply call_cancel_change in Ec as [-> _].
Qed.

(** A closed [stopCh] stays closed, the counter stays right, and only a new
    request or a new worker is new work. *)
Lemma qstep_effect may s s' :
  qstep may s s' ->
  (stopCh (qs_queue s) = true -> stopCh (qs_queue s') = true) /\ (counted s -> counted s') /\
  (steps_left s' <= steps_left s + 3)%nat /\
  ((length (queue (qs_queue s')) <= length (queue (qs_queue s)))%nat -> (workers s' <= workers s)%nat ->
   (steps_left s' <= steps_left s)%nat).
Proof.
  intros Hs. unfold counted, steps_left. destruct Hs as [q ts t ctx now now' host machine op r q' _ _ E|q ts t host|
    q ts1 ts2 t host now q' _ _ E|q ts1 ts2 t host|q ts1 ts2 t host now|q ts t|s s' Hw|q ts t|q ts t q' E|q ts1 ts2 t|
    q ts t p r timeout out r' _ _|q ts t order id b q' _ E|q ts t p e|q ts t now].
  7: { apply worker_step_effect in Hw as (-> & ? & ?). unfold counted, steps_left in *. split_and!; [done|done|lia|lia]. }
  all: rewrite ?workers_at, ?workers_app; cbn [qs_queue qs_threads]; rewrite ?work_app; unfold workers; cbn -[Nat.mul Z.of_nat].
  all: try (split_and!; [done|lia|lia|lia]).
  - apply submit_effect in E as [[= -> ->] E]. split_and!; [done|lia|lia|lia].
  - apply acquire_effect in E as [[= -> ->] ->]. split_and!; [done|lia|lia|lia].
  - unfold Stop_close in E. destruct (stopCh q); [done|]. injection E as <-. cbn -[Nat.mul Z.of_nat]. split_and!; [done|lia|lia|lia].
  - apply cancel_effect in E as [[= -> ->] E]. split_and!; [done|lia|lia|lia].
Qed.

Lemma qreachable_counted may c m s : qreachable may c m s -> counted s.
Proof.
  intros [t Hs]. revert s Hs. refine (rtc_ind_r counted _ _ _); [done|].
  intros s1 s2 _ Hst IH. by apply (qstep_effect _ _ _ Hst).
Qed.

(** Runs of the system: [n] counts the steps of workers, [m] those with which a
    request is submitted or a worker started. *)
Inductive stop_run : nat -> nat -> qsystem -> qsystem -> Prop :=
| stop_here s : stop_run 0 0 s s
| stop_work n m s1 s2 s3 : stop_run n m s1 s2 -> worker_step s2 s3 -> stop_run (S n) m s1 s3
| stop_new n m s1 s2 s3 : stop_run n m s1 s2 -> qstep any_host s2 s3 -> stop_run n (S m) s1 s3
| stop_other n m s1 s2 s3 :
    stop_run n m s1 s2 -> qstep any_host s2 s3 ->
    (length (queue (qs_queue s3)) <= length (queue (qs_queue s2)))%nat -> (workers s3 <= workers s2)%nat ->
    stop_run n m s1 s3.

Lemma stop_run_effect n m s s' :
  stop_run n m s s' -> queue_ok s -> counted s -> stopCh (qs_queue s) = true ->
  queue_ok s' /\ counted s' /\ stopCh (qs_queue s') = true /\ (n + steps_left s' <= steps_left s + 3 * m)%nat.
Proof.
  intros Hr. induction Hr as [s|n m s1 s2 s3 _ IH Hw|n m s1 s2 s3 _ IH Hq|n m s1 s2 s3 _ IH Hq Hl Hk]; intros H1 H2 H3.
  - split_and!; [done..|lia].
  - destruct (IH H1 H2 H3) as (? & ? & ? & ?). destruct (worker_step_effect _ _ Hw) as (Es & Hc & ?).
    split_and!; [by eapply worker_step_ok|by apply Hc|congruence|lia].
  - destruct (IH H1 H2 H3) as (? & ? & ? & ?). destruct (qstep_effect _ _ _ Hq) as (Es & Hc & ? & _).
    split_and!; [by eapply qstep_ok|by apply Hc|by apply Es|lia].
  - destruct (IH H1 H2 H3) as (? & ? & ? & ?). destruct (qstep_effect _ _ _ Hq) as (Es & Hc & _ & Hle).
    specialize (Hle Hl Hk). split_and!; [by eapply qstep_ok|by apply Hc|by apply Es|lia].
Qed.

(** Once [stopCh] is closed no worker is stuck: each has a step that brings it
    closer to its return, takes no request and needs no time to pass. *)
Lemma worker_advances q ts1 w ts2 t :
  queue_ok (QS q (ts1 ++ w :: ts2) t) -> stopCh q = true -> is_worker w = true ->
  exists q' w', worker_step (QS q (ts1 ++ w :: ts2) t) (QS q' (ts1 ++ w' :: ts2) t) /\
    (work_left w' < work_left w)%nat /\ queue q' = queue q.
Proof.
  intros H Hs Hw.
  assert (forall p, p ∈ taken_by w -> exists r, requests q !! p = Some r /\ pending r) as Hp.
  { intros p Hin. apply (qi_pending _ H p). apply elem_of_app. right. apply list_elem_of_bind.
    exists w. split; [done|]. apply elem_of_app. right. by left. }
  destruct w as [| | |p start|p res| | |]; try done.
  - exists (worker_done q), TEnded. split_and!; [by apply w_stop|cbn; lia|done].
  - destruct (Hp p ltac:(by left)) as (r & Hr & _).
    exists (finish_request t p q), (TFinished p (operation_result r (time_sub t start))).
    split_and!; [by apply (w_finish q ts1 ts2 t p start r t t); [lia|]|cbn; lia|by apply finish_effect].
  - destruct (Hp p ltac:(by left)) as (r & Hr & Hc & Hf & _).
    destruct (complete_request t Sent res p q) as [q'|] eqn:E; cycle 1.
    { unfold complete_request, call_cancel in E. cbn in E. by rewrite !lookup_alter_eq, Hr in E; cbn in E; rewrite Hf in E. }
    exists q', TIdle. split_and!; [|cbn; lia|by apply complete_effect in E as [_ ->]].
    eapply (w_complete q ts1 ts2 t p res t Sent r q'); try done. cbn. by rewrite Hc.
Qed.


(** A worker in the middle of a request when [Stop] is called. *)
Definition stopping : qsystem := QS (set_stopCh true q1) [TRunning 0 0; TStopping] 0.

