(* ===== verification/Webhook.v ===== *)
(** * api/v1beta1/webhooks/beskar7cluster_webhook.go

    The defaulting and validating webhook of Beskar7Cluster.  The theorems give
    the grammar of the host names it accepts and what holds of every cluster
    that has passed it. *)

From S2P Require Import Prelude GoText GoNet Api Prog.
From Stdlib Require Import Ascii.

(** ** Field errors *)

Inductive bad_value := NoValue | StringValue (s : string) | IntValue (z : Z).
Inductive error_type := ErrorTypeRequired | ErrorTypeInvalid.

Record field_error := {
  fe_Type : error_type; fe_Field : string; fe_BadValue : bad_value; fe_Detail : string
}.
Abbreviation ErrorList := (list field_error).

(** [field.Required] and [field.Invalid] *)
Definition Required (path detail : string) : field_error :=
  {| fe_Type := ErrorTypeRequired; fe_Field := path; fe_BadValue := NoValue; fe_Detail := detail |}.
Definition Invalid (path : string) (v : bad_value) (detail : string) : field_error :=
  {| fe_Type := ErrorTypeInvalid; fe_Field := path; fe_BadValue := v; fe_Detail := detail |}.

(** What [apierrors.NewInvalid] is given: the object's name and the errors. *)
Record invalid := { inv_Name : string; inv_Errors : ErrorList }.

(** ** Hosts and ports *)

Definition dot : ascii := ascii_of_nat 46.

(** The condition in the loop of [isValidHostnameLabel], which refuses the rune
    [r] at index [i] of a label of length [n]. *)
Definition refused_rune (n : nat) (ir : nat * Z) : bool :=
  let '(i, r) := ir in
  ((r <? 97) || (122 <? r)) && ((r <? 65) || (90 <? r)) && ((r <? 48) || (57 <? r)) &&
  (negb (r =? 45) || (i =? 0)%nat || (i =? n - 1)%nat).

Definition isValidHostnameLabel (label : string) : bool :=
  if (label ==s "") || (63 <? len label)%nat then false
  else forallb (fun ir => negb (refused_rune (len label) ir)) (go_range label).

Definition isValidHostname (hostname : string) : bool :=
  if (hostname ==s "") || (253 <? len hostname)%nat then false
  else if Contains hostname ".." then false
  else forallb isValidHostnameLabel (Split hostname dot).

Definition validateHost (host fieldPath : string) : ErrorList :=
  match ParseIP host with
  | Some _ => []
  | None =>
      if negb (isValidHostname host)
      then [Invalid fieldPath (StringValue host) "must be a valid IP address or hostname"]
      else []
  end.

Definition validatePort (port : Z) (fieldPath : string) : ErrorList :=
  if (port <? 1) || (port >? 65535)
  then [Invalid fieldPath (IntValue port) "port must be between 1 and 65535"]
  else [].

Definition validateControlPlaneEndpoint (endpoint : APIEndpoint) : ErrorList :=
  let path := "spec.controlPlaneEndpoint" in
  let allErrs :=
    if ep_Host endpoint ==s "" then
      [Required (path +:+ ".host") "host is required when controlPlaneEndpoint is specified"]
    else validateHost (ep_Host endpoint) (path +:+ ".host") in
  if negb (ep_Port endpoint =? 0) then allErrs ++ validatePort (ep_Port endpoint) (path +:+ ".port")
  else allErrs ++ [Required (path +:+ ".port") "port is required when controlPlaneEndpoint is specified"].

(** ** The webhook *)

(** The object a webhook is called with. *)
Inductive runtime_Object := RCluster (c : Beskar7Cluster) | ROther.

Definition bad_assertion := "interface conversion: runtime.Object is not *v1beta1.Beskar7Cluster".

(** [obj.( *Beskar7Cluster)] *)
Definition as_cluster (obj : runtime_Object) : exit Beskar7Cluster :=
  match obj with RCluster c => Done c | ROther => Panic bad_assertion end.

(** The warnings are always nil; [None] is the nil error. *)
Definition validateBeskar7Cluster (cluster : Beskar7Cluster) : option invalid :=
  let ep := cs_ControlPlaneEndpoint (bc_Spec cluster) in
  let allErrs :=
    if negb (ep_Host ep ==s "") || negb (ep_Port ep =? 0)
    then let errs := validateControlPlaneEndpoint ep in
         if (0 <? length errs)%nat then [] ++ errs else []
    else [] in
  if (0 <? length allErrs)%nat
  then Some {| inv_Name := om_Name (bc_Meta cluster); inv_Errors := allErrs |}
  else None.

Definition ValidateCreate (obj : runtime_Object) : exit (option invalid) :=
  match as_cluster obj with
  | Done cluster => Done (validateBeskar7Cluster cluster)
  | Panic m => Panic m
  end.

Definition ValidateUpdate (oldObj newObj : runtime_Object) : exit (option invalid) :=
  match as_cluster newObj with
  | Done newCluster => Done (validateBeskar7Cluster newCluster)
  | Panic m => Panic m
  end.

Definition ValidateDelete (obj : runtime_Object) : exit (option invalid) := Done None.

Definition defaultBeskar7Cluster (cluster : Beskar7Cluster) : Beskar7Cluster :=
  let ep := cs_ControlPlaneEndpoint (bc_Spec cluster) in
  if negb (ep_Host ep ==s "") && (ep_Port ep =? 0)
  then set_bc_Spec (set_cs_ControlPlaneEndpoint {| ep_Host := ep_Host ep; ep_Port := 6443 |} (bc_Spec cluster))
         cluster
  else cluster.

Definition Default (obj : runtime_Object) : exit runtime_Object :=
  match as_cluster obj with
  | Done cluster => Done (RCluster (defaultBeskar7Cluster cluster))
  | Panic m => Panic m
  end.

(** ** The grammar of host names *)

Definition alphanumeric (b : Z) : Prop := 97 <= b <= 122 \/ 65 <= b <= 90 \/ 48 <= b <= 57.

(** One to 63 letters, digits and hyphens, the first and the last not a hyphen. *)
Definition hostname_label (label : string) : Prop :=
  (1 <= len label <= 63)%nat /\
  forall i b, bytes label !! i = Some b ->
    alphanumeric b \/ (b = 45 /\ i <> 0%nat /\ i <> (len label - 1)%nat).

(** At most 253 bytes: labels separated by single dots. *)
Definition hostname_grammar (hostname : string) : Prop :=
  (1 <= len hostname <= 253)%nat /\
  exists labels, labels <> [] /\ Forall hostname_label labels /\ hostname = Join labels ".".

Lemma refused_rune_spec n i r :
  refused_rune n (i, r) = false <-> alphanumeric r \/ (r = 45 /\ i <> 0%nat /\ i <> (n - 1)%nat).
Proof.
  unfold refused_rune, alphanumeric. rewrite !andb_false_iff, !orb_false_iff, negb_false_iff.
  rewrite !Z.ltb_ge, Z.eqb_eq, !Nat.eqb_neq. lia.
Qed.

Lemma isValidHostnameLabel_spec label : isValidHostnameLabel label = true <-> hostname_label label.
Proof.
  unfold isValidHostnameLabel, hostname_label.
  assert (Hl : (label ==s "") || (63 <? len label)%nat = false <-> (1 <= len label <= 63)%nat).
  { rewrite orb_false_iff, eqb_false, Nat.ltb_ge. destruct label; simpl; [naive_solver lia|]. split; [lia|].
    intros. split; [done|lia]. }
  destruct ((label ==s "") || (63 <? len label)%nat).
  { split; [done|]. intros [?%Hl _]. done. }
  unfold go_range. rewrite forallb_range_ascii; [|intros j r Hr|apply bytes_is_byte].
  - split.
    + intros H. split; [by apply Hl|]. intros i b Hb. destruct (H i b Hb) as [_ H2].
      rewrite Nat.add_0_l in H2. by apply negb_true_iff, refused_rune_spec in H2.
    + intros [_ H] i b Hb. specialize (H i b Hb). rewrite Nat.add_0_l. split.
      * unfold alphanumeric in H. lia.
      * by apply negb_true_iff, refused_rune_spec.
  - apply negb_false_iff. destruct (refused_rune (len label) (j, r)) eqn:E; [done|].
    apply refused_rune_spec in E. unfold alphanumeric in E. lia.
Qed.

(** *** Splitting at dots *)

Lemma split_aux_last sep acc x : byte sep ∉ bytes x -> split_aux sep acc x = [acc +:+ x].
Proof.
  revert acc. induction x as [|c x IH]; intros acc Hx; simpl; [by rewrite str_app_nil_r|].
  apply not_elem_of_cons in Hx as [Hc Hx].
  destruct (Ascii.eqb_spec c sep) as [->|]; [done|]. rewrite IH by done. by rewrite str_app_assoc.
Qed.

Lemma split_aux_cons sep acc x t :
  byte sep ∉ bytes x -> split_aux sep acc (x +:+ String sep t) = (acc +:+ x) :: split_aux sep "" t.
Proof.
  revert acc. induction x as [|c x IH]; intros acc Hx; simpl.
  - rewrite Ascii.eqb_refl. by rewrite str_app_nil_r.
  - apply not_elem_of_cons in Hx as [Hc Hx].
    destruct (Ascii.eqb_spec c sep) as [->|]; [done|].
    change (split_aux sep (acc +:+ String c "") (x +:+ String sep t) = (acc +:+ String c x) :: split_aux sep "" t).
    rewrite IH by done. by rewrite str_app_assoc.
Qed.

Lemma Split_of_Join sep l :
  l <> [] -> Forall (fun x => byte sep ∉ bytes x) l -> Split (Join l (String sep "")) sep = l.
Proof.
  unfold Split. induction l as [|x l IH]; intros Hn Hl; [done|]. apply Forall_cons in Hl as [Hx Hl].
  destruct l as [|y l]; [by apply split_aux_last|].
  change (split_aux sep "" (x +:+ String sep (Join (y :: l) (String sep ""))) = x :: y :: l).
  rewrite split_aux_cons by done. by rewrite IH.
Qed.

Lemma prefix_dots c s : String.prefix ".." (String c s) = true -> c = dot /\ exists t, s = String dot t.
Proof.
  cbn [String.prefix]. intros H. destruct (ascii_dec _ c) as [<-|]; [|done]. destruct s as [|d s]; [done|].
  cbn [String.prefix] in H. destruct (ascii_dec _ d) as [<-|]; [|done]. eauto.
Qed.

Lemma Contains_dots_empty s acc : Contains s ".." = true -> "" ∈ split_aux dot acc s.
Proof.
  revert acc. induction s as [|c s IH]; intros acc H; [done|].
  cbn [Contains] in H. apply orb_true_iff in H as [[-> [t ->]]%prefix_dots|H].
  - cbn. right. left.
  - cbn [split_aux]. destruct (Ascii.eqb c dot); [right|]; auto.
Qed.

Lemma hostname_label_no_dot label : hostname_label label -> byte dot ∉ bytes label.
Proof.
  intros [_ H] [i Hi]%list_elem_of_lookup. specialize (H _ _ Hi). unfold alphanumeric in H.
  change (byte dot) with 46 in H. lia.
Qed.

(** C37: the webhook accepts as a host name exactly the names of the usual
    grammar: at most 253 bytes, labels of one to 63 letters, digits and hyphens
    that neither begin nor end with a hyphen, separated by single dots. *)
Theorem isValidHostname_grammar hostname :
  isValidHostname hostname = true <-> hostname_grammar hostname.
Proof.
  unfold isValidHostname, hostname_grammar.
  assert (Hl : (hostname ==s "") || (253 <? len hostname)%nat = false <-> (1 <= len hostname <= 253)%nat).
  { rewrite orb_false_iff, eqb_false, Nat.ltb_ge. destruct hostname; simpl; [naive_solver lia|].
    split; [lia|]. intros. split; [done|lia]. }
  destruct ((hostname ==s "") || (253 <? len hostname)%nat); [by split; [|intros [?%Hl _]]|]. split.
  - intros H. destruct (Contains hostname ".."); [done|]. split; [by apply Hl|].
    exists (Split hostname dot). split; [apply split_aux_nonempty|]. split.
    + apply Forall_forall. intros label Hin. apply isValidHostnameLabel_spec.
      rewrite forallb_forall in H. apply H. by apply list_elem_of_In.
    + symmetry. apply Split_Join.
  - intros (_ & labels & Hne & Hv & ->).
    assert (Hs : Split (Join labels ".") dot = labels).
    { apply Split_of_Join; [done|]. eapply Forall_impl; [done|]. apply hostname_label_no_dot. }
    destruct (Contains (Join labels ".") "..") eqn:Ec.
    + apply (Contains_dots_empty _ "") in Ec. unfold Split in Hs. rewrite Hs in Ec.
      rewrite Forall_forall in Hv. destruct (Hv _ Ec) as [? _]. simpl in *. lia.
    + rewrite Hs. apply forallb_forall. intros label Hin%list_elem_of_In.
      apply isValidHostnameLabel_spec. rewrite Forall_forall in Hv. by apply Hv.
Qed.

(** ** What admission guarantees *)

Lemma validatePort_nil port path : validatePort port path = [] <-> 1 <= port <= 65535.
Proof.
  unfold validatePort. rewrite Z.gtb_ltb. destruct (Z.ltb_spec port 1), (Z.ltb_spec 65535 port); simpl; split;
    intros; try done; lia.
Qed.

(** An IP address or a host name. *)
Definition admissible_host (host : string) : Prop := is_Some (ParseIP host) \/ hostname_grammar host.

Lemma validateHost_nil host path : validateHost host path = [] <-> admissible_host host.
Proof.
  unfold validateHost, admissible_host. rewrite <- isValidHostname_grammar.
  destruct (ParseIP host); [split; [by eauto|done]|].
  destruct (isValidHostname host); simpl; split; try done; [by right|by intros [[]|]].
Qed.

(** An endpoint that is left out, or has a host and a port in range. *)
Definition endpoint_ok (ep : APIEndpoint) : Prop :=
  (ep_Host ep = "" /\ ep_Port ep = 0) \/
  (ep_Host ep <> "" /\ admissible_host (ep_Host ep) /\ 1 <= ep_Port ep <= 65535).

Lemma validate_cluster_spec cluster :
  validateBeskar7Cluster cluster = None <-> endpoint_ok (cs_ControlPlaneEndpoint (bc_Spec cluster)).
Proof.
  unfold validateBeskar7Cluster, endpoint_ok, validateControlPlaneEndpoint.
  destruct (cs_ControlPlaneEndpoint (bc_Spec cluster)) as [host port]. cbn [ep_Host ep_Port].
  rewrite <- (validateHost_nil host "spec.controlPlaneEndpoint.host"),
    <- (validatePort_nil port "spec.controlPlaneEndpoint.port").
  destruct (String.eqb_spec host "") as [->|Hh], (Z.eqb_spec port 0) as [->|Hp]; cbn -[validateHost validatePort].
  - split; [by left|done].
  - split; [done|]. intros [[_ ?]|[? _]]; done.
  - destruct (validateHost host _); cbn; (split; [done|intros [[? _]|(_ & _ & [=])]; done]).
  - destruct (validateHost host _) as [|e l]; [|cbn; split; [done|intros [[? _]|(_ & [=] & _)]; done]].
    destruct (validatePort port _) as [|e l]; cbn; [split; [by right|done]|].
    split; [done|intros [[? _]|(_ & _ & [=])]; done].
Qed.

(** C36: creation and update of a cluster are admitted exactly when its control
    plane endpoint is left out altogether, or has an IP address or host name and
    a port between 1 and 65535; an object of another type panics. *)
Theorem validate_spec obj old :
  ValidateCreate obj = ValidateUpdate old obj /\
  (ValidateCreate obj = Done None <->
   exists cluster, obj = RCluster cluster /\ endpoint_ok (cs_ControlPlaneEndpoint (bc_Spec cluster))).
Proof.
  split; [done|]. destruct obj as [c|]; unfold ValidateCreate; cbn [as_cluster]; [|by split; [|intros (? & [=] & _)]].
  split.
  - intros [= H]. exists c. by rewrite <- validate_cluster_spec.
  - intros (c' & [= <-] & H). by rewrite (proj2 (validate_cluster_spec c) H).
Qed.

(** Defaulting completes an endpoint that has a host and no port, with port
    6443, so that validation then depends on the host alone; it leaves every
    other cluster as it is, and doing it twice changes nothing more. *)
Theorem default_completes cluster :
  let ep := cs_ControlPlaneEndpoint (bc_Spec cluster) in
  let c := defaultBeskar7Cluster cluster in
  defaultBeskar7Cluster c = c /\
  (ep_Host ep = "" \/ ep_Port ep <> 0 -> c = cluster) /\
  (ep_Host ep <> "" -> ep_Port ep = 0 ->
   cs_ControlPlaneEndpoint (bc_Spec c) = {| ep_Host := ep_Host ep; ep_Port := 6443 |} /\
   (validateBeskar7Cluster c = None <-> admissible_host (ep_Host ep))).
Proof.
  destruct cluster as [ty meta [[h p]] st]. cbv zeta.
  rewrite validate_cluster_spec. unfold defaultBeskar7Cluster, endpoint_ok. cbn.
  destruct (String.eqb_spec h "") as [->|Eh], (Z.eqb_spec p 0) as [->|Ep]; cbn;
    rewrite ?(proj2 (String.eqb_neq _ _) Eh), ?(proj2 (Z.eqb_neq _ _) Ep); cbn; try naive_solver.
  split; [done|]. split; [naive_solver|]. intros _ _. split; [done|]. split.
  - intros [[? _]|(_ & ? & _)]; done.
  - intros. right. split; [done|]. split; [done|lia].
Qed.
