(* ===== verification/Rbac.v ===== *)
(** * internal/security/rbac_validator.go

    The validation of cluster roles and the permissions it recommends, and the
    RBAC markers of the controllers, from which the manager's role is
    generated. *)

From S2P Require Import Prelude GoText GoFmt Api Lib Prog Actions.

(** Severities (monitor.go). *)
Definition SeverityCritical := "CRITICAL".
Definition SeverityHigh := "HIGH".
Definition SeverityMedium := "MEDIUM".
Definition SeverityLow := "LOW".

(** The fields of [rbacv1.PolicyRule] and of the two kinds of roles that are
    read. *)
Record PolicyRule := { pr_APIGroups : list string; pr_Resources : list string; pr_Verbs : list string }.
Record ClusterRole := { cr_Name : string; cr_Rules : list PolicyRule }.

Record OverlyBroadRule := {
  ob_RuleName : string; ob_APIGroups : list string; ob_Resources : list string; ob_Verbs : list string;
  ob_Reason : string; ob_Severity : string; ob_Suggestions : list string
}.
Record SecurityFinding := {
  sf_Type : string; sf_Severity : string; sf_Description : string; sf_Resource : string; sf_Rule : string;
  sf_Remediation : string
}.
Record RBACValidationResult := {
  rr_Valid : bool;
  rr_Warnings : list string;
  rr_Errors : list string;
  rr_OverlyBroadRules : list OverlyBroadRule;
  rr_SecurityFindings : list SecurityFinding
}.

Definition empty_rbac_result : RBACValidationResult :=
  {| rr_Valid := false; rr_Warnings := []; rr_Errors := []; rr_OverlyBroadRules := [];
     rr_SecurityFindings := [] |}.

Definition add_rbac_warning (w : string) (r : RBACValidationResult) : RBACValidationResult :=
  {| rr_Valid := rr_Valid r; rr_Warnings := rr_Warnings r ++ [w]; rr_Errors := rr_Errors r;
     rr_OverlyBroadRules := rr_OverlyBroadRules r; rr_SecurityFindings := rr_SecurityFindings r |}.
Definition add_broad (b : OverlyBroadRule) (r : RBACValidationResult) : RBACValidationResult :=
  {| rr_Valid := rr_Valid r; rr_Warnings := rr_Warnings r; rr_Errors := rr_Errors r;
     rr_OverlyBroadRules := rr_OverlyBroadRules r ++ [b]; rr_SecurityFindings := rr_SecurityFindings r |}.
Definition add_finding (f : SecurityFinding) (r : RBACValidationResult) : RBACValidationResult :=
  {| rr_Valid := rr_Valid r; rr_Warnings := rr_Warnings r; rr_Errors := rr_Errors r;
     rr_OverlyBroadRules := rr_OverlyBroadRules r; rr_SecurityFindings := rr_SecurityFindings r ++ [f] |}.
Definition set_rr_Valid (v : bool) (r : RBACValidationResult) : RBACValidationResult :=
  {| rr_Valid := v; rr_Warnings := rr_Warnings r; rr_Errors := rr_Errors r;
     rr_OverlyBroadRules := rr_OverlyBroadRules r; rr_SecurityFindings := rr_SecurityFindings r |}.

(** [if c { ... append ... }] *)
Definition when_add {A} (add : A -> RBACValidationResult -> RBACValidationResult) (c : bool) (x : A)
    (r : RBACValidationResult) : RBACValidationResult :=
  if c then add x r else r.

(** ** Helpers *)

Fixpoint containsString (slice : list string) (str : string) : bool :=
  match slice with
  | [] => false
  | item :: rest => if item ==s str then true else containsString rest str
  end.
Definition containsWildcard (slice : list string) : bool := containsString slice "*".
Definition containsAPIGroup (slice : list string) (g : string) : bool := containsString slice g.
Definition containsResource (slice : list string) (r : string) : bool := containsString slice r.
Definition containsVerb (slice : list string) (v : string) : bool := containsString slice v.

Definition isClusterAdminEquivalent (rule : PolicyRule) : bool :=
  containsWildcard (pr_APIGroups rule) && containsWildcard (pr_Resources rule)
  && containsWildcard (pr_Verbs rule).

Definition rule_name (i : nat) : string := "Rule " +:+ pretty i.

(** ** validateRule *)

Definition broad_rule (ruleName : string) (rule : PolicyRule) : OverlyBroadRule :=
  {| ob_RuleName := ruleName; ob_APIGroups := pr_APIGroups rule; ob_Resources := pr_Resources rule;
     ob_Verbs := pr_Verbs rule;
     ob_Reason := "Grants wildcard permissions (*) for all API groups, resources, and verbs";
     ob_Severity := SeverityCritical;
     ob_Suggestions :=
       ["Replace wildcard permissions with specific API groups, resources, and verbs";
        "Follow the principle of least privilege";
        "Create separate rules for different operational needs"] |}.

Definition validateRule (ruleName : string) (rule : PolicyRule) (r : RBACValidationResult)
  : RBACValidationResult :=
  let verbs := pr_Verbs rule in
  let resources := pr_Resources rule in
  let r := when_add add_broad
             (containsWildcard (pr_APIGroups rule) && containsWildcard resources && containsWildcard verbs)
             (broad_rule ruleName rule) r in
  let r := when_add add_finding (containsVerb verbs "*")
             {| sf_Type := "OverlyBroadVerbs"; sf_Severity := SeverityHigh;
                sf_Description := "Rule grants wildcard verb permissions";
                sf_Resource := Join resources ","; sf_Rule := ruleName;
                sf_Remediation := "Replace '*' with specific verbs needed for operation" |} r in
  let r := when_add add_finding
             ((containsResource resources "secrets" || containsWildcard resources)
              && (containsVerb verbs "create" && containsVerb verbs "delete" && containsVerb verbs "patch"))
             {| sf_Type := "SecretsFullAccess"; sf_Severity := SeverityHigh;
                sf_Description := "Rule grants full access to secrets (create, delete, patch)";
                sf_Resource := "secrets"; sf_Rule := ruleName;
                sf_Remediation := "Limit secret permissions to only what's needed (e.g., get, list, watch for reading)" |} r in
  let r := when_add add_finding (isClusterAdminEquivalent rule)
             {| sf_Type := "ClusterAdminEquivalent"; sf_Severity := SeverityCritical;
                sf_Description := "Rule grants cluster-admin equivalent permissions";
                sf_Resource := Join resources ","; sf_Rule := ruleName;
                sf_Remediation := "Break down permissions into specific, minimal rules" |} r in
  when_add add_finding
    ((containsResource resources "users" || containsResource resources "groups"
      || containsResource resources "serviceaccounts") && containsVerb verbs "impersonate")
    {| sf_Type := "ImpersonationRisk"; sf_Severity := SeverityHigh;
       sf_Description := "Rule grants impersonation permissions";
       sf_Resource := Join resources ","; sf_Rule := ruleName;
       sf_Remediation := "Remove impersonation permissions unless absolutely necessary" |} r.

(** [for i, rule := range rules { v.validateRule(result, "Rule i", rule) }] *)
Fixpoint rules_loop (i : nat) (rules : list PolicyRule) (r : RBACValidationResult) : RBACValidationResult :=
  match rules with
  | [] => r
  | rule :: rules' => rules_loop (S i) rules' (validateRule (rule_name i) rule r)
  end.

(** ** checkOverlyBroadPermissions *)

Definition core_wildcard (rule : PolicyRule) : bool :=
  (containsAPIGroup (pr_APIGroups rule) "" || containsWildcard (pr_APIGroups rule))
  && containsWildcard (pr_Resources rule).
Definition rbac_wildcard (rule : PolicyRule) : bool :=
  (containsAPIGroup (pr_APIGroups rule) "rbac.authorization.k8s.io" || containsWildcard (pr_APIGroups rule))
  && (containsWildcard (pr_Resources rule) || containsResource (pr_Resources rule) "*").

Fixpoint broad_loop (i : nat) (rules : list PolicyRule) (core rbac : bool) (r : RBACValidationResult)
  : bool * bool * RBACValidationResult :=
  match rules with
  | [] => (core, rbac, r)
  | rule :: rules' =>
      let r := when_add add_rbac_warning (core_wildcard rule)
                 (rule_name i +:+ " grants wildcard access to core Kubernetes resources") r in
      let r := when_add add_finding (rbac_wildcard rule)
                 {| sf_Type := "RBACWildcardAccess"; sf_Severity := SeverityHigh;
                    sf_Description := "Rule grants wildcard access to RBAC resources";
                    sf_Resource := "rbac.authorization.k8s.io/*"; sf_Rule := rule_name i;
                    sf_Remediation := "Limit RBAC permissions to specific resources and operations" |} r in
      broad_loop (S i) rules' (core || core_wildcard rule) (rbac || rbac_wildcard rule) r
  end.

Definition checkOverlyBroadPermissions (role : ClusterRole) (r : RBACValidationResult) : RBACValidationResult :=
  let '(core, rbac, r) := broad_loop 0 (cr_Rules role) false false r in
  when_add add_finding (core && rbac)
    {| sf_Type := "ExcessivePrivileges"; sf_Severity := SeverityCritical;
       sf_Description := "ClusterRole has both core resource and RBAC wildcard access";
       sf_Resource := cr_Name role; sf_Rule := "Multiple rules";
       sf_Remediation := "Split into multiple roles with minimal required permissions" |} r.

(** ** checkDangerousPermissions *)

Definition secret_access (rule : PolicyRule) : bool :=
  containsResource (pr_Resources rule) "secrets" || containsWildcard (pr_Resources rule).
Definition node_access (rule : PolicyRule) : bool :=
  containsResource (pr_Resources rule) "nodes" || containsWildcard (pr_Resources rule).
Definition pod_exec (rule : PolicyRule) : bool :=
  containsResource (pr_Resources rule) "pods/exec" || containsResource (pr_Resources rule) "pods/attach".

Fixpoint dangerous_loop (i : nat) (rules : list PolicyRule) (secret node exec : bool) (r : RBACValidationResult)
  : bool * bool * bool * RBACValidationResult :=
  match rules with
  | [] => (secret, node, exec, r)
  | rule :: rules' =>
      let r := when_add add_finding (pod_exec rule)
                 {| sf_Type := "PodExecAccess"; sf_Severity := "MEDIUM";
                    sf_Description := "Rule grants pod exec/attach permissions";
                    sf_Resource := "pods/exec, pods/attach"; sf_Rule := rule_name i;
                    sf_Remediation := "Remove exec/attach permissions unless required for debugging" |} r in
      let r := when_add add_rbac_warning
                 (containsResource (pr_Resources rule) "persistentvolumes" && containsVerb (pr_Verbs rule) "create")
                 (rule_name i +:+ " can create PersistentVolumes, which may allow host filesystem access") r in
      dangerous_loop (S i) rules' (secret || secret_access rule) (node || node_access rule)
        (exec || pod_exec rule) r
  end.

Definition checkDangerousPermissions (role : ClusterRole) (r : RBACValidationResult) : RBACValidationResult :=
  let '(hasSecretAccess, hasNodeAccess, hasPodExec, r) := dangerous_loop 0 (cr_Rules role) false false false r in
  let r := when_add add_finding (hasSecretAccess && hasNodeAccess)
             {| sf_Type := "SecretNodeAccess"; sf_Severity := SeverityHigh;
                sf_Description := "ClusterRole has both secret and node access";
                sf_Resource := cr_Name role; sf_Rule := "Multiple rules";
                sf_Remediation := "Consider separating secret and node access into different roles" |} r in
  when_add add_finding (hasSecretAccess && hasPodExec)
    {| sf_Type := "SecretExecAccess"; sf_Severity := SeverityHigh;
       sf_Description := "ClusterRole has both secret access and pod exec capabilities";
       sf_Resource := cr_Name role; sf_Rule := "Multiple rules";
       sf_Remediation := "Limit either secret access or exec capabilities" |} r.

(** ** ValidateClusterRole and ValidateRole *)

Definition ValidateClusterRole (role : ClusterRole) : RBACValidationResult :=
  let r := rules_loop 0 (cr_Rules role) empty_rbac_result in
  let r := checkOverlyBroadPermissions role r in
  let r := checkDangerousPermissions role r in
  set_rr_Valid (length (rr_Errors r) =? 0)%nat r.

Definition ValidateRole (rules : list PolicyRule) : RBACValidationResult :=
  let r := rules_loop 0 rules empty_rbac_result in
  set_rr_Valid (length (rr_Errors r) =? 0)%nat r.

(** ** Recommended permissions *)

Definition beskar7_minimal : list PolicyRule :=
  [ {| pr_APIGroups := ["infrastructure.cluster.x-k8s.io"];
       pr_Resources := ["physicalhosts"; "beskar7machines"; "beskar7clusters"];
       pr_Verbs := ["get"; "list"; "watch"; "create"; "update"; "patch"; "delete"] |};
    {| pr_APIGroups := ["infrastructure.cluster.x-k8s.io"];
       pr_Resources := ["physicalhosts/status"; "beskar7machines/status"; "beskar7clusters/status"];
       pr_Verbs := ["get"; "update"; "patch"] |};
    {| pr_APIGroups := ["cluster.x-k8s.io"]; pr_Resources := ["clusters"; "machines"];
       pr_Verbs := ["get"; "list"; "watch"] |};
    {| pr_APIGroups := [""]; pr_Resources := ["secrets"]; pr_Verbs := ["get"; "list"; "watch"] |};
    {| pr_APIGroups := [""]; pr_Resources := ["events"]; pr_Verbs := ["create"; "patch"] |} ].

Definition GetRecommendedPermissions `{Lib} (useCase : string) : list PolicyRule :=
  let useCase := ToLower useCase in
  if useCase ==s "beskar7-minimal" then beskar7_minimal
  else if useCase ==s "read-only" then
    [ {| pr_APIGroups := ["*"]; pr_Resources := ["*"]; pr_Verbs := ["get"; "list"; "watch"] |} ]
  else [].

(** ** Properties *)

Lemma containsString_spec l s : containsString l s = true <-> s ∈ l.
Proof.
  induction l as [|x l IH]; simpl; [by rewrite elem_of_nil|]. rewrite elem_of_cons.
  destruct (String.eqb_spec x s); naive_solver.
Qed.

(** A finding of the type has been made. *)
Definition reports (r : RBACValidationResult) (t : string) : Prop := t ∈ sf_Type <$> rr_SecurityFindings r.

Lemma reports_finding c f r t :
  reports (when_add add_finding c f r) t <-> c = true /\ t = sf_Type f \/ reports r t.
Proof.
  unfold reports. destruct c; simpl; [|naive_solver]. rewrite fmap_app, elem_of_app. simpl.
  rewrite list_elem_of_singleton. naive_solver.
Qed.
Lemma reports_warning c w r t : reports (when_add add_rbac_warning c w r) t <-> reports r t.
Proof. by destruct c. Qed.
Lemma reports_broad c b r t : reports (when_add add_broad c b r) t <-> reports r t.
Proof. by destruct c. Qed.

Lemma errors_when_add {A} (add : A -> RBACValidationResult -> RBACValidationResult) c x r :
  (forall x r, rr_Errors (add x r) = rr_Errors r) -> rr_Errors (when_add add c x r) = rr_Errors r.
Proof. intros H. destruct c; simpl; auto. Qed.

Create Rewrite HintDb rbac.
#[export] Hint Rewrite reports_finding reports_warning reports_broad : rbac.

(** What each check of a single rule reports. *)
Definition rule_reports (rule : PolicyRule) (t : string) : Prop :=
  (t = "OverlyBroadVerbs" /\ "*" ∈ pr_Verbs rule) \/
  (t = "SecretsFullAccess" /\ ("secrets" ∈ pr_Resources rule \/ "*" ∈ pr_Resources rule) /\
     "create" ∈ pr_Verbs rule /\ "delete" ∈ pr_Verbs rule /\ "patch" ∈ pr_Verbs rule) \/
  (t = "ClusterAdminEquivalent" /\ "*" ∈ pr_APIGroups rule /\ "*" ∈ pr_Resources rule /\ "*" ∈ pr_Verbs rule) \/
  (t = "ImpersonationRisk" /\ "impersonate" ∈ pr_Verbs rule /\
     ("users" ∈ pr_Resources rule \/ "groups" ∈ pr_Resources rule \/ "serviceaccounts" ∈ pr_Resources rule)).

Definition rule_core_wildcard (rule : PolicyRule) : Prop :=
  ("" ∈ pr_APIGroups rule \/ "*" ∈ pr_APIGroups rule) /\ "*" ∈ pr_Resources rule.
Definition rule_rbac_wildcard (rule : PolicyRule) : Prop :=
  ("rbac.authorization.k8s.io" ∈ pr_APIGroups rule \/ "*" ∈ pr_APIGroups rule) /\ "*" ∈ pr_Resources rule.
Definition rule_names (resources : list string) (rule : PolicyRule) : Prop :=
  exists r, r ∈ resources /\ r ∈ pr_Resources rule.

(** What the checks of a whole role report. *)
Definition role_reports (rules : list PolicyRule) (t : string) : Prop :=
  (exists rule, rule ∈ rules /\ rule_reports rule t) \/
  (t = "RBACWildcardAccess" /\ exists rule, rule ∈ rules /\ rule_rbac_wildcard rule) \/
  (t = "ExcessivePrivileges" /\ (exists rule, rule ∈ rules /\ rule_core_wildcard rule) /\
     exists rule, rule ∈ rules /\ rule_rbac_wildcard rule) \/
  (t = "PodExecAccess" /\ exists rule, rule ∈ rules /\ rule_names ["pods/exec"; "pods/attach"] rule) \/
  (t = "SecretNodeAccess" /\ (exists rule, rule ∈ rules /\ rule_names ["secrets"; "*"] rule) /\
     exists rule, rule ∈ rules /\ rule_names ["nodes"; "*"] rule) \/
  (t = "SecretExecAccess" /\ (exists rule, rule ∈ rules /\ rule_names ["secrets"; "*"] rule) /\
     exists rule, rule ∈ rules /\ rule_names ["pods/exec"; "pods/attach"] rule).

Ltac contains := unfold containsWildcard, containsVerb, containsResource, containsAPIGroup in *;
  rewrite ?andb_true_iff, ?orb_true_iff, ?containsString_spec in *.

Lemma validateRule_reports name rule r t :
  reports (validateRule name rule r) t <-> rule_reports rule t \/ reports r t.
Proof.
  unfold validateRule, isClusterAdminEquivalent, rule_reports. autorewrite with rbac. cbn [sf_Type].
  contains. naive_solver.
Qed.

Lemma rules_loop_reports i rules r t :
  reports (rules_loop i rules r) t <-> (exists rule, rule ∈ rules /\ rule_reports rule t) \/ reports r t.
Proof.
  revert i r. induction rules as [|rule rules IH]; intros i r; cbn [rules_loop].
  - set_solver.
  - rewrite IH, validateRule_reports. set_solver.
Qed.

(** A flag collected over the rules. *)
Lemma collect_cons (P : PolicyRule -> bool) b rule rules :
  b || P rule || existsb P rules = b || existsb P (rule :: rules).
Proof. simpl. by rewrite orb_assoc. Qed.

Lemma broad_loop_spec i rules core rbac r :
  exists r', broad_loop i rules core rbac r =
    (core || existsb core_wildcard rules, rbac || existsb rbac_wildcard rules, r') /\
    (forall t, reports r' t <-> (t = "RBACWildcardAccess" /\ existsb rbac_wildcard rules = true) \/ reports r t) /\
    rr_Errors r' = rr_Errors r.
Proof.
  revert i core rbac r. induction rules as [|rule rules IH]; intros i core rbac r; cbn [broad_loop].
  - exists r. rewrite !orb_false_r. naive_solver.
  - match goal with |- context [broad_loop (S i) rules ?c ?b ?x] => destruct (IH (S i) c b x) as (r' & -> & Ht & He) end.
    exists r'. split_and!; [by rewrite !collect_cons| |].
    + intros t. rewrite Ht. autorewrite with rbac. cbn [sf_Type existsb]. rewrite orb_true_iff. naive_solver.
    + by rewrite He, !errors_when_add by done.
Qed.

Lemma dangerous_loop_spec i rules secret node exec r :
  exists r', dangerous_loop i rules secret node exec r =
    (secret || existsb secret_access rules, node || existsb node_access rules, exec || existsb pod_exec rules, r') /\
    (forall t, reports r' t <-> (t = "PodExecAccess" /\ existsb pod_exec rules = true) \/ reports r t) /\
    rr_Errors r' = rr_Errors r.
Proof.
  revert i secret node exec r. induction rules as [|rule rules IH]; intros i secret node exec r; cbn [dangerous_loop].
  - exists r. rewrite !orb_false_r. naive_solver.
  - match goal with |- context [dangerous_loop (S i) rules ?b ?c ?d ?x] =>
      destruct (IH (S i) b c d x) as (r' & -> & Ht & He) end.
    exists r'. split_and!; [by rewrite !collect_cons| |].
    + intros t. rewrite Ht. autorewrite with rbac. cbn [sf_Type existsb]. rewrite orb_true_iff. naive_solver.
    + by rewrite He, !errors_when_add by done.
Qed.

Lemma existsb_rules (P : PolicyRule -> bool) (Q : PolicyRule -> Prop) rules :
  (forall rule, P rule = true <-> Q rule) -> existsb P rules = true <-> exists rule, rule ∈ rules /\ Q rule.
Proof.
  intros H. rewrite existsb_exists. setoid_rewrite <- list_elem_of_In. by setoid_rewrite H.
Qed.

Lemma core_wildcard_spec rule : core_wildcard rule = true <-> rule_core_wildcard rule.
Proof. unfold core_wildcard, rule_core_wildcard. by contains. Qed.
Lemma rbac_wildcard_spec rule : rbac_wildcard rule = true <-> rule_rbac_wildcard rule.
Proof. unfold rbac_wildcard, rule_rbac_wildcard. contains. naive_solver. Qed.
Lemma secret_access_spec rule : secret_access rule = true <-> rule_names ["secrets"; "*"] rule.
Proof. unfold secret_access, rule_names. contains. set_solver. Qed.
Lemma node_access_spec rule : node_access rule = true <-> rule_names ["nodes"; "*"] rule.
Proof. unfold node_access, rule_names. contains. set_solver. Qed.
Lemma pod_exec_spec rule : pod_exec rule = true <-> rule_names ["pods/exec"; "pods/attach"] rule.
Proof. unfold pod_exec, rule_names. contains. set_solver. Qed.

Lemma findings_table role t :
  reports (ValidateClusterRole role) t <-> role_reports (cr_Rules role) t.
Proof.
  unfold ValidateClusterRole, checkOverlyBroadPermissions, checkDangerousPermissions.
  destruct (broad_loop_spec 0 (cr_Rules role) false false (rules_loop 0 (cr_Rules role) empty_rbac_result))
    as (r1 & -> & Ht1 & _).
  match goal with |- context [dangerous_loop 0 _ false false false ?x] =>
    destruct (dangerous_loop_spec 0 (cr_Rules role) false false false x) as (r2 & -> & Ht2 & _) end.
  change (reports (set_rr_Valid ?b ?x) t) with (reports x t). cbn [orb].
  autorewrite with rbac. rewrite Ht2. autorewrite with rbac. rewrite Ht1, rules_loop_reports.
  rewrite ?orb_false_l, !andb_true_iff, (existsb_rules _ _ _ core_wildcard_spec), (existsb_rules _ _ _ rbac_wildcard_spec),
    (existsb_rules _ _ _ secret_access_spec), (existsb_rules _ _ _ node_access_spec),
    (existsb_rules _ _ _ pod_exec_spec).
  cbn [sf_Type]. unfold role_reports, reports at 1. cbn. rewrite elem_of_nil. tauto.
Qed.

(** C23: the findings on a cluster role are exactly those its rules call for:
    each type is reported if and only if the condition in the table
    [role_reports] holds of the rules. *)
Theorem rbac_findings_exact role t :
  reports (ValidateClusterRole role) t <-> role_reports (cr_Rules role) t.
Proof. apply findings_table. Qed.

(** No role is ever invalid: the validator has no way to report an error, so
    even a role that permits everything is returned as valid. *)
Theorem every_role_is_valid role : rr_Valid (ValidateClusterRole role) = true.
Proof.
  unfold ValidateClusterRole, checkOverlyBroadPermissions, checkDangerousPermissions.
  assert (forall i rules r, rr_Errors (rules_loop i rules r) = rr_Errors r) as Hrules.
  { intros i rules. revert i. induction rules as [|rule rules IH]; intros i r; cbn [rules_loop]; [done|].
    rewrite IH. unfold validateRule. by rewrite !errors_when_add by done. }
  destruct (broad_loop_spec 0 (cr_Rules role) false false (rules_loop 0 (cr_Rules role) empty_rbac_result))
    as (r1 & -> & _ & He1).
  match goal with |- context [dangerous_loop 0 _ false false false ?x] =>
    destruct (dangerous_loop_spec 0 (cr_Rules role) false false false x) as (r2 & -> & _ & He2) end.
  cbn [set_rr_Valid rr_Valid]. by rewrite !errors_when_add, He2, !errors_when_add, He1, Hrules by done.
Qed.

(** ** The role generated from the markers

    The [+kubebuilder:rbac] markers, from which the manager's cluster role is
    generated: groups, resources and verbs as they are written, up to the end of
    the line. *)

Definition infra_group := "infrastructure.cluster.x-k8s.io".
Definition capi_group := "cluster.x-k8s.io".

Definition marker (group : string) (resources verbs : list string) : PolicyRule :=
  {| pr_APIGroups := [group]; pr_Resources := resources; pr_Verbs := verbs |}.
Definition all_verbs := ["get"; "list"; "watch"; "create"; "update"; "patch"; "delete"].

Definition main_markers : list PolicyRule :=
  [marker "rbac.authorization.k8s.io" ["clusterroles"; "clusterrolebindings"] ["get"; "list"; "watch"];
   marker "" ["events"] ["create"; "patch"];
   marker "coordination.k8s.io" ["leases"] all_verbs].
Definition host_markers : list PolicyRule :=
  [marker infra_group ["physicalhosts"] all_verbs;
   marker infra_group ["physicalhosts/status"] ["get"; "update"; "patch"];
   marker infra_group ["physicalhosts/finalizers"] ["update"];
   marker "" ["secrets"] ["get"; "list"; "watch"];
   marker "" ["events"] ["create"; "patch"]].
Definition machine_markers : list PolicyRule :=
  [marker infra_group ["beskar7machines"] all_verbs;
   marker infra_group ["beskar7machines/status"] ["get"; "update"; "patch"];
   marker infra_group ["beskar7machines/finalizers"] ["update"];
   marker capi_group ["machines"; "machines/status"] ["get"; "list"; "watch"];
   marker infra_group ["physicalhosts"] ["get"; "list"; "watch"; "patch"]].
Definition cluster_markers : list PolicyRule :=
  [marker infra_group ["beskar7clusters"] all_verbs;
   marker infra_group ["beskar7clusters/status"] ["get"; "update"; "patch"];
   marker infra_group ["beskar7clusters/finalizers"] ["update"];
   marker capi_group ["clusters"; "clusters/status"] ["get"; "list"; "watch"];
   marker capi_group ["machines"; "machines/status"]
     ["get"; "list"; "watch // Needed to find control plane machine addresses"];
   marker infra_group ["physicalhosts"] ["get"; "list"; "watch // Needed to discover failure domains"]].
Definition manager_role : list PolicyRule := main_markers ++ host_markers ++ machine_markers ++ cluster_markers.

(** The cluster controller's own markers do not have the verb to watch what it
    reads: the remarks behind two of them have become part of their last verbs. *)
Lemma cluster_markers_cannot_watch :
  Forall (fun rule => "machines" ∈ pr_Resources rule \/ "physicalhosts" ∈ pr_Resources rule -> "watch" ∉ pr_Verbs rule)
    cluster_markers.
Proof. apply (bool_decide_unpack _). vm_compute. exact I. Qed.

Section Recommended.
  Context {L : Lib}.

(** The validator has nothing to say against the recommended minimal role, and
    makes no finding on the role generated from the markers. *)
Lemma minimal_role_accepted name :
  let r := ValidateClusterRole {| cr_Name := name; cr_Rules := GetRecommendedPermissions "beskar7-minimal" |} in
  rr_SecurityFindings r = [] /\ rr_OverlyBroadRules r = [] /\ rr_Warnings r = [] /\
  rr_SecurityFindings (ValidateClusterRole {| cr_Name := name; cr_Rules := manager_role |}) = [].
Proof. by vm_compute. Qed.

(** The recommended read-only permissions are flagged by the validator as
    excessive privileges. *)
Theorem read_only_recommendation_flagged name :
  reports (ValidateClusterRole {| cr_Name := name; cr_Rules := GetRecommendedPermissions "read-only" |})
    "ExcessivePrivileges".
Proof. unfold reports. apply (bool_decide_unpack _). vm_compute. exact I. Qed.

End Recommended.
