(* ===== verification/Tls.v ===== *)
(** * internal/security/tls_validator.go

    The validation of a BMC's TLS certificate.  A certificate is the list of
    fields the validator reads; the dial is an action, whose answer is the chain
    the peer presented.  [Certificate.VerifyHostname] is that of crypto/x509 in
    Go 1.25.0. *)

From S2P Require Import Prelude GoText GoFmt GoNet GoTime Api Lib GoUrl Prog Rbac.
From Stdlib Require Import Ascii.

(** ** Certificates *)

Record Certificate := {
  ct_Subject : string;      (* Subject.String() *)
  ct_CommonName : string;   (* Subject.CommonName *)
  ct_Issuer : string;       (* Issuer.String() *)
  ct_SerialNumber : Z;
  ct_NotBefore : Z;
  ct_NotAfter : Z;
  ct_DNSNames : list string;
  ct_IPAddresses : list (list Z);
  ct_hasSANExtension : bool;
  ct_IsCA : bool;
  ct_KeyUsage : Z;
  ct_ExtKeyUsage : list Z
}.

(** Bits of [x509.KeyUsage] and values of [x509.ExtKeyUsage]. *)
Definition KeyUsageDigitalSignature : Z := 1.
Definition KeyUsageContentCommitment : Z := 2.
Definition KeyUsageKeyEncipherment : Z := 4.
Definition KeyUsageDataEncipherment : Z := 8.
Definition KeyUsageKeyAgreement : Z := 16.
Definition KeyUsageCertSign : Z := 32.
Definition KeyUsageCRLSign : Z := 64.
Definition KeyUsageEncipherOnly : Z := 128.
Definition KeyUsageDecipherOnly : Z := 256.
Definition ExtKeyUsageServerAuth : Z := 1.
Definition ExtKeyUsageClientAuth : Z := 2.
Definition ExtKeyUsageCodeSigning : Z := 3.
Definition ExtKeyUsageEmailProtection : Z := 4.
Definition ExtKeyUsageTimeStamping : Z := 8.
Definition ExtKeyUsageOCSPSigning : Z := 9.

(** ** crypto/x509: VerifyHostname *)

Definition lower_ascii (c : ascii) : ascii := if between "A" "Z" c then ascii_of_nat (Z.to_nat (byte c + 32)) else c.
Definition toLowerCaseASCII (s : string) : string :=
  String.string_of_list_ascii (lower_ascii <$> String.list_ascii_of_string s).

(** [strings.TrimSuffix(s, ".")] *)
Definition trim_dot (s : string) : string := if HasSuffix s "." then str_take (len s - 1) s else s.

(** The runes of a label: all are ASCII, and a hyphen is not the first one. *)
Definition label_runes_ok (part : string) : bool :=
  forallb (fun '(j, c) =>
    ((97 <=? c) && (c <=? 122)) || ((48 <=? c) && (c <=? 57)) || ((65 <=? c) && (c <=? 90))
    || ((c =? 45) && negb (j =? 0)%nat) || (c =? 95)) (go_range part).

Fixpoint labels_ok (isPattern : bool) (i : nat) (parts : list string) : bool :=
  match parts with
  | [] => true
  | part :: parts' =>
      if part ==s "" then false
      else if isPattern && (i =? 0)%nat && (part ==s "*") then labels_ok isPattern (S i) parts'
      else label_runes_ok part && labels_ok isPattern (S i) parts'
  end.

Definition validHostname (host : string) (isPattern : bool) : bool :=
  let host := if isPattern then host else trim_dot host in
  if (len host =? 0)%nat then false
  else if host ==s "*" then false
  else labels_ok isPattern 0 (Split host ".").

Definition matchExactly (hostA hostB : string) : bool :=
  if (hostA ==s "") || (hostA ==s ".") || (hostB ==s "") || (hostB ==s ".") then false
  else toLowerCaseASCII hostA ==s toLowerCaseASCII hostB.

Fixpoint match_parts (i : nat) (patternParts hostParts : list string) : bool :=
  match patternParts, hostParts with
  | p :: patternParts, h :: hostParts =>
      (((i =? 0)%nat && (p ==s "*")) || (p ==s h)) && match_parts (S i) patternParts hostParts
  | [], [] => true
  | _, _ => false
  end.

Definition matchHostnames (pattern host : string) : bool :=
  let pattern := toLowerCaseASCII pattern in
  let host := toLowerCaseASCII (trim_dot host) in
  if (len pattern =? 0)%nat || (len host =? 0)%nat then false
  else match_parts 0 (Split pattern ".") (Split host ".").

(** [ip.Equal(candidate)] for a 16-byte [ip]. *)
Definition ip_equal (ip candidate : list Z) : bool :=
  bool_decide (ip = candidate) ||
  match To4 ip with Some ip4 => bool_decide (ip4 = candidate) | None => false end.

(** Whether [cert.VerifyHostname(h)] returns nil. *)
Definition hostname_verified (cert : Certificate) (h : string) : bool :=
  let candidateIP :=
    if (3 <=? len h)%nat && HasPrefix h "[" && HasSuffix h "]" then str_take (len h - 2) (str_drop 1 h) else h in
  match ParseIP candidateIP with
  | Some ip => existsb (ip_equal ip) (ct_IPAddresses cert)
  | None =>
      let candidateName := toLowerCaseASCII h in
      let validCandidateName := validHostname candidateName false in
      existsb (fun m => if validCandidateName && validHostname m true then matchHostnames m candidateName
                        else matchExactly m candidateName) (ct_DNSNames cert)
  end.

(** The text of the error it returns otherwise. *)
Definition hostname_error (cert : Certificate) (h : string) : string :=
  let bracketed := (3 <=? len h)%nat && HasPrefix h "[" && HasSuffix h "]" in
  let candidateIP := if bracketed then str_take (len h - 2) (str_drop 1 h) else h in
  let host := match ParseIP candidateIP with Some _ => candidateIP | None => h end in
  if negb (ct_hasSANExtension cert) && matchHostnames (ct_CommonName cert) host then
    "x509: certificate relies on legacy Common Name field, use SANs instead"
  else
    match ParseIP host, ct_IPAddresses cert with
    | Some _, [] => "x509: cannot validate certificate for " +:+ host +:+ " because it doesn't contain any IP SANs"
    | ip, ips =>
        let valid := match ip with Some _ => Join (IP_String <$> ips) ", " | None => Join (ct_DNSNames cert) ", " end in
        if (len valid =? 0)%nat
        then "x509: certificate is not valid for any names, but wanted to match " +:+ host
        else "x509: certificate is valid for " +:+ valid +:+ ", not " +:+ host
    end.

(** [net.JoinHostPort] *)
Definition JoinHostPort (host port : string) : string :=
  if Contains host ":" then "[" +:+ host +:+ "]:" +:+ port else host +:+ ":" +:+ port.

(** ** The calls of package security *)

Record Event := {
  e_Name : string; e_Namespace : string; e_Reason : string; e_Message : string; e_Type : string;
  e_FirstTimestamp : Z; e_LastTimestamp : Z; e_Count : Z
}.

(** [tls.Config]; a certificate pool is the list of its certificates. *)
Record tls_Config := {
  tc_ServerName : string; tc_InsecureSkipVerify : bool; tc_RootCAs : option (list Certificate)
}.

Inductive sec_action :=
| SNow
(** [tls.DialWithDialer] with the dialer's timeout, and [conn.Close] *)
| STlsDial (timeout : Z) (address : string) (cfg : tls_Config)
| STlsClose
| SListHosts (ns : string)
| SListClusterRoles
| SListSecrets (ns : string)
| SCreateEvent (e : Event)
(** [time.NewTicker], the [select] on the context and the ticker, [ticker.Stop] *)
| SNewTicker (d : Z)
| SSelect
| SStopTicker.

(** Which case of the [select] is taken; the context has an error once it is done. *)
Inductive selected := CtxDone (err : error) | Tick.

Definition sec_answer (a : sec_action) : Type :=
  match a with
  | SNow => Z
  | STlsDial _ _ _ => result (list Certificate)
  | STlsClose => unit
  | SListHosts _ => result (list PhysicalHost)
  | SListClusterRoles => result (list ClusterRole)
  | SListSecrets _ => result (list Secret)
  | SCreateEvent _ => result unit
  | SNewTicker _ => unit
  | SSelect => selected
  | SStopTicker => unit
  end.

Definition Sec : sig := {| action := sec_action; answer := sec_answer |}.

(** ** The validator *)

Record TLSValidator := {
  tv_CustomCAs : option (list Certificate); tv_Timeout : Z; tv_AllowSelfSigned : bool
}.

Definition NewTLSValidator : TLSValidator :=
  {| tv_CustomCAs := None; tv_Timeout := 30 * Second; tv_AllowSelfSigned := false |}.

Record ValidationResult := {
  vr_Valid : bool;
  vr_Warnings : list string;
  vr_Errors : list string;
  vr_CertChain : list Certificate;
  vr_Expiry : option Z;
  vr_IsSelfSigned : bool;
  vr_SANs : list string
}.

Definition empty_result : ValidationResult :=
  {| vr_Valid := false; vr_Warnings := []; vr_Errors := []; vr_CertChain := []; vr_Expiry := None;
     vr_IsSelfSigned := false; vr_SANs := [] |}.

Definition add_warning (w : string) (r : ValidationResult) : ValidationResult :=
  {| vr_Valid := vr_Valid r; vr_Warnings := vr_Warnings r ++ [w]; vr_Errors := vr_Errors r;
     vr_CertChain := vr_CertChain r; vr_Expiry := vr_Expiry r; vr_IsSelfSigned := vr_IsSelfSigned r;
     vr_SANs := vr_SANs r |}.
Definition add_error (e : string) (r : ValidationResult) : ValidationResult :=
  {| vr_Valid := vr_Valid r; vr_Warnings := vr_Warnings r; vr_Errors := vr_Errors r ++ [e];
     vr_CertChain := vr_CertChain r; vr_Expiry := vr_Expiry r; vr_IsSelfSigned := vr_IsSelfSigned r;
     vr_SANs := vr_SANs r |}.
Definition set_vr_Valid (v : bool) (r : ValidationResult) : ValidationResult :=
  {| vr_Valid := v; vr_Warnings := vr_Warnings r; vr_Errors := vr_Errors r; vr_CertChain := vr_CertChain r;
     vr_Expiry := vr_Expiry r; vr_IsSelfSigned := vr_IsSelfSigned r; vr_SANs := vr_SANs r |}.

(** [if c { result.Errors = append(...) }] and the same for warnings. *)
Definition error_if (c : bool) (e : string) (r : ValidationResult) : ValidationResult :=
  if c then add_error e r else r.
Definition warning_if (c : bool) (w : string) (r : ValidationResult) : ValidationResult :=
  if c then add_warning w r else r.

Definition isSelfSigned (cert : Certificate) : bool := ct_Issuer cert ==s ct_Subject cert.

(** [usage&bit != 0] *)
Definition has_usage (usage bit : Z) : bool := negb (Z.land usage bit =? 0).

Definition validateCertificate (v : TLSValidator) (now : Z) (cert : Certificate) (r : ValidationResult)
  : ValidationResult :=
  let r := error_if (now <? ct_NotBefore cert) "Certificate is not yet valid" r in
  let r := error_if (ct_NotAfter cert <? now) "Certificate has expired" r in
  let r := if vr_IsSelfSigned r && negb (tv_AllowSelfSigned v)
           then add_error "Self-signed certificates are not allowed" r
           else warning_if (vr_IsSelfSigned r) "Certificate is self-signed" r in
  let r := warning_if (negb (has_usage (ct_KeyUsage cert) KeyUsageDigitalSignature))
             "Certificate lacks digital signature key usage" r in
  let r := warning_if (negb (has_usage (ct_KeyUsage cert) KeyUsageKeyEncipherment)
                       && negb (has_usage (ct_KeyUsage cert) KeyUsageKeyAgreement))
             "Certificate lacks key encipherment or key agreement usage" r in
  warning_if (negb (existsb (fun u => u =? ExtKeyUsageServerAuth) (ct_ExtKeyUsage cert)))
    "Certificate lacks server authentication extended key usage" r.

Fixpoint chain_loop (i : nat) (chain : list Certificate) (r : ValidationResult) : ValidationResult :=
  match chain with
  | [] => r
  | cert :: chain' =>
      let r := error_if (ct_IsCA cert && (i =? 0)%nat) "Leaf certificate incorrectly marked as CA" r in
      let r := warning_if (negb (ct_IsCA cert) && negb (i =? 0)%nat)
                 ("Intermediate certificate at position " +:+ pretty i +:+ " not marked as CA") r in
      chain_loop (S i) chain' r
  end.
Definition validateCertificateChain (chain : list Certificate) (r : ValidationResult) : ValidationResult :=
  chain_loop 0 chain
    (warning_if ((length chain =? 1)%nat && negb (vr_IsSelfSigned r))
       "Certificate chain contains only leaf certificate (missing intermediate CAs)" r).

Definition validateExpiry (now : Z) (cert : Certificate) (r : ValidationResult) : ValidationResult :=
  let left := time_sub (ct_NotAfter cert) now in
  let r := warning_if ((left <? 30 * 24 * Hour) && (now <? ct_NotAfter cert))
             "Certificate expires within 30 days" r in
  warning_if ((left <? 7 * 24 * Hour) && (now <? ct_NotAfter cert)) "Certificate expires within 7 days" r.

Section Validator.
  Context {L : Lib}.

Definition validateHostname (cert : Certificate) (hostname : string) (r : ValidationResult) : ValidationResult :=
  if hostname_verified cert hostname then r
  else
    let r := add_error ("Certificate not valid for hostname " +:+ hostname +:+ ": "
                        +:+ hostname_error cert hostname) r in
    let r := warning_if (negb (length (ct_DNSNames cert) =? 0)%nat)
               ("Certificate is valid for: " +:+ Join (ct_DNSNames cert) ", ") r in
    warning_if (negb (length (ct_IPAddresses cert) =? 0)%nat)
      ("Certificate is valid for IPs: " +:+ Join (IP_String <$> ct_IPAddresses cert) ", ") r.

(** What is known of the peer before the checks. *)
Definition presented (cert : Certificate) (chain : list Certificate) : ValidationResult :=
  {| vr_Valid := false; vr_Warnings := []; vr_Errors := []; vr_CertChain := chain;
     vr_Expiry := Some (ct_NotAfter cert); vr_IsSelfSigned := isSelfSigned cert; vr_SANs := ct_DNSNames cert |}.

Definition ValidateTLSEndpoint (v : TLSValidator) (endpoint : string) : prog Sec ValidationResult :=
  match Parse endpoint with
  | Err err => Ret (add_error ("Invalid URL: " +:+ Error err) empty_result)
  | Ok parsedURL =>
      if negb (u_Scheme parsedURL ==s "https") then
        Ret (add_error "Only HTTPS endpoints can be validated" empty_result)
      else
        let host := Hostname parsedURL in
        let port := if Port parsedURL ==s "" then "443" else Port parsedURL in
        let! conn := @call Sec (STlsDial (tv_Timeout v) (JoinHostPort host port)
          {| tc_ServerName := host; tc_InsecureSkipVerify := true; tc_RootCAs := tv_CustomCAs v |}) in
        match conn with
        | Err err => Ret (add_error ("Failed to connect: " +:+ Error err) empty_result)
        | Ok [] =>
            @call Sec STlsClose ;;! Ret (add_error "No certificates found" empty_result)
        | Ok (cert :: rest) =>
            let r := presented cert (cert :: rest) in
            let! now := @call Sec SNow in
            let r := validateCertificate v now cert r in
            let r := validateCertificateChain (cert :: rest) r in
            let! now' := @call Sec SNow in
            let r := validateExpiry now' cert r in
            let r := validateHostname cert host r in
            let r := set_vr_Valid (length (vr_Errors r) =? 0)%nat r in
            @call Sec STlsClose ;;! Ret r
        end
  end.

End Validator.

(** ** Usage names *)

Definition getKeyUsageStrings (usage : Z) : list string :=
  let one bit name := if has_usage usage bit then [name] else [] in
  one KeyUsageDigitalSignature "Digital Signature"
  ++ one KeyUsageContentCommitment "Content Commitment"
  ++ one KeyUsageKeyEncipherment "Key Encipherment"
  ++ one KeyUsageDataEncipherment "Data Encipherment"
  ++ one KeyUsageKeyAgreement "Key Agreement"
  ++ one KeyUsageCertSign "Certificate Sign"
  ++ one KeyUsageCRLSign "CRL Sign"
  ++ one KeyUsageEncipherOnly "Encipher Only"
  ++ one KeyUsageDecipherOnly "Decipher Only".

Definition getExtKeyUsageStrings (usage : list Z) : list string :=
  (fun u =>
     if u =? ExtKeyUsageServerAuth then "Server Authentication"
     else if u =? ExtKeyUsageClientAuth then "Client Authentication"
     else if u =? ExtKeyUsageCodeSigning then "Code Signing"
     else if u =? ExtKeyUsageEmailProtection then "Email Protection"
     else if u =? ExtKeyUsageTimeStamping then "Time Stamping"
     else if u =? ExtKeyUsageOCSPSigning then "OCSP Signing"
     else "Unknown (" +:+ pretty u +:+ ")") <$> usage.

(** ** GetCertificateInfo *)

(** The values of the map it returns. *)
Inductive info_value :=
| InfoString (s : string)
| InfoStrings (l : list string)
| InfoIPs (ips : list (list Z))
| InfoBool (b : bool).

Definition GetCertificateInfo (cert : Certificate) : gmap string info_value :=
  list_to_map
    [("subject", InfoString (ct_Subject cert)); ("issuer", InfoString (ct_Issuer cert));
     ("serial", InfoString (pretty (ct_SerialNumber cert)));
     ("not_before", InfoString (Format_RFC3339 (ct_NotBefore cert)));
     ("not_after", InfoString (Format_RFC3339 (ct_NotAfter cert)));
     ("dns_names", InfoStrings (ct_DNSNames cert)); ("ip_addresses", InfoIPs (ct_IPAddresses cert));
     ("is_ca", InfoBool (ct_IsCA cert)); ("key_usage", InfoStrings (getKeyUsageStrings (ct_KeyUsage cert)));
     ("ext_key_usage", InfoStrings (getExtKeyUsageStrings (ct_ExtKeyUsage cert)))].

(** ** Properties *)

Lemma errors_error_if c e r : vr_Errors (error_if c e r) = [] <-> c = false /\ vr_Errors r = [].
Proof. destruct c; simpl; [|naive_solver]. split; [by destruct (vr_Errors r)|naive_solver]. Qed.
Lemma errors_warning_if c w r : vr_Errors (warning_if c w r) = vr_Errors r.
Proof. by destruct c. Qed.
Lemma self_error_if c e r : vr_IsSelfSigned (error_if c e r) = vr_IsSelfSigned r.
Proof. by destruct c. Qed.
Lemma self_warning_if c w r : vr_IsSelfSigned (warning_if c w r) = vr_IsSelfSigned r.
Proof. by destruct c. Qed.

Create Rewrite HintDb tls.
#[export] Hint Rewrite errors_error_if errors_warning_if self_error_if self_warning_if : tls.

Lemma chain_loop_errors i chain r :
  vr_Errors (chain_loop i chain r) = [] <->
  vr_Errors r = [] /\ (i = 0%nat -> forall cert rest, chain = cert :: rest -> ct_IsCA cert = false).
Proof.
  revert i r. induction chain as [|cert chain IH]; intros i r; cbn [chain_loop]; [naive_solver|].
  rewrite IH. autorewrite with tls. rewrite andb_false_iff, Nat.eqb_neq.
  split; [|intros [? H]; split; [|done]; split; [|done]].
  - intros [[H ?] _]. split; [done|]. intros -> ? ? [= <- <-]. naive_solver.
  - destruct i; [left; by eapply H|by right].
Qed.

(** The certificate chains presented, and the times read. *)
Definition chain_of (e : event Sec) : list (list Certificate) :=
  match e with
  | Ev a r =>
      match a return sec_answer a -> list (list Certificate) with
      | STlsDial _ _ _ => fun r => match r with Ok chain => [chain] | Err _ => [] end
      | _ => fun _ => []
      end r
  end.
Definition time_of (e : event Sec) : list Z :=
  match e with
  | Ev a r => match a return sec_answer a -> list Z with SNow => fun now => [now] | _ => fun _ => [] end r
  end.

Section ValidatorProperties.
  Context {L : Lib}.

(** A leaf certificate the validator has nothing against. *)
Definition acceptable (v : TLSValidator) (now : Z) (host : string) (cert : Certificate) : Prop :=
  ct_NotBefore cert <= now <= ct_NotAfter cert /\
  (ct_Issuer cert = ct_Subject cert -> tv_AllowSelfSigned v = true) /\
  ct_IsCA cert = false /\ hostname_verified cert host = true.

Lemma checks_errors v now now' host cert rest :
  vr_Errors (validateHostname cert host (validateExpiry now' cert
    (validateCertificateChain (cert :: rest) (validateCertificate v now cert (presented cert (cert :: rest)))))) = [] <->
  acceptable v now host cert.
Proof.
  unfold acceptable, validateHostname. destruct (hostname_verified cert host);
    [|autorewrite with tls; simpl; split; [by destruct (vr_Errors _)|naive_solver]].
  unfold validateExpiry, validateCertificateChain. autorewrite with tls. rewrite chain_loop_errors.
  unfold validateCertificate. autorewrite with tls. cbn [presented vr_IsSelfSigned].
  destruct (isSelfSigned cert && negb (tv_AllowSelfSigned v)) eqn:E; unfold isSelfSigned in *.
  - cbn [add_error vr_Errors]. reflect. destruct E as [-> E].
    split; [intros [H _]; by destruct (vr_Errors _)|naive_solver congruence].
  - autorewrite with tls. cbn [presented vr_Errors]. reflect. naive_solver lia.
Qed.

(** C24: the verdict on an endpoint.  It is valid exactly when it is an https URL,
    the connection is to the host of the URL at its port, 443 if it has none, and
    the server there presents, for that host, a leaf certificate that is within
    its dates, is not marked as a CA, matches the host name, and is not
    self-signed unless that is allowed.  Nothing else counts: neither the rest of
    the chain, nor any signature, nor the custom CAs. *)
Theorem tls_verdict v endpoint :
  post (ValidateTLSEndpoint v endpoint) (fun tr r =>
    vr_Valid r = true <->
    exists u cert rest now now',
      Parse endpoint = Ok u /\ u_Scheme u = "https" /\
      tr = [@Ev Sec (STlsDial (tv_Timeout v) (JoinHostPort (Hostname u) (if decide (Port u = "") then "443" else Port u))
                      {| tc_ServerName := Hostname u; tc_InsecureSkipVerify := true; tc_RootCAs := tv_CustomCAs v |})
              (Ok (cert :: rest));
            @Ev Sec SNow now; @Ev Sec SNow now'; @Ev Sec STlsClose tt] /\
      acceptable v now (Hostname u) cert).
Proof.
  unfold ValidateTLSEndpoint. wp_steps; try done.
  all: cbn [vr_Valid set_vr_Valid add_error empty_result].
  3: { rewrite Nat.eqb_eq, length_zero_iff_nil, checks_errors. reflect. split.
       - intros H. exists a, c, l, r, r0. split_and!; [done..| |done]. destruct r1.
         by destruct (String.eqb_spec (Port a) ""); [rewrite decide_True by done|rewrite decide_False by done].
       - intros (u & cert & rest & now & now' & Hu & _ & Htr & H). assert (u = a) as -> by congruence.
         pose proof (f_equal (fun tr => tr ≫= chain_of) Htr) as Hc. pose proof (f_equal (fun tr => tr ≫= time_of) Htr) as Ht.
         cbn in Hc, Ht. by simplify_eq. }
  all: split; [done|]; intros (?&?&?&?&?&?&?&Htr&?); apply (f_equal (fun tr => tr ≫= chain_of)) in Htr; done.
Qed.

End ValidatorProperties.
