(* ===== verification/Monitor.v ===== *)
(** * internal/security/monitor.go

    The loop of the security monitor and its scan: TLS of the hosts' BMCs, cluster roles, and
    credential secrets; the report, its totals and recommendations, and the
    events for serious findings. *)

From S2P Require Import Prelude GoText GoFmt Api Lib GoUrl Prog Rbac Tls.

(** ** The report *)

Record TLSSecurityFinding := {
  tf_Severity : string; tf_Type : string; tf_Resource : string; tf_Description : string;
  tf_Details : string; tf_Remediation : string; tf_Expiry : option Z
}.
Record RBACSecurityFinding := {
  rf_Severity : string; rf_Type : string; rf_Resource : string; rf_Description : string;
  rf_OverlyBroad : bool; rf_Permissions : list string; rf_Remediation : string
}.
Record SecretSecurityFinding := {
  cf_Severity : string; cf_Type : string; cf_Resource : string; cf_Description : string;
  cf_Age : Z; cf_LastRotated : option Z; cf_Remediation : string
}.
Record GeneralSecurityFinding := {
  gf_Severity : string; gf_Type : string; gf_Resource : string; gf_Description : string;
  gf_Remediation : string
}.
Record SecurityRecommendation := {
  rec_Priority : string; rec_Title : string; rec_Description : string; rec_Action : string;
  rec_Impact : string; rec_Effort : string
}.

Record SecurityReport := {
  sr_Timestamp : Z;
  sr_TotalIssues : Z; sr_CriticalIssues : Z; sr_HighIssues : Z; sr_MediumIssues : Z; sr_LowIssues : Z;
  sr_TLSFindings : list TLSSecurityFinding;
  sr_RBACFindings : list RBACSecurityFinding;
  sr_SecretFindings : list SecretSecurityFinding;
  sr_GeneralFindings : list GeneralSecurityFinding;
  sr_Recommendations : list SecurityRecommendation
}.

Record SecurityMonitor := { sm_TLSValidator : TLSValidator; sm_Interval : Z; sm_Namespace : string }.

Definition NewSecurityMonitor (namespace : string) : SecurityMonitor :=
  {| sm_TLSValidator := NewTLSValidator; sm_Interval := 1 * Hour; sm_Namespace := namespace |}.

(** ** Helpers *)

Section Monitor.
  Context {L : Lib}.

(** A name contains one of the patterns, whatever the case of its letters. *)
Definition name_like (patterns : list string) (name : string) : bool :=
  existsb (Contains (ToLower name)) patterns.

Definition isBeskar7Related (name : string) : bool :=
  name_like ["beskar7"; "manager-role"; "controller"; "infrastructure.cluster.x-k8s.io"] name.

Definition isCredentialSecret (secret : Secret) : bool :=
  match sec_Data secret !! "username" with
  | Some _ => true
  | None =>
      match sec_Data secret !! "password" with
      | Some _ => true
      | None => name_like ["credential"; "cred"; "bmc"; "redfish"; "auth"] (om_Name (sec_Meta secret))
      end
  end.

Definition extractPermissions (role : ClusterRole) : list string :=
  cr_Rules role ≫= fun rule => pr_Verbs rule ≫= fun verb =>
    (fun resource => verb +:+ ":" +:+ resource) <$> pr_Resources rule.

(** ** scanPhysicalHostsTLS *)

Definition host_resource (host : PhysicalHost) : string := "PhysicalHost/" +:+ ph_Name host.

Definition skip_verify_findings (host : PhysicalHost) : list TLSSecurityFinding :=
  match rc_InsecureSkipVerify (pspec_RedfishConnection (ph_Spec host)) with
  | Some true =>
      [{| tf_Severity := "MEDIUM"; tf_Type := "InsecureSkipVerify"; tf_Resource := host_resource host;
          tf_Description := "TLS certificate verification is disabled";
          tf_Details := "insecureSkipVerify is set to true";
          tf_Remediation := "Configure proper TLS certificates or use a custom CA bundle"; tf_Expiry := None |}]
  | _ => []
  end.

Definition endpoint_findings (host : PhysicalHost) (result : ValidationResult) : list TLSSecurityFinding :=
  let details := "Endpoint: " +:+ rc_Address (pspec_RedfishConnection (ph_Spec host)) in
  ((fun warning =>
      {| tf_Severity := "LOW"; tf_Type := "TLSWarning"; tf_Resource := host_resource host;
         tf_Description := warning; tf_Details := details;
         tf_Remediation := "Review certificate configuration"; tf_Expiry := vr_Expiry result |})
     <$> vr_Warnings result) ++
  ((fun err =>
      {| tf_Severity := if vr_IsSelfSigned result then SeverityMedium else SeverityHigh; tf_Type := "TLSError";
         tf_Resource := host_resource host; tf_Description := err; tf_Details := details;
         tf_Remediation := "Fix certificate configuration or use proper CA-signed certificates";
         tf_Expiry := vr_Expiry result |})
     <$> vr_Errors result).

Fixpoint hosts_loop (v : TLSValidator) (items : list PhysicalHost) (acc : list TLSSecurityFinding)
  : prog Sec (list TLSSecurityFinding) :=
  match items with
  | [] => Ret acc
  | host :: items' =>
      let acc := acc ++ skip_verify_findings host in
      let address := rc_Address (pspec_RedfishConnection (ph_Spec host)) in
      if negb (address ==s "") then
        let! result := ValidateTLSEndpoint v address in
        hosts_loop v items' (acc ++ endpoint_findings host result)
      else hosts_loop v items' acc
  end.

(** A scan appends to the findings made so far and may fail as a whole. *)
Definition scanPhysicalHostsTLS (m : SecurityMonitor) (findings : list TLSSecurityFinding)
  : prog Sec (list TLSSecurityFinding * option error) :=
  let! hosts := @call Sec (SListHosts (sm_Namespace m)) in
  match hosts with
  | Err err => Ret (findings, Some (ErrWrap "failed to list PhysicalHosts" err))
  | Ok items => let! fs := hosts_loop (sm_TLSValidator m) items findings in Ret (fs, None)
  end.

(** ** scanRBACConfigurations *)

Definition role_findings (role : ClusterRole) : list RBACSecurityFinding :=
  let result := ValidateClusterRole role in
  ((fun finding =>
      {| rf_Severity := sf_Severity finding; rf_Type := sf_Type finding;
         rf_Resource := "ClusterRole/" +:+ cr_Name role; rf_Description := sf_Description finding;
         rf_OverlyBroad := (sf_Type finding ==s "ClusterAdminEquivalent") || (sf_Type finding ==s "OverlyBroadVerbs");
         rf_Permissions := extractPermissions role; rf_Remediation := sf_Remediation finding |})
     <$> rr_SecurityFindings result) ++
  ((fun rule =>
      {| rf_Severity := ob_Severity rule; rf_Type := "OverlyBroadRule";
         rf_Resource := "ClusterRole/" +:+ cr_Name role; rf_Description := ob_Reason rule;
         rf_OverlyBroad := true; rf_Permissions := ob_APIGroups rule ++ ob_Resources rule ++ ob_Verbs rule;
         rf_Remediation := "Apply principle of least privilege" |})
     <$> rr_OverlyBroadRules result).

Fixpoint roles_loop (items : list ClusterRole) (acc : list RBACSecurityFinding) : list RBACSecurityFinding :=
  match items with
  | [] => acc
  | role :: items' =>
      if negb (isBeskar7Related (cr_Name role)) then roles_loop items' acc
      else roles_loop items' (acc ++ role_findings role)
  end.

Definition scanRBACConfigurations (findings : list RBACSecurityFinding)
  : prog Sec (list RBACSecurityFinding * option error) :=
  let! roles := @call Sec SListClusterRoles in
  match roles with
  | Err err => Ret (findings, Some (ErrWrap "failed to list ClusterRoles" err))
  | Ok items => Ret (roles_loop items findings, None)
  end.

(** ** scanSecrets *)

Definition secret_findings (secret : Secret) (age : Z) : list SecretSecurityFinding :=
  let resource := "Secret/" +:+ om_Name (sec_Meta secret) in
  let rotated := Some (om_CreationTimestamp (sec_Meta secret)) in
  let finding severity type description last remediation :=
    {| cf_Severity := severity; cf_Type := type; cf_Resource := resource; cf_Description := description;
       cf_Age := age; cf_LastRotated := last; cf_Remediation := remediation |} in
  (if 90 * 24 * Hour <? age then
     [finding "MEDIUM" "OldCredentials" "Credential secret is older than 90 days" rotated
        "Rotate credentials regularly (recommended: every 90 days)"] else [])
  ++ (if 365 * 24 * Hour <? age then
        [finding SeverityHigh "VeryOldCredentials" "Credential secret is older than 1 year" rotated
           "Rotate credentials immediately"] else [])
  ++ match sec_Data secret !! "username" with
     | None => [finding SeverityHigh "MissingUsername" "Credential secret missing username field" None
                  "Ensure secret contains required 'username' field"]
     | Some _ => []
     end
  ++ match sec_Data secret !! "password" with
     | None => [finding SeverityHigh "MissingPassword" "Credential secret missing password field" None
                  "Ensure secret contains required 'password' field"]
     | Some _ => []
     end.

Fixpoint secrets_loop (items : list Secret) (acc : list SecretSecurityFinding)
  : prog Sec (list SecretSecurityFinding) :=
  match items with
  | [] => Ret acc
  | secret :: items' =>
      if negb (isCredentialSecret secret) then secrets_loop items' acc
      else
        let! now := @call Sec SNow in
        let age := time_sub now (om_CreationTimestamp (sec_Meta secret)) in
        secrets_loop items' (acc ++ secret_findings secret age)
  end.

Definition scanSecrets (m : SecurityMonitor) (findings : list SecretSecurityFinding)
  : prog Sec (list SecretSecurityFinding * option error) :=
  let! secrets := @call Sec (SListSecrets (sm_Namespace m)) in
  match secrets with
  | Err err => Ret (findings, Some (ErrWrap "failed to list secrets" err))
  | Ok items => let! fs := secrets_loop items findings in Ret (fs, None)
  end.

(** ** generateRecommendations *)

Definition recommendation (b : bool) (r : SecurityRecommendation) : list SecurityRecommendation :=
  if b then [r] else [].

Definition generateRecommendations (r : SecurityReport) : list SecurityRecommendation :=
  sr_Recommendations r
  ++ recommendation (existsb (fun f => tf_Type f ==s "InsecureSkipVerify") (sr_TLSFindings r))
       {| rec_Priority := SeverityHigh; rec_Title := "Disable insecureSkipVerify";
          rec_Description := "Multiple PhysicalHosts have TLS certificate verification disabled";
          rec_Action := "Configure proper TLS certificates or implement a custom CA bundle";
          rec_Impact := "Improves protection against man-in-the-middle attacks"; rec_Effort := "Medium" |}
  ++ recommendation (existsb (fun f => tf_Type f ==s "TLSError") (sr_TLSFindings r))
       {| rec_Priority := SeverityHigh; rec_Title := "Fix TLS Certificate Issues";
          rec_Description := "TLS certificate validation errors found";
          rec_Action := "Review and fix certificate configuration for BMC endpoints";
          rec_Impact := "Ensures secure communication with hardware BMCs"; rec_Effort := "Medium" |}
  ++ recommendation (existsb rf_OverlyBroad (sr_RBACFindings r))
       {| rec_Priority := SeverityCritical; rec_Title := "Reduce RBAC Permissions";
          rec_Description := "Overly broad RBAC permissions detected";
          rec_Action := "Apply principle of least privilege to RBAC configurations";
          rec_Impact := "Significantly reduces attack surface and improves security posture"; rec_Effort := "High" |}
  ++ recommendation (existsb (fun f => (cf_Type f ==s "OldCredentials") || (cf_Type f ==s "VeryOldCredentials"))
                       (sr_SecretFindings r))
       {| rec_Priority := "MEDIUM"; rec_Title := "Implement Credential Rotation";
          rec_Description := "Old credential secrets found that should be rotated";
          rec_Action := "Establish a regular credential rotation schedule (every 90 days)";
          rec_Impact := "Reduces risk from compromised credentials"; rec_Effort := "Medium" |}.

(** ** calculateTotals *)

(** [severityCounts[finding.Severity]++] for each severity of the list. *)
Fixpoint count_severities (counts : gmap string Z) (severities : list string) : gmap string Z :=
  match severities with
  | [] => counts
  | s :: rest => count_severities (<[s := default 0 (counts !! s) + 1]> counts) rest
  end.

Definition severity_counts (r : SecurityReport) : gmap string Z :=
  let counts : gmap string Z :=
    {[ SeverityCritical := 0; SeverityHigh := 0; SeverityMedium := 0; SeverityLow := 0 ]} in
  let counts := count_severities counts (tf_Severity <$> sr_TLSFindings r) in
  let counts := count_severities counts (rf_Severity <$> sr_RBACFindings r) in
  let counts := count_severities counts (cf_Severity <$> sr_SecretFindings r) in
  count_severities counts (gf_Severity <$> sr_GeneralFindings r).

Definition calculateTotals (r : SecurityReport) : SecurityReport :=
  let counts := severity_counts r in
  let n s := default 0 (counts !! s) in
  {| sr_Timestamp := sr_Timestamp r;
     sr_TotalIssues := n SeverityCritical + n SeverityHigh + n SeverityMedium + n SeverityLow;
     sr_CriticalIssues := n SeverityCritical; sr_HighIssues := n SeverityHigh;
     sr_MediumIssues := n SeverityMedium; sr_LowIssues := n SeverityLow;
     sr_TLSFindings := sr_TLSFindings r; sr_RBACFindings := sr_RBACFindings r;
     sr_SecretFindings := sr_SecretFindings r; sr_GeneralFindings := sr_GeneralFindings r;
     sr_Recommendations := sr_Recommendations r |}.

(** ** Events *)

(** [time.Now().Unix()] *)
Definition unix (t : Z) : Z := t / Second.

Definition createSecurityEvent (m : SecurityMonitor) (reason severity resource message : string) : prog Sec unit :=
  let! now := @call Sec SNow in
  let! first := @call Sec SNow in
  let! last := @call Sec SNow in
  @call Sec (SCreateEvent
    {| e_Name := "security-" +:+ ToLower reason +:+ "-" +:+ pretty (unix now); e_Namespace := sm_Namespace m;
       e_Reason := reason; e_Message := "[" +:+ severity +:+ "] " +:+ resource +:+ ": " +:+ message;
       e_Type := "Warning"; e_FirstTimestamp := first; e_LastTimestamp := last; e_Count := 1 |}) ;;!
  Ret tt.

Definition serious (severity : string) : bool :=
  (severity ==s SeverityCritical) || (severity ==s SeverityHigh).

(** The findings that deserve an event: reason, severity, resource, description. *)
Fixpoint events_loop (m : SecurityMonitor) (l : list (string * string * string * string)) : prog Sec unit :=
  match l with
  | [] => Ret tt
  | (reason, severity, resource, description) :: l' =>
      (if serious severity then createSecurityEvent m reason severity resource description else Ret tt) ;;!
      events_loop m l'
  end.

Definition reportFindings (m : SecurityMonitor) (r : SecurityReport) : prog Sec unit :=
  events_loop m ((fun f => ("TLSSecurityIssue", tf_Severity f, tf_Resource f, tf_Description f)) <$> sr_TLSFindings r) ;;!
  events_loop m ((fun f => ("RBACSecurityIssue", rf_Severity f, rf_Resource f, rf_Description f)) <$> sr_RBACFindings r) ;;!
  events_loop m ((fun f => ("SecretSecurityIssue", cf_Severity f, cf_Resource f, cf_Description f)) <$> sr_SecretFindings r).

(** ** runSecurityScan *)

Definition runSecurityScan (m : SecurityMonitor) : prog Sec SecurityReport :=
  let! now := @call Sec SNow in
  let! (tls, _) := scanPhysicalHostsTLS m [] in
  let! (rbac, _) := scanRBACConfigurations [] in
  let! (secrets, _) := scanSecrets m [] in
  let report :=
    {| sr_Timestamp := now; sr_TotalIssues := 0; sr_CriticalIssues := 0; sr_HighIssues := 0;
       sr_MediumIssues := 0; sr_LowIssues := 0; sr_TLSFindings := tls; sr_RBACFindings := rbac;
       sr_SecretFindings := secrets; sr_GeneralFindings := []; sr_Recommendations := [] |} in
  let report :=
    {| sr_Timestamp := now; sr_TotalIssues := 0; sr_CriticalIssues := 0; sr_HighIssues := 0;
       sr_MediumIssues := 0; sr_LowIssues := 0; sr_TLSFindings := tls; sr_RBACFindings := rbac;
       sr_SecretFindings := secrets; sr_GeneralFindings := [];
       sr_Recommendations := generateRecommendations report |} in
  let report := calculateTotals report in
  reportFindings m report ;;!
  Ret report.

(** ** StartMonitoring *)

Definition non_positive_interval := "non-positive interval for NewTicker".

(** At most [fuel] rounds of the loop; [None] if it is still running then. *)
Fixpoint monitor_loop (m : SecurityMonitor) (fuel : nat) : prog Sec (option error) :=
  match fuel with
  | O => Ret None
  | S fuel =>
      let! s := @call Sec SSelect in
      match s with
      | CtxDone err => Ret (Some err)
      | Tick => runSecurityScan m ;;! monitor_loop m fuel
      end
  end.

Definition StartMonitoring (m : SecurityMonitor) (fuel : nat) : prog Sec (option (exit error)) :=
  if sm_Interval m <=? 0 then Ret (Some (Panic non_positive_interval))
  else
    @call Sec (SNewTicker (sm_Interval m)) ;;!
    runSecurityScan m ;;!
    let! r := monitor_loop m fuel in
    match r with
    | Some err => @call Sec SStopTicker ;;! Ret (Some (Done err))
    | None => Ret None
    end.

End Monitor.

(** ** Properties *)

(** *** Totals *)

(** How often [s] occurs. *)
Definition occurrences (s : string) (l : list string) : Z := Z.of_nat (length (filter (fun x => x = s) l)).

Lemma occurrences_cons s x l : occurrences s (x :: l) = (if decide (x = s) then 1 else 0) + occurrences s l.
Proof. unfold occurrences. rewrite filter_cons. destruct (decide (x = s)); simpl; lia. Qed.
Lemma occurrences_app s l l' : occurrences s (l ++ l') = occurrences s l + occurrences s l'.
Proof. unfold occurrences. rewrite filter_app, length_app. lia. Qed.

Lemma count_severities_spec counts l s :
  default 0 (count_severities counts l !! s) = default 0 (counts !! s) + occurrences s l.
Proof.
  revert counts. induction l as [|x l IH]; intros counts; cbn [count_severities].
  - unfold occurrences. simpl. lia.
  - rewrite IH, occurrences_cons. destruct (decide (x = s)) as [->|].
    + rewrite lookup_insert_eq. simpl. lia.
    + rewrite lookup_insert_ne by done. lia.
Qed.

(** The severities of all the findings of a report. *)
Definition severities (r : SecurityReport) : list string :=
  (tf_Severity <$> sr_TLSFindings r) ++ (rf_Severity <$> sr_RBACFindings r) ++
  (cf_Severity <$> sr_SecretFindings r) ++ (gf_Severity <$> sr_GeneralFindings r).

Lemma severity_counts_spec r s : default 0 (severity_counts r !! s) = occurrences s (severities r).
Proof.
  unfold severity_counts, severities. rewrite !count_severities_spec, !occurrences_app.
  assert (default 0 (({[ SeverityCritical := 0; SeverityHigh := 0; SeverityMedium := 0; SeverityLow := 0 ]}
    : gmap string Z) !! s) = 0) as ->; [|lia].
  rewrite !lookup_insert, lookup_singleton. repeat case_decide; done.
Qed.

Definition known_severity (s : string) : Prop :=
  s = SeverityCritical \/ s = SeverityHigh \/ s = SeverityMedium \/ s = SeverityLow.

Lemma known_total l :
  Forall known_severity l ->
  occurrences SeverityCritical l + occurrences SeverityHigh l + occurrences SeverityMedium l
  + occurrences SeverityLow l = Z.of_nat (length l).
Proof.
  induction 1 as [|s l [-> |[-> |[-> | ->]]] _ IH]; [done|..];
    rewrite !occurrences_cons; repeat case_decide; try done; simpl length; lia.
Qed.

(** *** Severities of the findings *)

Record sane (r : RBACValidationResult) : Prop := {
  sane_findings : Forall (fun f => known_severity (sf_Severity f)) (rr_SecurityFindings r);
  sane_broad : Forall (fun b => known_severity (ob_Severity b)) (rr_OverlyBroadRules r)
}.

Lemma sane_add_finding c f r : known_severity (sf_Severity f) -> sane r -> sane (when_add add_finding c f r).
Proof.
  intros Hf [H1 H2]. destruct c; [|by split]. split; [|done].
  apply Forall_app. split; [done|]. by apply Forall_singleton.
Qed.
Lemma sane_add_broad c b r : known_severity (ob_Severity b) -> sane r -> sane (when_add add_broad c b r).
Proof.
  intros Hf [H1 H2]. destruct c; [|by split]. split; [done|].
  apply Forall_app. split; [done|]. by apply Forall_singleton.
Qed.
Lemma sane_add_warning c w r : sane r -> sane (when_add add_rbac_warning c w r).
Proof. intros [H1 H2]. by destruct c. Qed.

Lemma known_critical : known_severity SeverityCritical.
Proof. by left. Qed.
Lemma known_high : known_severity SeverityHigh.
Proof. right. by left. Qed.
Lemma known_medium : known_severity SeverityMedium.
Proof. do 2 right. by left. Qed.
Lemma known_low : known_severity SeverityLow.
Proof. by do 3 right. Qed.

Create HintDb severity.
#[export] Hint Resolve sane_add_finding sane_add_broad sane_add_warning known_critical known_high known_medium
  known_low : severity.
#[export] Hint Extern 1 (known_severity _) => progress cbn [sf_Severity tf_Severity cf_Severity] : severity.
#[export] Hint Extern 1 (known_severity "MEDIUM") => exact known_medium : severity.

Lemma ValidateClusterRole_sane role : sane (ValidateClusterRole role).
Proof.
  assert (forall i rules r, sane r -> sane (rules_loop i rules r)) as H1.
  { intros i rules. revert i. induction rules as [|rule rules IH]; intros i r Hr; cbn [rules_loop]; [done|].
    apply IH. unfold validateRule. auto 10 with severity. }
  assert (forall i rules c b r, sane r -> sane (broad_loop i rules c b r).2) as H2.
  { intros i rules. revert i. induction rules as [|rule rules IH]; intros i c b r Hr; cbn [broad_loop]; [done|].
    apply IH. auto 10 with severity. }
  assert (forall i rules s n e r, sane r -> sane (dangerous_loop i rules s n e r).2) as H3.
  { intros i rules. revert i. induction rules as [|rule rules IH]; intros i s n e r Hr; cbn [dangerous_loop]; [done|].
    apply IH. auto 10 with severity. }
  assert (sane empty_rbac_result) as H0 by (by split; constructor).
  unfold ValidateClusterRole, checkDangerousPermissions, checkOverlyBroadPermissions.
  specialize (H1 0%nat (cr_Rules role) _ H0). specialize (H2 0%nat (cr_Rules role) false false _ H1).
  destruct (broad_loop _ _ _ _ _) as [[c b] r]. cbn [snd] in H2.
  set (r' := when_add add_finding (c && b) _ r).
  assert (sane r') as Hr' by (apply sane_add_finding; auto with severity).
  specialize (H3 0%nat (cr_Rules role) false false false _ Hr').
  destruct (dangerous_loop _ _ _ _ _ _) as [[[s n] e] r2]. cbn [snd] in H3.
  assert (forall v r, sane r -> sane (set_rr_Valid v r)) as Hv by (by intros v r0 []).
  apply Hv. auto 10 with severity.
Qed.

Section MonitorProperties.
  Context {L : Lib}.

Lemma roles_loop_known items acc :
  Forall (fun f => known_severity (rf_Severity f)) acc ->
  Forall (fun f => known_severity (rf_Severity f)) (roles_loop items acc).
Proof.
  revert acc. induction items as [|role items IH]; intros acc H; cbn [roles_loop]; [done|].
  destruct (negb _); [by apply IH|]. apply IH, Forall_app. split; [done|].
  destruct (ValidateClusterRole_sane role) as [H1 H2].
  apply Forall_app. split; by apply Forall_fmap.
Qed.

Lemma secrets_loop_known tr items acc :
  Forall (fun f => known_severity (cf_Severity f)) acc ->
  wp anything tr (secrets_loop items acc) (fun _ fs => Forall (fun f => known_severity (cf_Severity f)) fs).
Proof.
  revert tr acc. induction items as [|secret items IH]; intros tr acc H; cbn [secrets_loop]; [by apply wp_ret|].
  destruct (negb _); [by apply IH|]. wp_step; [done|]. apply IH, Forall_app. split; [done|].
  unfold secret_findings. repeat apply Forall_app_2; repeat split_goal;
    repeat first [apply Forall_nil_2 | apply Forall_cons_2]; auto with severity.
Qed.

Lemma hosts_loop_known tr v items acc :
  Forall (fun f => known_severity (tf_Severity f)) acc ->
  wp anything tr (hosts_loop v items acc) (fun _ fs => Forall (fun f => known_severity (tf_Severity f)) fs).
Proof.
  revert tr acc. induction items as [|host items IH]; intros tr acc H; cbn [hosts_loop]; [by apply wp_ret|].
  assert (Forall (fun f => known_severity (tf_Severity f)) (acc ++ skip_verify_findings host)) as H'.
  { apply Forall_app. split; [done|]. unfold skip_verify_findings.
    repeat split_goal;
    repeat first [apply Forall_nil_2 | apply Forall_cons_2]; auto with severity. }
  destruct (negb _); [|by apply IH].
  eapply wp_seq; [by apply wp_always|].
  intros tr' result _ _. apply IH, Forall_app. split; [done|]. unfold endpoint_findings.
  apply Forall_app_2; apply Forall_fmap, Forall_true; intros; cbn; [auto with severity|].
  destruct (vr_IsSelfSigned result); auto with severity.
Qed.

(** The totals of a scan.  Each counter is the number of findings of its
    severity, and the total is the number of all findings: no finding has a
    severity that is not counted. *)
Theorem scan_totals m :
  post (runSecurityScan m) (fun _ r =>
    sr_CriticalIssues r = occurrences SeverityCritical (severities r) /\
    sr_HighIssues r = occurrences SeverityHigh (severities r) /\
    sr_MediumIssues r = occurrences SeverityMedium (severities r) /\
    sr_LowIssues r = occurrences SeverityLow (severities r) /\
    sr_TotalIssues r = Z.of_nat (length (severities r))).
Proof.
  unfold runSecurityScan. wp_step; [done|].
  eapply wp_seq with (Q := fun _ x => Forall (fun f => known_severity (tf_Severity f)) x.1).
  { unfold scanPhysicalHostsTLS. repeat wp_step; try done.
    eapply wp_seq; [by apply hosts_loop_known|]. intros. by apply wp_ret. }
  intros tr1 [tls e1] _ H1. cbv beta iota zeta.
  eapply wp_seq with (Q := fun _ x => Forall (fun f => known_severity (rf_Severity f)) x.1).
  { unfold scanRBACConfigurations. repeat wp_step; try done. by apply roles_loop_known. }
  intros tr2 [rbac e2] _ H2. cbv beta iota zeta.
  eapply wp_seq with (Q := fun _ x => Forall (fun f => known_severity (cf_Severity f)) x.1).
  { unfold scanSecrets. repeat wp_step; try done.
    eapply wp_seq; [by apply secrets_loop_known|]. intros. by apply wp_ret. }
  intros tr3 [secrets e3] _ H3. cbv beta iota zeta.
  eapply wp_seq; [by apply wp_always|]. intros tr4 u _ _. apply wp_ret.
  cbn [sr_CriticalIssues sr_HighIssues sr_MediumIssues sr_LowIssues sr_TotalIssues calculateTotals].
  rewrite !severity_counts_spec. split_and!; try done. apply known_total.
  unfold severities. cbn. repeat apply Forall_app_2; by apply Forall_fmap || apply Forall_nil_2.
Qed.

(** *** Events *)

(** The events for which a create call is made. *)
Definition created_by (e : event Sec) : list Event :=
  match ev_action e with SCreateEvent ev => [ev] | _ => [] end.

Definition no_events (tr : list (event Sec)) (a : action Sec) : Prop :=
  match a with
  | SNow | STlsDial _ _ _ | STlsClose | SListHosts _ | SListClusterRoles | SListSecrets _ => True
  | _ => False
  end.

Lemma wp_no_events {A} (p : prog Sec A) tr :
  safe no_events tr p -> wp anything tr p (fun tr' _ => tr' ≫= created_by = tr ≫= created_by).
Proof. intros H. apply wp_unseen. eapply wp_weaken; [|exact H]. by intros tr' [] ?. Qed.

(** The findings of [l] of severity CRITICAL or HIGH. *)
Definition announcements (l : list (string * string * string * string)) : list (string * string * string * string) :=
  filter (fun '(_, severity, _, _) => severity = "CRITICAL" \/ severity = "HIGH") l.

(** The findings of a report that are announced: reason, severity, resource,
    description. *)
Definition announced (r : SecurityReport) : list (string * string * string * string) :=
  announcements ((fun f => ("TLSSecurityIssue", tf_Severity f, tf_Resource f, tf_Description f)) <$> sr_TLSFindings r)
  ++ announcements ((fun f => ("RBACSecurityIssue", rf_Severity f, rf_Resource f, rf_Description f)) <$> sr_RBACFindings r)
  ++ announcements ((fun f => ("SecretSecurityIssue", cf_Severity f, cf_Resource f, cf_Description f)) <$> sr_SecretFindings r).

(** The event for a finding.  Its name has the reason and the second [now] is in. *)
Definition announces (m : SecurityMonitor) (e : Event) (x : string * string * string * string) : Prop :=
  let '(reason, severity, resource, description) := x in
  e_Namespace e = sm_Namespace m /\ e_Reason e = reason /\ e_Type e = "Warning" /\ e_Count e = 1 /\
  e_Message e = "[" +:+ severity +:+ "] " +:+ resource +:+ ": " +:+ description /\
  exists now, e_Name e = "security-" +:+ ToLower reason +:+ "-" +:+ pretty (now / 1000000000).

Lemma serious_severity severity : serious severity = true <-> severity = "CRITICAL" \/ severity = "HIGH".
Proof. unfold serious. by rewrite orb_true_iff, !eqb_true. Qed.

Lemma events_loop_created tr m l :
  wp anything tr (events_loop m l) (fun tr' _ =>
    exists es, tr' ≫= created_by = (tr ≫= created_by) ++ es /\ Forall2 (announces m) es (announcements l)).
Proof.
  revert tr. induction l as [|[[[reason severity] resource] description] l IH]; intros tr; cbn [events_loop].
  - apply wp_ret. exists []. split; [by rewrite app_nil_r|apply Forall2_nil_2].
  - unfold announcements. rewrite filter_cons. destruct (serious severity) eqn:Hs.
    + rewrite decide_True by by apply serious_severity. unfold createSecurityEvent. wp_steps; [done..|].
      eapply wp_mono; [apply IH|]. intros tr' u' _ (es & -> & Hes). rewrite !bind_app.
      eexists (_ :: es). split; [cbn; by rewrite !app_nil_r, <- app_assoc|]. apply Forall2_cons_2; [|done].
      split_and!; try done. by eexists.
    + rewrite decide_False; [cbn [bind]; apply IH|]. intros H%serious_severity. congruence.
Qed.

Lemma hosts_loop_quiet tr v items acc : safe no_events tr (hosts_loop v items acc).
Proof.
  unfold safe. revert tr acc. induction items as [|host items IH]; intros tr acc; cbn [hosts_loop]; [by apply wp_ret|].
  destruct (negb _); [|apply IH]. eapply wp_seq with (Q := fun _ _ => True); [|intros; apply IH].
  unfold ValidateTLSEndpoint. wp_steps; done.
Qed.
Lemma secrets_loop_quiet tr items acc : safe no_events tr (secrets_loop items acc).
Proof.
  unfold safe. revert tr acc. induction items as [|secret items IH]; intros tr acc; cbn [secrets_loop]; [by apply wp_ret|].
  destruct (negb _); [apply IH|]. wp_step; [done|apply IH].
Qed.
Lemma scanPhysicalHostsTLS_quiet tr m fs : safe no_events tr (scanPhysicalHostsTLS m fs).
Proof. unfold safe, scanPhysicalHostsTLS. repeat wp_step; try done. eapply wp_seq; [apply hosts_loop_quiet|done]. Qed.
Lemma scanRBACConfigurations_quiet tr fs : safe no_events tr (scanRBACConfigurations fs).
Proof. unfold safe, scanRBACConfigurations. repeat wp_step; done. Qed.
Lemma scanSecrets_quiet tr m fs : safe no_events tr (scanSecrets m fs).
Proof. unfold safe, scanSecrets. repeat wp_step; try done. eapply wp_seq; [apply secrets_loop_quiet|done]. Qed.


(** *** The loop *)

(** What the monitoring loop does, in order. *)
Inductive loop_event := LTicker (d : Z) | LScan (ns : string) | LSelect (s : selected) | LStop.
Definition loop_by (e : event Sec) : list loop_event :=
  match e with
  | Ev a r =>
      match a return sec_answer a -> list loop_event with
      | SNewTicker d => fun _ => [LTicker d]
      | SListHosts ns => fun _ => [LScan ns]
      | SSelect => fun s => [LSelect s]
      | SStopTicker => fun _ => [LStop]
      | _ => fun _ => []
      end r
  end.

Definition in_scan (tr : list (event Sec)) (a : action Sec) : Prop :=
  match a with SNewTicker _ | SSelect | SStopTicker | SListHosts _ => False | _ => True end.
Lemma wp_in_scan {A} (p : prog Sec A) tr :
  safe in_scan tr p -> wp anything tr p (fun tr' _ => tr' ≫= loop_by = tr ≫= loop_by).
Proof. intros H. apply wp_unseen. eapply wp_weaken; [|exact H]. by intros tr' [] ?. Qed.

Lemma hosts_loop_in_scan tr v items acc : safe in_scan tr (hosts_loop v items acc).
Proof.
  unfold safe. revert tr acc. induction items as [|host items IH]; intros tr acc; cbn [hosts_loop]; [by apply wp_ret|].
  destruct (negb _); [|apply IH]. eapply wp_seq with (Q := fun _ _ => True); [|intros; apply IH].
  unfold ValidateTLSEndpoint. wp_steps; done.
Qed.
Lemma secrets_loop_in_scan tr items acc : safe in_scan tr (secrets_loop items acc).
Proof.
  unfold safe. revert tr acc. induction items as [|secret items IH]; intros tr acc; cbn [secrets_loop]; [by apply wp_ret|].
  destruct (negb _); [apply IH|]. wp_step; [done|apply IH].
Qed.
Lemma events_loop_in_scan tr m l : safe in_scan tr (events_loop m l).
Proof.
  unfold safe. revert tr. induction l as [|[[[reason severity] resource] description] l IH]; intros tr; cbn [events_loop];
    [by apply wp_ret|]. destruct (serious severity); [|cbn [bind]; apply IH].
  unfold createSecurityEvent. wp_steps; [done..|apply IH].
Qed.

(** A scan lists the hosts of its namespace once. *)
Lemma scan_once tr m :
  wp anything tr (runSecurityScan m) (fun tr' _ => tr' ≫= loop_by = (tr ≫= loop_by) ++ [LScan (sm_Namespace m)]).
Proof.
  unfold runSecurityScan. wp_step; [done|].
  eapply wp_seq with (Q := fun tr' _ => tr' ≫= loop_by = (tr ≫= loop_by) ++ [LScan (sm_Namespace m)]).
  - unfold scanPhysicalHostsTLS. wp_step; [done|]. wp_step.
    + eapply wp_seq; [apply wp_in_scan, hosts_loop_in_scan|]. intros tr' fs _ H. apply wp_ret.
      rewrite H, !bind_app. cbn. by rewrite app_nil_r.
    + apply wp_ret. rewrite !bind_app. cbn. by rewrite app_nil_r.
  - intros tr' [tls e] _ H. cbv beta iota zeta. eapply wp_mono; [apply wp_in_scan|by intros tr'' x _ ->].
    unfold safe, scanRBACConfigurations, scanSecrets, reportFindings. wp_steps; try done.
    all: try (eapply wp_mono; [apply secrets_loop_in_scan|]; intros tr2 x _ _; wp_steps).
    all: repeat (eapply wp_mono; [apply events_loop_in_scan|]; intros; wp_steps); done.
Qed.

(** [k] rounds of the loop. *)
Definition rounds (ns : string) (k : nat) : list loop_event := mjoin (replicate k [LSelect Tick; LScan ns]).

Lemma monitor_loop_rounds tr m fuel :
  wp anything tr (monitor_loop m fuel) (fun tr' r => exists k,
    tr' ≫= loop_by = (tr ≫= loop_by) ++ rounds (sm_Namespace m) k ++
      match r with Some err => [LSelect (CtxDone err)] | None => [] end /\
    match r with Some _ => (k < fuel)%nat | None => k = fuel end).
Proof.
  revert tr. induction fuel as [|fuel IH]; intros tr; cbn [monitor_loop].
  { apply wp_ret. exists 0%nat. by rewrite app_nil_r. }
  wp_step; [done|]. destruct r as [err|].
  - apply wp_ret. exists 0%nat. rewrite bind_app. split; [done|lia].
  - eapply wp_seq; [apply scan_once|]. intros tr1 rep _ H1. eapply wp_mono; [apply IH|].
    intros tr2 res _ (k & H2 & Hk). exists (S k). split; [|destruct res; lia].
    rewrite H2, H1, bind_app. cbn. by rewrite <- !app_assoc.
Qed.

(** C26: the monitoring loop.  With a positive interval it scans once at the start
    and once for every tick, and nothing else; it goes on until the [select]
    finds the context done, and then returns the error of the context and stops
    the ticker.  However many rounds are allowed, it has not returned only if it
    has run them all.  It panics exactly when the interval is not positive, before
    the first scan. *)
Theorem monitoring_loop m fuel :
  post (StartMonitoring m fuel) (fun tr x => exists k,
    match x with
    | Some (Panic msg) => sm_Interval m <= 0 /\ msg = "non-positive interval for NewTicker" /\ tr = []
    | Some (Done err) => 0 < sm_Interval m /\ (k < fuel)%nat /\
        tr ≫= loop_by = [LTicker (sm_Interval m); LScan (sm_Namespace m)] ++ rounds (sm_Namespace m) k ++
                        [LSelect (CtxDone err); LStop]
    | None => 0 < sm_Interval m /\ k = fuel /\
        tr ≫= loop_by = [LTicker (sm_Interval m); LScan (sm_Namespace m)] ++ rounds (sm_Namespace m) k
    end).
Proof.
  unfold StartMonitoring. destruct (Z.leb_spec (sm_Interval m) 0); [apply wp_ret; by exists 0%nat|].
  wp_step; [done|]. eapply wp_seq; [apply scan_once|]. intros tr1 rep _ H1.
  eapply wp_seq; [apply monitor_loop_rounds|]. intros tr2 res _ (k & H2 & Hk). destruct res as [err|]; wp_steps; try done.
  - exists k. split_and!; [done..|]. rewrite bind_app, H2, H1. cbn. by rewrite <- app_assoc.
  - exists fuel. split_and!; [done..|]. by rewrite H2, H1, app_nil_r.
Qed.

End MonitorProperties.
